(* ===== verification/_CoqProject ===== *)
-Q . S2P
Prelude.v
Console.v
Keyboard.v
Allocator.v
Heap.v
Task.v
Sched.v
Interrupts.v
Multitask.v
FsLayout.v
Disk.v
Ata.v
Dirent.v
Fat.v
ChainMap.v
Directory.v
RootDir.v
DirView.v
Path.v
Fs.v
Tree.v
Walk.v
FsView.v
FsCreate.v
FsData.v
FsFile.v
FsWrite.v
FsRead.v
FsAppend.v
FsDelete.v
FsRename.v
FsMkdir.v
FsRmdir.v
FsInit.v
FsQuery.v
Space.v
FsReach.v
FsProps.v
Shell.v
ShellSafe.v
System.v
Boot.v
ShellProps.v
