(* ===== verification/Prelude.v ===== *)
(** * A verification library for RinkOS

    RinkOS is a small 32-bit x86 kernel in C: a text console, a keyboard
    driver, a heap, preemptive tasks, a FAT16-like file system on an ATA disk,
    and a shell.  This library models its C code, function by function, as
    executable definitions with the names of the source, and proves what makes
    each part correct and that the parts work together.

    ** The program and the files

    All paths are under [src/kernel/].  A file comes after the files it needs.

    - Prelude.v (this file): machine integers, C strings and arrays as lists,
      code as functions from a state to an optional state ([andthen], written
      with a semicolon and an angle bracket, and [keeps]), hints and lemmas.
    - Console.v: [kernel.c], the VGA text page, the cursor and its port writes,
      [kprint], [kprint_hex32]; [kprint_uint] of [shell.c].
    - Keyboard.v: [keyboard.c], the scancode tables, the modifiers and the ring
      buffer between the interrupt handler and the shell.
    - Allocator.v: the class [Allocator], what the heap promises its clients.
      Heap.v: [mm.c], the block list in memory, [kmalloc], [kfree], statistics,
      the memory map; it implements the class.
    - Task.v: [task.c] and [task_switch] of [interrupts.asm]: the table, the
      stacks as words in memory, the registers.  Sched.v: the abstract machine
      of suspended contexts, the refinement, runs of the system.
    - Interrupts.v: [timer.c], [idt.c], [pic.c]; the 8259 chips are an instance
      of the class [Pic].  Multitask.v: a concrete run on the kernel's heap.
    - FsLayout.v ([scr/fs.h]), Disk.v (a disk as an array of sectors), Ata.v
      ([disk.c] on the ports of [io.c], refining Disk.v; the drive is an
      instance of the class [AtaDrive]).
    - Dirent.v, Fat.v, Directory.v, Path.v, Fs.v: [fs.c] from the packed entries
      to the public operations.  ChainMap.v, RootDir.v, DirView.v, Tree.v,
      Walk.v, FsView.v: the abstract view of a volume (chains of clusters, lists
      of entries, the tree of directories, what a name denotes) and its
      invariant [fs_ok].  FsData.v, FsFile.v: the cluster loops and the entry
      update that the operations share.  FsCreate.v, FsWrite.v, FsRead.v,
      FsAppend.v, FsDelete.v, FsRename.v, FsMkdir.v, FsRmdir.v, FsInit.v,
      FsQuery.v, Space.v: the specification of each operation on that view.
      FsReach.v: reachable states.  FsProps.v: the properties for users of the file system.
    - Shell.v: [shell.c], with [reboot] of [kernel.c]: every command, the
      history, the dispatch, the line editor and its loop.  ShellSafe.v: the
      invariant of the whole kernel, kept by every command.  System.v: the
      shell's loop interleaved with the interrupts.  Boot.v: [kernel_main],
      [kernel] and [shell_task] of [kernel.c].  ShellProps.v: the properties of
      the shell.

    ** State and operations

    Each component's statics are a record ([console], [kbd], [heap], [sched],
    [timer], [fs_state], and [kernel] for all of them with the shell's own), and
    each C function is a function on it that returns the C result and the new
    state.  [None] stands for what the C code must not do: a loop that does not
    end within the fuel, a division by zero, a wild pointer, and a store outside
    an array where the index depends on data ([zstore] and [copy_bytes]: the
    sector buffers of [fs_write] and [fs_append], the buffer of [cat], the line
    buffer, the digit buffers); so a theorem that an operation returns says that
    it does none of these.  The other stores are written with [zset], which
    leaves the array alone when the index is outside: their index is a constant,
    a remainder, or guarded in the code itself (names, ring buffer, table
    sectors, history, descriptor table), or an invariant bounds it
    ([console_ok] and [vga_putchar_safe] for the page, [fs_ok] for the root
    directory).  Error codes are the C values.  What a function prints is either
    printed on the console of the state, or the text it hands to [kprint].

    ** Theorems

    - File system: in every state reached from power-on the volume is
      consistent and every operation returns ([fs_reachable_consistent]); what
      is written is read, and other files are left alone; append, rename,
      delete, directories, remounting, bounds, statistics.
    - Disk driver: [ata_refines_disk], on every drive that follows the protocol
      and works; on one that reports an error the driver hangs
      ([ata_error_hangs]).
    - Heap: no two blocks overlap, first fit, nothing leaks, exact statistics.
    - Tasks: the scheduler refines a round robin of contexts, every task gets
      its turn and resumes where it was, killed tasks stay dead.
    - Devices: the keyboard is a bounded queue of typed characters, the console
      is a scrolling terminal that stays inside its page, the clock counts
      seconds and its divisor is right from 19 Hz on, enabled interrupt lines
      lead to handlers.
    - The whole: [boot_establishes] takes the machine from power-on to the loop
      of the shell with every invariant in force; [system_safe] keeps them under
      any interleaving of keys, ticks, other tasks and commands, and shows that
      every round of the loop comes to an end, up to the spawn that has no
      number left ([spawn_numbers]); [run_command_dispatch] and
      [shell_line_editing] compare the shell with reference definitions.

    ** Fuel and bounds

    Loops that follow links carry fuel: [HEAP_FUEL] is 65536, more than the
    headers of 12 bytes that fit below 0x90000; directory and chain walks have
    more rounds than the volume has clusters, and the consistency of the volume
    bounds them; the path walk has the length of the path; a wait loop of the
    disk driver has a bound that the theorem takes from the drive.  Integers
    that can wrap are written with [u8], [u16], [u32] and [i32].  Signed
    overflow, which C leaves undefined, is taken to wrap ([kill_id_wraps]).

    ** Assumptions

    Strings come from the keyboard: seven-bit characters, lines of at most 257.
    The ATA drive, the interrupt controllers and the status port of the keyboard
    controller are hardware; their classes and arguments state the documented
    protocols, and concrete instances show that they can hold.  A command of
    the shell is one step of System.v: interrupts come between commands, and
    what they change (the keyboard's buffer, the clock, the task table) is
    changed there.  A spawn whose stack does not fit into the heap is left out
    of the runs, because the code does not notice it ([task_create_unchecked]).
    Boot.v lets [kernel] finish mounting before the shell runs; that the code
    does not wait is shown to lose data by [early_command_loses].

    ** Not modelled

    The boot loader and the entry stub ([boot/boot.asm], [kernel_entry.asm]) and
    the linker script: real-mode assembly and memory layout; the addresses they
    provide are arguments.  The instructions [sti], [cli], [hlt] and [lidt] have
    no state here beyond the interrupt flag of Boot.v, and the triple fault that
    [reboot] falls back on comes after the reset it requests.  The Makefile and
    the documents hold no program logic. *)
From stdpp Require Export base list gmap strings fin_maps.
From Stdlib Require Export ZArith Lia.

#[global] Open Scope Z_scope.

(** ** Machine-width integers

    A C [uint8_t], [uint16_t] or [uint32_t] is a [Z]; the conversion to the
    width is written out where the C code converts or may wrap. *)

Definition u8 (x : Z) : Z := x mod 256.
Definition u16 (x : Z) : Z := x mod 65536.
Definition u32 (x : Z) : Z := x mod 4294967296.

(** A C [int] computed in two's complement. *)
Definition i32 (x : Z) : Z := (x + 2147483648) mod 4294967296 - 2147483648.

Definition is_u8 (x : Z) : Prop := 0 ≤ x < 256.
Definition is_u16 (x : Z) : Prop := 0 ≤ x < 65536.
Definition is_u32 (x : Z) : Prop := 0 ≤ x < 4294967296.

(** ** Arrays and C strings

    Arrays are lists.  A C string is the list of the character values before
    its terminator; reading at or past the end of the list reads the NUL. *)

Abbreviation cstr := (list Z) (only parsing).

Definition NUL : Z := 0.

Definition znth (l : list Z) (i : Z) : Z := nth (Z.to_nat i) l 0.
Definition zset {A} (l : list A) (i : Z) (x : A) : list A := <[Z.to_nat i := x]> l.
Definition ztake {A} (n : Z) (l : list A) : list A := take (Z.to_nat n) l.
Definition zdrop {A} (n : Z) (l : list A) : list A := drop (Z.to_nat n) l.
Definition zlen {A} (l : list A) : Z := Z.of_nat (length l).

(** A store whose index depends on data: [None] outside the array. *)
Definition zstore {A} (l : list A) (i : Z) (x : A) : option (list A) :=
  if (0 <=? i) && (i <? zlen l) then Some (zset l i x) else None.

(** Character codes of a literal string. *)
Fixpoint str (s : string) : cstr :=
  match s with
  | EmptyString => []
  | String a s' => Z.of_N (Ascii.N_of_ascii a) :: str s'
  end.

(** The [while (s[len]) len++] loop. *)
Fixpoint strlen (s : cstr) : Z :=
  match s with
  | [] => 0
  | c :: s' => if c =? 0 then 0 else 1 + strlen s'
  end.

(** The characters [kprint] prints of a string: those before its terminator. *)
Fixpoint printed (s : cstr) : cstr :=
  match s with
  | [] => []
  | c :: s' => if c =? 0 then [] else c :: printed s'
  end.

(** A well-formed C string: no NUL among its characters, all of them bytes. *)
Definition is_cstr (s : cstr) : Prop := Forall (λ c, 0 < c < 256) s.

(** ** Programs on a state

    A piece of code that changes the state [S] is a function to [option S];
    [None] is a fault, or a loop that has not ended. *)

Declare Scope rink_scope.
Delimit Scope rink_scope with rink.

Definition andthen {S} (f g : S → option S) : S → option S := λ s, f s ≫= g.

Infix ";>" := andthen (at level 61, left associativity) : rink_scope.
#[global] Open Scope rink_scope.

(** [f] returns, and keeps the invariant [P]. *)
Definition keeps {S} (P : S → Prop) (f : S → option S) : Prop :=
  ∀ s, P s → ∃ s', f s = Some s' ∧ P s'.

(** ** Automation *)

Create HintDb rink discriminated.
#[export] Hint Constants Opaque : rink.
Create Rewrite HintDb rink.

Ltac bool_to_prop :=
  repeat match goal with
  | H : context [?x =? ?y] |- _ => destruct (Z.eqb_spec x y)
  | |- context [?x =? ?y] => destruct (Z.eqb_spec x y)
  | H : context [?x <? ?y] |- _ => destruct (Z.ltb_spec x y)
  | |- context [?x <? ?y] => destruct (Z.ltb_spec x y)
  | H : context [?x <=? ?y] |- _ => destruct (Z.leb_spec x y)
  | |- context [?x <=? ?y] => destruct (Z.leb_spec x y)
  end.

(** Case analysis on the boolean comparisons and [if]s of the goal. *)
Ltac zify_bool := bool_to_prop; cbn [negb andb orb] in *; try lia; try done.

Lemma keeps_andthen {S} (P : S → Prop) f g : keeps P f → keeps P g → keeps P (f ;> g).
Proof.
  intros Hf Hg s (s1 & H1 & HP)%Hf. destruct (Hg s1 HP) as (s2 & H2 & HP2).
  exists s2. split; [| done]. unfold andthen. by rewrite H1.
Qed.

Lemma keeps_some {S} (P : S → Prop) : keeps P Some.
Proof. intros s Hs. by exists s. Qed.

Lemma keeps_if {S} (P : S → Prop) (b : bool) f g :
  keeps P f → keeps P g → keeps P (if b then f else g).
Proof. by destruct b. Qed.

#[export] Hint Resolve keeps_andthen keeps_some keeps_if : rink.

(** ** Arithmetic lemmas *)

Lemma u8_small x : is_u8 x → u8 x = x.
Proof. apply Z.mod_small. Qed.
Lemma u16_small x : is_u16 x → u16 x = x.
Proof. apply Z.mod_small. Qed.
Lemma u32_small x : is_u32 x → u32 x = x.
Proof. apply Z.mod_small. Qed.
Lemma is_u8_u8 x : is_u8 (u8 x).
Proof. by apply Z.mod_pos_bound. Qed.
Lemma is_u16_u16 x : is_u16 (u16 x).
Proof. by apply Z.mod_pos_bound. Qed.
Lemma is_u32_u32 x : is_u32 (u32 x).
Proof. by apply Z.mod_pos_bound. Qed.

Lemma is_u8_lo x : is_u8 (x mod 256).
Proof. by apply Z.mod_pos_bound. Qed.
Lemma is_u8_hi x : is_u16 x → is_u8 (x / 256).
Proof.
  intros Hx. unfold is_u8, is_u16 in *.
  split; [apply Z.div_pos; lia | apply Z.div_lt_upper_bound; lia].
Qed.

#[export] Hint Resolve is_u8_u8 is_u16_u16 is_u32_u32 is_u8_lo is_u8_hi : rink.

(** Masking with [0xFF] keeps the low byte, and shifting right divides. *)
Lemma land_255 x : Z.land x 255 = x mod 256.
Proof. apply (Z.land_ones x 8); lia. Qed.

Lemma shiftr_8 x : Z.shiftr x 8 = x / 256.
Proof. apply (Z.shiftr_div_pow2 x 8); lia. Qed.

Lemma shiftl_8 x : Z.shiftl x 8 = x * 256.
Proof. apply (Z.shiftl_mul_pow2 x 8); lia. Qed.

(** Putting a byte below a shifted value is an addition. *)
Lemma lor_shiftl_8 a b : is_u8 a → Z.lor a (Z.shiftl b 8) = a + 256 * b.
Proof.
  intros Ha. rewrite <- Z.add_nocarry_lor.
  - rewrite shiftl_8. lia.
  - apply Z.bits_inj'. intros n Hn. rewrite Z.land_spec, Z.bits_0.
    destruct (Z.ltb_spec n 8).
    + rewrite Z.shiftl_spec_low by lia. apply andb_false_r.
    + replace (Z.testbit a n) with false; [done |]. symmetry.
      destruct (Z.eq_dec a 0) as [->|Hne]; [apply Z.bits_0 |].
      apply Z.bits_above_log2; [destruct Ha; lia |].
      assert (Z.log2 a < 8) by (apply Z.log2_lt_pow2; destruct Ha; lia). lia.
Qed.

(** ** List lemmas *)

Section lists.
Context {A : Type}.
Implicit Types l k : list A.

Lemma length_ztake n l : 0 ≤ n ≤ zlen l → zlen (ztake n l) = n.
Proof. unfold zlen, ztake. rewrite length_take. lia. Qed.

Lemma length_zset l i x : length (zset l i x) = length l.
Proof. apply length_insert. Qed.

Lemma zlen_zset l i x : zlen (zset l i x) = zlen l.
Proof. unfold zlen. by rewrite length_zset. Qed.

Lemma zstore_in l i x : 0 ≤ i < zlen l → zstore l i x = Some (zset l i x).
Proof.
  intros [Hi Hl]. unfold zstore. apply Z.leb_le in Hi as ->. by apply Z.ltb_lt in Hl as ->.
Qed.

Lemma zstore_out l i x : ¬ 0 ≤ i < zlen l → zstore l i x = None.
Proof.
  intros Hn. unfold zstore. destruct (Z.leb_spec 0 i), (Z.ltb_spec i (zlen l)); done || lia.
Qed.

Lemma take_drop_splice l k i :
  (i + length k ≤ length l)%nat →
  length (take i l ++ k ++ drop (i + length k) l) = length l.
Proof. rewrite !length_app, length_take, length_drop. lia. Qed.

Lemma take_app_exact l k n : length l = n → take n (l ++ k) = l.
Proof. intros <-. apply take_app_length. Qed.

Lemma drop_app_exact l k n : length l = n → drop n (l ++ k) = k.
Proof. intros <-. apply drop_app_length. Qed.
End lists.

(** Indexing into the concatenation of blocks of equal length. *)
Lemma lookup_concat_uniform {A} (n : nat) (ls : list (list A)) (i : nat) :
  (0 < n)%nat → Forall (λ l, length l = n) ls →
  concat ls !! i = ls !! (i / n)%nat ≫= λ l, l !! (i mod n)%nat.
Proof.
  intros Hn Hls. revert i. induction Hls as [|l ls Hl Hls IH]; intros i; [done |].
  cbn [concat]. destruct (decide (i < n)%nat) as [Hi|Hi].
  - rewrite lookup_app_l by lia. rewrite Nat.div_small, Nat.mod_small by lia. done.
  - rewrite lookup_app_r by lia. rewrite Hl, IH.
    assert (i / n = S ((i - n) / n) ∧ i mod n = (i - n) mod n)%nat as [-> ->]; [|done].
    replace i with ((i - n) + 1 * n)%nat at 1 3 by lia.
    rewrite Nat.div_add, Nat.Div0.mod_add by lia. lia.
Qed.

Lemma length_concat_uniform {A} (n : nat) (ls : list (list A)) :
  Forall (λ l, length l = n) ls → length (concat ls) = (length ls * n)%nat.
Proof. induction 1 as [|l ls Hl Hls IH]; cbn; [done |]. rewrite length_app. lia. Qed.

(** Searching a list of values paired with their positions. *)
Lemma list_find_imap {A B} (P : A → Prop) `{∀ x, Decision (P x)} (g : nat → B) (l : list A) :
  list_find (λ x : A * B, P x.1) (imap (λ i d, (d, g i)) l) =
  (λ '(i, d), (i, (d, g i))) <$> list_find P l.
Proof.
  revert g. induction l as [|d l IH]; intros g; [done |]. cbn.
  case_decide; [done |].
  specialize (IH (λ i, g (S i))). cbn in IH.
  change (imap ((λ i d, (d, g i)) ∘ S) l) with (imap (λ i d, (d, g (S i))) l).
  rewrite IH. by destruct (list_find P l) as [[i x]|].
Qed.

Lemma znth_zset_eq (l : list Z) i x : 0 ≤ i < zlen l → znth (zset l i x) i = x.
Proof.
  intros [Hi Hl]. unfold znth, zset. rewrite nth_lookup.
  rewrite list_lookup_insert_eq; [done |]. unfold zlen in Hl. lia.
Qed.

Lemma znth_zset_ne (l : list Z) i j x :
  0 ≤ i → 0 ≤ j → i ≠ j → znth (zset l i x) j = znth l j.
Proof.
  intros Hi Hj Hne. unfold znth, zset. rewrite !nth_lookup.
  rewrite list_lookup_insert_ne; [done |]. lia.
Qed.

Lemma znth_lookup (l : list Z) i : 0 ≤ i < zlen l → l !! Z.to_nat i = Some (znth l i).
Proof.
  intros [Hi Hl]. unfold znth, zlen in *.
  destruct (lookup_lt_is_Some_2 l (Z.to_nat i)) as [x Hx]; [lia |].
  by rewrite Hx, (nth_lookup_Some _ _ _ _ Hx).
Qed.

Lemma Forall_znth (P : Z → Prop) (l : list Z) i :
  Forall P l → P 0 → P (znth l i).
Proof.
  intros HF H0. unfold znth. destruct (decide (Z.to_nat i < length l)%nat).
  - rewrite Forall_forall in HF. apply HF, list_elem_of_In, nth_In. lia.
  - rewrite nth_overflow by lia. done.
Qed.

Lemma strlen_cstr s : is_cstr s → strlen s = zlen s.
Proof.
  induction 1 as [|c s Hc Hs IH]; [done |]. cbn [strlen].
  destruct (Z.eqb_spec c 0); [lia |]. rewrite IH. unfold zlen. cbn [length]. lia.
Qed.

(** ** Filling an array from its front *)

Lemma ztake_zset_snoc {A} (l : list A) i x :
  0 ≤ i < zlen l → ztake (i + 1) (zset l i x) = ztake i l ++ [x].
Proof.
  unfold zlen, ztake, zset. intros Hi. replace (Z.to_nat (i + 1)) with (S (Z.to_nat i)) by lia.
  erewrite take_S_r by (apply list_lookup_insert_eq; lia). f_equal. apply take_insert_ge. lia.
Qed.

Lemma ztake_zset_ge {A} (l : list A) i j x : 0 ≤ i ≤ j → ztake i (zset l j x) = ztake i l.
Proof. intros Hi. unfold ztake, zset. apply take_insert_ge. lia. Qed.

(** The string in a buffer, once it is terminated. *)
Lemma printed_ztake l i : 0 ≤ i < zlen l → is_cstr (ztake i l) → printed (zset l i 0) = ztake i l.
Proof.
  unfold zlen, ztake, zset. intros Hi. destruct (Z_of_nat_complete i) as [j ->]; [lia |].
  rewrite Nat2Z.id. assert (j < length l)%nat as Hj by lia. clear Hi. revert j Hj.
  induction l as [|c l IH]; intros [|j] Hj Hc; cbn in *; [lia | lia | done |].
  apply Forall_cons in Hc as [Hc Hl]. destruct (Z.eqb_spec c 0); [lia |]. f_equal. apply IH; [lia | done].
Qed.

Lemma printed_cstr s : is_cstr s → printed s = s.
Proof.
  induction 1 as [|c s Hc Hs IH]; [done |]. cbn [printed]. destruct (Z.eqb_spec c 0); [lia |]. by f_equal.
Qed.
