(* ===== verification/Console.v ===== *)
(** * The text console of [kernel/kernel.c] (VGA text mode, [kprint]) and the
    number printers [kprint_hex32] (kernel.c) and [kprint_uint] (shell.c). *)
From S2P Require Import Prelude.

Definition VGA_WIDTH : Z := 80.
Definition VGA_HEIGHT : Z := 25.
Definition VGA_COLOR : Z := 0x0F.

(** The video memory, the cursor, and the bytes sent to I/O ports so far
    (port, value), oldest first. *)
Record console := mk_console {
  vga_buffer : list Z;
  cursor_row : Z;
  cursor_col : Z;
  port_log : list (Z * Z)
}.

(** [(uint16_t)(c | (VGA_COLOR << 8))] *)
Definition vga_cell (c : Z) : Z := u16 (Z.lor c (Z.shiftl VGA_COLOR 8)).

Definition outb (port value : Z) (k : console) : console :=
  mk_console (vga_buffer k) (cursor_row k) (cursor_col k)
    (port_log k ++ [(port, u8 value)]).

Definition set_buffer (b : list Z) (k : console) : console :=
  mk_console b (cursor_row k) (cursor_col k) (port_log k).

Definition set_cursor (row col : Z) (k : console) : console :=
  mk_console (vga_buffer k) row col (port_log k).

Definition vga_update_cursor (k : console) : console :=
  let pos := u16 (cursor_row k * VGA_WIDTH + cursor_col k) in
  let k := outb 0x3D4 0x0F k in
  let k := outb 0x3D5 (u8 (Z.land pos 0xFF)) k in
  let k := outb 0x3D4 0x0E k in
  outb 0x3D5 (u8 (Z.land (Z.shiftr pos 8) 0xFF)) k.

(** [for (i = i0; i < i0 + n; i++) buf[i] = cell;] *)
Fixpoint fill_cells (n : nat) (i : Z) (cell : Z) (buf : list Z) : list Z :=
  match n with
  | O => buf
  | S n' => fill_cells n' (i + 1) cell (zset buf i cell)
  end.

Definition vga_clear (k : console) : console :=
  let b := fill_cells (Z.to_nat (VGA_WIDTH * VGA_HEIGHT)) 0 (vga_cell 32) (vga_buffer k) in
  set_cursor 0 0 (set_buffer b k).

(** The two nested copy loops of the scroll; [n] columns, then [n] rows of
    [cols] columns, are left to copy. *)
Fixpoint scroll_cols (n : nat) (row col : Z) (buf : list Z) : list Z :=
  match n with
  | O => buf
  | S n' =>
      scroll_cols n' row (col + 1)
        (zset buf ((row - 1) * VGA_WIDTH + col) (znth buf (row * VGA_WIDTH + col)))
  end.

Fixpoint scroll_rows (cols n : nat) (row : Z) (buf : list Z) : list Z :=
  match n with
  | O => buf
  | S n' => scroll_rows cols n' (row + 1) (scroll_cols cols row 0 buf)
  end.

Definition vga_scroll_if_needed (k : console) : console :=
  if cursor_row k <? VGA_HEIGHT then k
  else
    let b := scroll_rows (Z.to_nat VGA_WIDTH) (Z.to_nat (VGA_HEIGHT - 1)) 1 (vga_buffer k) in
    let b := fill_cells (Z.to_nat VGA_WIDTH) ((VGA_HEIGHT - 1) * VGA_WIDTH) (vga_cell 32) b in
    set_cursor (VGA_HEIGHT - 1) (cursor_col k) (set_buffer b k).

Definition vga_putchar (k : console) (c : Z) : console :=
  let k :=
    if c =? 10 then set_cursor (cursor_row k + 1) 0 k
    else if c =? 8 then
      let k :=
        if 0 <? cursor_col k then set_cursor (cursor_row k) (cursor_col k - 1) k
        else if 0 <? cursor_row k then set_cursor (cursor_row k - 1) (VGA_WIDTH - 1) k
        else k in
      let index := cursor_row k * VGA_WIDTH + cursor_col k in
      set_buffer (zset (vga_buffer k) index (vga_cell 32)) k
    else
      let index := cursor_row k * VGA_WIDTH + cursor_col k in
      let k := set_buffer (zset (vga_buffer k) index (vga_cell (u8 c))) k in
      let k := set_cursor (cursor_row k) (cursor_col k + 1) k in
      if VGA_WIDTH <=? cursor_col k then set_cursor (cursor_row k + 1) 0 k else k in
  vga_update_cursor (vga_scroll_if_needed k).

(** [for (i = 0; str[i] != NUL; i++) vga_putchar(str[i])] *)
Fixpoint kprint (s : cstr) (k : console) : console :=
  match s with
  | [] => k
  | c :: s' => if c =? 0 then k else kprint s' (vga_putchar k c)
  end.

Definition vga_enable_cursor (k : console) : console :=
  let k := outb 0x3D4 0x0A k in
  let k := outb 0x3D5 0x0D k in
  let k := outb 0x3D4 0x0B k in
  outb 0x3D5 0x0F k.

(** ** Number printers: the string each one passes to [kprint] *)

Definition hex_digits : list Z := str "0123456789ABCDEF".

(** [buf[2 + i] = hex[(val >> ((7 - i) * 4)) & 0xF]] for [i = 0..7] *)
Definition kprint_hex32 (val : Z) : cstr :=
  [48; 120] ++
  map (λ i, znth hex_digits (Z.land (Z.shiftr val ((7 - Z.of_nat i) * 4)) 15)) (seq 0 8).

(** The digit loop: fills [buf] downwards from index [i]; returns the buffer
    and the final index, or [None] when it leaves the buffer. *)
Fixpoint uint_loop (fuel : nat) (val i : Z) (buf : list Z) : option (list Z * Z) :=
  match fuel with
  | O => None
  | S fuel' =>
      if 0 <? val then
        match zstore buf i (u8 (48 + val mod 10)) with
        | None => None
        | Some buf => uint_loop fuel' (val / 10) (i - 1) buf
        end
      else Some (buf, i)
  end.

(** [char buf[11]]; its initial contents do not reach the output.  32 rounds
    are more than a 32-bit value has decimal digits. *)
Definition kprint_uint (val : Z) : option cstr :=
  let buf := replicate 11 0 in
  let i := 10 in
  let buf := zset buf i 0 in
  let i := i - 1 in
  if val =? 0 then
    let buf := zset buf i 48 in
    Some (zdrop (i - 1 + 1) buf)
  else
    match uint_loop 32 val i buf with
    | Some (buf, i) => Some (zdrop (i + 1) buf)
    | None => None
    end.

(** ** The screen invariant *)

(** The buffer is the 25 by 80 text page and the cursor is on it. *)
Record console_ok (k : console) : Prop := {
  co_len : zlen (vga_buffer k) = 2000;
  co_row : 0 ≤ cursor_row k < 25;
  co_col : 0 ≤ cursor_col k < 80
}.

(** Offset of the cursor in the page. *)
Definition cursor_pos (k : console) : Z := cursor_row k * VGA_WIDTH + cursor_col k.

Definition blank : Z := vga_cell 32.

Lemma znth_ext (l k : list Z) :
  length l = length k → (∀ i, 0 ≤ i < zlen l → znth l i = znth k i) → l = k.
Proof.
  intros Hl Hn. apply list_eq. intros i. destruct (decide (i < length l)%nat) as [Hi|Hi].
  - specialize (Hn (Z.of_nat i)). unfold zlen in Hn.
    replace i with (Z.to_nat (Z.of_nat i)) by lia.
    rewrite !znth_lookup by (unfold zlen; lia). rewrite Hn by lia. done.
  - rewrite !lookup_ge_None_2 by lia. done.
Qed.

Lemma znth_zset (l : list Z) i j x :
  0 ≤ i < zlen l → 0 ≤ j → znth (zset l i x) j = if decide (j = i) then x else znth l j.
Proof.
  intros Hi Hj. case_decide as Hd; [subst; by apply znth_zset_eq |]. apply znth_zset_ne; lia.
Qed.

Lemma fill_cells_len n i c b : zlen (fill_cells n i c b) = zlen b.
Proof. revert i b. induction n as [|n IH]; intros i b; cbn; [done |]. by rewrite IH, zlen_zset. Qed.

Lemma fill_cells_read n i c b j :
  0 ≤ i → i + Z.of_nat n ≤ zlen b → 0 ≤ j →
  znth (fill_cells n i c b) j = if decide (i ≤ j < i + Z.of_nat n) then c else znth b j.
Proof.
  revert i b. induction n as [|n IH]; intros i b Hi Hn Hj; cbn [fill_cells].
  - rewrite decide_False by lia. done.
  - rewrite IH by (rewrite ?zlen_zset; lia). rewrite znth_zset by lia.
    repeat case_decide; try done; lia.
Qed.

Lemma scroll_cols_len n row col b : zlen (scroll_cols n row col b) = zlen b.
Proof. revert col b. induction n as [|n IH]; intros col b; cbn; [done |]. by rewrite IH, zlen_zset. Qed.

Lemma scroll_cols_read n row col b j :
  1 ≤ row → 0 ≤ col → col + Z.of_nat n ≤ 80 → row * 80 + 80 ≤ zlen b → 0 ≤ j →
  znth (scroll_cols n row col b) j =
    if decide ((row - 1) * 80 + col ≤ j < (row - 1) * 80 + col + Z.of_nat n)
    then znth b (j + 80) else znth b j.
Proof.
  unfold VGA_WIDTH in *. revert col b. induction n as [|n IH]; intros col b Hr Hc Hn Hl Hj; cbn [scroll_cols].
  - rewrite decide_False by lia. done.
  - change VGA_WIDTH with 80. rewrite IH by (rewrite ?zlen_zset; lia). rewrite !znth_zset by lia.
    repeat case_decide; try lia; try done. f_equal. lia.
Qed.

Lemma scroll_rows_len cols n row b : zlen (scroll_rows cols n row b) = zlen b.
Proof.
  revert row b. induction n as [|n IH]; intros row b; cbn [scroll_rows]; [done |].
  rewrite IH. apply scroll_cols_len.
Qed.

Lemma scroll_rows_read cols n row b j :
  Z.of_nat cols = 80 → 1 ≤ row → (row + Z.of_nat n) * 80 ≤ zlen b → 0 ≤ j →
  znth (scroll_rows cols n row b) j =
    if decide ((row - 1) * 80 ≤ j < (row - 1 + Z.of_nat n) * 80) then znth b (j + 80) else znth b j.
Proof.
  intros Hcols. revert row b. induction n as [|n IH]; intros row b Hr Hl Hj; cbn [scroll_rows].
  - rewrite decide_False by lia. done.
  - rewrite IH by (rewrite ?scroll_cols_len; lia). rewrite !scroll_cols_read by lia.
    repeat case_decide; try lia; done.
Qed.

(** Scrolling drops the top line and adds a blank one at the bottom. *)
Definition scrolled (b : list Z) : list Z := zdrop 80 b ++ replicate 80 blank.

Lemma scrolled_len b : zlen b = 2000 → zlen (scrolled b) = 2000.
Proof.
  intros Hl. unfold scrolled, zlen, zdrop in *. rewrite length_app, length_drop, length_replicate. lia.
Qed.

Lemma scroll_spec cols rows b :
  Z.of_nat cols = 80 → Z.of_nat rows = 24 → zlen b = 2000 →
  fill_cells cols 1920 blank (scroll_rows cols rows 1 b) = scrolled b.
Proof.
  intros Hcols Hrows Hl. pose proof (scrolled_len b Hl) as Hlen. apply znth_ext.
  - apply Nat2Z.inj. rewrite <- Hlen in Hl. unfold zlen in Hl. rewrite <- Hl.
    pose proof (fill_cells_len cols 1920 blank (scroll_rows cols rows 1 b)) as H1.
    rewrite scroll_rows_len in H1. exact H1.
  - intros i Hi. rewrite fill_cells_len, scroll_rows_len, Hl in Hi.
    rewrite fill_cells_read by (rewrite ?scroll_rows_len; lia).
    rewrite scroll_rows_read by lia.
    unfold scrolled, znth, zdrop. unfold zlen in Hl. repeat case_decide; try lia.
    + rewrite app_nth2 by (rewrite length_drop; lia). rewrite nth_lookup, lookup_replicate_2; [done |].
      rewrite length_drop. lia.
    + rewrite app_nth1 by (rewrite length_drop; lia). rewrite !nth_lookup, lookup_drop.
      do 2 f_equal. lia.
Qed.

(** ** The characters *)

Definition newline_or_edge (k : console) : console :=
  if 24 <? cursor_row k then mk_console (scrolled (vga_buffer k)) 24 (cursor_col k) (port_log k) else k.

Lemma vga_scroll_eq k :
  zlen (vga_buffer k) = 2000 → 0 ≤ cursor_row k ≤ 25 → vga_scroll_if_needed k = newline_or_edge k.
Proof.
  intros Hl Hr. unfold vga_scroll_if_needed, newline_or_edge. change VGA_HEIGHT with 25 at 1.
  destruct (Z.ltb_spec (cursor_row k) 25), (Z.ltb_spec 24 (cursor_row k)); try lia; [done |].
  change (vga_cell 32) with blank. change ((VGA_HEIGHT - 1) * VGA_WIDTH) with 1920.
  rewrite scroll_spec by (rewrite ?Z2Nat.id; done). done.
Qed.

Lemma newline_or_edge_ok k :
  zlen (vga_buffer k) = 2000 → 0 ≤ cursor_row k ≤ 25 → 0 ≤ cursor_col k < 80 →
  console_ok (newline_or_edge k).
Proof.
  intros Hl Hr Hc. unfold newline_or_edge. destruct (Z.ltb_spec 24 (cursor_row k)).
  - split; cbn; [|lia | done]. unfold scrolled, zlen, zdrop in *.
    rewrite length_app, length_drop, length_replicate. lia.
  - by split; [|lia|].
Qed.

(** The bytes that move the hardware cursor to offset [pos]. *)
Definition cursor_log (pos : Z) : list (Z * Z) :=
  [(0x3D4, 0x0F); (0x3D5, pos mod 256); (0x3D4, 0x0E); (0x3D5, pos / 256)].

Lemma vga_update_cursor_eq k :
  console_ok k →
  vga_update_cursor k =
    mk_console (vga_buffer k) (cursor_row k) (cursor_col k) (port_log k ++ cursor_log (cursor_pos k)).
Proof.
  intros [Hl Hr Hc]. unfold vga_update_cursor, outb, cursor_log. cbn [vga_buffer cursor_row cursor_col port_log].
  rewrite <- !app_assoc. cbn [app].
  assert (u16 (cursor_row k * VGA_WIDTH + cursor_col k) = cursor_pos k) as ->.
  { unfold cursor_pos. change VGA_WIDTH with 80. apply u16_small. unfold is_u16. lia. }
  assert (0 ≤ cursor_pos k < 2000) by (unfold cursor_pos; change VGA_WIDTH with 80; lia).
  rewrite !land_255, shiftr_8. unfold u8. rewrite !Z.mod_mod by lia.
  rewrite (Z.mod_small (cursor_pos k / 256)); [done |].
  split; [apply Z.div_pos; lia | apply Z.div_lt_upper_bound; lia].
Qed.

(** What a character does to the page and the cursor, before scrolling. *)
Definition put_cell (k : console) (c : Z) : console :=
  if c =? 10 then set_cursor (cursor_row k + 1) 0 k
  else if c =? 8 then
    let k :=
      if 0 <? cursor_col k then set_cursor (cursor_row k) (cursor_col k - 1) k
      else if 0 <? cursor_row k then set_cursor (cursor_row k - 1) (VGA_WIDTH - 1) k
      else k in
    set_buffer (zset (vga_buffer k) (cursor_pos k) blank) k
  else
    let k := set_buffer (zset (vga_buffer k) (cursor_pos k) (vga_cell (u8 c))) k in
    let k := set_cursor (cursor_row k) (cursor_col k + 1) k in
    if VGA_WIDTH <=? cursor_col k then set_cursor (cursor_row k + 1) 0 k else k.

Lemma vga_putchar_eq k c :
  vga_putchar k c = vga_update_cursor (vga_scroll_if_needed (put_cell k c)).
Proof. reflexivity. Qed.

Lemma put_cell_ok k c :
  console_ok k →
  zlen (vga_buffer (put_cell k c)) = 2000 ∧ 0 ≤ cursor_row (put_cell k c) ≤ 25 ∧
  0 ≤ cursor_col (put_cell k c) < 80.
Proof.
  intros [Hl Hr Hc]. unfold put_cell. change VGA_WIDTH with 80. cbv zeta.
  destruct (c =? 10); [cbn; lia |]. destruct (c =? 8).
  - cbn [vga_buffer cursor_row cursor_col set_buffer].
    destruct (Z.ltb_spec 0 (cursor_col k)); [|destruct (Z.ltb_spec 0 (cursor_row k))];
      cbn [vga_buffer cursor_row cursor_col set_cursor]; rewrite zlen_zset; lia.
  - cbn [vga_buffer cursor_row cursor_col set_buffer set_cursor].
    destruct (Z.leb_spec 80 (cursor_col k + 1)); cbn [vga_buffer cursor_row cursor_col set_cursor set_buffer];
      rewrite zlen_zset; lia.
Qed.

Lemma vga_putchar_spec k c :
  console_ok k →
  let k1 := newline_or_edge (put_cell k c) in
  vga_putchar k c = mk_console (vga_buffer k1) (cursor_row k1) (cursor_col k1)
                      (port_log k1 ++ cursor_log (cursor_pos k1)) ∧
  console_ok (vga_putchar k c).
Proof.
  intros Hk k1. destruct (put_cell_ok k c Hk) as (Hl & Hr & Hc).
  assert (console_ok k1) as Hk1 by (by apply newline_or_edge_ok).
  rewrite vga_putchar_eq, vga_scroll_eq by done. fold k1. rewrite vga_update_cursor_eq by done.
  split; [done |]. by destruct Hk1.
Qed.

Lemma kprint_ok s k : console_ok k → console_ok (kprint s k).
Proof.
  revert k. induction s as [|c s IH]; intros k Hk; cbn [kprint]; [done |].
  destruct (c =? 0); [done |]. by apply IH, vga_putchar_spec.
Qed.

(** A character that is neither NUL, backspace nor newline. *)
Definition printable (c : Z) : Prop := 0 < c < 256 ∧ c ≠ 8 ∧ c ≠ 10.

Lemma putchar_printable k c :
  console_ok k → printable c → cursor_pos k < 1999 →
  console_ok (vga_putchar k c) ∧ cursor_pos (vga_putchar k c) = cursor_pos k + 1 ∧
  vga_buffer (vga_putchar k c) = zset (vga_buffer k) (cursor_pos k) (vga_cell c).
Proof.
  intros Hk (Hc & H8 & H10) Hpos. destruct (vga_putchar_spec k c Hk) as [Heq Hok].
  split; [done |]. rewrite Heq. clear Heq Hok.
  assert (put_cell k c = let k' := set_buffer (zset (vga_buffer k) (cursor_pos k) (vga_cell c)) k in
    if 80 <=? cursor_col k + 1 then set_cursor (cursor_row k + 1) 0 k'
    else set_cursor (cursor_row k) (cursor_col k + 1) k') as Hp.
  { unfold put_cell. destruct (Z.eqb_spec c 10); [done |]. destruct (Z.eqb_spec c 8); [done |].
    rewrite u8_small by (unfold is_u8; lia). done. }
  destruct Hk as [Hl Hr Hcol]. unfold cursor_pos in *. change VGA_WIDTH with 80 in *.
  unfold newline_or_edge. rewrite Hp. cbv zeta.
  destruct (Z.leb_spec 80 (cursor_col k + 1)); cbn [cursor_row cursor_col set_cursor set_buffer].
  - destruct (Z.ltb_spec 24 (cursor_row k + 1)); [lia |]. cbn. split; [lia | done].
  - destruct (Z.ltb_spec 24 (cursor_row k)); [lia |]. cbn. split; [lia | done].
Qed.

(** C36. Printing text that fits on the page puts its characters, in the light
    on dark attribute, into consecutive cells from the cursor on, changes no
    other cell, and leaves the cursor behind the text. *)
Theorem kprint_text (s : cstr) (k : console) :
  console_ok k → Forall printable s → cursor_pos k + zlen s < 2000 →
  let k' := kprint s k in
  console_ok k' ∧ cursor_pos k' = cursor_pos k + zlen s ∧
  ∀ j, 0 ≤ j < 2000 →
    znth (vga_buffer k') j =
      if decide (cursor_pos k ≤ j < cursor_pos k + zlen s)
      then vga_cell (znth s (j - cursor_pos k)) else znth (vga_buffer k) j.
Proof.
  intros Hk Hs. revert k Hk. induction Hs as [|c s Hc Hs IH]; intros k Hk Hfit; cbn [kprint].
  { change (zlen []) with 0. rewrite Z.add_0_r. split_and!; [done | done |]. intros j Hj.
    rewrite decide_False by lia. done. }
  assert (zlen (c :: s) = 1 + zlen s) as Hlen by (unfold zlen; cbn [length]; lia).
  assert (0 ≤ zlen s) by (unfold zlen; lia).
  destruct (Z.eqb_spec c 0); [destruct Hc; lia |].
  destruct (putchar_printable k c Hk Hc) as (Hk1 & Hpos & Hbuf); [lia |].
  destruct (IH (vga_putchar k c) Hk1) as (Hk' & Hpos' & Hread); [lia |]. cbv zeta in *.
  split_and!; [done | lia |]. intros j Hj. rewrite Hread by done. rewrite Hpos, Hbuf.
  assert (0 ≤ cursor_pos k) as Hp0 by (destruct Hk; unfold cursor_pos; change VGA_WIDTH with 80; lia).
  rewrite znth_zset by (destruct Hk; lia). repeat case_decide; try lia; try done.
  - f_equal. unfold znth. replace (Z.to_nat (j - cursor_pos k)) with (S (Z.to_nat (j - (cursor_pos k + 1)))) by lia.
    done.
  - subst j. by rewrite Z.sub_diag.
Qed.

(** Clearing needs no cursor: it makes the invariant hold on any page. *)
Lemma vga_clear_ok k : zlen (vga_buffer k) = 2000 → console_ok (vga_clear k).
Proof.
  intros Hl. split; unfold vga_clear; cbn [vga_buffer cursor_row cursor_col set_cursor set_buffer]; [|lia..].
  by rewrite fill_cells_len.
Qed.

Lemma vga_enable_cursor_ok k : console_ok k → console_ok (vga_enable_cursor k).
Proof. intros []. by split. Qed.

(** The console after [vga_clear] on a blank page. *)
Definition cleared : console := vga_clear (mk_console (replicate 2000 0) 0 0 []).

Lemma cleared_ok : console_ok cleared.
Proof. by apply vga_clear_ok. Qed.

Lemma kprint_text_witness :
  let k' := kprint (str "RinkOS") cleared in
  console_ok k' ∧ cursor_pos k' = 6 ∧
  ∀ j, 0 ≤ j < 2000 → znth (vga_buffer k') j =
    if decide (0 ≤ j < 0 + 6) then vga_cell (znth (str "RinkOS") (j - 0)) else znth (vga_buffer cleared) j.
Proof.
  apply (kprint_text (str "RinkOS") cleared); [exact cleared_ok | | reflexivity].
  cbn. repeat (apply Forall_cons_2; [unfold printable; lia |]). apply Forall_nil_2.
Defined.

(** The reference: a terminal whose cursor is an offset in the page. *)
Definition put_page (p : list Z * Z) (c : Z) : list Z * Z :=
  let '(b, pos) := p in
  let '(b, pos) :=
    if c =? 10 then (b, (pos / 80 + 1) * 80)
    else if c =? 8 then (zset b (Z.max (pos - 1) 0) blank, Z.max (pos - 1) 0)
    else (zset b pos (vga_cell (u8 c)), pos + 1) in
  if pos <? 2000 then (b, pos) else (scrolled b, pos - 80).

Definition page (k : console) : list Z * Z := (vga_buffer k, cursor_pos k).

Lemma newline_or_edge_page k :
  0 ≤ cursor_row k ≤ 25 → 0 ≤ cursor_col k < 80 →
  page (newline_or_edge k) =
    if cursor_pos k <? 2000 then page k else (scrolled (vga_buffer k), cursor_pos k - 80).
Proof.
  intros Hr Hc. unfold newline_or_edge, page, cursor_pos. change VGA_WIDTH with 80.
  destruct (Z.ltb_spec 24 (cursor_row k)), (Z.ltb_spec (cursor_row k * 80 + cursor_col k) 2000);
    try lia; [| done].
  cbn [vga_buffer cursor_row cursor_col]. f_equal.
  destruct (decide (cursor_row k = 25)) as [->|]; [| lia]. lia.
Qed.

Lemma put_cell_page k c :
  console_ok k →
  page (put_cell k c) =
    if c =? 10 then (vga_buffer k, (cursor_pos k / 80 + 1) * 80)
    else if c =? 8 then
      (zset (vga_buffer k) (Z.max (cursor_pos k - 1) 0) blank, Z.max (cursor_pos k - 1) 0)
    else (zset (vga_buffer k) (cursor_pos k) (vga_cell (u8 c)), cursor_pos k + 1).
Proof.
  intros [Hl Hr Hc]. unfold put_cell, page. destruct (c =? 10); [| destruct (c =? 8)].
  - unfold cursor_pos. cbn [vga_buffer cursor_row cursor_col set_cursor]. change VGA_WIDTH with 80.
    f_equal. rewrite Z.div_add_l, Z.div_small by lia. lia.
  - assert (∀ k', cursor_pos k' = Z.max (cursor_pos k - 1) 0 → vga_buffer k' = vga_buffer k →
      (vga_buffer (set_buffer (zset (vga_buffer k') (cursor_pos k') blank) k'),
       cursor_pos (set_buffer (zset (vga_buffer k') (cursor_pos k') blank) k')) =
      (zset (vga_buffer k) (Z.max (cursor_pos k - 1) 0) blank, Z.max (cursor_pos k - 1) 0)) as Hk'.
    { intros k' Hp Hb. change (cursor_pos (set_buffer _ k')) with (cursor_pos k').
      cbn [vga_buffer set_buffer]. by rewrite Hp, Hb. }
    apply Hk'; unfold cursor_pos; change VGA_WIDTH with 80;
      destruct (Z.ltb_spec 0 (cursor_col k)), (Z.ltb_spec 0 (cursor_row k));
      cbn [vga_buffer cursor_row cursor_col set_cursor]; done || lia.
  - cbv zeta. cbn [cursor_col set_cursor set_buffer]. unfold cursor_pos. change VGA_WIDTH with 80.
    destruct (Z.leb_spec 80 (cursor_col k + 1));
      cbn [vga_buffer cursor_row cursor_col set_cursor set_buffer]; f_equal; lia.
Qed.

Lemma putchar_page k c : console_ok k → page (vga_putchar k c) = put_page (page k) c.
Proof.
  intros Hk. destruct (vga_putchar_spec k c Hk) as [Heq _]. destruct (put_cell_ok k c Hk) as (_ & Hr & Hc).
  pose proof (put_cell_page k c Hk) as Hp. pose proof (newline_or_edge_page _ Hr Hc) as He.
  rewrite Heq. change (page (mk_console _ _ _ _)) with (page (newline_or_edge (put_cell k c))). rewrite He.
  unfold page in *. unfold put_page. cbv beta iota. by rewrite <- Hp.
Qed.

Lemma kprint_page s k :
  console_ok k → Forall (λ c, c ≠ 0) s → page (kprint s k) = fold_left put_page s (page k).
Proof.
  intros Hk Hs. revert k Hk. induction Hs as [|c s Hc Hs IH]; intros k Hk; cbn [kprint fold_left]; [done |].
  destruct (Z.eqb_spec c 0); [done |]. rewrite IH by (by apply vga_putchar_spec). by rewrite putchar_page.
Qed.

(** What is sent to the ports does not depend on the character. *)
Lemma putchar_log k c :
  console_ok k →
  port_log (vga_putchar k c) = port_log k ++ cursor_log (cursor_pos (vga_putchar k c)).
Proof.
  intros Hk. destruct (vga_putchar_spec k c Hk) as [-> _]. cbn [port_log].
  change (cursor_pos (mk_console _ _ _ _)) with (cursor_pos (newline_or_edge (put_cell k c))).
  f_equal. unfold newline_or_edge, put_cell. destruct (24 <? _); cbn [port_log];
  (destruct (c =? 10); [done |]; destruct (c =? 8); cbv zeta;
    [destruct (0 <? cursor_col k), (0 <? cursor_row k); done |];
    cbn [cursor_col set_cursor set_buffer]; destruct (VGA_WIDTH <=? _); done).
Qed.

(** C35. The console is a terminal of 2000 cells whose cursor is one offset: a
    character goes to the cell of the cursor and moves it on, a newline moves
    it to the start of the next line, a backspace moves it back by one, but not
    beyond the first cell, and blanks the cell there; and when that leaves the
    page, by a newline or by a character in the last cell, all lines move up by
    one, the top one is lost, the last one is blank and the cursor is in it.
    Every store is inside the page, whatever is printed, and the hardware
    cursor is told the new offset after every character. *)
Theorem vga_putchar_safe (k : console) (c : Z) (s : cstr) :
  console_ok k → Forall (λ x, x ≠ 0) s →
  (console_ok (vga_putchar k c) ∧ 0 ≤ cursor_pos k < 2000 ∧
   page (vga_putchar k c) = put_page (page k) c ∧
   port_log (vga_putchar k c) = port_log k ++ cursor_log (cursor_pos (vga_putchar k c))) ∧
  console_ok (kprint s k) ∧ page (kprint s k) = fold_left put_page s (page k).
Proof.
  intros Hk Hs. assert (0 ≤ cursor_pos k < 2000).
  { destruct Hk. unfold cursor_pos. change VGA_WIDTH with 80. lia. }
  split_and!; [by apply vga_putchar_spec | lia | lia | by apply putchar_page | by apply putchar_log
    | by apply kprint_ok | by apply kprint_page].
Qed.

(** The cursor in the last cell, and text that makes the page scroll twice. *)
Lemma vga_putchar_safe_witness :
  let k := mk_console (replicate 2000 blank) 24 79 [] in
  page (vga_putchar k 65) = (scrolled (zset (replicate 2000 blank) 1999 (vga_cell 65)), 1920) ∧
  cursor_pos (kprint (str "A" ++ [10; 8]) k) = 1919.
Proof.
  intros k. destruct (vga_putchar_safe k 65 (str "A" ++ [10; 8])) as [(_ & _ & Hp & _) (_ & Ht)].
  - split; [reflexivity | cbn; lia | cbn; lia].
  - apply (bool_decide_unpack _). vm_compute. exact I.
  - split; [rewrite Hp; reflexivity |]. change (cursor_pos _) with (page (kprint (str "A" ++ [10; 8]) k)).2.
    rewrite Ht. vm_compute. reflexivity.
Defined.

(** ** Numbers *)

(** Reading numbers back. *)
Definition hex_value (c : Z) : Z := if c <? 58 then c - 48 else c - 55.
Definition parse_hex (s : cstr) : Z := fold_left (λ acc c, 16 * acc + hex_value c) s 0.
Definition parse_dec (s : cstr) : Z := fold_left (λ acc c, 10 * acc + (c - 48)) s 0.

Definition hex_digit (val i : Z) : Z := znth hex_digits (Z.land (Z.shiftr val ((7 - i) * 4)) 15).

Lemma hex_digit_value val i : 0 ≤ i ≤ 7 → hex_value (hex_digit val i) = val / 16 ^ (7 - i) mod 16.
Proof.
  intros Hi. unfold hex_digit. rewrite Z.shiftr_div_pow2 by lia.
  replace (2 ^ ((7 - i) * 4)) with (16 ^ (7 - i)) by (rewrite Z.mul_comm, Z.pow_mul_r by lia; done).
  change 15 with (Z.ones 4). rewrite Z.land_ones by lia. change (2 ^ 4) with 16.
  pose proof (Z.mod_pos_bound (val / 16 ^ (7 - i)) 16 ltac:(lia)) as Hb.
  revert Hb. generalize (val / 16 ^ (7 - i) mod 16) as x. intros x Hx. apply Z.eqb_eq.
  assert (∀ y, 0 ≤ y < 16 → (hex_value (znth hex_digits y) =? y) = true) as Hall; [|by apply Hall].
  intros y Hy. assert (y ∈ seqZ 0 16) as Hin by (apply elem_of_seqZ; lia).
  revert y Hy Hin. assert (forallb (λ y, hex_value (znth hex_digits y) =? y) (seqZ 0 16) = true) as Hf
    by (by vm_compute). rewrite forallb_forall in Hf. intros y _ Hin. by apply Hf, list_elem_of_In.
Qed.

(** After [n] digits the value read is what the [n] leading digits stand for. *)
Lemma parse_hex_prefix val n :
  is_u32 val → (n ≤ 8)%nat →
  parse_hex (map (λ i, hex_digit val (Z.of_nat i)) (seq 0 n)) = val / 16 ^ (8 - Z.of_nat n).
Proof.
  intros Hv. induction n as [|n IH]; intros Hn.
  - cbn. symmetry. apply Z.div_small. unfold is_u32 in Hv. lia.
  - rewrite seq_S, map_app. unfold parse_hex. rewrite fold_left_app.
    fold (parse_hex (map (λ i, hex_digit val (Z.of_nat i)) (seq 0 n))). rewrite IH by lia.
    cbn [map fold_left Nat.add]. rewrite hex_digit_value by lia.
    replace (8 - Z.of_nat (S n)) with (7 - Z.of_nat n) by lia.
    replace (16 ^ (8 - Z.of_nat n)) with (16 ^ (7 - Z.of_nat n) * 16).
    2:{ replace (8 - Z.of_nat n) with (Z.succ (7 - Z.of_nat n)) by lia. rewrite Z.pow_succ_r; lia. }
    rewrite <- Z.div_div by lia. symmetry. apply Z.div_mod. lia.
Qed.

(** [kprint_hex32] prints "0x" and eight digits that read back as the value. *)
Theorem kprint_hex32_roundtrip (val : Z) :
  is_u32 val →
  take 2 (kprint_hex32 val) = str "0x" ∧ length (kprint_hex32 val) = 10%nat ∧
  parse_hex (drop 2 (kprint_hex32 val)) = val.
Proof.
  intros Hv. split; [done |]. split; [done |].
  unfold kprint_hex32. change (drop 2 _) with (map (λ i, hex_digit val (Z.of_nat i)) (seq 0 8)).
  rewrite parse_hex_prefix by (done || lia). change (16 ^ (8 - Z.of_nat 8)) with 1. apply Z.div_1_r.
Qed.

Lemma kprint_hex32_roundtrip_witness :
  take 2 (kprint_hex32 0xBEEF) = str "0x" ∧ length (kprint_hex32 0xBEEF) = 10%nat ∧
  parse_hex (drop 2 (kprint_hex32 0xBEEF)) = 0xBEEF.
Proof. apply (kprint_hex32_roundtrip 0xBEEF). unfold is_u32. lia. Defined.

Definition is_digit (c : Z) : Prop := 48 ≤ c ≤ 57.

Lemma parse_dec_snoc s c : parse_dec (s ++ [c]) = 10 * parse_dec s + (c - 48).
Proof. unfold parse_dec. by rewrite fold_left_app. Qed.

(** The loop writes the digits of [val] in front of index [i + 1]. *)
Lemma uint_loop_spec n fuel val i buf :
  0 ≤ val < 10 ^ Z.of_nat n → (n < fuel)%nat → Z.of_nat n ≤ i + 1 → i < zlen buf →
  ∃ ds buf', uint_loop fuel val i buf = Some (buf', i - zlen ds) ∧
    zdrop (i - zlen ds + 1) buf' = ds ++ zdrop (i + 1) buf ∧
    parse_dec ds = val ∧ Forall is_digit ds ∧ (length ds ≤ n)%nat ∧
    (val = 0 → ds = []) ∧ (val ≠ 0 → ds ≠ [] ∧ znth ds 0 ≠ 48).
Proof.
  revert fuel val i buf. induction n as [|n IH]; intros fuel val i buf Hv Hf Hi Hl;
    (destruct fuel as [|fuel]; [lia |]); cbn [uint_loop].
  - change (10 ^ Z.of_nat 0) with 1 in Hv. assert (val = 0) as -> by lia. cbn [Z.ltb Z.compare].
    exists [], buf. change (zlen []) with 0. rewrite Z.sub_0_r. split_and!; done || lia.
  - destruct (Z.ltb_spec 0 val) as [Hpos|].
    2:{ assert (val = 0) as -> by lia. exists [], buf. change (zlen []) with 0. rewrite Z.sub_0_r.
        split_and!; done || (cbn; lia). }
    assert (Hp : 10 ^ Z.of_nat (S n) = 10 * 10 ^ Z.of_nat n).
    { rewrite Nat2Z.inj_succ, Z.pow_succ_r by lia. done. }
    pose proof (Z.mod_pos_bound val 10 ltac:(lia)) as Hm.
    set (c := u8 (48 + val mod 10)).
    assert (Hc : c = 48 + val mod 10) by (apply u8_small; unfold is_u8; lia).
    rewrite (zstore_in buf i c) by lia.
    destruct (IH fuel (val / 10) (i - 1) (zset buf i c)) as (ds & buf' & Hr & Hd & Hpd & Hdig & Hlen & Hzero & Hlead).
    { split; [apply Z.div_pos; lia | apply Z.div_lt_upper_bound; lia]. }
    { lia. } { lia. } { rewrite zlen_zset. lia. }
    assert (zlen (ds ++ [c]) = zlen ds + 1) as Hz by (unfold zlen; rewrite length_app; cbn; lia).
    exists (ds ++ [c]), buf'. rewrite Hr, Hz. replace (i - (zlen ds + 1)) with (i - 1 - zlen ds) by lia.
    split_and!.
    + done.
    + rewrite Hd, <- app_assoc. f_equal. replace (i - 1 + 1) with i by lia.
      unfold zdrop, zset. unfold zlen in Hl.
      assert (<[Z.to_nat i := c]> buf !! Z.to_nat i = Some c) as Hlk
        by (apply list_lookup_insert_eq; lia).
      rewrite (drop_S _ c) by done. cbn [app]. f_equal.
      replace (Z.to_nat (i + 1)) with (S (Z.to_nat i)) by lia. apply drop_insert_lt. lia.
    + rewrite parse_dec_snoc, Hpd, Hc. pose proof (Z.div_mod val 10 ltac:(lia)). lia.
    + apply Forall_app. split; [done |]. repeat constructor; lia.
    + rewrite length_app. cbn. lia.
    + lia.
    + intros _. split; [by destruct ds |]. destruct (decide (val / 10 = 0)) as [Hz0|Hz0].
      * rewrite (Hzero Hz0). change (c ≠ 48). pose proof (Z.div_mod val 10 ltac:(lia)). lia.
      * destruct (Hlead Hz0) as [Hne Hh]. destruct ds as [|x ds]; [done |]. exact Hh.
Qed.

(** The printer returns for every 32-bit value. *)
Lemma kprint_uint_total (val : Z) : is_u32 val → ∃ s, kprint_uint val = Some s.
Proof.
  intros Hv. unfold kprint_uint. destruct (val =? 0); [by eexists |].
  destruct (uint_loop_spec 10 32 val 9 (replicate 11 0)) as (ds & buf' & Hr & _);
    [change (10 ^ Z.of_nat 10) with 10000000000; unfold is_u32 in Hv; lia | lia | lia | done |].
  change (zset (replicate 11 0) 10 0) with (replicate 11 0). change (10 - 1) with 9. rewrite Hr.
  by eexists.
Qed.

(** C40. [kprint_uint] returns for every 32-bit value; what it prints are at
    most ten decimal digits, without leading zeros, that read back as the
    value, followed by the terminator. *)
Theorem kprint_uint_roundtrip (val : Z) :
  is_u32 val →
  ∃ ds, kprint_uint val = Some (ds ++ [NUL]) ∧ parse_dec ds = val ∧ Forall is_digit ds ∧
    (0 < length ds ≤ 10)%nat ∧ (val ≠ 0 → znth ds 0 ≠ 48).
Proof.
  intros Hv. unfold kprint_uint. destruct (Z.eqb_spec val 0) as [->|Hne].
  { exists [48]. split_and!; first [done | by repeat constructor | cbn; lia]. }
  destruct (uint_loop_spec 10 32 val 9 (replicate 11 0)) as (ds & buf' & Hr & Hd & Hpd & Hdig & Hlen & _ & Hlead);
    [change (10 ^ Z.of_nat 10) with 10000000000; unfold is_u32 in Hv; lia | lia | lia | done |].
  change (zset (replicate 11 0) 10 0) with (replicate 11 0). change (10 - 1) with 9. rewrite Hr.
  exists ds. destruct (Hlead Hne) as [Hn0 Hh]. split_and!; try done.
  - rewrite Hd. done.
  - destruct ds; [done | cbn; lia].
Qed.

Lemma kprint_uint_roundtrip_witness :
  ∃ ds, kprint_uint 4294967295 = Some (ds ++ [NUL]) ∧ parse_dec ds = 4294967295 ∧ Forall is_digit ds ∧
    (0 < length ds ≤ 10)%nat ∧ (4294967295 ≠ 0 → znth ds 0 ≠ 48).
Proof. apply (kprint_uint_roundtrip 4294967295). unfold is_u32. lia. Defined.
