(* ===== verification/Keyboard.v ===== *)
(** * The keyboard driver of [kernel/keyboard.c]: scancode translation and the
    ring buffer between the interrupt handler and the shell. *)
From S2P Require Import Prelude.

(** ** State and tables *)

Definition KEYBOARD_BUFFER_SIZE : Z := 128.

Record kbd := mk_kbd {
  keyboard_buffer : list Z;
  buffer_read : Z;
  buffer_write : Z;
  shift_pressed : bool;
  capslock_on : bool
}.

Definition SC_LSHIFT_DOWN : Z := 0x2A.
Definition SC_RSHIFT_DOWN : Z := 0x36.
Definition SC_LSHIFT_UP : Z := 0xAA.
Definition SC_RSHIFT_UP : Z := 0xB6.
Definition SC_CAPSLOCK : Z := 0x3A.

(** The tables have 128 entries; the initialisers stop at 0x39 and the rest
    is 0, which is what [znth] reads there. *)
Definition keyboard_map : list Z :=
  [0; 27] ++ str "1234567890-=" ++ [8; 9] ++
  str "qwertyuiop[]" ++ [10; 0] ++
  str "asdfghjkl;'`" ++ [0; 92] ++
  str "zxcvbnm,./" ++ [0; 42; 0] ++
  [32].

Definition keyboard_map_shift : list Z :=
  [0; 27] ++ str "!@#$%^&*()_+" ++ [8; 9] ++
  str "QWERTYUIOP{}" ++ [10; 0] ++
  str "ASDFGHJKL:" ++ [34; 126] ++ [0; 124] ++
  str "ZXCVBNM<>?" ++ [0; 42; 0] ++
  [32].

Definition is_letter (c : Z) : bool := (97 <=? c) && (c <=? 122).

(** ** The ring buffer *)

Definition set_ring (b : list Z) (r w : Z) (k : kbd) : kbd :=
  mk_kbd b r w (shift_pressed k) (capslock_on k).

Definition set_shift (v : bool) (k : kbd) : kbd :=
  mk_kbd (keyboard_buffer k) (buffer_read k) (buffer_write k) v (capslock_on k).

Definition set_caps (v : bool) (k : kbd) : kbd :=
  mk_kbd (keyboard_buffer k) (buffer_read k) (buffer_write k) (shift_pressed k) v.

Definition keyboard_push (c : Z) (k : kbd) : kbd :=
  let next := (buffer_write k + 1) mod KEYBOARD_BUFFER_SIZE in
  if negb (next =? buffer_read k)
  then set_ring (zset (keyboard_buffer k) (buffer_write k) c) (buffer_read k) next k
  else k.

(** [None] while the buffer is empty: the caller halts until an interrupt. *)
Definition keyboard_getchar (k : kbd) : option (Z * kbd) :=
  if buffer_read k =? buffer_write k then None
  else
    let c := znth (keyboard_buffer k) (buffer_read k) in
    Some (c, set_ring (keyboard_buffer k) ((buffer_read k + 1) mod KEYBOARD_BUFFER_SIZE)
               (buffer_write k) k).

(** ** The interrupt handler

    [scancode] is what [inb(0x60)] returns; the result is the new state and
    the bytes sent to ports. *)
Definition EOI : Z * Z := (0x20, 0x20).

Definition keyboard_handler (scancode : Z) (k : kbd) : kbd * list (Z * Z) :=
  if (scancode =? SC_LSHIFT_DOWN) || (scancode =? SC_RSHIFT_DOWN)
  then (set_shift true k, [EOI])
  else if (scancode =? SC_LSHIFT_UP) || (scancode =? SC_RSHIFT_UP)
  then (set_shift false k, [EOI])
  else if scancode =? SC_CAPSLOCK
  then (set_caps (negb (capslock_on k)) k, [EOI])
  else if negb (Z.land scancode 0x80 =? 0)
  then (k, [EOI])
  else if scancode <? 128 then
    let c := if shift_pressed k then znth keyboard_map_shift scancode
             else znth keyboard_map scancode in
    let c :=
      if capslock_on k && is_letter (znth keyboard_map scancode) then
        if shift_pressed k then znth keyboard_map scancode
        else znth keyboard_map_shift scancode
      else c in
    (if negb (c =? 0) then keyboard_push c k else k, [EOI])
  else (k, [EOI]).

(** The statics at power-on. *)
Definition kbd_init : kbd := mk_kbd (replicate 128 0) 0 0 false false.

(** ** The abstract queue *)

(** Indices in range: the buffer is never read or written outside its array. *)
Record kbd_ok (k : kbd) : Prop := {
  ko_len : length (keyboard_buffer k) = 128%nat;
  ko_read : 0 ≤ buffer_read k < 128;
  ko_write : 0 ≤ buffer_write k < 128
}.

Definition pending (k : kbd) : Z := (buffer_write k - buffer_read k) mod 128.

(** The characters waiting, oldest first. *)
Definition queue (k : kbd) : list Z :=
  map (λ i, znth (keyboard_buffer k) ((buffer_read k + Z.of_nat i) mod 128))
    (seq 0 (Z.to_nat (pending k))).

(** The contract of the buffer: a bounded queue of 127 characters that drops
    what does not fit. *)
Definition queue_push (c : Z) (q : list Z) : list Z := if zlen q <? 127 then q ++ [c] else q.

Ltac zmod := Z.to_euclidean_division_equations; lia.

Lemma length_queue k : zlen (queue k) = pending k.
Proof. unfold queue, pending, zlen. rewrite length_map, length_seq. zmod. Qed.

Lemma kbd_init_ok : kbd_ok kbd_init.
Proof. split; cbn; [done | lia | lia]. Qed.

Lemma keyboard_push_spec c k :
  kbd_ok k →
  kbd_ok (keyboard_push c k) ∧ queue (keyboard_push c k) = queue_push c (queue k).
Proof.
  intros [Hl Hr Hw]. unfold keyboard_push, queue_push. rewrite length_queue.
  change KEYBOARD_BUFFER_SIZE with 128.
  destruct (Z.eqb_spec ((buffer_write k + 1) mod 128) (buffer_read k)) as [He|Hne]; cbn [negb].
  - split; [done |]. destruct (Z.ltb_spec (pending k) 127); [|done]. unfold pending in *. exfalso. zmod.
  - assert (pending k < 127) as Hp by (unfold pending in *; zmod).
    destruct (Z.ltb_spec (pending k) 127); [|lia]. split.
    { split; cbn; [by rewrite length_zset | done | zmod]. }
    unfold queue, pending in *. cbn [set_ring buffer_read buffer_write keyboard_buffer].
    replace (Z.to_nat (((buffer_write k + 1) mod 128 - buffer_read k) mod 128))
      with (Z.to_nat ((buffer_write k - buffer_read k) mod 128) + 1)%nat by zmod.
    rewrite seq_app, map_app. f_equal.
    + apply map_ext_in. intros i Hi%in_seq. apply znth_zset_ne; [lia | zmod | zmod].
    + cbn [seq map]. f_equal.
      replace ((buffer_read k + Z.of_nat (0 + Z.to_nat ((buffer_write k - buffer_read k) mod 128))) mod 128)
        with (buffer_write k) by zmod.
      apply znth_zset_eq. unfold zlen. lia.
Qed.

Lemma keyboard_getchar_spec k :
  kbd_ok k →
  match queue k with
  | [] => keyboard_getchar k = None
  | c :: q => ∃ k', keyboard_getchar k = Some (c, k') ∧ kbd_ok k' ∧ queue k' = q
  end.
Proof.
  intros [Hl Hr Hw]. unfold keyboard_getchar. change KEYBOARD_BUFFER_SIZE with 128.
  pose proof (length_queue k) as Hlen.
  destruct (Z.eqb_spec (buffer_read k) (buffer_write k)) as [He|Hne].
  - assert (pending k = 0) as Hp by (unfold pending; rewrite He, Z.sub_diag; done).
    rewrite Hp in Hlen. destruct (queue k); [done |]. unfold zlen in Hlen. cbn in Hlen. lia.
  - assert (0 < pending k) as Hp by (unfold pending; zmod).
    assert (queue k = znth (keyboard_buffer k) (buffer_read k) ::
      queue (set_ring (keyboard_buffer k) ((buffer_read k + 1) mod 128) (buffer_write k) k)) as ->.
    { unfold queue, pending in *. cbn [set_ring buffer_read buffer_write keyboard_buffer].
      replace (Z.to_nat ((buffer_write k - buffer_read k) mod 128))
        with (S (Z.to_nat ((buffer_write k - (buffer_read k + 1) mod 128) mod 128))) by zmod.
      cbn [seq map]. f_equal; [f_equal; zmod |].
      rewrite <- seq_shift, map_map. apply map_ext. intros i. f_equal. zmod. }
    eexists. split; [done |]. split; [|done]. split; cbn; [done | zmod | done].
Qed.

(** ** Translation *)

(** What a make code below 0x80 types: letters are upper case when exactly one
    of shift and caps lock is active, everything else follows shift. *)
Definition typed (shift caps : bool) (sc : Z) : Z :=
  let c := znth keyboard_map sc in
  if is_letter c then if xorb shift caps then c - 32 else c
  else if shift then znth keyboard_map_shift sc else c.

Definition is_modifier (sc : Z) : bool :=
  (sc =? SC_LSHIFT_DOWN) || (sc =? SC_RSHIFT_DOWN) || (sc =? SC_CAPSLOCK).

(** The abstract keyboard: modifiers and a bounded queue. *)
Record abs_kbd := mk_abs { abs_queue : list Z; abs_shift : bool; abs_caps : bool }.

Definition abs_key (sc : Z) (a : abs_kbd) : abs_kbd :=
  if (sc =? SC_LSHIFT_DOWN) || (sc =? SC_RSHIFT_DOWN) then mk_abs (abs_queue a) true (abs_caps a)
  else if (sc =? SC_LSHIFT_UP) || (sc =? SC_RSHIFT_UP) then mk_abs (abs_queue a) false (abs_caps a)
  else if sc =? SC_CAPSLOCK then mk_abs (abs_queue a) (abs_shift a) (negb (abs_caps a))
  else if 128 <=? sc then a
  else
    let c := typed (abs_shift a) (abs_caps a) sc in
    if c =? 0 then a else mk_abs (queue_push c (abs_queue a)) (abs_shift a) (abs_caps a).

Definition abstract (k : kbd) : abs_kbd := mk_abs (queue k) (shift_pressed k) (capslock_on k).

(** The character the handler computes from its two tables. *)
Definition handler_char (shift caps : bool) (sc : Z) : Z :=
  let c := if shift then znth keyboard_map_shift sc else znth keyboard_map sc in
  if caps && is_letter (znth keyboard_map sc) then
    if shift then znth keyboard_map sc else znth keyboard_map_shift sc
  else c.

(** Every byte is a number from 0 to 255: a check over all of them. *)
Lemma forall_below (P : Z → bool) n :
  forallb P (seqZ 0 n) = true → ∀ x, 0 ≤ x < n → P x = true.
Proof.
  rewrite forallb_forall. intros Hall x Hx. apply Hall, list_elem_of_In, elem_of_seqZ. lia.
Qed.

Lemma handler_char_typed shift caps sc :
  0 ≤ sc < 128 → handler_char shift caps sc = typed shift caps sc.
Proof.
  intros Hsc. apply Z.eqb_eq. revert sc Hsc.
  apply (forall_below (λ sc, handler_char shift caps sc =? typed shift caps sc)).
  destruct shift, caps; by vm_compute.
Qed.

(** Everything that can be typed is a seven-bit character. *)
Lemma typed_ascii shift caps sc :
  0 ≤ sc < 128 → typed shift caps sc ≠ 0 → 0 < typed shift caps sc < 128.
Proof.
  intros Hsc Hne. assert ((typed shift caps sc =? 0) ||
    ((0 <? typed shift caps sc) && (typed shift caps sc <? 128)) = true) as Hb; [|lia].
  clear Hne. revert sc Hsc. apply (forall_below (λ sc, (typed shift caps sc =? 0) ||
    ((0 <? typed shift caps sc) && (typed shift caps sc <? 128)))).
  destruct shift, caps; by vm_compute.
Qed.

Lemma land_128 sc : 0 ≤ sc < 256 → negb (Z.land sc 0x80 =? 0) = (128 <=? sc).
Proof.
  intros Hsc. apply Bool.eqb_true_iff. revert sc Hsc.
  apply (forall_below (λ sc, Bool.eqb (negb (Z.land sc 0x80 =? 0)) (128 <=? sc))). by vm_compute.
Qed.

(** The handler, with the table logic named. *)
Lemma keyboard_handler_eq sc k :
  keyboard_handler sc k =
    if (sc =? SC_LSHIFT_DOWN) || (sc =? SC_RSHIFT_DOWN) then (set_shift true k, [EOI])
    else if (sc =? SC_LSHIFT_UP) || (sc =? SC_RSHIFT_UP) then (set_shift false k, [EOI])
    else if sc =? SC_CAPSLOCK then (set_caps (negb (capslock_on k)) k, [EOI])
    else if negb (Z.land sc 0x80 =? 0) then (k, [EOI])
    else if sc <? 128 then
      let c := handler_char (shift_pressed k) (capslock_on k) sc in
      (if negb (c =? 0) then keyboard_push c k else k, [EOI])
    else (k, [EOI]).
Proof. reflexivity. Qed.

Lemma keyboard_handler_refines sc k :
  kbd_ok k → is_u8 sc →
  kbd_ok (keyboard_handler sc k).1 ∧ abstract (keyboard_handler sc k).1 = abs_key sc (abstract k) ∧
  (keyboard_handler sc k).2 = [EOI].
Proof.
  intros Hk Hsc. rewrite keyboard_handler_eq. unfold abs_key.
  destruct (_ || _); [by destruct Hk |]. destruct (_ || _); [by destruct Hk |].
  destruct (sc =? SC_CAPSLOCK); [by destruct Hk |]. rewrite land_128 by done.
  destruct (Z.leb_spec 128 sc) as [|Hlt]; [done |]. destruct (Z.ltb_spec sc 128); [|lia].
  cbn [abs_shift abs_caps abstract abs_queue]. cbv zeta.
  rewrite handler_char_typed by (unfold is_u8 in *; lia).
  destruct (typed _ _ _ =? 0); cbn [negb fst snd]; [done |].
  destruct (keyboard_push_spec (typed (shift_pressed k) (capslock_on k) sc) k Hk) as [Hok Hq].
  split_and!; [done | | done]. unfold abstract. rewrite Hq. unfold keyboard_push.
  by destruct (negb _).
Qed.

(** ** Runs: interrupts and reads in any order *)

Inductive kbd_event :=
| Irq (scancode : Z)
| Getchar.

Definition event_ok (e : kbd_event) : Prop :=
  match e with Irq sc => is_u8 sc | Getchar => True end.

(** The characters read, in order; a read of an empty buffer waits, which is a
    step that does nothing. *)
Fixpoint kbd_run (es : list kbd_event) (k : kbd) : list Z * kbd :=
  match es with
  | [] => ([], k)
  | Irq sc :: es => kbd_run es (keyboard_handler sc k).1
  | Getchar :: es =>
      match keyboard_getchar k with
      | None => kbd_run es k
      | Some (c, k) => let '(cs, k) := kbd_run es k in (c :: cs, k)
      end
  end.

Fixpoint abs_run (es : list kbd_event) (a : abs_kbd) : list Z * abs_kbd :=
  match es with
  | [] => ([], a)
  | Irq sc :: es => abs_run es (abs_key sc a)
  | Getchar :: es =>
      match abs_queue a with
      | [] => abs_run es a
      | c :: q => let '(cs, a) := abs_run es (mk_abs q (abs_shift a) (abs_caps a)) in (c :: cs, a)
      end
  end.

(** C24. Refinement: in every interleaving of keyboard interrupts and reads the
    ring buffer behaves like a bounded first-in first-out queue of 127
    characters: the reader gets the same characters in the same order, and the
    indices never leave the array. *)
Theorem keyboard_fifo (es : list kbd_event) (k : kbd) :
  kbd_ok k → Forall event_ok es →
  (kbd_run es k).1 = (abs_run es (abstract k)).1 ∧
  abstract (kbd_run es k).2 = (abs_run es (abstract k)).2 ∧ kbd_ok (kbd_run es k).2.
Proof.
  intros Hk Hes. revert k Hk. induction Hes as [|e es He Hes IH]; intros k Hk; [done |].
  destruct e as [sc|]; cbn [kbd_run abs_run].
  - destruct (keyboard_handler_refines sc k Hk He) as (Hk' & <- & _). by apply IH.
  - pose proof (keyboard_getchar_spec k Hk) as Hg. cbn [abstract abs_queue abs_shift abs_caps].
    destruct (queue k) as [|c q] eqn:Hq.
    + rewrite Hg. by apply IH.
    + destruct Hg as (k' & Hgc & Hk' & Hq'). rewrite Hgc.
      assert (mk_abs q (shift_pressed k) (capslock_on k) = abstract k') as ->.
      { unfold abstract. rewrite Hq'. unfold keyboard_getchar in Hgc.
        destruct (_ =? _); [done |]. by injection Hgc as _ <-. }
      destruct (IH k' Hk') as (H1 & H2 & H3). destruct (kbd_run es k'), (abs_run es (abstract k')).
      cbn in *. by rewrite H1.
Qed.

(** shift down, "a", shift up, "1", then three reads. *)
Lemma keyboard_fifo_witness :
  let es := [Irq 0x2A; Irq 0x1E; Irq 0xAA; Irq 0x02; Getchar; Getchar; Getchar] in
  (kbd_run es kbd_init).1 = (abs_run es (abstract kbd_init)).1 ∧
  abstract (kbd_run es kbd_init).2 = (abs_run es (abstract kbd_init)).2 ∧
  kbd_ok (kbd_run es kbd_init).2.
Proof.
  apply (keyboard_fifo [Irq 0x2A; Irq 0x1E; Irq 0xAA; Irq 0x02; Getchar; Getchar; Getchar] kbd_init).
  - exact kbd_init_ok.
  - repeat constructor; cbn; unfold is_u8; lia.
Defined.

(** C37. Every interrupt is acknowledged exactly once, and the handler types
    what [typed] says: in particular a letter is upper case exactly when one of
    shift and caps lock is active, and only seven-bit characters are queued. *)
Theorem keyboard_handler_types (sc : Z) (k : kbd) :
  kbd_ok k → is_u8 sc → Forall (λ c, 0 < c < 128) (queue k) →
  (keyboard_handler sc k).2 = [EOI] ∧ abstract (keyboard_handler sc k).1 = abs_key sc (abstract k) ∧
  Forall (λ c, 0 < c < 128) (queue (keyboard_handler sc k).1).
Proof.
  intros Hk Hsc Hq. destruct (keyboard_handler_refines sc k Hk Hsc) as (_ & Ha & Ho).
  split_and!; [done | done |].
  change (queue (keyboard_handler sc k).1) with (abs_queue (abstract (keyboard_handler sc k).1)).
  rewrite Ha. unfold abs_key. destruct (_ || _); [done |]. destruct (_ || _); [done |].
  destruct (_ =? SC_CAPSLOCK); [done |]. destruct (Z.leb_spec 128 sc); [done |]. cbv zeta.
  destruct (Z.eqb_spec (typed (abs_shift (abstract k)) (abs_caps (abstract k)) sc) 0) as [|Hne]; [done |].
  cbn [abs_queue abstract]. unfold queue_push. destruct (_ <? _); [|done].
  apply Forall_app. split; [done |]. repeat constructor; apply typed_ascii; done || (unfold is_u8 in *; lia).
Qed.

Lemma keyboard_handler_types_witness :
  (keyboard_handler 0x1E kbd_init).2 = [EOI] ∧
  abstract (keyboard_handler 0x1E kbd_init).1 = abs_key 0x1E (abstract kbd_init) ∧
  Forall (λ c, 0 < c < 128) (queue (keyboard_handler 0x1E kbd_init).1).
Proof.
  apply (keyboard_handler_types 0x1E kbd_init); [exact kbd_init_ok | unfold is_u8; lia | constructor].
Defined.
