(* ===== verification/Allocator.v ===== *)
(** * What the kernel promises of its allocator

    The interface between [kernel/mm.c], which implements it, and its clients:
    the task table of [kernel/task.c] takes its stacks from it. *)
From S2P Require Import Prelude.

Definition NULL : Z := 0.

(** Two blocks (address and size) share no byte. *)
Definition apart (b1 b2 : Z * Z) : Prop := b1.1 + b1.2 ≤ b2.1 ∨ b2.1 + b2.2 ≤ b1.1.

(** [al_live s L]: in state [s] the client holds the blocks [L], each with the
    size asked for; [al_stats] counts the bytes, in all, in use and free.  The operations return ([Some]) on the client's calls. *)
Class Allocator (A : Type) := {
  al_malloc : A → Z → option (Z * A);
  al_free : A → Z → option A;
  al_stats : A → option (Z * Z * Z);
  al_live : A → list (Z * Z) → Prop;
  al_malloc_spec s L size :
    al_live s L → 0 < size ≤ 0xFFFFFFFC →
    ∃ p s', al_malloc s size = Some (p, s') ∧
      (p = NULL ∧ s' = s ∨ p ≠ NULL ∧ al_live s' ((p, size) :: L));
  al_free_spec s L1 L2 p size :
    al_live s (L1 ++ (p, size) :: L2) →
    ∃ s', al_free s p = Some s' ∧ al_live s' (L1 ++ L2);
  al_apart s L i j b1 b2 :
    al_live s L → i ≠ j → L !! i = Some b1 → L !! j = Some b2 → apart b1 b2;
  al_range s L p size :
    al_live s L → (p, size) ∈ L → 0 < p ∧ p + size ≤ 0x90000;
  al_stats_spec s L :
    al_live s L → ∃ used free, al_stats s = Some (used + free, used, free) ∧
      0 ≤ used ∧ 0 ≤ free ∧ used + free ≤ 0x90000
}.
