(* ===== verification/Heap.v ===== *)
(** * The kernel heap of [kernel/mm.c]: a first-fit allocator over a linked list
    of block headers, and its refinement to a list of blocks. *)
From S2P Require Import Prelude Console Allocator.

(** ** Memory *)

(** [sizeof(block_header_t)] on the 32-bit target. *)
Definition HEADER : Z := 12.

Record header := mk_header { h_size : Z; h_free : bool; h_next : Z }.

(** The static [heap_start] and the headers in memory, by address.  Other
    memory is not modelled: clients stay inside their blocks. *)
Record heap := mk_heap { heap_start : Z; mem : gmap Z header }.

Definition set_mem (m : gmap Z header) (h : heap) : heap := mk_heap (heap_start h) m.

(** An entry of the BIOS memory map. *)
Record mmap_entry := mk_mmap { mm_base : Z; mm_length : Z; mm_type : Z }.

Definition u64 (x : Z) : Z := x mod 18446744073709551616.

Fixpoint find_heap_end_loop (entries : list mmap_entry) (heap_start best_end : Z) : Z :=
  match entries with
  | [] => best_end
  | e :: entries' =>
      let best_end :=
        if negb (mm_type e =? 1) then best_end
        else if 0xFFFFFFFF <? mm_base e then best_end
        else
          let region_start := u32 (mm_base e) in
          let region_end := u32 (u64 (mm_base e + mm_length e)) in
          if (region_start <=? heap_start) && (heap_start <? region_end)
          then if best_end <? region_end then region_end else best_end
          else best_end in
      find_heap_end_loop entries' heap_start best_end
  end.

(** [entries] are the first [MMAP_COUNT] entries of the map. *)
Definition find_heap_end (entries : list mmap_entry) (heap_start : Z) : Z :=
  let best_end := find_heap_end_loop entries heap_start (u32 (heap_start + 0x10000)) in
  if 0x90000 <? best_end then 0x90000 else best_end.

(** [bss_end] is [HEAP_START], the address the linker script provides. *)
Definition kmalloc_init (bss_end : Z) (entries : list mmap_entry) (m : gmap Z header) : heap :=
  let heap_end := find_heap_end entries bss_end in
  mk_heap bss_end (<[bss_end := mk_header (u32 (heap_end - bss_end - HEADER)) true NULL]> m).

(** ** Operations

    [None] means that the code follows a pointer to no header, or does not
    come to an end. *)

Definition split_block (m : gmap Z header) (block : Z) (b : header) (size : Z) : gmap Z header :=
  if u32 (size + HEADER + 4) <=? h_size b then
    let new_block := u32 (block + HEADER + size) in
    let m := <[new_block := mk_header (u32 (h_size b - size - HEADER)) true (h_next b)]> m in
    <[block := mk_header size (h_free b) new_block]> m
  else m.

Definition set_free (v : bool) (b : header) : header := mk_header (h_size b) v (h_next b).

Fixpoint kmalloc_loop (fuel : nat) (m : gmap Z header) (curr size : Z) : option (Z * gmap Z header) :=
  if curr =? NULL then Some (NULL, m)
  else
    match fuel with
    | O => None
    | S fuel' =>
        match m !! curr with
        | None => None
        | Some b =>
            if h_free b && (size <=? h_size b) then
              let m := split_block m curr b size in
              match m !! curr with
              | None => None
              | Some b => Some (u32 (curr + HEADER), <[curr := set_free false b]> m)
              end
            else kmalloc_loop fuel' m (h_next b) size
        end
    end.

(** A heap below 0x90000 has fewer than 65536 blocks. *)
Definition HEAP_FUEL : nat := Z.to_nat 65536.

(** [(size + 3) & ~((size_t)3)] *)
Definition align4 (size : Z) : Z := Z.land (u32 (size + 3)) 0xFFFFFFFC.

Definition kmalloc (h : heap) (size : Z) : option (Z * heap) :=
  if (size =? 0) || (heap_start h =? NULL) then Some (NULL, h)
  else
    match kmalloc_loop HEAP_FUEL (mem h) (heap_start h) (align4 size) with
    | None => None
    | Some (p, m) => Some (p, set_mem m h)
    end.

Fixpoint coalesce_loop (fuel : nat) (m : gmap Z header) (curr : Z) : option (gmap Z header) :=
  if curr =? NULL then Some m
  else
    match m !! curr with
    | None => None
    | Some b =>
        if h_next b =? NULL then Some m
        else
          match fuel with
          | O => None
          | S fuel' =>
              match m !! h_next b with
              | None => None
              | Some b2 =>
                  if h_free b && h_free b2
                  then coalesce_loop fuel'
                         (<[curr := mk_header (u32 (h_size b + (HEADER + h_size b2))) (h_free b) (h_next b2)]> m)
                         curr
                  else coalesce_loop fuel' m (h_next b)
              end
          end
    end.

Definition coalesce (h : heap) : option heap :=
  match coalesce_loop HEAP_FUEL (mem h) (heap_start h) with
  | None => None
  | Some m => Some (set_mem m h)
  end.

Definition kfree (h : heap) (ptr : Z) : option heap :=
  if ptr =? NULL then Some h
  else
    let block := u32 (ptr - HEADER) in
    match mem h !! block with
    | None => None
    | Some b => coalesce (set_mem (<[block := set_free true b]> (mem h)) h)
    end.

Fixpoint stats_loop (fuel : nat) (m : gmap Z header) (curr t u f : Z) : option (Z * Z * Z) :=
  if curr =? NULL then Some (t, u, f)
  else
    match fuel with
    | O => None
    | S fuel' =>
        match m !! curr with
        | None => None
        | Some b =>
            let t := u32 (t + h_size b) in
            if h_free b then stats_loop fuel' m (h_next b) t u (u32 (f + h_size b))
            else stats_loop fuel' m (h_next b) t (u32 (u + h_size b)) f
        end
    end.

(** [total], [used] and [free_bytes]. *)
Definition kmalloc_stats (h : heap) : option (Z * Z * Z) :=
  stats_loop HEAP_FUEL (mem h) (heap_start h) 0 0 0.

(** The text [mmap_dump] prints. *)
Definition mmap_dump (entries : list mmap_entry) : cstr :=
  str "Memory map entries: " ++ kprint_hex32 (u16 (zlen entries)) ++ [10] ++
  concat (map (λ e, str "  base=" ++ kprint_hex32 (u32 (mm_base e)) ++
                    str " len=" ++ kprint_hex32 (u32 (mm_length e)) ++
                    str " type=" ++ kprint_hex32 (mm_type e) ++ [10]) entries).


(** ** The abstract heap: the list of its blocks

    A block is its size and whether it is free.  The blocks tile the heap:
    each one starts right after the one before it. *)

Abbreviation blocks := (list (Z * bool)) (only parsing).

Fixpoint total (bs : blocks) : Z :=
  match bs with [] => 0 | (s, _) :: bs' => HEADER + s + total bs' end.

(** The [next] pointer that leads to the blocks [bs] starting at [a]. *)
Definition first_of (a : Z) (bs : blocks) : Z := match bs with [] => NULL | _ => a end.

(** The memory holds the headers of [bs], tiled from address [a] on. *)
Fixpoint heap_seg (m : gmap Z header) (a : Z) (bs : blocks) : Prop :=
  match bs with
  | [] => True
  | (s, f) :: bs' =>
      m !! a = Some (mk_header s f (first_of (a + HEADER + s) bs')) ∧
      heap_seg m (a + HEADER + s) bs'
  end.

(** No two adjacent blocks are free. *)
Fixpoint coalesced (bs : blocks) : Prop :=
  match bs with
  | (_, f1) :: ((_, f2) :: _) as bs' => f1 && f2 = false ∧ coalesced bs'
  | _ => True
  end.

Definition sizes_ok (bs : blocks) : Prop := Forall (λ b, 0 ≤ b.1) bs.

(** The heap's blocks [bs] fill it from its start to [E], below the stack. *)
Record heap_ok (h : heap) (E : Z) (bs : blocks) : Prop := {
  ho_start : 0 < heap_start h;
  ho_end : heap_start h + total bs = E;
  ho_limit : E ≤ 0x90000;
  ho_some : bs ≠ [];
  ho_sizes : sizes_ok bs;
  ho_seg : heap_seg (mem h) (heap_start h) bs;
  ho_coalesced : coalesced bs
}.

(** The blocks in use: address and size of what the client got. *)
Fixpoint in_use (a : Z) (bs : blocks) : list (Z * Z) :=
  match bs with
  | [] => []
  | (s, f) :: bs' =>
      if f : bool then in_use (a + HEADER + s) bs'
      else (a + HEADER, s) :: in_use (a + HEADER + s) bs'
  end.

(** First fit, on blocks: the offset of the block taken and the new blocks. *)
Fixpoint take_block (size : Z) (bs : blocks) : option (Z * blocks) :=
  match bs with
  | [] => None
  | (s, f) :: bs' =>
      if f && (size <=? s) then
        Some (0, if size + HEADER + 4 <=? s
                 then (size, false) :: (s - size - HEADER, true) :: bs'
                 else (s, false) :: bs')
      else
        match take_block size bs' with
        | Some (o, bs') => Some (HEADER + s + o, (s, f) :: bs')
        | None => None
        end
  end.

(** One pass of merging, the block before at hand. *)
Fixpoint merge_from (s : Z) (f : bool) (bs : blocks) : blocks :=
  match bs with
  | [] => [(s, f)]
  | (s2, f2) :: bs' =>
      if f && f2 then merge_from (s + (HEADER + s2)) f bs'
      else (s, f) :: merge_from s2 f2 bs'
  end.

Definition merge (bs : blocks) : blocks :=
  match bs with [] => [] | (s, f) :: bs' => merge_from s f bs' end.

(** *** Lemmas on blocks *)

Lemma total_nonneg bs : sizes_ok bs → HEADER * zlen bs ≤ total bs.
Proof.
  unfold zlen. induction 1 as [|[s f] bs Hs Hbs IH]; cbn [total length fst] in *; unfold HEADER in *; lia.
Qed.

Lemma heap_seg_insert m a bs k x :
  sizes_ok bs → k < a ∨ a + total bs ≤ k → heap_seg m a bs → heap_seg (<[k := x]> m) a bs.
Proof.
  intros Hs. revert a. induction Hs as [|[s f] bs Hs Hbs IH]; intros a Hk Hm; [done |].
  pose proof (total_nonneg bs Hbs). unfold zlen in *. cbn [total heap_seg fst] in *.
  unfold HEADER in *. destruct Hm as [Hm Hms]. split.
  - rewrite lookup_insert_ne by lia. done.
  - apply IH; [lia | done].
Qed.

Lemma coalesced_cons s f bs :
  coalesced ((s, f) :: bs) ↔
  match bs with [] => True | (_, f2) :: _ => f && f2 = false end ∧ coalesced bs.
Proof. destruct bs as [|[s2 f2] bs]; cbn; naive_solver. Qed.

Lemma merge_from_coalesced s f bs : coalesced (merge_from s f bs).
Proof.
  revert s f. induction bs as [|[s2 f2] bs IH]; intros s f; [done |]. cbn.
  destruct (f && f2) eqn:Hf; [apply IH |].
  apply coalesced_cons. split; [| apply IH].
  assert (∃ s' bs', merge_from s2 f2 bs = (s', f2) :: bs') as (s' & bs' & ->); [| done].
  clear. revert s2. induction bs as [|[s3 f3] bs IH]; intros s2; cbn; [eauto |].
  destruct (f2 && f3); [apply IH | eauto].
Qed.

Lemma merge_from_id s f bs : coalesced ((s, f) :: bs) → merge_from s f bs = (s, f) :: bs.
Proof.
  revert s f. induction bs as [|[s2 f2] bs IH]; intros s f Hc; [done |]. cbn.
  apply coalesced_cons in Hc as [Hf Hc]. rewrite Hf. by rewrite IH.
Qed.

Lemma total_merge_from s f bs : total (merge_from s f bs) = total ((s, f) :: bs).
Proof.
  revert s f. induction bs as [|[s2 f2] bs IH]; intros s f; [done |]. cbn.
  destruct (f && f2); [rewrite IH | cbn; rewrite IH]; cbn; unfold HEADER; lia.
Qed.

Lemma sizes_merge_from s f bs : sizes_ok ((s, f) :: bs) → sizes_ok (merge_from s f bs).
Proof.
  revert s f. induction bs as [|[s2 f2] bs IH]; intros s f Hs; [done |]. cbn.
  apply Forall_cons in Hs as [Hs Hbs]. pose proof Hbs as Hbs'.
  apply Forall_cons in Hbs' as [Hs2 Hbs']. cbn in Hs, Hs2. destruct (f && f2).
  - apply IH. constructor; [cbn; unfold HEADER; lia | done].
  - constructor; [done | by apply IH].
Qed.

Lemma in_use_merge_from a s f bs :
  in_use a (merge_from s f bs) = in_use a ((s, f) :: bs).
Proof.
  revert a s f. induction bs as [|[s2 f2] bs IH]; intros a s f; [done |]. cbn [merge_from].
  destruct f; cbn [andb]; [destruct f2 |].
  - rewrite IH. cbn. f_equal. unfold HEADER. lia.
  - cbn. by rewrite IH.
  - cbn. by rewrite IH.
Qed.

Lemma in_use_bounds a bs p n :
  sizes_ok bs → (p, n) ∈ in_use a bs → a + HEADER ≤ p ∧ 0 ≤ n ∧ p + n ≤ a + total bs.
Proof.
  intros Hs. revert a. induction Hs as [|[s f] bs Hs Hbs IH]; intros a; cbn [in_use total fst] in *.
  { by intros ?%elem_of_nil. }
  pose proof (total_nonneg bs Hbs). unfold HEADER, zlen in *.
  destruct f; [| intros [[= -> ->]|Hin]%elem_of_cons; [lia |]].
  - intros Hin%IH. lia.
  - apply IH in Hin. lia.
Qed.

(** Blocks handed out do not overlap. *)
Lemma in_use_disjoint a bs i j b1 b2 :
  sizes_ok bs → (i < j)%nat → in_use a bs !! i = Some b1 → in_use a bs !! j = Some b2 →
  b1.1 + b1.2 + HEADER ≤ b2.1.
Proof.
  intros Hs. revert a i j. induction Hs as [|[s f] bs Hs Hbs IH]; intros a i j Hij; [done |].
  cbn [in_use]. destruct f; [by apply IH |].
  destruct i as [|i], j as [|j]; try lia; cbn.
  - intros [= <-] H2%list_elem_of_lookup_2. destruct b2 as [p n].
    apply in_use_bounds in H2; [| done]. cbn. unfold HEADER in *. lia.
  - apply IH. lia.
Qed.

(** *** First fit on blocks *)

Lemma take_block_spec a size bs o bs' :
  0 ≤ size → sizes_ok bs → coalesced bs → take_block size bs = Some (o, bs') →
  total bs' = total bs ∧ sizes_ok bs' ∧ coalesced bs' ∧ bs' ≠ [] ∧ 0 ≤ o ∧
  (∀ f, coalesced ((0, f) :: bs) → coalesced ((0, f) :: bs')) ∧
  ∃ n, size ≤ n < size + HEADER + 4 ∧
    in_use a bs' ≡ₚ (a + o + HEADER, n) :: in_use a bs.
Proof.
  intros Hsize Hs. revert a o bs'.
  induction Hs as [|[s f] bs Hs Hbs IH]; intros a o bs' Hc; [done |].
  cbn [take_block fst] in *. apply coalesced_cons in Hc as [Hf Hc].
  destruct (f && (size <=? s)) eqn:Hfit.
  - apply andb_true_iff in Hfit as [-> Hfit%Z.leb_le].
    intros [= <- <-]. destruct (Z.leb_spec (size + HEADER + 4) s) as [Hsp|Hsp].
    + cbn [total in_use]. split_and!; try done.
      * lia.
      * repeat constructor; cbn; [lia | unfold HEADER in *; lia | done].
      * apply coalesced_cons. split; [done |]. by apply coalesced_cons.
      * intros f _. apply coalesced_cons. split; [apply andb_false_r |].
        apply coalesced_cons. split; [done |]. by apply coalesced_cons.
      * exists size. split; [unfold HEADER; lia |].
        replace (a + 0 + HEADER) with (a + HEADER) by lia. f_equiv.
        replace (a + HEADER + size + HEADER + (s - size - HEADER)) with (a + HEADER + s) by lia.
        done.
    + cbn [total in_use]. split_and!; try done.
      * by constructor.
      * apply coalesced_cons. split; [by destruct bs as [|[? ?] ?] | done].
      * intros f _. apply coalesced_cons. split; [apply andb_false_r |].
        apply coalesced_cons. split; [by destruct bs as [|[? ?] ?] | done].
      * exists s. split; [lia |]. replace (a + 0 + HEADER) with (a + HEADER) by lia. done.
  - destruct (take_block size bs) as [[o1 bs1]|] eqn:Ht; [| done].
    intros [= <- <-]. destruct (IH (a + HEADER + s) o1 bs1 Hc eq_refl)
      as (Htot & Hs1 & Hc1 & Hne & Ho & Hh & n & Hn & Hp).
    cbn [total in_use]. split_and!; try done.
    + lia.
    + by constructor.
    + assert (coalesced ((0, f) :: bs1)) as Hcf.
      { apply Hh, coalesced_cons. by split. }
      apply coalesced_cons in Hcf as [Hcf _]. by apply coalesced_cons.
    + unfold HEADER. lia.
    + intros f' [Hff _]%coalesced_cons. apply coalesced_cons. split; [done |].
      assert (coalesced ((0, f) :: bs1)) as Hcf.
      { apply Hh, coalesced_cons. by split. }
      apply coalesced_cons in Hcf as [Hcf _]. by apply coalesced_cons.
    + exists n. split; [done |].
      replace (a + (HEADER + s + o1) + HEADER) with (a + HEADER + s + o1 + HEADER) by lia.
      destruct f; [done |]. rewrite Hp. apply Permutation_swap.
Qed.

(** First fit finds nothing only when nothing fits. *)
Lemma take_block_none size bs s :
  take_block size bs = None → (s, true) ∈ bs → s < size.
Proof.
  induction bs as [|[s1 f1] bs IH]; cbn; [by intros _ ?%elem_of_nil |].
  destruct (f1 && (size <=? s1)) eqn:Hfit; [done |].
  destruct (take_block size bs) as [[? ?]|] eqn:Ht; [done |].
  intros _ [[= <- <-]|Hin]%elem_of_cons; [| by apply IH].
  cbn in Hfit. by apply Z.leb_gt in Hfit.
Qed.

(** *** Freeing on blocks *)

Fixpoint free_block (a p : Z) (bs : blocks) : blocks :=
  match bs with
  | [] => []
  | (s, f) :: bs' =>
      if a + HEADER =? p then (s, true) :: bs'
      else (s, f) :: free_block (a + HEADER + s) p bs'
  end.

Lemma free_block_spec a p n bs :
  sizes_ok bs → (p, n) ∈ in_use a bs →
  total (free_block a p bs) = total bs ∧ sizes_ok (free_block a p bs) ∧
  free_block a p bs ≠ [] ∧
  (p, n) :: in_use a (free_block a p bs) ≡ₚ in_use a bs.
Proof.
  intros Hs. revert a. induction Hs as [|[s f] bs Hs Hbs IH]; intros a; cbn [in_use free_block].
  { by intros ?%elem_of_nil. }
  cbn [fst] in Hs. intros Hin.
  assert (a + HEADER = p ∧ f = false ∧ s = n ∨
          a + HEADER ≠ p ∧ (p, n) ∈ in_use (a + HEADER + s) bs) as [(<- & -> & ->)|[Hne Hin']].
  { destruct f.
    - right. split; [| done]. apply in_use_bounds in Hin; [unfold HEADER in *; lia | done].
    - apply elem_of_cons in Hin as [[= -> ->]|Hin]; [by left |]. right. split; [| done].
      apply in_use_bounds in Hin; [unfold HEADER in *; lia | done]. }
  - rewrite Z.eqb_refl. cbn [total in_use]. split_and!; try done. by constructor.
  - apply Z.eqb_neq in Hne. rewrite Hne.
    destruct (IH _ Hin') as (Ht & Hsz & _ & Hp). cbn [total in_use].
    split_and!; try done; [lia | by constructor |].
    destruct f; [done |]. rewrite <- Hp. apply Permutation_swap.
Qed.

Lemma take_block_offset size bs o bs' :
  sizes_ok bs → take_block size bs = Some (o, bs') → 0 ≤ o.
Proof.
  intros Hs. revert o bs'. induction Hs as [|[s f] bs Hs Hbs IH]; intros o bs'; [done |].
  cbn [take_block fst] in *. destruct (f && (size <=? s)); [intros [= <- <-]; lia |].
  destruct (take_block size bs) as [[o1 bs1]|]; [| done].
  intros [= <- <-]. specialize (IH o1 bs1 eq_refl). unfold HEADER. lia.
Qed.

(** Freeing the block just taken gives back the blocks there were. *)
Lemma free_take_block a size bs o bs' :
  0 ≤ size → sizes_ok bs → coalesced bs → take_block size bs = Some (o, bs') →
  merge (free_block a (a + o + HEADER) bs') = bs.
Proof.
  intros Hsize Hs. revert a o bs'.
  induction Hs as [|[s f] bs Hs Hbs IH]; intros a o bs' Hc; [done |].
  cbn [take_block fst] in *. pose proof Hc as [Hf Hc']%coalesced_cons.
  destruct (f && (size <=? s)) eqn:Hfit.
  - apply andb_true_iff in Hfit as [-> Hfit%Z.leb_le]. intros [= <- <-].
    replace (a + 0 + HEADER) with (a + HEADER) by lia.
    destruct (Z.leb_spec (size + HEADER + 4) s) as [Hsp|Hsp];
      cbn [free_block]; rewrite Z.eqb_refl; cbn [merge].
    + cbn [merge_from andb]. replace (size + _) with s by lia. by apply merge_from_id.
    + by apply merge_from_id.
  - destruct (take_block size bs) as [[o1 bs1]|] eqn:Ht; [| done].
    intros [= <- <-].
    pose proof (take_block_offset _ _ _ _ Hbs Ht) as Ho.
    specialize (IH (a + HEADER + s) o1 bs1 Hc' eq_refl).
    replace (a + (HEADER + s + o1) + HEADER) with (a + HEADER + s + o1 + HEADER) by lia.
    cbn [free_block]. destruct (Z.eqb_spec (a + HEADER) (a + HEADER + s + o1 + HEADER));
      [unfold HEADER in *; lia |].
    cbn [merge]. destruct bs as [|[s2 f2] bs]; [done |]. cbn [take_block] in Ht.
    destruct (f2 && (size <=? s2)) eqn:Hfit2.
    + apply andb_true_iff in Hfit2 as [-> _]. rewrite andb_true_r in Hf. subst f.
      destruct (free_block _ _ bs1) as [|[s3 f3] X] eqn:HX; [done |].
      cbn [merge_from andb]. cbn [merge] in IH. by rewrite IH.
    + destruct (take_block size bs) as [[o2 bs2]|] eqn:Ht2; [| done].
      apply Forall_cons in Hbs as [Hs2 Hbs]. cbn in Hs2.
      pose proof (take_block_offset _ _ _ _ Hbs Ht2) as Ho2.
      injection Ht as <- <-. cbn [free_block] in IH |- *.
      destruct (Z.eqb_spec (a + HEADER + s + HEADER) (a + HEADER + s + (HEADER + s2 + o2) + HEADER)) as [He|He]; [unfold HEADER in *; lia |].
      cbn [merge merge_from] in IH |- *. rewrite Hf. by rewrite IH.
Qed.

(** ** Refinement: the loops of the code on blocks laid out in memory *)

(** The range of a 32-bit address computation below the stack. *)
Ltac heap_lia := unfold HEADER, NULL, is_u32, zlen in *; lia.

Lemma first_of_cons a b bs : 0 < a → (first_of a (b :: bs) =? NULL) = false.
Proof. intros Ha. apply Z.eqb_neq. cbn. heap_lia. Qed.

Lemma split_block_seg m a s bs size :
  0 < a → a + total ((s, true) :: bs) ≤ 0x90000 → sizes_ok ((s, true) :: bs) →
  0 ≤ size ≤ s → heap_seg m a ((s, true) :: bs) →
  ∃ b, split_block m a (mk_header s true (first_of (a + HEADER + s) bs)) size !! a = Some b ∧
    heap_seg (<[a := set_free false b]>
               (split_block m a (mk_header s true (first_of (a + HEADER + s) bs)) size)) a
      (if size + HEADER + 4 <=? s then (size, false) :: (s - size - HEADER, true) :: bs
       else (s, false) :: bs) ∧
    (∀ k, k < a → split_block m a (mk_header s true (first_of (a + HEADER + s) bs)) size !! k = m !! k).
Proof.
  intros Ha Hlim [_ Hbs]%Forall_cons Hsize [Hm Hseg].
  pose proof (total_nonneg bs Hbs). cbn [total] in Hlim. unfold split_block. cbn [h_size h_free h_next].
  rewrite (u32_small (size + HEADER + 4)) by heap_lia.
  destruct (Z.leb_spec (size + HEADER + 4) s) as [Hsp|Hsp].
  - rewrite (u32_small (a + HEADER + size)), (u32_small (s - size - HEADER)) by heap_lia.
    eexists. rewrite lookup_insert_eq. split_and!; [done | |].
    + cbn [heap_seg first_of]. unfold set_free. cbn. rewrite lookup_insert_eq.
      split_and!; [done | |].
      * rewrite !lookup_insert_ne by heap_lia. rewrite lookup_insert_eq.
        do 3 f_equal. lia.
      * replace (a + HEADER + size + HEADER + (s - size - HEADER)) with (a + HEADER + s) by lia.
        apply heap_seg_insert, heap_seg_insert, heap_seg_insert; try done; left; heap_lia.
    + intros k Hk. by rewrite !lookup_insert_ne by heap_lia.
  - exists (mk_header s true (first_of (a + HEADER + s) bs)). split_and!; try done.
    cbn [heap_seg]. rewrite lookup_insert_eq. split; [done |].
    apply heap_seg_insert; try done. left. heap_lia.
Qed.

Lemma kmalloc_loop_refines fuel m a bs size :
  0 < a → a + total bs ≤ 0x90000 → sizes_ok bs → 0 ≤ size → (length bs ≤ fuel)%nat →
  heap_seg m a bs →
  match take_block size bs with
  | Some (o, bs') => ∃ m',
      kmalloc_loop fuel m (first_of a bs) size = Some (a + o + HEADER, m') ∧
      heap_seg m' a bs' ∧ first_of a bs' = first_of a bs ∧ (∀ k, k < a → m' !! k = m !! k)
  | None => kmalloc_loop fuel m (first_of a bs) size = Some (NULL, m)
  end.
Proof.
  revert fuel a. induction bs as [|[s f] bs IH]; intros fuel a Ha Hlim Hs Hsize Hfuel Hseg.
  { by destruct fuel. }
  destruct fuel as [|fuel]; [cbn in Hfuel; lia |].
  pose proof Hs as [Hs1 Hbs]%Forall_cons. cbn [fst] in Hs1.
  pose proof (total_nonneg bs Hbs) as Htb. pose proof Hseg as [Hm Hseg'].
  cbn [kmalloc_loop take_block]. rewrite (first_of_cons a (s, f) bs Ha). cbn [first_of].
  rewrite Hm. cbn [h_free h_size h_next].
  destruct (f && (size <=? s)) eqn:Hfit.
  - apply andb_true_iff in Hfit as [-> Hfit%Z.leb_le].
    destruct (split_block_seg m a s bs size Ha Hlim Hs) as (b & Hb & Hnew & Hkeep); [lia | done |].
    rewrite Hb. eexists. split_and!; [| exact Hnew | by case_match |].
    + cbn [total] in Hlim. rewrite u32_small by heap_lia. do 2 f_equal. lia.
    + intros k Hk. rewrite lookup_insert_ne by lia. by apply Hkeep.
  - cbn [total length] in *.
    specialize (IH fuel (a + HEADER + s)). destruct (take_block size bs) as [[o bs']|].
    + destruct IH as (m' & -> & Hm' & Hfirst & Hkeep); try done; [heap_lia.. |].
      exists m'. split_and!; [do 2 f_equal; lia | | done |].
      * cbn [heap_seg]. split; [| done]. rewrite Hkeep by heap_lia. by rewrite Hm, Hfirst.
      * intros k Hk. apply Hkeep. heap_lia.
    + apply IH; try done; heap_lia.
Qed.

Lemma coalesce_loop_refines fuel m a s f bs :
  0 < a → a + total ((s, f) :: bs) ≤ 0x90000 → sizes_ok ((s, f) :: bs) →
  (length bs ≤ fuel)%nat → heap_seg m a ((s, f) :: bs) →
  ∃ m', coalesce_loop fuel m a = Some m' ∧ heap_seg m' a (merge_from s f bs) ∧
    (∀ k, k < a → m' !! k = m !! k).
Proof.
  revert fuel m a s f. induction bs as [|[s2 f2] bs IH]; intros fuel m a s f Ha Hlim Hs Hfuel [Hm Hseg].
  - exists m. split_and!; try done. destruct fuel; cbn; rewrite Hm;
      destruct (Z.eqb_spec a NULL); done.
  - destruct fuel as [|fuel]; [cbn in Hfuel; lia |].
    apply Forall_cons in Hs as [Hs1 Hs2]. pose proof Hs2 as [Hs3 Hbs]%Forall_cons.
    cbn [fst] in Hs1, Hs3. pose proof (total_nonneg bs Hbs). pose proof Hseg as [Hm2 Hseg2].
    cbn [coalesce_loop]. destruct (Z.eqb_spec a NULL); [heap_lia |].
    rewrite Hm. cbn [h_next h_free h_size first_of]. cbn [total length] in Hlim, Hfuel.
    destruct (Z.eqb_spec (a + HEADER + s) NULL); [heap_lia |].
    rewrite Hm2. cbn [h_free h_size h_next merge_from]. destruct (f && f2).
    + rewrite u32_small by heap_lia.
      edestruct (IH fuel) as (m' & -> & Hm' & Hkeep).
      5: { cbn [heap_seg]. rewrite lookup_insert_eq.
           replace (a + HEADER + s + HEADER + s2) with (a + HEADER + (s + (HEADER + s2))) in * by lia.
           split; [reflexivity |].
           apply heap_seg_insert; [done | left; heap_lia | exact Hseg2]. }
      * done.
      * cbn [total]. lia.
      * constructor; [cbn; heap_lia | done].
      * lia.
      * exists m'. split_and!; try done. intros k Hk. rewrite Hkeep by done.
        by rewrite lookup_insert_ne by lia.
    + edestruct (IH fuel m (a + HEADER + s) s2 f2) as (m' & -> & Hm' & Hkeep);
        [heap_lia | cbn [total]; heap_lia | done | lia | done |].
      exists m'. split_and!; try done.
      * cbn [heap_seg]. split; [| done]. rewrite Hkeep by heap_lia. rewrite Hm.
        do 2 f_equal. clear. revert s2. induction bs as [|[s3 f3] bs IH]; intros s2; [done |].
        cbn. destruct (f2 && f3); [| done]. rewrite <- (IH (s2 + (HEADER + s3))). done.
      * intros k Hk. apply Hkeep. heap_lia.
Qed.

(** The header [kfree] finds, and the memory once it is marked free. *)
Lemma free_block_seg m a p n bs :
  sizes_ok bs → heap_seg m a bs → (p, n) ∈ in_use a bs →
  ∃ b, m !! (p - HEADER) = Some b ∧
    heap_seg (<[p - HEADER := set_free true b]> m) a (free_block a p bs) ∧
    (∀ k, k < a → <[p - HEADER := set_free true b]> m !! k = m !! k).
Proof.
  intros Hs. revert a. induction Hs as [|[s f] bs Hs Hbs IH]; intros a Hseg.
  { by intros ?%elem_of_nil. }
  destruct Hseg as [Hm Hseg].
  cbn [fst] in Hs. cbn [free_block in_use]. intros Hin.
  pose proof (total_nonneg bs Hbs).
  destruct (Z.eqb_spec (a + HEADER) p) as [<-|Hne].
  - replace (a + HEADER - HEADER) with a by lia. eexists. split_and!; [done | |].
    + cbn [heap_seg]. rewrite lookup_insert_eq. split; [done |].
      apply heap_seg_insert; [done | left; heap_lia | done].
    + intros k Hk. by rewrite lookup_insert_ne by lia.
  - assert ((p, n) ∈ in_use (a + HEADER + s) bs) as Hin'.
    { destruct f; [done |]. apply elem_of_cons in Hin as [[= -> ->]|]; done. }
    pose proof (in_use_bounds _ _ _ _ Hbs Hin').
    destruct (IH (a + HEADER + s)) as (b & Hb & Hnew & Hkeep); [done.. |].
    exists b. split_and!; [done | |].
    + cbn [heap_seg]. rewrite lookup_insert_ne by heap_lia. split; [| done].
      rewrite Hm. do 2 f_equal. destruct bs as [|[s2 f2] bs]; [done |]. cbn.
      by destruct (_ =? p).
    + intros k Hk. rewrite lookup_insert_ne by heap_lia. done.
Qed.

Lemma heap_fuel h E bs : heap_ok h E bs → (length bs ≤ HEAP_FUEL)%nat.
Proof.
  intros [Ha HE Hlim _ Hs _ _]. pose proof (total_nonneg bs Hs). unfold HEAP_FUEL. heap_lia.
Qed.

(** ** The operations on a well-formed heap *)

Lemma align4_spec size :
  0 ≤ size ≤ 0xFFFFFFFC → size ≤ align4 size < size + 4 ∧ align4 size mod 4 = 0.
Proof.
  intros Hs. unfold align4. rewrite u32_small by heap_lia.
  assert (Z.land (size + 3) 0xFFFFFFFC = (size + 3) / 4 * 4) as ->.
  { change 0xFFFFFFFC with (Z.shiftl (Z.ones 30) 2).
    apply Z.bits_inj'. intros k Hk. rewrite Z.land_spec.
    change 4 with (2 ^ 2). rewrite <- Z.shiftr_div_pow2, <- Z.shiftl_mul_pow2 by lia.
    destruct (Z.ltb_spec k 2).
    - rewrite !Z.shiftl_spec_low by lia. apply andb_false_r.
    - rewrite !Z.shiftl_spec, Z.shiftr_spec by lia. replace (k - 2 + 2) with k by lia.
      destruct (Z.ltb_spec (k - 2) 30).
      + rewrite Z.ones_spec_low by lia. apply andb_true_r.
      + rewrite Z.ones_spec_high by lia. rewrite andb_false_r. symmetry.
        destruct (Z.eq_dec (size + 3) 0); [lia |].
        apply Z.bits_above_log2; [lia |].
        apply Z.log2_lt_pow2; [lia |].
        apply (Z.lt_le_trans _ (2 ^ 32)); [lia | apply Z.pow_le_mono_r; lia]. }
  rewrite Z_mod_mult. Z.to_euclidean_division_equations; lia.
Qed.

Lemma kmalloc_take h E bs size :
  heap_ok h E bs → 0 ≤ align4 size → size ≠ 0 →
  match take_block (align4 size) bs with
  | Some (o, bs') => ∃ h',
      kmalloc h size = Some (heap_start h + o + HEADER, h') ∧ heap_ok h' E bs' ∧
      heap_start h' = heap_start h
  | None => kmalloc h size = Some (NULL, h)
  end.
Proof.
  intros Hok Hal Hz. pose proof (heap_fuel _ _ _ Hok) as Hfuel.
  destruct Hok as [Ha HE Hlim Hne Hs Hseg Hc]. unfold kmalloc.
  apply Z.eqb_neq in Hz. rewrite Hz.
  assert ((heap_start h =? NULL) = false) as -> by (apply Z.eqb_neq; heap_lia). cbn [orb].
  pose proof (kmalloc_loop_refines HEAP_FUEL (mem h) (heap_start h) bs (align4 size)
    Ha ltac:(lia) Hs Hal Hfuel Hseg) as Hl.
  assert (first_of (heap_start h) bs = heap_start h) as Hf by (by destruct bs).
  rewrite Hf in Hl. destruct (take_block _ bs) as [[o bs']|] eqn:Ht.
  - destruct Hl as (m' & -> & Hm' & _ & _). eexists. split; [done |]. split; [| done].
    destruct (take_block_spec (heap_start h) _ _ _ _ Hal Hs Hc Ht) as (Ht' & Hs' & Hc' & Hne' & _).
    constructor; cbn; try done. lia.
  - rewrite Hl. by destruct h.
Qed.

Lemma kmalloc_ok h E bs size :
  heap_ok h E bs → 0 < size ≤ 0xFFFFFFFC →
  ∃ p h', kmalloc h size = Some (p, h') ∧
    (p = NULL ∧ h' = h ∧ (∀ s, (s, true) ∈ bs → s < align4 size) ∨
     p ≠ NULL ∧ heap_start h' = heap_start h ∧
     ∃ bs' n, heap_ok h' E bs' ∧ size ≤ n < size + HEADER + 8 ∧
       in_use (heap_start h) bs' ≡ₚ (p, n) :: in_use (heap_start h) bs).
Proof.
  intros Hok Hsize. destruct (align4_spec size) as [Hal _]; [lia |].
  pose proof (kmalloc_take h E bs size Hok ltac:(lia) ltac:(lia)) as Hk.
  destruct (take_block _ bs) as [[o bs']|] eqn:Ht.
  - destruct Hk as (h' & Hk & Hok' & Hst). do 2 eexists. split; [exact Hk |]. right.
    destruct Hok as [Ha HE Hlim Hne Hs Hseg Hc].
    destruct (take_block_spec (heap_start h) (align4 size) bs o bs' ltac:(lia) Hs Hc Ht)
      as (_ & _ & _ & _ & Ho & _ & n & Hn & Hp).
    split_and!; [heap_lia | done |]. exists bs', n. split_and!; [done | heap_lia.. | done].
  - exists NULL, h. split; [done |]. left. split_and!; [done.. |].
    intros s. by apply take_block_none.
Qed.

Lemma kfree_merge h E bs p n :
  heap_ok h E bs → (p, n) ∈ in_use (heap_start h) bs →
  ∃ h', kfree h p = Some h' ∧ heap_start h' = heap_start h ∧
    heap_ok h' E (merge (free_block (heap_start h) p bs)).
Proof.
  intros Hok Hin. pose proof (heap_fuel _ _ _ Hok) as Hfuel.
  destruct Hok as [Ha HE Hlim Hne Hs Hseg Hc].
  pose proof (in_use_bounds _ _ _ _ Hs Hin) as Hb.
  destruct (free_block_seg _ _ _ _ _ Hs Hseg Hin) as (b & Hmb & Hnew & _).
  destruct (free_block_spec _ _ _ _ Hs Hin) as (Htot & Hsz & Hne' & _).
  assert (length (free_block (heap_start h) p bs) = length bs) as Hlen.
  { clear. generalize (heap_start h). induction bs as [|[s f] bs IH]; intros a; [done |].
    cbn. destruct (_ =? p); cbn; [done | by rewrite IH]. }
  unfold kfree. destruct (Z.eqb_spec p NULL); [heap_lia |].
  rewrite u32_small by heap_lia. rewrite Hmb. unfold coalesce. cbn [set_mem mem heap_start].
  destruct (free_block (heap_start h) p bs) as [|[s f] bs'] eqn:Hfb; [done |].
  destruct (coalesce_loop_refines HEAP_FUEL _ _ s f bs' Ha ltac:(lia) Hsz
    ltac:(cbn in Hlen; lia) Hnew) as (m' & -> & Hm' & _).
  eexists. split_and!; [done.. |]. cbn [merge].
  assert (merge_from s f bs' ≠ []) as Hmne.
  { intros Hm. pose proof (total_merge_from s f bs') as Ht. rewrite Hm in Ht.
    pose proof (total_nonneg _ Hsz). cbn [total] in *. heap_lia. }
  constructor; cbn [set_mem mem heap_start]; try done.
  - rewrite total_merge_from. lia.
  - by apply sizes_merge_from.
  - apply merge_from_coalesced.
Qed.

Lemma kfree_ok h E bs p n :
  heap_ok h E bs → (p, n) ∈ in_use (heap_start h) bs →
  ∃ h' bs', kfree h p = Some h' ∧ heap_start h' = heap_start h ∧ heap_ok h' E bs' ∧
    (p, n) :: in_use (heap_start h) bs' ≡ₚ in_use (heap_start h) bs.
Proof.
  intros Hok Hin. destruct (kfree_merge _ _ _ _ _ Hok Hin) as (h' & Hk & Hst & Hok').
  exists h'. eexists. split_and!; [done | done | exact Hok' |].
  destruct (free_block_spec _ _ _ _ (ho_sizes _ _ _ Hok) Hin) as (_ & _ & Hne & Hp).
  destruct (free_block _ p bs) as [|[s f] bs']; [done |]. cbn [merge].
  by rewrite in_use_merge_from.
Qed.

Fixpoint used_bytes (bs : blocks) : Z :=
  match bs with [] => 0 | (s, f) :: bs' => (if f then 0 else s) + used_bytes bs' end.
Fixpoint free_bytes (bs : blocks) : Z :=
  match bs with [] => 0 | (s, f) :: bs' => (if f then s else 0) + free_bytes bs' end.

Lemma used_free_total bs : used_bytes bs + free_bytes bs + HEADER * zlen bs = total bs.
Proof.
  induction bs as [|[s f] bs IH]; [done |].
  cbn [used_bytes free_bytes total].
  unfold zlen in *. cbn [length]. destruct f; cbv iota; heap_lia.
Qed.

Lemma used_free_nonneg bs : sizes_ok bs → 0 ≤ used_bytes bs ∧ 0 ≤ free_bytes bs.
Proof. induction 1 as [|[s []] bs Hs _ IH]; cbn in *; lia. Qed.

Lemma stats_loop_spec fuel m a bs t u f :
  0 < a → a + total bs ≤ 0x90000 → sizes_ok bs → (length bs ≤ fuel)%nat → heap_seg m a bs →
  0 ≤ u → 0 ≤ f → t = u + f → t + total bs ≤ 0x90000 →
  stats_loop fuel m (first_of a bs) t u f =
    Some (t + used_bytes bs + free_bytes bs, u + used_bytes bs, f + free_bytes bs).
Proof.
  revert fuel a t u f.
  induction bs as [|[s b] bs IH]; intros fuel a t u f Ha Hlim Hs Hfuel Hseg Hu Hf Ht Htl.
  { destruct fuel; cbn; do 3 f_equal; lia. }
  destruct fuel as [|fuel]; [cbn in Hfuel; lia |].
  apply Forall_cons in Hs as [Hs1 Hs]. cbn in Hs1. destruct Hseg as [Hm Hseg].
  pose proof (total_nonneg bs Hs). cbn [total length] in *.
  cbn [stats_loop]. rewrite (first_of_cons a (s, b) bs Ha). cbn [first_of]. rewrite Hm.
  cbn [h_size h_free h_next].
  cbn [used_bytes free_bytes].
  rewrite (u32_small (t + s)) by heap_lia. destruct b.
  - rewrite u32_small by heap_lia. rewrite IH; try done; try heap_lia. apply f_equal, f_equal2; [apply f_equal2 |]; lia.
  - rewrite u32_small by heap_lia. rewrite IH; try done; try heap_lia. apply f_equal, f_equal2; [apply f_equal2 |]; lia.
Qed.

Lemma used_bytes_in_use a bs : used_bytes bs = foldr (λ (b : Z * Z) acc, b.2 + acc) 0 (in_use a bs).
Proof.
  revert a. induction bs as [|[s f] bs IH]; intros a; [done |].
  cbn [used_bytes in_use]. rewrite (IH (a + HEADER + s)).
  by destruct f.
Qed.

Lemma kmalloc_stats_ok h E bs :
  heap_ok h E bs →
  kmalloc_stats h = Some (used_bytes bs + free_bytes bs, used_bytes bs, free_bytes bs).
Proof.
  intros Hok. pose proof (used_free_total bs). pose proof (heap_fuel _ _ _ Hok).
  destruct Hok as [Ha HE Hlim Hne Hs Hseg _]. unfold kmalloc_stats.
  assert (heap_start h = first_of (heap_start h) bs) as Hf by (by destruct bs).
  rewrite Hf at 1. rewrite (stats_loop_spec HEAP_FUEL (mem h) (heap_start h) bs); try done; lia.
Qed.

(** ** The allocator the kernel's clients see *)

(** The client's blocks [L] are the blocks in use, up to order; a block can be
    larger than what was asked for. *)
Definition client_view (L U : list (Z * Z)) : Prop :=
  ∃ U', U' ≡ₚ U ∧ Forall2 (λ x u, x.1 = u.1 ∧ x.2 ≤ u.2) L U'.

(** The heap from [a] to [E], with the client's blocks [L]. *)
Definition heap_holds (a E : Z) (h : heap) (L : list (Z * Z)) : Prop :=
  heap_start h = a ∧ ∃ bs, heap_ok h E bs ∧ client_view L (in_use a bs).

Definition heap_live (h : heap) (L : list (Z * Z)) : Prop := ∃ a E, heap_holds a E h L.

Section holds.
Context (a E : Z).

Lemma kmalloc_holds h L size :
  heap_holds a E h L → 0 < size ≤ 0xFFFFFFFC →
  ∃ p h', kmalloc h size = Some (p, h') ∧
    (p = NULL ∧ h' = h ∨ p ≠ NULL ∧ heap_holds a E h' ((p, size) :: L)).
Proof.
  intros (<- & bs & Hok & U & Hp & HL) Hsize.
  destruct (kmalloc_ok h E bs size Hok Hsize) as (p & h' & Hk & Hres).
  exists p, h'. split; [done |].
  destruct Hres as [(-> & -> & _)|(Hne & Hst & bs' & n & Hok' & Hn & Hp')]; [by left |].
  right. split; [done |]. split; [done |]. exists bs'. split; [done |].
  exists ((p, n) :: U). split; [by rewrite Hp, Hp' |].
  constructor; [cbn; lia | done].
Qed.

Lemma kfree_holds h L1 L2 p size :
  heap_holds a E h (L1 ++ (p, size) :: L2) →
  ∃ h', kfree h p = Some h' ∧ heap_holds a E h' (L1 ++ L2).
Proof.
  intros (<- & bs & Hok & U & Hp & HL).
  apply Forall2_app_inv_l in HL as (U1 & U2' & HL1 & HL2 & ->).
  apply Forall2_cons_inv_l in HL2 as ([p' n] & U2 & [Hpn Hn] & HL2 & ->). cbn in Hpn, Hn.
  subst p'. destruct (kfree_ok h E bs p n Hok) as (h' & bs' & Hk & Hst & Hok' & Hp').
  { rewrite <- Hp. apply elem_of_app. right. by left. }
  exists h'. split; [done |]. split; [done |]. exists bs'. split; [done |].
  exists (U1 ++ U2). split; [| by apply Forall2_app].
  apply (Permutation_cons_inv (a := (p, n))). rewrite Hp', <- Hp.
  by rewrite Permutation_middle.
Qed.

Lemma holds_apart h L i j b1 b2 :
  heap_holds a E h L → i ≠ j → L !! i = Some b1 → L !! j = Some b2 → apart b1 b2.
Proof.
  intros (<- & bs & Hok & U & Hp & HL) Hij H1 H2.
  destruct (Forall2_lookup_l _ _ _ _ _ HL H1) as ([p1 n1] & HU1 & Hb1 & Hn1).
  destruct (Forall2_lookup_l _ _ _ _ _ HL H2) as ([p2 n2] & HU2 & Hb2 & Hn2).
  apply Permutation_inj in Hp as (_ & g & Hinj & Hg).
  rewrite Hg in HU1, HU2. cbn in *.
  assert (g i ≠ g j) as Hgij by (by intros ?%Hinj).
  pose proof (ho_sizes _ _ _ Hok) as Hs. unfold apart.
  destruct (decide (g i < g j)%nat).
  - left. pose proof (in_use_disjoint _ _ _ _ _ _ Hs ltac:(done) HU1 HU2) as Hd.
    cbn in Hd. heap_lia.
  - right. assert (g j < g i)%nat as Hlt by lia.
    pose proof (in_use_disjoint _ _ _ _ _ _ Hs Hlt HU2 HU1) as Hd. cbn in Hd. heap_lia.
Qed.

Lemma holds_range h L p size :
  heap_holds a E h L → (p, size) ∈ L → 0 < a ∧ a + HEADER ≤ p ∧ p + size ≤ E ∧ E ≤ 0x90000.
Proof.
  intros (<- & bs & Hok & U & Hp & HL) [i Hi]%list_elem_of_lookup.
  destruct (Forall2_lookup_l _ _ _ _ _ HL Hi) as ([p1 n1] & HU1 & Hb1 & Hn1).
  cbn in *. subst p1. apply list_elem_of_lookup_2 in HU1. rewrite Hp in HU1.
  destruct Hok as [Ha HE Hlim _ Hs _ _]. pose proof (in_use_bounds _ _ _ _ Hs HU1). heap_lia.
Qed.
End holds.

(** [kernel/mm.c] implements the interface. *)
#[export] Program Instance heap_allocator : Allocator heap := {
  al_malloc := kmalloc;
  al_free := kfree;
  al_stats := kmalloc_stats;
  al_live := heap_live
}.
Next Obligation.
  intros h L size (a & E & HL) Hs.
  destruct (kmalloc_holds a E h L size HL Hs) as (p & h' & Hk & Hr).
  exists p, h'. split; [done |]. destruct Hr as [?|[? ?]]; [by left | right].
  split; [done |]. by exists a, E.
Qed.
Next Obligation.
  intros h L1 L2 p size (a & E & HL).
  destruct (kfree_holds a E h L1 L2 p size HL) as (h' & Hk & HL'). exists h'.
  split; [done |]. by exists a, E.
Qed.
Next Obligation. intros h L i j b1 b2 (a & E & HL). by apply (holds_apart a E h). Qed.
Next Obligation.
  intros h L p size (a & E & HL) Hin.
  pose proof (holds_range a E h L p size HL Hin). heap_lia.
Qed.
Next Obligation.
  intros h L (a & E & <- & bs & Hok & _). exists (used_bytes bs), (free_bytes bs).
  split; [by eapply kmalloc_stats_ok |]. pose proof (used_free_total bs).
  destruct Hok as [Ha HE Hlim _ Hs _ _]. pose proof (used_free_nonneg bs Hs).
  unfold HEADER, zlen in *. lia.
Qed.

(** The end of the heap lies below the stack, and leaves the 64 KB of the
    fallback when there is room for them. *)
Lemma find_heap_end_bounds entries hs :
  0 ≤ hs < 0x90000 →
  Z.min 0x90000 (hs + 0x10000) ≤ find_heap_end entries hs ≤ 0x90000.
Proof.
  intros Hhs. unfold find_heap_end.
  assert (∀ best, best ≤ find_heap_end_loop entries hs best) as Hl.
  { induction entries as [|e entries IH]; intros best; [done |]. cbn.
    etransitivity; [| apply IH]. zify_bool. }
  pose proof (Hl (u32 (hs + 0x10000))) as Hb. rewrite u32_small in Hb by heap_lia.
  rewrite (u32_small (hs + _)) by heap_lia.
  destruct (Z.ltb_spec 0x90000 (find_heap_end_loop entries hs (hs + 0x10000))); lia.
Qed.

Lemma kmalloc_init_ok bss_end entries m :
  0 < bss_end → bss_end + HEADER ≤ 0x90000 →
  heap_ok (kmalloc_init bss_end entries m) (find_heap_end entries bss_end)
    [(find_heap_end entries bss_end - bss_end - HEADER, true)].
Proof.
  intros Hb Hl. pose proof (find_heap_end_bounds entries bss_end) as He.
  unfold kmalloc_init. rewrite u32_small by heap_lia.
  constructor; cbn [heap_start mem total heap_seg coalesced first_of]; try done; try heap_lia.
  - repeat constructor. cbn. heap_lia.
  - by rewrite lookup_insert_eq.
Qed.

(** What a client can do: ask for memory, and give back a block it holds. *)
Inductive heap_run (bss_end : Z) (entries : list mmap_entry) (m : gmap Z header) :
    heap → list (Z * Z) → Prop :=
| run_init : heap_run bss_end entries m (kmalloc_init bss_end entries m) []
| run_malloc h L size p h' :
    heap_run bss_end entries m h L → 0 < size ≤ 0xFFFFFFFC →
    kmalloc h size = Some (p, h') → p ≠ NULL →
    heap_run bss_end entries m h' ((p, size) :: L)
| run_malloc_full h L size h' :
    heap_run bss_end entries m h L → 0 < size ≤ 0xFFFFFFFC →
    kmalloc h size = Some (NULL, h') → heap_run bss_end entries m h' L
| run_free h L1 L2 p size h' :
    heap_run bss_end entries m h (L1 ++ (p, size) :: L2) → kfree h p = Some h' →
    heap_run bss_end entries m h' (L1 ++ L2).

Lemma heap_run_holds bss_end entries m h L :
  0 < bss_end → bss_end + HEADER ≤ 0x90000 → heap_run bss_end entries m h L →
  heap_holds bss_end (find_heap_end entries bss_end) h L.
Proof.
  intros Hb Hl. induction 1 as [| h L size p h' _ IH Hs Hk Hp | h L size h' _ IH Hs Hk
    | h L1 L2 p size h' _ IH Hk].
  - split; [done |]. eexists. split; [by apply kmalloc_init_ok |]. by exists [].
  - destruct (kmalloc_holds _ _ h L size IH Hs) as (p1 & h1 & Hk1 & [[Hn _]|[_ Hlive]]);
      rewrite Hk1 in Hk; injection Hk as -> ->; done.
  - destruct (kmalloc_holds _ _ h L size IH Hs) as (p1 & h1 & Hk1 & [[Hn ->]|[Hne _]]);
      rewrite Hk1 in Hk; by injection Hk as -> ->.
  - destruct (kfree_holds _ _ h L1 L2 p size IH) as (h1 & Hk1 & Hlive).
    rewrite Hk1 in Hk. by injection Hk as ->.
Qed.

(** *** Statistics *)

(** ** Properties *)

(** C8. Whatever sequence of calls clients make, on any memory map: [kmalloc]
    (of 1 to 2^32 - 4 bytes) and [kfree] come to an end, the blocks handed out lie inside the heap after
    the kernel's image and below the stack at 0x90000, and no two of them
    share a byte. *)
Theorem heap_run_safe bss_end entries m h L :
  0 < bss_end → bss_end + HEADER ≤ 0x90000 → heap_run bss_end entries m h L →
  (∀ size, 0 < size ≤ 0xFFFFFFFC → is_Some (kmalloc h size)) ∧
  (∀ p size, (p, size) ∈ L → is_Some (kfree h p)) ∧
  (∀ p size, (p, size) ∈ L →
     bss_end + HEADER ≤ p ∧ p + size ≤ find_heap_end entries bss_end ≤ 0x90000) ∧
  (∀ i j b1 b2, i ≠ j → L !! i = Some b1 → L !! j = Some b2 → apart b1 b2).
Proof.
  intros Hb Hl HL%heap_run_holds; [| done..]. split_and!.
  - intros size Hs. by destruct (kmalloc_holds _ _ _ _ _ HL Hs) as (p & h' & -> & _).
  - intros p size (L1 & L2 & ->)%list_elem_of_split.
    by destruct (kfree_holds _ _ _ _ _ _ _ HL) as (h' & -> & _).
  - intros p size Hin. pose proof (holds_range _ _ _ _ _ _ HL Hin). lia.
  - intros i j b1 b2. by apply (holds_apart _ _ _ _ _ _ _ _ HL).
Qed.

(** C22. For sizes from 1 to 2^32 - 4, the largest that can be rounded up to
    four bytes, [kmalloc] fails exactly when no free block is as large as the
    rounded size; when it succeeds it hands out one new block,
    large enough and at most 19 bytes larger, all other blocks in use
    staying as they are. *)
Theorem kmalloc_first_fit h E bs size :
  heap_ok h E bs → 0 < size ≤ 0xFFFFFFFC →
  ∃ p h', kmalloc h size = Some (p, h') ∧
    (p = NULL ↔ ∀ s, (s, true) ∈ bs → s < align4 size) ∧
    (p = NULL → h' = h) ∧
    (p ≠ NULL → ∃ bs' n, heap_ok h' E bs' ∧ size ≤ n < size + 20 ∧
       in_use (heap_start h') bs' ≡ₚ (p, n) :: in_use (heap_start h) bs).
Proof.
  intros Hok Hs. destruct (kmalloc_ok h E bs size Hok Hs) as (p & h' & Hk & Hr).
  exists p, h'. split; [done |].
  destruct Hr as [(-> & -> & Hno)|(Hne & Hst & bs' & n & Hok' & Hn & Hp)].
  - split_and!; done.
  - split_and!; [| done |].
    + split; [done |]. intros Hno. exfalso. apply Hne.
      destruct (align4_spec size) as [Hal _]; [lia |].
      pose proof (kmalloc_take h E bs size Hok ltac:(lia) ltac:(lia)) as Hkt.
      assert (take_block (align4 size) bs = None) as Ht.
      { clear -Hno. induction bs as [|[s f] bs IH]; [done |]. cbn.
        destruct f; cbn [andb].
        - specialize (Hno s ltac:(by left)) as Hs. apply Z.leb_gt in Hs. rewrite Hs.
          rewrite IH; [done |]. intros s' Hs'. apply Hno. by right.
        - rewrite IH; [done |]. intros s' Hs'. apply Hno. by right. }
      rewrite Ht in Hkt. rewrite Hkt in Hk. by injection Hk as ->.
    + intros _. exists bs', n. rewrite Hst. split_and!; [done | heap_lia.. | done].
Qed.

(** C21. Freeing the block just allocated brings the heap back to the blocks it
    had: nothing is lost to fragmentation. *)
Theorem kfree_kmalloc h E bs size p h' :
  heap_ok h E bs → 0 < size ≤ 0xFFFFFFFC → kmalloc h size = Some (p, h') → p ≠ NULL →
  ∃ h'', kfree h' p = Some h'' ∧ heap_ok h'' E bs ∧ heap_start h'' = heap_start h.
Proof.
  intros Hok Hs Hk Hne. destruct (align4_spec size) as [Hal _]; [lia |].
  pose proof (kmalloc_take h E bs size Hok ltac:(lia) ltac:(lia)) as Hkt.
  destruct (take_block _ bs) as [[o bs']|] eqn:Ht.
  2: { rewrite Hkt in Hk. by injection Hk as <- <-. }
  destruct Hkt as (h1 & Hk1 & Hok1 & Hst1). rewrite Hk1 in Hk. injection Hk as <- <-.
  destruct (take_block_spec (heap_start h) (align4 size) bs o bs' ltac:(lia)
    (ho_sizes _ _ _ Hok) (ho_coalesced _ _ _ Hok) Ht) as (_ & _ & _ & _ & Ho & _ & n & Hn & Hp).
  destruct (kfree_merge h1 E bs' (heap_start h + o + HEADER) n Hok1) as (h2 & Hf & Hst2 & Hok2).
  { rewrite Hst1, Hp. by left. }
  exists h2. split_and!; [done | | congruence].
  rewrite Hst1 in Hok2. by rewrite (free_take_block _ (align4 size) bs) in Hok2 by (apply Hok || done || lia).
Qed.

(** C23. Once the clients have given everything back, the heap is one free
    block again: no byte is leaked whatever the order of the calls. *)
Theorem heap_no_leak bss_end entries m h :
  0 < bss_end → bss_end + HEADER ≤ 0x90000 → heap_run bss_end entries m h [] →
  heap_ok h (find_heap_end entries bss_end)
    [(find_heap_end entries bss_end - bss_end - HEADER, true)].
Proof.
  intros Hb Hl (Hst & bs & Hok & U & Hp & HU)%heap_run_holds; [| done..].
  apply Forall2_nil_inv_l in HU as ->. apply Permutation_nil in Hp.
  pose proof Hok as [_ HE _ Hne _ _ Hc]. rewrite Hst in HE.
  destruct bs as [|[s f] bs]; [done |]. cbn [in_use total] in *.
  destruct f; [| done]. destruct bs as [|[s2 f2] bs].
  - cbn [total] in HE. by replace (_ - _ - _) with s by lia.
  - cbn [in_use] in Hp. destruct f2; [| done]. by destruct Hc.
Qed.

(** C34. [kmalloc_stats] reports the bytes in use and the free bytes exactly:
    with the headers of all blocks they add up to the whole heap. *)
Theorem kmalloc_stats_exact h E bs :
  heap_ok h E bs →
  ∃ used free, kmalloc_stats h = Some (used + free, used, free) ∧
    used = foldr (λ (b : Z * Z) acc, b.2 + acc) 0 (in_use (heap_start h) bs) ∧
    free = free_bytes bs ∧ used + free + HEADER * zlen bs = E - heap_start h.
Proof.
  intros Hok. exists (used_bytes bs), (free_bytes bs). rewrite <- used_bytes_in_use.
  pose proof (used_free_total bs). pose proof (ho_end _ _ _ Hok).
  split_and!; [by eapply kmalloc_stats_ok | done.. | lia].
Qed.

(** A size of 2^32 - 3 or more wraps to 0 when it is rounded up: the call
    does not fail but hands out an empty block. *)
Theorem kmalloc_wraps h E bs size s :
  heap_ok h E bs → 0xFFFFFFFD ≤ size < 4294967296 → (s, true) ∈ bs →
  ∃ p h' bs', kmalloc h size = Some (p, h') ∧ p ≠ NULL ∧ heap_ok h' E bs' ∧
    ∃ n, n < 16 ∧ (p, n) ∈ in_use (heap_start h') bs'.
Proof.
  intros Hok Hs Hin.
  assert (align4 size = 0) as Hal.
  { assert (size = 4294967293 ∨ size = 4294967294 ∨ size = 4294967295) as [-> | [-> | ->]] by lia;
      reflexivity. }
  pose proof (kmalloc_take h E bs size Hok ltac:(lia) ltac:(lia)) as Hk. rewrite Hal in Hk.
  destruct (take_block 0 bs) as [[o bs']|] eqn:Ht.
  - destruct Hk as (h' & Hk & Hok' & Hst). eexists _, h', bs'. split; [exact Hk |].
    destruct Hok as [Ha HE Hlim Hne Hsz Hseg Hc].
    destruct (take_block_spec (heap_start h) 0 bs o bs' ltac:(lia) Hsz Hc Ht)
      as (_ & _ & _ & _ & Ho & _ & n & Hn & Hp).
    split_and!; [heap_lia | done |]. exists n. split; [heap_lia |]. rewrite Hst, Hp. by left.
  - apply (take_block_none _ _ s) in Ht; [| done].
    pose proof (proj1 (Forall_forall _ _) (ho_sizes _ _ _ Hok) (s, true) Hin) as Hsz.
    cbn in Hsz. lia.
Qed.

(** A heap after the kernel's image, without a memory map: three blocks are
    allocated and the middle one is freed. *)
Section example.
Local Abbreviation h0 := (kmalloc_init 0x8000 [] ∅).
Local Abbreviation step_malloc h n := (default (NULL, h) (kmalloc h n)).
Local Abbreviation h1 := (step_malloc h0 100).2.
Local Abbreviation h2 := (step_malloc h1 30).2.

Lemma example_run : heap_run 0x8000 [] ∅ h2 [(32892, 30); (32780, 100)].
Proof.
  eapply run_malloc; [eapply run_malloc; [constructor | lia | vm_compute; reflexivity | done]
                     | lia | vm_compute; reflexivity | done].
Qed.

Lemma example_run_freed : heap_run 0x8000 [] ∅ (default h1 (kfree h1 32780)) [].
Proof.
  eapply (run_free _ _ _ h1 [] [] 32780 100); [| vm_compute; reflexivity].
  eapply run_malloc; [constructor | lia | vm_compute; reflexivity | done].
Qed.

Lemma example_ok : heap_ok h0 98304 [(65524, true)].
Proof. exact (kmalloc_init_ok 0x8000 [] ∅ eq_refl ltac:(done)). Qed.

Lemma heap_run_safe_witness : apart (32892, 30) (32780, 100) ∧ is_Some (kfree h2 32892).
Proof.
  destruct (heap_run_safe 0x8000 [] ∅ h2 _ ltac:(done) ltac:(done) example_run)
    as (_ & Hf & _ & Ha).
  split; [by apply (Ha 0%nat 1%nat) |]. apply (Hf 32892 30). by left.
Defined.

Lemma kmalloc_first_fit_witness :
  ∃ p h', kmalloc h0 70000 = Some (p, h') ∧ (p = NULL ↔ ∀ s, (s, true) ∈ [(65524, true)] → s < align4 70000).
Proof.
  destruct (kmalloc_first_fit h0 98304 [(65524, true)] 70000 example_ok ltac:(lia))
    as (p & h' & Hk & Hn & _). by exists p, h'.
Defined.

Lemma kfree_kmalloc_witness : ∃ h'', kfree h1 32780 = Some h'' ∧ heap_ok h'' 98304 [(65524, true)].
Proof.
  destruct (kfree_kmalloc h0 98304 [(65524, true)] 100 32780 h1 example_ok ltac:(lia))
    as (h'' & Hf & Hok & _); [vm_compute; reflexivity | done | by exists h''].
Defined.

Lemma heap_no_leak_witness : heap_ok (default h1 (kfree h1 32780)) 98304 [(65524, true)].
Proof. exact (heap_no_leak 0x8000 [] ∅ _ ltac:(done) ltac:(done) example_run_freed). Defined.

Lemma kmalloc_stats_exact_witness :
  ∃ used free, kmalloc_stats h0 = Some (used + free, used, free) ∧ free = 65524.
Proof.
  destruct (kmalloc_stats_exact h0 98304 [(65524, true)] example_ok) as (u & f & Hs & _ & -> & _).
  by exists u, (free_bytes [(65524, true)]).
Defined.

Lemma kmalloc_wraps_witness : ∃ p h', kmalloc h0 0xFFFFFFFF = Some (p, h') ∧ p ≠ NULL.
Proof.
  destruct (kmalloc_wraps h0 98304 [(65524, true)] 0xFFFFFFFF 65524 example_ok ltac:(lia) ltac:(by left))
    as (p & h' & bs' & Hk & Hne & _). by exists p, h'.
Defined.
End example.
