(* ===== verification/Task.v ===== *)
(** * The task table and scheduler of [kernel/task.c], with the context switch
    of [kernel/interrupts.asm]. *)
From S2P Require Import Prelude Console Allocator.

(** ** State *)

Definition MAX_TASKS : Z := 8.
Definition TASK_STACK_SIZE : Z := 16384.

Record task := mk_task {
  esp : Z;
  used : bool;
  name : cstr;
  stack_base : Z
}.

(** The statics of [task.c], the allocator the stacks come from, and the
    32-bit words of the stacks, by the address of their first byte (frames in
    disjoint byte ranges have no word in common). *)
Record sched (A : Type) := mk_sched {
  tasks : list task;
  current_task : Z;
  task_count : Z;
  alloc : A;
  words : gmap Z Z
}.
Arguments mk_sched {A}.
Arguments tasks {A}.
Arguments current_task {A}.
Arguments task_count {A}.
Arguments alloc {A}.
Arguments words {A}.

(** The registers [task_switch] saves, the stack pointer and the next
    instruction. *)
Record cpu := mk_cpu { r_eip : Z; r_esp : Z; r_ebp : Z; r_ebx : Z; r_esi : Z; r_edi : Z }.

(** ** The context switch *)

(** One [push]: the new stack pointer and memory. *)
Definition push (v : Z) (st : Z * gmap Z Z) : Z * gmap Z Z :=
  let p := u32 (st.1 - 4) in (p, <[p := v]> st.2).

(** One [pop] or [ret]: the value and the new stack pointer. *)
Definition pop (sp : Z) (m : gmap Z Z) : option (Z * Z) :=
  match m !! sp with None => None | Some v => Some (v, u32 (sp + 4)) end.

(** [c] is the processor on entry, the return address on top of its stack.
    The result is the value stored through [old_esp], the processor after the
    [ret] and the memory. *)
Definition task_switch (c : cpu) (m : gmap Z Z) (new_esp : Z) : option (Z * cpu * gmap Z Z) :=
  let '(sp, m) :=
    push (r_edi c) (push (r_esi c) (push (r_ebx c) (push (r_ebp c) (r_esp c, m)))) in
  let old_esp := sp in
  match pop new_esp m with
  | None => None
  | Some (edi, sp) =>
  match pop sp m with
  | None => None
  | Some (esi, sp) =>
  match pop sp m with
  | None => None
  | Some (ebx, sp) =>
  match pop sp m with
  | None => None
  | Some (ebp, sp) =>
  match pop sp m with
  | None => None
  | Some (eip, sp) => Some (old_esp, mk_cpu eip sp ebp ebx esi edi, m)
  end end end end end.

(** ** Operations *)

Definition used_at (ts : list task) (i : Z) : bool :=
  match ts !! Z.to_nat i with Some t => used t | None => false end.

Definition set_used (v : bool) (t : task) : task := mk_task (esp t) v (name t) (stack_base t).
Definition set_esp (v : Z) (t : task) : task := mk_task v (used t) (name t) (stack_base t).

(** The [do ... while (!tasks[next].used)] loop. *)
Fixpoint next_loop (fuel : nat) (ts : list task) (count next : Z) : option Z :=
  match fuel with
  | O => None
  | S fuel' =>
      let next := Z.rem (next + 1) count in
      if negb (used_at ts next) then next_loop fuel' ts count next else Some next
  end.

(** [for (i = 0; i < MAX_TASKS; i++) tasks[i].used = 0] *)
Fixpoint clear_loop (n : nat) (ts : list task) : list task :=
  match n with
  | O => ts
  | S n' => alter (set_used false) n' (clear_loop n' ts)
  end.

Fixpoint name_copy (i : Z) (src : cstr) (max_len : Z) : cstr :=
  match src with
  | [] => []
  | c :: src' =>
      if negb (c =? 0) && (i <? max_len - 1) then c :: name_copy (i + 1) src' max_len else []
  end.

Section tasks.
Context `{Allocator A}.
Implicit Types s : sched A.

Definition tasks_init s : sched A :=
  mk_sched (clear_loop (Z.to_nat MAX_TASKS) (tasks s)) (-1) 0 (alloc s) (words s).

Definition set_tasks (ts : list task) s : sched A :=
  mk_sched ts (current_task s) (task_count s) (alloc s) (words s).

(** [c] is the processor with which [schedule] calls [task_switch], if it
    does: then the result has the processor after the call. *)
Definition schedule s (c : cpu) : option (sched A * option cpu) :=
  if task_count s =? 0 then Some (s, None)
  else
    match next_loop (Z.to_nat MAX_TASKS) (tasks s) (task_count s) (current_task s) with
    | None => None
    | Some next =>
        match tasks s !! Z.to_nat next with
        | None => None
        | Some tn =>
            if current_task s =? -1 then
              match task_switch c (words s) (esp tn) with
              | None => None
              | Some (_, c, m) =>
                  Some (mk_sched (tasks s) next (task_count s) (alloc s) m, Some c)
              end
            else if next =? current_task s then Some (s, None)
            else
              match task_switch c (words s) (esp tn) with
              | None => None
              | Some (old_esp, c, m) =>
                  Some (mk_sched (alter (set_esp old_esp) (Z.to_nat (current_task s)) (tasks s))
                          next (task_count s) (alloc s) m, Some c)
              end
        end
    end.

(** [sp -= 1; *sp = v], five times: the frame a new task starts from. *)
Definition new_stack (stack entry : Z) (m : gmap Z Z) : Z * gmap Z Z :=
  push 0 (push 0 (push 0 (push 0 (push entry (u32 (stack + TASK_STACK_SIZE), m))))).

Definition task_create_named (entry : Z) (nm : cstr) s : option (Z * sched A) :=
  if MAX_TASKS <=? task_count s then Some (-1, s)
  else
    match al_malloc (alloc s) TASK_STACK_SIZE with
    | None => None
    | Some (stack, a) =>
        let '(sp, m) := new_stack stack entry (words s) in
        let slot := task_count s in
        Some (slot,
          mk_sched (<[Z.to_nat slot := mk_task sp true (name_copy 0 nm 16) stack]> (tasks s))
            (current_task s) (task_count s + 1) a m)
    end.

Definition task_create (entry : Z) s : option (sched A) :=
  match task_create_named entry (str "unnamed") s with
  | None => None
  | Some (_, s) => Some s
  end.

Definition task_kill (id : Z) s : option (Z * sched A) :=
  if (id <? 0) || (task_count s <=? id) then Some (-1, s)
  else
    match tasks s !! Z.to_nat id with
    | None => None
    | Some t =>
        if negb (used t) then Some (-1, s)
        else if id =? current_task s then Some (-1, s)
        else if id =? 0 then Some (-1, s)
        else
          match al_free (alloc s) (stack_base t) with
          | None => None
          | Some a =>
              Some (0, mk_sched (alter (set_used false) (Z.to_nat id) (tasks s))
                         (current_task s) (task_count s) a (words s))
          end
    end.

Definition task_current_id s : Z := current_task s.

(** One line of [task_list]. *)
Definition task_line (i : Z) (t : task) (current : Z) : option cstr :=
  match kprint_uint (u32 i) with
  | None => None
  | Some d =>
      Some (str "  [" ++ printed d ++ str "] " ++ name t ++
            (if i =? current then str " - running" else []) ++ [10])
  end.

Fixpoint list_tasks (ts : list task) (n : nat) (i current : Z) : option cstr :=
  match n, ts with
  | S n', t :: ts' =>
      match (if negb (used t) then Some [] else task_line i t current),
            list_tasks ts' n' (i + 1) current with
      | Some l, Some rest => Some (l ++ rest)
      | _, _ => None
      end
  | _, _ => Some []
  end.

(** The text [task_list] prints. *)
Definition task_list s : option cstr :=
  list_tasks (tasks s) (Z.to_nat (task_count s)) 0 (current_task s).
End tasks.

(** ** The scheduling order *)

(** The loop finds the first task in use after [cur], cyclically. *)
Lemma next_loop_spec fuel ts count cur d0 :
  0 < count → -1 ≤ cur → 1 ≤ d0 ≤ Z.of_nat fuel → used_at ts ((cur + d0) mod count) = true →
  ∃ d, next_loop fuel ts count cur = Some ((cur + d) mod count) ∧ 1 ≤ d ≤ d0 ∧
    used_at ts ((cur + d) mod count) = true ∧
    ∀ d', 1 ≤ d' < d → used_at ts ((cur + d') mod count) = false.
Proof.
  revert cur d0. induction fuel as [|fuel IH]; intros cur d0 Hc Hcur Hd Hu; [lia |].
  cbn [next_loop]. rewrite Z.rem_mod_nonneg by lia.
  destruct (used_at ts ((cur + 1) mod count)) eqn:Hu1; cbn [negb].
  - exists 1. split_and!; try done; try lia.
  - assert (d0 ≠ 1) by (intros ->; congruence).
    pose proof (Z.mod_pos_bound (cur + 1) count Hc).
    assert (∀ d, ((cur + 1) mod count + (d - 1)) mod count = (cur + d) mod count) as Hmod.
    { intros d. rewrite Zplus_mod_idemp_l. f_equal. lia. }
    destruct (IH ((cur + 1) mod count) (d0 - 1)) as (d & Hn & Hd1 & Hu2 & Hno); try lia.
    { by rewrite Hmod. }
    replace d with (d + 1 - 1) in Hn, Hu2 by lia. rewrite Hmod in Hn, Hu2.
    exists (d + 1). split_and!; try done; try lia.
    intros d' Hd'. destruct (decide (d' = 1)) as [->|]; [done |].
    rewrite <- Hmod. apply Hno. lia.
Qed.

(** ** Frames *)

(** At [p], the stack holds the registers with which its task goes on as [x]. *)
Definition frame_holds (m : gmap Z Z) (p : Z) (x : cpu) : Prop :=
  m !! p = Some (r_edi x) ∧ m !! (p + 4) = Some (r_esi x) ∧ m !! (p + 8) = Some (r_ebx x) ∧
  m !! (p + 12) = Some (r_ebp x) ∧ m !! (p + 16) = Some (r_eip x) ∧ r_esp x = p + 20.

(** The processor after [task_switch] has returned to its caller. *)
Definition returned (c : cpu) (ret : Z) : cpu :=
  mk_cpu ret (r_esp c + 4) (r_ebp c) (r_ebx c) (r_esi c) (r_edi c).

Lemma frame_holds_agree m m' p x :
  (∀ k, p ≤ k < p + 20 → m' !! k = m !! k) → frame_holds m p x → frame_holds m' p x.
Proof. intros Hk. unfold frame_holds. by rewrite !Hk by lia. Qed.

Lemma pop_some p m v :
  m !! p = Some v → 0 ≤ p → p + 4 < 4294967296 → pop p m = Some (v, p + 4).
Proof. intros Hm Hp Hp2. unfold pop. rewrite Hm, u32_small; [done |]. unfold is_u32. lia. Qed.

Lemma task_switch_spec c m p x ret :
  16 ≤ r_esp c → r_esp c + 4 < 4294967296 → 0 ≤ p → p + 20 < 4294967296 →
  p + 20 ≤ r_esp c - 16 ∨ r_esp c ≤ p →
  frame_holds m p x → m !! r_esp c = Some ret →
  ∃ m', task_switch c m p = Some (r_esp c - 16, x, m') ∧
    (∀ k, k < r_esp c - 16 ∨ r_esp c ≤ k → m' !! k = m !! k) ∧
    frame_holds m' (r_esp c - 16) (returned c ret).
Proof.
  intros Hlo Hhi Hp Hp2 Hd (H0 & H1 & H2 & H3 & H4 & H5) Hret.
  unfold task_switch, push. cbn [fst snd].
  rewrite (u32_small (r_esp c - 4)), (u32_small (r_esp c - 4 - 4)),
    (u32_small (r_esp c - 4 - 4 - 4)), (u32_small (r_esp c - 4 - 4 - 4 - 4))
    by (unfold is_u32; lia).
  replace (r_esp c - 4 - 4 - 4 - 4) with (r_esp c - 16) by lia.
  replace (r_esp c - 4 - 4 - 4) with (r_esp c - 12) by lia.
  replace (r_esp c - 4 - 4) with (r_esp c - 8) by lia.
  set (m' := <[r_esp c - 16 := r_edi c]> _).
  assert (∀ k, k < r_esp c - 16 ∨ r_esp c ≤ k → m' !! k = m !! k) as Hkeep.
  { intros k Hk. subst m'. by rewrite !lookup_insert_ne by lia. }
  rewrite (pop_some p m' (r_edi x)) by (rewrite ?Hkeep by lia; done || lia).
  rewrite (pop_some (p + 4) m' (r_esi x)) by (rewrite ?Hkeep by lia; done || lia).
  replace (p + 4 + 4) with (p + 8) by lia.
  rewrite (pop_some (p + 8) m' (r_ebx x)) by (rewrite ?Hkeep by lia; done || lia).
  replace (p + 8 + 4) with (p + 12) by lia.
  rewrite (pop_some (p + 12) m' (r_ebp x)) by (rewrite ?Hkeep by lia; done || lia).
  replace (p + 12 + 4) with (p + 16) by lia.
  rewrite (pop_some (p + 16) m' (r_eip x)) by (rewrite ?Hkeep by lia; done || lia).
  replace (p + 16 + 4) with (p + 20) by lia.
  exists m'. split_and!; [| done |].
  - rewrite <- H5. by destruct x.
  - unfold frame_holds, returned. subst m'. cbn.
    replace (r_esp c - 16 + 4) with (r_esp c - 12) by lia.
    replace (r_esp c - 16 + 8) with (r_esp c - 8) by lia.
    replace (r_esp c - 16 + 12) with (r_esp c - 4) by lia.
    replace (r_esp c - 16 + 16) with (r_esp c) by lia.
    split_and!; try lia; repeat (rewrite lookup_insert_eq || rewrite lookup_insert_ne by lia);
      done.
Qed.

Lemma new_stack_spec stack entry m :
  0 ≤ stack → stack + TASK_STACK_SIZE < 4294967296 →
  ∃ m', new_stack stack entry m = (stack + TASK_STACK_SIZE - 20, m') ∧
    frame_holds m' (stack + TASK_STACK_SIZE - 20) (mk_cpu entry (stack + TASK_STACK_SIZE) 0 0 0 0) ∧
    (∀ k, k < stack + TASK_STACK_SIZE - 20 ∨ stack + TASK_STACK_SIZE ≤ k → m' !! k = m !! k).
Proof.
  intros Hs Hs2. unfold new_stack, push, TASK_STACK_SIZE in *. cbn [fst snd].
  rewrite (u32_small (stack + 16384)) by (unfold is_u32; lia).
  rewrite (u32_small (stack + 16384 - 4)), (u32_small (stack + 16384 - 4 - 4)),
    (u32_small (stack + 16384 - 4 - 4 - 4)), (u32_small (stack + 16384 - 4 - 4 - 4 - 4)),
    (u32_small (stack + 16384 - 4 - 4 - 4 - 4 - 4))
    by (unfold is_u32; lia).
  replace (stack + 16384 - 4 - 4 - 4 - 4 - 4) with (stack + 16384 - 20) by lia.
  eexists. split; [done |]. split.
  - unfold frame_holds. cbn.
    split_and!; try lia; rewrite ?lookup_insert_ne by lia; apply lookup_insert_Some; left; lia.
  - intros k Hk. by rewrite !lookup_insert_ne by lia.
Qed.
