(* ===== verification/Sched.v ===== *)
(** * The scheduler of [kernel/task.c] implements a round robin of suspended
    contexts: the abstract machine, the refinement, and what follows for runs
    of the system. *)
From S2P Require Import Prelude Console Allocator Task.

(** ** The abstract machine

    What the scheduler promises: each suspended task keeps the processor state
    with which it goes on, and a tick passes the processor to the next task in
    cyclic order. *)

Record amachine := mk_am { am_ready : gmap Z cpu; am_current : Z; am_count : Z }.

Definition am_alive (a : amachine) (i : Z) : bool :=
  (i =? am_current a) || bool_decide (is_Some (am_ready a !! i)).

(** The tasks after the current one, cyclically, itself last. *)
Definition am_turns (a : amachine) : list Z :=
  map (λ d, (am_current a + Z.of_nat d) mod am_count a) (seq 1 (Z.to_nat MAX_TASKS)).

Definition am_tick (a : amachine) (goes_on : cpu) : option (amachine * option cpu) :=
  if am_count a =? 0 then Some (a, None)
  else
    match find (am_alive a) (am_turns a) with
    | None => None
    | Some n =>
        if n =? am_current a then Some (a, None)
        else
          match am_ready a !! n with
          | None => None
          | Some x =>
              let ready := if am_current a =? -1 then am_ready a
                           else <[am_current a := goes_on]> (am_ready a) in
              Some (mk_am (delete n ready) n (am_count a), Some x)
          end
    end.

Definition stack_of (t : task) : Z * Z := (stack_base t, TASK_STACK_SIZE).

Definition stacks (ts : list task) : list (Z * Z) :=
  map stack_of (base.filter (λ t, used t = true) ts).

#[local] Arguments stacks : simpl never.

Lemma stacks_app l1 l2 : stacks (l1 ++ l2) = stacks l1 ++ stacks l2.
Proof. unfold stacks. by rewrite filter_app, map_app. Qed.

Lemma stacks_cons t ts : stacks (t :: ts) = (if used t then [stack_of t] else []) ++ stacks ts.
Proof. unfold stacks. rewrite filter_cons. destruct (used t); by case_decide. Qed.

(** The task's frame, in its own stack. *)
Definition suspended (m : gmap Z Z) (t : task) (x : cpu) : Prop :=
  stack_base t ≤ esp t ∧ esp t + 20 ≤ stack_base t + TASK_STACK_SIZE ∧ frame_holds m (esp t) x.

Section refinement.
Context `{Allocator A}.
Implicit Types s : sched A.

(** The concrete state [s] stands for [am]; [R] are the blocks of the
    allocator's other clients. *)
Record sched_ok (R : list (Z * Z)) s (am : amachine) : Prop := {
  so_len : length (tasks s) = 8%nat;
  so_count : 0 ≤ task_count s ≤ MAX_TASKS;
  so_am_count : am_count am = task_count s;
  so_am_current : am_current am = current_task s;
  so_current : -1 ≤ current_task s < task_count s;
  so_used i : 0 ≤ i → used_at (tasks s) i = am_alive am i;
  so_range i : 0 ≤ i → used_at (tasks s) i = true → i < task_count s;
  so_first : 0 < task_count s → used_at (tasks s) 0 = true;
  so_ready i x : am_ready am !! i = Some x → i ≠ current_task s ∧ 0 ≤ i ∧
    ∃ t, tasks s !! Z.to_nat i = Some t ∧ suspended (words s) t x;
  so_live : ∃ L, al_live (alloc s) L ∧ L ≡ₚ stacks (tasks s) ++ R
}.

(** [schedule] calls [task_switch] with the registers [c]: there is room on
    the running task's stack, the return address on top of it.  Before the
    first tick the kernel runs on the stack of the bootloader, away from the
    tasks' stacks. *)
Record on_stack s (c : cpu) (ret : Z) : Prop := {
  os_ret : words s !! r_esp c = Some ret;
  os_range : 16 ≤ r_esp c ∧ r_esp c + 4 < 4294967296;
  os_in t : 0 ≤ current_task s → tasks s !! Z.to_nat (current_task s) = Some t →
    stack_base t ≤ r_esp c - 16 ∧ r_esp c + 4 ≤ stack_base t + TASK_STACK_SIZE;
  os_out i t : current_task s = -1 → tasks s !! i = Some t → used t = true →
    apart (stack_of t) (r_esp c - 16, 16)
}.

(** *** Stacks in use *)

Lemma live_elem al L l1 x l2 y l3 :
  al_live al L → L ≡ₚ l1 ++ x :: l2 ++ y :: l3 → apart x y.
Proof.
  intros Hlive Hp. apply Permutation_sym, Permutation_inj in Hp as (_ & g & Hinj & Hg).
  assert (L !! g (length l1) = Some x) as H1.
  { rewrite <- Hg. by apply list_lookup_middle. }
  assert (L !! g (length l1 + S (length l2))%nat = Some y) as H2.
  { rewrite <- Hg. rewrite lookup_app_r by lia.
    replace (length l1 + S (length l2) - length l1)%nat with (S (length l2)) by lia.
    cbn. by apply list_lookup_middle. }
  eapply al_apart; [exact Hlive | | exact H1 | exact H2].
  intros Heq%Hinj. lia.
Qed.

Lemma apart_sym b1 b2 : apart b1 b2 → apart b2 b1.
Proof. unfold apart. lia. Qed.

Lemma used_stacks ts i t :
  ts !! i = Some t → used t = true →
  ∃ l1 l2, ts = l1 ++ t :: l2 ∧ length l1 = i ∧ stacks ts = stacks l1 ++ stack_of t :: stacks l2.
Proof.
  intros Hi Hu. exists (take i ts), (drop (S i) ts).
  split_and!.
  - by rewrite take_drop_middle.
  - apply length_take_le. apply lookup_lt_Some in Hi. lia.
  - rewrite <- (take_drop_middle ts i t Hi) at 1. rewrite stacks_app, stacks_cons, Hu. done.
Qed.

Lemma stacks_apart al L R ts i j ti tj :
  al_live al L → L ≡ₚ stacks ts ++ R → ts !! i = Some ti → ts !! j = Some tj → i ≠ j →
  used ti = true → used tj = true → apart (stack_of ti) (stack_of tj).
Proof.
  intros Hlive Hp. revert i j ti tj.
  assert (∀ i j ti tj, ts !! i = Some ti → ts !! j = Some tj → (i < j)%nat →
    used ti = true → used tj = true → apart (stack_of ti) (stack_of tj)) as Hlt.
  { intros i j ti tj Hi Hj Hij Hui Huj.
    destruct (used_stacks ts i ti Hi Hui) as (l1 & l2 & -> & Hl1 & Hs).
    rewrite lookup_app_r in Hj by lia.
    replace (j - length l1)%nat with (S (j - length l1 - 1)) in Hj by lia. cbn in Hj.
    destruct (used_stacks l2 _ tj Hj Huj) as (l3 & l4 & -> & _ & Hs2).
    rewrite Hs, Hs2, <- !app_assoc in Hp. cbn in Hp. rewrite <- app_assoc in Hp.
    eapply live_elem; [exact Hlive | exact Hp]. }
  intros i j ti tj Hi Hj Hij Hui Huj. destruct (decide (i < j)%nat).
  - by eapply Hlt.
  - apply apart_sym. eapply Hlt; try done. lia.
Qed.

Lemma stack_range al L R ts i t :
  al_live al L → L ≡ₚ stacks ts ++ R → ts !! i = Some t → used t = true →
  0 < stack_base t ∧ stack_base t + TASK_STACK_SIZE ≤ 0x90000.
Proof.
  intros Hlive Hp Hi Hu. destruct (used_stacks ts i t Hi Hu) as (l1 & l2 & _ & _ & Hs).
  apply (al_range al L); [done |]. rewrite Hp, Hs.
  apply elem_of_app. left. apply elem_of_app. right. by left.
Qed.

Lemma used_at_lookup ts i : used_at ts i = true → ∃ t, ts !! Z.to_nat i = Some t ∧ used t = true.
Proof. unfold used_at. destruct (ts !! _) as [t|]; [by exists t | done]. Qed.

(** The four words [task_switch] pushes are in no other task's stack. *)
Lemma frame_apart R s am c ret i t :
  sched_ok R s am → on_stack s c ret → tasks s !! i = Some t → used t = true →
  Z.of_nat i ≠ current_task s → apart (stack_of t) (r_esp c - 16, 16).
Proof.
  intros Hok [_ _ Hin Hout] Hi Hu Hne.
  destruct (decide (current_task s = -1)) as [Hc|Hc]; [by eapply Hout |].
  destruct Hok as [_ _ _ Hamc Hcur Hused _ _ _ (L & Hlive & Hp)].
  specialize (Hused (current_task s)). unfold am_alive in Hused.
  rewrite Hamc, Z.eqb_refl in Hused. cbn in Hused.
  destruct (used_at_lookup _ _ (Hused ltac:(lia))) as (tc & Htc & Huc).
  specialize (Hin tc ltac:(lia) Htc).
  assert (apart (stack_of t) (stack_of tc)) as Ha.
  { apply (stacks_apart _ _ _ _ i (Z.to_nat (current_task s)) t tc Hlive Hp); try done. lia. }
  unfold apart, stack_of, TASK_STACK_SIZE in *. cbn in *. lia.
Qed.

(** *** Saving a stack pointer *)

Lemma used_at_set_esp v k ts i : used_at (alter (set_esp v) k ts) i = used_at ts i.
Proof.
  unfold used_at. destruct (decide (k = Z.to_nat i)) as [->|].
  - rewrite list_lookup_alter_eq. by destruct (ts !! Z.to_nat i).
  - by rewrite list_lookup_alter_ne.
Qed.

Lemma stacks_set_esp v k ts : stacks (alter (set_esp v) k ts) = stacks ts.
Proof.
  revert k. induction ts as [|t ts IH]; intros [|k]; try done.
  - cbn [alter list_alter]. by rewrite !stacks_cons.
  - cbn [alter list_alter]. rewrite !stacks_cons. f_equal. apply IH.
Qed.

Lemma find_turn (f : Z → bool) (g : nat → Z) start len d :
  (start ≤ d < start + len)%nat → f (g d) = true →
  (∀ d', (start ≤ d' < d)%nat → f (g d') = false) →
  find f (map g (seq start len)) = Some (g d).
Proof.
  revert start. induction len as [|len IH]; intros start Hd Hf Hno; [lia |]. cbn.
  destruct (decide (start = d)) as [->|]; [by rewrite Hf |].
  rewrite (Hno start) by lia. apply IH; [lia | done |]. intros d' Hd'. apply Hno. lia.
Qed.

(** Whom the loop finds is whom the abstract machine runs next. *)
Lemma next_task R s am :
  sched_ok R s am → 0 < task_count s →
  ∃ d, let n := (current_task s + d) mod task_count s in
    next_loop (Z.to_nat MAX_TASKS) (tasks s) (task_count s) (current_task s) = Some n ∧
    find (am_alive am) (am_turns am) = Some n ∧
    1 ≤ d ≤ task_count s - Z.max 0 (current_task s) ∧ 0 ≤ n < task_count s ∧
    used_at (tasks s) n = true ∧
    ∀ d', 1 ≤ d' < d → used_at (tasks s) ((current_task s + d') mod task_count s) = false.
Proof.
  intros [Hlen Hcount Hamn Hamc Hcur Hused _ Hfirst _ _] Hpos. unfold MAX_TASKS in *.
  set (d0 := if current_task s =? -1 then 1 else task_count s - current_task s).
  assert (1 ≤ d0 ≤ task_count s - Z.max 0 (current_task s) ∧
          (current_task s + d0) mod task_count s = 0) as [Hd0 Hm0].
  { subst d0. destruct (Z.eqb_spec (current_task s) (-1)) as [->|].
    - split; [lia | done].
    - split; [lia |]. replace (_ + _) with (task_count s) by lia. apply Z_mod_same_full. }
  destruct (next_loop_spec (Z.to_nat 8) (tasks s) (task_count s) (current_task s) d0)
    as (d & Hn & Hd & Hu & Hno); try lia.
  { rewrite Hm0. by apply Hfirst. }
  pose proof (Z.mod_pos_bound (current_task s + d) (task_count s) Hpos) as Hnb.
  exists d. cbv zeta. split_and!; try done; try lia.
  unfold am_turns. rewrite Hamc, Hamn.
  rewrite (find_turn _ (λ d, (current_task s + Z.of_nat d) mod task_count s) _ _ (Z.to_nat d)).
  - by rewrite Z2Nat.id by lia.
  - unfold MAX_TASKS. lia.
  - rewrite Z2Nat.id by lia. by rewrite <- Hused by lia.
  - intros d' Hd'. rewrite <- Hused by (apply Z.mod_pos_bound; lia). apply Hno. lia.
Qed.

(** The words a switch leaves alone include every other suspended frame. *)
Lemma suspended_agree m m' t x lo :
  (∀ k, k < lo ∨ lo + 16 ≤ k → m' !! k = m !! k) → apart (stack_of t) (lo, 16) →
  suspended m t x → suspended m' t x.
Proof.
  intros Hk Ha (H1 & H2 & Hf). split_and!; [done.. |].
  eapply frame_holds_agree; [| exact Hf]. intros k Hkr. apply Hk.
  unfold apart, stack_of, TASK_STACK_SIZE in *. cbn in *. lia.
Qed.

Lemma ready_used R s am i x t :
  sched_ok R s am → am_ready am !! i = Some x → tasks s !! Z.to_nat i = Some t → used t = true.
Proof.
  intros [_ _ _ _ _ Hused _ _ Hready _] Hx Ht.
  destruct (Hready i x Hx) as (_ & Hi & _). specialize (Hused i Hi).
  unfold am_alive, used_at in Hused. rewrite Ht in Hused. rewrite Hused.
  apply orb_true_iff. right. apply bool_decide_eq_true. by exists x.
Qed.

Section handover.
Context (R : list (Z * Z)) s (am : amachine) (n : Z) (x : cpu) (m : gmap Z Z).
Hypothesis Hok : sched_ok R s am.
Hypothesis Hn : n ≠ current_task s ∧ 0 ≤ n < task_count s.
Hypothesis Hx : am_ready am !! n = Some x.
Hypothesis Hm : ∀ i y t, am_ready am !! i = Some y → tasks s !! Z.to_nat i = Some t →
  suspended (words s) t y → suspended m t y.

(** The first tick: the context of the boot code is forgotten. *)
Lemma handover_first :
  current_task s = -1 →
  sched_ok R (mk_sched (tasks s) n (task_count s) (alloc s) m)
    (mk_am (delete n (am_ready am)) n (task_count s)).
Proof.
  intros Hm1. destruct Hok as [Hlen Hcount Hamn Hamc Hcur Hused Hrange Hfirst Hready Hlive].
  constructor; cbn; try done; try lia.
  - intros i Hi. rewrite Hused by done. unfold am_alive. cbn. rewrite Hamc.
    destruct (Z.eqb_spec i (current_task s)), (Z.eqb_spec i n) as [He|Hne]; try lia; cbn.
    + subst i. apply bool_decide_eq_true. by exists x.
    + by rewrite lookup_delete_ne by done.
  - intros i y [Hne Hy]%lookup_delete_Some.
    destruct (Hready i y Hy) as (_ & Hi & t & Ht & Hs). split_and!; [done.. |].
    exists t. split; [done |]. by eapply Hm.
Qed.

(** The outgoing task is suspended where [v] points. *)
Lemma handover_switch v tc y :
  0 ≤ current_task s → tasks s !! Z.to_nat (current_task s) = Some tc →
  suspended m (set_esp v tc) y →
  sched_ok R (mk_sched (alter (set_esp v) (Z.to_nat (current_task s)) (tasks s)) n
                (task_count s) (alloc s) m)
    (mk_am (delete n (<[current_task s := y]> (am_ready am))) n (task_count s)).
Proof.
  intros Hc0 Htc Hsus.
  destruct Hok as [Hlen Hcount Hamn Hamc Hcur Hused Hrange Hfirst Hready (L & HL)].
  constructor; cbn; try done; try lia.
  - by rewrite length_alter.
  - intros i Hi. rewrite used_at_set_esp, Hused by done. unfold am_alive. cbn. rewrite Hamc.
    destruct (Z.eqb_spec i (current_task s)) as [Hic|Hic], (Z.eqb_spec i n) as [He|Hne];
      try lia; try subst i; cbn.
    + symmetry. apply bool_decide_eq_true. rewrite lookup_delete_ne by done.
      rewrite lookup_insert_eq. by eexists.
    + apply bool_decide_eq_true. by exists x.
    + by rewrite lookup_delete_ne, lookup_insert_ne by done.
  - intros i Hi. rewrite used_at_set_esp. by apply Hrange.
  - intros Hc. rewrite used_at_set_esp. by apply Hfirst.
  - intros i z [Hne [[<- <-]|[Hic Hz]]%lookup_insert_Some]%lookup_delete_Some.
    + split_and!; [done | lia |]. exists (set_esp v tc).
      by rewrite list_lookup_alter_eq, Htc.
    + destruct (Hready i z Hz) as (_ & Hi & t & Ht & Hs). split_and!; [done.. |].
      exists t. rewrite list_lookup_alter_ne by lia. split; [done |]. by eapply Hm.
  - exists L. by rewrite stacks_set_esp.
Qed.
End handover.

Lemma schedule_ok R s am c ret :
  sched_ok R s am → on_stack s c ret →
  ∃ s' am' r, schedule s c = Some (s', r) ∧ am_tick am (returned c ret) = Some (am', r) ∧
    sched_ok R s' am' ∧ task_count s' = task_count s.
Proof.
  intros Hok Hon. unfold schedule, am_tick. rewrite (so_am_count _ _ _ Hok).
  destruct (Z.eqb_spec (task_count s) 0) as [H0|H0]; [by eauto 10 |].
  pose proof (so_count _ _ _ Hok). pose proof (so_current _ _ _ Hok).
  destruct (next_task R s am Hok ltac:(lia)) as (d & -> & -> & Hd & Hnb & Hu & _).
  set (n := (current_task s + d) mod task_count s) in *. clearbody n.
  destruct (used_at_lookup _ _ Hu) as (tn & Htn & Hutn).
  rewrite Htn, (so_am_current _ _ _ Hok).
  destruct (Z.eqb_spec n (current_task s)) as [Hnc|Hnc].
  { destruct (Z.eqb_spec (current_task s) (-1)); [lia |]. by eauto 10. }
  pose proof Hu as Hal. rewrite (so_used _ _ _ Hok) in Hal by lia. unfold am_alive in Hal.
  rewrite (so_am_current _ _ _ Hok) in Hal. destruct (Z.eqb_spec n (current_task s)); [done |].
  cbn in Hal. apply bool_decide_eq_true in Hal as [x Hx]. rewrite Hx.
  destruct (so_ready _ _ _ Hok n x Hx) as (_ & _ & t & Ht & Hs1 & Hs2 & Hfr).
  rewrite Htn in Ht. injection Ht as <-.
  destruct (so_live _ _ _ Hok) as (L & Hlive & Hp).
  pose proof (stack_range _ _ _ _ _ _ Hlive Hp Htn Hutn) as Hr.
  pose proof (frame_apart R s am c ret _ tn Hok Hon Htn Hutn ltac:(lia)) as Ha.
  destruct (os_range _ _ _ Hon).
  destruct (task_switch_spec c (words s) (esp tn) x ret) as (m & Hsw & Hkeep & Hnew);
    [lia | lia | lia | unfold TASK_STACK_SIZE in *; lia | | done | apply Hon |].
  { unfold apart, stack_of, TASK_STACK_SIZE in *. cbn in *. lia. }
  rewrite Hsw.
  assert (∀ i y t, am_ready am !! i = Some y → tasks s !! Z.to_nat i = Some t →
    suspended (words s) t y → suspended m t y) as Hm.
  { intros i y t Hy Ht. apply (suspended_agree _ _ _ _ (r_esp c - 16)).
    - intros k Hk. apply Hkeep. lia.
    - pose proof (so_ready _ _ _ Hok i y Hy) as (? & ? & _).
      eapply (frame_apart R s am c ret (Z.to_nat i)); try done; [by eapply ready_used | lia]. }
  destruct (Z.eqb_spec (current_task s) (-1)) as [Hm1|Hm1]; do 3 eexists; split_and!; try done.
  - by eapply handover_first.
  - assert (used_at (tasks s) (current_task s) = true) as Huc.
    { rewrite (so_used _ _ _ Hok) by lia. unfold am_alive.
      by rewrite (so_am_current _ _ _ Hok), Z.eqb_refl. }
    destruct (used_at_lookup _ _ Huc) as (tc & Htc & Hutc).
    destruct (os_in _ _ _ Hon tc ltac:(lia) Htc).
    eapply (handover_switch _ _ _ n x m Hok); try done; try lia.
    unfold suspended, set_esp. cbn. split_and!; [lia | lia | done].
Qed.

(** *** The other operations *)

Lemma used_at_clear n ts i :
  used_at (clear_loop n ts) i = used_at ts i && negb (bool_decide (Z.to_nat i < n)%nat).
Proof.
  induction n as [|n IH]; cbn [clear_loop].
  { rewrite bool_decide_eq_false_2 by lia. by rewrite andb_true_r. }
  unfold used_at in *. destruct (decide (n = Z.to_nat i)) as [->|].
  - rewrite list_lookup_alter_eq. rewrite (bool_decide_eq_true_2 (_ < S _)%nat) by lia.
    rewrite andb_false_r. by destruct (clear_loop _ ts !! _).
  - rewrite list_lookup_alter_ne by done. rewrite IH. do 2 f_equal.
    apply bool_decide_ext. lia.
Qed.

Lemma length_clear n ts : length (clear_loop n ts) = length ts.
Proof. induction n as [|n IH]; cbn [clear_loop]; [done |]. by rewrite length_alter. Qed.

Lemma used_at_none ts i : length ts = 8%nat → 8 ≤ i → used_at ts i = false.
Proof. intros Hl Hi. unfold used_at. by rewrite lookup_ge_None_2 by lia. Qed.

Lemma stacks_none ts : (∀ i, 0 ≤ i → used_at ts i = false) → stacks ts = [].
Proof.
  induction ts as [|t ts IH]; intros Hu; [done |]. rewrite stacks_cons.
  assert (used t = false) as -> by exact (Hu 0 ltac:(lia)). apply IH.
  intros i Hi. specialize (Hu (i + 1) ltac:(lia)). unfold used_at in *.
  replace (Z.to_nat (i + 1)) with (S (Z.to_nat i)) in Hu by lia. done.
Qed.

Lemma tasks_init_ok R s :
  length (tasks s) = 8%nat → (∃ L, al_live (alloc s) L ∧ L ≡ₚ R) →
  sched_ok R (tasks_init s) (mk_am ∅ (-1) 0).
Proof.
  intros Hl (L & Hlive & Hp).
  assert (∀ i, 0 ≤ i → used_at (tasks (tasks_init s)) i = false) as Hu.
  { intros i Hi. cbn [tasks_init tasks]. rewrite used_at_clear.
    destruct (decide (i < 8)).
    - rewrite bool_decide_eq_true_2 by (unfold MAX_TASKS; lia). apply andb_false_r.
    - by rewrite used_at_none by lia. }
  constructor; try done.
  - cbn [tasks_init tasks]. by rewrite length_clear.
  - intros i Hi. rewrite Hu by done. unfold am_alive. cbn.
    destruct (Z.eqb_spec i (-1)); [lia | done].
  - intros i Hi. by rewrite Hu.
  - exists L. by rewrite stacks_none.
Qed.

(** A new task is suspended at its entry point, with an empty stack. *)
Definition fresh_context (entry stack : Z) : cpu :=
  mk_cpu entry (stack + TASK_STACK_SIZE) 0 0 0 0.

Definition am_create (entry stack : Z) (am : amachine) : amachine :=
  mk_am (<[am_count am := fresh_context entry stack]> (am_ready am)) (am_current am) (am_count am + 1).

Lemma used_at_insert ts k t i :
  0 ≤ i → 0 ≤ k → (Z.to_nat k < length ts)%nat →
  used_at (<[Z.to_nat k := t]> ts) i = if i =? k then used t else used_at ts i.
Proof.
  intros Hi Hk Hl. unfold used_at. destruct (Z.eqb_spec i k) as [->|].
  - by rewrite list_lookup_insert_eq.
  - by rewrite list_lookup_insert_ne by lia.
Qed.

Lemma stacks_insert ts k t :
  (k < length ts)%nat → used_at ts (Z.of_nat k) = false → used t = true →
  stacks (<[k := t]> ts) ≡ₚ stack_of t :: stacks ts.
Proof.
  intros Hk Hf Hu. destruct (lookup_lt_is_Some_2 ts k Hk) as [t0 Ht0].
  unfold used_at in Hf. rewrite Nat2Z.id, Ht0 in Hf.
  rewrite insert_take_drop by done. rewrite <- (take_drop_middle ts k t0 Ht0) at 3.
  rewrite !stacks_app, !stacks_cons, Hf, Hu. cbn. by rewrite Permutation_middle.
Qed.

Lemma create_ok R s am entry nm :
  sched_ok R s am → task_count s < MAX_TASKS →
  ∃ p s', task_create_named entry nm s = Some (task_count s, s') ∧
    tasks s' !! Z.to_nat (task_count s) =
      Some (mk_task (u32 (p + TASK_STACK_SIZE - 20)) true (name_copy 0 nm 16) p) ∧
    (p ≠ NULL → sched_ok R s' (am_create entry p am)).
Proof.
  intros Hok Hmax. pose proof Hok as [Hlen Hcount Hamn Hamc Hcur Hused Hrange Hfirst Hready (L & Hlive & Hp)].
  unfold task_create_named. unfold MAX_TASKS in *.
  destruct (Z.leb_spec 8 (task_count s)); [lia |].
  destruct (al_malloc_spec (alloc s) L TASK_STACK_SIZE Hlive) as (p & a & -> & Hres);
    [unfold TASK_STACK_SIZE; lia |].
  assert (used_at (tasks s) (task_count s) = false) as Hnew.
  { destruct (used_at (tasks s) (task_count s)) eqn:Hu; [| done].
    apply Hrange in Hu; lia. }
  destruct Hres as [[-> ->]|[Hne Hlive']].
  { exists NULL. destruct (new_stack NULL entry (words s)) as [sp m] eqn:Hsp.
    eexists. split; [done |]. split; [| done]. cbn.
    rewrite list_lookup_insert_eq by lia. by injection Hsp as <- _. }
  assert (0 < p ∧ p + TASK_STACK_SIZE ≤ 0x90000) as Hpr.
  { apply (al_range a _ p TASK_STACK_SIZE Hlive'). by left. }
  unfold TASK_STACK_SIZE in Hpr.
  destruct (new_stack_spec p entry (words s)) as (m & -> & Hf & Hkeep);
    [lia | unfold TASK_STACK_SIZE; lia |].
  exists p. eexists. split; [done |]. cbn [tasks].
  rewrite list_lookup_insert_eq by lia. split.
  { unfold TASK_STACK_SIZE in *. by rewrite u32_small by (unfold is_u32; lia). }
  intros _. constructor; cbn; try (unfold MAX_TASKS; lia).
  - by rewrite length_insert.
  - intros i Hi. rewrite used_at_insert by lia. unfold am_alive. cbn. rewrite Hamc, Hamn.
    destruct (Z.eqb_spec i (task_count s)) as [->|Hne'].
    + cbn. rewrite lookup_insert_eq. symmetry. apply orb_true_iff. right.
      by apply bool_decide_eq_true.
    + rewrite lookup_insert_ne by done. rewrite Hused by done. unfold am_alive. by rewrite Hamc.
  - intros i Hi. rewrite used_at_insert by lia.
    destruct (Z.eqb_spec i (task_count s)); [lia |]. intros Hu. apply Hrange in Hu; lia.
  - intros _. rewrite used_at_insert by lia.
    destruct (Z.eqb_spec 0 (task_count s)); [done |]. apply Hfirst. lia.
  - rewrite Hamn. intros i x [[<- <-]|[Hne' Hx]]%lookup_insert_Some.
    + split_and!; [lia | lia |]. eexists. rewrite list_lookup_insert_eq by lia.
      split; [done |]. unfold suspended, fresh_context. cbn.
      unfold TASK_STACK_SIZE in *. split_and!; [lia | lia | done].
    + destruct (Hready i x Hx) as (Hic & Hi0 & t & Ht & Hs). split_and!; [done.. |].
      exists t. rewrite list_lookup_insert_ne by lia. split; [done |].
      pose proof (ready_used _ _ _ _ _ _ Hok Hx Ht) as Hu.
      destruct (used_stacks _ _ _ Ht Hu) as (l1 & l2 & _ & _ & Hst).
      assert (apart (p, 16384) (stack_of t)) as Ha.
      { eapply (live_elem a _ [] (p, 16384) (stacks l1) (stack_of t) (stacks l2 ++ R)); [exact Hlive' |].
        cbn [app]. by rewrite Hp, Hst, <- app_assoc. }
      destruct Hs as (Hs1 & Hs2 & Hs3). split_and!; [done.. |].
      eapply frame_holds_agree; [| exact Hs3]. intros k Hk. apply Hkeep.
      unfold apart, stack_of, TASK_STACK_SIZE in *. cbn in *. lia.
  - eexists. split; [exact Hlive' |]. rewrite stacks_insert; [| lia | by rewrite Z2Nat.id by lia | done].
    cbn. by rewrite Hp.
Qed.

Definition am_kill (id : Z) (am : amachine) : amachine :=
  mk_am (delete id (am_ready am)) (am_current am) (am_count am).

(** When [task_kill] refuses: no such task, a dead one, the running one, or
    the kernel's. *)
Definition kill_refused (id : Z) s : bool :=
  (id <? 0) || (task_count s <=? id) || negb (used_at (tasks s) id) ||
  (id =? current_task s) || (id =? 0).

Lemma used_at_set_used v k ts i :
  0 ≤ i → 0 ≤ k →
  used_at (alter (set_used v) (Z.to_nat k) ts) i =
    if i =? k then v && bool_decide (is_Some (ts !! Z.to_nat k)) else used_at ts i.
Proof.
  intros Hi Hk. unfold used_at. destruct (Z.eqb_spec i k) as [->|].
  - rewrite list_lookup_alter_eq. destruct (ts !! Z.to_nat k); by destruct v.
  - by rewrite list_lookup_alter_ne by lia.
Qed.

Lemma alter_middle f (l1 : list task) t l2 :
  alter f (length l1) (l1 ++ t :: l2) = l1 ++ f t :: l2.
Proof. induction l1 as [|x l1 IH]; [done |]. cbn. by f_equal. Qed.

Lemma kill_ok R s am id :
  sched_ok R s am →
  if kill_refused id s then task_kill id s = Some (-1, s)
  else ∃ s', task_kill id s = Some (0, s') ∧ used_at (tasks s') id = false ∧
    sched_ok R s' (am_kill id am).
Proof.
  intros [Hlen Hcount Hamn Hamc Hcur Hused Hrange Hfirst Hready (L & Hlive & Hp)].
  unfold task_kill, kill_refused. unfold MAX_TASKS in *.
  destruct (Z.ltb_spec id 0); [done |].
  destruct (Z.leb_spec (task_count s) id); [done |]. cbn [orb].
  destruct (lookup_lt_is_Some_2 (tasks s) (Z.to_nat id)) as [t Ht]; [lia |]. rewrite Ht.
  assert (used_at (tasks s) id = used t) as -> by (unfold used_at; by rewrite Ht).
  destruct (used t) eqn:Hu; [| done]. cbn [negb orb].
  destruct (Z.eqb_spec id (current_task s)); [done |].
  destruct (Z.eqb_spec id 0); [done |]. cbn [orb].
  destruct (used_stacks _ _ _ Ht Hu) as (l1 & l2 & Hts & Hl1 & Hst).
  assert (stack_of t ∈ L) as (L1 & L2 & ->)%list_elem_of_split.
  { rewrite Hp, Hst. apply elem_of_app. left. apply elem_of_app. right. by left. }
  destruct (al_free_spec _ _ _ _ _ Hlive) as (a & -> & Hlive').
  eexists. split; [done |]. cbn [tasks]. split.
  { rewrite used_at_set_used by lia. by rewrite Z.eqb_refl. }
  constructor; cbn; try done; try lia.
  - by rewrite length_alter.
  - intros i Hi. rewrite used_at_set_used by lia. unfold am_alive. cbn. rewrite Hamc.
    destruct (Z.eqb_spec i id) as [->|Hne]; cbn.
    + rewrite lookup_delete_eq. by destruct (Z.eqb_spec id (current_task s)).
    + rewrite lookup_delete_ne by done. rewrite Hused by done. unfold am_alive. by rewrite Hamc.
  - intros i Hi. rewrite used_at_set_used by lia. destruct (i =? id); [done |]. by apply Hrange.
  - intros Hc. rewrite used_at_set_used by lia. destruct (Z.eqb_spec 0 id); [lia |]. by apply Hfirst.
  - intros i x [Hne Hx]%lookup_delete_Some. destruct (Hready i x Hx) as (Hic & Hi0 & t' & Ht' & Hs).
    split_and!; [done.. |]. exists t'. by rewrite list_lookup_alter_ne by lia.
  - exists (L1 ++ L2). split; [done |].
    assert (alter (set_used false) (Z.to_nat id) (tasks s) = l1 ++ set_used false t :: l2) as ->.
    { rewrite Hts, <- Hl1. apply alter_middle. }
    rewrite stacks_app, stacks_cons. cbn [set_used used app].
    apply (Permutation_cons_inv (a := stack_of t)).
    rewrite Permutation_middle, Hp, Hst, <- !app_assoc. cbn [app].
    by rewrite <- (Permutation_middle (stacks l1)).
Qed.

(** The running task computes: it may write anywhere but to the stacks of
    the other tasks. *)
Definition works s s' : Prop :=
  tasks s' = tasks s ∧ current_task s' = current_task s ∧ task_count s' = task_count s ∧
  alloc s' = alloc s ∧
  ∀ i t k, tasks s !! i = Some t → used t = true → Z.of_nat i ≠ current_task s →
    stack_base t ≤ k < stack_base t + TASK_STACK_SIZE → words s' !! k = words s !! k.

Lemma works_ok R s s' am : sched_ok R s am → works s s' → sched_ok R s' am.
Proof.
  intros Hok (Ht & Hc & Hn & Ha & Hw).
  pose proof Hok as [Hlen Hcount Hamn Hamc Hcur Hused Hrange Hfirst Hready Hlive].
  constructor; rewrite ?Ht, ?Hc, ?Hn, ?Ha; try done.
  intros i x Hx. destruct (Hready i x Hx) as (Hic & Hi0 & t & Hti & Hs1 & Hs2 & Hs3).
  split_and!; [done.. |]. exists t. split; [done |]. split_and!; [done.. |].
  eapply frame_holds_agree; [| exact Hs3]. intros k Hk.
  apply (Hw (Z.to_nat i) t); try done; [by eapply ready_used | lia..].
Qed.

(** *** Runs of the system *)

Definition set_alloc (a : A) s : sched A :=
  mk_sched (tasks s) (current_task s) (task_count s) a (words s).

(** What happens between two states: a timer tick (with the processor after
    it and the task that runs), work of the running task,
    the creation or the killing of a task (with the call's result), an allocation by another client. *)
Inductive event :=
| Tick (c : cpu) (ret : Z) (r : option cpu) (next : Z)
| Work
| Create (entry : Z) (nm : cstr) (id : Z)
| Kill (id result : Z)
| Malloc (size p : Z).

(** A creation whose stack could not be allocated is left out: the code does
    not notice it (see [task_create_unchecked]). *)
Inductive sched_step : event → list (Z * Z) * sched A → list (Z * Z) * sched A → Prop :=
| step_tick R s c ret s' r :
    on_stack s c ret → schedule s c = Some (s', r) → 
    sched_step (Tick c ret r (current_task s')) (R, s) (R, s')
| step_work R s s' : works s s' → sched_step Work (R, s) (R, s')
| step_create R s entry nm id s' :
    task_create_named entry nm s = Some (id, s') →
    (∀ t, 0 ≤ id → tasks s' !! Z.to_nat id = Some t → stack_base t ≠ NULL) →
    sched_step (Create entry nm id) (R, s) (R, s')
| step_kill R s id r s' :
    task_kill id s = Some (r, s') → sched_step (Kill id r) (R, s) (R, s')
| step_malloc R s size p a :
    0 < size ≤ 0xFFFFFFFC → al_malloc (alloc s) size = Some (p, a) →
    sched_step (Malloc size p) (R, s) (if p =? NULL then R else (p, size) :: R, set_alloc a s).

Inductive sched_trace : list event → list (Z * Z) * sched A → list (Z * Z) * sched A → Prop :=
| trace_nil x : sched_trace [] x x
| trace_cons e es x y z : sched_step e x y → sched_trace es y z → sched_trace (e :: es) x z.

(** The same events on the abstract machine. *)
Inductive am_step : event → amachine → amachine → Prop :=
| am_step_tick am c ret r am' :
    am_tick am (returned c ret) = Some (am', r) → 
    am_step (Tick c ret r (am_current am')) am am'
| am_step_work am : am_step Work am am
| am_step_full am entry nm : am_count am = MAX_TASKS → am_step (Create entry nm (-1)) am am
| am_step_create am entry nm stack :
    am_count am < MAX_TASKS → am_step (Create entry nm (am_count am)) am (am_create entry stack am)
| am_step_refused am id : am_step (Kill id (-1)) am am
| am_step_kill am id :
    0 < id → id ≠ am_current am → is_Some (am_ready am !! id) →
    am_step (Kill id 0) am (am_kill id am)
| am_step_malloc am size p : am_step (Malloc size p) am am.

Inductive am_trace : list event → amachine → amachine → Prop :=
| am_trace_nil am : am_trace [] am am
| am_trace_cons e es am1 am2 am3 :
    am_step e am1 am2 → am_trace es am2 am3 → am_trace (e :: es) am1 am3.

(** Each step of the code is one of the abstract machine. *)
Lemma step_simulated e R s R' s' am :
  sched_ok R s am → sched_step e (R, s) (R', s') →
  ∃ am', am_step e am am' ∧ sched_ok R' s' am'.
Proof.
  intros Hok Hst. inversion Hst as [R0 s0 c ret s1 r Hon Hs | R0 s0 s1 Hw
    | R0 s0 entry nm id s1 Hc Hb | R0 s0 id r s1 Hk | R0 s0 size p a Hsz Hm]; subst.
  - destruct (schedule_ok _ _ _ _ _ Hok Hon) as (s2 & am' & r2 & Hs2 & Ht & Hok' & _).
    rewrite Hs2 in Hs. injection Hs as -> ->. exists am'. split; [| done].
    rewrite <- (so_am_current _ _ _ Hok'). by constructor.
  - exists am. split; [constructor | by eapply works_ok].
  - destruct (decide (task_count s < MAX_TASKS)) as [Hl|Hl].
    + destruct (create_ok _ _ _ entry nm Hok Hl) as (p & s2 & Hc2 & Ht & Hok').
      rewrite Hc2 in Hc. injection Hc as <- <-.
      exists (am_create entry p am). rewrite <- (so_am_count _ _ _ Hok). split.
      * constructor. by rewrite (so_am_count _ _ _ Hok).
      * apply Hok'. apply (Hb _ ltac:(pose proof (so_count _ _ _ Hok); lia) Ht).
    + pose proof (so_count _ _ _ Hok). unfold task_create_named in Hc.
      destruct (Z.leb_spec MAX_TASKS (task_count s)); [| lia].
      injection Hc as <- <-. exists am. split; [| done]. constructor.
      rewrite (so_am_count _ _ _ Hok). lia.
  - pose proof (kill_ok _ _ _ id Hok) as Hkill.
    destruct (kill_refused id s) eqn:Href.
    + rewrite Hkill in Hk. injection Hk as <- <-. exists am. split; [constructor | done].
    + destruct Hkill as (s2 & Hk2 & _ & Hok'). rewrite Hk2 in Hk. injection Hk as <- <-.
      exists (am_kill id am). split; [| done]. unfold kill_refused in Href.
      apply orb_false_iff in Href as [Href Hid0%Z.eqb_neq].
      apply orb_false_iff in Href as [Href Hidc%Z.eqb_neq].
      apply orb_false_iff in Href as [Href Hu%negb_false_iff].
      apply orb_false_iff in Href as [Hid Hcnt]. apply Z.ltb_ge in Hid.
      constructor; [lia | by rewrite (so_am_current _ _ _ Hok) |].
      rewrite (so_used _ _ _ Hok) in Hu by lia. unfold am_alive in Hu.
      rewrite (so_am_current _ _ _ Hok) in Hu. apply Z.eqb_neq in Hidc. rewrite Hidc in Hu.
      by apply bool_decide_eq_true in Hu.
  - exists am. split; [constructor |].
    destruct Hok as [Hlen Hcount Hamn Hamc Hcur Hused Hrange Hfirst Hready (L & Hlive & Hp)].
    constructor; try done. cbn [set_alloc alloc tasks].
    destruct (al_malloc_spec _ _ _ Hlive Hsz) as (p2 & a2 & Hm2 & Hres).
    rewrite Hm2 in Hm. injection Hm as -> ->.
    destruct Hres as [[-> ->]|[Hne Hlive']]; [by exists L |].
    apply Z.eqb_neq in Hne. rewrite Hne. eexists. split; [exact Hlive' |].
    by rewrite <- Permutation_middle, Hp.
Qed.

Lemma trace_simulated es x y am :
  sched_ok x.1 x.2 am → sched_trace es x y →
  ∃ am', am_trace es am am' ∧ sched_ok y.1 y.2 am'.
Proof.
  intros Hok Ht. revert am Hok.
  induction Ht as [x|e es [R s] [R1 s1] z Hst Ht IH]; intros am Hok.
  - exists am. split; [constructor | done].
  - destruct (step_simulated _ _ _ _ _ _ Hok Hst) as (am1 & Hst1 & Hok1).
    destruct (IH am1 Hok1) as (am2 & Ht2 & Hok2). exists am2.
    split; [by econstructor | done].
Qed.
End refinement.

(** ** Properties *)

Section properties.
Context `{Allocator A}.
Implicit Types s : sched A.

(** [e] leaves task [i] suspended. *)
Definition keeps_suspended (i : Z) (e : event) : Prop :=
  match e with
  | Tick _ _ _ next => next ≠ i
  | Kill id 0 => id ≠ i
  | _ => True
  end.

(** Ticks and work only: no task is created or killed. *)
Definition steady (e : event) : Prop :=
  match e with Create _ _ _ | Kill _ _ => False | _ => True end.

Definition is_tick (e : event) : bool := match e with Tick _ _ _ _ => true | _ => false end.

Lemma am_tick_cases am g am' r :
  am_tick am g = Some (am', r) →
  am' = am ∧ r = None ∨
  ∃ x, r = Some x ∧ am_current am' ≠ am_current am ∧
    am_ready am !! am_current am' = Some x ∧ am_count am' = am_count am ∧
    am_ready am' = delete (am_current am')
      (if am_current am =? -1 then am_ready am else <[am_current am := g]> (am_ready am)).
Proof.
  unfold am_tick. destruct (am_count am =? 0); [intros [= <- <-]; by left |].
  destruct (find _ _) as [n|]; [| done].
  destruct (Z.eqb_spec n (am_current am)); [intros [= <- <-]; by left |].
  destruct (am_ready am !! n) as [x|] eqn:Hx; [| done]. intros [= <- <-]. right.
  by exists x.
Qed.

Lemma am_keeps e am am' i x :
  am_step e am am' → keeps_suspended i e → am_ready am !! i = Some x → i < am_count am →
  i ≠ am_current am → am_ready am' !! i = Some x ∧ i < am_count am' ∧ i ≠ am_current am'.
Proof.
  intros Hst Hk Hx Hc Hi.
  destruct Hst as [am c ret r am' Ht | | | am entry nm stack | | am id |]; try done.
  - apply am_tick_cases in Ht as [[-> ->]|(y & -> & Hne & Hy & Hcnt & Hr)]; [done |].
    cbn in Hk. rewrite Hr, Hcnt, lookup_delete_ne by done.
    destruct (am_current am =? -1); [done |]. by rewrite lookup_insert_ne by done.
  - cbn. rewrite lookup_insert_ne by lia. split_and!; [done | lia | done].
  - cbn in Hk |- *. by rewrite lookup_delete_ne by done.
Qed.

Lemma am_keeps_trace es am am' i x :
  am_trace es am am' → Forall (keeps_suspended i) es → am_ready am !! i = Some x →
  i < am_count am → i ≠ am_current am →
  am_ready am' !! i = Some x ∧ i < am_count am' ∧ i ≠ am_current am'.
Proof.
  induction 1 as [|e es am1 am2 am3 Hst Ht IH]; intros Hk Hx Hc Hi; [done |].
  apply Forall_cons in Hk as [Hke Hk].
  destruct (am_keeps _ _ _ _ _ Hst Hke Hx Hc Hi) as (Hx2 & Hc2 & Hi2). by apply IH.
Qed.

Lemma trace_app es1 es2 x z :
  sched_trace (es1 ++ es2) x z → ∃ y, sched_trace es1 x y ∧ sched_trace es2 y z.
Proof.
  revert x. induction es1 as [|e es1 IH]; intros x Ht; cbn in Ht.
  - exists x. split; [constructor | done].
  - inversion Ht as [|? ? ? y ? Hst Ht']; subst. destruct (IH y Ht') as (y' & H1 & H2).
    exists y'. split; [by econstructor | done].
Qed.

(** The tick that gives the processor to a suspended task gives it back its
    context. *)
Lemma tick_gives R s R' s' c ret r i am x :
  sched_ok R s am → am_ready am !! i = Some x → i ≠ am_current am →
  sched_trace [Tick c ret r i] (R, s) (R', s') → r = Some x.
Proof.
  intros Hok Hx Hi Ht.
  destruct (trace_simulated _ (R, s) (R', s') am Hok Ht) as (am' & Hat & _).
  inversion Hat as [|? ? ? am1 ? Hst Hn]; subst. inversion Hst as [am0 c0 ret0 r0 am2 Htick| | | | | |]; subst.
  apply am_tick_cases in Htick as [[-> ->]|(y & -> & _ & Hy & _)]; [done |]. congruence.
Qed.

(** The abstract machine at boot. *)
Definition am_init : amachine := mk_am ∅ (-1) 0.

Lemma live_perm_refl (al : A) L : al_live al L → ∃ L', al_live al L' ∧ L' ≡ₚ L.
Proof. by exists L. Qed.

(** C11. The scheduler implements the abstract machine: every run of
    [tasks_init], timer ticks, task creations, kills and allocations is,
    event for event and with the same processor states after each switch, a
    run of a round robin over suspended contexts. *)
Theorem sched_refines s es L R s' :
  length (tasks s) = 8%nat → al_live (alloc s) L →
  sched_trace es (L, tasks_init s) (R, s') →
  ∃ am, am_trace es am_init am ∧ am_current am = current_task s' ∧
    am_count am = task_count s' ∧ (∀ i, 0 ≤ i → used_at (tasks s') i = am_alive am i) ∧
    ∀ i x, am_ready am !! i = Some x →
      ∃ t, tasks s' !! Z.to_nat i = Some t ∧ suspended (words s') t x.
Proof.
  intros Hl HL Ht.
  destruct (trace_simulated _ (L, tasks_init s) (R, s') am_init
    (tasks_init_ok _ _ Hl (live_perm_refl _ _ HL)) Ht) as (am & Hat & Hok).
  exists am. split_and!; [done | apply Hok.. |].
  intros i x Hx. by destruct (so_ready _ _ _ Hok i x Hx) as (_ & _ & ?).
Qed.

(** C19. In every state a run reaches: all operations return; the stacks of
    the tasks in use share no byte with each other; the first task, once
    created, and the running one are never gone; at most eight slots exist. *)
Theorem sched_safe s es L R s' :
  length (tasks s) = 8%nat → al_live (alloc s) L →
  sched_trace es (L, tasks_init s) (R, s') →
  (∀ c ret, on_stack s' c ret → is_Some (schedule s' c)) ∧
  (∀ entry nm, is_Some (task_create_named entry nm s')) ∧
  (∀ id, is_Some (task_kill id s')) ∧
  (∀ i j ti tj, tasks s' !! i = Some ti → tasks s' !! j = Some tj → i ≠ j →
     used ti = true → used tj = true → apart (stack_of ti) (stack_of tj)) ∧
  (0 < task_count s' → used_at (tasks s') 0 = true) ∧
  (0 ≤ current_task s' → used_at (tasks s') (current_task s') = true) ∧
  task_count s' ≤ MAX_TASKS.
Proof.
  intros Hl HL Ht.
  destruct (trace_simulated _ (L, tasks_init s) (R, s') am_init
    (tasks_init_ok _ _ Hl (live_perm_refl _ _ HL)) Ht) as (am & _ & Hok).
  cbn [fst snd] in Hok. split_and!.
  - intros c ret Hon. by destruct (schedule_ok _ _ _ _ _ Hok Hon) as (? & ? & ? & -> & _).
  - intros entry nm. destruct (decide (task_count s' < MAX_TASKS)) as [Hlt|Hge].
    + by destruct (create_ok _ _ _ entry nm Hok Hlt) as (? & ? & -> & _).
    + unfold task_create_named. destruct (Z.leb_spec MAX_TASKS (task_count s')); [done | lia].
  - intros id. pose proof (kill_ok _ _ _ id Hok) as Hk. destruct (kill_refused id s').
    + by rewrite Hk.
    + by destruct Hk as (? & -> & _).
  - intros i j ti tj Hi Hj Hij Hui Huj. destruct (so_live _ _ _ Hok) as (L' & HL' & Hp).
    by apply (stacks_apart _ _ _ _ i j ti tj HL' Hp).
  - apply Hok.
  - intros Hc. rewrite (so_used _ _ _ Hok) by done. unfold am_alive.
    by rewrite (so_am_current _ _ _ Hok), Z.eqb_refl.
  - apply Hok.
Qed.

(** C12. A task that loses the processor gets it back as it left it: whatever
    the other tasks do meanwhile, when its turn comes it returns from
    [task_switch] with its own registers and stack pointer. *)
Theorem task_resumes R0 s0 am0 c ret x1 i es s1 s2 R2 s3 R3 c' ret' r :
  sched_ok R0 s0 am0 → 0 ≤ i → current_task s0 = i → current_task s1 ≠ i →
  sched_trace [Tick c ret (Some x1) (current_task s1)] (R0, s0) (R0, s1) →
  sched_trace es (R0, s1) (R2, s2) → Forall (keeps_suspended i) es →
  sched_trace [Tick c' ret' r i] (R2, s2) (R3, s3) →
  r = Some (returned c ret).
Proof.
  intros Hok Hi0 Hi Hne Ht1 Ht2 Hk Ht3.
  destruct (trace_simulated _ (R0, s0) (R0, s1) am0 Hok Ht1) as (am1 & Ha1 & Hok1).
  destruct (trace_simulated _ (R0, s1) (R2, s2) am1 Hok1 Ht2) as (am2 & Ha2 & Hok2).
  cbn [fst snd] in *.
  inversion Ha1 as [|? ? ? am1' ? Hst Hn]; subst. inversion Hn; subst.
  inversion Hst as [am c0 ret0 r0 am' Htick| | | | | |]; subst.
  pose proof (so_am_current _ _ _ Hok) as Hc0. pose proof (so_am_current _ _ _ Hok1) as Hc1.
  apply am_tick_cases in Htick as [[-> _]|(y & _ & Hne' & _ & Hcnt & Hr)]; [congruence |].
  rewrite Hc0 in Hr. destruct (Z.eqb_spec (current_task s0) (-1)); [lia |].
  assert (am_ready am1 !! current_task s0 = Some (returned c ret)) as Hx.
  { rewrite Hr, lookup_delete_ne by congruence. apply lookup_insert_eq. }
  destruct (am_keeps_trace _ _ _ (current_task s0) _ Ha2 Hk Hx) as (Hx2 & _ & Hi2); [| congruence |].
  { rewrite Hcnt, (so_am_count _ _ _ Hok). apply Hok. }
  by eapply (tick_gives _ _ _ _ _ _ _ _ am2); [exact Hok2 | exact Hx2 | exact Hi2 |].
Qed.

(** C25. A new task starts at its entry point, with zeroed registers and the
    whole of its stack, when it first gets the processor. *)
Theorem task_starts R s am entry nm id s1 es s2 R2 s3 R3 c ret r t :
  sched_ok R s am → 0 ≤ id →
  sched_trace [Create entry nm id] (R, s) (R, s1) → tasks s1 !! Z.to_nat id = Some t →
  sched_trace es (R, s1) (R2, s2) → Forall (keeps_suspended id) es →
  sched_trace [Tick c ret r id] (R2, s2) (R3, s3) →
  r = Some (mk_cpu entry (stack_base t + TASK_STACK_SIZE) 0 0 0 0) ∧
  name t = name_copy 0 nm 16.
Proof.
  intros Hok Hid Ht1 Ht Ht2 Hk Ht3.
  inversion Ht1 as [|? ? ? y ? Hst Hn]; subst. inversion Hn; subst.
  inversion Hst as [| |R0 s0 en nm0 id0 s1' Hc Hb| |]; subst.
  destruct (decide (task_count s < MAX_TASKS)) as [Hl|Hl].
  2: { unfold task_create_named in Hc. destruct (Z.leb_spec MAX_TASKS (task_count s)); [| lia].
       injection Hc as <- <-. lia. }
  destruct (create_ok _ _ _ entry nm Hok Hl) as (p & s4 & Hc4 & Ht4 & Hok4).
  rewrite Hc4 in Hc. injection Hc as <- <-. rewrite Ht4 in Ht. injection Ht as <-.
  specialize (Hb _ Hid Ht4). cbn in Hb. specialize (Hok4 Hb). split; [| done].
  destruct (trace_simulated _ (R, s4) (R2, s2) _ Hok4 Ht2) as (am2 & Ha2 & Hok2).
  rewrite <- (so_am_count _ _ _ Hok) in *. cbn [fst snd] in *.
  pose proof (so_am_current _ _ _ Hok). pose proof (so_current _ _ _ Hok).
  pose proof (so_am_count _ _ _ Hok).
  destruct (am_keeps_trace _ _ _ (am_count am) _ Ha2 Hk (lookup_insert_eq _ _ _))
    as (Hx2 & _ & Hi2); [cbn; lia | cbn; lia |].
  by eapply (tick_gives _ _ _ _ _ _ _ _ am2); [exact Hok2 | exact Hx2 | exact Hi2 |].
Qed.

Lemma tick_next R s am c s' r :
  sched_ok R s am → 0 < task_count s → schedule s c = Some (s', r) →
  task_count s' = task_count s ∧ (∀ j, used_at (tasks s') j = used_at (tasks s) j) ∧
  ∃ d, 1 ≤ d ∧ current_task s' = (current_task s + d) mod task_count s ∧
    ∀ d', 1 ≤ d' < d → used_at (tasks s) ((current_task s + d') mod task_count s) = false.
Proof.
  intros Hok Hpos. destruct (next_task R s am Hok Hpos) as (d & Hn & _ & Hd & Hnb & Hu & Hno).
  unfold schedule. destruct (Z.eqb_spec (task_count s) 0); [lia |]. rewrite Hn.
  destruct (tasks s !! _); [| done].
  destruct (Z.eqb_spec (current_task s) (-1)).
  { destruct (task_switch _ _ _) as [[[? ?] ?]|]; [| done]. intros [= <- <-]. cbn.
    split_and!; try done. exists d. split_and!; [lia | done | exact Hno]. }
  destruct (Z.eqb_spec ((current_task s + d) mod task_count s) (current_task s)) as [He|].
  { intros [= <- <-]. split_and!; try done. exists d. split_and!; [lia | done | exact Hno]. }
  destruct (task_switch _ _ _) as [[[? ?] ?]|]; [| done]. intros [= <- <-]. cbn.
  split_and!; [done | intros j; apply used_at_set_esp |].
  exists d. split_and!; [lia | done | exact Hno].
Qed.

Definition gives_turn (i : Z) (e : event) : Prop :=
  match e with Tick _ _ _ next => next = i | _ => False end.

Lemma turn_comes es x z am i D :
  sched_ok x.1 x.2 am → sched_trace es x z → Forall steady es →
  used_at (tasks x.2) i = true → 0 < task_count x.2 → 1 ≤ D →
  i = (current_task x.2 + D) mod task_count x.2 →
  D ≤ zlen (base.filter (λ e, is_tick e = true) es) → Exists (gives_turn i) es.
Proof.
  intros Hok Ht. revert am D Hok.
  induction Ht as [x|e es x y z Hst Ht IH]; intros am D Hok Hs Hu Hpos HD Hi Hlen.
  { unfold zlen in Hlen. cbn in Hlen. lia. }
  apply Forall_cons in Hs as [He Hs]. rewrite filter_cons in Hlen. apply Exists_cons.
  destruct x as [R s], y as [R1 s1]. cbn [fst snd] in *.
  destruct (step_simulated _ _ _ _ _ _ Hok Hst) as (am1 & _ & Hok1).
  inversion Hst as [R0 s0 c ret s2 r Hon Hsch | R0 s0 s2 (Hwt & Hwc & Hwn & _) | | |
    R0 s0 size p a Hsz Hm]; subst; try done; cbn [is_tick] in Hlen; case_decide; try done.
  - destruct (tick_next _ _ _ _ _ _ Hok Hpos Hsch) as (Hcnt & Hus & d & Hd & Hcur & Hno).
    destruct (decide (d = D)) as [->|Hne]; [left; cbn; congruence | right].
    assert (d < D).
    { destruct (decide (D < d)) as [Hlt|]; [| lia]. specialize (Hno D ltac:(lia)). congruence. }
    apply (IH am1 (D - d)); try done; try lia.
    + by rewrite Hus.
    + rewrite Hcur, Hcnt, Zplus_mod_idemp_l. f_equal. lia.
    + unfold zlen in *. cbn [length] in Hlen. lia.
  - right. apply (IH am1 D); rewrite ?Hwt, ?Hwc, ?Hwn; done.
  - right. by apply (IH am1 D).
Qed.

(** C20. No task starves: as long as no task is created or killed, among any
    [task_count] consecutive ticks, with any work of the tasks in between, each
    task in use gets its turn at least once. *)
Theorem task_gets_turn R s am es R' s' i :
  sched_ok R s am → 0 ≤ i → used_at (tasks s) i = true →
  sched_trace es (R, s) (R', s') → Forall steady es →
  task_count s ≤ zlen (base.filter (λ e, is_tick e = true) es) →
  Exists (gives_turn i) es.
Proof.
  intros Hok Hi Hu Ht Hs Hlen.
  pose proof (so_range _ _ _ Hok i Hi Hu) as Hr. pose proof (so_current _ _ _ Hok).
  pose proof (Z.mod_pos_bound (i - current_task s - 1) (task_count s) ltac:(lia)).
  apply (turn_comes es (R, s) (R', s') am i ((i - current_task s - 1) mod task_count s + 1));
    cbn [snd]; try done; try lia.
  replace (_ + (_ + 1)) with ((i - current_task s - 1) mod task_count s + (current_task s + 1)) by lia.
  rewrite Zplus_mod_idemp_l. rewrite Z.mod_small; lia.
Qed.

Lemma am_dead e am am' id :
  am_step e am am' → am_alive am id = false → 0 < id < am_count am →
  am_alive am' id = false ∧ 0 < id < am_count am' ∧ ¬ gives_turn id e.
Proof.
  intros Hst H0 Hid. unfold am_alive in *.
  pose proof H0 as [Hc%Z.eqb_neq Hr%bool_decide_eq_false]%orb_false_iff.
  assert (∀ m', am_current m' ≠ id → ¬ is_Some (am_ready m' !! id) →
    (id =? am_current m') || bool_decide (is_Some (am_ready m' !! id)) = false) as Hdead.
  { intros m' ? ?. apply orb_false_iff. split; [by apply Z.eqb_neq; lia |].
    by apply bool_decide_eq_false. }
  destruct Hst as [am c ret r am' Ht | | | am entry nm stack | | am id' Hi Hc' Hr' |];
    try (split_and!; [done | lia | lia | by intros []]).
  - apply am_tick_cases in Ht as [[-> ->]|(y & -> & Hne & Hy & Hcnt & Hrd)].
    { split_and!; [done | lia | lia | cbn; lia]. }
    assert (am_current am' ≠ id) as Hn by (intros <-; apply Hr; by exists y).
    split_and!; [| lia | lia | done]. apply Hdead; [done |].
    rewrite Hrd, lookup_delete_ne by done.
    destruct (am_current am =? -1); [done |]. by rewrite lookup_insert_ne by lia.
  - split_and!; cbn; [| lia | lia | by intros []]. apply (Hdead (am_create entry stack am)); cbn; [lia |].
    by rewrite lookup_insert_ne by lia.
  - split_and!; cbn; [| lia | lia | by intros []]. apply (Hdead (am_kill id' am)); cbn; [lia |].
    destruct (decide (id' = id)) as [->|].
    + rewrite lookup_delete_eq. by intros [? ?].
    + by rewrite lookup_delete_ne by done.
Qed.

Lemma am_dead_trace es am am' id :
  am_trace es am am' → am_alive am id = false → 0 < id < am_count am →
  am_alive am' id = false ∧ ¬ Exists (gives_turn id) es.
Proof.
  induction 1 as [|e es am1 am2 am3 Hst _ IH]; intros H0 Hid.
  { split; [done | by intros ?%Exists_nil]. }
  destruct (am_dead _ _ _ _ Hst H0 Hid) as (H2 & Hid2 & He). destruct (IH H2 Hid2) as [H3 H4].
  split; [done |]. intros [?|?]%Exists_cons; tauto.
Qed.

(** C27. A killed task never runs again: no later tick gives it the
    processor, and its slot is not taken by another task. *)
Theorem task_kill_final R s am id es R1 s1 R2 s2 :
  sched_ok R s am → sched_trace [Kill id 0] (R, s) (R1, s1) →
  sched_trace es (R1, s1) (R2, s2) →
  used_at (tasks s2) id = false ∧ ¬ Exists (gives_turn id) es ∧ current_task s2 ≠ id.
Proof.
  intros Hok Ht1 Ht2.
  destruct (trace_simulated _ (R, s) (R1, s1) am Hok Ht1) as (am1 & Ha1 & Hok1).
  destruct (trace_simulated _ (R1, s1) (R2, s2) am1 Hok1 Ht2) as (am2 & Ha2 & Hok2).
  cbn [fst snd] in *. inversion Ha1 as [|? ? ? am1' ? Hst Hn]; subst. inversion Hn; subst.
  inversion Hst as [| | | | |am0 id0 Hid Hcur Hrd|]; subst.
  destruct Hrd as [x Hx]. destruct (so_ready _ _ _ Hok id x Hx) as (_ & _ & t & Ht & Hs).
  pose proof (so_range _ _ _ Hok id ltac:(lia)) as Hr.
  rewrite (so_used _ _ _ Hok) in Hr by lia. unfold am_alive in Hr. rewrite Hx in Hr.
  rewrite orb_true_r in Hr. specialize (Hr eq_refl). rewrite <- (so_am_count _ _ _ Hok) in Hr.
  destruct (am_dead_trace es (am_kill id am) am2 id Ha2) as [Hal Hex].
  { unfold am_alive. cbn. rewrite lookup_delete_eq. by destruct (Z.eqb_spec id (am_current am)). }
  { cbn. lia. }
  pose proof Hal as Hal2. unfold am_alive in Hal2. apply orb_false_iff in Hal2 as [Hne%Z.eqb_neq _].
  split_and!; [| done | rewrite <- (so_am_current _ _ _ Hok2); done].
  by rewrite (so_used _ _ _ Hok2) by lia.
Qed.

(** C26. [task_kill] refuses, and changes nothing, exactly for a negative or
    unknown id, a dead task, the running task and the kernel's task 0;
    otherwise the task is gone and its stack is free again. *)
Theorem task_kill_result R s am id :
  sched_ok R s am →
  if (id <? 0) || (task_count s <=? id) || negb (used_at (tasks s) id) ||
     (id =? current_task s) || (id =? 0)
  then task_kill id s = Some (-1, s)
  else ∃ s' t, task_kill id s = Some (0, s') ∧ tasks s !! Z.to_nat id = Some t ∧
    used_at (tasks s') id = false ∧
    stack_of t :: stacks (tasks s') ≡ₚ stacks (tasks s) ∧
    ∃ L, al_live (alloc s') L ∧ L ≡ₚ stacks (tasks s') ++ R.
Proof.
  intros Hok. pose proof (kill_ok _ _ _ id Hok) as Hk. unfold kill_refused in Hk.
  destruct (_ || _ || _ || _ || _) eqn:Href; [done |].
  destruct Hk as (s' & Hk & Hu & Hok'). exists s'.
  apply orb_false_iff in Href as [Href _]. apply orb_false_iff in Href as [Href _].
  apply orb_false_iff in Href as [Href Hus%negb_false_iff].
  destruct (used_at_lookup _ _ Hus) as (t & Ht & Hut). exists t.
  split_and!; [done.. | | apply Hok'].
  revert Hk. unfold task_kill. rewrite Href, Ht, Hut. cbn [negb].
  destruct (_ =? current_task s); [done |]. destruct (_ =? 0); [done |].
  destruct (al_free _ _); [| done]. intros [= <-]. cbn [tasks].
  destruct (used_stacks _ _ _ Ht Hut) as (l1 & l2 & Hts & Hl & Hst).
  rewrite Hst. rewrite Hts at 1. rewrite <- Hl, alter_middle, stacks_app, stacks_cons. cbn [set_used used app].
  apply Permutation_middle.
Qed.

(** [task_create_named] does not look at what [kmalloc] returned: without
    memory it still reports success, with a task whose stack is at address 0
    (its first frame written at 16364, into the kernel's image). *)
Theorem task_create_unchecked s entry nm :
  length (tasks s) = 8%nat → 0 ≤ task_count s < MAX_TASKS →
  al_malloc (alloc s) TASK_STACK_SIZE = Some (NULL, alloc s) →
  ∃ s', task_create_named entry nm s = Some (task_count s, s') ∧
    tasks s' !! Z.to_nat (task_count s) = Some (mk_task 16364 true (name_copy 0 nm 16) NULL) ∧
    words s' !! 16380 = Some entry.
Proof.
  intros Hl Hc Hm. unfold task_create_named. unfold MAX_TASKS in *.
  destruct (Z.leb_spec 8 (task_count s)); [lia |]. rewrite Hm.
  destruct (new_stack_spec NULL entry (words s)) as (m & Hn & (_ & _ & _ & _ & Hf & _) & _);
    [done.. |].
  rewrite Hn. eexists. split; [done |]. cbn [tasks words].
  split; [by rewrite list_lookup_insert_eq by lia | exact Hf].
Qed.

Lemma am_count_grows es am am' : am_trace es am am' → am_count am ≤ am_count am'.
Proof.
  induction 1 as [|e es am1 am2 am3 Hst _ IH]; [done |]. etransitivity; [| exact IH].
  destruct Hst as [m c ret r m' Ht | | | m entry nm stack | | |]; cbn; try done; [| lia].
  by apply am_tick_cases in Ht as [[-> _]|(y & _ & _ & _ & -> & _)].
Qed.

(** Slots are not reused: once eight tasks have been created,
    [task_create_named] fails for good, even if all but two were killed. *)
Theorem task_slots_spent R s am es R' s' entry nm :
  sched_ok R s am → task_count s = MAX_TASKS → sched_trace es (R, s) (R', s') →
  task_create_named entry nm s' = Some (-1, s').
Proof.
  intros Hok Hc Ht. destruct (trace_simulated _ (R, s) (R', s') am Hok Ht) as (am' & Ha & Hok').
  cbn [fst snd] in *. unfold task_create_named. rewrite <- (so_am_count _ _ _ Hok').
  assert (MAX_TASKS ≤ am_count am') as Hle.
  { pose proof (so_am_count _ _ _ Hok) as Hcnt. rewrite Hc in Hcnt.
    pose proof (am_count_grows _ _ _ Ha). lia. }
  apply Z.leb_le in Hle. by rewrite Hle.
Qed.
End properties.
