(* ===== verification/Interrupts.v ===== *)
(** * Interrupts: the timer of [kernel/timer.c], the descriptor table of
    [kernel/idt.c] and the controller set-up of [kernel/pic.c]. *)
From S2P Require Import Prelude Console Keyboard Allocator Task.

(** ** The timer *)

Definition PIT_CHANNEL0 : Z := 0x40.
Definition PIT_COMMAND : Z := 0x43.
Definition PIT_BASE_FREQ : Z := 1193182.

Record timer := mk_timer { ticks : Z; tick_frequency : Z }.

(** The statics at power-on. *)
Definition timer_boot : timer := mk_timer 0 100.

(** The new state and the bytes sent to ports; [None] is the division fault. *)
Definition timer_init (frequency_hz : Z) (t : timer) : option (timer * list (Z * Z)) :=
  if frequency_hz =? 0 then None
  else
    let t := mk_timer (ticks t) frequency_hz in
    let divisor := u16 (PIT_BASE_FREQ / frequency_hz) in
    Some (t, [(PIT_COMMAND, 0x36); (PIT_CHANNEL0, Z.land divisor 0xFF);
              (PIT_CHANNEL0, Z.land (Z.shiftr divisor 8) 0xFF)]).

Definition timer_get_ticks (t : timer) : Z := ticks t.

Definition timer_get_seconds (t : timer) : option Z :=
  if tick_frequency t =? 0 then None else Some (ticks t / tick_frequency t).

(** The interrupt handler: count, acknowledge, pass the processor on. *)
Definition timer_handler `{Allocator A} (t : timer) (s : sched A) (c : cpu) :
    option (timer * list (Z * Z) * sched A * option cpu) :=
  let t := mk_timer (u32 (ticks t + 1)) (tick_frequency t) in
  match schedule s c with
  | None => None
  | Some (s, r) => Some (t, [EOI], s, r)
  end.

(** ** The interrupt descriptor table *)

Record idt_entry := mk_gate {
  base_low : Z;
  selector : Z;
  always0 : Z;
  flags : Z;
  base_high : Z
}.

Definition idt_set_gate (num base present : Z) (idt : list idt_entry) : list idt_entry :=
  zset idt num
    (mk_gate (Z.land base 0xFFFF) 0x08 0
       (u8 (Z.lor (Z.shiftl present 7) 0x8E)) (Z.land (Z.shiftr base 16) 0xFFFF)).

(** [for (int i = 0; i < 256; i++)]: [n] gates are left, from gate [i]. *)
Fixpoint idt_clear_loop (n : nat) (i : Z) (idt : list idt_entry) : list idt_entry :=
  match n with
  | O => idt
  | S n' => idt_clear_loop n' (i + 1) (idt_set_gate (u8 i) 0 0 idt)
  end.

(** The two stubs are addresses the linker provides. *)
Definition idt_init (keyboard_stub timer_stub : Z) (idt : list idt_entry) : list idt_entry :=
  let idt := idt_clear_loop (Z.to_nat 256) 0 idt in
  let idt := idt_set_gate 33 keyboard_stub 1 idt in
  idt_set_gate 32 timer_stub 1 idt.

(** The address the processor jumps to, and the present bit. *)
Definition gate_base (g : idt_entry) : Z := base_low g + 65536 * base_high g.
Definition gate_present (g : idt_entry) : bool := Z.testbit (flags g) 7.

(** ** The interrupt controllers *)

(** The writes of [pic_remap], in order. *)
Definition pic_remap : list (Z * Z) :=
  [(0x20, 0x11); (0xA0, 0x11);
   (0x21, 0x20); (0xA1, 0x28);
   (0x21, 0x04); (0xA1, 0x02);
   (0x21, 0x01); (0xA1, 0x01);
   (0x21, 0xFC); (0xA1, 0xFF)].

(** An 8259 is hardware: an instance of this class, whose laws are the
    initialisation sequence of its data sheet.  [awaits p] are the command
    words the chip still expects on its data port. *)
Inductive icw := ICW2 | ICW3 | ICW4.

Class Pic (P : Type) := {
  pic_cmd : Z → P → P;
  pic_data : Z → P → P;
  awaits : P → list icw;
  vectors : P → Z;
  mask : P → Z;
  (** Cascaded, with ICW4. *)
  pic_icw1 p : awaits (pic_cmd 0x11 p) = [ICW2; ICW3; ICW4];
  pic_icw2 p v l : awaits p = ICW2 :: l →
    awaits (pic_data v p) = l ∧ vectors (pic_data v p) = Z.land v 0xF8;
  pic_icw34 p v i l : awaits p = i :: l → i ≠ ICW2 →
    awaits (pic_data v p) = l ∧ vectors (pic_data v p) = vectors p;
  pic_ocw1 p v : awaits p = [] →
    awaits (pic_data v p) = [] ∧ vectors (pic_data v p) = vectors p ∧ mask (pic_data v p) = v
}.

Section pics.
Context `{Pic P}.

(** Master and slave behind their ports. *)
Definition pic_out (port v : Z) (ps : P * P) : P * P :=
  if port =? 0x20 then (pic_cmd v ps.1, ps.2)
  else if port =? 0x21 then (pic_data v ps.1, ps.2)
  else if port =? 0xA0 then (ps.1, pic_cmd v ps.2)
  else if port =? 0xA1 then (ps.1, pic_data v ps.2)
  else ps.

Definition pic_run (ws : list (Z * Z)) (ps : P * P) : P * P :=
  fold_left (λ ps w, pic_out w.1 w.2 ps) ws ps.

(** One chip through the five writes it gets. *)
Lemma pic_sequence p v2 v3 v4 m :
  let p' := pic_data m (pic_data v4 (pic_data v3 (pic_data v2 (pic_cmd 0x11 p)))) in
  awaits p' = [] ∧ vectors p' = Z.land v2 0xF8 ∧ mask p' = m.
Proof.
  destruct (pic_icw2 _ v2 _ (pic_icw1 p)) as [H2 V2].
  destruct (pic_icw34 _ v3 _ _ H2 ltac:(done)) as [H3 V3].
  destruct (pic_icw34 _ v4 _ _ H3 ltac:(done)) as [H4 V4].
  destruct (pic_ocw1 _ m H4) as (H5 & V5 & M5). cbv zeta. split_and!; [done | congruence | done].
Qed.

Lemma pic_remap_spec ps :
  let ps' := pic_run pic_remap ps in
  (awaits ps'.1 = [] ∧ vectors ps'.1 = 32 ∧ mask ps'.1 = 0xFC) ∧
  (awaits ps'.2 = [] ∧ vectors ps'.2 = 40 ∧ mask ps'.2 = 0xFF).
Proof.
  destruct ps as [p q]. cbn [pic_run pic_remap fold_left pic_out fst snd Z.eqb Pos.eqb].
  split; apply pic_sequence.
Qed.
End pics.

(** ** The table after [idt_init] *)

Lemma length_idt_set_gate num base present idt :
  length (idt_set_gate num base present idt) = length idt.
Proof. apply length_zset. Qed.

Lemma length_idt_clear n i idt : length (idt_clear_loop n i idt) = length idt.
Proof.
  revert i idt. induction n as [|n IH]; intros i idt; [done |]. cbn [idt_clear_loop].
  by rewrite IH, length_idt_set_gate.
Qed.

(** The gate that stands for "no handler". *)
Definition null_gate : idt_entry := mk_gate 0 8 0 0x8E 0.

Lemma idt_clear_lookup n i idt j :
  0 ≤ i → i + Z.of_nat n ≤ 256 → length idt = 256%nat → 0 ≤ j < 256 →
  idt_clear_loop n i idt !! Z.to_nat j =
    if decide (i ≤ j < i + Z.of_nat n) then Some null_gate else idt !! Z.to_nat j.
Proof.
  revert i idt. induction n as [|n IH]; intros i idt Hi Hn Hl Hj; cbn [idt_clear_loop].
  { by rewrite decide_False by lia. }
  rewrite IH; [| lia | lia | by rewrite length_idt_set_gate | done].
  rewrite u8_small by (unfold is_u8; lia). unfold idt_set_gate, zset.
  destruct (decide (j = i)) as [->|Hne].
  - rewrite decide_False by lia. rewrite decide_True by lia.
    rewrite list_lookup_insert_eq by lia. done.
  - rewrite list_lookup_insert_ne by lia.
    destruct (decide (i + 1 ≤ j < i + 1 + Z.of_nat n)), (decide (i ≤ j < i + Z.of_nat (S n))); done || lia.
Qed.

Lemma gate_halves base :
  is_u32 base →
  Z.land base 0xFFFF + 65536 * Z.land (Z.shiftr base 16) 0xFFFF = base.
Proof.
  intros Hb. change 0xFFFF with (Z.ones 16). rewrite !Z.land_ones, Z.shiftr_div_pow2 by lia.
  change (2 ^ 16) with 65536. unfold is_u32 in Hb. Z.to_euclidean_division_equations; lia.
Qed.

Lemma idt_init_lookup kb tm idt j :
  length idt = 256%nat → is_u32 kb → is_u32 tm → 0 ≤ j < 256 →
  ∃ g, idt_init kb tm idt !! Z.to_nat j = Some g ∧ gate_present g = true ∧
    gate_base g = if j =? 32 then tm else if j =? 33 then kb else 0.
Proof.
  intros Hl Hkb Htm Hj. unfold idt_init, idt_set_gate, zset.
  pose proof (length_idt_clear (Z.to_nat 256) 0 idt) as Hlc.
  destruct (Z.eqb_spec j 32) as [->|H32].
  { rewrite list_lookup_insert_eq by (rewrite length_insert; lia). eexists. split; [done |].
    split; [done |]. by apply gate_halves. }
  rewrite list_lookup_insert_ne by lia. destruct (Z.eqb_spec j 33) as [->|H33].
  { rewrite list_lookup_insert_eq by lia. eexists. split; [done |]. split; [done |].
    by apply gate_halves. }
  rewrite list_lookup_insert_ne by lia.
  rewrite idt_clear_lookup by lia. rewrite decide_True by lia. by exists null_gate.
Qed.

(** ** Properties *)

(** C38. The table and the controllers agree: after [idt_init] and [pic_remap]
    the lines left enabled are exactly the timer and the keyboard, their
    vectors lead to the two stubs, and no enabled line has a null handler; the
    vectors stay clear of the processor's own exceptions 0 to 31. *)
Theorem enabled_irqs_handled `{Pic P} (ps : P * P) (kb tm irq : Z) (idt : list idt_entry) :
  length idt = 256%nat → is_u32 kb → is_u32 tm → kb ≠ 0 → tm ≠ 0 → 0 ≤ irq < 8 →
  let ps' := pic_run pic_remap ps in
  ∃ g, idt_init kb tm idt !! Z.to_nat (vectors ps'.1 + irq) = Some g ∧
    32 ≤ vectors ps'.1 + irq ∧
    (Z.testbit (mask ps'.1) irq = false ↔ gate_base g ≠ 0) ∧
    (irq = 0 → gate_base g = tm) ∧ (irq = 1 → gate_base g = kb) ∧
    Z.testbit (mask ps'.2) irq = true.
Proof.
  intros Hl Hkb Htm Hk0 Ht0 Hirq ps'.
  destruct (pic_remap_spec ps) as ((_ & Hv & Hm) & (_ & _ & Hm2)). fold ps' in Hv, Hm, Hm2.
  rewrite Hv, Hm, Hm2.
  destruct (idt_init_lookup kb tm idt (32 + irq) Hl Hkb Htm ltac:(lia)) as (g & Hg & _ & Hb).
  exists g. rewrite Hg, Hb. split; [done |]. split; [lia |].
  assert (irq ∈ seqZ 0 8) as Hin by (apply elem_of_seqZ; lia).
  change (seqZ 0 8) with [0; 1; 2; 3; 4; 5; 6; 7] in Hin.
  repeat (apply elem_of_cons in Hin as [->|Hin]; [cbn; split_and!; done || tauto |]).
  by apply elem_of_nil in Hin.
Qed.

(** The number of interrupts it takes to advance the clock. *)
Fixpoint timer_count (n : nat) (t : timer) : timer :=
  match n with
  | O => t
  | S n' => timer_count n' (mk_timer (u32 (ticks t + 1)) (tick_frequency t))
  end.

Lemma timer_count_ticks n t :
  is_u32 (ticks t) → ticks (timer_count n t) = u32 (ticks t + Z.of_nat n) ∧
  tick_frequency (timer_count n t) = tick_frequency t.
Proof.
  revert t. induction n as [|n IH]; intros t Ht; cbn [timer_count].
  - rewrite Z.add_0_r, u32_small by done. done.
  - destruct (IH (mk_timer (u32 (ticks t + 1)) (tick_frequency t)) (is_u32_u32 _)) as [-> ->].
    cbn [ticks tick_frequency]. split; [| done]. unfold u32. rewrite Zplus_mod_idemp_l.
    f_equal. lia.
Qed.

(** [n] timer interrupts; between them the tasks may do anything to the
    scheduler's state. *)
Inductive timer_run `{Allocator A} : nat → timer → timer → Prop :=
| timer_run_0 t : timer_run 0 t t
| timer_run_S n t (s : sched A) c t' log s' r t'' :
    timer_handler t s c = Some (t', log, s', r) → timer_run n t' t'' → timer_run (S n) t t''.

Lemma timer_run_count `{Allocator A} n t t' : timer_run (A := A) n t t' → t' = timer_count n t.
Proof.
  induction 1 as [t|n t s c t1 log s' r t2 Hh _ IH]; [done |]. unfold timer_handler in Hh.
  destruct (schedule s c) as [[s2 r2]|]; [| done]. injection Hh as <- <- <- <-. exact IH.
Qed.

(** One state in which the tick returns is enough for a run of any length. *)
Lemma timer_count_run `{Allocator A} (s s' : sched A) c r n t :
  schedule s c = Some (s', r) → timer_run (A := A) n t (timer_count n t).
Proof.
  intros Hs. revert t. induction n as [|n IH]; intros t; [constructor |].
  apply (timer_run_S n t s c (mk_timer (u32 (ticks t + 1)) (tick_frequency t)) [EOI] s' r); [| apply IH].
  unfold timer_handler. by rewrite Hs.
Qed.

(** The two bytes of the divisor. *)
Lemma divisor_bytes d :
  is_u16 d →
  is_u8 (Z.land d 0xFF) ∧ is_u8 (Z.land (Z.shiftr d 8) 0xFF) ∧
  Z.land d 0xFF + 256 * Z.land (Z.shiftr d 8) 0xFF = d.
Proof.
  unfold is_u16, is_u8. intros Hd. rewrite !land_255, shiftr_8.
  split_and!; Z.to_euclidean_division_equations; lia.
Qed.

(** C39. The clock.  [timer_init] faults for frequency 0 and otherwise sends the
    low 16 bits of 1193182 / f to the timer chip: for 19 <= f <= 1193182 that
    is the divisor whose rate is at least f and less than one divisor step
    above it; below 19 Hz the quotient does not fit, at least 65536 is lost, and
    the chip runs too fast; above 1193182 Hz the divisor is 0.  After [n] timer
    interrupts, whatever tasks they switch between, [timer_get_seconds] is
    the 32-bit tick count divided by f. *)
Theorem timer_counts_seconds `{Allocator A} (f : Z) (t0 : timer) :
  is_u32 f → is_u32 (ticks t0) →
  (f = 0 → timer_init f t0 = None) ∧
  (f ≠ 0 → ∃ t lo hi,
     timer_init f t0 = Some (t, [(PIT_COMMAND, 0x36); (PIT_CHANNEL0, lo); (PIT_CHANNEL0, hi)]) ∧
     is_u8 lo ∧ is_u8 hi ∧ let divisor := lo + 256 * hi in
     (19 ≤ f ≤ PIT_BASE_FREQ → divisor * f ≤ PIT_BASE_FREQ < (divisor + 1) * f) ∧
     (f < 19 → (divisor + 65536) * f ≤ PIT_BASE_FREQ) ∧
     (PIT_BASE_FREQ < f → divisor = 0) ∧
     ∀ n t', timer_run (A := A) n t t' →
       timer_get_seconds t' = Some (u32 (ticks t0 + Z.of_nat n) / f)).
Proof.
  unfold PIT_BASE_FREQ, is_u32. intros Hf Ht0. unfold timer_init. split.
  { by intros ->. }
  intros Hne. destruct (Z.eqb_spec f 0); [done |]. unfold PIT_BASE_FREQ.
  destruct (divisor_bytes (u16 (1193182 / f))) as (Hlo & Hhi & Hd); [by apply Z.mod_pos_bound |].
  do 3 eexists. split; [reflexivity |]. split; [done |]. split; [done |]. cbv zeta. rewrite Hd.
  clear Hlo Hhi Hd. pose proof (Z.div_mod 1193182 f Hne) as Hdm.
  pose proof (Z.mod_pos_bound 1193182 f ltac:(lia)) as Hm.
  assert (0 ≤ 1193182 / f) as Hq by (apply Z.div_pos; lia). split_and!.
  - intros Hr. assert (1193182 / f < 65536) by (apply Z.div_lt_upper_bound; lia).
    rewrite u16_small by (unfold is_u16; lia). nia.
  - intros Hr. assert (65536 ≤ 1193182 / f) by (apply Z.div_le_lower_bound; lia).
    assert (u16 (1193182 / f) + 65536 ≤ 1193182 / f); [| nia].
    unfold u16. pose proof (Z.div_mod (1193182 / f) 65536 ltac:(lia)).
    assert (1 ≤ 1193182 / f / 65536) by (apply Z.div_le_lower_bound; lia). lia.
  - intros Hr. by rewrite Z.div_small by lia.
  - intros m t' Hrun. rewrite (timer_run_count _ _ _ Hrun).
    destruct (timer_count_ticks m (mk_timer (ticks t0) f) Ht0) as [Hk Hfr].
    unfold timer_get_seconds. rewrite Hk, Hfr. cbn [ticks tick_frequency].
    by destruct (Z.eqb_spec f 0).
Qed.

(** The two witnesses run on a chip that only keeps what the laws mention, and
    on an empty task table. *)
Record chip := mk_chip { c_awaits : list icw; c_vectors : Z; c_mask : Z }.

Definition chip_data (v : Z) (p : chip) : chip :=
  match c_awaits p with
  | [] => mk_chip [] (c_vectors p) v
  | ICW2 :: l => mk_chip l (Z.land v 0xF8) (c_mask p)
  | _ :: l => mk_chip l (c_vectors p) (c_mask p)
  end.

#[export] Program Instance chip_pic : Pic chip := {
  pic_cmd v p := if v =? 0x11 then mk_chip [ICW2; ICW3; ICW4] (c_vectors p) 0 else p;
  pic_data := chip_data;
  awaits := c_awaits; vectors := c_vectors; mask := c_mask
}.
Next Obligation. done. Qed.
Next Obligation. intros p v l Hp. unfold chip_data. by rewrite Hp. Qed.
Next Obligation. intros p v i l Hp Hi. unfold chip_data. rewrite Hp. by destruct i. Qed.
Next Obligation. intros p v Hp. unfold chip_data. by rewrite Hp. Qed.

Lemma enabled_irqs_handled_witness :
  ∃ g, idt_init 0x1200 0x1100 (replicate 256 null_gate) !! 33%nat = Some g ∧ gate_base g = 0x1200.
Proof.
  destruct (enabled_irqs_handled (mk_chip [] 8 0, mk_chip [] 0x70 0) 0x1200 0x1100 1
    (replicate 256 null_gate)) as (g & Hg & _ & _ & _ & Hb & _);
    [reflexivity | unfold is_u32; lia | unfold is_u32; lia | lia | lia | lia |].
  exists g. split; [exact Hg | by apply Hb].
Defined.
