(* ===== verification/Multitask.v ===== *)
(** * Tasks on the kernel's heap

    The scheduler of [kernel/task.c] with its stacks taken from the allocator
    of [kernel/mm.c], run from boot as [kernel_main] and the timer do. *)
From S2P Require Import Prelude Console Allocator Heap Task Sched Interrupts.

(** The heap [kmalloc_init] makes after a kernel image that ends at 0x8000, on
    a machine with 639 KB of base memory. *)
Definition boot_heap : heap := kmalloc_init 0x8000 [mk_mmap 0 0x9FC00 1] ∅.

(** The statics of [task.c] at power-on. *)
Definition power_on : sched heap :=
  mk_sched (replicate 8 (mk_task 0 false [] 0)) 0 0 boot_heap ∅.

Lemma boot_heap_live : al_live (alloc power_on) [].
Proof.
  exists 0x8000, (find_heap_end [mk_mmap 0 0x9FC00 1] 0x8000).
  apply (heap_run_holds _ _ ∅); [done | done | constructor].
Qed.

(** The running task writes one word. *)
Definition poke (k v : Z) (s : sched heap) : sched heap :=
  mk_sched (tasks s) (current_task s) (task_count s) (alloc s) (<[k := v]> (words s)).

(** A run: [kernel_main] creates the task "kernel", which is to create
    "shell"; the first tick starts "kernel", the second one "shell", the third
    one goes back to "kernel". *)
Section run.
Definition s1 := tasks_init power_on.
Definition s2 := Eval vm_compute in
  (default (0, s1) (task_create_named 0x2000 (str "kernel") s1)).2.
Definition s3 := Eval vm_compute in
  (default (0, s2) (task_create_named 0x3000 (str "shell") s2)).2.
(** The registers with which [schedule] calls [task_switch] at each tick. *)
Definition c0 := mk_cpu 0x1000 0x8FF00 0 0 0 0.
Definition c1 := mk_cpu 0x2100 49064 1 2 3 4.
Definition c2 := mk_cpu 0x3100 65460 5 6 7 8.
Definition s4 := Eval vm_compute in poke 0x8FF00 0x1234 s3.
Definition s5 := Eval vm_compute in (default (s4, None) (schedule s4 c0)).1.
Definition s6 := Eval vm_compute in poke 49064 0x2345 s5.
Definition s7 := Eval vm_compute in (default (s6, None) (schedule s6 c1)).1.
Definition s8 := Eval vm_compute in poke 65460 0x3456 s7.
Definition s9 := Eval vm_compute in (default (s8, None) (schedule s8 c2)).1.
End run.

(** Case analysis on the eight slots of a computed table. *)
Ltac each_task i Hi Hu :=
  unfold apart, stack_of, TASK_STACK_SIZE;
  do 8 (destruct i as [|i];
    [vm_compute in Hi; injection Hi as <-; cbn; first [lia | by vm_compute in Hu] |]);
  done.

(** [poke] is work of the running task when the word is in no other stack. *)
Lemma poke_works k v s :
  (∀ i t, tasks s !! i = Some t → used t = true → Z.of_nat i ≠ current_task s →
     ¬ (stack_base t ≤ k < stack_base t + TASK_STACK_SIZE)) →
  works s (poke k v s).
Proof.
  intros Hk. unfold works, poke. cbn. split_and!; try done.
  intros i t k' Hi Hu Hne Hr. apply lookup_insert_ne. intros ->. by apply (Hk i t).
Qed.

(** A tick in a computed state, with the running task on its own stack. *)
Ltac run_tick s' :=
  match goal with |- sched_step (Tick ?c ?ret ?r ?n) (?R, ?s) _ =>
    change (sched_step (Tick c ret r (current_task s')) (R, s) (R, s')) end;
  apply step_tick; [constructor | vm_compute; reflexivity];
  [vm_compute; reflexivity | cbn; lia | |].

Lemma ran_create_kernel : sched_step (Create 0x2000 (str "kernel") 0) ([], s1) ([], s2).
Proof.
  apply step_create; [vm_compute; reflexivity |].
  intros t _. vm_compute. by intros [= <-].
Qed.

Lemma ran_create_shell : sched_step (Create 0x3000 (str "shell") 1) ([], s2) ([], s3).
Proof.
  apply step_create; [vm_compute; reflexivity |].
  intros t _. vm_compute. by intros [= <-].
Qed.

Lemma ran_boot_work : sched_step Work ([], s3) ([], s4).
Proof.
  apply step_work. change s4 with (poke 0x8FF00 0x1234 s3). apply poke_works.
  intros i t Hi Hu Hne. each_task i Hi Hu.
Qed.

Lemma ran_tick_boot :
  sched_step (Tick c0 0x1234 (Some (mk_cpu 0x2000 49164 0 0 0 0)) 0) ([], s4) ([], s5).
Proof.
  run_tick s5.
  - intros t Hc. vm_compute in Hc. done.
  - intros i t _ Hi Hu. each_task i Hi Hu.
Qed.

Lemma ran_kernel_work : sched_step Work ([], s5) ([], s6).
Proof.
  apply step_work. change s6 with (poke 49064 0x2345 s5). apply poke_works.
  intros i t Hi Hu Hne. each_task i Hi Hu.
Qed.

Lemma ran_tick_kernel :
  sched_step (Tick c1 0x2345 (Some (mk_cpu 0x3000 65560 0 0 0 0)) 1) ([], s6) ([], s7).
Proof.
  run_tick s7.
  - intros t _ Ht. vm_compute in Ht. injection Ht as <-. cbn. unfold TASK_STACK_SIZE. lia.
  - intros i t Hc. by vm_compute in Hc.
Qed.

Lemma ran_shell_work : sched_step Work ([], s7) ([], s8).
Proof.
  apply step_work. change s8 with (poke 65460 0x3456 s7). apply poke_works.
  intros i t Hi Hu Hne. each_task i Hi Hu.
Qed.

(** The processor comes back to "kernel" as it left it. *)
Lemma ran_tick_shell :
  sched_step (Tick c2 0x3456 (Some (mk_cpu 0x2345 49068 1 2 3 4)) 0) ([], s8) ([], s9).
Proof.
  run_tick s9.
  - intros t _ Ht. vm_compute in Ht. injection Ht as <-. cbn. unfold TASK_STACK_SIZE. lia.
  - intros i t Hc. by vm_compute in Hc.
Qed.

Definition boot_events : list event :=
  [Create 0x2000 (str "kernel") 0; Create 0x3000 (str "shell") 1; Work;
   Tick c0 0x1234 (Some (mk_cpu 0x2000 49164 0 0 0 0)) 0].

Ltac trace_steps := repeat (eapply trace_cons; [eassumption || eauto with runs |]); apply trace_nil.

Create HintDb runs.
#[export] Hint Resolve ran_create_kernel ran_create_shell ran_boot_work ran_tick_boot
  ran_kernel_work ran_tick_kernel ran_shell_work ran_tick_shell : runs.

Lemma boot_trace : sched_trace boot_events ([], s1) ([], s5).
Proof. unfold boot_events. trace_steps. Qed.

Lemma boot_ok : ∃ am, sched_ok [] s5 am.
Proof.
  destruct (trace_simulated boot_events ([], s1) ([], s5) am_init) as (am & _ & Hok);
    [| exact boot_trace | by exists am].
  apply tasks_init_ok; [done |]. exists []. split; [exact boot_heap_live | done].
Qed.

Lemma s6_ok : ∃ am, sched_ok [] s6 am.
Proof.
  destruct boot_ok as (am & Hok).
  destruct (trace_simulated [Work] ([], s5) ([], s6) am) as (am' & _ & Hok');
    [done | trace_steps | by exists am'].
Qed.

(** ** The scheduler's theorems on this run *)

Lemma sched_refines_witness : ∃ am, am_trace boot_events am_init am ∧ am_current am = 0.
Proof.
  destruct (sched_refines power_on boot_events [] [] s5 eq_refl boot_heap_live boot_trace)
    as (am & Ht & Hc & _). by exists am.
Defined.

Lemma sched_safe_witness : is_Some (task_kill 1 s5) ∧ used_at (tasks s5) 0 = true.
Proof.
  destruct (sched_safe power_on boot_events [] [] s5 eq_refl boot_heap_live boot_trace)
    as (_ & _ & Hk & _ & H0 & _).
  split; [apply Hk | by apply H0].
Defined.

Lemma task_resumes_witness :
  Some (mk_cpu 0x2345 49068 1 2 3 4) = Some (returned c1 0x2345).
Proof.
  destruct s6_ok as (am & Hok).
  apply (task_resumes [] s6 am c1 0x2345 (mk_cpu 0x3000 65560 0 0 0 0) 0 [Work] s7 s8 [] s9 []
    c2 0x3456 _ Hok); [done | reflexivity | done | trace_steps | trace_steps | | trace_steps].
  by repeat constructor.
Defined.

Lemma task_starts_witness :
  ∃ t, tasks s3 !! 1%nat = Some t ∧
    Some (mk_cpu 0x3000 65560 0 0 0 0) = Some (mk_cpu 0x3000 (stack_base t + TASK_STACK_SIZE) 0 0 0 0).
Proof.
  destruct (trace_simulated [Create 0x2000 (str "kernel") 0] ([], s1) ([], s2) am_init)
    as (am & _ & Hok); [| trace_steps |].
  { apply tasks_init_ok; [done |]. exists []. split; [exact boot_heap_live | done]. }
  eexists. split; [vm_compute; reflexivity |].
  eapply (task_starts [] s2 am 0x3000 (str "shell") 1 s3
    [Work; Tick c0 0x1234 (Some (mk_cpu 0x2000 49164 0 0 0 0)) 0; Work] s6 [] s7 [] c1 0x2345);
    [exact Hok | done | trace_steps | reflexivity | trace_steps | | trace_steps].
  by repeat constructor.
Defined.

Lemma task_gets_turn_witness :
  Exists (gives_turn 1) [Work; Tick c1 0x2345 (Some (mk_cpu 0x3000 65560 0 0 0 0)) 1; Work;
    Tick c2 0x3456 (Some (mk_cpu 0x2345 49068 1 2 3 4)) 0].
Proof.
  destruct boot_ok as (am & Hok).
  apply (task_gets_turn [] s5 am _ [] s9 1 Hok); [done | reflexivity | trace_steps | | done].
  by repeat constructor.
Defined.

(** "kernel" kills "shell" after the first tick. *)
Definition s10 := Eval vm_compute in (default (0, s5) (task_kill 1 s5)).2.

Lemma ran_kill : sched_step (Kill 1 0) ([], s5) ([], s10).
Proof. apply step_kill. vm_compute. reflexivity. Qed.

Lemma task_kill_final_witness : used_at (tasks s10) 1 = false.
Proof.
  destruct boot_ok as (am & Hok).
  apply (task_kill_final [] s5 am 1 [] [] s10 [] s10 Hok).
  - eapply trace_cons; [exact ran_kill | apply trace_nil].
  - apply trace_nil.
Defined.

Lemma task_kill_result_witness : task_kill 0 s5 = Some (-1, s5).
Proof. destruct boot_ok as (am & Hok). exact (task_kill_result [] s5 am 0 Hok). Defined.

(** A heap of one page has no room for a stack. *)
Definition small : sched heap :=
  tasks_init (mk_sched (replicate 8 (mk_task 0 false [] 0)) 0 0 (kmalloc_init 0x8F000 [] ∅) ∅).

Lemma task_create_unchecked_witness :
  ∃ s', task_create_named 0x2000 (str "kernel") small = Some (0, s') ∧ words s' !! 16380 = Some 0x2000.
Proof.
  destruct (task_create_unchecked small 0x2000 (str "kernel") eq_refl) as (s' & Hc & _ & Hw);
    [done | vm_compute; reflexivity | by exists s'].
Defined.

(** Creating tasks until the table is full. *)
Definition create_once (s : sched heap) : sched heap :=
  (default (0, s) (task_create_named 0x2000 (str "task") s)).2.

Fixpoint create_many (n : nat) (s : sched heap) : sched heap :=
  match n with O => s | S n' => create_many n' (create_once s) end.

(** All the creations get a stack. *)
Fixpoint roomy (n : nat) (s : sched heap) : bool :=
  match n with
  | O => true
  | S n' =>
      (task_count s <? MAX_TASKS) &&
      match tasks (create_once s) !! Z.to_nat (task_count s) with
      | Some t => negb (stack_base t =? NULL)
      | None => false
      end && roomy n' (create_once s)
  end.

Lemma create_many_ok n s am :
  sched_ok [] s am → roomy n s = true → ∃ am', sched_ok [] (create_many n s) am'.
Proof.
  revert s am. induction n as [|n IH]; intros s am Hok; [by exists am |]. cbn [roomy create_many].
  intros [[Hc%Z.ltb_lt Hb]%andb_true_iff Hr]%andb_true_iff.
  destruct (create_ok _ _ _ 0x2000 (str "task") Hok Hc) as (p & s' & Hcr & Ht & Hok').
  unfold create_once in *. rewrite Hcr in *. cbn [default from_option id snd] in *.
  rewrite Ht in Hb. cbn in Hb. apply negb_true_iff, Z.eqb_neq in Hb.
  by apply (IH s' _ (Hok' Hb)).
Qed.

Definition full : sched heap := Eval vm_compute in create_many 8 s1.

Lemma full_ok : ∃ am, sched_ok [] full am.
Proof.
  replace full with (create_many 8 s1) by (vm_compute; reflexivity).
  apply (create_many_ok 8 s1 am_init); [| vm_compute; reflexivity].
  apply tasks_init_ok; [done |]. exists []. split; [exact boot_heap_live | done].
Qed.

Lemma task_slots_spent_witness : task_create_named 0x2000 (str "task") full = Some (-1, full).
Proof.
  destruct full_ok as (am & Hok).
  apply (task_slots_spent [] full am [] [] full _ _ Hok); [reflexivity | apply trace_nil].
Defined.

(** Two and a half seconds at 100 Hz, of ticks that switch between the two
    tasks; at 10 Hz the divisor is cut to 53782 instead of 119318. *)
Lemma timer_counts_seconds_witness :
  (∃ t, timer_run (A := heap) 250 (mk_timer 0 100) t ∧ timer_get_seconds t = Some 2) ∧
  ∃ t, timer_init 10 timer_boot =
    Some (t, [(PIT_COMMAND, 0x36); (PIT_CHANNEL0, 22); (PIT_CHANNEL0, 210)]).
Proof.
  destruct (timer_counts_seconds (A := heap) 100 timer_boot) as [_ Hc]; [by split | by split |].
  destruct (Hc ltac:(done)) as (t & lo & hi & Hi & _ & _ & _ & _ & _ & Hs). split.
  - injection Hi as <- _ _. eexists. split.
    + apply (timer_count_run s6 (default (s6, None) (schedule s6 c1)).1 c1
        (default (s6, None) (schedule s6 c1)).2). vm_compute. reflexivity.
    + rewrite (Hs 250%nat).
      * reflexivity.
      * apply (timer_count_run s6 (default (s6, None) (schedule s6 c1)).1 c1
          (default (s6, None) (schedule s6 c1)).2). vm_compute. reflexivity.
  - eexists. reflexivity.
Defined.
