(* ===== verification/FsLayout.v ===== *)
(** * Volume layout of RinkFS16: the constants of [kernel/scr/fs.h]. *)
From S2P Require Import Prelude.

Definition FS_IMAGE_TOTAL_SECTORS : Z := 16384.

Definition FS_VOL_START_LBA : Z := 300.
Definition FS_BOOT_LBA : Z := FS_VOL_START_LBA.

Definition FS_BYTES_PER_SECTOR : Z := 512.
Definition FS_SECTORS_PER_CLUSTER : Z := 1.

Definition FS_NUM_FATS : Z := 2.
Definition FS_FAT_SIZE_SECTORS : Z := 63.
Definition FS_FAT1_LBA : Z := FS_VOL_START_LBA + 1.
Definition FS_FAT2_LBA : Z := FS_FAT1_LBA + FS_FAT_SIZE_SECTORS.

Definition FS_ROOT_ENTRIES : Z := 128.
Definition FS_ROOT_DIR_SECTORS : Z := (FS_ROOT_ENTRIES * 32) / FS_BYTES_PER_SECTOR.
Definition FS_ROOT_LBA : Z := FS_FAT2_LBA + FS_FAT_SIZE_SECTORS.

Definition FS_DATA_LBA : Z := FS_ROOT_LBA + FS_ROOT_DIR_SECTORS.
Definition FS_FIRST_DATA_CLUSTER : Z := 2.
Definition FS_TOTAL_DATA_CLUSTERS : Z := FS_IMAGE_TOTAL_SECTORS - FS_DATA_LBA.

Definition FS_ENTRIES_PER_CLUSTER : Z := FS_BYTES_PER_SECTOR / 32.

Definition FS_CLUSTER_FREE : Z := 0x0000.
Definition FS_CLUSTER_RESERVED : Z := 0x0001.
Definition FS_CLUSTER_BAD : Z := 0xFFF7.
Definition FS_CLUSTER_EOC : Z := 0xFFFF.
Definition FS_CLUSTER_EOC_MIN : Z := 0xFFF8.

Definition FS_DIRENT_FREE : Z := 0x00.
Definition FS_DIRENT_DELETED : Z := 0xE5.

Definition FS_ATTR_NORMAL : Z := 0x20.
Definition FS_ATTR_DIRECTORY : Z := 0x10.

Definition FS_NAME_FIELD_LEN : Z := 8.
Definition FS_EXT_FIELD_LEN : Z := 3.
Definition FS_COMPONENT_LEN : Z := 13.
Definition FS_NAME_LEN : Z := 64.

(** The layout constants unfold in one step before [lia] or [cbn] sees them. *)
Ltac unfold_layout :=
  unfold FS_TOTAL_DATA_CLUSTERS, FS_DATA_LBA, FS_ROOT_LBA, FS_ROOT_DIR_SECTORS,
    FS_ROOT_ENTRIES, FS_FAT2_LBA, FS_FAT1_LBA, FS_BOOT_LBA, FS_VOL_START_LBA,
    FS_FAT_SIZE_SECTORS, FS_NUM_FATS, FS_SECTORS_PER_CLUSTER,
    FS_FIRST_DATA_CLUSTER, FS_IMAGE_TOTAL_SECTORS, FS_ENTRIES_PER_CLUSTER,
    FS_BYTES_PER_SECTOR, FS_CLUSTER_FREE, FS_CLUSTER_RESERVED, FS_CLUSTER_BAD,
    FS_CLUSTER_EOC, FS_CLUSTER_EOC_MIN, FS_DIRENT_FREE, FS_DIRENT_DELETED,
    FS_ATTR_NORMAL, FS_ATTR_DIRECTORY, FS_NAME_FIELD_LEN, FS_EXT_FIELD_LEN,
    FS_COMPONENT_LEN, FS_NAME_LEN in *;
  change (128 * 32 / 512) with 8 in *; change (512 / 32) with 16 in *.
