(* ===== verification/Disk.v ===== *)
(** * The disk as the file system sees it: an array of 512-byte sectors
    ([disk_read_sector] and [disk_write_sector] of [kernel/disk.c]).  This is
    the contract of the disk driver; Ata.v shows that the driver meets it. *)
From S2P Require Import Prelude FsLayout.

(** A sector is a list of 512 bytes; a sector that was never written reads as
    zeros (the image is padded with zeros by the Makefile's [truncate]). *)
Abbreviation sector := (list Z) (only parsing).

Definition zero_sector : sector := replicate 512 0.

Record disk := mk_disk { sectors : gmap Z sector }.

Definition disk_read_sector (d : disk) (lba : Z) : sector :=
  default zero_sector (sectors d !! lba).

Definition disk_write_sector (d : disk) (lba : Z) (buf : sector) : disk :=
  mk_disk (<[lba := buf]> (sectors d)).

Definition sector_ok (b : sector) : Prop := length b = 512%nat ∧ Forall is_u8 b.

Definition disk_ok (d : disk) : Prop := ∀ lba, sector_ok (disk_read_sector d lba).

Lemma disk_read_write_eq d lba b : disk_read_sector (disk_write_sector d lba b) lba = b.
Proof. unfold disk_read_sector, disk_write_sector. cbn. by rewrite lookup_insert_eq. Qed.

Lemma disk_read_write_ne d l1 l2 b :
  l1 ≠ l2 → disk_read_sector (disk_write_sector d l1 b) l2 = disk_read_sector d l2.
Proof.
  intros Hne. unfold disk_read_sector, disk_write_sector. cbn.
  by rewrite lookup_insert_ne.
Qed.

Lemma zero_sector_ok : sector_ok zero_sector.
Proof. split; [done |]. apply Forall_replicate. unfold is_u8. lia. Qed.

Lemma disk_write_ok d lba b : disk_ok d → sector_ok b → disk_ok (disk_write_sector d lba b).
Proof.
  intros Hd Hb l. destruct (decide (lba = l)) as [->|Hne].
  - by rewrite disk_read_write_eq.
  - by rewrite disk_read_write_ne.
Qed.

#[export] Hint Resolve zero_sector_ok disk_write_ok : rink.
#[export] Hint Rewrite disk_read_write_eq : rink.
