(* ===== verification/Ata.v ===== *)
(** * The ATA driver of [kernel/disk.c] over the port instructions of
    [kernel/io.c], and its refinement to the array of sectors of Disk.v.

    The drive is hardware: it is an instance of the class [AtaDrive], whose
    laws are the PIO protocol for single-sector LBA28 transfers. *)
From S2P Require Import Prelude FsLayout Disk.

Definition ATA_DATA : Z := 0x1F0.
Definition ATA_SECCOUNT : Z := 0x1F2.
Definition ATA_LBA_LOW : Z := 0x1F3.
Definition ATA_LBA_MID : Z := 0x1F4.
Definition ATA_LBA_HIGH : Z := 0x1F5.
Definition ATA_DRIVE_HEAD : Z := 0x1F6.
Definition ATA_STATUS : Z := 0x1F7.
Definition ATA_COMMAND : Z := 0x1F7.

Definition ATA_CMD_READ : Z := 0x20.
Definition ATA_CMD_WRITE : Z := 0x30.

(** ** The drive *)

(** Where the drive is in a transfer: the words it still has to deliver, or
    the sector it is filling and the words it has received. *)
Inductive phase :=
| Idle
| Reading (ws : list Z)
| Writing (lba : Z) (ws : list Z).

Definition transferring (p : phase) : bool := match p with Idle => false | _ => true end.

Record task_file := mk_tf {
  tf_head : Z;
  tf_count : Z;
  tf_low : Z;
  tf_mid : Z;
  tf_high : Z
}.

(** The sector the registers address: 28 bits, LBA mode. *)
Definition tf_lba (r : task_file) : Z :=
  tf_low r + 256 * tf_mid r + 65536 * tf_high r + 16777216 * (tf_head r mod 16).

(** A one-sector command in LBA mode. *)
Definition tf_single (r : task_file) : Prop := Z.land (tf_head r) 0xE0 = 0xE0 ∧ tf_count r = 1.

(** The little-endian 16-bit words of a byte buffer, and back. *)
Fixpoint to_words (bs : list Z) : list Z :=
  match bs with
  | lo :: hi :: bs' => lo + 256 * hi :: to_words bs'
  | _ => []
  end.

Fixpoint to_bytes (ws : list Z) : list Z :=
  match ws with
  | [] => []
  | w :: ws' => w mod 256 :: w / 256 :: to_bytes ws'
  end.

(** A register written through its port. *)
Definition set_reg (port v : Z) (r : task_file) : task_file :=
  if port =? ATA_DRIVE_HEAD then mk_tf v (tf_count r) (tf_low r) (tf_mid r) (tf_high r)
  else if port =? ATA_SECCOUNT then mk_tf (tf_head r) v (tf_low r) (tf_mid r) (tf_high r)
  else if port =? ATA_LBA_LOW then mk_tf (tf_head r) (tf_count r) v (tf_mid r) (tf_high r)
  else if port =? ATA_LBA_MID then mk_tf (tf_head r) (tf_count r) (tf_low r) v (tf_high r)
  else mk_tf (tf_head r) (tf_count r) (tf_low r) (tf_mid r) v.

Definition is_reg (port : Z) : Prop :=
  port ∈ [ATA_DRIVE_HEAD; ATA_SECCOUNT; ATA_LBA_LOW; ATA_LBA_MID; ATA_LBA_HIGH].

(** The port instructions on a drive. *)
Class AtaPorts (D : Type) := {
  inb : Z → D → Z * D;
  inw : Z → D → Z * D;
  outb : Z → Z → D → D;
  outw : Z → Z → D → D
}.

(** What can be observed of a drive that works, and the protocol: it serves
    every 28-bit sector number and reports no error.  [busy d] bounds how often
    the status still shows BSY. *)
Class AtaDrive (D : Type) `{AtaPorts D} := {
  busy : D → nat;
  phase_of : D → phase;
  regs_of : D → task_file;
  medium : D → disk;
  max_busy : nat;
  (** Reading the status: BSY while busy, then DRQ during a transfer. *)
  status_same d :
    phase_of (inb ATA_STATUS d).2 = phase_of d ∧ regs_of (inb ATA_STATUS d).2 = regs_of d ∧
    medium (inb ATA_STATUS d).2 = medium d;
  status_busy d :
    (0 < busy d)%nat →
    Z.land (inb ATA_STATUS d).1 0x80 ≠ 0 ∧ (busy (inb ATA_STATUS d).2 < busy d)%nat;
  status_ready d :
    busy d = 0%nat →
    Z.land (inb ATA_STATUS d).1 0x80 = 0 ∧ busy (inb ATA_STATUS d).2 = 0%nat ∧
    (transferring (phase_of d) = true → Z.land (inb ATA_STATUS d).1 0x08 ≠ 0);
  (** The task file can be written while the drive is idle. *)
  outb_reg d port v :
    busy d = 0%nat → phase_of d = Idle → is_reg port →
    busy (outb port v d) = 0%nat ∧ phase_of (outb port v d) = Idle ∧
    regs_of (outb port v d) = set_reg port v (regs_of d) ∧ medium (outb port v d) = medium d;
  (** The three commands. *)
  outb_read d :
    busy d = 0%nat → phase_of d = Idle → tf_single (regs_of d) →
    let d' := outb ATA_COMMAND ATA_CMD_READ d in
    (busy d' ≤ max_busy)%nat ∧ medium d' = medium d ∧
    phase_of d' = Reading (to_words (disk_read_sector (medium d) (tf_lba (regs_of d))));
  outb_write d :
    busy d = 0%nat → phase_of d = Idle → tf_single (regs_of d) →
    let d' := outb ATA_COMMAND ATA_CMD_WRITE d in
    (busy d' ≤ max_busy)%nat ∧ medium d' = medium d ∧
    phase_of d' = Writing (tf_lba (regs_of d)) [];
  outb_flush d :
    busy d = 0%nat → phase_of d = Idle →
    let d' := outb ATA_COMMAND 0xE7 d in
    (busy d' ≤ max_busy)%nat ∧ medium d' = medium d ∧ phase_of d' = Idle;
  (** One word of data; the sector is on the medium after the last one. *)
  inw_data d w ws :
    busy d = 0%nat → phase_of d = Reading (w :: ws) →
    (inw ATA_DATA d).1 = w ∧ busy (inw ATA_DATA d).2 = 0%nat ∧
    medium (inw ATA_DATA d).2 = medium d ∧
    phase_of (inw ATA_DATA d).2 = match ws with [] => Idle | _ => Reading ws end;
  outw_data d w lba ws :
    busy d = 0%nat → phase_of d = Writing lba ws →
    let d' := outw ATA_DATA w d in
    if (length ws <? 255)%nat
    then busy d' = 0%nat ∧ medium d' = medium d ∧ phase_of d' = Writing lba (ws ++ [w])
    else (busy d' ≤ max_busy)%nat ∧ phase_of d' = Idle ∧
         medium d' = disk_write_sector (medium d) lba (to_bytes (ws ++ [w]))
}.

(** ** The driver

    [None] means that a wait loop is still running after [fuel] rounds. *)
Section driver.
Context `{AtaPorts D}.

Fixpoint ata_wait_ready (fuel : nat) (d : D) : option D :=
  match fuel with
  | O => None
  | S fuel' =>
      let '(v, d) := inb ATA_STATUS d in
      if negb (Z.land v 0x80 =? 0) then ata_wait_ready fuel' d else Some d
  end.

Fixpoint ata_wait_drq (fuel : nat) (d : D) : option D :=
  match fuel with
  | O => None
  | S fuel' =>
      let '(v, d) := inb ATA_STATUS d in
      if Z.land v 0x08 =? 0 then ata_wait_drq fuel' d else Some d
  end.

(** The five register writes before a command. *)
Definition ata_select (lba : Z) (d : D) : D :=
  let d := outb ATA_DRIVE_HEAD (Z.lor 0xE0 (Z.land (Z.shiftr lba 24) 0x0F)) d in
  let d := outb ATA_SECCOUNT 1 d in
  let d := outb ATA_LBA_LOW (u8 (Z.land lba 0xFF)) d in
  let d := outb ATA_LBA_MID (u8 (Z.land (Z.shiftr lba 8) 0xFF)) d in
  outb ATA_LBA_HIGH (u8 (Z.land (Z.shiftr lba 16) 0xFF)) d.

(** [buf16[i] = inw(ATA_DATA)], [n] words from index [i]. *)
Fixpoint read_words (n : nat) (i : Z) (buffer : list Z) (d : D) : list Z * D :=
  match n with
  | O => (buffer, d)
  | S n' =>
      let '(w, d) := inw ATA_DATA d in
      let buffer := zset (zset buffer (2 * i) (w mod 256)) (2 * i + 1) (w / 256) in
      read_words n' (i + 1) buffer d
  end.

(** [outw(ATA_DATA, buf16[i])] *)
Fixpoint write_words (n : nat) (i : Z) (buffer : list Z) (d : D) : D :=
  match n with
  | O => d
  | S n' =>
      write_words n' (i + 1) buffer
        (outw ATA_DATA (znth buffer (2 * i) + 256 * znth buffer (2 * i + 1)) d)
  end.

(** The return code, the buffer and the drive. *)
Definition ata_read_sector (fuel : nat) (lba : Z) (buffer : list Z) (d : D) :
    option (Z * list Z * D) :=
  match ata_wait_ready fuel d with
  | None => None
  | Some d =>
      let d := ata_select lba d in
      let d := outb ATA_COMMAND ATA_CMD_READ d in
      match ata_wait_ready fuel d with
      | None => None
      | Some d =>
          match ata_wait_drq fuel d with
          | None => None
          | Some d =>
              let '(buffer, d) := read_words (Z.to_nat 256) 0 buffer d in
              Some (0, buffer, d)
          end
      end
  end.

Definition ata_write_sector (fuel : nat) (lba : Z) (buffer : list Z) (d : D) : option (Z * D) :=
  match ata_wait_ready fuel d with
  | None => None
  | Some d =>
      let d := ata_select lba d in
      let d := outb ATA_COMMAND ATA_CMD_WRITE d in
      match ata_wait_ready fuel d with
      | None => None
      | Some d =>
          match ata_wait_drq fuel d with
          | None => None
          | Some d =>
              let d := write_words (Z.to_nat 256) 0 buffer d in
              match ata_wait_ready fuel d with
              | None => None
              | Some d =>
                  let d := outb ATA_COMMAND 0xE7 d in
                  match ata_wait_ready fuel d with
                  | None => None
                  | Some d => Some (0, d)
                  end
              end
          end
      end
  end.
End driver.

(** ** Words and bytes *)

Lemma pair_ind {A} (P : list A → Prop) :
  P [] → (∀ x, P [x]) → (∀ x y l, P l → P (x :: y :: l)) → ∀ l, P l.
Proof.
  intros H0 H1 H2 l. assert (P l ∧ ∀ x, P (x :: l)) as [? _]; [| done].
  induction l as [|y l [IH1 IH2]]; split; auto.
Qed.

Lemma to_bytes_words bs : Nat.Even (length bs) → Forall is_u8 bs → to_bytes (to_words bs) = bs.
Proof.
  induction bs as [|x|lo hi bs IH] using pair_ind; intros He Hb; [done | |].
  { destruct He as [n Hn]. cbn in Hn. lia. }
  apply Forall_cons in Hb as [Hlo Hb]. apply Forall_cons in Hb as [Hhi Hb]. cbn.
  rewrite IH; [| by apply Nat.Even_succ_succ | done]. unfold is_u8 in *.
  f_equal; [| f_equal]; Z.to_euclidean_division_equations; lia.
Qed.

Lemma length_to_bytes ws : length (to_bytes ws) = (2 * length ws)%nat.
Proof. induction ws as [|w ws IH]; cbn; lia. Qed.

Lemma length_to_words bs n : length bs = (2 * n)%nat → length (to_words bs) = n.
Proof.
  revert n. induction bs as [|x|lo hi bs IH] using pair_ind; intros n Hn; cbn in *; [lia | lia |].
  rewrite (IH (n - 1)%nat); lia.
Qed.

Lemma to_words_lookup bs i :
  (2 * i + 1 < length bs)%nat →
  to_words bs !! i = Some (znth bs (2 * Z.of_nat i) + 256 * znth bs (2 * Z.of_nat i + 1)).
Proof.
  revert i. induction bs as [|x|lo hi bs IH] using pair_ind; intros i Hi; cbn in Hi; [lia | lia |].
  destruct i as [|i]; [done |]. cbn [to_words lookup list_lookup].
  change ((lo + 256 * hi :: to_words bs) !! S i) with (to_words bs !! i).
  rewrite IH by lia. unfold znth.
  replace (Z.to_nat (2 * Z.of_nat (S i))) with (S (S (Z.to_nat (2 * Z.of_nat i)))) by lia.
  replace (Z.to_nat (2 * Z.of_nat (S i) + 1)) with (S (S (Z.to_nat (2 * Z.of_nat i + 1)))) by lia.
  done.
Qed.

Lemma sector_words b : sector_ok b → to_bytes (to_words b) = b ∧ length (to_words b) = 256%nat.
Proof.
  intros [Hl Hb]. split; [| by apply length_to_words].
  apply to_bytes_words; [exists 256%nat; lia | done].
Qed.

(** ** The driver's steps *)

Section proofs.
Context `{AtaDrive D}.

(** [d'] is [d], ready. *)
Definition settled (d d' : D) : Prop :=
  busy d' = 0%nat ∧ phase_of d' = phase_of d ∧ regs_of d' = regs_of d ∧ medium d' = medium d.

Lemma wait_ready_spec fuel d :
  (busy d < fuel)%nat → ∃ d', ata_wait_ready fuel d = Some d' ∧ settled d d'.
Proof.
  revert d. induction fuel as [|fuel IH]; intros d Hf; [lia |]. cbn [ata_wait_ready].
  destruct (status_same d) as (Hp & Hr & Hm).
  destruct (busy d) as [|b] eqn:Hb.
  - destruct (status_ready d Hb) as (Hv & Hb' & _).
    destruct (inb ATA_STATUS d) as [v d1]. cbn [fst snd] in *. rewrite Hv. cbn.
    exists d1. by repeat split.
  - destruct (status_busy d ltac:(lia)) as [Hv Hlt].
    destruct (inb ATA_STATUS d) as [v d1]. cbn [fst snd] in *.
    apply Z.eqb_neq in Hv. rewrite Hv. cbn [negb].
    destruct (IH d1 ltac:(lia)) as (d' & Hw & Hb' & Hp' & Hr' & Hm'). exists d'.
    split; [done |]. repeat split; congruence.
Qed.

Lemma wait_drq_spec fuel d :
  (0 < fuel)%nat → busy d = 0%nat → transferring (phase_of d) = true →
  ∃ d', ata_wait_drq fuel d = Some d' ∧ settled d d'.
Proof.
  intros Hf Hb Ht. destruct fuel as [|fuel]; [lia |]. cbn [ata_wait_drq].
  destruct (status_same d) as (Hp & Hr & Hm). destruct (status_ready d Hb) as (_ & Hb' & Hv).
  specialize (Hv Ht). destruct (inb ATA_STATUS d) as [v d1]. cbn [fst snd] in *.
  apply Z.eqb_neq in Hv. rewrite Hv. exists d1. by repeat split.
Qed.

(** The drive waits for a command. *)
Definition drive_idle (d : D) : Prop := busy d = 0%nat ∧ phase_of d = Idle.

(** Each port writes one register. *)
Lemma set_reg_eq h c l m g v :
  let r := mk_tf h c l m g in
  set_reg ATA_DRIVE_HEAD v r = mk_tf v c l m g ∧ set_reg ATA_SECCOUNT v r = mk_tf h v l m g ∧
  set_reg ATA_LBA_LOW v r = mk_tf h c v m g ∧ set_reg ATA_LBA_MID v r = mk_tf h c l v g ∧
  set_reg ATA_LBA_HIGH v r = mk_tf h c l m v.
Proof. done. Qed.

Lemma select_regs lba r :
  0 ≤ lba < 268435456 →
  let r' := set_reg ATA_LBA_HIGH (u8 (Z.land (Z.shiftr lba 16) 0xFF))
    (set_reg ATA_LBA_MID (u8 (Z.land (Z.shiftr lba 8) 0xFF))
    (set_reg ATA_LBA_LOW (u8 (Z.land lba 0xFF))
    (set_reg ATA_SECCOUNT 1
    (set_reg ATA_DRIVE_HEAD (Z.lor 0xE0 (Z.land (Z.shiftr lba 24) 0x0F)) r)))) in
  tf_single r' ∧ tf_lba r' = lba.
Proof.
  intros Hl. cbv zeta. destruct r as [r_h r_c r_l r_m r_g].
  rewrite (proj1 (set_reg_eq _ _ _ _ _ _)), (proj1 (proj2 (set_reg_eq _ _ _ _ _ _))),
    (proj1 (proj2 (proj2 (set_reg_eq _ _ _ _ _ _)))),
    (proj1 (proj2 (proj2 (proj2 (set_reg_eq _ _ _ _ _ _))))),
    (proj2 (proj2 (proj2 (proj2 (set_reg_eq _ _ _ _ _ _))))).
  unfold tf_single, tf_lba. cbn [tf_head tf_count tf_low tf_mid tf_high].
  set (h := Z.land (Z.shiftr lba 24) 15).
  assert (h = lba / 16777216 ∧ 0 ≤ h < 16) as [Hh Hh2].
  { subst h. rewrite (Z.land_ones _ 4), (Z.shiftr_div_pow2 _ 24) by lia.
    change (2 ^ 24) with 16777216. change (2 ^ 4) with 16.
    Z.to_euclidean_division_equations; lia. }
  assert (Z.land (Z.lor 224 h) 224 = 224 ∧ Z.lor 224 h mod 16 = h) as [-> Hmod].
  { assert (h ∈ seqZ 0 16) as Hin by (apply elem_of_seqZ; lia). clearbody h.
    clear Hh Hh2. revert h Hin. apply Forall_forall. by vm_compute; repeat constructor. }
  rewrite Hmod, Hh. split; [done |]. unfold u8.
  rewrite !land_255, shiftr_8, (Z.shiftr_div_pow2 _ 16) by lia. change (2 ^ 16) with 65536.
  rewrite !Z.mod_mod by lia. Z.to_euclidean_division_equations; lia.
Qed.

Lemma ata_select_spec lba d :
  0 ≤ lba < 268435456 → drive_idle d →
  let d' := ata_select lba d in
  drive_idle d' ∧ medium d' = medium d ∧ tf_single (regs_of d') ∧ tf_lba (regs_of d') = lba.
Proof.
  intros Hl Hi. destruct (select_regs lba (regs_of d) Hl) as [Hs Ha].
  assert (∀ port v d, drive_idle d → is_reg port → drive_idle (outb port v d) ∧
    regs_of (outb port v d) = set_reg port v (regs_of d) ∧ medium (outb port v d) = medium d) as Hreg.
  { intros port v d0 [Hb Hp] Hr. destruct (outb_reg d0 port v Hb Hp Hr) as (? & ? & ? & ?).
    by repeat split. }
  unfold ata_select.
  edestruct Hreg as (H1 & R1 & M1); [exact Hi | |
  edestruct Hreg as (H2 & R2 & M2); [exact H1 | |
  edestruct Hreg as (H3 & R3 & M3); [exact H2 | |
  edestruct Hreg as (H4 & R4 & M4); [exact H3 | |
  edestruct Hreg as (H5 & R5 & M5); [exact H4 | | ]]]]].
  6: { rewrite R4, R3, R2, R1 in R5. cbv zeta. split; [exact H5 |].
       rewrite R5. split; [congruence | by split]. }
  all: unfold is_reg; set_solver.
Qed.

Lemma read_words_spec n i pre rest d ws :
  busy d = 0%nat → phase_of d = Reading ws → length ws = n → (0 < n)%nat →
  length pre = (2 * i)%nat → length rest = (2 * n)%nat →
  ∃ d', read_words n (Z.of_nat i) (pre ++ rest) d = (pre ++ to_bytes ws, d') ∧
    drive_idle d' ∧ medium d' = medium d.
Proof.
  revert i pre rest d ws.
  induction n as [|n IH]; intros i pre rest d ws Hb Hp Hl Hn Hpre Hrest; [lia |].
  destruct ws as [|w ws]; [done |].
  destruct rest as [|x [|y rest]]; cbn in Hrest; [lia | lia |]. cbn [read_words].
  destruct (inw_data d w ws Hb Hp) as (Hw & Hb1 & Hm1 & Hp1).
  destruct (inw ATA_DATA d) as [w1 d1]. cbn [fst snd] in *. subst w1.
  assert (zset (zset (pre ++ x :: y :: rest) (2 * Z.of_nat i) (w mod 256))
            (2 * Z.of_nat i + 1) (w / 256)
          = (pre ++ [w mod 256; w / 256]) ++ rest) as ->.
  { unfold zset. replace (Z.to_nat (2 * Z.of_nat i)) with (length pre + 0)%nat by lia.
    replace (Z.to_nat (2 * Z.of_nat i + 1)) with (length pre + 1)%nat by lia.
    rewrite !insert_app_r. by rewrite <- app_assoc. }
  destruct ws as [|w2 ws].
  - cbn in Hl. assert (n = 0)%nat as -> by lia. destruct rest; [| cbn in Hrest; lia].
    exists d1. cbn. rewrite app_nil_r. split; [done |]. by split.
  - replace (Z.of_nat i + 1) with (Z.of_nat (S i)) by lia.
    destruct (IH (S i) (pre ++ [w mod 256; w / 256]) rest d1 (w2 :: ws)) as (d' & Hr & Hi & Hm);
      try done; cbn [length] in *; try lia.
    { rewrite length_app. cbn. lia. }
    exists d'. rewrite Hr, <- app_assoc. split; [done |]. split; [done | congruence].
Qed.

Lemma write_words_spec n i buffer d lba :
  length buffer = 512%nat → (i + n = 256)%nat → (0 < n)%nat →
  busy d = 0%nat → phase_of d = Writing lba (take i (to_words buffer)) →
  let d' := write_words n (Z.of_nat i) buffer d in
  (busy d' ≤ max_busy)%nat ∧ phase_of d' = Idle ∧
  medium d' = disk_write_sector (medium d) lba (to_bytes (to_words buffer)).
Proof.
  intros Hl. revert i d. induction n as [|n IH]; intros i d Hin Hn Hb Hp; [lia |].
  pose proof (length_to_words buffer 256 Hl) as Hlw. cbv zeta. cbn [write_words].
  pose proof (to_words_lookup buffer i ltac:(lia)) as Hw.
  set (w := znth _ _ + _) in *.
  pose proof (outw_data d w lba _ Hb Hp) as Ho. cbv zeta in Ho.
  rewrite length_take_le, <- (take_S_r _ _ _ Hw) in Ho by lia.
  destruct (Nat.ltb_spec i 255).
  - destruct Ho as (Hb1 & Hm1 & Hp1). replace (Z.of_nat i + 1) with (Z.of_nat (S i)) by lia.
    rewrite <- Hm1. by apply IH; [lia | lia | |].
  - assert (n = 0)%nat as -> by lia. cbn [write_words]. destruct Ho as (Hb1 & Hp1 & Hm1).
    rewrite firstn_all2 in Hm1 by lia. done.
Qed.

(** Common to both transfers: select, command, wait. *)
Lemma read_sector_spec fuel lba buffer d :
  (max_busy < fuel)%nat → 0 ≤ lba < 268435456 → length buffer = 512%nat →
  drive_idle d → sector_ok (disk_read_sector (medium d) lba) →
  ∃ d', ata_read_sector fuel lba buffer d = Some (0, disk_read_sector (medium d) lba, d') ∧
    drive_idle d' ∧ medium d' = medium d.
Proof.
  intros Hf Hl Hbuf Hi Hsec. pose proof Hi as [Hb Hp]. destruct (sector_words _ Hsec) as [Hbw Hlw].
  unfold ata_read_sector.
  destruct (wait_ready_spec fuel d ltac:(lia)) as (d1 & -> & Hb1 & Hp1 & _ & Hm1).
  destruct (ata_select_spec lba d1 Hl) as ([Hb2 Hp2] & Hm2 & Hs2 & Ha2); [by split; congruence |].
  destruct (outb_read _ Hb2 Hp2 Hs2) as (Hb3 & Hm3 & Hp3). rewrite Ha2 in Hp3.
  set (d3 := outb ATA_COMMAND ATA_CMD_READ (ata_select lba d1)) in *.
  destruct (wait_ready_spec fuel d3 ltac:(lia)) as (d4 & -> & Hb4 & Hp4 & _ & Hm4).
  destruct (wait_drq_spec fuel d4 ltac:(lia) Hb4) as (d5 & -> & Hb5 & Hp5 & _ & Hm5).
  { by rewrite Hp4, Hp3. }
  destruct (read_words_spec 256 0 [] buffer d5 (to_words (disk_read_sector (medium d) lba)))
    as (d6 & Hr & Hi6 & Hm6); try done; try lia.
  { rewrite Hp5, Hp4, Hp3. do 3 f_equal. congruence. }
  change (read_words 256 0 buffer d5 = (to_bytes (to_words (disk_read_sector (medium d) lba)), d6)) in Hr.
  change (Z.to_nat 256) with 256%nat. rewrite Hr, Hbw. exists d6. split; [done |].
  split; [done | congruence].
Qed.

Lemma write_sector_spec fuel lba buffer d :
  (max_busy < fuel)%nat → 0 ≤ lba < 268435456 → sector_ok buffer → drive_idle d →
  ∃ d', ata_write_sector fuel lba buffer d = Some (0, d') ∧ drive_idle d' ∧
    medium d' = disk_write_sector (medium d) lba buffer.
Proof.
  intros Hf Hl Hsec Hi. pose proof Hi as [Hb Hp]. destruct (sector_words _ Hsec) as [Hbw _].
  unfold ata_write_sector.
  destruct (wait_ready_spec fuel d ltac:(lia)) as (d1 & -> & Hb1 & Hp1 & _ & Hm1).
  destruct (ata_select_spec lba d1 Hl) as ([Hb2 Hp2] & Hm2 & Hs2 & Ha2); [by split; congruence |].
  destruct (outb_write _ Hb2 Hp2 Hs2) as (Hb3 & Hm3 & Hp3). rewrite Ha2 in Hp3.
  set (d3 := outb ATA_COMMAND ATA_CMD_WRITE (ata_select lba d1)) in *.
  destruct (wait_ready_spec fuel d3 ltac:(lia)) as (d4 & -> & Hb4 & Hp4 & _ & Hm4).
  destruct (wait_drq_spec fuel d4 ltac:(lia) Hb4) as (d5 & -> & Hb5 & Hp5 & _ & Hm5).
  { by rewrite Hp4, Hp3. }
  destruct (write_words_spec 256 0 buffer d5 lba) as (Hb6 & Hp6 & Hm6); try lia.
  { apply Hsec. }
  { by rewrite Hp5, Hp4, Hp3. }
  change (Z.of_nat 0) with 0 in *. change (Z.to_nat 256) with 256%nat.
  set (d6 := write_words 256 0 buffer d5) in *. clearbody d6.
  destruct (wait_ready_spec fuel d6 ltac:(lia)) as (d7 & -> & Hb7 & Hp7 & _ & Hm7).
  destruct (outb_flush d7 Hb7) as (Hb8 & Hm8 & Hp8); [congruence |].
  destruct (wait_ready_spec fuel _ ltac:(apply (Nat.le_lt_trans _ _ _ Hb8 Hf)))
    as (d9 & -> & Hb9 & Hp9 & _ & Hm9).
  exists d9. split; [done |]. split; [split; congruence |]. rewrite Hbw in Hm6. congruence.
Qed.

(** ** Sequences of transfers *)

Inductive disk_op :=
| DRead (lba : Z) (buffer : list Z)
| DWrite (lba : Z) (buffer : list Z).

(** What the driver's callers provide: sector numbers of 28 bits and buffers
    of one sector. *)
Definition disk_op_ok (o : disk_op) : Prop :=
  match o with
  | DRead lba buffer => 0 ≤ lba < 268435456 ∧ length buffer = 512%nat
  | DWrite lba buffer => 0 ≤ lba < 268435456 ∧ sector_ok buffer
  end.

(** The sectors read, in order, through the driver and on the array. *)
Fixpoint run_ata (fuel : nat) (os : list disk_op) (d : D) : option (list sector * D) :=
  match os with
  | [] => Some ([], d)
  | DRead lba buffer :: os' =>
      match ata_read_sector fuel lba buffer d with
      | None => None
      | Some (_, b, d) =>
          match run_ata fuel os' d with None => None | Some (bs, d) => Some (b :: bs, d) end
      end
  | DWrite lba buffer :: os' =>
      match ata_write_sector fuel lba buffer d with
      | None => None
      | Some (_, d) => run_ata fuel os' d
      end
  end.
End proofs.

Fixpoint run_disk (os : list disk_op) (k : disk) : list sector * disk :=
  match os with
  | [] => ([], k)
  | DRead lba _ :: os' => let '(bs, k') := run_disk os' k in (disk_read_sector k lba :: bs, k')
  | DWrite lba buffer :: os' => run_disk os' (disk_write_sector k lba buffer)
  end.

(** C13. The ATA driver implements the array of sectors the file system is built
    on: on any drive that follows the protocol and works (it serves every 28-bit
    sector number and reports no error), every sequence of reads and writes
    comes to an end (the wait loops within the drive's bound), delivers the
    sectors the array delivers, and leaves the medium in the array's state,
    with the drive ready for the next command. *)
Theorem ata_refines_disk `{AtaDrive D} (fuel : nat) (os : list disk_op) (d : D) :
  (max_busy < fuel)%nat → drive_idle d → disk_ok (medium d) → Forall disk_op_ok os →
  ∃ d', run_ata fuel os d = Some ((run_disk os (medium d)).1, d') ∧
    medium d' = (run_disk os (medium d)).2 ∧ drive_idle d' ∧ disk_ok (medium d').
Proof.
  intros Hf Hi Hd Hos. revert d Hi Hd. induction Hos as [|o os Ho Hos IH]; intros d Hi Hd.
  { by exists d. }
  destruct o as [lba buffer|lba buffer]; destruct Ho as [Hl Hbuf]; cbn [run_ata run_disk].
  - destruct (read_sector_spec fuel lba buffer d Hf Hl Hbuf Hi (Hd lba)) as (d1 & -> & Hi1 & Hm1).
    destruct (IH d1 Hi1) as (d2 & -> & Hm2 & Hrest); [by rewrite Hm1 |].
    rewrite Hm1 in *. exists d2. by destruct (run_disk os (medium d)).
  - destruct (write_sector_spec fuel lba buffer d Hf Hl Hbuf Hi) as (d1 & -> & Hi1 & Hm1).
    destruct (IH d1 Hi1) as (d2 & -> & Hm2 & Hrest); [rewrite Hm1; by apply disk_write_ok |].
    rewrite Hm1 in *. by exists d2.
Qed.

(** ** A drive that follows the protocol *)

Record sim := mk_sim { sim_busy : nat; sim_phase : phase; sim_regs : task_file; sim_disk : disk }.

(** How long the simulated drive is busy after a command. *)
Definition SIM_DELAY : nat := 3.

Definition sim_inb (port : Z) (d : sim) : Z * sim :=
  match sim_busy d with
  | S b => (0x80, mk_sim b (sim_phase d) (sim_regs d) (sim_disk d))
  | O => (if transferring (sim_phase d) then 0x58 else 0x50, d)
  end.

Definition sim_outb (port v : Z) (d : sim) : sim :=
  if port =? ATA_COMMAND then
    mk_sim SIM_DELAY
      (if v =? ATA_CMD_READ
       then Reading (to_words (disk_read_sector (sim_disk d) (tf_lba (sim_regs d))))
       else if v =? ATA_CMD_WRITE then Writing (tf_lba (sim_regs d)) [] else Idle)
      (sim_regs d) (sim_disk d)
  else mk_sim (sim_busy d) (sim_phase d) (set_reg port v (sim_regs d)) (sim_disk d).

Definition sim_inw (port : Z) (d : sim) : Z * sim :=
  match sim_phase d with
  | Reading (w :: ws) =>
      (w, mk_sim (sim_busy d) (match ws with [] => Idle | _ => Reading ws end)
            (sim_regs d) (sim_disk d))
  | _ => (0xFFFF, d)
  end.

Definition sim_outw (port w : Z) (d : sim) : sim :=
  match sim_phase d with
  | Writing lba ws =>
      if (length ws <? 255)%nat
      then mk_sim (sim_busy d) (Writing lba (ws ++ [w])) (sim_regs d) (sim_disk d)
      else mk_sim SIM_DELAY Idle (sim_regs d)
             (disk_write_sector (sim_disk d) lba (to_bytes (ws ++ [w])))
  | _ => d
  end.

#[export] Instance sim_ports : AtaPorts sim := {
  inb := sim_inb; inw := sim_inw; outb := sim_outb; outw := sim_outw
}.

#[export] Program Instance sim_drive : AtaDrive sim := {
  busy := sim_busy; phase_of := sim_phase; regs_of := sim_regs; medium := sim_disk;
  max_busy := SIM_DELAY
}.
Next Obligation. intros d. cbn. unfold sim_inb. by destruct (sim_busy d). Qed.
Next Obligation.
  intros d Hb. cbn. unfold sim_inb. destruct (sim_busy d) as [|b] eqn:He; [lia |]. split; [done |].
  cbn. lia.
Qed.
Next Obligation.
  intros d Hb. cbn. unfold sim_inb. rewrite Hb. cbn. split_and!; [by destruct transferring | done |].
  by intros ->.
Qed.
Next Obligation.
  intros d port v Hb Hp Hr. cbn. unfold sim_outb.
  assert ((port =? ATA_COMMAND) = false) as ->; [| done].
  apply Z.eqb_neq. intros ->. unfold is_reg in Hr.
  repeat (apply elem_of_cons in Hr as [Hr|Hr]; [done |]). by apply elem_of_nil in Hr.
Qed.
Next Obligation. done. Qed.
Next Obligation. done. Qed.
Next Obligation. done. Qed.
Next Obligation. intros d w ws Hb Hp. cbn. unfold sim_inw. by rewrite Hp. Qed.
Next Obligation.
  intros d w lba ws Hb Hp. cbn [outw sim_ports]. unfold sim_outw. rewrite Hp.
  by destruct (Nat.ltb_spec (length ws) 255).
Qed.

Lemma ata_refines_disk_witness :
  ∃ d', run_ata 4 [DWrite 301 (replicate 512 7); DRead 301 (replicate 512 0)]
          (mk_sim 0 Idle (mk_tf 0 0 0 0 0) (mk_disk ∅)) = Some ([replicate 512 7], d').
Proof.
  destruct (ata_refines_disk 4 [DWrite 301 (replicate 512 7); DRead 301 (replicate 512 0)]
    (mk_sim 0 Idle (mk_tf 0 0 0 0 0) (mk_disk ∅))) as (d' & Hr & _).
  - cbn. unfold SIM_DELAY. lia.
  - by split.
  - intros lba. apply zero_sector_ok.
  - apply Forall_cons. split; [| apply Forall_singleton]; cbn [disk_op_ok]; (split; [lia |]);
      [| done]. split; [done |]. apply Forall_replicate. unfold is_u8. lia.
  - exists d'. exact Hr.
Defined.

(** ** A drive that fails

    The driver does not look at the error bit: a drive that answers a command
    with ERR and without DRQ (status 0x51) keeps it waiting. *)
Inductive failing := Failing.

#[export] Instance failing_ports : AtaPorts failing := {
  inb _ d := (0x51, d); inw _ d := (0xFFFF, d); outb _ _ d := d; outw _ _ d := d
}.

Lemma ata_error_hangs fuel lba buffer :
  ata_read_sector fuel lba buffer Failing = None ∧ ata_write_sector fuel lba buffer Failing = None.
Proof.
  assert (ata_wait_drq fuel Failing = None) as Hw by (induction fuel as [|fuel IH]; done).
  unfold ata_read_sector, ata_write_sector. destruct fuel as [|fuel]; [done |].
  assert (ata_wait_ready (S fuel) Failing = Some Failing) as Hr by done.
  assert (∀ v, outb ATA_COMMAND v (ata_select lba Failing) = Failing) as He by done.
  rewrite Hr. cbv zeta. by rewrite !He, Hr, Hw.
Qed.
