(* ===== verification/Dirent.v ===== *)
(** * Directory entries: the packed 32-byte [fs_dirent_t], its encoding in a
    sector, and the 8.3 name helpers of [kernel/fs.c]. *)
From S2P Require Import Prelude FsLayout Disk.

(** ** [fs_dirent_t] (fs.h) *)

Record fs_dirent := mk_dirent {
  d_name : list Z;
  d_ext : list Z;
  d_attr : Z;
  d_reserved : list Z;
  d_time : Z;
  d_date : Z;
  d_first_cluster : Z;
  d_file_size : Z
}.

#[export] Instance fs_dirent_eq_dec : EqDecision fs_dirent.
Proof. solve_decision. Defined.

Definition set_name (n : list Z) (e : list Z) (d : fs_dirent) : fs_dirent :=
  mk_dirent n e (d_attr d) (d_reserved d) (d_time d) (d_date d)
    (d_first_cluster d) (d_file_size d).

(** [d->name[0] = x] *)
Definition set_name0 (x : Z) (d : fs_dirent) : fs_dirent :=
  set_name (zset (d_name d) 0 x) (d_ext d) d.

Definition set_extent (first size : Z) (d : fs_dirent) : fs_dirent :=
  mk_dirent (d_name d) (d_ext d) (d_attr d) (d_reserved d) (d_time d) (d_date d)
    first size.

Definition zero_dirent : fs_dirent :=
  mk_dirent (replicate 8 0) (replicate 3 0) 0 (replicate 10 0) 0 0 0 0.

(** The invariant of the struct: array lengths and field widths. *)
Record dirent_ok (d : fs_dirent) : Prop := {
  dok_name_len : length (d_name d) = 8%nat;
  dok_name : Forall is_u8 (d_name d);
  dok_ext_len : length (d_ext d) = 3%nat;
  dok_ext : Forall is_u8 (d_ext d);
  dok_attr : is_u8 (d_attr d);
  dok_reserved_len : length (d_reserved d) = 10%nat;
  dok_reserved : Forall is_u8 (d_reserved d);
  dok_time : is_u16 (d_time d);
  dok_date : is_u16 (d_date d);
  dok_first_cluster : is_u16 (d_first_cluster d);
  dok_file_size : is_u32 (d_file_size d)
}.

(** ** Little-endian integers in memory *)

(** The [n] bytes of [v], least significant first. *)
Fixpoint le_split (n : nat) (v : Z) : list Z :=
  match n with
  | O => []
  | S n' => v mod 256 :: le_split n' (v / 256)
  end.

Fixpoint le_combine (bs : list Z) : Z :=
  match bs with
  | [] => 0
  | b :: bs' => b + 256 * le_combine bs'
  end.

(** ** The packed representation: a pointer cast, in both directions *)

Definition encode_dirent (d : fs_dirent) : list Z :=
  d_name d ++ d_ext d ++ [d_attr d] ++ d_reserved d ++
  le_split 2 (d_time d) ++ le_split 2 (d_date d) ++
  le_split 2 (d_first_cluster d) ++ le_split 4 (d_file_size d).

Definition decode_dirent (bs : list Z) : fs_dirent :=
  mk_dirent
    (take 8 bs)
    (take 3 (drop 8 bs))
    (znth bs 11)
    (take 10 (drop 12 bs))
    (le_combine (take 2 (drop 22 bs)))
    (le_combine (take 2 (drop 24 bs)))
    (le_combine (take 2 (drop 26 bs)))
    (le_combine (take 4 (drop 28 bs))).

(** [entries[i]] and [entries[i] = e] on a byte buffer seen as an array of
    [fs_dirent_t]. *)
Definition buf_entry (buf : list Z) (i : Z) : fs_dirent :=
  decode_dirent (take 32 (drop (Z.to_nat (32 * i)) buf)).

Definition buf_set_entry (buf : list Z) (i : Z) (e : fs_dirent) : list Z :=
  take (Z.to_nat (32 * i)) buf ++ encode_dirent e ++
  drop (Z.to_nat (32 * i) + 32) buf.

(** ** Tiny string helpers (fs.c) *)

Definition to_upper (c : Z) : Z :=
  if (97 <=? c) && (c <=? 122) then c - 97 + 65 else c.

(** [str_copy_n]: the string left in [dst]; [i] is the loop counter. *)
Fixpoint str_copy_loop (src : cstr) (i max_len : Z) : cstr :=
  match src with
  | [] => []
  | c :: src' =>
      if negb (c =? 0) && (i <? max_len - 1)
      then c :: str_copy_loop src' (i + 1) max_len
      else []
  end.

Definition str_copy_n (src : cstr) (max_len : Z) : cstr := str_copy_loop src 0 max_len.

(** The loop of [str_eq_local] (and of the shell's [str_eq]): reading past
    the end of a list reads the terminator. *)
Fixpoint str_eq_local (a b : cstr) : bool :=
  match a, b with
  | x :: a', y :: b' =>
      if negb (x =? 0) && negb (y =? 0)
      then if negb (x =? y) then false else str_eq_local a' b'
      else x =? y
  | x :: _, [] => x =? 0
  | [], y :: _ => 0 =? y
  | [], [] => true
  end.

(** First loop of [split_name]: copies the base name until NUL, a dot or
    eight characters; returns [name8] and the rest of the input. *)
Fixpoint split_base (inp : cstr) (n : Z) (name8 : list Z) : list Z * cstr :=
  match inp with
  | c :: inp' =>
      if negb (c =? 0) && negb (c =? 46) && (n <? FS_NAME_FIELD_LEN)
      then split_base inp' (n + 1) (zset name8 n (u8 (to_upper c)))
      else (name8, inp)
  | [] => (name8, [])
  end.

(** [while (in[pos] && in[pos] != '.') pos++;] *)
Fixpoint skip_to_dot (inp : cstr) : cstr :=
  match inp with
  | c :: inp' => if negb (c =? 0) && negb (c =? 46) then skip_to_dot inp' else inp
  | [] => []
  end.

Fixpoint split_ext (inp : cstr) (e : Z) (ext3 : list Z) : list Z :=
  match inp with
  | c :: inp' =>
      if negb (c =? 0) && (e <? FS_EXT_FIELD_LEN)
      then split_ext inp' (e + 1) (zset ext3 e (u8 (to_upper c)))
      else ext3
  | [] => ext3
  end.

Definition split_name (inp : cstr) : list Z * list Z :=
  let name8 := replicate 8 32 in
  let ext3 := replicate 3 32 in
  let '(name8, rest) := split_base inp 0 name8 in
  match skip_to_dot rest with
  | c :: rest' => (name8, if c =? 46 then split_ext rest' 0 ext3 else ext3)
  | [] => (name8, ext3)
  end.

Fixpoint fields_eq (a b : list Z) (len : nat) : bool :=
  match len with
  | O => true
  | S len' => if negb (znth a 0 =? znth b 0) then false
              else fields_eq (tail a) (tail b) len'
  end.

(** [for (...) { if (f[i] == ' ') break; out[o++] = f[i]; }] *)
Fixpoint trim_field (f : list Z) : cstr :=
  match f with
  | c :: f' => if c =? 32 then [] else c :: trim_field f'
  | [] => []
  end.

Definition dirent_to_display (d : fs_dirent) : cstr :=
  trim_field (d_name d) ++
  (if negb (znth (d_ext d) 0 =? 32) then 46 :: trim_field (d_ext d) else []).

Definition DOT_NAME : list Z := [46; 32; 32; 32; 32; 32; 32; 32].
Definition DOTDOT_NAME : list Z := [46; 46; 32; 32; 32; 32; 32; 32].
Definition EMPTY_EXT : list Z := [32; 32; 32].

(** The two bytes that mark a slot as unused. *)
Definition dirent_unused (e : fs_dirent) : bool :=
  let first := znth (d_name e) 0 in
  (first =? FS_DIRENT_FREE) || (first =? FS_DIRENT_DELETED).

(** [fields_eq(e.name, ...) && fields_eq(e.ext, ...)] *)
Definition dirent_named (e : fs_dirent) (n ext : list Z) : bool :=
  fields_eq (d_name e) n 8 && fields_eq (d_ext e) ext 3.

(** ** Little-endian lemmas *)

Lemma length_le_split n v : length (le_split n v) = n.
Proof. revert v. induction n as [|n IH]; intros v; cbn; [done |]. by rewrite IH. Qed.

Lemma le_split_bytes n v : Forall is_u8 (le_split n v).
Proof.
  revert v. induction n as [|n IH]; intros v; cbn; constructor; [|apply IH].
  by apply Z.mod_pos_bound.
Qed.

Lemma le_combine_split n v : 0 ≤ v < 256 ^ Z.of_nat n → le_combine (le_split n v) = v.
Proof.
  revert v. induction n as [|n IH]; intros v Hv; [cbn in *; lia |].
  rewrite Nat2Z.inj_succ, Z.pow_succ_r in Hv by lia. cbn [le_split le_combine].
  rewrite IH; [pose proof (Z.div_mod v 256); lia |].
  split; [apply Z.div_pos; lia |]. apply Z.div_lt_upper_bound; lia.
Qed.

Lemma le_combine_bound bs :
  Forall is_u8 bs → 0 ≤ le_combine bs < 256 ^ zlen bs.
Proof.
  unfold zlen. induction 1 as [|b bs Hb Hbs IH]; cbn [le_combine length]; [done |].
  rewrite Nat2Z.inj_succ, Z.pow_succ_r by lia. unfold is_u8 in Hb. lia.
Qed.

Lemma le_split_combine n bs :
  Forall is_u8 bs → length bs = n → le_split n (le_combine bs) = bs.
Proof.
  intros Hbs <-. induction Hbs as [|b bs Hb Hbs IH]; [done |].
  cbn [length le_split le_combine]. unfold is_u8 in Hb.
  rewrite (Z.mul_comm 256), Z_mod_plus_full, Z.mod_small by lia.
  rewrite Z.div_add, Z.div_small, Z.add_0_l by lia. by rewrite IH.
Qed.

(** ** Round trips of the packed representation *)

Lemma length_encode d : dirent_ok d → length (encode_dirent d) = 32%nat.
Proof.
  intros []. unfold encode_dirent. rewrite !length_app, !length_le_split. cbn. lia.
Qed.

Lemma encode_bytes d : dirent_ok d → Forall is_u8 (encode_dirent d).
Proof.
  intros []. unfold encode_dirent.
  repeat (apply Forall_app; split); auto using le_split_bytes, Forall_cons, Forall_nil.
Qed.

Lemma decode_ok bs : length bs = 32%nat → Forall is_u8 bs → dirent_ok (decode_dirent bs).
Proof.
  intros Hl Hb.
  assert (Hsub : ∀ n k, Forall is_u8 (take n (drop k bs))).
  { intros n k. by apply Forall_take, Forall_drop. }
  assert (Hint : ∀ n k, (k + n ≤ 32)%nat →
    0 ≤ le_combine (take n (drop k bs)) < 256 ^ Z.of_nat n).
  { intros n k Hk. pose proof (le_combine_bound _ (Hsub n k)) as H.
    unfold zlen in H. rewrite length_take, length_drop, Hl in H.
    by replace (n `min` (32 - k))%nat with n in H by lia. }
  constructor; cbn -[le_combine take drop];
    rewrite ?length_take, ?length_drop, ?Hl; try done; auto.
  - by apply Forall_take.
  - apply (Forall_znth is_u8); [done |]. unfold is_u8. lia.
  - apply (Hint 2%nat 22%nat). lia.
  - apply (Hint 2%nat 24%nat). lia.
  - apply (Hint 2%nat 26%nat). lia.
  - apply (Hint 4%nat 28%nat). lia.
Qed.

(** Destructs a list of known length into its elements. *)
Ltac explode l :=
  match goal with
  | H : length l = 0%nat |- _ => apply nil_length_inv in H; subst l
  | H : length l = S _ |- _ =>
      let x := fresh "x" in let l' := fresh l in
      destruct l as [|x l']; [discriminate H |]; cbn [length] in H;
      apply Nat.succ_inj in H; explode l'
  end.

Lemma decode_encode d : dirent_ok d → decode_dirent (encode_dirent d) = d.
Proof.
  intros [Hn _ He _ _ Hr _ Ht Hd Hf Hs]. destruct d as [n e a r t dt f s]. cbn in *.
  explode n. explode e. explode r.
  unfold decode_dirent, encode_dirent.
  cbn -[le_combine le_split Z.add Z.mul Z.div Z.modulo].
  change (le_split 2 ?v) with [v mod 256; v / 256 mod 256].
  change (le_split 4 ?v) with
    [v mod 256; v / 256 mod 256; v / 256 / 256 mod 256; v / 256 / 256 / 256 mod 256].
  cbn -[le_combine Z.add Z.mul Z.div Z.modulo].
  f_equal.
  - apply (le_combine_split 2 t). done.
  - apply (le_combine_split 2 dt). done.
  - apply (le_combine_split 2 f). done.
  - apply (le_combine_split 4 s). done.
Qed.

Lemma encode_decode bs :
  length bs = 32%nat → Forall is_u8 bs → encode_dirent (decode_dirent bs) = bs.
Proof.
  intros Hl Hb. unfold encode_dirent, decode_dirent.
  cbn [d_name d_ext d_attr d_reserved d_time d_date d_first_cluster d_file_size].
  assert (Hsp : ∀ n k, (k + n ≤ 32)%nat →
    le_split n (le_combine (take n (drop k bs))) = take n (drop k bs)).
  { intros n k Hk. apply le_split_combine.
    - by apply Forall_take, Forall_drop.
    - rewrite length_take, length_drop, Hl. lia. }
  rewrite !Hsp by lia. clear Hsp Hb. explode bs. done.
Qed.

(** ** Entries inside a buffer *)

Section entry_buffer.
Variables (buf : list Z) (n : Z).
Hypothesis Hlen : zlen buf = 32 * n.

Lemma buf_entry_length i :
  0 ≤ i < n → length (take 32 (drop (Z.to_nat (32 * i)) buf)) = 32%nat.
Proof. unfold zlen in Hlen. rewrite length_take, length_drop. lia. Qed.

Lemma buf_set_entry_length i e :
  0 ≤ i < n → dirent_ok e → length (buf_set_entry buf i e) = length buf.
Proof.
  intros Hi He. unfold buf_set_entry, zlen in *. rewrite <- (length_encode e He).
  apply take_drop_splice. rewrite length_encode by done. lia.
Qed.

Lemma buf_entry_set_eq i e :
  0 ≤ i < n → dirent_ok e → buf_entry (buf_set_entry buf i e) i = e.
Proof.
  intros Hi He. unfold buf_entry, buf_set_entry, zlen in *.
  rewrite drop_app_exact by (rewrite length_take; lia).
  rewrite take_app_exact by (by apply length_encode).
  by apply decode_encode.
Qed.

Lemma buf_entry_set_ne i j e :
  0 ≤ i < n → 0 ≤ j < n → i ≠ j → dirent_ok e →
  buf_entry (buf_set_entry buf i e) j = buf_entry buf j.
Proof.
  intros Hi Hj Hne He. unfold buf_entry. f_equal. apply list_eq. intros k.
  destruct (decide (k < 32)%nat) as [Hk|Hk].
  - rewrite !lookup_take_lt, !lookup_drop by done. unfold buf_set_entry, zlen in *.
    destruct (decide (j < i)).
    + rewrite lookup_app_l by (rewrite length_take; lia).
      rewrite lookup_take_lt by lia. done.
    + rewrite lookup_app_r by (rewrite length_take; lia).
      rewrite lookup_app_r by (rewrite length_take, length_encode by done; lia).
      rewrite lookup_drop, length_take, length_encode by done. f_equal. lia.
  - rewrite !lookup_take_ge by lia. done.
Qed.

Lemma buf_entry_ok i :
  Forall is_u8 buf → 0 ≤ i < n → dirent_ok (buf_entry buf i).
Proof.
  intros Hb Hi. apply decode_ok; [by apply buf_entry_length |].
  by apply Forall_take, Forall_drop.
Qed.

Lemma buf_set_entry_bytes i e :
  Forall is_u8 buf → dirent_ok e → Forall is_u8 (buf_set_entry buf i e).
Proof.
  intros Hb He. unfold buf_set_entry.
  apply Forall_app; split; [by apply Forall_take |].
  apply Forall_app; split; [by apply encode_bytes | by apply Forall_drop].
Qed.
End entry_buffer.

(** ** 8.3 names *)

Lemma fields_eq_spec a b len :
  length a = len → length b = len → fields_eq a b len = true ↔ a = b.
Proof.
  revert a b. induction len as [|len IH]; intros a b Ha Hb.
  - destruct a, b; done.
  - destruct a as [|x a], b as [|y b]; try done. injection Ha as Ha. injection Hb as Hb.
    change (fields_eq (x :: a) (y :: b) (S len))
      with (if negb (x =? y) then false else fields_eq a b len).
    destruct (Z.eqb_spec x y) as [->|Hne]; cbn [negb].
    + rewrite IH by done. split; congruence.
    + split; congruence.
Qed.

Lemma dirent_named_spec e n ext :
  dirent_ok e → length n = 8%nat → length ext = 3%nat →
  dirent_named e n ext = true ↔ d_name e = n ∧ d_ext e = ext.
Proof.
  intros [] Hn He. unfold dirent_named. rewrite andb_true_iff.
  by rewrite !fields_eq_spec.
Qed.

(** What the copy loops of [split_name] leave in a blank field of [k] bytes:
    upper-cased characters up to a stop character, then padding. *)
Fixpoint up_field (stop : Z → bool) (k : nat) (inp : cstr) : list Z :=
  match k, inp with
  | O, _ => []
  | S k', c :: inp' =>
      if stop c then replicate k 32 else u8 (to_upper c) :: up_field stop k' inp'
  | _, [] => replicate k 32
  end.

Definition base_stop (c : Z) : bool := (c =? 0) || (c =? 46).
Definition ext_stop (c : Z) : bool := c =? 0.

Lemma length_up_field stop k inp : length (up_field stop k inp) = k.
Proof.
  revert inp. induction k as [|k IH]; intros [|c inp]; cbn [up_field]; try done.
  - apply length_replicate.
  - destruct (stop c); [apply length_replicate |]. cbn. by rewrite IH.
Qed.

Lemma replicate_bytes n x : is_u8 x → Forall is_u8 (replicate n x).
Proof. apply Forall_replicate. Qed.

Lemma up_field_bytes stop k inp : Forall is_u8 (up_field stop k inp).
Proof.
  revert inp. induction k as [|k IH]; intros [|c inp]; cbn [up_field]; try by constructor.
  - apply replicate_bytes. done.
  - destruct (stop c); [by apply replicate_bytes |]. constructor; auto with rink.
Qed.

(** Writing the next byte of a partly filled field. *)
Lemma zset_pad pre k x n :
  Z.of_nat (length pre) = n →
  zset (pre ++ replicate (S k) 32) n x = (pre ++ [x]) ++ replicate k 32.
Proof.
  intros <-. unfold zset. rewrite Nat2Z.id, insert_app_r_alt by lia.
  rewrite Nat.sub_diag. cbn. by rewrite <- app_assoc.
Qed.

Lemma split_base_field inp k pre n :
  Z.of_nat (length pre) = n → n = 8 - Z.of_nat k →
  fst (split_base inp n (pre ++ replicate k 32)) = pre ++ up_field base_stop k inp ∧
  skip_to_dot (snd (split_base inp n (pre ++ replicate k 32))) = skip_to_dot inp.
Proof.
  revert k pre n. induction inp as [|c inp IH]; intros k pre n Hp Hn.
  - split; [|done]. destruct k; done.
  - cbn [split_base]. change FS_NAME_FIELD_LEN with 8.
    destruct (Z.eqb_spec c 0) as [->|H0]; cbn [negb andb].
    { split; [|done]. by destruct k. }
    destruct (Z.eqb_spec c 46) as [->|H46]; cbn [negb andb].
    { split; [|done]. by destruct k. }
    destruct k as [|k].
    { destruct (Z.ltb_spec n 8); [lia |]. cbn. split; [done |].
      destruct (Z.eqb_spec c 0), (Z.eqb_spec c 46); done. }
    destruct (Z.ltb_spec n 8); [|lia]. rewrite zset_pad by done.
    destruct (IH k (pre ++ [u8 (to_upper c)]) (n + 1)) as [-> ->].
    + rewrite length_app. cbn. lia.
    + lia.
    + cbn [up_field skip_to_dot]. unfold base_stop.
      destruct (Z.eqb_spec c 0), (Z.eqb_spec c 46); try done. cbn.
      by rewrite <- app_assoc.
Qed.

Lemma split_ext_field inp k pre n :
  Z.of_nat (length pre) = n → n = 3 - Z.of_nat k →
  split_ext inp n (pre ++ replicate k 32) = pre ++ up_field ext_stop k inp.
Proof.
  revert k pre n. induction inp as [|c inp IH]; intros k pre n Hp Hn; [by destruct k |].
  cbn [split_ext]. change FS_EXT_FIELD_LEN with 3.
  destruct (Z.eqb_spec c 0) as [->|H0]; cbn [negb andb]; [by destruct k |].
  destruct k as [|k]; [by destruct (Z.ltb_spec n 3); [lia |] |].
  destruct (Z.ltb_spec n 3); [|lia]. rewrite zset_pad by done.
  rewrite IH by (rewrite ?length_app; cbn; lia).
  cbn [up_field]. unfold ext_stop. destruct (Z.eqb_spec c 0); [done |].
  by rewrite <- app_assoc.
Qed.

(** [split_name] in closed form. *)
Definition ext_part (inp : cstr) : cstr :=
  match skip_to_dot inp with
  | c :: rest => if c =? 46 then rest else []
  | [] => []
  end.

Lemma split_name_fields inp :
  split_name inp = (up_field base_stop 8 inp, up_field ext_stop 3 (ext_part inp)).
Proof.
  unfold split_name, ext_part.
  destruct (split_base_field inp 8 [] 0) as [Hn Hr]; [done..|].
  cbn [app] in Hn, Hr. destruct (split_base inp 0 (replicate 8 32)) as [n r]. cbn in Hn, Hr.
  subst n. rewrite Hr. destruct (skip_to_dot inp) as [|c rest]; [done |].
  destruct (c =? 46); [|done].
  pose proof (split_ext_field rest 3 [] 0 eq_refl eq_refl) as He. cbn [app] in He.
  by rewrite He.
Qed.

Lemma split_name_ok inp :
  length (split_name inp).1 = 8%nat ∧ Forall is_u8 (split_name inp).1 ∧
  length (split_name inp).2 = 3%nat ∧ Forall is_u8 (split_name inp).2.
Proof.
  rewrite split_name_fields. cbn [fst snd]. rewrite !length_up_field.
  auto using up_field_bytes.
Qed.

(** *** Upper-casing and the display form *)

Lemma to_upper_idem c : to_upper (to_upper c) = to_upper c.
Proof. unfold to_upper. zify_bool. Qed.

Lemma to_upper_byte c : 0 < c < 256 → 0 < to_upper c < 256 ∧ u8 (to_upper c) = to_upper c.
Proof.
  intros Hc. assert (0 < to_upper c < 256) by (unfold to_upper; zify_bool).
  split; [done |]. apply u8_small. unfold is_u8. lia.
Qed.

Lemma to_upper_eq_iff c x : (x < 65 ∨ 122 < x) → to_upper c = x ↔ c = x.
Proof. unfold to_upper. intros Hx. zify_bool. Qed.

Lemma base_stop_upper c : base_stop (to_upper c) = base_stop c.
Proof.
  unfold base_stop. pose proof (to_upper_eq_iff c 0). pose proof (to_upper_eq_iff c 46).
  destruct (Z.eqb_spec (to_upper c) 0), (Z.eqb_spec c 0),
    (Z.eqb_spec (to_upper c) 46), (Z.eqb_spec c 46); try done; intuition lia.
Qed.

Lemma ext_stop_upper c : ext_stop (to_upper c) = ext_stop c.
Proof.
  unfold ext_stop. pose proof (to_upper_eq_iff c 0).
  destruct (Z.eqb_spec (to_upper c) 0), (Z.eqb_spec c 0); try done; intuition lia.
Qed.

(** A user string that [split_name] sees as one word. *)
Definition no_spaces (s : cstr) : Prop := Forall (λ c, c ≠ 32) s.

Section display.
Variable stop : Z → bool.
Hypothesis stop_upper : ∀ c, stop (to_upper c) = stop c.
Hypothesis stop_space : stop 32 = false.

(** Re-splitting the trimmed field gives the field back, when what follows
    the field stops the copy. *)
Lemma up_field_trim k s tl :
  is_cstr s → no_spaces s → match tl with c :: _ => stop c = true | [] => True end →
  up_field stop k (trim_field (up_field stop k s) ++ tl) = up_field stop k s.
Proof.
  intros Hs Hsp Htl. revert k. induction Hs as [|c s Hc Hs IH]; intros k.
  - destruct k as [|k]; [done |]. cbn [up_field replicate trim_field Z.eqb Pos.eqb app].
    destruct tl as [|t tl]; cbn [up_field]; [done |]. by rewrite Htl.
  - apply Forall_cons_1 in Hsp as [Hc32 Hsp]. specialize (IH Hsp).
    destruct k as [|k]; [done |]. cbn [up_field]. destruct (stop c) eqn:Hst.
    + cbn [replicate trim_field Z.eqb Pos.eqb app].
      destruct tl as [|t tl]; cbn [up_field]; [done |]. by rewrite Htl.
    + destruct (to_upper_byte c Hc) as [_ Hu]. rewrite Hu. cbn [trim_field].
      destruct (Z.eqb_spec (to_upper c) 32) as [H32|_].
      { by rewrite to_upper_eq_iff in H32 by lia. }
      cbn [app up_field]. rewrite stop_upper, Hst, to_upper_idem, Hu. by rewrite IH.
Qed.

Lemma trim_up_field_no_stop k s :
  is_cstr s → Forall (λ c, stop c = false) (trim_field (up_field stop k s)).
Proof.
  intros Hs. revert k. induction Hs as [|c s Hc Hs IH]; intros [|k]; cbn; try done.
  destruct (stop c) eqn:Hst; [done |]. destruct (to_upper_byte c Hc) as [_ ->].
  cbn [trim_field]. destruct (_ =? 32); [done |]. constructor; [|done].
  by rewrite stop_upper.
Qed.
End display.

Lemma skip_to_dot_app l tl :
  Forall (λ c, base_stop c = false) l → skip_to_dot (l ++ tl) = skip_to_dot tl.
Proof.
  induction 1 as [|c l Hc Hl IH]; [done |]. cbn. unfold base_stop in Hc.
  apply orb_false_iff in Hc as [-> ->]. done.
Qed.

Lemma ext_part_cstr s : is_cstr s → is_cstr (ext_part s).
Proof.
  unfold ext_part. induction 1 as [|c s Hc Hs IH]; cbn; [constructor |].
  destruct (negb (c =? 0) && negb (c =? 46)); [done |].
  destruct (c =? 46); [done | constructor].
Qed.

Lemma ext_part_no_spaces s : no_spaces s → no_spaces (ext_part s).
Proof.
  unfold ext_part. induction 1 as [|c s Hc Hs IH]; cbn; [constructor |].
  destruct (negb (c =? 0) && negb (c =? 46)); [done |].
  destruct (c =? 46); [done | constructor].
Qed.

Lemma up_field_first stop k s :
  znth (up_field stop (S k) s) 0 = 32 → no_spaces s → is_cstr s →
  up_field stop (S k) s = replicate (S k) 32.
Proof.
  intros H32 Hsp Hs. destruct s as [|c s]; [done |]. cbn [up_field] in *.
  destruct (stop c); [done |]. apply Forall_cons_1 in Hsp as [Hc _].
  apply Forall_cons_1 in Hs as [Hb _]. destruct (to_upper_byte c Hb) as [_ Hu].
  change (u8 (to_upper c) = 32) in H32. rewrite Hu in H32.
  by rewrite to_upper_eq_iff in H32 by lia.
Qed.

Lemma split_display s d :
  is_cstr s → no_spaces s → (d_name d, d_ext d) = split_name s →
  split_name (dirent_to_display d) = split_name s.
Proof.
  intros Hs Hsp Hd. rewrite split_name_fields in Hd.
  pose proof (f_equal fst Hd) as Hn. pose proof (f_equal snd Hd) as He. cbn [fst snd] in Hn, He.
  rewrite !split_name_fields. unfold dirent_to_display. rewrite Hn, He.
  pose proof (ext_part_cstr s Hs) as Hes. pose proof (ext_part_no_spaces s Hsp) as Hesp.
  set (tl := if negb (znth (up_field ext_stop 3 (ext_part s)) 0 =? 32)
             then 46 :: trim_field (up_field ext_stop 3 (ext_part s)) else []).
  assert (Htl : match tl with c :: _ => base_stop c = true | [] => True end).
  { subst tl. by destruct (negb _). }
  f_equal.
  - by apply up_field_trim; [apply base_stop_upper |..].
  - unfold ext_part at 1. rewrite skip_to_dot_app
      by (apply trim_up_field_no_stop; [apply base_stop_upper | done]).
    subst tl. destruct (Z.eqb_spec (znth (up_field ext_stop 3 (ext_part s)) 0) 32) as [H|H];
      cbn [negb].
    + cbn [skip_to_dot]. by rewrite (up_field_first ext_stop 2 (ext_part s)).
    + cbn [skip_to_dot]. change (negb (46 =? 0) && negb (46 =? 46)) with false.
      cbn [Z.eqb Pos.eqb]. pose proof (up_field_trim _ ext_stop_upper 3 (ext_part s) []) as Hx.
      rewrite app_nil_r in Hx. by apply Hx.
Qed.

Lemma length_trim_field f : (length (trim_field f) ≤ length f)%nat.
Proof. induction f as [|c f IH]; cbn; [lia |]. destruct (c =? 32); cbn; lia. Qed.

Lemma length_display d : dirent_ok d → zlen (dirent_to_display d) ≤ FS_COMPONENT_LEN - 1.
Proof.
  intros Hd. unfold dirent_to_display, zlen. change FS_COMPONENT_LEN with 13.
  rewrite length_app. pose proof (length_trim_field (d_name d)).
  pose proof (length_trim_field (d_ext d)).
  rewrite (dok_name_len d Hd) in *. rewrite (dok_ext_len d Hd) in *.
  destruct (negb _); cbn [length]; lia.
Qed.

Lemma split_name_upper s : is_cstr s → split_name (map to_upper s) = split_name s.
Proof.
  intros Hs. rewrite !split_name_fields.
  assert (Hf : ∀ stop, (∀ c, stop (to_upper c) = stop c) →
    ∀ s k, up_field stop k (map to_upper s) = up_field stop k s).
  { intros stop Hst s'. induction s' as [|c s' IH]; intros [|k]; cbn; try done.
    rewrite Hst, IH, to_upper_idem. done. }
  rewrite (Hf _ base_stop_upper). f_equal.
  replace (ext_part (map to_upper s)) with (map to_upper (ext_part s)).
  { apply (Hf _ ext_stop_upper). }
  unfold ext_part. clear Hf. induction Hs as [|c s Hc Hs IH]; [done |]. cbn.
  pose proof (base_stop_upper c) as Hb. unfold base_stop in Hb.
  rewrite <- !negb_orb, Hb. destruct (negb _) eqn:Hneg; [done |].
  pose proof (to_upper_eq_iff c 46).
  destruct (Z.eqb_spec (to_upper c) 46), (Z.eqb_spec c 46); try done; intuition lia.
Qed.
