(* ===== verification/Fat.v ===== *)
(** * The file allocation table of [kernel/fs.c]: entry access, cluster
    allocation, chains, and how each operation changes the table. *)
From S2P Require Import Prelude FsLayout Disk.

(** ** Operations *)

Definition fat_read (d : disk) (cluster : Z) : Z :=
  let byte_off := u32 (cluster * 2) in
  let sector := FS_FAT1_LBA + byte_off / FS_BYTES_PER_SECTOR in
  let off := byte_off mod FS_BYTES_PER_SECTOR in
  let buf := disk_read_sector d sector in
  u16 (Z.lor (znth buf off) (Z.shiftl (znth buf (off + 1)) 8)).

Definition fat_write (d : disk) (cluster value : Z) : disk :=
  let byte_off := u32 (cluster * 2) in
  let sector_index := byte_off / FS_BYTES_PER_SECTOR in
  let off := byte_off mod FS_BYTES_PER_SECTOR in
  let sector1 := FS_FAT1_LBA + sector_index in
  let buf := disk_read_sector d sector1 in
  let buf := zset buf off (u8 (Z.land value 255)) in
  let buf := zset buf (off + 1) (u8 (Z.land (Z.shiftr value 8) 255)) in
  let d := disk_write_sector d sector1 buf in
  disk_write_sector d (FS_FAT2_LBA + sector_index) buf.

(** [for (c = FIRST; c < FIRST + TOTAL; c++)]: [n] is the number of
    iterations left.  Returns the cluster (0 when the disk is full). *)
Fixpoint fat_alloc_loop (n : nat) (d : disk) (c : Z) : Z * disk :=
  match n with
  | O => (0, d)
  | S n' =>
      if fat_read d c =? FS_CLUSTER_FREE
      then (c, fat_write d c FS_CLUSTER_EOC)
      else fat_alloc_loop n' d (u16 (c + 1))
  end.

Definition fat_alloc_cluster (d : disk) : Z * disk :=
  fat_alloc_loop (Z.to_nat FS_TOTAL_DATA_CLUSTERS) d FS_FIRST_DATA_CLUSTER.

(** The guard of every walk along a chain. *)
Definition in_chain_range (c : Z) : bool :=
  (FS_FIRST_DATA_CLUSTER <=? c) && (c <? FS_CLUSTER_EOC_MIN).

(** A walk that has not stopped after visiting all 2^16 cluster numbers. *)
Definition CHAIN_FUEL : nat := Z.to_nat 65536.

(** [None] when the loop is still running after [fuel] clusters. *)
Fixpoint fat_free_loop (fuel : nat) (d : disk) (c : Z) : option disk :=
  match fuel with
  | O => None
  | S fuel' =>
      if in_chain_range c then
        let next := fat_read d c in
        fat_free_loop fuel' (fat_write d c FS_CLUSTER_FREE) next
      else Some d
  end.

Definition fat_free_chain (d : disk) (first : Z) : option disk :=
  fat_free_loop CHAIN_FUEL d first.

Definition cluster_to_lba (cluster : Z) : Z :=
  u32 (FS_DATA_LBA + u32 (cluster - FS_FIRST_DATA_CLUSTER) * FS_SECTORS_PER_CLUSTER).

(** [for (i = 0; i < index; i++)]: [n] links are left to walk. *)
Fixpoint cluster_at_loop (n : nat) (d : disk) (c : Z) : Z :=
  match n with
  | O => c
  | S n' => if negb (in_chain_range c) then 0 else cluster_at_loop n' d (fat_read d c)
  end.

Definition cluster_at_index (d : disk) (first index : Z) : Z :=
  cluster_at_loop (Z.to_nat index) d first.

(** ** Regions of the volume *)

(** Cluster numbers that have an entry in the table. *)
Definition in_fat (c : Z) : Prop := 0 ≤ c < FS_FAT_SIZE_SECTORS * 256.

Definition data_cluster (c : Z) : Prop :=
  FS_FIRST_DATA_CLUSTER ≤ c < FS_FIRST_DATA_CLUSTER + FS_TOTAL_DATA_CLUSTERS.

Definition fat_lba (lba : Z) : Prop := FS_FAT1_LBA ≤ lba < FS_ROOT_LBA.
Definition root_lba (lba : Z) : Prop := FS_ROOT_LBA ≤ lba < FS_DATA_LBA.
Definition data_lba (lba : Z) : Prop := FS_DATA_LBA ≤ lba < FS_IMAGE_TOTAL_SECTORS.

#[export] Instance data_cluster_dec c : Decision (data_cluster c).
Proof. unfold data_cluster. apply _. Defined.

Ltac region := unfold in_fat, data_cluster, fat_lba, root_lba, data_lba, is_u16, is_u32, is_u8 in *;
  unfold_layout; try lia.

Lemma data_in_fat c : data_cluster c → in_fat c.
Proof. intros. region. Qed.

Lemma data_in_range c : data_cluster c → in_chain_range c = true.
Proof. intros. unfold in_chain_range. region. Qed.

Lemma eoc_not_in_range c : FS_CLUSTER_EOC_MIN ≤ c → in_chain_range c = false.
Proof. intros. unfold in_chain_range. region. Qed.

Lemma in_fat_u16 c : in_fat c → is_u16 c.
Proof. region. Qed.

Lemma cluster_to_lba_eq c : data_cluster c → cluster_to_lba c = c + 433.
Proof.
  intros Hc. unfold cluster_to_lba. unfold_layout.
  rewrite (u32_small (c - 2)) by region. rewrite u32_small; region.
Qed.

Lemma cluster_to_lba_data c : data_cluster c → data_lba (cluster_to_lba c).
Proof. intros Hc. rewrite cluster_to_lba_eq by done. region. Qed.

Lemma cluster_to_lba_inj c1 c2 :
  data_cluster c1 → data_cluster c2 → cluster_to_lba c1 = cluster_to_lba c2 → c1 = c2.
Proof. intros H1 H2. rewrite !cluster_to_lba_eq by done. lia. Qed.

(** ** Entry access *)

(** Sector and byte offset of a table entry. *)
Lemma fat_entry_pos c :
  in_fat c →
  u32 (c * 2) / FS_BYTES_PER_SECTOR = c / 256 ∧
  u32 (c * 2) mod FS_BYTES_PER_SECTOR = 2 * (c mod 256) ∧ 0 ≤ c / 256 < 63.
Proof.
  intros Hc. rewrite u32_small by region. change FS_BYTES_PER_SECTOR with 512.
  pose proof (Z.div_mod c 256 ltac:(lia)). pose proof (Z.mod_pos_bound c 256 ltac:(lia)).
  split; [|split].
  - symmetry. apply Z.div_unique with (2 * (c mod 256)); lia.
  - symmetry. apply Z.mod_unique with (c / 256); lia.
  - region.
Qed.

Lemma fat_read_eq d c :
  in_fat c → disk_ok d →
  fat_read d c =
    znth (disk_read_sector d (FS_FAT1_LBA + c / 256)) (2 * (c mod 256)) +
    256 * znth (disk_read_sector d (FS_FAT1_LBA + c / 256)) (2 * (c mod 256) + 1).
Proof.
  intros Hc Hd. unfold fat_read. destruct (fat_entry_pos c Hc) as (-> & -> & _).
  destruct (Hd (FS_FAT1_LBA + c / 256)) as [_ Hb].
  assert (Hz : ∀ i, is_u8 (znth (disk_read_sector d (FS_FAT1_LBA + c / 256)) i)).
  { intros i. by apply Forall_znth. }
  rewrite lor_shiftl_8 by done. apply u16_small.
  pose proof (Hz (2 * (c mod 256))). pose proof (Hz (2 * (c mod 256) + 1)). region.
Qed.

Lemma fat_read_u16 d c : is_u16 (fat_read d c).
Proof. apply is_u16_u16. Qed.

(** The sector image [fat_write] stores in both copies. *)
Definition fat_sector_set (buf : list Z) (c v : Z) : list Z :=
  zset (zset buf (2 * (c mod 256)) (v mod 256)) (2 * (c mod 256) + 1) (v / 256).

Lemma fat_write_eq d c v :
  in_fat c → is_u16 v →
  let buf := fat_sector_set (disk_read_sector d (FS_FAT1_LBA + c / 256)) c v in
  fat_write d c v =
    disk_write_sector (disk_write_sector d (FS_FAT1_LBA + c / 256) buf)
      (FS_FAT2_LBA + c / 256) buf.
Proof.
  intros Hc Hv. unfold fat_write, fat_sector_set.
  destruct (fat_entry_pos c Hc) as (-> & -> & _).
  rewrite !land_255, shiftr_8. unfold u8. rewrite !Zmod_mod.
  by rewrite (Z.mod_small (v / 256)) by (by apply is_u8_hi).
Qed.

Lemma fat_sector_set_ok buf c v :
  sector_ok buf → is_u16 v → sector_ok (fat_sector_set buf c v).
Proof.
  intros [Hl Hb] Hv. unfold fat_sector_set. split; [by rewrite !length_zset |].
  unfold zset. apply Forall_insert; [apply Forall_insert |]; auto with rink.
Qed.

(** [fat_write] leaves every sector outside the two copies alone. *)
Lemma fat_write_frame d c v lba :
  in_fat c → is_u16 v → ¬ fat_lba lba →
  disk_read_sector (fat_write d c v) lba = disk_read_sector d lba.
Proof.
  intros Hc Hv Hl. rewrite fat_write_eq by done. destruct (fat_entry_pos c Hc) as (_ & _ & Hs).
  rewrite !disk_read_write_ne; [done | |]; region.
Qed.

Lemma fat_write_ok d c v : in_fat c → is_u16 v → disk_ok d → disk_ok (fat_write d c v).
Proof.
  intros Hc Hv Hd. rewrite fat_write_eq by done.
  auto using fat_sector_set_ok with rink.
Qed.

Lemma fat_read_write d c v c' :
  in_fat c → in_fat c' → is_u16 v → disk_ok d →
  fat_read (fat_write d c v) c' = if decide (c' = c) then v else fat_read d c'.
Proof.
  intros Hc Hc' Hv Hd.
  rewrite !fat_read_eq by auto using fat_write_ok. rewrite fat_write_eq by done.
  destruct (fat_entry_pos c Hc) as (_ & _ & Hs). destruct (fat_entry_pos c' Hc') as (_ & _ & Hs').
  rewrite (disk_read_write_ne _ (FS_FAT2_LBA + _)) by region.
  pose proof (Z.mod_pos_bound c 256 ltac:(lia)). pose proof (Z.mod_pos_bound c' 256 ltac:(lia)).
  destruct (Hd (FS_FAT1_LBA + c / 256)) as [Hl _].
  pose proof (Z.div_mod c 256 ltac:(lia)). pose proof (Z.div_mod c' 256 ltac:(lia)).
  destruct (decide (c / 256 = c' / 256)) as [He|Hne].
  - rewrite <- He, disk_read_write_eq. unfold fat_sector_set.
    set (buf := disk_read_sector d _) in *.
    case_decide as Hcc.
    + subst c'. rewrite znth_zset_ne, znth_zset_eq, znth_zset_eq
        by (unfold zlen; rewrite ?length_zset, ?Hl; lia).
      pose proof (Z.div_mod v 256 ltac:(lia)). lia.
    + rewrite !znth_zset_ne by lia. done.
  - rewrite disk_read_write_ne by lia. case_decide as Hcc; [subst; lia | done].
Qed.

(** ** The table as a function, and how operations change it *)

(** Both copies agree. *)
Definition fats_mirror (d : disk) : Prop :=
  ∀ i, 0 ≤ i < FS_FAT_SIZE_SECTORS →
    disk_read_sector d (FS_FAT1_LBA + i) = disk_read_sector d (FS_FAT2_LBA + i).

Definition vol_ok (d : disk) : Prop := disk_ok d ∧ fats_mirror d.

Definition fupd (f : Z → Z) (c v : Z) : Z → Z := λ x, if decide (x = c) then v else f x.

Lemma fupd_eq f c v : fupd f c v c = v.
Proof. unfold fupd. by rewrite decide_True. Qed.

Lemma fupd_ne f c v x : x ≠ c → fupd f c v x = f x.
Proof. intros. unfold fupd. by rewrite decide_False. Qed.

(** [d'] is [d] with the table changed to [f] and nothing else changed. *)
Record fat_effect (d d' : disk) (f : Z → Z) : Prop := {
  fe_vol : vol_ok d';
  fe_read : ∀ c, in_fat c → fat_read d' c = f c;
  fe_frame : ∀ lba, ¬ fat_lba lba → disk_read_sector d' lba = disk_read_sector d lba
}.

Lemma fat_effect_refl d : vol_ok d → fat_effect d d (fat_read d).
Proof. done. Qed.

Lemma fat_effect_trans d1 d2 d3 f g :
  fat_effect d1 d2 f → fat_effect d2 d3 g → fat_effect d1 d3 g.
Proof.
  intros [] [Hv Hr Hf]. split; [done | done |]. intros lba Hl. rewrite Hf by done. auto.
Qed.

Lemma fat_effect_ext d d' f g :
  fat_effect d d' f → (∀ c, in_fat c → f c = g c) → fat_effect d d' g.
Proof. intros [] Hfg. split; [done | | done]. intros c Hc. rewrite <- Hfg; auto. Qed.

Lemma fat_write_mirror d c v :
  in_fat c → is_u16 v → fats_mirror d → fats_mirror (fat_write d c v).
Proof.
  intros Hc Hv Hm i Hi. rewrite fat_write_eq by done.
  destruct (fat_entry_pos c Hc) as (_ & _ & Hs). destruct (decide (i = c / 256)) as [->|Hne].
  - rewrite disk_read_write_eq, disk_read_write_ne, disk_read_write_eq by region. done.
  - rewrite !disk_read_write_ne by region. auto.
Qed.

Lemma fat_write_effect d c v :
  vol_ok d → in_fat c → is_u16 v →
  fat_effect d (fat_write d c v) (fupd (fat_read d) c v).
Proof.
  intros [Hd Hm] Hc Hv. split.
  - split; auto using fat_write_ok, fat_write_mirror.
  - intros x Hx. by apply fat_read_write.
  - intros lba Hl. by apply fat_write_frame.
Qed.

(** Writing a sector outside the table does not change the table. *)
Lemma fat_read_frame d d' c :
  in_fat c →
  (∀ lba, fat_lba lba → disk_read_sector d' lba = disk_read_sector d lba) →
  fat_read d' c = fat_read d c.
Proof.
  intros Hc Hf. unfold fat_read. destruct (fat_entry_pos c Hc) as (-> & -> & Hs).
  rewrite Hf; [done | region].
Qed.

Lemma fat_read_disk_write d lba b c :
  in_fat c → ¬ fat_lba lba → fat_read (disk_write_sector d lba b) c = fat_read d c.
Proof.
  intros Hc Hl. apply fat_read_frame; [done |]. intros l Hl'.
  apply disk_read_write_ne. by intros ->.
Qed.

Lemma disk_write_vol_ok d lba b :
  vol_ok d → sector_ok b → ¬ fat_lba lba → vol_ok (disk_write_sector d lba b).
Proof.
  intros [Hd Hm] Hb Hl. split; [by apply disk_write_ok |]. intros i Hi.
  rewrite !disk_read_write_ne; [auto | |]; intros ->; apply Hl; region.
Qed.

(** ** Cluster chains *)

(** [chain f c cs]: following the links of table [f] from [c] visits the data
    clusters [cs] and ends at an end-of-chain marker. *)
Inductive chain (f : Z → Z) : Z → list Z → Prop :=
| chain_last c : data_cluster c → FS_CLUSTER_EOC_MIN ≤ f c → chain f c [c]
| chain_link c cs : data_cluster c → chain f (f c) cs → chain f c (c :: cs).

#[export] Hint Constructors chain : rink.

Lemma chain_head_data f c cs : chain f c cs → data_cluster c.
Proof. by destruct 1. Qed.

Lemma chain_head f c cs : chain f c cs → head cs = Some c.
Proof. by destruct 1. Qed.

Lemma chain_data f c cs x : chain f c cs → x ∈ cs → data_cluster x.
Proof. induction 1; set_solver. Qed.

Lemma chain_det f c cs1 cs2 : chain f c cs1 → chain f c cs2 → cs1 = cs2.
Proof.
  intros H. revert cs2. induction H as [c Hc Hf|c cs Hc Hch IH]; intros cs2 H2;
    inversion H2 as [? _ Hf2|? ? _ Hch2]; subst; clear H2.
  - done.
  - exfalso. pose proof (chain_head_data _ _ _ Hch2). region.
  - exfalso. pose proof (chain_head_data _ _ _ Hch). region.
  - f_equal. auto.
Qed.

Lemma chain_congr f g c cs : chain f c cs → (∀ x, x ∈ cs → g x = f x) → chain g c cs.
Proof.
  induction 1 as [c Hc Hf|c cs Hc Hch IH]; intros Hg.
  - apply chain_last; [done |]. by rewrite Hg by set_solver.
  - apply chain_link; [done |]. rewrite Hg by set_solver. apply IH. set_solver.
Qed.

Lemma chain_suffix f c cs x :
  chain f c cs → x ∈ cs → ∃ cs', chain f x cs' ∧ (length cs' ≤ length cs)%nat.
Proof.
  induction 1 as [c Hc Hf|c cs Hc Hch IH]; intros Hx.
  - exists [c]. apply list_elem_of_singleton in Hx as ->. auto with rink.
  - apply elem_of_cons in Hx as [->|Hx]; [exists (c :: cs); auto with rink |].
    destruct (IH Hx) as (cs' & ? & ?). exists cs'. cbn. auto.
Qed.

(** A chain never visits a cluster twice. *)
Lemma chain_NoDup f c cs : chain f c cs → NoDup cs.
Proof.
  induction 1 as [c Hc Hf|c cs Hc Hch IH]; [apply NoDup_singleton |].
  constructor; [|done]. intros Hin. destruct (chain_suffix _ _ _ _ Hch Hin) as (cs' & H' & Hl).
  pose proof (chain_det _ _ _ _ H' (chain_link _ _ _ Hc Hch)) as ->. cbn in Hl. lia.
Qed.

Lemma chain_length f c cs : chain f c cs → Z.of_nat (length cs) ≤ FS_TOTAL_DATA_CLUSTERS.
Proof.
  intros Hch.
  assert (length cs ≤ length (seqZ FS_FIRST_DATA_CLUSTER FS_TOTAL_DATA_CLUSTERS))%nat as Hl.
  { apply submseteq_length, NoDup_submseteq; [by eapply chain_NoDup |].
    intros x Hx. apply elem_of_seqZ. exact (chain_data _ _ _ _ Hch Hx). }
  rewrite length_seqZ in Hl. region.
Qed.

(** No cluster of a chain is free. *)
Lemma chain_nonfree f c cs x : chain f c cs → x ∈ cs → f x ≠ FS_CLUSTER_FREE.
Proof.
  induction 1 as [c Hc Hf|c cs Hc Hch IH]; intros Hx.
  - apply list_elem_of_singleton in Hx as ->. region.
  - apply elem_of_cons in Hx as [->|Hx]; [|auto].
    pose proof (chain_head_data _ _ _ Hch). region.
Qed.

(** Linking a fresh one-cluster chain at the end. *)
Lemma chain_snoc f c cs l n :
  chain f c cs → last cs = Some l → data_cluster n → n ∉ cs →
  chain (fupd (fupd f n FS_CLUSTER_EOC) l n) c (cs ++ [n]).
Proof.
  intros Hch Hl Hn. revert Hl. induction Hch as [c Hc Hf|c cs Hc Hch IH]; intros Hl Hni.
  - injection Hl as ->. cbn [app]. apply chain_link; [done |]. rewrite fupd_eq.
    apply chain_last; [done |]. rewrite fupd_ne, fupd_eq by set_solver. region.
  - cbn [app]. apply chain_link; [done |].
    assert (Hlc : last cs = Some l) by (destruct Hch; done).
    assert (l ∈ cs) by (by apply last_Some_elem_of).
    pose proof (chain_NoDup _ _ _ (chain_link _ _ _ Hc Hch)) as Hnd.
    apply NoDup_cons in Hnd as [Hcc _].
    assert (fupd (fupd f n FS_CLUSTER_EOC) l n c = f c) as ->.
    { rewrite !fupd_ne; set_solver. }
    apply IH; set_solver.
Qed.

(** ** Allocation *)

Inductive alloc_spec (d : disk) : Z * disk → Prop :=
| alloc_full :
    (∀ x, data_cluster x → fat_read d x ≠ FS_CLUSTER_FREE) → alloc_spec d (0, d)
| alloc_found c d' :
    data_cluster c → fat_read d c = FS_CLUSTER_FREE →
    (∀ x, FS_FIRST_DATA_CLUSTER ≤ x < c → fat_read d x ≠ FS_CLUSTER_FREE) →
    fat_effect d d' (fupd (fat_read d) c FS_CLUSTER_EOC) → alloc_spec d (c, d').

Lemma fat_alloc_loop_spec n d c :
  vol_ok d → FS_FIRST_DATA_CLUSTER ≤ c →
  c + Z.of_nat n = FS_FIRST_DATA_CLUSTER + FS_TOTAL_DATA_CLUSTERS →
  (∀ x, FS_FIRST_DATA_CLUSTER ≤ x < c → fat_read d x ≠ FS_CLUSTER_FREE) →
  alloc_spec d (fat_alloc_loop n d c).
Proof.
  intros Hd. revert c. induction n as [|n IH]; intros c Hc Hn Hlow; cbn [fat_alloc_loop].
  - apply alloc_full. intros x Hx. apply Hlow. region.
  - destruct (Z.eqb_spec (fat_read d c) FS_CLUSTER_FREE) as [He|Hne].
    + apply alloc_found; [region | done | done |].
      apply fat_write_effect; [done | region | region].
    + rewrite u16_small by region. apply IH; [lia | lia |].
      intros x Hx. destruct (decide (x = c)) as [->|]; [done |]. apply Hlow. lia.
Qed.

Lemma fat_alloc_spec d : vol_ok d → alloc_spec d (fat_alloc_cluster d).
Proof.
  intros Hd. apply fat_alloc_loop_spec; [done | lia | | intros; lia].
  rewrite Z2Nat.id; region.
Qed.

(** ** Freeing a chain *)

Definition fclear (f : Z → Z) (cs : list Z) : Z → Z :=
  λ x, if decide (x ∈ cs) then FS_CLUSTER_FREE else f x.

Lemma fat_free_loop_spec fuel d c cs :
  vol_ok d → chain (fat_read d) c cs → (length cs < fuel)%nat →
  ∃ d', fat_free_loop fuel d c = Some d' ∧ fat_effect d d' (fclear (fat_read d) cs).
Proof.
  intros Hd Hch. pose proof (chain_NoDup _ _ _ Hch) as Hnd.
  revert fuel d Hd Hch Hnd. remember (length cs) as len eqn:Hlen. revert c cs Hlen.
  induction len as [|len IH]; intros c cs Hlen fuel d Hd Hch Hnd Hfuel.
  { by destruct Hch. }
  destruct fuel as [|fuel]; [lia |]. cbn [fat_free_loop].
  pose proof (chain_head_data _ _ _ Hch) as Hc.
  rewrite (data_in_range c Hc). set (d1 := fat_write d c FS_CLUSTER_FREE).
  assert (He : fat_effect d d1 (fupd (fat_read d) c FS_CLUSTER_FREE)).
  { apply fat_write_effect; [done | by apply data_in_fat | region]. }
  destruct Hch as [c Hd0 Heoc|c cs Hd0 Hch].
  - destruct fuel as [|fuel]; [cbn in *; lia |]. cbn [fat_free_loop].
    rewrite eoc_not_in_range by done. exists d1. split; [done |].
    apply (fat_effect_ext _ _ _ _ He). intros x Hx. unfold fclear, fupd.
    destruct (decide (x = c)), (decide (x ∈ [c])); set_solver.
  - apply NoDup_cons in Hnd as [Hcc Hnd].
    assert (Hch1 : chain (fat_read d1) (fat_read d c) cs).
    { apply (chain_congr _ _ _ _ Hch). intros x Hx. rewrite (fe_read _ _ _ He).
      - apply fupd_ne. set_solver.
      - apply data_in_fat. by eapply chain_data. }
    destruct (IH (fat_read d c) cs) with (fuel := fuel) (d := d1) as (d' & Hfree & He');
      [cbn in *; lia | apply He | done | done | cbn in *; lia |].
    exists d'. split; [done |].
    apply (fat_effect_ext _ _ (fclear (fat_read d1) cs)); [by eapply fat_effect_trans |].
    intros x Hx. unfold fclear. destruct (decide (x ∈ cs)), (decide (x ∈ c :: cs));
      try set_solver.
    + rewrite (fe_read _ _ _ He) by done. assert (x = c) as -> by set_solver. apply fupd_eq.
    + rewrite (fe_read _ _ _ He) by done. apply fupd_ne. set_solver.
Qed.

Lemma chain_fuel_enough f c cs : chain f c cs → (length cs < CHAIN_FUEL)%nat.
Proof. intros Hch%chain_length. unfold CHAIN_FUEL. region. Qed.

Lemma fat_free_chain_spec d c cs :
  vol_ok d → chain (fat_read d) c cs →
  ∃ d', fat_free_chain d c = Some d' ∧ fat_effect d d' (fclear (fat_read d) cs).
Proof. intros. eapply fat_free_loop_spec; eauto using chain_fuel_enough. Qed.

(** Outside the cluster range nothing is freed. *)
Lemma fat_free_chain_none d c : in_chain_range c = false → fat_free_chain d c = Some d.
Proof.
  intros Hc. unfold fat_free_chain. destruct CHAIN_FUEL eqn:Hf; [|cbn; by rewrite Hc].
  exfalso. unfold CHAIN_FUEL in Hf. lia.
Qed.

(** ** Indexing into a chain *)

Lemma cluster_at_loop_spec n d c cs x :
  chain (fat_read d) c cs → cs !! n = Some x → cluster_at_loop n d c = x.
Proof.
  revert c cs. induction n as [|n IH]; intros c cs Hch Hx.
  - pose proof (chain_head _ _ _ Hch) as Hh. destruct cs; [done |]. cbn in *. congruence.
  - cbn [cluster_at_loop]. rewrite data_in_range by (by eapply chain_head_data). cbn [negb].
    destruct Hch as [c Hc Hf|c cs Hc Hch]; [done |]. by apply (IH _ cs).
Qed.

(** ** Free-space accounting *)

Definition free_list (d : disk) : list Z :=
  filter (λ c, fat_read d c = FS_CLUSTER_FREE) (seqZ FS_FIRST_DATA_CLUSTER FS_TOTAL_DATA_CLUSTERS).

Definition free_count (d : disk) : Z := zlen (free_list d).

Lemma elem_of_free_list d c : c ∈ free_list d ↔ data_cluster c ∧ fat_read d c = FS_CLUSTER_FREE.
Proof. unfold free_list. rewrite list_elem_of_filter, elem_of_seqZ. unfold data_cluster. tauto. Qed.

Lemma NoDup_free_list d : NoDup (free_list d).
Proof. apply NoDup_filter, NoDup_seqZ. Qed.

Lemma free_list_perm d d' l :
  NoDup l → (∀ x, x ∈ free_list d' ↔ x ∈ l ∨ x ∈ free_list d) →
  (∀ x, x ∈ l → x ∉ free_list d) → free_count d' = zlen l + free_count d.
Proof.
  intros Hnd Hx Hdis. unfold free_count, zlen.
  assert (free_list d' ≡ₚ l ++ free_list d) as ->; [|rewrite length_app; lia].
  apply NoDup_Permutation; [apply NoDup_free_list | |].
  - apply NoDup_app. auto using NoDup_free_list.
  - intros x. by rewrite elem_of_app.
Qed.

Lemma free_count_alloc d c d' :
  vol_ok d → fat_alloc_cluster d = (c, d') → c ≠ 0 → free_count d = 1 + free_count d'.
Proof.
  intros Hd Ha Hc. pose proof (fat_alloc_spec d Hd) as Hs. rewrite Ha in Hs.
  inversion Hs as [|? ? Hdc Hfree _ He]; subst; [done |].
  apply (free_list_perm d' d [c]); [apply NoDup_singleton | |].
  - intros x. rewrite !elem_of_free_list, list_elem_of_singleton.
    destruct (decide (data_cluster x)) as [Hx|Hx]; [|split; intros; destruct_or?; subst; tauto].
    rewrite (fe_read _ _ _ He) by (by apply data_in_fat). unfold fupd.
    case_decide; subst; [tauto |]. split; [tauto | intros [?|?]; [done | tauto]].
  - intros x ->%list_elem_of_singleton. rewrite elem_of_free_list.
    rewrite (fe_read _ _ _ He) by (by apply data_in_fat). rewrite fupd_eq. by intros [_ ?].
Qed.

Lemma free_count_zero d :
  (∀ x, data_cluster x → fat_read d x ≠ FS_CLUSTER_FREE) → free_count d = 0.
Proof.
  intros Hfull. unfold free_count. destruct (free_list d) as [|x l] eqn:Hl; [done |].
  assert (x ∈ free_list d) as Hx by (rewrite Hl; set_solver).
  apply elem_of_free_list in Hx as [Hx ?]. by destruct (Hfull x Hx).
Qed.

Lemma free_count_full d d' : vol_ok d → fat_alloc_cluster d = (0, d') → free_count d = 0.
Proof.
  intros Hd Ha. pose proof (fat_alloc_spec d Hd) as Hs. rewrite Ha in Hs.
  inversion Hs as [Hfull|? ? Hdc]; subst; [by apply free_count_zero | region].
Qed.

Lemma free_count_free_chain d d' c cs :
  vol_ok d → chain (fat_read d) c cs → fat_free_chain d c = Some d' →
  free_count d' = zlen cs + free_count d.
Proof.
  intros Hd Hch Hf. destruct (fat_free_chain_spec d c cs Hd Hch) as (d0 & Hf0 & He).
  rewrite Hf in Hf0. injection Hf0 as <-.
  apply free_list_perm; [by eapply chain_NoDup | |].
  - intros x. rewrite !elem_of_free_list.
    destruct (decide (data_cluster x)) as [Hx|Hx].
    + rewrite (fe_read _ _ _ He) by (by apply data_in_fat). unfold fclear.
      case_decide; tauto.
    + split; [tauto |]. intros [Hin|?]; [|tauto]. destruct Hx. by eapply chain_data.
  - intros x Hx. rewrite elem_of_free_list. intros [_ ?]. by eapply chain_nonfree.
Qed.
