(* ===== verification/ChainMap.v ===== *)
(** * The abstract view of the allocation table: a finite map from the first
    cluster of every chain to the list of its clusters. *)
From S2P Require Import Prelude FsLayout Disk Fat.

(** The table [f] stores exactly the chains of [chains]: every chain is linked
    in the table, no cluster is in two chains, and every cluster in use is in
    one of them (nothing has leaked). *)
Record fat_wf (f : Z → Z) (chains : gmap Z (list Z)) : Prop := {
  fw_chain : ∀ h cs, chains !! h = Some cs → chain f h cs;
  fw_disj : ∀ h1 h2 cs1 cs2 x, chains !! h1 = Some cs1 → chains !! h2 = Some cs2 →
    x ∈ cs1 → x ∈ cs2 → h1 = h2;
  fw_cover : ∀ c, data_cluster c → f c ≠ FS_CLUSTER_FREE →
    ∃ h cs, chains !! h = Some cs ∧ c ∈ cs
}.

Section chain_map.
Variables (f : Z → Z) (chains : gmap Z (list Z)).
Hypothesis Hwf : fat_wf f chains.

Lemma fw_data h cs x : chains !! h = Some cs → x ∈ cs → data_cluster x.
Proof. intros Hh Hx. eapply chain_data; [by apply Hwf |done]. Qed.

Lemma fw_nonfree h cs x : chains !! h = Some cs → x ∈ cs → f x ≠ FS_CLUSTER_FREE.
Proof. intros Hh Hx. eapply chain_nonfree; [by apply Hwf | done]. Qed.

Lemma fw_head h cs : chains !! h = Some cs → h ∈ cs ∧ data_cluster h.
Proof.
  intros Hh%Hwf. split; [|by eapply chain_head_data].
  pose proof (chain_head _ _ _ Hh). destruct cs; [done |]. cbn in *. set_solver.
Qed.

(** A free cluster is the head of no chain and in no chain. *)
Lemma fw_fresh c : f c = FS_CLUSTER_FREE → chains !! c = None.
Proof.
  intros Hc. destruct (chains !! c) as [cs|] eqn:Hh; [|done].
  destruct (fw_head _ _ Hh) as [Hin _]. by destruct (fw_nonfree _ _ _ Hh Hin).
Qed.

Lemma fw_fresh_notin c h cs : f c = FS_CLUSTER_FREE → chains !! h = Some cs → c ∉ cs.
Proof. intros Hc Hh Hin. by destruct (fw_nonfree _ _ _ Hh Hin). Qed.

(** Only the table entries of data clusters matter. *)
Lemma fat_wf_ext g : (∀ c, data_cluster c → g c = f c) → fat_wf g chains.
Proof.
  intros Hg. split.
  - intros h cs Hh. apply (chain_congr f); [by apply Hwf |].
    intros x Hx. apply Hg. by eapply fw_data.
  - apply Hwf.
  - intros c Hc. rewrite Hg by done. by apply Hwf.
Qed.

(** Allocating a cluster creates a one-cluster chain. *)
Lemma fat_wf_alloc n :
  data_cluster n → f n = FS_CLUSTER_FREE →
  fat_wf (fupd f n FS_CLUSTER_EOC) (<[n := [n]]> chains).
Proof.
  intros Hn Hfree. split.
  - intros h cs. rewrite lookup_insert. case_decide as Hh; [subst h|]; intros Hcs.
    + injection Hcs as <-. apply chain_last; [done |]. rewrite fupd_eq. region.
    + apply (chain_congr f); [by apply Hwf |]. intros x Hx. apply fupd_ne.
      intros ->. by eapply fw_fresh_notin.
  - intros h1 h2 cs1 cs2 x. rewrite !lookup_insert.
    repeat case_decide; subst; intros Hc1 Hc2 Hx1 Hx2; simplify_eq; try done.
    + apply list_elem_of_singleton in Hx1 as ->. by destruct (fw_fresh_notin _ h2 cs2 Hfree Hc2).
    + apply list_elem_of_singleton in Hx2 as ->. by destruct (fw_fresh_notin _ h1 cs1 Hfree Hc1).
    + by eapply Hwf.
  - intros c Hc Hne. destruct (decide (c = n)) as [->|Hcn].
    + exists n, [n]. rewrite lookup_insert_eq. set_solver.
    + rewrite fupd_ne in Hne by done. destruct (fw_cover _ _ Hwf c Hc Hne) as (h & cs & Hh & Hin).
      exists h, cs. split; [|done]. rewrite lookup_insert_ne; [done |].
      intros <-. rewrite fw_fresh in Hh by done. done.
Qed.

(** Allocating a cluster and linking it behind the last cluster of a chain
    makes that chain one longer. *)
Lemma fat_wf_extend h cs l n :
  chains !! h = Some cs → last cs = Some l →
  data_cluster n → f n = FS_CLUSTER_FREE →
  fat_wf (fupd (fupd f n FS_CLUSTER_EOC) l n) (<[h := cs ++ [n]]> chains).
Proof.
  intros Hh Hl Hn Hfree.
  assert (Hlin : l ∈ cs) by (by apply last_Some_elem_of).
  assert (Hncs : n ∉ cs) by (by eapply fw_fresh_notin). split.
  - intros h' cs'. rewrite lookup_insert. case_decide as Hhh; [subst h'|]; intros Hcs.
    + injection Hcs as <-. apply chain_snoc; [by apply Hwf | done..].
    + apply (chain_congr f); [by apply Hwf |]. intros x Hx. rewrite !fupd_ne; [done | |].
      * intros ->. by eapply fw_fresh_notin.
      * intros ->. apply Hhh. by eapply Hwf.
  - intros h1 h2 cs1 cs2 x. rewrite !lookup_insert.
    repeat case_decide; subst; intros Hc1 Hc2 Hx1 Hx2; simplify_eq; try done.
    + apply elem_of_app in Hx1 as [Hx1|Hx1]; [by eapply Hwf |].
      apply list_elem_of_singleton in Hx1 as ->. by destruct (fw_fresh_notin _ h2 cs2 Hfree Hc2).
    + apply elem_of_app in Hx2 as [Hx2|Hx2]; [by eapply Hwf |].
      apply list_elem_of_singleton in Hx2 as ->. by destruct (fw_fresh_notin _ h1 cs1 Hfree Hc1).
    + by eapply Hwf.
  - intros c Hc Hne. destruct (decide (c = n)) as [->|Hcn].
    { exists h, (cs ++ [n]). rewrite lookup_insert_eq. set_solver. }
    assert (f c ≠ FS_CLUSTER_FREE) as Hne'.
    { destruct (decide (c = l)) as [->|]; [by eapply fw_nonfree |].
      by rewrite !fupd_ne in Hne by done. }
    destruct (fw_cover _ _ Hwf c Hc Hne') as (h' & cs' & Hh' & Hin).
    destruct (decide (h = h')) as [<-|Hhh].
    + exists h, (cs ++ [n]). rewrite lookup_insert_eq. simplify_eq. set_solver.
    + exists h', cs'. by rewrite lookup_insert_ne.
Qed.

(** Freeing a chain removes it. *)
Lemma fat_wf_free h cs :
  chains !! h = Some cs → fat_wf (fclear f cs) (delete h chains).
Proof.
  intros Hh. split.
  - intros h' cs'. rewrite lookup_delete. case_decide as Hhh; [done |]. intros Hcs.
    apply (chain_congr f); [by apply Hwf |]. intros x Hx. unfold fclear.
    rewrite decide_False; [done |]. intros Hx'. apply Hhh. by eapply Hwf.
  - intros h1 h2 cs1 cs2 x. rewrite !lookup_delete.
    repeat case_decide; try done. apply Hwf.
  - intros c Hc. unfold fclear. case_decide as Hin; [done |]. intros Hne.
    destruct (fw_cover _ _ Hwf c Hc Hne) as (h' & cs' & Hh' & Hin').
    exists h', cs'. split; [|done]. rewrite lookup_delete_ne; [done |].
    intros <-. by simplify_eq.
Qed.
End chain_map.

Lemma fat_wf_empty f : (∀ c, data_cluster c → f c = FS_CLUSTER_FREE) → fat_wf f ∅.
Proof. intros Hf. split; try done. intros c Hc Hne. by destruct (Hne (Hf c Hc)). Qed.
