(* ===== verification/Directory.v ===== *)
(** * Directories of [kernel/fs.c]: the cached root, subdirectories stored in
    cluster chains, the iterator, lookup, and slot allocation. *)
From S2P Require Import Prelude FsLayout Disk Dirent Fat.

(** ** State of the driver

    The static variables of fs.c together with the disk they live on. *)
Record fs_state := mk_fs {
  fs_disk : disk;
  root : list fs_dirent;
  cwd_is_root : bool;
  cwd_cluster : Z;
  cwd_path : cstr
}.

Definition set_disk (d : disk) (s : fs_state) : fs_state :=
  mk_fs d (root s) (cwd_is_root s) (cwd_cluster s) (cwd_path s).

Definition set_root (r : list fs_dirent) (s : fs_state) : fs_state :=
  mk_fs (fs_disk s) r (cwd_is_root s) (cwd_cluster s) (cwd_path s).

Definition set_cwd (is_root : bool) (c : Z) (p : cstr) (s : fs_state) : fs_state :=
  mk_fs (fs_disk s) (root s) is_root c p.

(** ** The marker of a formatted volume, as [fs_init] looks for it *)

Definition marker : list Z := str "RINKFS16".

(** [n] bytes of the marker are left to compare, from index [i]. *)
Fixpoint marker_loop (n : nat) (i : Z) (buf : sector) : bool :=
  match n with
  | O => true
  | S n' => if negb (znth buf (54 + i) =? znth marker i) then false
            else marker_loop n' (i + 1) buf
  end.

(** ** Root directory cache *)

(** The array [root] seen as bytes. *)
Definition root_bytes (r : list fs_dirent) : list Z := concat (map encode_dirent r).

(** The array of [n] entries laid out in a byte buffer. *)
Definition buf_entries (buf : list Z) (n : nat) : list fs_dirent :=
  map (λ i, buf_entry buf (Z.of_nat i)) (seq 0 n).

(** The [for (s = 0; s < FS_ROOT_DIR_SECTORS; s++)] loops: [n] sectors are
    left, starting with sector [s]. *)
Fixpoint root_load_loop (n : nat) (d : disk) (s : Z) : list Z :=
  match n with
  | O => []
  | S n' => disk_read_sector d (FS_ROOT_LBA + s) ++ root_load_loop n' d (s + 1)
  end.

Definition root_load (st : fs_state) : fs_state :=
  set_root (buf_entries (root_load_loop (Z.to_nat FS_ROOT_DIR_SECTORS) (fs_disk st) 0)
              (Z.to_nat FS_ROOT_ENTRIES)) st.

Fixpoint root_save_loop (n : nat) (buf : list Z) (d : disk) (s : Z) : disk :=
  match n with
  | O => d
  | S n' =>
      root_save_loop n' buf
        (disk_write_sector d (FS_ROOT_LBA + s)
           (ztake FS_BYTES_PER_SECTOR (zdrop (s * FS_BYTES_PER_SECTOR) buf)))
        (s + 1)
  end.

Definition root_save (st : fs_state) : fs_state :=
  set_disk (root_save_loop (Z.to_nat FS_ROOT_DIR_SECTORS) (root_bytes (root st))
              (fs_disk st) 0) st.

(** ** Directory references and entry locations *)

Record dir_ref := mk_dir { is_root : bool; dir_cluster : Z }.

#[export] Instance dir_ref_eq_dec : EqDecision dir_ref.
Proof. solve_decision. Defined.

Record entry_loc := mk_loc {
  loc_dir : dir_ref;
  loc_root_index : Z;      (* used if the directory is the root *)
  loc_entry_cluster : Z;   (* used otherwise *)
  loc_entry_index : Z
}.

Definition cwd_dir (s : fs_state) : dir_ref := mk_dir (cwd_is_root s) (cwd_cluster s).

(** ** Iterator

    Fields that the code leaves uninitialised are 0; they are never read. *)
Record dir_iter := mk_iter {
  it_dir : dir_ref;
  it_root_index : Z;
  it_cluster : Z;
  it_in_cluster_index : Z;
  it_done : bool
}.

Definition dir_iter_start (dir : dir_ref) : dir_iter :=
  if is_root dir then mk_iter dir 0 0 0 false
  else mk_iter dir 0 (dir_cluster dir) 0 false.

Definition iter_done (it : dir_iter) : dir_iter :=
  mk_iter (it_dir it) (it_root_index it) (it_cluster it) (it_in_cluster_index it) true.

(** [root[i]]; [i] is below [FS_ROOT_ENTRIES] wherever the code reads it. *)
Definition root_at (r : list fs_dirent) (i : Z) : fs_dirent :=
  nth (Z.to_nat i) r zero_dirent.

(** Returns the advanced iterator, and the entry with its location unless the
    end was reached ([return 0]). *)
Definition dir_iter_next (s : fs_state) (it : dir_iter) :
    dir_iter * option (fs_dirent * entry_loc) :=
  if it_done it then (it, None)
  else if is_root (it_dir it) then
    if FS_ROOT_ENTRIES <=? it_root_index it then (iter_done it, None)
    else
      (mk_iter (it_dir it) (it_root_index it + 1) (it_cluster it)
         (it_in_cluster_index it) (it_done it),
       Some (root_at (root s) (it_root_index it),
             mk_loc (it_dir it) (it_root_index it) 0 0))
  else if (it_cluster it <? FS_FIRST_DATA_CLUSTER) || (FS_CLUSTER_EOC_MIN <=? it_cluster it)
  then (iter_done it, None)
  else
    let buf := disk_read_sector (fs_disk s) (cluster_to_lba (it_cluster it)) in
    let out := buf_entry buf (it_in_cluster_index it) in
    let loc := mk_loc (it_dir it) 0 (it_cluster it) (it_in_cluster_index it) in
    let i := it_in_cluster_index it + 1 in
    let it' :=
      if FS_ENTRIES_PER_CLUSTER <=? i
      then mk_iter (it_dir it) (it_root_index it) (fat_read (fs_disk s) (it_cluster it)) 0 (it_done it)
      else mk_iter (it_dir it) (it_root_index it) (it_cluster it) i (it_done it) in
    (it', Some (out, loc)).

Definition dir_write_entry (s : fs_state) (loc : entry_loc) (entry : fs_dirent) : fs_state :=
  if is_root (loc_dir loc) then
    root_save (set_root (zset (root s) (loc_root_index loc) entry) s)
  else
    let lba := cluster_to_lba (loc_entry_cluster loc) in
    let buf := disk_read_sector (fs_disk s) lba in
    let buf := buf_set_entry buf (loc_entry_index loc) entry in
    set_disk (disk_write_sector (fs_disk s) lba buf) s.

(** Every cluster number holds 16 entries, so an iteration still running after
    2^20 steps has come back to a cluster it already visited. *)
Definition ITER_FUEL : nat := Z.to_nat 1048576.

(** [while (dir_iter_next(...))] of [dir_scan]; [None] when the loop is still
    running after [fuel] steps, [Some None] for [return 0]. *)
Fixpoint dir_scan_loop (fuel : nat) (s : fs_state) (it : dir_iter) (name8 ext3 : list Z) :
    option (option (fs_dirent * entry_loc)) :=
  match fuel with
  | O => None
  | S fuel' =>
      match dir_iter_next s it with
      | (_, None) => Some None
      | (it', Some (e, l)) =>
          if dirent_unused e then dir_scan_loop fuel' s it' name8 ext3
          else if dirent_named e name8 ext3 then Some (Some (e, l))
          else dir_scan_loop fuel' s it' name8 ext3
      end
  end.

Definition dir_scan (s : fs_state) (dir : dir_ref) (name8 ext3 : list Z) :
    option (option (fs_dirent * entry_loc)) :=
  dir_scan_loop ITER_FUEL s (dir_iter_start dir) name8 ext3.

(** The loop of [dir_find_free]: the slot found, or the value of
    [last_cluster] when the directory is full. *)
Fixpoint dir_find_loop (fuel : nat) (s : fs_state) (dir : dir_ref) (it : dir_iter)
    (last_cluster : Z) : option (entry_loc + Z) :=
  match fuel with
  | O => None
  | S fuel' =>
      match dir_iter_next s it with
      | (_, None) => Some (inr last_cluster)
      | (it', Some (e, l)) =>
          let last_cluster := if is_root dir then last_cluster else loc_entry_cluster l in
          if dirent_unused e then Some (inl l)
          else dir_find_loop fuel' s dir it' last_cluster
      end
  end.

(** [inl loc] for [return 0] with [*loc] set, [inr tt] for [return -1]. *)
Definition dir_find_free (s : fs_state) (dir : dir_ref) :
    option ((entry_loc + unit) * fs_state) :=
  let last_cluster := if is_root dir then 0 else dir_cluster dir in
  match dir_find_loop ITER_FUEL s dir (dir_iter_start dir) last_cluster with
  | None => None
  | Some (inl l) => Some (inl l, s)
  | Some (inr last_cluster) =>
      if is_root dir then Some (inr tt, s)
      else
        let '(new_cluster, d) := fat_alloc_cluster (fs_disk s) in
        if new_cluster =? 0 then Some (inr tt, set_disk d s)
        else
          let d := fat_write d last_cluster new_cluster in
          let buf := replicate (Z.to_nat FS_BYTES_PER_SECTOR) 0 in
          let d := disk_write_sector d (cluster_to_lba new_cluster) buf in
          Some (inl (mk_loc dir 0 new_cluster 0), set_disk d s)
  end.
