(* ===== verification/RootDir.v ===== *)
(** * The root directory cache: [root_save] and [root_load] are inverse, and
    the driver-state invariant that the cache and the disk agree. *)
From S2P Require Import Prelude FsLayout Disk Dirent Fat Directory.

(** ** Arrays of entries as bytes *)

Lemma length_root_bytes r :
  Forall dirent_ok r → length (root_bytes r) = (32 * length r)%nat.
Proof.
  unfold root_bytes. induction 1 as [|d r Hd Hr IH]; [done |].
  cbn [map concat length]. rewrite length_app, length_encode by done. lia.
Qed.

Lemma root_bytes_bytes r : Forall dirent_ok r → Forall is_u8 (root_bytes r).
Proof.
  unfold root_bytes. induction 1 as [|d r Hd Hr IH]; cbn; [constructor |].
  apply Forall_app. auto using encode_bytes.
Qed.

Lemma buf_entry_root_bytes r i d :
  Forall dirent_ok r → r !! i = Some d → buf_entry (root_bytes r) (Z.of_nat i) = d.
Proof.
  intros Hr Hi. unfold buf_entry, root_bytes.
  replace (Z.to_nat (32 * Z.of_nat i)) with (32 * i)%nat by lia.
  revert i Hi. induction Hr as [|d0 r Hd0 Hr IH]; intros i Hi; [done |].
  destruct i as [|i]; cbn [map concat].
  - injection Hi as ->. rewrite drop_0, take_app_exact by (by apply length_encode).
    by apply decode_encode.
  - rewrite drop_app_ge by (rewrite length_encode by done; lia).
    rewrite length_encode by done. replace (32 * S i - 32)%nat with (32 * i)%nat by lia.
    by apply IH.
Qed.

Lemma length_buf_entries buf n : length (buf_entries buf n) = n.
Proof. unfold buf_entries. by rewrite length_map, length_seq. Qed.

Lemma lookup_buf_entries buf n i :
  (i < n)%nat → buf_entries buf n !! i = Some (buf_entry buf (Z.of_nat i)).
Proof.
  intros Hi. unfold buf_entries. rewrite list_lookup_fmap, lookup_seq_lt by done. done.
Qed.

Lemma buf_entries_root_bytes r :
  Forall dirent_ok r → buf_entries (root_bytes r) (length r) = r.
Proof.
  intros Hr. apply list_eq. intros i. destruct (decide (i < length r)%nat) as [Hi|Hi].
  - rewrite lookup_buf_entries by done.
    destruct (lookup_lt_is_Some_2 r i Hi) as [d Hd]. rewrite Hd.
    by rewrite (buf_entry_root_bytes r i d).
  - rewrite !lookup_ge_None_2; [done | lia | rewrite length_buf_entries; lia].
Qed.

(** ** The state invariant *)

(** Sector [i] of the root directory area for a given cache. *)
Definition root_sector (r : list fs_dirent) (i : Z) : sector :=
  ztake FS_BYTES_PER_SECTOR (zdrop (i * FS_BYTES_PER_SECTOR) (root_bytes r)).

Record state_ok (s : fs_state) : Prop := {
  so_vol : vol_ok (fs_disk s);
  so_root_len : length (root s) = Z.to_nat FS_ROOT_ENTRIES;
  so_root : Forall dirent_ok (root s);
  so_sync : ∀ i, 0 ≤ i < FS_ROOT_DIR_SECTORS →
    disk_read_sector (fs_disk s) (FS_ROOT_LBA + i) = root_sector (root s) i;
  so_boot : marker_loop 8 0 (disk_read_sector (fs_disk s) FS_BOOT_LBA) = true
}.

Lemma root_sector_ok r i :
  length r = Z.to_nat FS_ROOT_ENTRIES → Forall dirent_ok r →
  0 ≤ i < FS_ROOT_DIR_SECTORS → sector_ok (root_sector r i).
Proof.
  intros Hl Hr Hi. unfold root_sector, ztake, zdrop. split.
  - rewrite length_take, length_drop, length_root_bytes, Hl by done. region.
  - apply Forall_take, Forall_drop. by apply root_bytes_bytes.
Qed.

(** ** [root_save] *)

Lemma root_save_loop_read n r d j lba :
  disk_read_sector (root_save_loop n (root_bytes r) d j) lba =
    if decide (FS_ROOT_LBA + j ≤ lba < FS_ROOT_LBA + j + Z.of_nat n)
    then root_sector r (lba - FS_ROOT_LBA) else disk_read_sector d lba.
Proof.
  revert d j. induction n as [|n IH]; intros d j; cbn [root_save_loop].
  - rewrite decide_False by lia. done.
  - rewrite IH. fold (root_sector r j). repeat case_decide; try lia; try done.
    + assert (lba = FS_ROOT_LBA + j) as -> by lia. rewrite disk_read_write_eq.
      f_equal. lia.
    + apply disk_read_write_ne. lia.
Qed.

Lemma root_save_read s lba :
  disk_read_sector (fs_disk (root_save s)) lba =
    if decide (root_lba lba) then root_sector (root s) (lba - FS_ROOT_LBA)
    else disk_read_sector (fs_disk s) lba.
Proof.
  unfold root_save, root_lba. cbn [fs_disk set_disk]. rewrite root_save_loop_read.
  repeat case_decide; try done; exfalso; region.
Qed.

(** Saving any well-formed cache re-establishes the invariant. *)
Lemma root_save_ok s :
  vol_ok (fs_disk s) → length (root s) = Z.to_nat FS_ROOT_ENTRIES →
  Forall dirent_ok (root s) →
  marker_loop 8 0 (disk_read_sector (fs_disk s) FS_BOOT_LBA) = true → state_ok (root_save s).
Proof.
  intros [Hd Hm] Hl Hr Hb. split; [split | done | done | |].
  - intros lba. rewrite root_save_read. case_decide as Hlba; [|done].
    apply root_sector_ok; [done | done |]. region.
  - intros i Hi. rewrite !root_save_read, !decide_False by region. auto.
  - intros i Hi. rewrite root_save_read, decide_True by region.
    by replace (FS_ROOT_LBA + i - FS_ROOT_LBA) with i by lia.
  - rewrite root_save_read, decide_False by region. done.
Qed.

(** ** [root_load] after [root_save] *)

Lemma concat_root_sectors r n i :
  (∀ j, i ≤ j < i + Z.of_nat n → 0 ≤ j) →
  zdrop (i * FS_BYTES_PER_SECTOR) (root_bytes r) =
  concat (map (λ k, root_sector r (i + Z.of_nat k)) (seq 0 n)) ++
  zdrop ((i + Z.of_nat n) * FS_BYTES_PER_SECTOR) (root_bytes r).
Proof.
  revert i. induction n as [|n IH]; intros i Hi; cbn [seq map concat].
  - by replace (i + Z.of_nat 0) with i by lia.
  - rewrite <- seq_shift, map_map. pose proof (Hi i ltac:(lia)).
    rewrite <- (take_drop (Z.to_nat FS_BYTES_PER_SECTOR) (zdrop _ _)), <- app_assoc.
    replace (i + Z.of_nat 0) with i by lia. f_equal.
    unfold zdrop at 1. rewrite drop_drop.
    replace (Z.to_nat (i * FS_BYTES_PER_SECTOR) + Z.to_nat FS_BYTES_PER_SECTOR)%nat
      with (Z.to_nat ((i + 1) * FS_BYTES_PER_SECTOR)) by region.
    fold (zdrop ((i + 1) * FS_BYTES_PER_SECTOR) (root_bytes r)).
    rewrite IH by (intros j Hj; apply Hi; lia).
    replace (i + 1 + Z.of_nat n) with (i + Z.of_nat (S n)) by lia.
    f_equal. f_equal. apply map_ext. intros k. f_equal. lia.
Qed.

Lemma root_load_loop_map n d i :
  root_load_loop n d i =
  concat (map (λ k, disk_read_sector d (FS_ROOT_LBA + (i + Z.of_nat k))) (seq 0 n)).
Proof.
  revert i. induction n as [|n IH]; intros i; [done |].
  cbn [root_load_loop seq map concat]. rewrite <- seq_shift, map_map, IH.
  replace (i + Z.of_nat 0) with i by lia. f_equal. f_equal.
  apply map_ext. intros k. do 2 f_equal. lia.
Qed.

Lemma root_load_bytes s :
  state_ok s →
  root_load_loop (Z.to_nat FS_ROOT_DIR_SECTORS) (fs_disk s) 0 = root_bytes (root s).
Proof.
  intros Hs. rewrite root_load_loop_map.
  pose proof (concat_root_sectors (root s) (Z.to_nat FS_ROOT_DIR_SECTORS) 0) as Hc.
  unfold zdrop in Hc. change (Z.to_nat (0 * FS_BYTES_PER_SECTOR)) with 0%nat in Hc.
  rewrite drop_0 in Hc. rewrite Hc by lia.
  rewrite (drop_ge _ (Z.to_nat _)), app_nil_r.
  - f_equal. apply map_ext_in. intros k Hk%in_seq. apply Hs. region.
  - rewrite length_root_bytes, (so_root_len s Hs) by apply Hs. region.
Qed.

(** Loading what the disk holds gives back the cache. *)
Lemma root_load_state s s' :
  state_ok s → fs_disk s' = fs_disk s → root (root_load s') = root s.
Proof.
  intros Hs Hd. unfold root_load. cbn [root set_root]. rewrite Hd, root_load_bytes by done.
  rewrite <- (so_root_len s Hs). apply buf_entries_root_bytes, Hs.
Qed.
