(* ===== verification/DirView.v ===== *)
(** * What the directory routines do, stated on the list of a directory's
    entries: iteration, lookup, slot search and slot update. *)
From S2P Require Import Prelude FsLayout Disk Dirent Fat ChainMap Directory RootDir.

(** ** The view of a state *)

Definition fat (s : fs_state) : Z → Z := fat_read (fs_disk s).

(** The sector of a data cluster. *)
Definition csec (s : fs_state) (c : Z) : sector := disk_read_sector (fs_disk s) (cluster_to_lba c).

Definition cluster_entries (s : fs_state) (c : Z) : list fs_dirent := buf_entries (csec s c) 16.

(** The key of a directory: [None] for the root, whatever its cluster field
    holds, and the first cluster otherwise. *)
Definition dkey (dr : dir_ref) : option Z :=
  if is_root dr then None else Some (dir_cluster dr).

(** All entries of a directory, in the order of the slots. *)
Definition contents (s : fs_state) (chains : gmap Z (list Z)) (k : option Z) : list fs_dirent :=
  match k with
  | None => root s
  | Some h => concat (map (cluster_entries s) (default [] (chains !! h)))
  end.

Definition slot_loc (chains : gmap Z (list Z)) (dr : dir_ref) (i : nat) : entry_loc :=
  if is_root dr then mk_loc dr (Z.of_nat i) 0 0
  else mk_loc dr 0 (nth (i / 16) (default [] (chains !! dir_cluster dr)) 0) (Z.of_nat (i mod 16)).

Definition good_dir (chains : gmap Z (list Z)) (k : option Z) : Prop :=
  match k with None => True | Some h => is_Some (chains !! h) end.

(** A slot in use whose 8.3 name is [n], [e]. *)
Definition matches (n e : list Z) (d : fs_dirent) : Prop :=
  dirent_unused d = false ∧ dirent_named d n e = true.

#[export] Instance matches_dec n e d : Decision (matches n e d).
Proof. unfold matches. apply _. Defined.

(** ** The iterator enumerates the entries *)

Inductive iter_yields (s : fs_state) : dir_iter → list (fs_dirent * entry_loc) → Prop :=
| yields_nil it it' : dir_iter_next s it = (it', None) → iter_yields s it []
| yields_cons it it' x xs :
    dir_iter_next s it = (it', Some x) → iter_yields s it' xs → iter_yields s it (x :: xs).

Definition slots (s : fs_state) (chains : gmap Z (list Z)) (dr : dir_ref) :
    list (fs_dirent * entry_loc) :=
  imap (λ i d, (d, slot_loc chains dr i)) (contents s chains (dkey dr)).

Lemma length_cluster_entries s c : length (cluster_entries s c) = 16%nat.
Proof. apply length_buf_entries. Qed.

Lemma cluster_entries_uniform s cs :
  Forall (λ l, length l = 16%nat) (map (cluster_entries s) cs).
Proof. apply Forall_map, Forall_true. apply length_cluster_entries. Qed.

Lemma length_contents_sub s chains h cs :
  chains !! h = Some cs → length (contents s chains (Some h)) = (length cs * 16)%nat.
Proof.
  intros Hh. cbn. rewrite Hh. cbn. rewrite (length_concat_uniform 16), length_map; [done |].
  apply cluster_entries_uniform.
Qed.

Lemma lookup_contents_sub s chains h cs i :
  chains !! h = Some cs →
  contents s chains (Some h) !! i =
    (λ c, buf_entry (csec s c) (Z.of_nat (i mod 16))) <$> cs !! (i / 16)%nat.
Proof.
  intros Hh. cbn [contents]. rewrite Hh. cbn [default].
  rewrite (lookup_concat_uniform 16); [|lia | apply cluster_entries_uniform].
  rewrite list_lookup_fmap. unfold id. destruct (cs !! (i / 16)%nat) as [c|]; [|done].
  cbn [mbind option_bind fmap option_fmap option_map].
  apply lookup_buf_entries. apply Nat.mod_upper_bound. lia.
Qed.

Lemma length_slots s chains dr : length (slots s chains dr) = length (contents s chains (dkey dr)).
Proof. apply length_imap. Qed.

(** The slots of one cluster of a chain. *)
Definition cluster_slots (s : fs_state) (dr : dir_ref) (c : Z) : list (fs_dirent * entry_loc) :=
  map (λ i, (buf_entry (csec s c) (Z.of_nat i), mk_loc dr 0 c (Z.of_nat i))) (seq 0 16).

Lemma yields_root s dr n i c k :
  is_root dr = true → (i + n = 128)%nat →
  iter_yields s (mk_iter dr (Z.of_nat i) c k false)
    (map (λ j, (root_at (root s) (Z.of_nat j), mk_loc dr (Z.of_nat j) 0 0)) (seq i n)).
Proof.
  intros Hdr. revert i. induction n as [|n IH]; intros i Hi; cbn [seq map].
  - eapply yields_nil. unfold dir_iter_next. cbn. rewrite Hdr.
    destruct (Z.leb_spec FS_ROOT_ENTRIES (Z.of_nat i)); [done | region].
  - eapply yields_cons; [|apply (IH (S i)); lia].
    unfold dir_iter_next. cbn. rewrite Hdr.
    destruct (Z.leb_spec FS_ROOT_ENTRIES (Z.of_nat i)); [region |].
    by replace (Z.of_nat i + 1) with (Z.of_nat (S i)) by lia.
Qed.

(** From slot [i] of cluster [c], given what the iterator yields from the next
    cluster on. *)
Lemma yields_cluster s dr r c n i xs :
  is_root dr = false → in_chain_range c = true → (i + S n = 16)%nat →
  iter_yields s (mk_iter dr r (fat s c) 0 false) xs →
  iter_yields s (mk_iter dr r c (Z.of_nat i) false)
    (map (λ j, (buf_entry (csec s c) (Z.of_nat j), mk_loc dr 0 c (Z.of_nat j))) (seq i (S n)) ++ xs).
Proof.
  intros Hdr Hc. revert i. induction n as [|n IH]; intros i Hi Hxs.
  - eapply yields_cons; [|exact Hxs]. unfold dir_iter_next. cbn. rewrite Hdr.
    unfold in_chain_range in Hc.
    replace ((c <? FS_FIRST_DATA_CLUSTER) || (FS_CLUSTER_EOC_MIN <=? c)) with false by lia.
    destruct (Z.leb_spec FS_ENTRIES_PER_CLUSTER (Z.of_nat i + 1)); [done | region].
  - cbn [seq map app]. eapply yields_cons; [|apply (IH (S i)); [lia | done]].
    unfold dir_iter_next. cbn. rewrite Hdr. unfold in_chain_range in Hc.
    replace ((c <? FS_FIRST_DATA_CLUSTER) || (FS_CLUSTER_EOC_MIN <=? c)) with false by lia.
    destruct (Z.leb_spec FS_ENTRIES_PER_CLUSTER (Z.of_nat i + 1)); [region |].
    by replace (Z.of_nat i + 1) with (Z.of_nat (S i)) by lia.
Qed.

Lemma yields_chain s dr r c cs :
  is_root dr = false → chain (fat s) c cs →
  iter_yields s (mk_iter dr r c 0 false) (concat (map (cluster_slots s dr) cs)).
Proof.
  intros Hdr. induction 1 as [c Hc Hf|c cs Hc Hch IH]; cbn [map concat].
  - apply (yields_cluster s dr r c 15 0); [done | by apply data_in_range | done |].
    eapply yields_nil. unfold dir_iter_next. cbn. rewrite Hdr.
    by replace (FS_CLUSTER_EOC_MIN <=? fat s c) with true by lia; rewrite orb_true_r.
  - by apply (yields_cluster s dr r c 15 0); [done | apply data_in_range | done |].
Qed.

(** Iterating over a directory yields its slots in order. *)
Lemma iter_yields_slots s chains dr :
  state_ok s → fat_wf (fat s) chains → good_dir chains (dkey dr) →
  iter_yields s (dir_iter_start dr) (slots s chains dr).
Proof.
  intros Hs Hwf Hg. unfold dir_iter_start, slots, slot_loc, dkey in *.
  destruct (is_root dr) eqn:Hdr; cbn [contents good_dir] in *.
  - pose proof (yields_root s dr 128 0 0 0 Hdr eq_refl) as Hy.
    match goal with |- iter_yields _ _ ?x => replace x with
      (map (λ j, (root_at (root s) (Z.of_nat j), mk_loc dr (Z.of_nat j) 0 0)) (seq 0 128)) end.
    { exact Hy. }
    apply list_eq. intros i. rewrite list_lookup_imap, list_lookup_fmap.
    pose proof (so_root_len s Hs) as Hl. destruct (decide (i < 128)%nat) as [Hi|Hi].
    + rewrite lookup_seq_lt by done. cbn [fmap option_fmap option_map].
      destruct (lookup_lt_is_Some_2 (root s) i) as [d Hd]; [region |]. rewrite Hd. cbn.
      unfold root_at. rewrite Nat2Z.id, (nth_lookup_Some _ _ _ _ Hd). done.
    + rewrite lookup_seq_ge by lia. rewrite lookup_ge_None_2; [done | region].
  - destruct Hg as [cs Hcs]. pose proof (fw_chain _ _ Hwf _ _ Hcs) as Hch.
    pose proof (yields_chain s dr 0 _ _ Hdr Hch) as Hy.
    match goal with |- iter_yields _ _ ?x => replace x with
      (concat (map (cluster_slots s dr) cs)) end; [exact Hy |].
    apply list_eq. intros i. rewrite list_lookup_imap.
    change (concat (map (cluster_entries s) (default [] (chains !! dir_cluster dr))))
      with (contents s chains (Some (dir_cluster dr))).
    rewrite (lookup_contents_sub _ _ _ _ _ Hcs), Hcs.
    rewrite (lookup_concat_uniform 16);
      [|lia | apply Forall_map, Forall_true; intros; unfold cluster_slots; by rewrite length_map].
    rewrite list_lookup_fmap. cbn [default]. unfold id.
    destruct (cs !! (i / 16)%nat) as [c|] eqn:Hc; [|done].
    cbn [mbind option_bind fmap option_fmap option_map].
    unfold cluster_slots. rewrite list_lookup_fmap, lookup_seq_lt
      by (apply Nat.mod_upper_bound; lia).
    cbn [fmap option_fmap option_map]. by rewrite (nth_lookup_Some _ _ _ _ Hc).
Qed.

(** ** The loops over a directory *)

Lemma slots_fuel s chains dr :
  state_ok s → fat_wf (fat s) chains → good_dir chains (dkey dr) →
  (length (slots s chains dr) < ITER_FUEL)%nat.
Proof.
  intros Hs Hwf Hg. rewrite length_slots. unfold ITER_FUEL. unfold dkey in *.
  destruct (is_root dr); cbn [good_dir] in Hg.
  - cbn [contents]. rewrite (so_root_len s Hs). region.
  - destruct Hg as [cs Hcs]. rewrite (length_contents_sub _ _ _ _ Hcs).
    pose proof (chain_length _ _ _ (fw_chain _ _ Hwf _ _ Hcs)). region.
Qed.

Lemma dir_scan_loop_spec fuel s it xs n e :
  iter_yields s it xs → (length xs < fuel)%nat →
  dir_scan_loop fuel s it n e = Some (snd <$> list_find (λ x, matches n e x.1) xs).
Proof.
  intros Hy. revert fuel. induction Hy as [it it' Hn|it it' [d l] xs Hn Hy IH];
    intros [|fuel] Hfuel; cbn [length] in *; try lia; cbn [dir_scan_loop]; rewrite Hn; [done |].
  rewrite IH by lia. cbn [list_find fst]. case_decide as Hd; unfold matches in Hd.
  - by destruct Hd as [-> ->].
  - destruct (list_find _ xs); destruct (dirent_unused d), (dirent_named d n e); tauto.
Qed.

Lemma dir_find_loop_spec fuel s dr it xs lc :
  iter_yields s it xs → (length xs < fuel)%nat →
  dir_find_loop fuel s dr it lc =
    Some (match list_find (λ x, dirent_unused x.1 = true) xs with
          | Some (_, (_, l)) => inl l
          | None => inr (if is_root dr then lc
                         else from_option (λ x, loc_entry_cluster x.2) lc (last xs))
          end).
Proof.
  intros Hy. revert fuel lc. induction Hy as [it it' Hn|it it' [d l] xs Hn Hy IH];
    intros [|fuel] lc Hfuel; cbn [length] in *; try lia; cbn [dir_find_loop]; rewrite Hn.
  - cbn. by destruct (is_root dr).
  - cbn [list_find fst]. destruct (dirent_unused d) eqn:Hu; case_decide; try done.
    rewrite IH by lia. destruct (list_find _ xs) as [[? [? ?]]|]; [done |].
    cbn [fmap option_fmap option_map]. destruct (is_root dr); [done |].
    rewrite last_cons. by destruct (last xs).
Qed.

(** An entry that [fs_rmdir] and [fs_list] skip. *)
Definition skipped (d : fs_dirent) : bool :=
  dirent_unused d || fields_eq (d_name d) DOT_NAME 8 || fields_eq (d_name d) DOTDOT_NAME 8.

Definition find_in (s : fs_state) (chains : gmap Z (list Z)) (dr : dir_ref) (n e : list Z) :
    option (nat * fs_dirent) :=
  list_find (matches n e) (contents s chains (dkey dr)).

Section directory.
Variables (s : fs_state) (chains : gmap Z (list Z)) (dr : dir_ref).
Hypothesis Hs : state_ok s.
Hypothesis Hwf : fat_wf (fat s) chains.
Hypothesis Hg : good_dir chains (dkey dr).

(** [dir_scan] ends and finds the first slot in use with the given name. *)
Lemma dir_scan_spec n e :
  dir_scan s dr n e = Some ((λ '(i, d), (d, slot_loc chains dr i)) <$> find_in s chains dr n e).
Proof.
  unfold dir_scan. rewrite (dir_scan_loop_spec _ _ _ (slots s chains dr));
    [|by apply iter_yields_slots | by apply slots_fuel].
  unfold slots, find_in. rewrite (list_find_imap (matches n e)).
  by destruct (list_find _ _) as [[i d]|].
Qed.

Lemma dir_find_loop_slots lc :
  dir_find_loop ITER_FUEL s dr (dir_iter_start dr) lc =
    Some (match list_find (λ d, dirent_unused d = true) (contents s chains (dkey dr)) with
          | Some (i, _) => inl (slot_loc chains dr i)
          | None => inr (if is_root dr then lc
                         else from_option (λ x, loc_entry_cluster x.2) lc
                                (last (slots s chains dr)))
          end).
Proof.
  rewrite (dir_find_loop_spec _ _ _ _ (slots s chains dr));
    [|by apply iter_yields_slots | by apply slots_fuel].
  pose proof (list_find_imap (λ d, dirent_unused d = true) (slot_loc chains dr)
    (contents s chains (dkey dr))) as Hf. cbn beta in Hf. fold (slots s chains dr) in Hf.
  rewrite Hf. by destruct (list_find _ (contents _ _ _)) as [[i d]|].
Qed.

(** The last slot of a subdirectory lies in the last cluster of its chain. *)
Lemma last_slot_cluster h cs l lc :
  dkey dr = Some h → chains !! h = Some cs → last cs = Some l →
  from_option (λ x, loc_entry_cluster x.2) lc (last (slots s chains dr)) = l.
Proof.
  intros Hk Hcs Hl.
  assert (Hlen : (0 < length cs)%nat) by (destruct cs; cbn in *; [done | lia]).
  pose proof (length_contents_sub s _ _ _ Hcs) as Hc.
  rewrite last_lookup, length_slots, Hk, Hc.
  unfold slots. rewrite list_lookup_imap, Hk.
  replace (pred (length cs * 16)) with ((length cs - 1) * 16 + 15)%nat by lia.
  rewrite (lookup_contents_sub _ _ _ _ _ Hcs).
  rewrite Nat.div_add_l, Nat.div_small, Nat.add_0_r by lia.
  rewrite last_lookup in Hl. replace (pred (length cs)) with (length cs - 1)%nat in Hl by lia.
  rewrite Hl. cbn [fmap option_fmap option_map from_option snd].
  unfold slot_loc, dkey in Hk |- *. destruct (is_root dr); [done |]. injection Hk as ->.
  rewrite Hcs. cbn [default loc_entry_cluster].
  rewrite Nat.div_add_l, Nat.div_small, Nat.add_0_r by lia. unfold id.
  by rewrite (nth_lookup_Some _ _ _ _ Hl).
Qed.
End directory.

(** ** How the primitives change the view *)

Lemma data_not_fat_lba c : data_cluster c → ¬ fat_lba (cluster_to_lba c).
Proof. intros Hc. pose proof (cluster_to_lba_data c Hc). region. Qed.

Lemma data_not_root_lba c : data_cluster c → ¬ root_lba (cluster_to_lba c).
Proof. intros Hc. pose proof (cluster_to_lba_data c Hc). region. Qed.

#[export] Hint Resolve data_not_fat_lba data_not_root_lba data_in_fat : rink.

Lemma csec_ok s c : state_ok s → sector_ok (csec s c).
Proof. intros Hs. apply Hs. Qed.

(** [state_ok] only looks at the disk and the root. *)
Lemma state_ok_change s d :
  state_ok s → vol_ok d →
  (∀ lba, lba = FS_BOOT_LBA ∨ root_lba lba →
    disk_read_sector d lba = disk_read_sector (fs_disk s) lba) →
  state_ok (set_disk d s).
Proof.
  intros Hs Hd Hr. split; [done | apply Hs | apply Hs | |].
  - intros i Hi. cbn [fs_disk set_disk root]. rewrite Hr by region. by apply Hs.
  - cbn [fs_disk set_disk]. rewrite Hr by (by left). apply Hs.
Qed.

(** Changing the table. *)
Lemma fat_change s d f :
  state_ok s → fat_effect (fs_disk s) d f →
  state_ok (set_disk d s) ∧ (∀ c, in_fat c → fat (set_disk d s) c = f c) ∧
  (∀ c, data_cluster c → csec (set_disk d s) c = csec s c).
Proof.
  intros Hs He. split; [|split].
  - apply state_ok_change; [done | apply He |]. intros lba Hl. apply He. region.
  - apply He.
  - intros c Hc. apply He. auto with rink.
Qed.

(** Writing the sector of a data cluster. *)
Lemma data_change s c b :
  state_ok s → data_cluster c → sector_ok b →
  let s' := set_disk (disk_write_sector (fs_disk s) (cluster_to_lba c) b) s in
  state_ok s' ∧ (∀ x, in_fat x → fat s' x = fat s x) ∧ csec s' c = b ∧
  (∀ x, data_cluster x → x ≠ c → csec s' x = csec s x).
Proof.
  intros Hs Hc Hb s'. split; [|split; [|split]].
  - apply state_ok_change; [done | |].
    + apply disk_write_vol_ok; [apply Hs | done | auto with rink].
    + intros lba Hl. apply disk_read_write_ne. intros <-.
      pose proof (cluster_to_lba_data c Hc). destruct Hl; region.
  - intros x Hx. apply fat_read_disk_write; auto with rink.
  - apply disk_read_write_eq.
  - intros x Hx Hne. apply disk_read_write_ne. intros Heq.
    apply Hne. symmetry. by apply cluster_to_lba_inj.
Qed.

Lemma contents_frame s s' chains chains' k :
  root s' = root s →
  (∀ h, k = Some h → chains' !! h = chains !! h) →
  (∀ h cs c, k = Some h → chains !! h = Some cs → c ∈ cs → csec s' c = csec s c) →
  contents s' chains' k = contents s chains k.
Proof.
  intros Hr Hch Hsec. destruct k as [h|]; [|done]. cbn. rewrite (Hch h eq_refl).
  destruct (chains !! h) as [cs|] eqn:Hcs; [|done]. cbn. f_equal. apply map_ext_in.
  intros c Hc%list_elem_of_In. unfold cluster_entries. by erewrite Hsec.
Qed.

Lemma contents_ok s chains k :
  state_ok s → Forall dirent_ok (contents s chains k).
Proof.
  intros Hs. destruct k as [h|]; [|apply Hs]. cbn. apply Forall_concat, Forall_map, Forall_true.
  intros c. unfold cluster_entries, buf_entries. apply Forall_map, Forall_forall.
  intros i Hi%elem_of_seq. destruct (csec_ok s c Hs) as [Hl Hb].
  apply (buf_entry_ok _ 16); [unfold zlen; lia | done | lia].
Qed.

(** The change of one slot, seen from outside: [l] is the new list of the
    directory's entries. *)
Record dir_effect (s s' : fs_state) (chains : gmap Z (list Z)) (k : option Z)
    (l : list fs_dirent) : Prop := {
  de_ok : state_ok s';
  de_fat : ∀ c, in_fat c → fat s' c = fat s c;
  de_contents : contents s' chains k = l;
  de_other : ∀ k', k' ≠ k → contents s' chains k' = contents s chains k';
  de_csec : ∀ c, data_cluster c →
    (∀ h cs, k = Some h → chains !! h = Some cs → c ∉ cs) → csec s' c = csec s c;
  de_cwd : cwd_dir s' = cwd_dir s;
  de_path : cwd_path s' = cwd_path s
}.

Lemma buf_entries_set buf i e :
  sector_ok buf → 0 ≤ i < 16 → dirent_ok e →
  buf_entries (buf_set_entry buf i e) 16 = <[Z.to_nat i := e]> (buf_entries buf 16).
Proof.
  intros [Hl Hb] Hi He. assert (zlen buf = 32 * 16) as Hz by (unfold zlen; lia).
  apply list_eq. intros j. rewrite list_lookup_insert, length_buf_entries.
  destruct (decide (j < 16)%nat) as [Hj|Hj].
  - rewrite !lookup_buf_entries by done. case_decide as Hd.
    + f_equal. destruct Hd as [<- _]. rewrite Z2Nat.id by lia.
      by apply (buf_entry_set_eq _ 16).
    + f_equal. apply (buf_entry_set_ne _ 16); [done | done | lia | lia | done].
  - rewrite decide_False by lia. rewrite !lookup_ge_None_2; [done | |];
      rewrite length_buf_entries; lia.
Qed.

Section dir_write.
Variables (s : fs_state) (chains : gmap Z (list Z)) (dr : dir_ref).
Hypothesis Hs : state_ok s.
Hypothesis Hwf : fat_wf (fat s) chains.

Lemma dir_write_root i e :
  is_root dr = true → (i < length (root s))%nat → dirent_ok e →
  dir_effect s (dir_write_entry s (slot_loc chains dr i) e) chains None (<[i := e]> (root s)).
Proof.
  intros Hdr Hi He. unfold dir_write_entry, slot_loc. rewrite Hdr. cbn [loc_dir].
  rewrite Hdr. cbn [loc_root_index]. unfold zset. rewrite Nat2Z.id.
  set (s1 := set_root _ s).
  assert (Hok : state_ok (root_save s1)).
  { apply root_save_ok; cbn; [apply Hs | | by apply Forall_insert; [apply Hs |] | apply Hs].
    rewrite length_insert. apply Hs. }
  assert (Hsec : ∀ c, data_cluster c → csec (root_save s1) c = csec s c).
  { intros c Hc. unfold csec. rewrite root_save_read, decide_False by auto with rink. done. }
  split; [done | | done | | auto | done | done].
  - intros c Hc. apply fat_read_frame; [done |]. intros lba Hl.
    rewrite root_save_read, decide_False by region. done.
  - intros [h|] Hk; [|done]. cbn. destruct (chains !! h) as [cs|] eqn:Hcs; [|done]. cbn.
    f_equal. apply map_ext_in. intros c Hc%list_elem_of_In. unfold cluster_entries.
    rewrite Hsec; [done |]. by eapply (fw_data _ _ Hwf).
Qed.

Lemma dir_write_sub h cs c i e :
  dkey dr = Some h → chains !! h = Some cs → cs !! (i / 16)%nat = Some c → dirent_ok e →
  dir_effect s (dir_write_entry s (slot_loc chains dr i) e) chains (Some h)
    (<[i := e]> (contents s chains (Some h))).
Proof.
  intros Hk Hcs Hc He.
  assert (Hin : c ∈ cs) by (by eapply list_elem_of_lookup_2).
  assert (Hcd : data_cluster c) by (by eapply (fw_data _ _ Hwf)).
  assert (Hi16 : (i mod 16 < 16)%nat) by (apply Nat.mod_upper_bound; lia).
  unfold dir_write_entry, slot_loc, dkey in *. destruct (is_root dr) eqn:Hdr; [done |].
  injection Hk as Hk. rewrite Hk, Hcs. cbn [default loc_dir]. rewrite Hdr.
  cbn [loc_entry_cluster loc_entry_index]. unfold id.
  rewrite (nth_lookup_Some _ _ _ _ Hc). fold (csec s c).
  set (b := buf_set_entry (csec s c) (Z.of_nat (i mod 16)) e).
  destruct (csec_ok s c Hs) as [Hl Hb].
  assert (zlen (csec s c) = 32 * 16) as Hz by (unfold zlen; lia).
  assert (Hbok : sector_ok b).
  { split; [|by apply buf_set_entry_bytes].
    unfold b. rewrite (buf_set_entry_length _ 16) by (done || lia). done. }
  destruct (data_change s c b Hs Hcd Hbok) as (Hok & Hfat & Hsec & Hother).
  set (s' := set_disk _ s) in *.
  split; [done | done | | | | done | done].
  - cbn. rewrite Hcs. cbn. apply list_eq. intros j.
    rewrite list_lookup_insert.
    rewrite !(lookup_concat_uniform 16) by (lia || apply cluster_entries_uniform).
    rewrite !list_lookup_fmap, (length_concat_uniform 16), length_map
      by apply cluster_entries_uniform.
    assert (Hlt : (i / 16 < length cs)%nat) by (by eapply lookup_lt_Some).
    pose proof (Nat.div_mod_eq i 16). pose proof (Nat.div_mod_eq j 16).
    destruct (cs !! (j / 16)%nat) as [cj|] eqn:Hcj;
      cbn [fmap option_fmap option_map mbind option_bind].
    + assert (Hcjin : cj ∈ cs) by (by eapply list_elem_of_lookup_2).
      unfold cluster_entries. destruct (decide (cj = c)) as [->|Hne].
      * rewrite Hsec. unfold b. rewrite buf_entries_set by (done || lia).
        rewrite list_lookup_insert, length_buf_entries, Nat2Z.id.
        assert (j / 16 = i / 16)%nat as Hq.
        { eapply NoDup_lookup; [|done..]. eapply chain_NoDup, (fw_chain _ _ Hwf); done. }
        repeat case_decide; try done; lia.
      * rewrite Hother by (done || by eapply (fw_data _ _ Hwf)). rewrite decide_False; [done |].
        intros [-> _]. simplify_eq.
    + rewrite decide_False; [done |]. intros [-> _]. simplify_eq.
  - intros k' Hk'. apply contents_frame; [done | done |].
    intros h' cs' c' -> Hcs' Hc'. apply Hother; [by eapply (fw_data _ _ Hwf) |].
    intros ->. apply Hk'. f_equal. by eapply (fw_disj _ _ Hwf).
  - intros x Hx Hxn. apply Hother; [done |]. intros ->. by eapply Hxn.
Qed.

(** Writing slot [i] of a directory replaces entry [i] and nothing else. *)
Lemma dir_write_spec i e :
  good_dir chains (dkey dr) → (i < length (contents s chains (dkey dr)))%nat → dirent_ok e →
  dir_effect s (dir_write_entry s (slot_loc chains dr i) e) chains (dkey dr)
    (<[i := e]> (contents s chains (dkey dr))).
Proof.
  intros Hg Hi He. destruct (dkey dr) as [h|] eqn:Hk.
  - destruct Hg as [cs Hcs]. rewrite (length_contents_sub _ _ _ _ Hcs) in Hi.
    destruct (lookup_lt_is_Some_2 cs (i / 16)) as [c Hc].
    { apply Nat.Div0.div_lt_upper_bound. lia. }
    by eapply dir_write_sub.
  - apply dir_write_root; [|done..]. unfold dkey in Hk. by destruct (is_root dr).
Qed.
End dir_write.

(** ** [dir_find_free] *)

Lemma zero_cluster_entries s c : csec s c = zero_sector → cluster_entries s c = replicate 16 zero_dirent.
Proof. unfold cluster_entries. intros ->. vm_compute. reflexivity. Qed.

Lemma zero_dirent_ok : dirent_ok zero_dirent.
Proof.
  split; first [done | by apply replicate_bytes | by vm_compute].
Qed.

Inductive find_free_spec (s : fs_state) (chains : gmap Z (list Z)) (dr : dir_ref) :
    (entry_loc + unit) * fs_state → Prop :=
| ff_slot i d :
    list_find (λ d, dirent_unused d = true) (contents s chains (dkey dr)) = Some (i, d) →
    find_free_spec s chains dr (inl (slot_loc chains dr i), s)
| ff_full :
    Forall (λ d, dirent_unused d = false) (contents s chains (dkey dr)) →
    dkey dr = None ∨ (∀ c, data_cluster c → fat s c ≠ FS_CLUSTER_FREE) →
    find_free_spec s chains dr (inr tt, s)
| ff_grown h cs n s' :
    Forall (λ d, dirent_unused d = false) (contents s chains (dkey dr)) →
    dkey dr = Some h → chains !! h = Some cs →
    data_cluster n → fat s n = FS_CLUSTER_FREE →
    let chains' := <[h := cs ++ [n]]> chains in
    state_ok s' → fat_wf (fat s') chains' →
    contents s' chains' (Some h) = contents s chains (Some h) ++ replicate 16 zero_dirent →
    (∀ k, k ≠ Some h → contents s' chains' k = contents s chains k) →
    (∀ c, data_cluster c → c ≠ n → csec s' c = csec s c) →
    cwd_dir s' = cwd_dir s → cwd_path s' = cwd_path s →
    find_free_spec s chains dr (inl (slot_loc chains' dr (length cs * 16)), s').

Lemma set_disk_id s : set_disk (fs_disk s) s = s.
Proof. by destruct s. Qed.

Lemma list_find_unused_None l :
  list_find (λ d, dirent_unused d = true) l = None → Forall (λ d, dirent_unused d = false) l.
Proof.
  intros Hf%list_find_None. eapply Forall_impl; [exact Hf |].
  intros d Hd. cbn in Hd. by destruct (dirent_unused d).
Qed.

(** The state after growing: cluster [n] allocated, linked behind [l], zeroed. *)
Lemma grow_effect s chains h cs l n d1 :
  state_ok s → fat_wf (fat s) chains → chains !! h = Some cs → last cs = Some l →
  data_cluster n → fat s n = FS_CLUSTER_FREE →
  fat_effect (fs_disk s) d1 (fupd (fat s) n FS_CLUSTER_EOC) →
  let d2 := fat_write d1 l n in
  let s' := set_disk (disk_write_sector d2 (cluster_to_lba n) zero_sector) s in
  let chains' := <[h := cs ++ [n]]> chains in
  state_ok s' ∧ fat_wf (fat s') chains' ∧ csec s' n = zero_sector ∧
  (∀ c, data_cluster c → c ≠ n → csec s' c = csec s c).
Proof.
  intros Hs Hwf Hcs Hl Hn Hfree He1 d2 s' chains'.
  assert (Hld : data_cluster l).
  { eapply fw_data; [exact Hwf | exact Hcs |]. by apply last_Some_elem_of. }
  assert (He2 : fat_effect (fs_disk s) d2 (fupd (fupd (fat s) n FS_CLUSTER_EOC) l n)).
  { eapply fat_effect_ext; [eapply fat_effect_trans; [exact He1 |] |].
    - apply fat_write_effect; [apply He1 | auto with rink | region].
    - intros c Hc. unfold fupd at 1 2. case_decide; [done |]. by apply He1. }
  destruct (fat_change s d2 _ Hs He2) as (Hok2 & Hfat2 & Hsec2).
  destruct (data_change (set_disk d2 s) n zero_sector Hok2 Hn zero_sector_ok)
    as (Hok & Hfat & Hsec & Hother).
  change (set_disk _ (set_disk d2 s)) with s' in *.
  split; [done |]. split; [|split; [done |]].
  - apply (fat_wf_ext (fupd (fupd (fat s) n FS_CLUSTER_EOC) l n)).
    + by apply fat_wf_extend.
    + intros c Hc. rewrite Hfat, Hfat2 by auto with rink. done.
  - intros c Hc Hne. rewrite Hother by done. by apply Hsec2.
Qed.

Lemma dir_find_free_spec s chains dr :
  state_ok s → fat_wf (fat s) chains → good_dir chains (dkey dr) →
  ∃ r, dir_find_free s dr = Some r ∧ find_free_spec s chains dr r.
Proof.
  intros Hs Hwf Hg. unfold dir_find_free.
  rewrite (dir_find_loop_slots s chains dr Hs Hwf Hg).
  destruct (list_find _ _) as [[i d]|] eqn:Hf.
  { eexists; split; [done |]. by eapply ff_slot. }
  apply list_find_unused_None in Hf. destruct (is_root dr) eqn:Hdr.
  { eexists; split; [done |]. apply ff_full; [done |]. left. unfold dkey. by rewrite Hdr. }
  destruct (dkey dr) as [h|] eqn:Hk; [|unfold dkey in Hk; by rewrite Hdr in Hk].
  destruct Hg as [cs Hcs]. pose proof (fw_chain _ _ Hwf _ _ Hcs) as Hch.
  destruct (last cs) as [l|] eqn:Hl; [|apply last_None in Hl; subst; by inversion Hch].
  rewrite (last_slot_cluster s chains dr h cs l) by done.
  pose proof (fat_alloc_spec _ (so_vol s Hs)) as Ha. rewrite <- Hk in Hf.
  inversion Ha as [Hfull Heq|n d1 Hn Hfree _ He1 Heq].
  - cbn. eexists; split; [done |]. rewrite set_disk_id. apply ff_full; [done |]. by right.
  - destruct (Z.eqb_spec n 0) as [->|_]; [region |]. eexists; split; [done |].
    destruct (grow_effect s chains h cs l n d1) as (Hok & Hwf' & Hsec & Hother); try done.
    replace (mk_loc dr 0 n 0) with (slot_loc (<[h:=cs ++ [n]]> chains) dr (length cs * 16)).
    2:{ unfold slot_loc. unfold dkey in Hk. rewrite Hdr in *. injection Hk as ->.
        rewrite lookup_insert_eq, Nat.div_mul, Nat.Div0.mod_mul by lia. cbn [default]. unfold id.
        by rewrite app_nth2, Nat.sub_diag by lia. }
    eapply ff_grown; try done.
    + cbn. rewrite lookup_insert_eq, Hcs. cbn. rewrite map_app, concat_app. f_equal.
      * f_equal. apply map_ext_in. intros c Hc%list_elem_of_In. unfold cluster_entries.
        rewrite Hother; [done | by eapply (fw_data _ _ Hwf) |]. intros ->.
        by destruct (fw_fresh_notin _ _ Hwf n h cs).
      * cbn [map concat]. rewrite app_nil_r. by apply zero_cluster_entries.
    + intros k Hne. apply contents_frame; [done | |].
      * intros h' ->. apply lookup_insert_ne. congruence.
      * intros h' cs' c -> Hcs' Hc. apply Hother; [by eapply (fw_data _ _ Hwf) |]. intros ->.
        by destruct (fw_fresh_notin _ _ Hwf n h' cs').
Qed.
