(* ===== verification/Path.v ===== *)
(** * Paths of [kernel/fs.c]: the display path of the current directory, path
    walking, and the split into parent directory and leaf. *)
From S2P Require Import Prelude FsLayout Disk Dirent Fat Directory.

(** [while (disp[i] && len < buf_len - 1) path_buf[len++] = disp[i++];] *)
Fixpoint append_disp (disp : cstr) (path_buf : cstr) (buf_len : Z) : cstr :=
  match disp with
  | [] => path_buf
  | c :: disp' =>
      if negb (c =? 0) && (zlen path_buf <? buf_len - 1)
      then append_disp disp' (path_buf ++ [c]) buf_len
      else path_buf
  end.

Definition path_append (path_buf : cstr) (buf_len : Z) (entry : fs_dirent) : cstr :=
  let len := strlen path_buf in
  let path_buf := ztake len path_buf in
  let disp := dirent_to_display entry in
  let path_buf :=
    if (1 <? len) || ((len =? 1) && negb (znth path_buf 0 =? 47)) then
      if len <? buf_len - 1 then path_buf ++ [47] else path_buf
    else if len =? 0 then
      if len <? buf_len - 1 then path_buf ++ [47] else path_buf
    else path_buf in
  append_disp disp path_buf buf_len.

(** [while (len > 0 && path_buf[len] != '/') len--;] *)
Fixpoint trim_loop (len : nat) (path_buf : cstr) : nat :=
  match len with
  | O => O
  | S len' => if znth path_buf (Z.of_nat len) =? 47 then len else trim_loop len' path_buf
  end.

Definition path_trim_last (path_buf : cstr) : cstr :=
  let len := strlen path_buf in
  if len <=? 1 then ztake len path_buf
  else
    let len := trim_loop (Z.to_nat (len - 1)) path_buf in
    let len := if (len =? 0)%nat then 1%nat else len in
    take len path_buf.

(** The component copied by
    [while (p[i] && p[i] != '/' && i < FS_COMPONENT_LEN - 1)]. *)
Fixpoint take_comp (p : cstr) (i : Z) : cstr :=
  match p with
  | [] => []
  | c :: p' =>
      if negb (c =? 0) && negb (c =? 47) && (i <? FS_COMPONENT_LEN - 1)
      then c :: take_comp p' (i + 1) else []
  end.

(** [while ( *p == '/') p++;] *)
Fixpoint skip_slashes (p : cstr) : cstr :=
  match p with
  | c :: p' => if c =? 47 then skip_slashes p' else p
  | [] => []
  end.

(** The main loop of [walk_path].  Every iteration consumes a character, so
    the length of the path is enough fuel; [None] when fuel runs out or a
    directory scan does not end.  Otherwise the return code, [*dir] and
    [path_buf] ([None] for NULL). *)
Fixpoint walk_loop (fuel : nat) (s : fs_state) (p : cstr) (dir : dir_ref)
    (path_buf : option cstr) (path_buf_len : Z) : option (Z * dir_ref * option cstr) :=
  if strlen p =? 0 then Some (0, dir, path_buf)
  else
    match fuel with
    | O => None
    | S fuel' =>
        let comp := take_comp p 0 in
        let p := skip_slashes (drop (length comp) p) in
        if (strlen comp =? 0) || str_eq_local comp (str ".")
        then walk_loop fuel' s p dir path_buf path_buf_len
        else if str_eq_local comp (str "..") then
          if negb (is_root dir) then
            match dir_scan s dir DOTDOT_NAME EMPTY_EXT with
            | None => None
            | Some r =>
                let dir :=
                  match r with
                  | Some (e, _) =>
                      if d_first_cluster e =? 0 then mk_dir true (dir_cluster dir)
                      else mk_dir false (d_first_cluster e)
                  | None => dir
                  end in
                walk_loop fuel' s p dir (path_trim_last <$> path_buf) path_buf_len
            end
          else walk_loop fuel' s p dir (path_trim_last <$> path_buf) path_buf_len
        else
          let '(n, e3) := split_name comp in
          match dir_scan s dir n e3 with
          | None => None
          | Some None => Some (-1, dir, path_buf)
          | Some (Some (entry, _)) =>
              if Z.land (d_attr entry) FS_ATTR_DIRECTORY =? 0
              then Some (-1, dir, path_buf)
              else
                walk_loop fuel' s p (mk_dir false (d_first_cluster entry))
                  ((λ b, path_append b path_buf_len entry) <$> path_buf) path_buf_len
          end
    end.

Definition walk_path (s : fs_state) (path : cstr) (dir : dir_ref)
    (path_buf : option cstr) (path_buf_len : Z) : option (Z * dir_ref * option cstr) :=
  if znth path 0 =? 47
  then walk_loop (length path) s (tail path) (mk_dir true 0)
         ((λ _, [47]) <$> path_buf) path_buf_len
  else walk_loop (length path) s path dir path_buf path_buf_len.

(** The scan for the last slash: [last_slash] and [len] at the end of
    [while (path[len]) { if (path[len] == '/') last_slash = len; len++; }]. *)
Fixpoint last_slash_loop (path : cstr) (len last_slash : Z) : Z :=
  match path with
  | [] => last_slash
  | c :: path' =>
      if c =? 0 then last_slash
      else last_slash_loop path' (len + 1) (if c =? 47 then len else last_slash)
  end.

(** [sizeof(dirpart)] *)
Definition DIRPART_LEN : Z := 96.

(** [Some None] for [return -1], [Some (Some (dir, leaf))] for [return 0]. *)
Definition resolve_parent (s : fs_state) (path : cstr) : option (option (dir_ref * cstr)) :=
  if znth path 0 =? 0 then Some None
  else
    let last_slash := last_slash_loop path 0 (-1) in
    if last_slash <? 0
    then Some (Some (cwd_dir s, str_copy_n path FS_COMPONENT_LEN))
    else
      let leaf := str_copy_n (zdrop (last_slash + 1) path) FS_COMPONENT_LEN in
      let dl := last_slash + 1 in
      let dl := if DIRPART_LEN - 1 <? dl then DIRPART_LEN - 1 else dl in
      match walk_path s (ztake dl path) (cwd_dir s) None 0 with
      | None => None
      | Some (rc, d, _) => if rc <? 0 then Some None else Some (Some (d, leaf))
      end.
