(* ===== verification/Fs.v ===== *)
(** * The public operations of [kernel/fs.c]: formatting and mounting, files,
    directories, listing and statistics. *)
From S2P Require Import Prelude Console FsLayout Disk Dirent Fat Directory Path.

(** ** [fs_init] *)

(** [for (i = 0; i < n; i++) buf[off + i] = bytes[i]] at a constant offset, and
    a little-endian store of [n] bytes. *)
Fixpoint put_bytes (buf : list Z) (off : Z) (bytes : list Z) : list Z :=
  match bytes with
  | [] => buf
  | b :: bytes' => put_bytes (zset buf off b) (off + 1) bytes'
  end.

(** The same loop where offset and number depend on data: [None] when it
    leaves the buffer. *)
Fixpoint copy_bytes (buf : list Z) (off : Z) (bytes : list Z) : option (list Z) :=
  match bytes with
  | [] => Some buf
  | b :: bytes' =>
      match zstore buf off b with
      | None => None
      | Some buf => copy_bytes buf (off + 1) bytes'
      end
  end.

Definition put16 (buf : list Z) (off v : Z) : list Z := put_bytes buf off (le_split 2 (u16 v)).
Definition put32 (buf : list Z) (off v : Z) : list Z := put_bytes buf off (le_split 4 (u32 v)).

(** The boot sector / BPB that formatting writes. *)
Definition boot_sector : sector :=
  let buf := replicate (Z.to_nat FS_BYTES_PER_SECTOR) 0 in
  let buf := put_bytes buf 0 [0xEB; 0x3C; 0x90] in
  let buf := put_bytes buf 3 (str "RINKOS  ") in
  let buf := put16 buf 11 FS_BYTES_PER_SECTOR in
  let buf := zset buf 13 FS_SECTORS_PER_CLUSTER in
  let buf := put16 buf 14 (FS_FAT1_LBA - FS_BOOT_LBA) in
  let buf := zset buf 16 FS_NUM_FATS in
  let buf := put16 buf 17 FS_ROOT_ENTRIES in
  let buf := put16 buf 19 (FS_IMAGE_TOTAL_SECTORS - FS_VOL_START_LBA) in
  let buf := zset buf 21 0xF8 in
  let buf := put16 buf 22 FS_FAT_SIZE_SECTORS in
  let buf := put16 buf 24 0 in
  let buf := put16 buf 26 0 in
  let buf := put32 buf 28 FS_VOL_START_LBA in
  let buf := put32 buf 32 0 in
  let buf := zset buf 36 0x80 in
  let buf := zset buf 37 0 in
  let buf := zset buf 38 0x29 in
  let buf := put32 buf 39 0x52494E4B in
  let buf := put_bytes buf 43 (str "RINKOS FS  ") in
  put_bytes buf 54 marker.

(** [n] sectors of each FAT copy are left to clear, from sector [s]. *)
Fixpoint zero_fats_loop (n : nat) (s : Z) (buf : sector) (d : disk) : disk :=
  match n with
  | O => d
  | S n' =>
      let d := disk_write_sector d (FS_FAT1_LBA + s) buf in
      let d := disk_write_sector d (FS_FAT2_LBA + s) buf in
      zero_fats_loop n' (s + 1) buf d
  end.

(** The three stores that clear a root entry when formatting. *)
Definition clear_entry (e : fs_dirent) : fs_dirent :=
  set_extent 0 0 (set_name0 FS_DIRENT_FREE e).

Definition fs_init (st : fs_state) : fs_state :=
  let buf := disk_read_sector (fs_disk st) FS_BOOT_LBA in
  let formatted := marker_loop 8 0 buf in
  let st :=
    if negb formatted then
      let d := disk_write_sector (fs_disk st) FS_BOOT_LBA boot_sector in
      let zeros := replicate (Z.to_nat FS_BYTES_PER_SECTOR) 0 in
      let d := zero_fats_loop (Z.to_nat FS_FAT_SIZE_SECTORS) 0 zeros d in
      let d := fat_write d 0 FS_CLUSTER_BAD in
      let d := fat_write d 1 FS_CLUSTER_EOC in
      root_save (set_root (map clear_entry (root st)) (set_disk d st))
    else root_load st in
  set_cwd true 0 [47] st.

(** ** Creating *)

(** A fresh entry, all fields assigned. *)
Definition new_dirent (n e : list Z) (attr first size : Z) : fs_dirent :=
  mk_dirent n e attr (replicate 10 0) 0 0 first size.

(** The operations return [None] when a loop does not end, and otherwise the
    C return value with the new state. *)
Definition fs_create (s : fs_state) (path : cstr) : option (Z * fs_state) :=
  match resolve_parent s path with
  | None => None
  | Some None => Some (-1, s)
  | Some (Some (parent, leaf)) =>
      if znth leaf 0 =? 0 then Some (-1, s)
      else
        let '(n, e) := split_name leaf in
        match dir_scan s parent n e with
        | None => None
        | Some (Some _) => Some (-1, s)
        | Some None =>
            match dir_find_free s parent with
            | None => None
            | Some (inr _, s) => Some (-1, s)
            | Some (inl loc, s) =>
                let d := new_dirent n e FS_ATTR_NORMAL 0 0 in
                Some (0, dir_write_entry s loc d)
            end
        end
  end.

(** The common head of [fs_write] and [fs_append]: find the entry, creating
    the file if it does not exist.  [inl] carries the early [return]. *)
Definition open_or_create (s : fs_state) (path : cstr) (parent : dir_ref) (n e : list Z) :
    option ((Z * fs_state) + (fs_dirent * entry_loc * fs_state)) :=
  match dir_scan s parent n e with
  | None => None
  | Some (Some (d, loc)) => Some (inr (d, loc, s))
  | Some None =>
      match fs_create s path with
      | None => None
      | Some (rc, s) =>
          if rc <? 0 then Some (inl (-1, s))
          else
            match dir_scan s parent n e with
            | None => None
            | Some None => Some (inl (-1, s))
            | Some (Some (d, loc)) => Some (inr (d, loc, s))
            end
      end
  end.

(** ** Writing *)

(** [sector_buf] zeroed, then [chunk] bytes of [data] copied to its front. *)
Definition fill_sector (data : list Z) (written chunk : Z) : option sector :=
  let sector_buf := replicate (Z.to_nat FS_BYTES_PER_SECTOR) 0 in
  copy_bytes sector_buf 0 (ztake chunk (zdrop written data)).

(** The cluster loop of [fs_write]; [n] clusters are left.  [inl d first] is
    the disk-full exit, with the clusters taken so far. *)
Fixpoint write_loop (n : nat) (d : disk) (data : list Z) (size written first prev : Z) :
    option ((disk * Z) + (disk * Z)) :=
  match n with
  | O => Some (inr (d, first))
  | S n' =>
      let '(c, d) := fat_alloc_cluster d in
      if c =? 0 then Some (inl (d, first))
      else
        let '(first, d) := if first =? 0 then (c, d) else (first, fat_write d prev c) in
        let prev := c in
        let remaining := u32 (size - written) in
        let chunk := if remaining <? FS_BYTES_PER_SECTOR then remaining
                     else FS_BYTES_PER_SECTOR in
        match fill_sector data written chunk with
        | None => None
        | Some sector_buf =>
            let d := disk_write_sector d (cluster_to_lba c) sector_buf in
            write_loop n' d data size (u32 (written + chunk)) first prev
        end
  end.

Definition fs_write (s : fs_state) (path : cstr) (data : list Z) (size : Z) :
    option (Z * fs_state) :=
  match resolve_parent s path with
  | None => None
  | Some None => Some (-1, s)
  | Some (Some (parent, leaf)) =>
      if znth leaf 0 =? 0 then Some (-1, s)
      else
        let '(n, e) := split_name leaf in
        match open_or_create s path parent n e with
        | None => None
        | Some (inl r) => Some r
        | Some (inr (d, loc, s)) =>
            if negb (Z.land (d_attr d) FS_ATTR_DIRECTORY =? 0) then Some (-1, s)
            else
              match (if negb (d_first_cluster d =? 0)
                     then fat_free_chain (fs_disk s) (d_first_cluster d)
                     else Some (fs_disk s)) with
              | None => None
              | Some dk =>
                  let d := set_extent 0 0 d in
                  if size =? 0 then Some (0, dir_write_entry (set_disk dk s) loc d)
                  else
                    let clusters_needed :=
                      u32 (size + FS_BYTES_PER_SECTOR - 1) / FS_BYTES_PER_SECTOR in
                    match write_loop (Z.to_nat clusters_needed) dk data size 0 0 0 with
                    | None => None
                    | Some (inl (dk, first)) =>
                        match (if negb (first =? 0) then fat_free_chain dk first
                               else Some dk) with
                        | None => None
                        | Some dk => Some (-1, dir_write_entry (set_disk dk s) loc d)
                        end
                    | Some (inr (dk, first)) =>
                        Some (0, dir_write_entry (set_disk dk s) loc (set_extent first size d))
                    end
              end
        end
  end.

(** ** Reading *)

(** [n] sectors are left; [out] is what [buffer] holds so far. *)
Fixpoint read_loop (n : nat) (d : disk) (c size written : Z) (out : list Z) : list Z * Z :=
  match n with
  | O => (out, written)
  | S n' =>
      if (c <? FS_FIRST_DATA_CLUSTER) || (FS_CLUSTER_EOC_MIN <=? c) then (out, written)
      else
        let sector_buf := disk_read_sector d (cluster_to_lba c) in
        let remaining := u32 (size - written) in
        let chunk := if remaining <? FS_BYTES_PER_SECTOR then remaining
                     else FS_BYTES_PER_SECTOR in
        read_loop n' d (fat_read d c) size (u32 (written + chunk))
          (out ++ ztake chunk sector_buf)
  end.

(** The return code, the bytes stored in [buffer] and [*out_size]; on -1 the code
    stores nothing in either, which is [[]] and 0 here. *)
Definition fs_read (s : fs_state) (path : cstr) (max_size : Z) : option (Z * list Z * Z) :=
  match resolve_parent s path with
  | None => None
  | Some None => Some (-1, [], 0)
  | Some (Some (parent, leaf)) =>
      let '(n, e) := split_name leaf in
      match dir_scan s parent n e with
      | None => None
      | Some None => Some (-1, [], 0)
      | Some (Some (d, _)) =>
          if negb (Z.land (d_attr d) FS_ATTR_DIRECTORY =? 0) then Some (-1, [], 0)
          else
            let size := d_file_size d in
            let size := if max_size <? size then max_size else size in
            let sectors_needed :=
              u32 (size + FS_BYTES_PER_SECTOR - 1) / FS_BYTES_PER_SECTOR in
            let '(out, written) :=
              read_loop (Z.to_nat sectors_needed) (fs_disk s) (d_first_cluster d) size 0 [] in
            Some (0, out, written)
      end
  end.

(** ** Deleting *)

Definition fs_delete (s : fs_state) (path : cstr) : option (Z * fs_state) :=
  match resolve_parent s path with
  | None => None
  | Some None => Some (-1, s)
  | Some (Some (parent, leaf)) =>
      let '(n, e) := split_name leaf in
      match dir_scan s parent n e with
      | None => None
      | Some None => Some (-1, s)
      | Some (Some (d, loc)) =>
          if negb (Z.land (d_attr d) FS_ATTR_DIRECTORY =? 0) then Some (-1, s)
          else
            match (if negb (d_first_cluster d =? 0)
                   then fat_free_chain (fs_disk s) (d_first_cluster d)
                   else Some (fs_disk s)) with
            | None => None
            | Some dk =>
                let d := set_extent 0 0 (set_name0 FS_DIRENT_DELETED d) in
                Some (0, dir_write_entry (set_disk dk s) loc d)
            end
      end
  end.

(** ** Appending *)

(** The cluster loop of [fs_append].  Every round writes at least one byte, so
    [extra_size] rounds are enough; [None] when fuel runs out or a store leaves the
    sector buffer.  [inl] is the
    disk-full exit, [inr] the normal one, both with the disk, [first] and
    [written]. *)
Fixpoint append_loop (fuel : nat) (d : disk) (data : list Z) (extra_size written first prev : Z) :
    option ((disk * Z * Z) + (disk * Z * Z)) :=
  if negb (written <? extra_size) then Some (inr (d, first, written))
  else
    match fuel with
    | O => None
    | S fuel' =>
        let '(c, d) := fat_alloc_cluster d in
        if c =? 0 then Some (inl (d, first, written))
        else
          let '(first, d) :=
            if first =? 0 then (c, d)
            else (first, if negb (prev =? 0) then fat_write d prev c else d) in
          let prev := c in
          let remaining := u32 (extra_size - written) in
          let chunk := if remaining <? FS_BYTES_PER_SECTOR then remaining
                       else FS_BYTES_PER_SECTOR in
          match fill_sector data written chunk with
          | None => None
          | Some sector_buf =>
              let d := disk_write_sector d (cluster_to_lba c) sector_buf in
              append_loop fuel' d data extra_size (u32 (written + chunk)) first prev
          end
    end.

(** The part of [fs_append] that fills the last, partly used cluster: the disk,
    [prev] and [written], or [Some None] for the corrupt-chain [return -1];
    [None] is a store outside the sector buffer. *)
Definition append_tail (d : disk) (data : list Z) (extra_size cur first : Z) :
    option (option (disk * Z * Z)) :=
  if 0 <? cur then
    let last_index := (cur - 1) / FS_BYTES_PER_SECTOR in
    let prev := cluster_at_index d first last_index in
    if prev =? 0 then Some None
    else
      let offset_in_cluster := cur mod FS_BYTES_PER_SECTOR in
      if negb (offset_in_cluster =? 0) then
        let sector_buf := disk_read_sector d (cluster_to_lba prev) in
        let space := FS_BYTES_PER_SECTOR - offset_in_cluster in
        let chunk := if extra_size <? space then extra_size else space in
        match copy_bytes sector_buf offset_in_cluster (ztake chunk data) with
        | None => None
        | Some sector_buf =>
            Some (Some (disk_write_sector d (cluster_to_lba prev) sector_buf, prev, chunk))
        end
      else Some (Some (d, prev, 0))
  else Some (Some (d, 0, 0)).

Definition fs_append (s : fs_state) (path : cstr) (data : list Z) (extra_size : Z) :
    option (Z * fs_state) :=
  match resolve_parent s path with
  | None => None
  | Some None => Some (-1, s)
  | Some (Some (parent, leaf)) =>
      if znth leaf 0 =? 0 then Some (-1, s)
      else
        let '(n, e) := split_name leaf in
        match open_or_create s path parent n e with
        | None => None
        | Some (inl r) => Some r
        | Some (inr (d, loc, s)) =>
            if negb (Z.land (d_attr d) FS_ATTR_DIRECTORY =? 0) then Some (-1, s)
            else if extra_size =? 0 then Some (0, s)
            else
              let cur := d_file_size d in
              let first := d_first_cluster d in
              match append_tail (fs_disk s) data extra_size cur first with
              | None => None
              | Some None => Some (-1, s)
              | Some (Some (dk, prev, written)) =>
                  match append_loop (Z.to_nat extra_size) dk data extra_size written first prev with
                  | None => None
                  | Some (inl (dk, first, written)) =>
                      Some (-1, dir_write_entry (set_disk dk s) loc
                                  (set_extent first (u32 (cur + written)) d))
                  | Some (inr (dk, first, written)) =>
                      Some (0, dir_write_entry (set_disk dk s) loc
                                 (set_extent first (u32 (cur + written)) d))
                  end
              end
        end
  end.

(** ** Renaming and [stat] *)

Definition fs_rename (s : fs_state) (old_path new_path : cstr) : option (Z * fs_state) :=
  match resolve_parent s old_path with
  | None => None
  | Some None => Some (-1, s)
  | Some (Some (old_parent, old_leaf)) =>
      let '(on, oe) := split_name old_leaf in
      match dir_scan s old_parent on oe with
      | None => None
      | Some None => Some (-1, s)
      | Some (Some (d, loc)) =>
          match resolve_parent s new_path with
          | None => None
          | Some None => Some (-1, s)
          | Some (Some (new_parent, new_leaf)) =>
              if znth new_leaf 0 =? 0 then Some (-1, s)
              else
                let '(nn, ne) := split_name new_leaf in
                if negb (Bool.eqb (is_root new_parent) (is_root old_parent))
                   || negb (dir_cluster new_parent =? dir_cluster old_parent)
                then Some (-1, s)
                else
                  match dir_scan s new_parent nn ne with
                  | None => None
                  | Some (Some _) => Some (-1, s)
                  | Some None => Some (0, dir_write_entry s loc (set_name nn ne d))
                  end
          end
      end
  end.

(** The return code and [*out_size]. *)
Definition fs_stat (s : fs_state) (path : cstr) : option (Z * Z) :=
  match resolve_parent s path with
  | None => None
  | Some None => Some (-1, 0)
  | Some (Some (parent, leaf)) =>
      let '(n, e) := split_name leaf in
      match dir_scan s parent n e with
      | None => None
      | Some None => Some (-1, 0)
      | Some (Some (d, _)) => Some (0, d_file_size d)
      end
  end.

(** ** Directories *)

Definition leaf_is_dots (leaf : cstr) : bool :=
  str_eq_local leaf (str ".") || str_eq_local leaf (str "..").

Definition fs_mkdir (s : fs_state) (path : cstr) : option (Z * fs_state) :=
  match resolve_parent s path with
  | None => None
  | Some None => Some (-1, s)
  | Some (Some (parent, leaf)) =>
      if znth leaf 0 =? 0 then Some (-1, s)
      else if leaf_is_dots leaf then Some (-1, s)
      else
        let '(n, e) := split_name leaf in
        match dir_scan s parent n e with
        | None => None
        | Some (Some _) => Some (-1, s)
        | Some None =>
            let '(new_cluster, d) := fat_alloc_cluster (fs_disk s) in
            if new_cluster =? 0 then Some (-1, set_disk d s)
            else
              let buf := replicate (Z.to_nat FS_BYTES_PER_SECTOR) 0 in
              let d := disk_write_sector d (cluster_to_lba new_cluster) buf in
              let s := set_disk d s in
              let dot := new_dirent DOT_NAME EMPTY_EXT FS_ATTR_DIRECTORY new_cluster 0 in
              let dotdot :=
                set_extent (if is_root parent then 0 else dir_cluster parent) 0
                  (set_name DOTDOT_NAME EMPTY_EXT dot) in
              let loc0 := mk_loc (mk_dir false new_cluster) 0 new_cluster 0 in
              let loc1 := mk_loc (mk_dir false new_cluster) 0 new_cluster 1 in
              let s := dir_write_entry s loc0 dot in
              let s := dir_write_entry s loc1 dotdot in
              match dir_find_free s parent with
              | None => None
              | Some (inr _, s) =>
                  match fat_free_chain (fs_disk s) new_cluster with
                  | None => None
                  | Some d => Some (-1, set_disk d s)
                  end
              | Some (inl free_loc, s) =>
                  let new_entry := new_dirent n e FS_ATTR_DIRECTORY new_cluster 0 in
                  Some (0, dir_write_entry s free_loc new_entry)
              end
        end
  end.

(** The emptiness check of [fs_rmdir]: [Some false] for [return -1]. *)
Fixpoint rmdir_loop (fuel : nat) (s : fs_state) (it : dir_iter) : option bool :=
  match fuel with
  | O => None
  | S fuel' =>
      match dir_iter_next s it with
      | (_, None) => Some true
      | (it', Some (e2, _)) =>
          if dirent_unused e2 then rmdir_loop fuel' s it'
          else if fields_eq (d_name e2) DOT_NAME 8 then rmdir_loop fuel' s it'
          else if fields_eq (d_name e2) DOTDOT_NAME 8 then rmdir_loop fuel' s it'
          else Some false
      end
  end.

Definition fs_rmdir (s : fs_state) (path : cstr) : option (Z * fs_state) :=
  match resolve_parent s path with
  | None => None
  | Some None => Some (-1, s)
  | Some (Some (parent, leaf)) =>
      if znth leaf 0 =? 0 then Some (-1, s)
      else if leaf_is_dots leaf then Some (-1, s)
      else
        let '(n, e) := split_name leaf in
        match dir_scan s parent n e with
        | None => None
        | Some None => Some (-1, s)
        | Some (Some (d, loc)) =>
            if Z.land (d_attr d) FS_ATTR_DIRECTORY =? 0 then Some (-1, s)
            else
              let target := mk_dir false (d_first_cluster d) in
              let cur := cwd_dir s in
              if negb (is_root cur) && (dir_cluster cur =? dir_cluster target)
              then Some (-1, s)
              else
                match rmdir_loop ITER_FUEL s (dir_iter_start target) with
                | None => None
                | Some false => Some (-1, s)
                | Some true =>
                    match fat_free_chain (fs_disk s) (d_first_cluster d) with
                    | None => None
                    | Some dk =>
                        let d := set_extent 0 0 (set_name0 FS_DIRENT_DELETED d) in
                        Some (0, dir_write_entry (set_disk dk s) loc d)
                    end
                end
        end
  end.

(** [sizeof(cwd_path)] *)
Definition CWD_PATH_LEN : Z := 128.

Definition fs_chdir (s : fs_state) (path : cstr) : option (Z * fs_state) :=
  let d := cwd_dir s in
  let buf := str_copy_n (cwd_path s) CWD_PATH_LEN in
  match walk_path s path d (Some buf) CWD_PATH_LEN with
  | None => None
  | Some (rc, d, buf) =>
      if rc <? 0 then Some (-1, s)
      else
        Some (0, set_cwd (is_root d) (dir_cluster d)
                   (str_copy_n (default [] buf) CWD_PATH_LEN) s)
  end.

Definition fs_getcwd (s : fs_state) (max_len : Z) : cstr :=
  str_copy_n (cwd_path s) (i32 max_len).

(** ** Listing and statistics *)

(** What one listed entry prints. *)
Definition list_line (e : fs_dirent) : cstr :=
  str "  " ++ printed (dirent_to_display e) ++
  (if negb (Z.land (d_attr e) FS_ATTR_DIRECTORY =? 0)
   then str "  <DIR>" ++ [10]
   else str "  (" ++ kprint_hex32 (d_file_size e) ++ str " bytes)" ++ [10]).

(** The loop of [fs_list]: the text printed and [any]. *)
Fixpoint list_loop (fuel : nat) (s : fs_state) (it : dir_iter) (out : cstr) (any : bool) :
    option (cstr * bool) :=
  match fuel with
  | O => None
  | S fuel' =>
      match dir_iter_next s it with
      | (_, None) => Some (out, any)
      | (it', Some (e, _)) =>
          if dirent_unused e then list_loop fuel' s it' out any
          else if fields_eq (d_name e) DOT_NAME 8 then list_loop fuel' s it' out any
          else if fields_eq (d_name e) DOTDOT_NAME 8 then list_loop fuel' s it' out any
          else list_loop fuel' s it' (out ++ list_line e) true
      end
  end.

Definition fs_list (s : fs_state) : option cstr :=
  match list_loop ITER_FUEL s (dir_iter_start (cwd_dir s)) [] false with
  | None => None
  | Some (out, any) => Some (if any then out else out ++ str "  (empty)" ++ [10])
  end.

(** The counting loops of [fs_debug_stats]. *)
Fixpoint used_loop (n : nat) (i : Z) (r : list fs_dirent) (used : Z) : Z :=
  match n with
  | O => used
  | S n' =>
      let first := znth (d_name (root_at r i)) 0 in
      used_loop n' (i + 1) r
        (if negb (first =? FS_DIRENT_FREE) && negb (first =? FS_DIRENT_DELETED)
         then u32 (used + 1) else used)
  end.

Fixpoint free_loop (n : nat) (c : Z) (d : disk) (free : Z) : Z :=
  match n with
  | O => free
  | S n' =>
      free_loop n' (u16 (c + 1)) d
        (if fat_read d c =? FS_CLUSTER_FREE then u32 (free + 1) else free)
  end.

(** [root_entries_used], [free_clusters] and [total_clusters]. *)
Definition fs_debug_stats (s : fs_state) : Z * Z * Z :=
  (used_loop (Z.to_nat FS_ROOT_ENTRIES) 0 (root s) 0,
   free_loop (Z.to_nat FS_TOTAL_DATA_CLUSTERS) FS_FIRST_DATA_CLUSTER (fs_disk s) 0,
   FS_TOTAL_DATA_CLUSTERS).

(** The state at power-on: the statics of fs.c in zeroed memory. *)
Definition fs_boot (d : disk) : fs_state :=
  mk_fs d (replicate (Z.to_nat FS_ROOT_ENTRIES) zero_dirent) true 0 [47].
