(* ===== verification/Tree.v ===== *)
(** * The volume invariant: a tree of directories and files over disjoint
    cluster chains, and the elementary transitions that preserve it. *)
From S2P Require Import Prelude FsLayout Disk Dirent Fat ChainMap Directory RootDir DirView Fs.

(** ** The invariant

    A volume holds a set [dirs] of subdirectories (by first cluster).  In the
    middle of an operation one slot may be a [hole] (its entry is about to be
    rewritten and points nowhere meaningful) and one chain may be pending (it
    is allocated but no entry refers to it yet). *)

Definition dir_in (dirs : gset Z) (k : option Z) : Prop :=
  match k with None => True | Some h => h ∈ dirs end.

(** Key of the directory that a ".." entry names by first cluster. *)
Definition pkey (p : Z) : option Z := if p =? 0 then None else Some p.

Definition is_directory (d : fs_dirent) : bool :=
  negb (Z.land (d_attr d) FS_ATTR_DIRECTORY =? 0).

(** An entry in use other than "." and "..": user names never start with a
    dot. *)
Definition plain (d : fs_dirent) : Prop :=
  dirent_unused d = false ∧ znth (d_name d) 0 ≠ 46.

Definition dot_entry (h : Z) : fs_dirent := new_dirent DOT_NAME EMPTY_EXT FS_ATTR_DIRECTORY h 0.
Definition dotdot_entry (p : Z) : fs_dirent :=
  new_dirent DOTDOT_NAME EMPTY_EXT FS_ATTR_DIRECTORY p 0.

(** Number of clusters that hold [size] bytes. *)
Definition clusters_for (size : Z) : Z := (size + 511) / 512.

Definition entry_ok (chains : gmap Z (list Z)) (dirs : gset Z) (d : fs_dirent) : Prop :=
  if is_directory d then d_first_cluster d ∈ dirs
  else (d_first_cluster d = 0 ∧ d_file_size d = 0) ∨
       (∃ cs, chains !! d_first_cluster d = Some cs ∧ (d_first_cluster d ∉ dirs) ∧
              0 < d_file_size d ∧ zlen cs = clusters_for (d_file_size d)).

Definition plain_at (s : fs_state) (chains : gmap Z (list Z)) (dirs : gset Z)
    (k : option Z) (i : nat) (d : fs_dirent) : Prop :=
  dir_in dirs k ∧ contents s chains k !! i = Some d ∧ plain d.

Definition slot_in (s : fs_state) (chains : gmap Z (list Z)) (dirs : gset Z)
    (hole : option (option Z * nat)) (k : option Z) (i : nat) (d : fs_dirent) : Prop :=
  plain_at s chains dirs k i d ∧ hole ≠ Some (k, i).

Record vol_tree (s : fs_state) (chains : gmap Z (list Z)) (dirs : gset Z)
    (hole : option (option Z * nat)) (pend : option Z) : Prop := {
  vt_state : state_ok s;
  vt_fat : fat_wf (fat s) chains;
  vt_dirs : ∀ h, h ∈ dirs → is_Some (chains !! h);
  vt_cwd : dir_in dirs (dkey (cwd_dir s));
  vt_dots : ∀ h, h ∈ dirs → ∃ p j d,
    contents s chains (Some h) !! 0%nat = Some (dot_entry h) ∧
    contents s chains (Some h) !! 1%nat = Some (dotdot_entry p) ∧
    slot_in s chains dirs hole (pkey p) j d ∧ d_first_cluster d = h;
  vt_entry : ∀ k i d, slot_in s chains dirs hole k i d → entry_ok chains dirs d;
  vt_uniq : ∀ k1 i1 d1 k2 i2 d2,
    slot_in s chains dirs hole k1 i1 d1 → slot_in s chains dirs hole k2 i2 d2 →
    d_first_cluster d1 = d_first_cluster d2 → d_first_cluster d1 ≠ 0 → (k1, i1) = (k2, i2);
  vt_names : ∀ k i1 d1 i2 d2,
    plain_at s chains dirs k i1 d1 → plain_at s chains dirs k i2 d2 →
    d_name d1 = d_name d2 → d_ext d1 = d_ext d2 → i1 = i2;
  vt_owner : ∀ h, is_Some (chains !! h) →
    pend = Some h ∨ ∃ k i d, slot_in s chains dirs hole k i d ∧ d_first_cluster d = h;
  vt_pend : ∀ h, pend = Some h →
    is_Some (chains !! h) ∧ (h ∉ dirs) ∧
    ∀ k i d, slot_in s chains dirs hole k i d → d_first_cluster d ≠ h
}.

(** The invariant between operations. *)
Definition tree_ok (s : fs_state) (chains : gmap Z (list Z)) (dirs : gset Z) : Prop :=
  vol_tree s chains dirs None None.

Definition fs_ok (s : fs_state) : Prop := ∃ chains dirs, tree_ok s chains dirs.

(** ** Consequences *)

Section tree_facts.
Variables (s : fs_state) (chains : gmap Z (list Z)) (dirs : gset Z).
Variables (hole : option (option Z * nat)) (pend : option Z).
Hypothesis Ht : vol_tree s chains dirs hole pend.

Lemma vt_good k : dir_in dirs k → good_dir chains k.
Proof. destruct k as [h|]; [|done]. apply Ht. Qed.

Lemma vt_entry_dirent k d i : contents s chains k !! i = Some d → dirent_ok d.
Proof.
  intros Hi. pose proof (contents_ok s chains k (vt_state _ _ _ _ _ Ht)) as Hok.
  rewrite Forall_forall in Hok. apply Hok. by eapply list_elem_of_lookup_2.
Qed.

Lemma vt_dir_nonzero h : h ∈ dirs → h ≠ 0.
Proof.
  intros Hh ->. destruct (vt_dirs _ _ _ _ _ Ht _ Hh) as [cs Hcs].
  destruct (fw_head _ _ (vt_fat _ _ _ _ _ Ht) _ _ Hcs) as [_ Hd]. region.
Qed.

Lemma vt_chain_nonzero h cs : chains !! h = Some cs → h ≠ 0.
Proof.
  intros Hcs ->. destruct (fw_head _ _ (vt_fat _ _ _ _ _ Ht) _ _ Hcs) as [_ Hd]. region.
Qed.

(** The slots of "." and ".." are not plain and not unused. *)
Lemma vt_dot_slot h i d :
  h ∈ dirs → (i < 2)%nat → contents s chains (Some h) !! i = Some d →
  ¬ plain d ∧ dirent_unused d = false.
Proof.
  intros Hh Hi Hd. destruct (vt_dots _ _ _ _ _ Ht _ Hh) as (p & j & dp & H0 & H1 & _).
  assert (d = dot_entry h ∨ d = dotdot_entry p) as [-> | ->].
  { destruct i as [|[|]]; [| |lia]; simplify_eq; auto. }
  - split; [|done]. intros [_ Hp]. by apply Hp.
  - split; [|done]. intros [_ Hp]. by apply Hp.
Qed.
End tree_facts.

(** An entry survives a change of the chain map that keeps its own chain. *)
Lemma entry_ok_chains chains chains' dirs d :
  entry_ok chains dirs d →
  (∀ cs, d_first_cluster d ∉ dirs → chains !! d_first_cluster d = Some cs →
    chains' !! d_first_cluster d = Some cs) →
  entry_ok chains' dirs d.
Proof.
  unfold entry_ok. intros He Hc. destruct (is_directory d); [done |].
  destruct He as [?|(cs & Hcs & ? & ?)]; [by left |]. right. exists cs. auto.
Qed.

(** A valid entry refers to a chain or to nothing. *)
Lemma entry_ok_refers chains dirs d h :
  entry_ok chains dirs d → (∀ h, h ∈ dirs → is_Some (chains !! h)) →
  chains !! h = None → d_first_cluster d = h → h = 0.
Proof.
  unfold entry_ok. intros He Hd Hn <-. destruct (is_directory d).
  - destruct (Hd _ He). congruence.
  - destruct He as [[? _]|(cs & Hcs & _)]; [done | congruence].
Qed.

(** The invariant after a change that keeps the plain entries, the dot slots
    and the chains of files. *)
Lemma vol_tree_view s s' chains chains' dirs hole pend pend' :
  vol_tree s chains dirs hole pend →
  state_ok s' → fat_wf (fat s') chains' → cwd_dir s' = cwd_dir s →
  (∀ k i d, plain_at s' chains' dirs k i d ↔ plain_at s chains dirs k i d) →
  (∀ h i d, h ∈ dirs → contents s chains (Some h) !! i = Some d →
    dirent_unused d = false → contents s' chains' (Some h) !! i = Some d) →
  (∀ h, h ∈ dirs → is_Some (chains' !! h)) →
  (∀ h, pend ≠ Some h → h ∉ dirs → is_Some (chains !! h) → chains' !! h = chains !! h) →
  (∀ h, is_Some (chains' !! h) → is_Some (chains !! h) ∨ pend' = Some h) →
  (∀ h, pend = Some h → pend' = Some h ∨ chains' !! h = None) →
  (∀ h, pend' = Some h → is_Some (chains' !! h) ∧ (chains !! h = None ∨ pend = Some h)) →
  vol_tree s' chains' dirs hole pend'.
Proof.
  intros Ht Hs Hwf Hcwd Hpl Hdot Hdirs Hkeep Hnew Hpend Hpend'.
  assert (Hsl : ∀ k i d, slot_in s' chains' dirs hole k i d ↔ slot_in s chains dirs hole k i d).
  { intros k i d. unfold slot_in. by rewrite Hpl. }
  split; try done.
  - rewrite Hcwd. apply Ht.
  - intros h Hh. destruct (vt_dots _ _ _ _ _ Ht h Hh) as (p & j & d & H0 & H1 & H2 & H3).
    exists p, j, d. rewrite Hsl. auto 10.
  - intros k i d Hsd. rewrite Hsl in Hsd. apply (entry_ok_chains chains); [by eapply Ht |].
    intros cs Hnd Hcs. rewrite Hkeep; [done | | done | by exists cs]. intros Hp.
    destruct (vt_pend _ _ _ _ _ Ht _ Hp) as (_ & _ & Hno). by destruct (Hno k i d Hsd).
  - intros *. rewrite !Hsl. apply Ht.
  - intros *. rewrite !Hpl. apply Ht.
  - intros h Hh'. destruct (Hnew h Hh') as [Hh|Hh]; [|by left].
    destruct (vt_owner _ _ _ _ _ Ht h Hh) as [Hp|(k & i & d & Hsd & Hd)].
    + destruct (Hpend h Hp) as [?|Hn]; [by left |]. destruct Hh'. congruence.
    + right. exists k, i, d. by rewrite Hsl.
  - intros h Hp. destruct (Hpend' h Hp) as [Hs1 Hor]. split; [done |]. split.
    + intros Hin. destruct Hor as [Hn|Hp0].
      * destruct (vt_dirs _ _ _ _ _ Ht h Hin) as [? ?]. congruence.
      * by destruct (vt_pend _ _ _ _ _ Ht h Hp0) as (_ & ? & _).
    + intros k i d Hsd Hd. rewrite Hsl in Hsd. destruct Hor as [Hn|Hp0].
      * pose proof (entry_ok_refers _ _ _ h (vt_entry _ _ _ _ _ Ht _ _ _ Hsd)
                      (vt_dirs _ _ _ _ _ Ht) Hn Hd) as Hz.
        destruct Hs1 as [cs Hcs]. destruct (fw_head _ _ Hwf _ _ Hcs) as [_ Hd0]. region.
      * destruct (vt_pend _ _ _ _ _ Ht h Hp0) as (_ & _ & Hno). by apply (Hno k i d Hsd).
Qed.

(** The special case of a change that keeps the contents of every directory. *)
Lemma vol_tree_chains s s' chains chains' dirs hole pend pend' :
  vol_tree s chains dirs hole pend →
  state_ok s' → fat_wf (fat s') chains' → cwd_dir s' = cwd_dir s →
  (∀ k, dir_in dirs k → contents s' chains' k = contents s chains k) →
  (∀ h, pend ≠ Some h → is_Some (chains !! h) → chains' !! h = chains !! h) →
  (∀ h, is_Some (chains' !! h) → is_Some (chains !! h) ∨ pend' = Some h) →
  (∀ h, pend = Some h → pend' = Some h ∨ chains' !! h = None) →
  (∀ h, pend' = Some h → is_Some (chains' !! h) ∧ (chains !! h = None ∨ pend = Some h)) →
  vol_tree s' chains' dirs hole pend'.
Proof.
  intros Ht Hs Hwf Hcwd Hcont Hkeep Hnew Hpend Hpend'.
  apply (vol_tree_view s _ chains _ dirs hole pend); try done.
  - intros k i d. unfold plain_at. split; intros (Hk & Hi & Hp).
    + by rewrite Hcont in Hi.
    + by rewrite Hcont.
  - intros h i d Hh Hi _. by rewrite (Hcont (Some h)).
  - intros h Hh. rewrite Hkeep; [by apply Ht | | by apply Ht]. intros Hp.
    by destruct (vt_pend _ _ _ _ _ Ht h Hp) as (_ & Hn & _).
  - auto.
Qed.

(** ** Transitions on the pending chain *)

Section pending.
Variables (s : fs_state) (chains : gmap Z (list Z)) (dirs : gset Z).
Variable hole : option (option Z * nat).

(** A cluster that is free, or in the pending chain, is in no directory. *)
Lemma not_in_dir_contents s' chains' pend (P : Z → Prop) :
  vol_tree s chains dirs hole pend →
  root s' = root s →
  (∀ h, h ∈ dirs → chains' !! h = chains !! h) →
  (∀ c, data_cluster c → ¬ P c → csec s' c = csec s c) →
  (∀ c h cs, P c → h ∈ dirs → chains !! h = Some cs → c ∉ cs) →
  ∀ k, dir_in dirs k → contents s' chains' k = contents s chains k.
Proof.
  intros Ht Hr Hch Hsec HP k Hk. apply contents_frame; [done | |].
  - intros h ->. by apply Hch.
  - intros h cs c -> Hcs Hc. apply Hsec; [by eapply (fw_data _ _ (vt_fat _ _ _ _ _ Ht)) |].
    intros HPc. by eapply HP.
Qed.

(** Freeing the pending chain. *)
Lemma vol_tree_free h :
  vol_tree s chains dirs hole (Some h) →
  ∃ d', fat_free_chain (fs_disk s) h = Some d' ∧
    vol_tree (set_disk d' s) (delete h chains) dirs hole None ∧
    (∀ c, data_cluster c → csec (set_disk d' s) c = csec s c).
Proof.
  intros Ht. destruct (vt_pend _ _ _ _ _ Ht h eq_refl) as ([cs Hcs] & Hnd & Hno).
  pose proof (vt_fat _ _ _ _ _ Ht) as Hwf. pose proof (vt_state _ _ _ _ _ Ht) as Hs.
  destruct (fat_free_chain_spec (fs_disk s) h cs (so_vol s Hs) (fw_chain _ _ Hwf _ _ Hcs))
    as (d' & Hf & He).
  destruct (fat_change s d' _ Hs He) as (Hok & Hfat & Hsec).
  exists d'. split; [done |]. split; [|done].
  apply (vol_tree_chains s _ chains _ dirs hole (Some h)); try done.
  - apply (fat_wf_ext (fclear (fat s) cs)); [by apply fat_wf_free |].
    intros c Hc. apply Hfat. auto with rink.
  - apply (not_in_dir_contents _ _ (Some h) (λ _, False)); try done; auto.
    intros h' Hh'. rewrite lookup_delete_ne; [done |]. by intros <-.
  - intros h' Hne _. rewrite lookup_delete_ne; [done |]. congruence.
  - intros h' [cs' Hcs']. left. rewrite lookup_delete in Hcs'. case_decide; [done |].
    by exists cs'.
  - intros h' [= <-]. right. apply lookup_delete_eq.
Qed.

(** Allocating a first cluster for a pending chain. *)
Lemma vol_tree_alloc n d' :
  vol_tree s chains dirs hole None →
  data_cluster n → fat s n = FS_CLUSTER_FREE →
  fat_effect (fs_disk s) d' (fupd (fat s) n FS_CLUSTER_EOC) →
  vol_tree (set_disk d' s) (<[n := [n]]> chains) dirs hole (Some n) ∧
  (∀ c, data_cluster c → csec (set_disk d' s) c = csec s c).
Proof.
  intros Ht Hn Hfree He. pose proof (vt_fat _ _ _ _ _ Ht) as Hwf.
  pose proof (vt_state _ _ _ _ _ Ht) as Hs.
  destruct (fat_change s d' _ Hs He) as (Hok & Hfat & Hsec). split; [|done].
  pose proof (fw_fresh _ _ Hwf _ Hfree) as Hfresh.
  apply (vol_tree_chains s _ chains _ dirs hole None); try done.
  - apply (fat_wf_ext (fupd (fat s) n FS_CLUSTER_EOC)); [by apply fat_wf_alloc |].
    intros c Hc. apply Hfat. auto with rink.
  - apply (not_in_dir_contents _ _ None (λ _, False)); try done; auto.
    intros h Hh. rewrite lookup_insert_ne; [done |]. intros <-.
    destruct (vt_dirs _ _ _ _ _ Ht _ Hh). congruence.
  - intros h _ [cs Hcs]. rewrite lookup_insert_ne; [done |]. congruence.
  - intros h [cs Hcs]. rewrite lookup_insert in Hcs. case_decide; [right; congruence |].
    left. by exists cs.
  - intros h [= <-]. rewrite lookup_insert_eq. eauto.
Qed.

(** Allocating a cluster and linking it behind the pending chain. *)
Lemma vol_tree_extend h cs l n d1 :
  vol_tree s chains dirs hole (Some h) →
  chains !! h = Some cs → last cs = Some l →
  data_cluster n → fat s n = FS_CLUSTER_FREE →
  fat_effect (fs_disk s) d1 (fupd (fat s) n FS_CLUSTER_EOC) →
  let s' := set_disk (fat_write d1 l n) s in
  vol_tree s' (<[h := cs ++ [n]]> chains) dirs hole (Some h) ∧
  (∀ c, data_cluster c → csec s' c = csec s c).
Proof.
  intros Ht Hcs Hl Hn Hfree He1 s'. pose proof (vt_fat _ _ _ _ _ Ht) as Hwf.
  pose proof (vt_state _ _ _ _ _ Ht) as Hs.
  destruct (vt_pend _ _ _ _ _ Ht h eq_refl) as (_ & Hnd & _).
  assert (Hld : data_cluster l).
  { eapply (fw_data _ _ Hwf); [exact Hcs |]. by apply last_Some_elem_of. }
  assert (He2 : fat_effect (fs_disk s) (fat_write d1 l n)
                  (fupd (fupd (fat s) n FS_CLUSTER_EOC) l n)).
  { eapply fat_effect_ext; [eapply fat_effect_trans; [exact He1 |] |].
    - apply fat_write_effect; [apply He1 | auto with rink | region].
    - intros c Hc. unfold fupd at 1 2. case_decide; [done |]. by apply He1. }
  destruct (fat_change s _ _ Hs He2) as (Hok & Hfat & Hsec). split; [|done].
  apply (vol_tree_chains s _ chains _ dirs hole (Some h)); try done.
  - apply (fat_wf_ext (fupd (fupd (fat s) n FS_CLUSTER_EOC) l n)); [by apply fat_wf_extend |].
    intros c Hc. apply Hfat. auto with rink.
  - apply (not_in_dir_contents _ _ (Some h) (λ _, False)); try done; auto.
    intros h' Hh'. rewrite lookup_insert_ne; [done |]. by intros <-.
  - intros h' Hne _. rewrite lookup_insert_ne; [done |]. congruence.
  - intros h' [cs' Hcs']. rewrite lookup_insert in Hcs'. case_decide; [right; congruence |].
    left. by exists cs'.
  - intros h' [= <-]. by left.
  - intros h' [= <-]. rewrite lookup_insert_eq. eauto.
Qed.

(** Writing a data sector of the pending chain. *)
Lemma vol_tree_data h cs c b :
  vol_tree s chains dirs hole (Some h) → chains !! h = Some cs → c ∈ cs → sector_ok b →
  let s' := set_disk (disk_write_sector (fs_disk s) (cluster_to_lba c) b) s in
  vol_tree s' chains dirs hole (Some h) ∧ csec s' c = b ∧
  (∀ x, data_cluster x → x ≠ c → csec s' x = csec s x).
Proof.
  intros Ht Hcs Hc Hb s'. pose proof (vt_fat _ _ _ _ _ Ht) as Hwf.
  pose proof (vt_state _ _ _ _ _ Ht) as Hs.
  assert (Hcd : data_cluster c) by (by eapply (fw_data _ _ Hwf)).
  destruct (data_change s c b Hs Hcd Hb) as (Hok & Hfat & Hsec & Hother).
  split; [|done].
  destruct (vt_pend _ _ _ _ _ Ht h eq_refl) as (_ & Hnd & _).
  apply (vol_tree_chains s _ chains _ dirs hole (Some h)); try done; eauto.
  - apply (fat_wf_ext (fat s)); [done |]. intros x Hx. apply Hfat. auto with rink.
  - apply (not_in_dir_contents _ _ (Some h) (λ x, x = c)); try done; auto.
    intros x h' cs' -> Hh' Hcs' Hin. apply Hnd.
    by rewrite <- (fw_disj _ _ Hwf h' h cs' cs c Hcs' Hcs Hin Hc).
  - intros h' [= <-]. eauto.
Qed.
End pending.

(** ** Growing a directory *)

Lemma vol_tree_grow s s' chains dirs hole pend h cs n :
  vol_tree s chains dirs hole pend →
  h ∈ dirs → chains !! h = Some cs →
  let chains' := <[h := cs ++ [n]]> chains in
  state_ok s' → fat_wf (fat s') chains' →
  contents s' chains' (Some h) = contents s chains (Some h) ++ replicate 16 zero_dirent →
  (∀ k, k ≠ Some h → contents s' chains' k = contents s chains k) →
  cwd_dir s' = cwd_dir s →
  vol_tree s' chains' dirs hole pend.
Proof.
  intros Ht Hh Hcs chains' Hs Hwf Hc Ho Hcwd.
  assert (Hpn : pend ≠ Some h).
  { intros Hp. by destruct (vt_pend _ _ _ _ _ Ht h Hp) as (_ & Hn & _). }
  apply (vol_tree_view s _ chains _ dirs hole pend); try done.
  - intros k i d. unfold plain_at. destruct (decide (k = Some h)) as [->|Hk]; [|by rewrite Ho].
    rewrite Hc. split; intros (Hk & Hi & Hp); split_and!; try done.
    + apply lookup_app_Some in Hi as [Hi|[_ Hi]]; [done |].
      apply lookup_replicate in Hi as [-> _]. by destruct Hp.
    + by apply lookup_app_l_Some.
  - intros h' i d Hh' Hi Hu. destruct (decide (h' = h)) as [->|Hne].
    + rewrite Hc. by apply lookup_app_l_Some.
    + rewrite Ho by congruence. done.
  - intros h' Hh'. unfold chains'. rewrite lookup_insert. case_decide; [done |]. by apply Ht.
  - intros h' _ Hh' _. apply lookup_insert_ne. by intros <-.
  - intros h' Hs'. unfold chains' in Hs'. rewrite lookup_insert in Hs'.
    case_decide; [subst; left; by exists cs | by left].
  - auto.
  - intros h' Hp. split; [|by right]. unfold chains'. rewrite lookup_insert_ne by congruence.
    by destruct (vt_pend _ _ _ _ _ Ht h' Hp).
Qed.

(** ** Opening a hole: the entry of a file is about to be rewritten *)

Lemma vol_tree_open_file s chains dirs k i d :
  tree_ok s chains dirs → dir_in dirs k → contents s chains k !! i = Some d →
  plain d → is_directory d = false →
  vol_tree s chains dirs (Some (k, i))
    (if d_first_cluster d =? 0 then None else Some (d_first_cluster d)).
Proof.
  intros Ht Hk Hi Hp Hdir.
  assert (Hsd : slot_in s chains dirs None k i d) by (by split).
  assert (Hsub : ∀ k' i' d', slot_in s chains dirs (Some (k, i)) k' i' d' →
                   slot_in s chains dirs None k' i' d') by (intros ???[? _]; by split).
  assert (Hne : ∀ k' i' d', slot_in s chains dirs None k' i' d' →
    d_first_cluster d' = 0 ∨ d_first_cluster d' ≠ d_first_cluster d ∨ (k', i') = (k, i)).
  { intros k' i' d' Hsd'. destruct (decide (d_first_cluster d' = d_first_cluster d)) as [He|]; [|auto].
    destruct (decide (d_first_cluster d' = 0)); [auto |]. right. right.
    by apply (vt_uniq _ _ _ _ _ Ht _ _ _ _ _ _ Hsd' Hsd). }
  pose proof (vt_entry _ _ _ _ _ Ht _ _ _ Hsd) as He. unfold entry_ok in He. rewrite Hdir in He.
  split; try apply Ht; eauto.
  - intros h Hh. destruct (vt_dots _ _ _ _ _ Ht h Hh) as (p & j & d' & H0 & H1 & H2 & H3).
    exists p, j, d'. split_and!; try done. split; [apply H2 |]. intros [= Hpk <-].
    destruct H2 as [(_ & Hj & _) _]. rewrite <- Hpk, Hi in Hj. injection Hj as ->.
    destruct He as [[Hz _]|(? & _ & Hn & _)]; [|congruence].
    apply (vt_dir_nonzero _ _ _ _ _ Ht h Hh). congruence.
  - intros k' i' d' Hsd'. by eapply (vt_entry _ _ _ _ _ Ht), Hsub.
  - intros k1 i1 d1 k2 i2 d2 H1 H2. apply (vt_uniq _ _ _ _ _ Ht); auto.
  - intros h Hh. destruct (vt_owner _ _ _ _ _ Ht h Hh) as [?|(k' & i' & d' & Hsd' & Hd')]; [done |].
    destruct (decide ((k', i') = (k, i))) as [[= -> ->]|Hki].
    + left. destruct Hsd' as [(_ & Hi' & _) _]. rewrite Hi in Hi'. injection Hi' as <-.
      destruct (Z.eqb_spec (d_first_cluster d) 0); [|congruence].
      destruct Hh as [cs Hcs]. destruct (vt_chain_nonzero _ _ _ _ _ Ht _ _ Hcs). congruence.
    + right. exists k', i', d'. split; [|done]. split; [apply Hsd' |]. congruence.
  - intros h. destruct (Z.eqb_spec (d_first_cluster d) 0) as [|Hnz]; [done |]. intros [= <-].
    destruct He as [[Hz _]|(cs & Hcs & Hn & _)]; [done |]. split_and!; [by exists cs | done |].
    intros k' i' d' Hsd' Heq. destruct (Hne _ _ _ (Hsub _ _ _ Hsd')) as [?|[?|?]]; try congruence.
    destruct Hsd' as [_ Hh]. congruence.
Qed.

(** Opening a hole at the entry of an empty subdirectory that is about to go. *)
Lemma vol_tree_open_dir s chains dirs k i d :
  tree_ok s chains dirs → dir_in dirs k → contents s chains k !! i = Some d →
  plain d → is_directory d = true →
  let h := d_first_cluster d in
  dkey (cwd_dir s) ≠ Some h →
  (∀ j d', contents s chains (Some h) !! j = Some d' → ¬ plain d') →
  vol_tree s chains (dirs ∖ {[h]}) (Some (k, i)) (Some h).
Proof.
  intros Ht Hk Hi Hp Hdir h Hcwd Hempty.
  assert (Hsd : slot_in s chains dirs None k i d) by (by split).
  pose proof (vt_entry _ _ _ _ _ Ht _ _ _ Hsd) as He. unfold entry_ok in He.
  rewrite Hdir in He. fold h in He. pose proof (vt_dir_nonzero _ _ _ _ _ Ht h He) as Hnz.
  assert (Hin : ∀ k', dir_in (dirs ∖ {[h]}) k' ↔ dir_in dirs k' ∧ k' ≠ Some h).
  { intros [h'|]; cbn; [|done]. rewrite elem_of_difference, elem_of_singleton.
    split; intros [? Hn]; (split; [done |]); congruence. }
  assert (Hpl : ∀ k' i' d', plain_at s chains dirs k' i' d' →
                  plain_at s chains (dirs ∖ {[h]}) k' i' d').
  { intros k' i' d' (Hk' & Hi' & Hp'). split; [|done]. apply Hin. split; [done |].
    intros ->. by apply (Hempty i' d'). }
  assert (Hpl' : ∀ k' i' d', plain_at s chains (dirs ∖ {[h]}) k' i' d' →
                  plain_at s chains dirs k' i' d').
  { intros k' i' d' (Hk' & Hi' & Hp'). apply Hin in Hk' as [Hk' _]. by split_and!. }
  assert (Hne : ∀ k' i' d', slot_in s chains (dirs ∖ {[h]}) (Some (k, i)) k' i' d' →
    slot_in s chains dirs None k' i' d' ∧ d_first_cluster d' ≠ h).
  { intros k' i' d' [Hs' Hh]. assert (slot_in s chains dirs None k' i' d') as Hs2 by (split; auto).
    split; [done |]. intros Heq. apply Hh. f_equal.
    apply (vt_uniq _ _ _ _ _ Ht _ _ _ _ _ _ Hsd Hs2); [done | by fold h]. }
  split; try apply Ht.
  - intros h' [Hh' _]%elem_of_difference. by apply Ht.
  - apply Hin. split; [apply Ht | done].
  - intros h' Hh'. apply elem_of_difference in Hh' as [Hh' Hne']. rewrite elem_of_singleton in Hne'.
    destruct (vt_dots _ _ _ _ _ Ht h' Hh') as (p & j & d' & H0 & H1 & [H2 _] & H3).
    exists p, j, d'. split_and!; try done. split; [by apply Hpl |]. intros [= Hpk <-].
    destruct H2 as (_ & Hj & _). rewrite <- Hpk, Hi in Hj. injection Hj as ->. done.
  - intros k' i' d' Hsd'. apply Hne in Hsd' as [Hsd' Hf].
    pose proof (vt_entry _ _ _ _ _ Ht _ _ _ Hsd') as He'. unfold entry_ok in *.
    destruct (is_directory d'); [set_solver |].
    destruct He' as [?|(cs & ? & ? & ?)]; [by left |]. right. exists cs. set_solver.
  - intros k1 i1 d1 k2 i2 d2 [H1 _]%Hne [H2 _]%Hne. by apply (vt_uniq _ _ _ _ _ Ht).
  - intros k' i1 d1 i2 d2 H1%Hpl' H2%Hpl'. by apply (vt_names _ _ _ _ _ Ht k').
  - intros h' Hh'. destruct (decide (h' = h)) as [->|Hhh]; [by left |]. right.
    destruct (vt_owner _ _ _ _ _ Ht h' Hh') as [?|(k' & i' & d' & [Hs' _] & Hd')]; [done |].
    exists k', i', d'. split; [|done]. split; [by apply Hpl |]. intros [= <- <-].
    destruct Hs' as (_ & Hi' & _). rewrite Hi in Hi'. injection Hi' as <-. done.
  - intros h' [= <-]. split_and!; [by apply Ht | set_solver |].
    intros k' i' d' [_ ?]%Hne. done.
Qed.

(** ** Closing the hole: one slot of a directory is written *)

Section close.
Variables (s s' : fs_state) (chains : gmap Z (list Z)) (dirs : gset Z).
Variables (k : option Z) (i : nat) (d e : fs_dirent).
Hypothesis Hk : dir_in dirs k.
Hypothesis Hi : contents s chains k !! i = Some d.
Hypothesis He : dir_effect s s' chains k (<[i := e]> (contents s chains k)).

Lemma lookup_updated k' j d' :
  contents s' chains k' !! j = Some d' ↔
  ((k', j) = (k, i) ∧ d' = e) ∨ ((k', j) ≠ (k, i) ∧ contents s chains k' !! j = Some d').
Proof.
  assert (Hlt : (i < length (contents s chains k))%nat) by (by eapply lookup_lt_Some).
  destruct (decide (k' = k)) as [->|Hne].
  - rewrite (de_contents _ _ _ _ _ He), list_lookup_insert. case_decide as Hc.
    + destruct Hc as [<- _]. split; [intros [= ->]; by left |].
      by intros [[_ ->]|[? _]].
    + split; [|by intros [[[= ->] _]|[_ ?]]; [destruct Hc|]].
      intros ?. right. split; [|done]. intros [= ->]. by destruct Hc.
  - rewrite (de_other _ _ _ _ _ He) by done. split; [right; split; [congruence | done] |].
    by intros [[[= -> ->] _]|[_ ?]].
Qed.

Lemma plain_at_updated ds k' j d' :
  dir_in ds k →
  plain_at s' chains ds k' j d' ↔
  ((k', j) = (k, i) ∧ d' = e ∧ plain e) ∨ ((k', j) ≠ (k, i) ∧ plain_at s chains ds k' j d').
Proof.
  intros Hds. unfold plain_at. rewrite lookup_updated. split.
  - intros (Hk' & [[Heq ->]|[Hne Hl]] & Hp); [by left | by right].
  - intros [(Heq & -> & Hp)|(Hne & Hk' & Hl & Hp)]; [|by auto].
    injection Heq as -> ->. auto.
Qed.

Lemma closed_state : state_ok s'.
Proof. apply He. Qed.

Lemma closed_fat : fat_wf (fat s) chains → fat_wf (fat s') chains.
Proof.
  intros Hwf. apply (fat_wf_ext (fat s)); [done |]. intros c Hc. apply He. auto with rink.
Qed.
End close.

Lemma vol_tree_close s s' chains dirs dirs' hole pend k i d e :
  vol_tree s chains dirs hole pend → dir_in dirs k → contents s chains k !! i = Some d →
  (hole = Some (k, i) ∧ plain d ∨ hole = None ∧ dirent_unused d = true) →
  dir_effect s s' chains k (<[i := e]> (contents s chains k)) →
  dirs ⊆ dirs' →
  (∀ h, h ∈ dirs' → h ∈ dirs ∨
     (plain e ∧ d_first_cluster e = h ∧ pend = Some h ∧
      (∀ j d', contents s chains (Some h) !! j = Some d' → ¬ plain d') ∧
      ∃ p, pkey p = k ∧ contents s chains (Some h) !! 0%nat = Some (dot_entry h) ∧
           contents s chains (Some h) !! 1%nat = Some (dotdot_entry p))) →
  (dirent_unused e = true ∧ pend = None ∨
   plain e ∧ entry_ok chains dirs' e ∧
   (pend = None ∧ d_first_cluster e = 0 ∨ pend = Some (d_first_cluster e)) ∧
   (∀ j d', j ≠ i → plain_at s chains dirs k j d' →
      d_name d' = d_name e → d_ext d' = d_ext e → False)) →
  tree_ok s' chains dirs'.
Proof.
  intros Ht Hk Hi Hhole He Hsub Hnew Hent.
  assert (Hk' : dir_in dirs' k) by (destruct k; [apply Hsub, Hk | done]).
  (* plain slots of the new directories: none but in the old ones *)
  assert (Hpl : ∀ k' j d', plain_at s chains dirs' k' j d' ↔ plain_at s chains dirs k' j d').
  { intros k' j d'. unfold plain_at. split; intros (Hk1 & Hj & Hp); split_and!; try done.
    - destruct k' as [h|]; [|done]. destruct (Hnew h Hk1) as [?|(_ & _ & _ & Hno & _)]; [done |].
      by destruct (Hno j d').
    - destruct k' as [h|]; [apply Hsub, Hk1 | done]. }
  assert (Hold : ∀ k' j d', (k', j) ≠ (k, i) → plain_at s chains dirs k' j d' →
                   slot_in s chains dirs hole k' j d').
  { intros k' j d' Hne Hp. split; [done |]. destruct Hhole as [[-> _]|[-> _]]; [congruence | done]. }
  assert (Hsl : ∀ k' j d', slot_in s' chains dirs' None k' j d' →
     ((k', j) = (k, i) ∧ d' = e ∧ plain e) ∨
     ((k', j) ≠ (k, i) ∧ slot_in s chains dirs hole k' j d')).
  { intros k' j d' [Hp _]. rewrite (plain_at_updated s s' chains k i d e) in Hp by done.
    destruct Hp as [?|[? Hp]]; [by left |]. right. split; [done |]. apply Hold; [done |].
    by apply Hpl. }
  assert (Hsl' : ∀ k' j d', slot_in s chains dirs hole k' j d' →
                   slot_in s' chains dirs' None k' j d').
  { intros k' j d' [Hp Hh]. split; [|done].
    rewrite (plain_at_updated s s' chains k i d e) by done. right.
    rewrite Hpl. split; [|done]. intros [= -> ->]. destruct Hhole as [[-> _]|[_ Hu]]; [done |].
    destruct Hp as (_ & Hi' & [Hu' _]). congruence. }
  assert (Hpe : plain e → slot_in s' chains dirs' None k i e).
  { intros Hp. split; [|done]. rewrite (plain_at_updated s s' chains k i d e) by done. by left. }
  assert (Hfc : ∀ k' j d', slot_in s chains dirs hole k' j d' → plain e →
    d_first_cluster d' = d_first_cluster e → d_first_cluster e = 0).
  { intros k' j d' Hs' Hp Heq. destruct Hent as [[Hu _]|(_ & _ & Hpd & _)].
    - destruct Hp. congruence.
    - destruct Hpd as [[_ ?]|Hpd]; [done |].
      destruct (vt_pend _ _ _ _ _ Ht _ Hpd) as (_ & _ & Hno). by destruct (Hno k' j d' Hs'). }
  split.
  - by eapply closed_state.
  - eapply closed_fat; [done |]. apply Ht.
  - intros h [Hh|(_ & _ & Hp & _)]%Hnew; [by apply Ht |].
    by destruct (vt_pend _ _ _ _ _ Ht h Hp).
  - rewrite (de_cwd _ _ _ _ _ He). pose proof (vt_cwd _ _ _ _ _ Ht) as Hc.
    destruct (dkey (cwd_dir s)); [by apply Hsub | done].
  - intros h Hh. destruct (Hnew h Hh) as [Hho|(Hp & Hf & Hpd & Hno & p & Hpk & H0 & H1)].
    + destruct (vt_dots _ _ _ _ _ Ht h Hho) as (p & j & d' & H0 & H1 & H2 & H3).
      exists p, j, d'. rewrite !(lookup_updated s s' chains k i d e) by done.
      assert (Hdot : ∀ m x, (m < 2)%nat → contents s chains (Some h) !! m = Some x →
                (Some h, m) ≠ (k, i)).
      { intros m x Hm Hx [= Hkk Hmm]. subst k i.
        destruct (vt_dot_slot _ _ _ _ _ Ht h m d Hho Hm Hi).
        by destruct Hhole as [[_ ?]|[_ ?]]; [|congruence]. }
      split_and!; [right | right | by apply Hsl' | done]; (split; [eapply Hdot; [lia |]|]; done).
    + exists p, i, e. rewrite !(lookup_updated s s' chains k i d e) by done.
      assert (k ≠ Some h) as Hkh.
      { intros ->. by destruct (vt_pend _ _ _ _ _ Ht h Hpd) as (_ & ? & _). }
      rewrite Hpk. split_and!; [right | right | by apply Hpe | done]; (split; [congruence | done]).
  - intros k' j d' [(_ & -> & Hp)|[_ Hs']]%Hsl.
    + destruct Hent as [[Hu _]|(_ & ? & _)]; [destruct Hp; congruence | done].
    + pose proof (vt_entry _ _ _ _ _ Ht _ _ _ Hs') as Ho. unfold entry_ok in *.
      destruct (is_directory d'); [by apply Hsub |].
      destruct Ho as [?|(cs & Hcs & Hn & ?)]; [by left |]. right. exists cs. split_and!; try tauto.
      intros [?|(_ & _ & Hpd & _)]%Hnew; [done |].
      destruct (vt_pend _ _ _ _ _ Ht _ Hpd) as (_ & _ & Hno). by destruct (Hno k' j d' Hs').
  - intros k1 i1 d1 k2 i2 d2 H1 H2 Heq Hnz.
    apply Hsl in H1 as [(-> & -> & Hp)|[Hn1 H1]], H2 as [(-> & -> & Hp2)|[Hn2 H2]]; try done.
    + destruct Hnz. by apply (Hfc _ _ _ H2).
    + destruct Hnz. rewrite Heq. by apply (Hfc _ _ _ H1).
    + by apply (vt_uniq _ _ _ _ _ Ht k1 i1 d1 k2 i2 d2).
  - intros k' i1 d1 i2 d2 H1 H2 Hn Hx.
    rewrite (plain_at_updated s s' chains k i d e) in H1, H2 by done. rewrite Hpl in H1, H2.
    destruct Hent as [[Hu _]|(_ & _ & _ & Hnm)].
    + destruct H1 as [(_ & _ & [? _])|[_ H1]], H2 as [(_ & _ & [? _])|[_ H2]]; try congruence.
      by apply (vt_names _ _ _ _ _ Ht k' i1 d1 i2 d2).
    + destruct H1 as [(E1 & -> & _)|[Hn1 H1]], H2 as [(E2 & -> & _)|[Hn2 H2]].
      * congruence.
      * injection E1 as -> ->. destruct (Hnm i2 d2); congruence || done.
      * injection E2 as -> ->. destruct (Hnm i1 d1); congruence || done.
      * by apply (vt_names _ _ _ _ _ Ht k' i1 d1 i2 d2).
  - intros h Hh. right. destruct (vt_owner _ _ _ _ _ Ht h Hh) as [Hp|(k' & j & d' & Hs' & Hd')].
    + destruct Hent as [[_ ?]|(Hpl' & _ & [[? _]|Hpd] & _)]; [congruence..|].
      exists k, i, e. split; [by apply Hpe | congruence].
    + exists k', j, d'. auto.
  - done.
Qed.
