(* ===== verification/Walk.v ===== *)
(** * Path resolution on a well-formed volume: it terminates, stays inside the
    directory tree, and is not disturbed by changes that keep directories. *)
From S2P Require Import Prelude FsLayout Disk Dirent Fat ChainMap Directory RootDir DirView.
From S2P Require Import Path Fs Tree.

(** ** Lookup by name *)

Definition find_key (s : fs_state) (chains : gmap Z (list Z)) (k : option Z) (n e : list Z) :
    option (nat * fs_dirent) :=
  list_find (matches n e) (contents s chains k).

(** An 8.3 name as [split_name] makes it. *)
Definition user_name (n e : list Z) : Prop :=
  length n = 8%nat ∧ Forall is_u8 n ∧ length e = 3%nat ∧ Forall is_u8 e ∧ znth n 0 ≠ 46.

Lemma split_name_user s : is_cstr s → user_name (split_name s).1 (split_name s).2.
Proof.
  intros Hs. destruct (split_name_ok s) as (H1 & H2 & H3 & H4). split_and!; try done.
  rewrite split_name_fields. cbn [fst].
  destruct Hs as [|c s Hc Hs]; [done |]. cbn [up_field].
  destruct (base_stop c) eqn:Hst; [done |]. destruct (to_upper_byte c Hc) as [_ Hu].
  change (u8 (to_upper c) ≠ 46). rewrite Hu. intros H46.
  rewrite to_upper_eq_iff in H46 by lia. by subst.
Qed.

Section lookup.
Variables (s : fs_state) (chains : gmap Z (list Z)) (dirs : gset Z).
Variables (hole : option (option Z * nat)) (pend : option Z).
Hypothesis Ht : vol_tree s chains dirs hole pend.

Lemma matches_plain d n e :
  dirent_ok d → user_name n e → matches n e d ↔ plain d ∧ d_name d = n ∧ d_ext d = e.
Proof.
  intros Hd (Hn & _ & He & _ & Hdot). unfold matches, plain.
  rewrite dirent_named_spec by done. split; [|tauto].
  intros (Hu & <- & <-). auto.
Qed.

(** Names are unique, so a lookup finds the plain slot of that name. *)
Lemma find_key_plain k n e i d :
  dir_in dirs k → user_name n e →
  find_key s chains k n e = Some (i, d) ↔
  plain_at s chains dirs k i d ∧ d_name d = n ∧ d_ext d = e.
Proof.
  intros Hk Hu. unfold find_key. split.
  - intros (Hi & Hm & _)%list_find_Some.
    apply matches_plain in Hm; [|by eapply vt_entry_dirent |done]. unfold plain_at. tauto.
  - intros ((_ & Hi & Hp) & Hn & He).
    assert (matches n e d) as Hm.
    { apply matches_plain; [by eapply vt_entry_dirent | done | done]. }
    destruct (list_find_elem_of (matches n e) (contents s chains k) d) as [[j d'] Hf];
      [by eapply list_elem_of_lookup_2 | done |].
    rewrite Hf. pose proof Hf as (Hj & Hm' & _)%list_find_Some.
    apply matches_plain in Hm' as (Hp' & Hn' & He'); [|by eapply vt_entry_dirent |done].
    assert (j = i) as ->; [|congruence].
    eapply (vt_names _ _ _ _ _ Ht k j d' i d); [by split_and! | by split_and! | congruence..].
Qed.

Lemma find_key_none k n e :
  dir_in dirs k → user_name n e →
  find_key s chains k n e = None ↔
  ∀ i d, plain_at s chains dirs k i d → d_name d = n → d_ext d = e → False.
Proof.
  intros Hk Hu. split.
  - intros Hf i d Hp Hn He. assert (find_key s chains k n e = Some (i, d)) as H; [|congruence].
    by apply find_key_plain.
  - intros Hno. destruct (find_key s chains k n e) as [[i d]|] eqn:Hf; [|done].
    apply find_key_plain in Hf as (Hp & Hn & He); [|done..]. by destruct (Hno i d).
Qed.

(** The ".." entry of a subdirectory is its second slot. *)
Lemma find_dotdot h :
  h ∈ dirs → ∃ p, find_key s chains (Some h) DOTDOT_NAME EMPTY_EXT = Some (1%nat, dotdot_entry p) ∧
    dir_in dirs (pkey p) ∧ contents s chains (Some h) !! 1%nat = Some (dotdot_entry p).
Proof.
  intros Hh. destruct (vt_dots _ _ _ _ _ Ht h Hh) as (p & j & d & H0 & H1 & [(Hk & _) _] & _).
  exists p. split_and!; try done. apply list_find_Some. split_and!; [done | done |].
  intros m y Hm Hlt. assert (m = 0%nat) as -> by lia. rewrite H0 in Hm. injection Hm as <-.
  by intros [_ ?].
Qed.

Lemma dir_scan_key dr n e :
  dir_in dirs (dkey dr) →
  dir_scan s dr n e =
    Some ((λ '(i, d), (d, slot_loc chains dr i)) <$> find_key s chains (dkey dr) n e).
Proof. intros Hk. apply dir_scan_spec; [apply Ht | apply Ht | by eapply vt_good]. Qed.
End lookup.

(** ** Consuming the path *)

Lemma length_take_comp p i : 0 ≤ i → i + zlen (take_comp p i) ≤ Z.max i 12.
Proof.
  unfold zlen. revert i. induction p as [|c p IH]; intros i Hi; cbn [take_comp length]; [lia |].
  change (FS_COMPONENT_LEN - 1) with 12.
  destruct (_ && _) eqn:Hc; cbn [length]; [|lia]. specialize (IH (i + 1)). lia.
Qed.

Lemma take_comp_prefix p i : take (length (take_comp p i)) p = take_comp p i.
Proof.
  revert i. induction p as [|c p IH]; intros i; [done |]. cbn [take_comp].
  destruct (_ && _); cbn; [|done]. by rewrite IH.
Qed.

Lemma strlen_nonneg p : 0 ≤ strlen p.
Proof. induction p as [|c p IH]; cbn; [lia |]. destruct (c =? 0); lia. Qed.

Lemma strlen_drop_comp p i :
  strlen (drop (length (take_comp p i)) p) = strlen p - zlen (take_comp p i).
Proof.
  unfold zlen. revert i. induction p as [|c p IH]; intros i; [cbn; lia |]. cbn [take_comp].
  destruct (Z.eqb_spec c 0) as [->|Hc]; [cbn; lia |]. cbn [negb andb].
  destruct (_ && _); cbn [length drop]; [|lia].
  rewrite IH. cbn [strlen]. destruct (Z.eqb_spec c 0); lia.
Qed.

Lemma strlen_skip_slashes p : strlen (skip_slashes p) ≤ strlen p.
Proof.
  induction p as [|c p IH]; cbn; [lia |]. destruct (Z.eqb_spec c 47) as [->|]; cbn; [|lia].
  pose proof (strlen_nonneg p). lia.
Qed.

(** Every round of [walk_path] consumes at least one character. *)
Lemma walk_progress p :
  strlen p ≠ 0 → strlen (skip_slashes (drop (length (take_comp p 0)) p)) < strlen p.
Proof.
  intros Hp. destruct (take_comp p 0) as [|x comp] eqn:Hc.
  - destruct p as [|c p]; [done |]. cbn [take_comp strlen] in *.
    destruct (Z.eqb_spec c 0); [done |]. cbn [negb andb] in Hc.
    destruct (Z.eqb_spec c 47) as [->|]; [|done].
    cbn [length drop skip_slashes Z.eqb Pos.eqb]. pose proof (strlen_skip_slashes p). lia.
  - pose proof (strlen_skip_slashes (drop (length (take_comp p 0)) p)) as Hs.
    rewrite strlen_drop_comp, Hc in Hs. unfold zlen in Hs. cbn [length] in *. lia.
Qed.

Lemma strlen_length p : strlen p ≤ zlen p.
Proof. unfold zlen. induction p as [|c p IH]; cbn [strlen length]; [lia |]. destruct (c =? 0); lia. Qed.

Lemma is_cstr_take_comp p i : is_cstr p → is_cstr (take_comp p i).
Proof. intros Hp. rewrite <- take_comp_prefix. by apply Forall_take. Qed.

Lemma is_cstr_skip_slashes p : is_cstr p → is_cstr (skip_slashes p).
Proof. induction 1 as [|c p Hc Hp IH]; cbn; [constructor |]. by destruct (c =? 47); [|constructor]. Qed.

(** ** [walk_path] *)

Section walk.
Variables (s : fs_state) (chains : gmap Z (list Z)) (dirs : gset Z).
Variables (hole : option (option Z * nat)) (pend : option Z).
Hypothesis Ht : vol_tree s chains dirs hole pend.

(** Where ".." leads from a subdirectory. *)
Lemma dotdot_target h p c :
  dir_in dirs (pkey p) → h ∈ dirs →
  dir_in dirs (dkey (if p =? 0 then mk_dir true c else mk_dir false p)).
Proof. unfold pkey. by destruct (p =? 0). Qed.

Lemma entry_target k i d :
  hole = None → plain_at s chains dirs k i d → is_directory d = true →
  d_first_cluster d ∈ dirs.
Proof.
  intros Hh Hp Hd. assert (slot_in s chains dirs hole k i d) as Hs by (by rewrite Hh).
  pose proof (vt_entry _ _ _ _ _ Ht _ _ _ Hs) as He. unfold entry_ok in He. by rewrite Hd in He.
Qed.

(** The walk ends with a return code and a directory of the tree. *)
Lemma walk_loop_total fuel p dir buf len :
  hole = None → is_cstr p → strlen p ≤ Z.of_nat fuel → dir_in dirs (dkey dir) →
  ∃ rc dir' buf', walk_loop fuel s p dir buf len = Some (rc, dir', buf') ∧
    (rc = 0 ∨ rc = -1) ∧ dir_in dirs (dkey dir').
Proof.
  intros Hh. revert p dir buf. induction fuel as [|fuel IH]; intros p dir buf Hp Hl Hd.
  - cbn [walk_loop]. pose proof (strlen_nonneg p).
    destruct (Z.eqb_spec (strlen p) 0); [|lia]. by exists 0, dir, buf; auto.
  - cbn [walk_loop]. destruct (Z.eqb_spec (strlen p) 0) as [|Hne]; [by exists 0, dir, buf; auto |].
    pose proof (walk_progress p Hne) as Hlt.
    set (p' := skip_slashes (drop (length (take_comp p 0)) p)) in *.
    assert (Hp' : is_cstr p') by (by apply is_cstr_skip_slashes, Forall_drop).
    assert (Hl' : strlen p' ≤ Z.of_nat fuel) by lia.
    destruct (_ || _); [by apply IH |]. destruct (str_eq_local _ _).
    + destruct (is_root dir) eqn:Hroot; cbn [negb]; [by apply IH |].
      rewrite (dir_scan_key s chains dirs hole pend Ht) by done.
      unfold dkey in Hd at 1. rewrite Hroot in Hd. cbn in Hd.
      destruct (find_dotdot s chains dirs hole pend Ht _ Hd) as (q & Hf & Hq & _).
      unfold dkey. rewrite Hroot, Hf. cbn [fmap option_fmap option_map].
      apply IH; [done | done |]. cbn [d_first_cluster dotdot_entry new_dirent].
      by eapply dotdot_target.
    + pose proof (split_name_user _ (is_cstr_take_comp p 0 Hp)) as Hu.
      destruct (split_name (take_comp p 0)) as [n e3]. cbn [fst snd] in Hu.
      rewrite (dir_scan_key s chains dirs hole pend Ht) by done.
      destruct (find_key s chains (dkey dir) n e3) as [[i d]|] eqn:Hf;
        cbn [fmap option_fmap option_map]; [|by exists (-1), dir, buf; auto].
      apply (find_key_plain s chains dirs hole pend Ht) in Hf as (Hpl & _); [|done..].
      destruct (Z.land (d_attr d) FS_ATTR_DIRECTORY =? 0) eqn:Hattr;
        [by exists (-1), dir, buf; auto |].
      apply IH; [done | done |]. cbn. eapply entry_target; [done | done |].
      unfold is_directory. by rewrite Hattr.
Qed.
End walk.

(** ** [resolve_parent] *)

Lemma is_cstr_str_copy s i n : is_cstr s → is_cstr (str_copy_loop s i n).
Proof.
  intros Hs. revert i. induction Hs as [|c s Hc Hs IH]; intros i; cbn; [constructor |].
  destruct (_ && _); constructor; [done | apply IH].
Qed.

Lemma walk_path_total s chains dirs path dir buf len :
  tree_ok s chains dirs → is_cstr path → dir_in dirs (dkey dir) →
  ∃ rc dir' buf', walk_path s path dir buf len = Some (rc, dir', buf') ∧
    (rc = 0 ∨ rc = -1) ∧ dir_in dirs (dkey dir').
Proof.
  intros Ht Hp Hd. unfold walk_path. pose proof (strlen_length path) as Hl. unfold zlen in Hl.
  destruct (znth path 0 =? 47).
  - apply (walk_loop_total s chains dirs None None Ht); try done.
    + destruct Hp; [constructor | done].
    + destruct path as [|c p]; cbn [tail length strlen] in *; [lia |].
      pose proof (strlen_length p) as Hl'. unfold zlen in Hl'. lia.
  - by apply (walk_loop_total s chains dirs None None Ht).
Qed.

(** [resolve_parent] always returns, and returns a directory of the tree. *)
Lemma resolve_parent_total s chains dirs path :
  tree_ok s chains dirs → is_cstr path →
  ∃ r, resolve_parent s path = Some r ∧
    ∀ dr leaf, r = Some (dr, leaf) → dir_in dirs (dkey dr) ∧ is_cstr leaf.
Proof.
  intros Ht Hp. unfold resolve_parent.
  destruct (znth path 0 =? 0); [by eexists |].
  destruct (_ <? 0).
  - eexists; split; [done |]. intros ? ? [= <- <-]. split; [apply Ht |].
    by apply is_cstr_str_copy.
  - set (dl := if DIRPART_LEN - 1 <? last_slash_loop path 0 (-1) + 1 then DIRPART_LEN - 1
               else last_slash_loop path 0 (-1) + 1).
    destruct (walk_path_total s chains dirs (ztake dl path) (cwd_dir s) None 0 Ht)
      as (rc & dr & buf & -> & Hrc & Hdr); [by apply Forall_take | apply Ht |].
    destruct (rc <? 0); [by eexists |]. eexists; split; [done |].
    intros ? ? [= <- <-]. split; [done |]. by apply is_cstr_str_copy, Forall_drop.
Qed.

(** ** Changes that keep the directories *)

Record dirs_kept (s1 : fs_state) (chains1 : gmap Z (list Z)) (dirs1 : gset Z)
    (s2 : fs_state) (chains2 : gmap Z (list Z)) (dirs2 : gset Z) : Prop := {
  dk_sub : dirs1 ⊆ dirs2;
  dk_plain : ∀ k i d, plain_at s1 chains1 dirs1 k i d → is_directory d = true →
    ∃ j d', plain_at s2 chains2 dirs2 k j d' ∧ d_name d' = d_name d ∧ d_ext d' = d_ext d ∧
      is_directory d' = true ∧ d_first_cluster d' = d_first_cluster d;
  dk_dots : ∀ h d, h ∈ dirs1 → contents s1 chains1 (Some h) !! 1%nat = Some d →
    contents s2 chains2 (Some h) !! 1%nat = Some d;
  dk_cwd : cwd_dir s2 = cwd_dir s1
}.

Section kept.
Variables (s1 s2 : fs_state) (chains1 chains2 : gmap Z (list Z)) (dirs1 dirs2 : gset Z).
Hypothesis Ht1 : tree_ok s1 chains1 dirs1.
Hypothesis Ht2 : tree_ok s2 chains2 dirs2.
Hypothesis Hk : dirs_kept s1 chains1 dirs1 s2 chains2 dirs2.

Lemma dk_in k : dir_in dirs1 k → dir_in dirs2 k.
Proof. destruct k; [|done]. apply Hk. Qed.

Lemma walk_loop_kept fuel p dir dir' buf' len :
  is_cstr p → dir_in dirs1 (dkey dir) →
  walk_loop fuel s1 p dir None len = Some (0, dir', buf') →
  walk_loop fuel s2 p dir None len = Some (0, dir', buf').
Proof.
  revert p dir. induction fuel as [|fuel IH]; intros p dir Hp Hd; cbn [walk_loop]; [done |].
  destruct (strlen p =? 0); [done |].
  set (p' := skip_slashes (drop (length (take_comp p 0)) p)).
  assert (Hp' : is_cstr p') by (by apply is_cstr_skip_slashes, Forall_drop).
  destruct (_ || _); [by apply IH |]. destruct (str_eq_local _ _).
  - destruct (is_root dir) eqn:Hroot; cbn [negb fmap option_fmap option_map]; [by apply IH |].
    rewrite (dir_scan_key s1 chains1 dirs1 None None Ht1) by done.
    rewrite (dir_scan_key s2 chains2 dirs2 None None Ht2) by (by apply dk_in).
    unfold dkey in *. rewrite Hroot in *. cbn in Hd.
    destruct (find_dotdot _ _ _ _ _ Ht1 _ Hd) as (q & -> & Hq & H1).
    destruct (find_dotdot _ _ _ _ _ Ht2 (dir_cluster dir)) as (q2 & -> & _ & H2); [by apply Hk |].
    apply (dk_dots _ _ _ _ _ _ Hk) in H1; [|done]. rewrite H1 in H2. injection H2 as <-.
    cbn [fmap option_fmap option_map]. apply IH; [done |].
    cbn [d_first_cluster dotdot_entry new_dirent]. by apply (dotdot_target dirs1 (dir_cluster dir)).
  - pose proof (split_name_user _ (is_cstr_take_comp p 0 Hp)) as Hu.
    destruct (split_name (take_comp p 0)) as [n e3]. cbn [fst snd] in Hu.
    rewrite (dir_scan_key s1 chains1 dirs1 None None Ht1) by done.
    rewrite (dir_scan_key s2 chains2 dirs2 None None Ht2) by (by apply dk_in).
    destruct (find_key s1 chains1 (dkey dir) n e3) as [[i d]|] eqn:Hf; [|done].
    apply (find_key_plain _ _ _ _ _ Ht1) in Hf as (Hpl & Hn & He); [|done..].
    cbn [fmap option_fmap option_map].
    destruct (Z.land (d_attr d) FS_ATTR_DIRECTORY =? 0) eqn:Hattr; [done |].
    assert (is_directory d = true) as Hdir by (unfold is_directory; by rewrite Hattr).
    destruct (dk_plain _ _ _ _ _ _ Hk _ _ _ Hpl Hdir) as (j & d' & Hpl' & Hn' & He' & Hdir' & Hfc).
    assert (find_key s2 chains2 (dkey dir) n e3 = Some (j, d')) as ->.
    { apply (find_key_plain _ _ _ _ _ Ht2); [by apply dk_in | done |]. split_and!; congruence || done. }
    cbn [fmap option_fmap option_map]. unfold is_directory in Hdir'.
    destruct (Z.land (d_attr d') FS_ATTR_DIRECTORY =? 0); [done |]. rewrite Hfc.
    apply IH; [done |]. cbn. by eapply (entry_target _ _ _ _ _ Ht1).
Qed.

(** A path that resolved keeps its parent directory. *)
Lemma resolve_parent_kept path dr leaf :
  is_cstr path → resolve_parent s1 path = Some (Some (dr, leaf)) →
  resolve_parent s2 path = Some (Some (dr, leaf)).
Proof.
  intros Hp. unfold resolve_parent. rewrite (dk_cwd _ _ _ _ _ _ Hk).
  destruct (znth path 0 =? 0); [done |]. destruct (_ <? 0); [done |].
  set (dl := if DIRPART_LEN - 1 <? last_slash_loop path 0 (-1) + 1 then DIRPART_LEN - 1
             else last_slash_loop path 0 (-1) + 1). set (pt := ztake dl path).
  assert (Hpt : is_cstr pt) by (by apply Forall_take).
  destruct (walk_path_total s1 chains1 dirs1 pt (cwd_dir s1) None 0 Ht1 Hpt)
    as (rc & d1 & buf & Hw & Hrc & _); [apply Ht1 |]. rewrite Hw.
  destruct Hrc as [-> | ->]; [|done].
  assert (walk_path s2 pt (cwd_dir s1) None 0 = Some (0, d1, buf)) as ->; [|done].
  revert Hw. unfold walk_path. destruct (znth pt 0 =? 47).
  - apply walk_loop_kept; [|done]. destruct Hpt; [constructor | done].
  - apply walk_loop_kept; [done | apply Ht1].
Qed.
End kept.
