(* ===== verification/FsView.v ===== *)
(** * The abstract file system: what every name of every directory denotes,
    and how a change of one slot changes it. *)
From S2P Require Import Prelude FsLayout Disk Dirent Fat ChainMap Directory RootDir DirView.
From S2P Require Import Path Fs Tree Walk.

(** ** Nodes and the view *)

Inductive node :=
| File (bytes : list Z)
| Dir (head : Z).

Definition name83 : Type := list Z * list Z.

(** The bytes of a chain of clusters. *)
Definition chain_bytes (s : fs_state) (cs : list Z) : list Z := concat (map (csec s) cs).

Definition file_data (s : fs_state) (chains : gmap Z (list Z)) (d : fs_dirent) : list Z :=
  take (Z.to_nat (d_file_size d)) (chain_bytes s (default [] (chains !! d_first_cluster d))).

Definition node_of (s : fs_state) (chains : gmap Z (list Z)) (d : fs_dirent) : node :=
  if is_directory d then Dir (d_first_cluster d) else File (file_data s chains d).

(** What name [nm] denotes in the directory with key [k]. *)
Definition view (s : fs_state) (chains : gmap Z (list Z)) (k : option Z) (nm : name83) : option node :=
  (λ x, node_of s chains x.2) <$> find_key s chains k nm.1 nm.2.

(** The name of an entry. *)
Definition entry_name (d : fs_dirent) : name83 := (d_name d, d_ext d).

Lemma view_at s chains dirs hole pend k i d :
  vol_tree s chains dirs hole pend →
  plain_at s chains dirs k i d → user_name (d_name d) (d_ext d) →
  view s chains k (entry_name d) = Some (node_of s chains d).
Proof.
  intros Ht Hp Hu. unfold view. cbn [entry_name fst snd].
  assert (find_key s chains k (d_name d) (d_ext d) = Some (i, d)) as ->; [|done].
  apply (find_key_plain _ _ _ _ _ Ht); [apply Hp | done | done].
Qed.

Lemma plain_user_name s chains dirs k i d :
  state_ok s → plain_at s chains dirs k i d → user_name (d_name d) (d_ext d).
Proof.
  intros Hs (_ & Hi & _ & Hp). pose proof (contents_ok s chains k Hs) as Hok.
  rewrite Forall_forall in Hok.
  destruct (Hok d) as []; [by eapply list_elem_of_lookup_2 |]. by split_and!.
Qed.

(** A name that denotes a directory leads into the tree. *)
Lemma view_dir_in s chains dirs k nm h :
  tree_ok s chains dirs → dir_in dirs k → user_name nm.1 nm.2 →
  view s chains k nm = Some (Dir h) → h ∈ dirs.
Proof.
  intros Ht Hk Hu. unfold view. destruct (find_key s chains k nm.1 nm.2) as [[i d]|] eqn:Hf; [|done].
  cbn. unfold node_of. destruct (is_directory d) eqn:Hd; [|done]. intros [= <-].
  apply (find_key_plain _ _ _ _ _ Ht) in Hf as (Hp & _); [|done..].
  assert (slot_in s chains dirs None k i d) as Hs by done.
  pose proof (vt_entry _ _ _ _ _ Ht _ _ _ Hs) as He. unfold entry_ok in He. by rewrite Hd in He.
Qed.

(** ** Changes *)

(** Between two states, the only plain slot that changes is [(k, i)], which
    holds [e] afterwards. *)
Record slot_change (s : fs_state) (chains : gmap Z (list Z)) (dirs : gset Z)
    (s' : fs_state) (chains' : gmap Z (list Z)) (dirs' : gset Z)
    (k : option Z) (i : nat) (e : fs_dirent) : Prop := {
  sc_in : dir_in dirs k;
  sc_in' : dir_in dirs' k;
  sc_plain : ∀ k' j d', plain_at s' chains' dirs' k' j d' ↔
    ((k', j) = (k, i) ∧ d' = e ∧ plain e) ∨
    ((k', j) ≠ (k, i) ∧ plain_at s chains dirs k' j d');
  sc_dots : ∀ h d, h ∈ dirs → h ∈ dirs' → contents s chains (Some h) !! 1%nat = Some d →
    contents s' chains' (Some h) !! 1%nat = Some d;
  sc_cwd : cwd_dir s' = cwd_dir s;
  sc_path : cwd_path s' = cwd_path s
}.

(** The chains of all files but [ex] keep their clusters and their bytes. *)
Definition files_kept (s : fs_state) (chains : gmap Z (list Z)) (dirs : gset Z)
    (s' : fs_state) (chains' : gmap Z (list Z)) (ex : option Z) : Prop :=
  ∀ h cs, chains !! h = Some cs → h ∉ dirs → ex ≠ Some h →
    chains' !! h = Some cs ∧ (∀ c, c ∈ cs → csec s' c = csec s c).

Lemma files_kept_refl s chains dirs ex : files_kept s chains dirs s chains ex.
Proof. intros h cs Hcs _ _. done. Qed.

Lemma files_kept_trans s1 c1 s2 c2 s3 c3 dirs ex :
  files_kept s1 c1 dirs s2 c2 ex → files_kept s2 c2 dirs s3 c3 ex → files_kept s1 c1 dirs s3 c3 ex.
Proof.
  intros H12 H23 h cs Hcs Hd Hex. destruct (H12 h cs Hcs Hd Hex) as [Hcs2 Hb2].
  destruct (H23 h cs Hcs2 Hd Hex) as [Hcs3 Hb3]. split; [done |].
  intros c Hc. rewrite Hb3 by done. auto.
Qed.

Lemma files_kept_weaken s chains dirs s' chains' ex :
  files_kept s chains dirs s' chains' None → files_kept s chains dirs s' chains' ex.
Proof. intros Hk h cs Hcs Hd _. by apply Hk. Qed.

(** Only the chain map and the data sectors matter. *)
Lemma files_kept_csec s chains dirs s' chains' ex :
  (∀ h cs, chains !! h = Some cs → ∀ x, x ∈ cs → data_cluster x) →
  (∀ h, h ∉ dirs → ex ≠ Some h → is_Some (chains !! h) → chains' !! h = chains !! h) →
  (∀ c, data_cluster c → csec s' c = csec s c) →
  files_kept s chains dirs s' chains' ex.
Proof.
  intros Hd Hc Hs h cs Hcs Hn Hex. rewrite Hc by (done || by exists cs). split; [done |].
  intros c Hin. by eapply Hs, Hd.
Qed.

Lemma chain_bytes_congr s s' cs :
  (∀ c, c ∈ cs → csec s' c = csec s c) → chain_bytes s' cs = chain_bytes s cs.
Proof.
  intros Hc. unfold chain_bytes. f_equal. apply map_ext_in.
  intros c Hin%list_elem_of_In. auto.
Qed.

Lemma node_of_kept s chains dirs s' chains' ex d :
  files_kept s chains dirs s' chains' ex → entry_ok chains dirs d →
  (d_first_cluster d ≠ 0 → ex ≠ Some (d_first_cluster d)) →
  chains !! 0 = None → chains' !! 0 = None →
  node_of s' chains' d = node_of s chains d.
Proof.
  intros Hk He Hex H0 H0'. unfold node_of, entry_ok in *. destruct (is_directory d); [done |].
  unfold file_data. do 2 f_equal. destruct He as [[Hz Hs]|(cs & Hcs & Hn & _)].
  - by rewrite Hz, H0, H0'.
  - destruct (decide (d_first_cluster d = 0)) as [Hz|Hz]; [by rewrite Hz, H0 in Hcs |].
    destruct (Hk _ _ Hcs Hn (Hex Hz)) as [-> Hb]. rewrite Hcs. cbn. by apply chain_bytes_congr.
Qed.

Section view_change.
Variables (s s' : fs_state) (chains chains' : gmap Z (list Z)) (dirs dirs' : gset Z).
Variables (k : option Z) (i : nat) (e : fs_dirent) (ex : option Z).
Hypothesis Ht : tree_ok s chains dirs.
Hypothesis Ht' : tree_ok s' chains' dirs'.
Hypothesis Hsc : slot_change s chains dirs s' chains' dirs' k i e.
Hypothesis Hkept : files_kept s chains dirs s' chains' ex.
(** [ex] is at most the chain of the entry that was in the slot. *)
Hypothesis Hex : ∀ h, ex = Some h → h ≠ 0 → ∃ d, plain_at s chains dirs k i d ∧ d_first_cluster d = h.

Lemma chains_zero : chains !! 0 = None.
Proof.
  destruct (chains !! 0) as [cs|] eqn:Hcs; [|done].
  by destruct (vt_chain_nonzero _ _ _ _ _ Ht _ _ Hcs).
Qed.

Lemma chains_zero' : chains' !! 0 = None.
Proof.
  destruct (chains' !! 0) as [cs|] eqn:Hcs; [|done].
  by destruct (vt_chain_nonzero _ _ _ _ _ Ht' _ _ Hcs).
Qed.

Lemma node_of_other k' j d :
  plain_at s chains dirs k' j d → (k', j) ≠ (k, i) →
  node_of s' chains' d = node_of s chains d.
Proof.
  intros Hp Hne. assert (slot_in s chains dirs None k' j d) as Hs by (by split).
  apply (node_of_kept s chains dirs _ _ ex); [done | by eapply (vt_entry _ _ _ _ _ Ht) | |
    apply chains_zero | apply chains_zero'].
  intros Hnz Heq. destruct (Hex _ Heq Hnz) as (d0 & Hp0 & Hf0). apply Hne.
  by apply (vt_uniq _ _ _ _ _ Ht k' j d k i d0).
Qed.

(** The new entry is visible under its name. *)
Lemma view_new : plain e → view s' chains' k (entry_name e) = Some (node_of s' chains' e).
Proof.
  intros Hp. assert (plain_at s' chains' dirs' k i e) as Hpl by (apply Hsc; by left).
  eapply view_at; [done | done |]. eapply plain_user_name; [apply Ht' | done].
Qed.

(** Every name other than those of the old and the new entry of the slot
    denotes what it did before. *)
Lemma view_other k' nm :
  dir_in dirs k' → dir_in dirs' k' → user_name nm.1 nm.2 →
  (k' = k → plain e → nm ≠ entry_name e) →
  (∀ d, k' = k → plain_at s chains dirs k i d → nm ≠ entry_name d) →
  view s' chains' k' nm = view s chains k' nm.
Proof.
  intros Hk Hk' Hu Hne Hno. unfold view.
  destruct (find_key s chains k' nm.1 nm.2) as [[j d]|] eqn:Hf.
  - apply (find_key_plain _ _ _ _ _ Ht) in Hf as (Hp & Hn & He); [|done..].
    assert ((k', j) ≠ (k, i)) as Hji.
    { intros [= -> ->]. apply (Hno d); [done | done |]. destruct nm. unfold entry_name. cbn in *.
      congruence. }
    assert (find_key s' chains' k' nm.1 nm.2 = Some (j, d)) as ->.
    { apply (find_key_plain _ _ _ _ _ Ht'); [done | done |]. split_and!; try done.
      apply Hsc. by right. }
    cbn. f_equal. by eapply node_of_other.
  - assert (find_key s' chains' k' nm.1 nm.2 = None) as ->; [|done].
    apply (find_key_none _ _ _ _ _ Ht'); [done | done |]. intros j d Hp Hn He.
    apply Hsc in Hp as [([= -> ->] & -> & Hpe)|[Hji Hp]].
    + apply (Hne eq_refl Hpe). destruct nm. unfold entry_name. cbn in *. congruence.
    + rewrite (find_key_none _ _ _ _ _ Ht) in Hf by done. by eapply Hf.
Qed.

(** A name that is gone. *)
Lemma view_gone d :
  plain_at s chains dirs k i d → (plain e → entry_name e ≠ entry_name d) →
  view s' chains' k (entry_name d) = None.
Proof.
  intros Hp Hne. pose proof (plain_user_name _ _ _ _ _ _ (vt_state _ _ _ _ _ Ht) Hp) as Hu.
  unfold view. cbn [entry_name fst snd].
  assert (find_key s' chains' k (d_name d) (d_ext d) = None) as ->; [|done].
  apply (find_key_none _ _ _ _ _ Ht'); [apply Hsc | done |]. intros j d' Hp' Hn He.
  apply Hsc in Hp' as [(_ & -> & Hpe)|[Hji Hp']].
  - apply (Hne Hpe). unfold entry_name. congruence.
  - apply Hji. f_equal. by eapply (vt_names _ _ _ _ _ Ht k j d' i d).
Qed.

(** Directories survive when the slot did not hold one, or still does. *)
Lemma slot_change_dirs_kept :
  dirs ⊆ dirs' →
  (∀ d, plain_at s chains dirs k i d → is_directory d = false) →
  dirs_kept s chains dirs s' chains' dirs'.
Proof.
  intros Hsub Hfile. split; [done | | |apply Hsc].
  - intros k' j d Hp Hd. assert ((k', j) ≠ (k, i)) as Hne.
    { intros [= -> ->]. apply Hfile in Hp. congruence. }
    exists j, d. split_and!; try done. apply Hsc. by right.
  - intros h d Hh Hd. eapply sc_dots; [done | done | by apply Hsub | done].
Qed.
End view_change.
