(* ===== verification/FsCreate.v ===== *)
(** * Slot allocation and [fs_create] on a well-formed volume. *)
From S2P Require Import Prelude FsLayout Disk Dirent Fat ChainMap Directory RootDir DirView.
From S2P Require Import Path Fs Tree Walk FsView.

(** ** One slot written, on top of any prepared state *)

Lemma dir_effect_kept s s' chains dirs hole pend k l ex :
  vol_tree s chains dirs hole pend → dir_in dirs k → dir_effect s s' chains k l →
  files_kept s chains dirs s' chains ex.
Proof.
  intros Ht Hk He h cs Hcs Hn _. split; [done |]. intros c Hc.
  apply (de_csec _ _ _ _ _ He); [by eapply (fw_data _ _ (vt_fat _ _ _ _ _ Ht)) |].
  intros h' cs' -> Hcs' Hc'. apply Hn.
  by rewrite (fw_disj _ _ (vt_fat _ _ _ _ _ Ht) h h' cs cs' c).
Qed.

(** The state before the slot write may already differ from the reference
    state [s0] in anything but its plain slots. *)
Record prepared (s0 : fs_state) (chains0 : gmap Z (list Z)) (dirs : gset Z)
    (s : fs_state) (chains : gmap Z (list Z)) : Prop := {
  pr_plain : ∀ k j d, plain_at s chains dirs k j d ↔ plain_at s0 chains0 dirs k j d;
  pr_dots : ∀ h d, h ∈ dirs → contents s0 chains0 (Some h) !! 1%nat = Some d →
    contents s chains (Some h) !! 1%nat = Some d;
  pr_cwd : cwd_dir s = cwd_dir s0;
  pr_path : cwd_path s = cwd_path s0
}.

Lemma prepared_refl s chains dirs : prepared s chains dirs s chains.
Proof. by split. Qed.

Lemma prepared_trans s0 c0 s1 c1 s2 c2 dirs :
  prepared s0 c0 dirs s1 c1 → prepared s1 c1 dirs s2 c2 → prepared s0 c0 dirs s2 c2.
Proof.
  intros [Hp Hd Hc Hpa] [Hp' Hd' Hc' Hpa']. split; [|auto|congruence..].
  intros k j d. by rewrite Hp', Hp.
Qed.

(** A change that keeps the contents of all directories. *)
Lemma prepared_contents s0 c0 s1 c1 dirs :
  (∀ k, dir_in dirs k → contents s1 c1 k = contents s0 c0 k) →
  cwd_dir s1 = cwd_dir s0 → cwd_path s1 = cwd_path s0 → prepared s0 c0 dirs s1 c1.
Proof.
  intros Hc H1 H2. split; try done.
  - intros k j d. unfold plain_at. split; intros (Hk & Hj & Hp); split_and!; try done.
    + by rewrite <- Hc.
    + by rewrite Hc.
  - intros h d Hh Hd. by rewrite (Hc (Some h)).
Qed.

Lemma write_slot_change s0 chains0 s chains s' dirs hole pend k i d e :
  vol_tree s chains dirs hole pend → prepared s0 chains0 dirs s chains →
  dir_in dirs k → contents s chains k !! i = Some d →
  (dirent_unused d = true ∨ plain d) →
  dir_effect s s' chains k (<[i := e]> (contents s chains k)) →
  slot_change s0 chains0 dirs s' chains dirs k i e.
Proof.
  intros Ht Hpr Hk Hi Hd He. split; try done.
  - intros k' j d'. rewrite (plain_at_updated s s' chains k i d e) by done.
    by rewrite (pr_plain _ _ _ _ _ Hpr).
  - intros h x Hh _ Hx. apply (pr_dots _ _ _ _ _ Hpr) in Hx; [|done].
    apply (lookup_updated s s' chains k i d e); [done.. |]. right. split; [|done].
    intros [= <- <-]. destruct (vt_dot_slot _ _ _ _ _ Ht h 1 d Hh) as [Hn Hu]; [lia | done |].
    destruct Hd; [congruence | done].
  - rewrite (de_cwd _ _ _ _ _ He). apply Hpr.
  - rewrite (de_path _ _ _ _ _ He). apply Hpr.
Qed.

(** ** Finding a slot *)

Lemma find_free_prepared s chains dirs hole pend dr :
  vol_tree s chains dirs hole pend → dir_in dirs (dkey dr) →
  ∃ r s1, dir_find_free s dr = Some (r, s1) ∧
  ((r = inr tt ∧ s1 = s ∧
    Forall (λ d, dirent_unused d = false) (contents s chains (dkey dr)) ∧
    (dkey dr = None ∨ free_count (fs_disk s) = 0)) ∨
   (∃ chains1 i d, r = inl (slot_loc chains1 dr i) ∧ vol_tree s1 chains1 dirs hole pend ∧
      contents s1 chains1 (dkey dr) !! i = Some d ∧ dirent_unused d = true ∧
      prepared s chains dirs s1 chains1 ∧ files_kept s chains dirs s1 chains1 None ∧
      ∀ h, h ∉ dirs → contents s1 chains1 (Some h) = contents s chains (Some h))).
Proof.
  intros Ht Hk.
  destruct (dir_find_free_spec s chains dr) as ([r s1] & Hr & Hs);
    [apply Ht | apply Ht | by eapply vt_good |].
  exists r, s1. split; [done |].
  inversion Hs as [i d Hf|Hfull Hwhy|h cs n s2 Hfull Hdk Hcs Hn Hfree chains1 Hok Hwf Hc Ho Hsec Hcwd Hpath];
    subst.
  - right. apply list_find_Some in Hf as (Hi & Hu & _).
    exists chains, i, d. split_and!; auto using prepared_refl, files_kept_refl.
  - left. split_and!; try done. destruct Hwhy as [?|Hno]; [by left | right].
    by apply free_count_zero.
  - right. rewrite Hdk in *. cbn in Hk.
    assert (Ht1 : vol_tree s1 chains1 dirs hole pend) by (by eapply vol_tree_grow).
    assert (Hz : contents s1 chains1 (Some h) !! (length cs * 16)%nat = Some zero_dirent).
    { rewrite Hc, lookup_app_r; rewrite (length_contents_sub _ _ _ _ Hcs); [|lia].
      by rewrite Nat.sub_diag. }
    exists chains1, (length cs * 16)%nat, zero_dirent. split_and!; try done.
    + split; try done.
      * intros k j d. unfold plain_at. destruct (decide (k = Some h)) as [->|Hne]; [|by rewrite Ho].
        rewrite Hc. split; intros (Hk' & Hj & Hp); split_and!; try done.
        -- apply lookup_app_Some in Hj as [Hj|[_ Hj]]; [done |].
           apply lookup_replicate in Hj as [-> _]. by destruct Hp.
        -- by apply lookup_app_l_Some.
      * intros h' d Hh' Hd. destruct (decide (h' = h)) as [->|Hne].
        -- rewrite Hc. by apply lookup_app_l_Some.
        -- by rewrite Ho by congruence.
    + intros h' cs' Hcs' Hn' _. unfold chains1. rewrite lookup_insert_ne by (by intros <-).
      split; [done |]. intros c Hc'. pose proof (vt_fat _ _ _ _ _ Ht) as Hwf0.
      apply Hsec; [by eapply (fw_data _ _ Hwf0) |]. intros ->.
      by destruct (fw_fresh_notin _ _ Hwf0 n h' cs').
    + intros h' Hh'. apply Ho. intros [= ->]. done.
Qed.

(** ** [fs_create] *)

Lemma new_dirent_ok n e attr first size :
  user_name n e ∨ (n = DOT_NAME ∧ e = EMPTY_EXT) → is_u8 attr → is_u16 first → is_u32 size →
  dirent_ok (new_dirent n e attr first size).
Proof.
  intros Hn Ha Hf Hs. assert (length n = 8%nat ∧ Forall is_u8 n ∧ length e = 3%nat ∧ Forall is_u8 e)
    as (? & ? & ? & ?).
  { destruct Hn as [(?&?&?&?&?)|[-> ->]]; [done |]. split_and!; try done; by repeat apply Forall_cons_2. }
  split; cbn; try done. by apply (replicate_bytes 10 0).
Qed.

(** A name made from a C string is unused only when it starts with the
    deleted mark. *)
Definition name_usable (n : list Z) : Prop := znth n 0 ≠ FS_DIRENT_DELETED.

Lemma split_name_nonzero s : is_cstr s → znth (split_name s).1 0 ≠ 0.
Proof.
  intros Hs. rewrite split_name_fields. cbn [fst]. destruct Hs as [|c s Hc Hs]; [done |].
  cbn [up_field]. destruct (base_stop c); [done |]. destruct (to_upper_byte c Hc) as [Hb Hu].
  change (u8 (to_upper c) ≠ 0). lia.
Qed.

Lemma new_plain n e attr first size :
  user_name n e → znth n 0 ≠ 0 → name_usable n → plain (new_dirent n e attr first size).
Proof.
  intros (_ & _ & _ & _ & Hdot) H0 Hu. split; [|done].
  unfold dirent_unused. cbn [d_name new_dirent]. unfold name_usable in Hu. unfold_layout. lia.
Qed.

Lemma new_unused n e attr first size :
  ¬ name_usable n → dirent_unused (new_dirent n e attr first size) = true.
Proof. unfold name_usable, dirent_unused. cbn [d_name new_dirent]. unfold_layout. lia. Qed.

Section create.
Variables (s : fs_state) (chains : gmap Z (list Z)) (dirs : gset Z).
Variables (path : cstr) (dr : dir_ref) (leaf : cstr).
Hypothesis Ht : tree_ok s chains dirs.
Hypothesis Hres : resolve_parent s path = Some (Some (dr, leaf)).
Hypothesis Hdr : dir_in dirs (dkey dr).
Hypothesis Hleaf : is_cstr leaf.

Let n := (split_name leaf).1.
Let e := (split_name leaf).2.

(** The three outcomes of [fs_create] once the parent directory is known:
    the name is taken, there is no room, or a fresh entry was written. *)
Lemma fs_create_spec :
  ∃ rc s', fs_create s path = Some (rc, s') ∧
  ((rc = -1 ∧ s' = s ∧
     (leaf = [] ∨ is_Some (find_key s chains (dkey dr) n e) ∨
      Forall (λ d, dirent_unused d = false) (contents s chains (dkey dr)) ∧
      (dkey dr = None ∨ free_count (fs_disk s) = 0))) ∨
   (rc = 0 ∧ find_key s chains (dkey dr) n e = None ∧
    ∃ chains' i, tree_ok s' chains' dirs ∧
      slot_change s chains dirs s' chains' dirs (dkey dr) i (new_dirent n e FS_ATTR_NORMAL 0 0) ∧
      (∀ d, ¬ plain_at s chains dirs (dkey dr) i d) ∧
      files_kept s chains dirs s' chains' None)).
Proof.
  unfold fs_create. rewrite Hres.
  pose proof (split_name_user leaf Hleaf) as Hu. pose proof (split_name_nonzero leaf Hleaf) as H0.
  subst n e. destruct (split_name leaf) as [n e]. cbn [fst snd] in *.
  destruct (Z.eqb_spec (znth leaf 0) 0) as [Hl|Hl].
  { eexists _, _. split; [done |]. left. split_and!; try done. left.
    destruct Hleaf as [|c l Hc _]; [done |]. change (c = 0) in Hl. lia. }
  rewrite (dir_scan_key s chains dirs None None Ht) by done.
  destruct (find_key s chains (dkey dr) n e) as [[i d]|] eqn:Hf; cbn [fmap option_fmap option_map].
  { eexists _, _. split; [done |]. left. split_and!; try done. right. left. by eexists. }
  destruct (find_free_prepared s chains dirs None None dr Ht Hdr) as (r & s1 & -> & Hs1).
  destruct Hs1 as [(-> & -> & Hfull & Hwhy)|
    (chains1 & i & d & -> & Ht1 & Hi & Hun & Hpr & Hkept & _)].
  { eexists _, _. split; [done |]. left. split_and!; try done. right. right. auto. }
  eexists _, _. split; [done |]. right. split_and!; try done.
  set (ent := new_dirent n e FS_ATTR_NORMAL 0 0).
  assert (Hent : dirent_ok ent) by (apply new_dirent_ok; [by left | by vm_compute..]).
  pose proof (dir_write_spec s1 chains1 dr (vt_state _ _ _ _ _ Ht1) (vt_fat _ _ _ _ _ Ht1) i ent
    (vt_good _ _ _ _ _ Ht1 _ Hdr) ltac:(by eapply lookup_lt_Some) Hent) as He.
  assert (Hno : ∀ j d', plain_at s1 chains1 dirs (dkey dr) j d' →
    d_name d' = n → d_ext d' = e → False).
  { intros j d' Hp%(pr_plain _ _ _ _ _ Hpr).
    intros Hn He'. rewrite (find_key_none s chains dirs None None Ht) in Hf by done.
    by eapply Hf. }
  exists chains1, i. split_and!.
  - eapply (vol_tree_close s1 _ chains1 dirs dirs None None (dkey dr) i d ent);
      [done | done | done | by right | done | done | auto |].
    destruct (decide (name_usable n)) as [Hus|Hus]; [right | left].
    + split_and!; [by apply new_plain | by left | by left |]. intros j d' _. apply Hno.
    + split; [by apply new_unused | done].
  - eapply write_slot_change; [done | done | done | done | by left | done].
  - intros d' Hp%(pr_plain _ _ _ _ _ Hpr). destruct Hp as (_ & Hi' & [Hu' _]). congruence.
  - eapply files_kept_trans; [done |]. by eapply dir_effect_kept.
Qed.
End create.
