(* ===== verification/FsData.v ===== *)
(** * The cluster loops of [fs_write], [fs_append] and [fs_read]: what they do
    to the chain that is being built or read. *)
From S2P Require Import Prelude FsLayout Disk Dirent Fat ChainMap Directory RootDir DirView.
From S2P Require Import Path Fs Tree Walk FsView FsCreate.

(** ** Filling a sector *)

Lemma put_bytes_app buf bytes : ∀ pre,
  (length bytes ≤ length buf)%nat →
  put_bytes (pre ++ buf) (zlen pre) bytes = pre ++ bytes ++ drop (length bytes) buf.
Proof.
  revert buf. induction bytes as [|b bytes IH]; intros buf pre Hl; cbn [put_bytes length drop]; [done |].
  destruct buf as [|x buf]; cbn in Hl; [lia |].
  assert (zset (pre ++ x :: buf) (zlen pre) b = (pre ++ [b]) ++ buf) as ->.
  { unfold zset, zlen. rewrite Nat2Z.id. rewrite insert_app_r_alt, Nat.sub_diag by lia.
    by rewrite <- app_assoc. }
  replace (zlen pre + 1) with (zlen (pre ++ [b])) by (unfold zlen; rewrite length_app; cbn; lia).
  rewrite IH by lia. by rewrite <- app_assoc.
Qed.

Lemma put_bytes_splice buf bytes off :
  0 ≤ off → off + zlen bytes ≤ zlen buf →
  put_bytes buf off bytes = ztake off buf ++ bytes ++ zdrop (off + zlen bytes) buf.
Proof.
  intros Ho Hl. unfold zlen in *. rewrite <- (take_drop (Z.to_nat off) buf) at 1.
  assert (zlen (take (Z.to_nat off) buf) = off) as Hz by (unfold zlen; rewrite length_take; lia).
  rewrite <- Hz at 3. rewrite put_bytes_app by (rewrite length_drop; lia).
  rewrite drop_drop. unfold ztake, zdrop. do 3 f_equal. lia.
Qed.

(** A copy that stays in the buffer is the unchecked one. *)
Lemma copy_bytes_in bytes : ∀ buf off,
  0 ≤ off → off + zlen bytes ≤ zlen buf → copy_bytes buf off bytes = Some (put_bytes buf off bytes).
Proof.
  induction bytes as [|b bytes IH]; intros buf off Ho Hl; cbn [copy_bytes put_bytes]; [done |].
  assert (zlen (b :: bytes) = 1 + zlen bytes) as Hz by (unfold zlen; cbn [length]; lia).
  assert (0 ≤ zlen bytes) by (unfold zlen; lia).
  rewrite zstore_in by lia. apply IH; rewrite ?zlen_zset; lia.
Qed.

Lemma length_put_bytes buf off bs : zlen (put_bytes buf off bs) = zlen buf.
Proof.
  revert buf off. induction bs as [|b bs IH]; intros buf off; cbn [put_bytes]; [done |].
  by rewrite IH, zlen_zset.
Qed.

(** A sector with [chunk] bytes of [data] from [w] on, and zeros. *)
Definition filled (data : list Z) (w chunk : Z) : sector :=
  ztake chunk (zdrop w data) ++ replicate (Z.to_nat (512 - chunk)) 0.

Lemma fill_sector_eq data w chunk :
  0 ≤ w → 0 ≤ chunk ≤ 512 → w + chunk ≤ zlen data →
  fill_sector data w chunk = Some (filled data w chunk).
Proof.
  intros Hw Hc Hl. unfold fill_sector. change FS_BYTES_PER_SECTOR with 512.
  assert (zlen (ztake chunk (zdrop w data)) = chunk) as Hz.
  { apply length_ztake. unfold zlen, zdrop in *. rewrite length_drop. lia. }
  assert (off_ok : 0 + zlen (ztake chunk (zdrop w data)) ≤ zlen (replicate (Z.to_nat 512) 0))
    by (rewrite Hz; unfold zlen; rewrite length_replicate; lia).
  rewrite copy_bytes_in, put_bytes_splice by (done || lia). unfold filled. f_equal.
  rewrite Hz. change (ztake 0 ?l) with (@nil Z). cbn [app]. f_equal.
  unfold zdrop at 1. rewrite drop_replicate. f_equal. lia.
Qed.

Lemma filled_ok data w chunk :
  Forall is_u8 data → 0 ≤ w → 0 ≤ chunk ≤ 512 → w + chunk ≤ zlen data →
  sector_ok (filled data w chunk).
Proof.
  intros Hd Hw Hc Hl. unfold filled. split.
  - unfold ztake, zdrop, zlen in *.
    rewrite length_app, length_take, length_drop, length_replicate. lia.
  - apply Forall_app. split; [by apply Forall_take, Forall_drop |]. by apply replicate_bytes.
Qed.

(** ** One round: allocate, link, write *)

Definition pend_of (first : Z) : option Z := if first =? 0 then None else Some first.

(** The chain built so far: none, or the one that starts at [first] and ends
    at [prev]. *)
Definition pend_chain (chains : gmap Z (list Z)) (first prev : Z) (cs : list Z) : Prop :=
  first = 0 ∧ prev = 0 ∧ cs = [] ∨
  first ≠ 0 ∧ chains !! first = Some cs ∧ last cs = Some prev.

(** All chains but [ex] keep their clusters and bytes; the root does too. *)
Record chains_kept (s : fs_state) (chains : gmap Z (list Z)) (ex : option Z)
    (s' : fs_state) (chains' : gmap Z (list Z)) : Prop := {
  ck_root : root s' = root s;
  ck_cwd : cwd_dir s' = cwd_dir s;
  ck_path : cwd_path s' = cwd_path s;
  ck_chain : ∀ h cs, chains !! h = Some cs → ex ≠ Some h → chains' !! h = Some cs;
  ck_bytes : ∀ h cs c, chains !! h = Some cs → ex ≠ Some h → c ∈ cs → csec s' c = csec s c
}.

Lemma chains_kept_refl s chains ex : chains_kept s chains ex s chains.
Proof. by split. Qed.

Lemma chains_kept_trans s1 c1 s2 c2 s3 c3 ex :
  chains_kept s1 c1 ex s2 c2 → chains_kept s2 c2 ex s3 c3 → chains_kept s1 c1 ex s3 c3.
Proof.
  intros [Hr Hc Hp Hch Hb] [Hr' Hc' Hp' Hch' Hb']. split; try congruence; auto.
  intros h cs c Hcs Hex Hin. rewrite (Hb' h cs) by auto. by apply (Hb h cs).
Qed.

Lemma chains_kept_files s chains ex s' chains' dirs :
  chains_kept s chains ex s' chains' → files_kept s chains dirs s' chains' ex.
Proof. intros Hk h cs Hcs _ Hex. split; [by apply Hk |]. intros c Hc. by eapply ck_bytes. Qed.

Lemma chains_kept_prepared s chains ex s' chains' dirs :
  chains_kept s chains ex s' chains' → (∀ h, h ∈ dirs → is_Some (chains !! h)) →
  (∀ h, ex = Some h → h ∉ dirs) → prepared s chains dirs s' chains'.
Proof.
  intros Hk Hd Hex. apply prepared_contents; [|apply Hk..].
  intros k Hkd. apply contents_frame; [apply Hk | |].
  - intros h ->. destruct (Hd h Hkd) as [cs Hcs]. rewrite Hcs. eapply ck_chain; [done.. |].
    intros He. by destruct (Hex h He).
  - intros h cs c -> Hcs Hc. eapply ck_bytes; [done.. | |done]. intros He. by destruct (Hex h He).
Qed.

Section grow_chain.
Variables (s : fs_state) (chains : gmap Z (list Z)) (dirs : gset Z).
Variables (hole : option (option Z * nat)) (first prev : Z) (cs : list Z).
Hypothesis Ht : vol_tree s chains dirs hole (pend_of first).
Hypothesis Hpc : pend_chain chains first prev cs.

(** The chain after linking [c]. *)
Definition first_of (c : Z) : Z := if first =? 0 then c else first.

Lemma grow_chain c d1 b :
  data_cluster c → fat s c = FS_CLUSTER_FREE → sector_ok b →
  fat_effect (fs_disk s) d1 (fupd (fat s) c FS_CLUSTER_EOC) →
  let d2 := if first =? 0 then d1 else fat_write d1 prev c in
  let s' := set_disk (disk_write_sector d2 (cluster_to_lba c) b) s in
  let chains' := <[first_of c := cs ++ [c]]> chains in
  first_of c ≠ 0 ∧ (first = 0 → chains !! c = None) ∧
  vol_tree s' chains' dirs hole (Some (first_of c)) ∧ csec s' c = b ∧ (c ∉ cs) ∧
  chains_kept s chains (Some (first_of c)) s' chains' ∧
  ∀ x, x ∈ cs → csec s' x = csec s x.
Proof.
  intros Hc Hfree Hb He d2 s' chains'. unfold first_of in *.
  pose proof (vt_fat _ _ _ _ _ Ht) as Hwf.
  assert (Hcs_data : ∀ x, x ∈ cs → data_cluster x ∧ x ≠ c).
  { intros x Hx. destruct Hpc as [(_ & _ & ->)|(_ & Hcs & _)]; [by apply not_elem_of_nil in Hx |].
    split; [by eapply (fw_data _ _ Hwf) |]. intros ->. by destruct (fw_fresh_notin _ _ Hwf c first cs). }
  assert ((if first =? 0 then c else first) ≠ 0 ∧
    vol_tree (set_disk d2 s) chains' dirs hole (Some (if first =? 0 then c else first)) ∧
    ∀ x, data_cluster x → csec (set_disk d2 s) x = csec s x) as (Hf0 & Ht2 & Hsec2).
  { subst d2 chains'. unfold pend_of in Ht.
    destruct Hpc as [(-> & -> & ->)|(Hnz & Hcs & Hl)].
    - cbn. split; [region |]. by apply (vol_tree_alloc s chains dirs hole c d1).
    - destruct (Z.eqb_spec first 0); [done |]. split; [done |].
      by apply (vol_tree_extend s chains dirs hole first cs prev c d1). }
  destruct (vol_tree_data (set_disk d2 s) chains' dirs hole
    (if first =? 0 then c else first) (cs ++ [c]) c b Ht2) as (Ht' & Hsc & Hso);
    [apply lookup_insert_eq | set_solver | done |].
  split_and!; try done.
  - intros _. by apply (fw_fresh _ _ Hwf).
  - intros Hin. by destruct (Hcs_data c Hin).
  - split; try done.
    + intros h cs' Hcs' Hne. unfold chains'. rewrite lookup_insert_ne by congruence. done.
    + intros h cs' x Hcs' Hne Hx.
      assert (data_cluster x) by (by eapply (fw_data _ _ Hwf)).
      transitivity (csec (set_disk d2 s) x); [|by apply Hsec2]. apply Hso; [done |].
      intros ->. by destruct (fw_fresh_notin _ _ Hwf c h cs').
  - intros x Hx. destruct (Hcs_data x Hx) as [Hxd Hxc].
    transitivity (csec (set_disk d2 s) x); [|by apply Hsec2]. by apply Hso.
Qed.
End grow_chain.

(** ** The loop of [fs_append] *)

Definition chunk_of (size written : Z) : Z :=
  if u32 (size - written) <? FS_BYTES_PER_SECTOR then u32 (size - written) else FS_BYTES_PER_SECTOR.

Lemma chunk_of_eq size written :
  is_u32 size → 0 ≤ written ≤ size → chunk_of size written = Z.min (size - written) 512.
Proof.
  intros Hs Hw. unfold chunk_of. rewrite u32_small by (unfold is_u32 in *; lia).
  change FS_BYTES_PER_SECTOR with 512. destruct (Z.ltb_spec (size - written) 512); lia.
Qed.

Lemma clusters_for_step n : 512 ≤ n → clusters_for n = 1 + clusters_for (n - 512).
Proof.
  intros Hn. unfold clusters_for. replace (n + 511) with (n - 512 + 511 + 1 * 512) by lia.
  rewrite Z.div_add by lia. lia.
Qed.

Lemma clusters_for_small n : 0 < n ≤ 512 → clusters_for n = 1.
Proof. intros Hn. unfold clusters_for. symmetry. apply (Z.div_unique _ _ 1 (n - 1)); lia. Qed.

Lemma clusters_for_nonneg n : 0 ≤ n → 0 ≤ clusters_for n.
Proof. intros Hn. apply Z.div_pos; lia. Qed.

(** [new] holds the bytes of [data] from [w] to [w'], the last cluster padded. *)
Definition holds (s : fs_state) (new : list Z) (data : list Z) (w w' : Z) : Prop :=
  ∃ pad, chain_bytes s new = ztake (w' - w) (zdrop w data) ++ pad.

Lemma ztake_split (l : list Z) a b :
  0 ≤ a ≤ b → ztake b l = ztake a l ++ ztake (b - a) (zdrop a l).
Proof.
  intros Hab. unfold ztake, zdrop. rewrite <- (take_drop (Z.to_nat a) (take (Z.to_nat b) l)).
  rewrite take_take, take_drop_commute. f_equal; [f_equal; lia |]. f_equal. f_equal. lia.
Qed.

Lemma ztake_app_ge (l k : list Z) n : zlen l ≤ n → ztake n (l ++ k) = l ++ ztake (n - zlen l) k.
Proof. unfold zlen, ztake. intros Hn. rewrite take_app_ge by lia. do 2 f_equal. lia. Qed.

Lemma ztake_app_exact (l k : list Z) n : zlen l = n → ztake n (l ++ k) = l.
Proof. unfold zlen, ztake. intros Hn. apply take_app_exact. lia. Qed.

Lemma zdrop_zdrop (l : list Z) a b : 0 ≤ a → 0 ≤ b → zdrop a (zdrop b l) = zdrop (b + a) l.
Proof. intros Ha Hb. unfold zdrop. rewrite drop_drop. f_equal. lia. Qed.

Lemma chain_bytes_app s cs1 cs2 : chain_bytes s (cs1 ++ cs2) = chain_bytes s cs1 ++ chain_bytes s cs2.
Proof. unfold chain_bytes. by rewrite map_app, concat_app. Qed.

Lemma length_chain_bytes s cs : state_ok s → zlen (chain_bytes s cs) = 512 * zlen cs.
Proof.
  intros Hs. unfold chain_bytes, zlen. rewrite (length_concat_uniform 512).
  - rewrite length_map. lia.
  - apply Forall_map, Forall_true. intros c. apply (csec_ok s c Hs).
Qed.

Section loops.
Variables (dirs : gset Z) (hole : option (option Z * nat)).
Variables (s : fs_state) (data : list Z) (size : Z).
Hypothesis Hdata : Forall is_u8 data.
Hypothesis Hsize : is_u32 size.
Hypothesis Hlen : size ≤ zlen data.

(** What a run of the loop from [chains], [first], [cs], [written] ends with:
    the clusters [new], linked behind [cs], hold the bytes written. *)
Record loop_result (d : disk) (chains : gmap Z (list Z)) (first : Z) (cs : list Z) (written : Z)
    (d' : disk) (first' written' : Z) (chains' : gmap Z (list Z)) (new : list Z) : Prop := {
  lr_tree : vol_tree (set_disk d' s) chains' dirs hole (pend_of first');
  lr_first : first ≠ 0 → first' = first;
  lr_chain : first' = 0 ∧ new = [] ∧ cs = [] ∧ chains' = chains ∨
             first' ≠ 0 ∧ chains' !! first' = Some (cs ++ new);
  lr_len : zlen new = clusters_for (written' - written);
  lr_bound : written ≤ written' ≤ size;
  lr_holds : holds (set_disk d' s) new data written written';
  lr_kept : chains_kept (set_disk d s) chains (pend_of first) (set_disk d' s) chains';
  lr_old : ∀ x, x ∈ cs → csec (set_disk d' s) x = csec (set_disk d s) x
}.

Lemma loop_result_refl d chains first prev cs written :
  vol_tree (set_disk d s) chains dirs hole (pend_of first) → pend_chain chains first prev cs →
  0 ≤ written ≤ size →
  loop_result d chains first cs written d first written chains [].
Proof.
  intros Ht Hpc Hw. split; try done.
  - rewrite app_nil_r. destruct Hpc as [(-> & _ & ->)|(? & ? & _)]; auto.
  - by rewrite Z.sub_diag.
  - lia.
  - exists []. by rewrite Z.sub_diag.
Qed.

(** One round in front of a run. *)
Lemma loop_result_step d d2 chains first cs written c chunk d' first' written' chains' new :
  let f2 := if first =? 0 then c else first in
  let chains2 := <[f2 := cs ++ [c]]> chains in
  0 ≤ written → chunk = Z.min (size - written) 512 → written < size →
  f2 ≠ 0 → (first = 0 → chains !! c = None) →
  csec (set_disk d2 s) c = filled data written chunk →
  chains_kept (set_disk d s) chains (Some f2) (set_disk d2 s) chains2 →
  (∀ x, x ∈ cs → csec (set_disk d2 s) x = csec (set_disk d s) x) →
  loop_result d2 chains2 f2 (cs ++ [c]) (written + chunk) d' first' written' chains' new →
  loop_result d chains first cs written d' first' written' chains' (c :: new).
Proof.
  intros f2 chains2 Hw Hchunk Hlt Hf0 Hnew Hsc Hkept Hold [Ht Hfirst Hch Hl Hb Hh Hk Ho].
  assert (Hf2 : pend_of first' = Some f2) by (unfold pend_of; rewrite Hfirst by done;
    by destruct (Z.eqb_spec f2 0)).
  assert (Hz : clusters_for (written' - written) = 1 + clusters_for (written' - (written + chunk))).
  { destruct (decide (chunk = 512)) as [->|].
    - rewrite clusters_for_step by lia. do 2 f_equal. lia.
    - rewrite (clusters_for_small (written' - written)) by lia.
      replace (written' - (written + chunk)) with 0 by lia. done. }
  assert (Hcbytes : csec (set_disk d' s) c = filled data written chunk).
  { rewrite Ho by set_solver. done. }
  split; try done.
  - intros Hfn. rewrite Hfirst by done. unfold f2. by destruct (Z.eqb_spec first 0).
  - destruct Hch as [(? & _ & ?%app_nil & _)|[Hn Hch]]; [naive_solver |].
    right. split; [done |]. by rewrite <- app_assoc in Hch.
  - rewrite Hz, <- Hl. unfold zlen. cbn [length]. lia.
  - lia.
  - destruct Hh as [pad Hh]. unfold holds, chain_bytes in *. cbn [map concat].
    rewrite Hh, Hcbytes. unfold filled.
    destruct (decide (chunk = 512)) as [Hc5|Hc5].
    + exists pad. rewrite Hc5. cbn [Z.sub Z.to_nat replicate]. change (512 - 512) with 0.
      change (replicate (Z.to_nat 0) 0) with (@nil Z). rewrite app_nil_r.
      rewrite (ztake_split _ 512 (written' - written)) by lia.
      rewrite zdrop_zdrop, <- app_assoc by lia. do 3 f_equal. lia.
    + exists (replicate (Z.to_nat (512 - chunk)) 0 ++ pad).
      replace (written' - (written + chunk)) with 0 by lia.
      change (ztake 0 ?l) with (@nil Z). cbn [app].
      replace (written' - written) with chunk by lia. by rewrite <- app_assoc.
  - assert (Hex : ∀ h cs', chains !! h = Some cs' → pend_of first ≠ Some h → Some f2 ≠ Some h).
    { intros h cs' Hcs' Hne [= <-]. unfold pend_of, f2 in *.
      destruct (Z.eqb_spec first 0); [|done]. rewrite Hnew in Hcs' by done. done. }
    assert (pend_of f2 = Some f2) as Hp by (unfold pend_of; by destruct (Z.eqb_spec f2 0)).
    rewrite Hp in Hk. destruct (chains_kept_trans _ _ _ _ _ _ _ Hkept Hk) as [? ? ? Hkc Hkb].
    split; eauto.
  - intros x Hx. rewrite Ho by set_solver. by apply Hold.
Qed.

(** Linking the new cluster, as [fs_append] writes it and as [fs_write] does. *)
Lemma link_eq d d1 chains first prev cs c :
  vol_tree (set_disk d s) chains dirs hole (pend_of first) → pend_chain chains first prev cs →
  (if first =? 0 then (c, d1)
   else (first, if negb (prev =? 0) then fat_write d1 prev c else d1)) =
  (if first =? 0 then c else first, if first =? 0 then d1 else fat_write d1 prev c).
Proof.
  intros Ht [(-> & _)|(Hnz & Hcs & Hl)]; [done |].
  destruct (Z.eqb_spec first 0); [done |].
  assert (data_cluster prev) as Hp.
  { eapply (fw_data _ _ (vt_fat _ _ _ _ _ Ht)); [exact Hcs |]. by apply last_Some_elem_of. }
  destruct (Z.eqb_spec prev 0); [region | done].
Qed.

(** Every round takes one cluster; the loop ends with all bytes written or
    with a full disk. *)
Lemma append_loop_spec fuel d chains first prev cs written :
  vol_tree (set_disk d s) chains dirs hole (pend_of first) → pend_chain chains first prev cs →
  0 ≤ written ≤ size → size - written ≤ Z.of_nat fuel →
  ∃ r d' first' written' chains' new,
    append_loop fuel d data size written first prev = Some r ∧
    loop_result d chains first cs written d' first' written' chains' new ∧
    (r = inr (d', first', written') ∧ written' = size ∨
     r = inl (d', first', written') ∧ written' < size ∧ (∃ k, written' = written + 512 * k) ∧
     free_count d' = 0).
Proof.
  revert d chains first prev cs written.
  induction fuel as [|fuel IH]; intros d chains first prev cs written Ht Hpc Hw Hf.
  { cbn [append_loop]. destruct (Z.ltb_spec written size); [lia |]. cbn [negb].
    exists (inr (d, first, written)), d, first, written, chains, []. split_and!; [done | | left; split; [done | lia]].
    by eapply loop_result_refl. }
  cbn [append_loop]. destruct (Z.ltb_spec written size) as [Hlt|Hge]; cbn [negb].
  2:{ exists (inr (d, first, written)), d, first, written, chains, []. split_and!; [done | | left; split; [done | lia]].
      by eapply loop_result_refl. }
  pose proof (fat_alloc_spec d (so_vol _ (vt_state _ _ _ _ _ Ht))) as Ha.
  inversion Ha as [Hfull Heq|c d1 Hc Hfree _ He Heq].
  { cbn. exists (inl (d, first, written)), d, first, written, chains, [].
    split_and!; [done | by eapply loop_result_refl | right].
    split_and!; [done | lia | exists 0; lia | by apply free_count_zero]. }
  destruct (Z.eqb_spec c 0) as [->|Hcz]; [region |].
  rewrite (link_eq d d1 chains first prev cs c Ht Hpc). fold (chunk_of size written).
  rewrite chunk_of_eq by done. set (chunk := Z.min (size - written) 512).
  rewrite u32_small by (unfold is_u32 in *; lia).
  assert (Hb : sector_ok (filled data written chunk)) by (apply filled_ok; [done | lia..]).
  rewrite fill_sector_eq by lia.
  destruct (grow_chain (set_disk d s) chains dirs hole first prev cs Ht Hpc c d1 _ Hc Hfree Hb He)
    as (Hf0 & Hnew & Ht' & Hsc & Hni & Hkept & Hold). unfold first_of in *.
  set (d2 := if first =? 0 then d1 else fat_write d1 prev c) in *.
  set (f2 := if first =? 0 then c else first) in *.
  set (d3 := disk_write_sector d2 (cluster_to_lba c) _) in *.
  destruct (IH d3 (<[f2 := cs ++ [c]]> chains) f2 c (cs ++ [c]) (written + chunk))
    as (r & d' & first' & written' & chains' & new & Hr & Hres & Hend).
  - unfold pend_of. by destruct (Z.eqb_spec f2 0).
  - right. rewrite lookup_insert_eq, last_snoc. done.
  - lia.
  - lia.
  - exists r, d', first', written', chains', (c :: new). split_and!; [done | |].
    + apply (loop_result_step d d3 chains first cs written c chunk); done || lia.
    + destruct Hend as [?|(? & ? & [k Hk] & ?)]; [by left | right]. split_and!; try done.
      assert (chunk = 512) by (pose proof (lr_bound _ _ _ _ _ _ _ _ _ _ Hres); lia).
      exists (k + 1). lia.
Qed.
End loops.

(** ** The loop of [fs_write] is the loop of [fs_append] without the count *)

Definition drop_written (r : (disk * Z * Z) + (disk * Z * Z)) : (disk * Z) + (disk * Z) :=
  match r with
  | inl (d, first, _) => inl (d, first)
  | inr (d, first, _) => inr (d, first)
  end.

Lemma write_append_loop n fuel d data size written first prev r :
  is_u32 size → (first ≠ 0 → prev ≠ 0) → 0 ≤ written ≤ size →
  Z.of_nat n = clusters_for (size - written) →
  append_loop fuel d data size written first prev = Some r →
  write_loop n d data size written first prev = Some (drop_written r).
Proof.
  intros Hs. revert fuel d written first prev.
  induction n as [|n IH]; intros fuel d written first prev Hp Hw Hn Hr.
  - assert (written = size) as ->.
    { destruct (decide (written = size)); [done |]. unfold clusters_for in Hn.
      assert (1 ≤ (size - written + 511) / 512); [apply Z.div_le_lower_bound |]; lia. }
    destruct fuel; cbn [append_loop write_loop] in *; rewrite Z.ltb_irrefl in Hr;
      cbn [negb] in Hr; by simplify_eq.
  - assert (written < size) as Hlt.
    { destruct (decide (written = size)) as [->|]; [|lia]. rewrite Z.sub_diag in Hn. change (clusters_for 0) with 0 in Hn. lia. }
    destruct fuel as [|fuel]; cbn [append_loop write_loop] in *;
      destruct (Z.ltb_spec written size); try lia; cbn [negb] in Hr; [done |].
    destruct (fat_alloc_cluster d) as [c d1]. destruct (Z.eqb_spec c 0) as [->|Hc]; [by simplify_eq |].
    fold (chunk_of size written) in Hr |- *.
    assert (Hch : chunk_of size written = Z.min (size - written) 512) by (by apply chunk_of_eq).
    rewrite u32_small in Hr |- * by (unfold is_u32 in *; lia).
    assert (Hn' : Z.of_nat n = clusters_for (size - (written + chunk_of size written))).
    { rewrite Hch. destruct (decide (512 ≤ size - written)).
      - rewrite clusters_for_step in Hn by lia.
        replace (size - (written + (size - written) `min` 512)) with (size - written - 512); lia.
      - rewrite clusters_for_small in Hn by lia.
        replace (size - (written + (size - written) `min` 512)) with 0 by lia.
        change (clusters_for 0) with 0. lia. }
    destruct (Z.eqb_spec first 0) as [->|Hf].
    + destruct (fill_sector _ _ _); [| done]. eapply IH; [done | lia | done | exact Hr].
    + destruct (Z.eqb_spec prev 0); [naive_solver |]. cbn [negb] in Hr.
      destruct (fill_sector _ _ _); [| done].
      eapply IH; [done | lia | done | exact Hr].
Qed.

(** ** The loop of [fs_read] *)

(** Walking a chain that is long enough copies its first [size] bytes. *)
Lemma read_loop_spec s cs c size written out n :
  state_ok s → chain (fat s) c cs → is_u32 size → 0 ≤ written ≤ size →
  Z.of_nat n = clusters_for (size - written) → size - written ≤ 512 * zlen cs →
  read_loop n (fs_disk s) c size written out =
    (out ++ ztake (size - written) (chain_bytes s cs), size).
Proof.
  intros Hst Hch Hs. revert c cs Hch written out.
  induction n as [|n IH]; intros c cs Hch written out Hw Hn Hl.
  - assert (written = size) as ->.
    { destruct (decide (written = size)); [done |]. unfold clusters_for in Hn.
      assert (1 ≤ (size - written + 511) / 512); [apply Z.div_le_lower_bound |]; lia. }
    cbn. rewrite Z.sub_diag. change (ztake 0 ?l) with (@nil Z). by rewrite app_nil_r.
  - assert (written < size) as Hlt.
    { destruct (decide (written = size)) as [->|]; [|lia]. rewrite Z.sub_diag in Hn. change (clusters_for 0) with 0 in Hn. lia. }
    cbn [read_loop]. pose proof (chain_head_data _ _ _ Hch) as Hc.
    replace ((c <? FS_FIRST_DATA_CLUSTER) || (FS_CLUSTER_EOC_MIN <=? c)) with false by region.
    fold (chunk_of size written). rewrite chunk_of_eq by done.
    set (chunk := Z.min (size - written) 512). rewrite u32_small by (unfold is_u32 in *; lia).
    fold (csec s c). pose proof (csec_ok s c Hst) as [Hsl _].
    destruct (decide (512 < size - written)) as [Hbig|Hsmall].
    + inversion Hch as [|? cs' _ Hch']; subst.
      { unfold zlen in Hl. cbn in Hl. lia. }
      assert (zlen (c :: cs') = 1 + zlen cs') as Hz by (unfold zlen; cbn [length]; lia).
      change (fat_read (fs_disk s) c) with (fat s c).
      rewrite (IH (fat s c) cs'); [|done | lia | |lia].
      * f_equal. rewrite <- app_assoc. f_equal. unfold chain_bytes. cbn [map concat].
        replace chunk with 512 by lia. rewrite (ztake_split _ 512 (size - written)) by lia.
        unfold ztake, zdrop. change (Z.to_nat 512) with 512%nat.
        rewrite take_app_exact, drop_app_exact, firstn_all2 by lia. do 2 f_equal. lia.
      * rewrite clusters_for_step in Hn by lia.
        replace (size - (written + chunk)) with (size - written - 512) by lia. lia.
    + rewrite clusters_for_small in Hn by lia. assert (n = 0%nat) as -> by lia. cbn [read_loop].
      replace chunk with (size - written) by lia. f_equal; [|lia]. f_equal.
      destruct cs as [|c' cs']; [inversion Hch |]. pose proof (chain_head _ _ _ Hch) as Hh.
      cbn in Hh. injection Hh as ->. unfold chain_bytes. cbn [map concat]. unfold ztake.
      rewrite take_app_le by lia. done.
Qed.
