(* ===== verification/FsFile.v ===== *)
(** * Updating the entry of a file: the steps shared by [fs_write],
    [fs_append] and [fs_delete]. *)
From S2P Require Import Prelude FsLayout Disk Dirent Fat ChainMap Directory RootDir DirView.
From S2P Require Import Path Fs Tree Walk FsView FsCreate FsData.

(** ** Changes outside the directory tree *)

(** Directories, their contents and the current directory stay. *)
Record dirs_same (s : fs_state) (chains : gmap Z (list Z)) (dirs : gset Z)
    (s' : fs_state) (chains' : gmap Z (list Z)) : Prop := {
  ds_contents : ∀ k, dir_in dirs k → contents s' chains' k = contents s chains k;
  ds_chain : ∀ h, h ∈ dirs → chains' !! h = chains !! h;
  ds_cwd : cwd_dir s' = cwd_dir s;
  ds_path : cwd_path s' = cwd_path s
}.

Lemma dirs_same_refl s chains dirs : dirs_same s chains dirs s chains.
Proof. done. Qed.

Lemma dirs_same_trans s1 c1 s2 c2 s3 c3 dirs :
  dirs_same s1 c1 dirs s2 c2 → dirs_same s2 c2 dirs s3 c3 → dirs_same s1 c1 dirs s3 c3.
Proof.
  intros [Hc Hch Hw Hp] [Hc' Hch' Hw' Hp']. split; try congruence.
  - intros k Hk. by rewrite Hc', Hc.
  - intros h Hh. by rewrite Hch', Hch.
Qed.

Lemma dirs_same_prepared s chains dirs s' chains' :
  dirs_same s chains dirs s' chains' → prepared s chains dirs s' chains'.
Proof. intros []. by apply prepared_contents. Qed.

Lemma dirs_same_plain s chains dirs s' chains' k i d :
  dirs_same s chains dirs s' chains' →
  plain_at s' chains' dirs k i d ↔ plain_at s chains dirs k i d.
Proof. intros Hd. apply (dirs_same_prepared _ _ _ _ _ Hd). Qed.

Lemma dirs_same_slot_loc s chains dirs s' chains' dr i :
  dirs_same s chains dirs s' chains' → dir_in dirs (dkey dr) →
  slot_loc chains' dr i = slot_loc chains dr i.
Proof.
  intros Hd Hk. unfold slot_loc, dkey in *. destruct (is_root dr); [done |].
  by rewrite (ds_chain _ _ _ _ _ Hd).
Qed.

Lemma chains_kept_dirs s chains ex s' chains' dirs :
  chains_kept s chains ex s' chains' → (∀ h, h ∈ dirs → is_Some (chains !! h)) →
  (∀ h, ex = Some h → h ∉ dirs) → dirs_same s chains dirs s' chains'.
Proof.
  intros Hk Hd Hex.
  assert (Hch : ∀ h, h ∈ dirs → chains' !! h = chains !! h).
  { intros h Hh. destruct (Hd h Hh) as [cs Hcs]. rewrite Hcs. eapply ck_chain; [done.. |].
    intros He. by destruct (Hex h He). }
  split; [|done|apply Hk..].
  intros k Hkd. apply contents_frame; [apply Hk | |].
  - intros h ->. by apply Hch.
  - intros h cs c -> Hcs Hc. eapply ck_bytes; [done.. | |done]. intros He. by destruct (Hex h He).
Qed.

(** ** Releasing the chain of an entry *)

(** [if (first_cluster) fat_free_chain(first_cluster)] *)
Definition release_chain (d : disk) (first : Z) : option disk :=
  if negb (first =? 0) then fat_free_chain d first else Some d.

Lemma release_chain_spec s chains dirs hole first :
  vol_tree s chains dirs hole (pend_of first) →
  ∃ d', release_chain (fs_disk s) first = Some d' ∧
    vol_tree (set_disk d' s) (delete first chains) dirs hole None ∧
    chains_kept s chains (pend_of first) (set_disk d' s) (delete first chains).
Proof.
  unfold release_chain, pend_of. intros Ht. destruct (Z.eqb_spec first 0) as [Hz0|Hnz]; cbn [negb]; [subst first |].
  - exists (fs_disk s). rewrite set_disk_id. split; [done |].
    assert (chains !! 0 = None) as Hz.
    { destruct (chains !! 0) as [cs|] eqn:Hcs; [|done].
      by destruct (vt_chain_nonzero _ _ _ _ _ Ht _ _ Hcs). }
    rewrite delete_id by done. split; [done | apply chains_kept_refl].
  - destruct (vol_tree_free s chains dirs hole first Ht) as (d' & Hf & Ht' & Hsec).
    exists d'. split; [done |]. split; [done |]. split; try done.
    + intros h cs Hcs Hne. rewrite lookup_delete_ne by congruence. done.
    + intros h cs c Hcs _ Hc. apply Hsec. by eapply (fw_data _ _ (vt_fat _ _ _ _ _ Ht)).
Qed.

(** ** Entries with a new extent *)

Lemma set_extent_ok first size d :
  is_u16 first → is_u32 size → dirent_ok d → dirent_ok (set_extent first size d).
Proof. intros Hf Hs []. by split. Qed.

Lemma set_extent_plain first size d : plain d → plain (set_extent first size d).
Proof. done. Qed.

Lemma set_extent_name first size d : entry_name (set_extent first size d) = entry_name d.
Proof. done. Qed.

Lemma set_extent_dir first size d : is_directory (set_extent first size d) = is_directory d.
Proof. done. Qed.

(** ** Opening and closing the entry of a file *)

Section file.
Variables (s : fs_state) (chains : gmap Z (list Z)) (dirs : gset Z) (dr : dir_ref).
Variables (i : nat) (d : fs_dirent).
Hypothesis Ht : tree_ok s chains dirs.
Hypothesis Hp : plain_at s chains dirs (dkey dr) i d.
Hypothesis Hfile : is_directory d = false.

Lemma open_file : vol_tree s chains dirs (Some (dkey dr, i)) (pend_of (d_first_cluster d)).
Proof. destruct Hp as (Hk & Hi & Hpl). by apply vol_tree_open_file. Qed.

Lemma file_dirent_ok : dirent_ok d.
Proof. destruct Hp as (Hk & Hi & Hpl). by eapply vt_entry_dirent. Qed.

Lemma pend_not_dir : ∀ h, pend_of (d_first_cluster d) = Some h → h ∉ dirs.
Proof. intros h Hh. by destruct (vt_pend _ _ _ _ _ open_file h Hh) as (_ & ? & _). Qed.

(** The entry is rewritten with its new extent, or marked deleted. *)
Lemma close_file s3 chains3 first e :
  vol_tree s3 chains3 dirs (Some (dkey dr, i)) (pend_of first) →
  dirs_same s chains dirs s3 chains3 → dirent_ok e →
  (dirent_unused e = true ∧ first = 0 ∨
   entry_name e = entry_name d ∧ plain e ∧ is_directory e = false ∧ d_first_cluster e = first ∧
     (first = 0 ∧ d_file_size e = 0 ∨
      ∃ cs, chains3 !! first = Some cs ∧ first ≠ 0 ∧ 0 < d_file_size e ∧
        zlen cs = clusters_for (d_file_size e))) →
  let s' := dir_write_entry s3 (slot_loc chains dr i) e in
  tree_ok s' chains3 dirs ∧
  slot_change s chains dirs s' chains3 dirs (dkey dr) i e ∧
  files_kept s3 chains3 dirs s' chains3 None.
Proof.
  intros Ht3 Hds He Hcase s'. destruct Hp as (Hk & Hi & Hpl).
  assert (Hi3 : contents s3 chains3 (dkey dr) !! i = Some d) by (by rewrite (ds_contents _ _ _ _ _ Hds)).
  assert (Heff : dir_effect s3 s' chains3 (dkey dr) (<[i := e]> (contents s3 chains3 (dkey dr)))).
  { unfold s'. rewrite <- (dirs_same_slot_loc s chains dirs s3 chains3) by done.
    apply dir_write_spec; [apply Ht3 | apply Ht3 | by eapply vt_good | by eapply lookup_lt_Some | done]. }
  split_and!.
  - eapply (vol_tree_close s3 s' chains3 dirs dirs _ _ (dkey dr) i d e);
      [done | done | done | by left | done | done | auto |].
    destruct Hcase as [[Hu ->]|(Hn & Hpe & Hde & Hfc & Hext)]; [by left | right].
    split_and!; [done | | |].
    + unfold entry_ok. rewrite Hde, Hfc. destruct Hext as [[-> ->]|(cs & Hcs & Hnz & Hsz & Hl)];
        [by left | right]. exists cs. split_and!; try done.
      destruct (vt_pend _ _ _ _ _ Ht3 first) as (_ & ? & _); [|done].
      unfold pend_of. by destruct (Z.eqb_spec first 0).
    + rewrite Hfc. unfold pend_of. destruct (Z.eqb_spec first 0); auto.
    + intros j d' Hji Hp'. apply (dirs_same_plain _ _ _ _ _ _ _ _ Hds) in Hp'.
      injection Hn as -> ->. intros H1 H2. apply Hji.
      by apply (vt_names _ _ _ _ _ Ht (dkey dr) j d' i d).
  - eapply write_slot_change; [exact Ht3 | by apply dirs_same_prepared | done | exact Hi3 | by right | done].
  - by eapply dir_effect_kept.
Qed.

End file.

