(* ===== verification/FsWrite.v ===== *)
(** * [fs_write]: the whole operation on a well-formed volume. *)
From S2P Require Import Prelude FsLayout Disk Dirent Fat ChainMap Directory RootDir DirView.
From S2P Require Import Path Fs Tree Walk FsView FsCreate FsData FsFile.

(** ** Changes that cannot be seen *)

(** No name of any directory changes its meaning. *)
Definition quiet (s : fs_state) (chains : gmap Z (list Z)) (dirs : gset Z)
    (s' : fs_state) (chains' : gmap Z (list Z)) : Prop :=
  prepared s chains dirs s' chains' ∧ files_kept s chains dirs s' chains' None.

Lemma quiet_refl s chains dirs : quiet s chains dirs s chains.
Proof. split; [apply prepared_refl | apply files_kept_refl]. Qed.

Lemma slot_change_quiet s chains dirs s' chains' k i e :
  slot_change s chains dirs s' chains' dirs k i e → files_kept s chains dirs s' chains' None →
  ¬ plain e → (∀ d, ¬ plain_at s chains dirs k i d) → quiet s chains dirs s' chains'.
Proof.
  intros Hsc Hk He Hno. split; [|done]. split.
  - intros k' j d. rewrite (sc_plain _ _ _ _ _ _ _ _ _ Hsc). split; [tauto |].
    intros Hp. right. split; [|done]. intros [= -> ->]. by apply (Hno d).
  - intros h d Hh. by apply (sc_dots _ _ _ _ _ _ _ _ _ Hsc).
  - apply Hsc.
  - apply Hsc.
Qed.

Lemma quiet_find_key s chains dirs s' chains' k nm :
  tree_ok s chains dirs → tree_ok s' chains' dirs → quiet s chains dirs s' chains' →
  dir_in dirs k → user_name nm.1 nm.2 →
  find_key s' chains' k nm.1 nm.2 = find_key s chains k nm.1 nm.2.
Proof.
  intros Ht Ht' [Hpr _] Hk Hu.
  destruct (find_key s chains k nm.1 nm.2) as [[j d]|] eqn:Hf.
  - rewrite (find_key_plain _ _ _ _ _ Ht) in Hf by done.
    rewrite (find_key_plain _ _ _ _ _ Ht') by done. by rewrite (pr_plain _ _ _ _ _ Hpr).
  - rewrite (find_key_none _ _ _ _ _ Ht) in Hf by done.
    rewrite (find_key_none _ _ _ _ _ Ht') by done. intros j d.
    rewrite (pr_plain _ _ _ _ _ Hpr). apply Hf.
Qed.

Lemma tree_chains_zero s chains dirs hole pend : vol_tree s chains dirs hole pend → chains !! 0 = None.
Proof.
  intros Ht. destruct (chains !! 0) as [cs|] eqn:Hcs; [|done].
  by destruct (vt_chain_nonzero _ _ _ _ _ Ht _ _ Hcs).
Qed.

Lemma quiet_view s chains dirs s' chains' k nm :
  tree_ok s chains dirs → tree_ok s' chains' dirs → quiet s chains dirs s' chains' →
  dir_in dirs k → user_name nm.1 nm.2 → view s' chains' k nm = view s chains k nm.
Proof.
  intros Ht Ht' Hq Hk Hu. unfold view. rewrite (quiet_find_key s chains dirs) by done.
  destruct (find_key s chains k nm.1 nm.2) as [[j d]|] eqn:Hf; [|done]. cbn. f_equal.
  rewrite (find_key_plain _ _ _ _ _ Ht) in Hf by done. destruct Hf as (Hp & _).
  eapply node_of_kept; [apply Hq | | done | by eapply tree_chains_zero..].
  eapply (vt_entry _ _ _ _ _ Ht k j). by split.
Qed.

Lemma quiet_dirs_kept s chains dirs s' chains' :
  quiet s chains dirs s' chains' → dirs_kept s chains dirs s' chains' dirs.
Proof.
  intros [Hpr _]. split; [done | | |apply Hpr].
  - intros k i d Hp Hd. exists i, d. split_and!; try done. by apply Hpr.
  - intros h d Hh. by apply Hpr.
Qed.

(** ** [open_or_create] *)

(** A slot that already holds [d] has "changed" to [d]. *)
Lemma slot_change_same s chains dirs k i d :
  plain_at s chains dirs k i d → slot_change s chains dirs s chains dirs k i d.
Proof.
  intros Hp. pose proof Hp as (Hk & Hi & Hpl). split; try done.
  intros k' j d'. destruct (decide ((k', j) = (k, i))) as [[= -> ->]|Hne].
  - split; [|by intros [(_ & -> & _)|[? _]]]. intros (_ & Hi' & _). left.
    split_and!; [done | congruence | done].
  - split; [by right | by intros [(? & _)|[_ ?]]].
Qed.

(** Two changes of the same slot. *)
Lemma slot_change_trans s c s1 c1 s2 c2 dirs k i e1 e2 :
  slot_change s c dirs s1 c1 dirs k i e1 → slot_change s1 c1 dirs s2 c2 dirs k i e2 →
  slot_change s c dirs s2 c2 dirs k i e2.
Proof.
  intros H1 H2. split.
  - apply H1.
  - apply H2.
  - intros k' j d'. rewrite (sc_plain _ _ _ _ _ _ _ _ _ H2), (sc_plain _ _ _ _ _ _ _ _ _ H1). tauto.
  - intros h d Hh Hh' Hd. apply (sc_dots _ _ _ _ _ _ _ _ _ H2); [done.. |].
    by apply (sc_dots _ _ _ _ _ _ _ _ _ H1).
  - rewrite (sc_cwd _ _ _ _ _ _ _ _ _ H2). apply H1.
  - rewrite (sc_path _ _ _ _ _ _ _ _ _ H2). apply H1.
Qed.

Lemma slot_change_kept s c s' c' dirs k i e :
  slot_change s c dirs s' c' dirs k i e →
  (∀ d, plain_at s c dirs k i d → is_directory d = false) → dirs_kept s c dirs s' c' dirs.
Proof.
  intros Hsc Hfile. split; [done | | |apply Hsc].
  - intros k' j d Hp Hd. exists j, d. split_and!; try done.
    apply Hsc. right. split; [|done]. intros [= -> ->]. apply Hfile in Hp. congruence.
  - intros h d Hh. by apply (sc_dots _ _ _ _ _ _ _ _ _ Hsc).
Qed.

(** The result of a lookup that creates the file when it is missing. *)
Record opened (s : fs_state) (chains : gmap Z (list Z)) (dirs : gset Z) (k : option Z)
    (nm : name83) (s1 : fs_state) (chains1 : gmap Z (list Z)) (i : nat) (d : fs_dirent) : Prop := {
  op_tree : tree_ok s1 chains1 dirs;
  op_plain : plain_at s1 chains1 dirs k i d;
  op_name : entry_name d = nm;
  op_change : slot_change s chains dirs s1 chains1 dirs k i d;
  op_kept : files_kept s chains dirs s1 chains1 None;
  op_old : ∀ d0, plain_at s chains dirs k i d0 → d0 = d ∧ find_key s chains k nm.1 nm.2 = Some (i, d);
  op_new : find_key s chains k nm.1 nm.2 = Some (i, d) ∧ s1 = s ∧ chains1 = chains ∨
    find_key s chains k nm.1 nm.2 = None ∧ d = new_dirent nm.1 nm.2 FS_ATTR_NORMAL 0 0
}.

Section open.
Variables (s : fs_state) (chains : gmap Z (list Z)) (dirs : gset Z).
Variables (path : cstr) (dr : dir_ref) (leaf : cstr).
Hypothesis Ht : tree_ok s chains dirs.
Hypothesis Hpath : is_cstr path.
Hypothesis Hres : resolve_parent s path = Some (Some (dr, leaf)).

Let nm := split_name leaf.

Lemma open_parent : dir_in dirs (dkey dr) ∧ is_cstr leaf.
Proof.
  destruct (resolve_parent_total s chains dirs path Ht Hpath) as (r & Hr & Hspec).
  rewrite Hres in Hr. injection Hr as <-. by apply Hspec.
Qed.

Lemma open_or_create_spec :
  znth leaf 0 ≠ 0 →
  (∃ s1 chains1, open_or_create s path dr nm.1 nm.2 = Some (inl (-1, s1)) ∧
    tree_ok s1 chains1 dirs ∧ quiet s chains dirs s1 chains1 ∧
    find_key s chains (dkey dr) nm.1 nm.2 = None) ∨
  (∃ s1 chains1 i d,
    open_or_create s path dr nm.1 nm.2 = Some (inr (d, slot_loc chains1 dr i, s1)) ∧
    opened s chains dirs (dkey dr) nm s1 chains1 i d).
Proof.
  intros Hl. destruct open_parent as [Hdr Hleaf]. pose proof (split_name_user leaf Hleaf) as Hu.
  fold nm in Hu. unfold open_or_create.
  rewrite (dir_scan_key s chains dirs None None Ht) by done.
  destruct (find_key s chains (dkey dr) nm.1 nm.2) as [[i d]|] eqn:Hf; cbn [fmap option_fmap option_map].
  { right. exists s, chains, i, d. split; [done |]. pose proof Hf as Hp.
    apply (find_key_plain _ _ _ _ _ Ht) in Hp as (Hp & Hn & He); [|done..].
    split; try done.
    - destruct nm. unfold entry_name. cbn in *. congruence.
    - by apply slot_change_same.
    - intros d0 Hp0. split; [|done]. destruct Hp as (_ & Hi & _), Hp0 as (_ & Hi0 & _). congruence.
    - by left. }
  destruct (fs_create_spec s chains dirs path dr leaf Ht Hres Hdr Hleaf) as (rc & s1 & Hc & Hcase).
  fold nm in Hcase. rewrite Hc.
  destruct Hcase as [(-> & -> & _)|(-> & _ & chains1 & i & Ht1 & Hsc & Hno & Hk)].
  { left. exists s, chains. split_and!; try done. }
  cbn [Z.ltb Z.compare]. rewrite (dir_scan_key s1 chains1 dirs None None Ht1) by done.
  set (e := new_dirent nm.1 nm.2 FS_ATTR_NORMAL 0 0) in *.
  destruct (decide (name_usable nm.1)) as [Hus|Hus].
  - assert (Hpe : plain e) by (apply new_plain; [done | by apply split_name_nonzero | done]).
    assert (Hp : plain_at s1 chains1 dirs (dkey dr) i e) by (apply Hsc; by left).
    assert (find_key s1 chains1 (dkey dr) nm.1 nm.2 = Some (i, e)) as ->.
    { by apply (find_key_plain _ _ _ _ _ Ht1). }
    right. exists s1, chains1, i, e. split; [done |]. split; try done.
    + by destruct nm.
    + intros d0 Hd0. by destruct (Hno d0).
    + by right.
  - assert (Hpe : ¬ plain e).
    { intros [Hx _]. unfold e in Hx. rewrite new_unused in Hx by done. done. }
    assert (quiet s chains dirs s1 chains1) as Hq by (by eapply slot_change_quiet).
    rewrite (quiet_find_key s chains dirs) by done. rewrite Hf.
    left. by exists s1, chains1.
Qed.
End open.

(** ** The contents of one file replaced *)

Record file_update (s : fs_state) (chains : gmap Z (list Z)) (dirs : gset Z) (k : option Z)
    (nm : name83) (s' : fs_state) (chains' : gmap Z (list Z)) (bytes : list Z) : Prop := {
  fu_view : view s' chains' k nm = Some (File bytes);
  fu_other : ∀ k' nm', dir_in dirs k' → user_name nm'.1 nm'.2 → (k', nm') ≠ (k, nm) →
    view s' chains' k' nm' = view s chains k' nm';
  fu_kept : dirs_kept s chains dirs s' chains' dirs;
  fu_path : cwd_path s' = cwd_path s
}.

(** The chain of the old entry is the only one that may change. *)
Lemma opened_ex s chains dirs k nm s1 chains1 i d h :
  tree_ok s chains dirs → user_name nm.1 nm.2 →
  opened s chains dirs k nm s1 chains1 i d → pend_of (d_first_cluster d) = Some h → h ≠ 0 →
  ∃ d0, plain_at s chains dirs k i d0 ∧ d_first_cluster d0 = h.
Proof.
  intros Ht Hu Ho Hex Hnz. unfold pend_of in Hex.
  destruct (Z.eqb_spec (d_first_cluster d) 0) as [|Hn]; [done |]. injection Hex as <-.
  destruct (op_new _ _ _ _ _ _ _ _ _ Ho) as [[Hf _]|[_ Hd]]; [|by rewrite Hd in Hn].
  exists d. split; [|done].
  apply (find_key_plain _ _ _ _ _ Ht) in Hf as [Hp _];
    [done | eapply sc_in, op_change, Ho | done].
Qed.

Lemma file_update_intro s chains dirs k nm s1 chains1 i d s' chains' e :
  tree_ok s chains dirs → user_name nm.1 nm.2 →
  opened s chains dirs k nm s1 chains1 i d → is_directory d = false →
  tree_ok s' chains' dirs → slot_change s1 chains1 dirs s' chains' dirs k i e →
  files_kept s1 chains1 dirs s' chains' (pend_of (d_first_cluster d)) →
  plain e → entry_name e = entry_name d → is_directory e = false →
  file_update s chains dirs k nm s' chains' (file_data s' chains' e).
Proof.
  intros Ht Hu Ho Hfile Ht' Hsc Hk Hpe Hne Hfe.
  assert (Hsc0 : slot_change s chains dirs s' chains' dirs k i e)
    by (eapply slot_change_trans; [apply Ho | done]).
  assert (Hk0 : files_kept s chains dirs s' chains' (pend_of (d_first_cluster d))).
  { eapply files_kept_trans; [apply files_kept_weaken, Ho | done]. }
  pose proof (op_name _ _ _ _ _ _ _ _ _ Ho) as Hn.
  split.
  - rewrite <- Hn, <- Hne.
    rewrite (view_new s s' chains chains' dirs dirs k i e) by done.
    unfold node_of. by rewrite Hfe.
  - intros k' nm' Hk' Hu' Hkn.
    apply (view_other s s' chains chains' dirs dirs k i e (pend_of (d_first_cluster d))); try done.
    + intros h. by apply (opened_ex _ _ _ _ _ _ _ _ _ h Ht Hu Ho).
    + intros -> _ ->. apply Hkn. by rewrite Hne, Hn.
    + intros d0 -> Hp0. apply (op_old _ _ _ _ _ _ _ _ _ Ho) in Hp0 as [-> _].
      intros ->. apply Hkn. by rewrite Hn.
  - eapply slot_change_kept; [done |]. intros d0 Hp0.
    by apply (op_old _ _ _ _ _ _ _ _ _ Ho) in Hp0 as [-> _].
  - apply Hsc0.
Qed.

(** The bytes a freshly built chain holds. *)
Lemma file_data_holds s chains e cs data w :
  chains !! d_first_cluster e = Some cs → holds s cs data 0 w → d_file_size e = w →
  0 ≤ w ≤ zlen data → file_data s chains e = ztake w data.
Proof.
  intros Hcs [pad Hb] Hs Hw. unfold file_data. rewrite Hcs, Hs. cbn [default]. unfold id.
  rewrite Hb, Z.sub_0_r. change (zdrop 0 data) with data.
  apply take_app_exact. pose proof (length_ztake w data Hw). unfold zlen in *. lia.
Qed.

Lemma holds_congr s s' cs data w w' :
  (∀ c, c ∈ cs → csec s' c = csec s c) → holds s cs data w w' → holds s' cs data w w'.
Proof. intros Hc [pad Hb]. exists pad. by rewrite (chain_bytes_congr s s'). Qed.

Lemma clusters_for_u32 size :
  0 ≤ size ≤ 4294966784 →
  u32 (size + FS_BYTES_PER_SECTOR - 1) / FS_BYTES_PER_SECTOR = clusters_for size.
Proof.
  intros Hs. unfold clusters_for. change FS_BYTES_PER_SECTOR with 512.
  rewrite u32_small by (unfold is_u32; lia). f_equal. lia.
Qed.

(** ** Writing to an opened file *)

(** The tail of [fs_write], after the entry [d] was found at [loc]. *)
Definition write_tail (s : fs_state) (d : fs_dirent) (loc : entry_loc) (data : list Z) (size : Z) :
    option (Z * fs_state) :=
  match release_chain (fs_disk s) (d_first_cluster d) with
  | None => None
  | Some dk =>
      let d := set_extent 0 0 d in
      if size =? 0 then Some (0, dir_write_entry (set_disk dk s) loc d)
      else
        let clusters_needed := u32 (size + FS_BYTES_PER_SECTOR - 1) / FS_BYTES_PER_SECTOR in
        match write_loop (Z.to_nat clusters_needed) dk data size 0 0 0 with
        | None => None
        | Some (inl (dk, first)) =>
            match release_chain dk first with
            | None => None
            | Some dk => Some (-1, dir_write_entry (set_disk dk s) loc d)
            end
        | Some (inr (dk, first)) =>
            Some (0, dir_write_entry (set_disk dk s) loc (set_extent first size d))
        end
  end.

(** What an operation does to the entry [d] of a file, given the new bytes. *)
Record entry_update (s : fs_state) (chains : gmap Z (list Z)) (dirs : gset Z) (k : option Z)
    (i : nat) (d : fs_dirent) (s' : fs_state) (chains' : gmap Z (list Z)) (bytes : list Z) : Prop := {
  eu_tree : tree_ok s' chains' dirs;
  eu_entry : ∃ e, slot_change s chains dirs s' chains' dirs k i e ∧ plain e ∧
    entry_name e = entry_name d ∧ is_directory e = false ∧ file_data s' chains' e = bytes;
  eu_kept : files_kept s chains dirs s' chains' (pend_of (d_first_cluster d))
}.

Section write_opened.
Variables (s : fs_state) (chains : gmap Z (list Z)) (dirs : gset Z) (dr : dir_ref).
Variables (i : nat) (d : fs_dirent).
Hypothesis Ht : tree_ok s chains dirs.
Hypothesis Hp : plain_at s chains dirs (dkey dr) i d.
Hypothesis Hfile : is_directory d = false.

(** Closing the entry with the chain that starts at [first]. *)
Lemma close_update s3 chains3 first cs size :
  vol_tree s3 chains3 dirs (Some (dkey dr, i)) (pend_of first) →
  dirs_same s chains dirs s3 chains3 →
  files_kept s chains dirs s3 chains3 (pend_of (d_first_cluster d)) →
  is_u32 size → (first = 0 ∧ size = 0 ∧ cs = [] ∨
    first ≠ 0 ∧ chains3 !! first = Some cs ∧ 0 < size ∧ zlen cs = clusters_for size) →
  let s' := dir_write_entry s3 (slot_loc chains dr i) (set_extent first size d) in
  entry_update s chains dirs (dkey dr) i d s' chains3 (ztake size (chain_bytes s3 cs)).
Proof.
  intros Ht3 Hds Hk Hs Hext s'. set (e := set_extent first size d).
  assert (Hu16 : is_u16 first).
  { destruct Hext as [(-> & _)|(_ & Hcs & _)]; [by vm_compute |].
    apply in_fat_u16, data_in_fat. by eapply (fw_head _ _ (vt_fat _ _ _ _ _ Ht3)). }
  assert (He : dirent_ok e) by (apply set_extent_ok; [done | done | by eapply file_dirent_ok]).
  destruct (close_file s chains dirs dr i d Ht Hp s3 chains3 first e Ht3 Hds He) as (Ht' & Hsc & Hk').
  { right. split_and!; [done | apply Hp | done | done |].
    destruct Hext as [(-> & -> & _)|(Hnz & Hcs & Hsz & Hl)]; [by left | right]. by exists cs. }
  fold s' in Ht', Hsc, Hk'. split; [done | | ].
  - exists e. split_and!; [done | apply Hp | done | done |].
    unfold file_data, e. cbn [d_file_size d_first_cluster set_extent].
    destruct Hext as [(-> & -> & ->)|(Hnz & Hcs & Hsz & Hl)].
    + done.
    + rewrite Hcs. cbn [default]. unfold id, ztake. f_equal. apply chain_bytes_congr.
      destruct (Hk' first cs Hcs) as [_ Hb]; [|done|done].
      destruct (vt_pend _ _ _ _ _ Ht3 first) as (_ & ? & _); [|done].
      unfold pend_of. by destruct (Z.eqb_spec first 0).
  - eapply files_kept_trans; [done |]. by apply files_kept_weaken.
Qed.

(** A state in the middle of the operation. *)
Definition mid (s3 : fs_state) (chains3 : gmap Z (list Z)) (first : Z) : Prop :=
  vol_tree s3 chains3 dirs (Some (dkey dr, i)) (pend_of first) ∧
  dirs_same s chains dirs s3 chains3 ∧
  files_kept s chains dirs s3 chains3 (pend_of (d_first_cluster d)).

Lemma mid_open : mid s chains (d_first_cluster d).
Proof. split_and!; [by apply open_file | done | apply files_kept_refl]. Qed.

(** The pending chain is new, or the old chain of the entry. *)
Lemma mid_pend s3 chains3 first h :
  mid s3 chains3 first → pend_of first = Some h →
  pend_of (d_first_cluster d) = Some h ∨ chains !! h = None.
Proof.
  intros (Ht3 & Hds & _) Hh. destruct (chains !! h) as [cs|] eqn:Hcs; [left | by right].
  pose proof (vt_chain_nonzero _ _ _ _ _ Ht _ _ Hcs) as Hnz.
  destruct (vt_owner _ _ _ _ _ Ht h) as [?|(k0 & j0 & d0 & [Hp0 _] & Hd0)]; [by exists cs | done |].
  destruct (decide ((k0, j0) = (dkey dr, i))) as [[= -> ->]|Hne].
  - assert (d0 = d) as ->.
    { destruct Hp as (_ & Hi & _), Hp0 as (_ & Hi0 & _). congruence. }
    unfold pend_of. rewrite Hd0. by destruct (Z.eqb_spec h 0).
  - destruct (vt_pend _ _ _ _ _ Ht3 h Hh) as (_ & _ & Hno). destruct (Hno k0 j0 d0); [|done].
    split; [by apply (dirs_same_plain _ _ _ _ _ _ _ _ Hds) | congruence].
Qed.

(** Releasing the pending chain. *)
Lemma mid_release s3 chains3 first :
  mid s3 chains3 first →
  ∃ dk, release_chain (fs_disk s3) first = Some dk ∧
    mid (set_disk dk s3) (delete first chains3) 0.
Proof.
  intros Hm. pose proof (λ h, mid_pend s3 chains3 first h Hm) as Hfirst.
  destruct Hm as (Ht3 & Hds & Hk).
  destruct (release_chain_spec s3 chains3 dirs _ first Ht3) as (dk & Hr & Ht4 & Hck).
  exists dk. split; [done |]. split_and!; [done | |].
  - eapply dirs_same_trans; [done |]. eapply chains_kept_dirs; [done | apply Ht3 |].
    intros h Hh. by destruct (vt_pend _ _ _ _ _ Ht3 h Hh) as (_ & ? & _).
  - intros h cs Hcs Hn Hex. destruct (Hk h cs Hcs Hn Hex) as [Hcs3 Hb3].
    assert (pend_of first ≠ Some h) as Hne.
    { intros Hh. destruct (Hfirst h Hh); congruence. }
    split; [by apply (ck_chain _ _ _ _ _ Hck) |]. intros c Hc.
    rewrite (ck_bytes _ _ _ _ _ Hck h cs c) by done. auto.
Qed.

(** Building a chain. *)
Lemma mid_loop s3 chains3 first cs d0 d' first' w' data size w chains' new :
  mid s3 chains3 first → s3 = set_disk d0 s →
  loop_result dirs (Some (dkey dr, i)) s data size d0 chains3 first cs w d' first' w' chains' new →
  mid (set_disk d' s) chains' first'.
Proof.
  intros Hm -> Hlr. pose proof (λ h, mid_pend _ chains3 first h Hm) as Hfirst.
  destruct Hm as (Ht3 & Hds & Hk). split_and!; [apply Hlr | |].
  - eapply dirs_same_trans; [done |]. eapply chains_kept_dirs; [apply Hlr | apply Ht3 |].
    intros h Hh. by destruct (vt_pend _ _ _ _ _ Ht3 h Hh) as (_ & ? & _).
  - pose proof (lr_kept _ _ _ _ _ _ _ _ _ _ _ _ _ _ _ Hlr) as Hck.
    intros h cs' Hcs Hn Hex. destruct (Hk h cs' Hcs Hn Hex) as [Hcs3 Hb3].
    assert (pend_of first ≠ Some h) as Hne.
    { intros Hh. destruct (Hfirst h Hh); congruence. }
    split; [by apply (ck_chain _ _ _ _ _ Hck) |]. intros c Hc.
    rewrite (ck_bytes _ _ _ _ _ Hck h cs' c) by done. auto.
Qed.

Lemma mid_close s3 chains3 first cs size :
  mid s3 chains3 first →
  is_u32 size → (first = 0 ∧ size = 0 ∧ cs = [] ∨
    first ≠ 0 ∧ chains3 !! first = Some cs ∧ 0 < size ∧ zlen cs = clusters_for size) →
  entry_update s chains dirs (dkey dr) i d
    (dir_write_entry s3 (slot_loc chains dr i) (set_extent first size d)) chains3
    (ztake size (chain_bytes s3 cs)).
Proof. intros (Ht3 & Hds & Hk) Hs Hext. by apply close_update. Qed.

(** The two outcomes of [write_tail]: all bytes are in the file, or the disk
    was full and the file is empty. *)
Lemma write_tail_spec data size :
  Forall is_u8 data → 0 ≤ size ≤ 4294966784 → size ≤ zlen data →
  ∃ rc s' chains', write_tail s d (slot_loc chains dr i) data size = Some (rc, s') ∧
    (rc = 0 ∧ entry_update s chains dirs (dkey dr) i d s' chains' (ztake size data) ∨
     rc = -1 ∧ size ≠ 0 ∧ entry_update s chains dirs (dkey dr) i d s' chains' []).
Proof.
  intros Hd Hs Hl. assert (is_u32 size) as Hs32 by (unfold is_u32; lia).
  unfold write_tail.
  destruct (mid_release s chains (d_first_cluster d) mid_open) as (dk & -> & Hm).
  destruct (Z.eqb_spec size 0) as [->|Hnz].
  { eexists _, _, _. split; [done |]. left. split; [done |].
    apply (mid_close _ _ 0 [] 0 Hm); [done | by left]. }
  set (chains2 := delete (d_first_cluster d) chains) in *.
  destruct (append_loop_spec dirs (Some (dkey dr, i)) s data size Hd Hs32 Hl
    (Z.to_nat size) dk chains2 0 0 [] 0) as (r & d' & first' & w' & chains3 & new & Hr & Hlr & Hend);
    [apply Hm | by left | lia | lia |].
  rewrite clusters_for_u32 by done.
  assert (write_loop (Z.to_nat (clusters_for size)) dk data size 0 0 0 = Some (drop_written r)) as ->.
  { apply (write_append_loop _ (Z.to_nat size)); [done | done | lia | | done].
    rewrite Z.sub_0_r, Z2Nat.id; [done | apply clusters_for_nonneg; lia]. }
  assert (Hm3 : mid (set_disk d' s) chains3 first') by (eapply mid_loop; [exact Hm | done | exact Hlr]).
  pose proof (lr_chain _ _ _ _ _ _ _ _ _ _ _ _ _ _ _ Hlr) as Hch.
  pose proof (lr_len _ _ _ _ _ _ _ _ _ _ _ _ _ _ _ Hlr) as Hlen.
  pose proof (lr_holds _ _ _ _ _ _ _ _ _ _ _ _ _ _ _ Hlr) as Hh.
  pose proof (lr_bound _ _ _ _ _ _ _ _ _ _ _ _ _ _ _ Hlr) as Hb.
  rewrite Z.sub_0_r in Hlen.
  destruct Hend as [[-> ->]|(-> & Hw & _ & _)]; cbn [drop_written].
  - eexists _, _, chains3. split; [done |]. left. split; [done |].
    assert (ztake size data = ztake size (chain_bytes (set_disk d' s) new)) as ->.
    { destruct Hh as [pad ->]. rewrite Z.sub_0_r. change (zdrop 0 data) with data.
      symmetry. apply take_app_exact. pose proof (length_ztake size data ltac:(lia)) as Hz.
      unfold zlen in Hz. lia. }
    apply mid_close; [done | done | right].
    destruct Hch as [(_ & -> & _)|[Hf Hch]]; [|split_and!; try done; lia].
    exfalso. revert Hlen. unfold clusters_for, zlen. cbn [length]. intros Hlen.
    assert (1 ≤ (size + 511) / 512); [apply Z.div_le_lower_bound |]; lia.
  - destruct (mid_release (set_disk d' s) chains3 first' Hm3) as (dk2 & Hr2 & Hm4).
    cbn [fs_disk set_disk] in Hr2. rewrite Hr2.
    eexists _, _, _. split; [done |]. right. split_and!; [done | done |].
    apply (mid_close _ _ 0 [] 0 Hm4); [done | by left].
Qed.
End write_opened.

(** ** [fs_write] *)

Section ops.
Variables (s : fs_state) (chains : gmap Z (list Z)) (dirs : gset Z).
Variables (path : cstr) (dr : dir_ref) (leaf : cstr).
Hypothesis Ht : tree_ok s chains dirs.
Hypothesis Hpath : is_cstr path.
Hypothesis Hres : resolve_parent s path = Some (Some (dr, leaf)).

Let nm := split_name leaf.

Lemma leaf_user_name : user_name nm.1 nm.2.
Proof. apply split_name_user. by eapply open_parent. Qed.

(** From the entry to the volume. *)
Lemma entry_file_update s1 chains1 i d s' chains' bytes :
  opened s chains dirs (dkey dr) nm s1 chains1 i d → is_directory d = false →
  entry_update s1 chains1 dirs (dkey dr) i d s' chains' bytes →
  tree_ok s' chains' dirs ∧ file_update s chains dirs (dkey dr) nm s' chains' bytes.
Proof.
  intros Ho Hfile [Ht' (e & Hsc & Hpe & Hn & Hfe & <-) Hk]. split; [done |].
  eapply file_update_intro; [done | apply leaf_user_name | done..].
Qed.

Lemma fs_write_spec data size :
  Forall is_u8 data → 0 ≤ size ≤ 4294966784 → size ≤ zlen data →
  ∃ rc s' chains', fs_write s path data size = Some (rc, s') ∧ tree_ok s' chains' dirs ∧
    (rc = -1 ∧ quiet s chains dirs s' chains' ∨
     rc = 0 ∧ file_update s chains dirs (dkey dr) nm s' chains' (ztake size data) ∨
     rc = -1 ∧ file_update s chains dirs (dkey dr) nm s' chains' []).
Proof.
  intros Hd Hs Hl. unfold fs_write. rewrite Hres.
  destruct (Z.eqb_spec (znth leaf 0) 0) as [Hz|Hnz].
  { eexists _, _, chains. split_and!; [done | done |]. left. auto using quiet_refl. }
  destruct (open_or_create_spec s chains dirs path dr leaf Ht Hpath Hres Hnz)
    as [(s1 & chains1 & Ho & Ht1 & Hq & _)|(s1 & chains1 & i & d & Ho & Hop)];
    fold nm in Ho; rewrite (surjective_pairing (split_name leaf)); fold nm; rewrite Ho.
  { eexists _, _, chains1. split_and!; [done | done |]. by left. }
  destruct (is_directory d) eqn:Hdir; pose proof Hdir as Hattr; unfold is_directory in Hattr;
    rewrite Hattr.
  { eexists _, _, chains1. split_and!; [done | apply Hop |]. left. split; [done |].
    destruct (op_new _ _ _ _ _ _ _ _ _ Hop) as [(_ & -> & ->)|[_ ->]]; [apply quiet_refl | done]. }
  destruct (write_tail_spec s1 chains1 dirs dr i d (op_tree _ _ _ _ _ _ _ _ _ Hop)
    (op_plain _ _ _ _ _ _ _ _ _ Hop) Hdir data size Hd Hs Hl) as (rc & s' & chains' & Hw & Hcase).
  exists rc, s', chains'. split; [exact Hw |].
  destruct Hcase as [[-> He]|(-> & _ & He)];
    destruct (entry_file_update _ _ _ _ _ _ _ Hop Hdir He) as [Ht' Hu]; auto 10.
Qed.
End ops.
