(* ===== verification/FsRead.v ===== *)
(** * [fs_read] and [fs_stat]: they report the abstract file system. *)
From S2P Require Import Prelude FsLayout Disk Dirent Fat ChainMap Directory RootDir DirView.
From S2P Require Import Path Fs Tree Walk FsView FsCreate FsData FsFile FsWrite.

Section read.
Variables (s : fs_state) (chains : gmap Z (list Z)) (dirs : gset Z).
Variables (path : cstr) (dr : dir_ref) (leaf : cstr).
Hypothesis Ht : tree_ok s chains dirs.
Hypothesis Hpath : is_cstr path.
Hypothesis Hres : resolve_parent s path = Some (Some (dr, leaf)).

Let nm := split_name leaf.

(** The entry of a file holds as many bytes as its size says. *)
Lemma file_data_length k i d :
  plain_at s chains dirs k i d → is_directory d = false →
  zlen (file_data s chains d) = d_file_size d.
Proof.
  intros Hp Hf. assert (slot_in s chains dirs None k i d) as Hsl by done.
  pose proof (vt_entry _ _ _ _ _ Ht _ _ _ Hsl) as He. unfold entry_ok in He. rewrite Hf in He.
  unfold file_data. destruct He as [[-> ->]|(cs & Hcs & _ & Hs & Hl)].
  - by rewrite (tree_chains_zero _ _ _ _ _ Ht).
  - rewrite Hcs. cbn [default]. unfold id. apply length_ztake.
    rewrite (length_chain_bytes s cs (vt_state _ _ _ _ _ Ht)), Hl. unfold clusters_for.
    pose proof (Z.div_mod (d_file_size d + 511) 512 ltac:(lia)).
    pose proof (Z.mod_pos_bound (d_file_size d + 511) 512 ltac:(lia)). lia.
Qed.

Lemma read_entry k i d size :
  plain_at s chains dirs k i d → is_directory d = false → 0 ≤ size ≤ d_file_size d →
  read_loop (Z.to_nat (u32 (size + FS_BYTES_PER_SECTOR - 1) / FS_BYTES_PER_SECTOR))
    (fs_disk s) (d_first_cluster d) size 0 [] = (ztake size (file_data s chains d), size).
Proof.
  intros Hp Hf Hs. assert (slot_in s chains dirs None k i d) as Hsl by done.
  pose proof (vt_entry _ _ _ _ _ Ht _ _ _ Hsl) as He. unfold entry_ok in He. rewrite Hf in He.
  destruct He as [[Hz Hsz]|(cs & Hcs & _ & Hpos & Hl)].
  - assert (size = 0) as -> by lia. done.
  - pose proof (fw_chain _ _ (vt_fat _ _ _ _ _ Ht) _ _ Hcs) as Hch.
    pose proof (chain_length _ _ _ Hch) as Hcl.
    assert (d_file_size d ≤ 512 * zlen cs) as Hle.
    { rewrite Hl. unfold clusters_for.
      pose proof (Z.div_mod (d_file_size d + 511) 512 ltac:(lia)).
      pose proof (Z.mod_pos_bound (d_file_size d + 511) 512 ltac:(lia)). lia. }
    assert (512 * zlen cs ≤ 4294966784) as Hbig by (unfold zlen; region).
    rewrite clusters_for_u32 by lia.
    rewrite (read_loop_spec s cs); [|apply Ht | done | unfold is_u32; lia | lia | |lia].
    + cbn [app]. rewrite Z.sub_0_r. f_equal. unfold file_data. rewrite Hcs. cbn [default].
      unfold id, ztake. rewrite take_take. f_equal. lia.
    + rewrite Z2Nat.id, Z.sub_0_r; [done |]. apply clusters_for_nonneg. lia.
Qed.

(** [fs_read] returns the first bytes of the file, and fails when the name
    denotes no file. *)
Lemma fs_read_spec max_size :
  0 ≤ max_size →
  fs_read s path max_size =
    match view s chains (dkey dr) nm with
    | Some (File bytes) => Some (0, ztake max_size bytes, Z.min max_size (zlen bytes))
    | _ => Some (-1, [], 0)
    end.
Proof.
  intros Hm. destruct (open_parent s chains dirs path dr leaf Ht Hpath Hres) as [Hdr Hleaf].
  pose proof (split_name_user leaf Hleaf) as Hu. fold nm in Hu.
  unfold fs_read. rewrite Hres, (surjective_pairing (split_name leaf)). fold nm.
  rewrite (dir_scan_key s chains dirs None None Ht) by done. unfold view.
  destruct (find_key s chains (dkey dr) nm.1 nm.2) as [[i d]|] eqn:Hf;
    cbn [fmap option_fmap option_map]; [|done].
  apply (find_key_plain _ _ _ _ _ Ht) in Hf as (Hp & _); [|done..]. cbn [snd].
  unfold node_of. destruct (is_directory d) eqn:Hdir; pose proof Hdir as Hattr;
    unfold is_directory in Hattr; rewrite Hattr; [done |].
  assert (Hpos : 0 ≤ d_file_size d).
  { rewrite <- (file_data_length (dkey dr) i d) by done. unfold zlen. lia. }
  set (size := if max_size <? d_file_size d then max_size else d_file_size d).
  assert (size = Z.min max_size (d_file_size d)) as Hs.
  { unfold size. destruct (Z.ltb_spec max_size (d_file_size d)); lia. }
  rewrite (read_entry (dkey dr) i d size Hp Hdir) by lia.
  rewrite (file_data_length (dkey dr) i d) by done. rewrite <- Hs. do 3 f_equal.
  pose proof (file_data_length (dkey dr) i d Hp Hdir) as Hlen. unfold ztake, zlen in *.
  destruct (decide (max_size ≤ d_file_size d)).
  - f_equal. lia.
  - rewrite !firstn_all2; [done | lia..].
Qed.

(** [fs_stat] reports the size of a file. *)
Lemma fs_stat_file bytes :
  view s chains (dkey dr) nm = Some (File bytes) → fs_stat s path = Some (0, zlen bytes).
Proof.
  intros Hv. destruct (open_parent s chains dirs path dr leaf Ht Hpath Hres) as [Hdr Hleaf].
  pose proof (split_name_user leaf Hleaf) as Hu. fold nm in Hu.
  unfold fs_stat. rewrite Hres, (surjective_pairing (split_name leaf)). fold nm.
  rewrite (dir_scan_key s chains dirs None None Ht) by done. unfold view in Hv.
  destruct (find_key s chains (dkey dr) nm.1 nm.2) as [[i d]|] eqn:Hf;
    cbn [fmap option_fmap option_map] in *; [|done].
  apply (find_key_plain _ _ _ _ _ Ht) in Hf as (Hp & _); [|done..]. cbn [snd] in Hv.
  unfold node_of in Hv. destruct (is_directory d) eqn:Hdir; [done |].
  injection Hv as <-. by rewrite (file_data_length (dkey dr) i d).
Qed.

Lemma fs_stat_none : view s chains (dkey dr) nm = None → fs_stat s path = Some (-1, 0).
Proof.
  intros Hv. destruct (open_parent s chains dirs path dr leaf Ht Hpath Hres) as [Hdr _].
  unfold fs_stat. rewrite Hres, (surjective_pairing (split_name leaf)). fold nm.
  rewrite (dir_scan_key s chains dirs None None Ht) by done. unfold view in Hv.
  by destruct (find_key s chains (dkey dr) nm.1 nm.2) as [[i d]|].
Qed.
End read.
