(* ===== verification/FsAppend.v ===== *)
(** * [fs_append]: the old bytes stay, the new ones follow them. *)
From S2P Require Import Prelude FsLayout Disk Dirent Fat ChainMap Directory RootDir DirView.
From S2P Require Import Path Fs Tree Walk FsView FsCreate FsData FsFile FsWrite FsRead.

(** ** The partly used last cluster *)

Lemma clusters_for_bounds n : 0 ≤ n → n ≤ 512 * clusters_for n < n + 512.
Proof.
  intros Hn. unfold clusters_for.
  pose proof (Z.div_mod (n + 511) 512 ltac:(lia)).
  pose proof (Z.mod_pos_bound (n + 511) 512 ltac:(lia)). lia.
Qed.

Lemma clusters_for_unique n k : n ≤ 512 * k < n + 512 → clusters_for n = k.
Proof. intros Hk. unfold clusters_for. symmetry. apply (Z.div_unique _ _ k (n + 511 - 512 * k)); lia. Qed.

Lemma chain_bytes_snoc s cs l : chain_bytes s (cs ++ [l]) = chain_bytes s cs ++ csec s l.
Proof. rewrite chain_bytes_app. unfold chain_bytes. cbn. by rewrite app_nil_r. Qed.

(** What the tail step leaves: [w] bytes of [data] are behind the first [cur]. *)
Record tail_result (s : fs_state) (chains : gmap Z (list Z)) (dirs : gset Z)
    (hole : option (option Z * nat)) (first : Z) (cs : list Z) (data : list Z) (extra cur : Z)
    (d' : disk) (prev w : Z) : Prop := {
  tl_tree : vol_tree (set_disk d' s) chains dirs hole (pend_of first);
  tl_kept : chains_kept s chains (pend_of first) (set_disk d' s) chains;
  tl_chain : pend_chain chains first prev cs;
  tl_bound : 0 ≤ w ≤ extra;
  tl_full : w < extra → cur + w = 512 * zlen cs;
  tl_len : clusters_for (cur + w) = zlen cs;
  tl_bytes : ztake (cur + w) (chain_bytes (set_disk d' s) cs) =
    ztake cur (chain_bytes s cs) ++ ztake w data
}.

Section tail.
Variables (s : fs_state) (chains : gmap Z (list Z)) (dirs : gset Z).
Variables (hole : option (option Z * nat)) (first : Z) (cs : list Z).
Variables (data : list Z) (extra cur : Z).
Hypothesis Ht : vol_tree s chains dirs hole (pend_of first).
Hypothesis Hdata : Forall is_u8 data.
Hypothesis Hextra : 0 ≤ extra ≤ zlen data.

(** Writing [w] bytes behind byte [cur] of the chain, inside its last cluster [l]. *)
Lemma tail_write cs0 l :
  first ≠ 0 → cs = cs0 ++ [l] → chains !! first = Some cs →
  let off := cur - 512 * zlen cs0 in
  0 ≤ off < 512 → let w := Z.min extra (512 - off) in
  let d' := disk_write_sector (fs_disk s) (cluster_to_lba l)
              (put_bytes (csec s l) off (ztake w data)) in
  vol_tree (set_disk d' s) chains dirs hole (pend_of first) ∧
  chains_kept s chains (pend_of first) (set_disk d' s) chains ∧
  ztake (cur + w) (chain_bytes (set_disk d' s) cs) = ztake cur (chain_bytes s cs) ++ ztake w data.
Proof.
  intros Hnz -> Hcs off Hoff w d'. pose proof (vt_fat _ _ _ _ _ Ht) as Hwf.
  pose proof (vt_state _ _ _ _ _ Ht) as Hst.
  assert (Hpend : pend_of first = Some first) by (unfold pend_of; by destruct (Z.eqb_spec first 0)).
  destruct (csec_ok s l Hst) as [Hsl Hsb].
  assert (zlen (ztake w data) = w) as Hw by (apply length_ztake; lia).
  assert (Hsplice : put_bytes (csec s l) off (ztake w data) =
    ztake off (csec s l) ++ ztake w data ++ zdrop (off + w) (csec s l)).
  { rewrite put_bytes_splice; rewrite ?Hw; unfold zlen; [done | lia | lia]. }
  assert (Hb : sector_ok (put_bytes (csec s l) off (ztake w data))).
  { rewrite Hsplice. split.
    - unfold zlen, ztake, zdrop in *. rewrite !length_app, length_drop, !length_take in *. lia.
    - repeat (apply Forall_app; split); (by apply Forall_take) || by apply Forall_drop. }
  rewrite Hpend in Ht |- *.
  destruct (vol_tree_data s chains dirs hole first _ l _ Ht Hcs ltac:(set_solver) Hb)
    as (Ht' & Hsec & Hother). fold d' in Ht', Hsec, Hother.
  pose proof (chain_NoDup _ _ _ (fw_chain _ _ Hwf _ _ Hcs)) as Hnd.
  apply NoDup_app in Hnd as (_ & Hnd & _).
  split; [done |]. split.
  - split; try done. intros h cs' c Hcs' Hne Hc. apply Hother; [by eapply (fw_data _ _ Hwf) |].
    intros ->. apply Hne. f_equal. eapply (fw_disj _ _ Hwf); [done.. | | done]. set_solver.
  - rewrite !chain_bytes_snoc, Hsec, Hsplice.
    assert (chain_bytes (set_disk d' s) cs0 = chain_bytes s cs0) as ->.
    { apply chain_bytes_congr. intros c Hc.
      apply Hother; [eapply (fw_data _ _ Hwf); [exact Hcs | set_solver] |].
      intros ->. apply (Hnd l Hc). set_solver. }
    pose proof (length_chain_bytes s cs0 Hst) as Hl0.
    assert (zlen (ztake off (csec s l)) = off) as Ho by (apply length_ztake; unfold zlen; lia).
    rewrite (ztake_app_ge (chain_bytes s cs0) (csec s l)) by lia.
    rewrite ztake_app_ge, Hl0, <- app_assoc by lia. f_equal.
    replace (cur + w - 512 * zlen cs0) with (off + w) by lia. fold off.
    rewrite (ztake_app_ge _ _ (off + w)), Ho by lia. f_equal. apply ztake_app_exact. lia.
Qed.

Lemma append_tail_spec :
  is_u32 cur →
  (first = 0 ∧ cur = 0 ∧ cs = [] ∨
   first ≠ 0 ∧ chains !! first = Some cs ∧ 0 < cur ∧ zlen cs = clusters_for cur) →
  ∃ d' prev w, append_tail (fs_disk s) data extra cur first = Some (Some (d', prev, w)) ∧
    tail_result s chains dirs hole first cs data extra cur d' prev w.
Proof.
  intros Hcur Hext. unfold append_tail. change FS_BYTES_PER_SECTOR with 512.
  destruct Hext as [(Hf & -> & Hcs)|(Hnz & Hcs & Hpos & Hl)].
  { cbn. exists (fs_disk s), 0, 0. split; [done |]. rewrite Hcs.
    split; rewrite ?set_disk_id; try done; [by left | lia]. }
  destruct (Z.ltb_spec 0 cur); [|lia].
  pose proof (vt_fat _ _ _ _ _ Ht) as Hwf. pose proof (fw_chain _ _ Hwf _ _ Hcs) as Hch.
  pose proof (clusters_for_bounds cur ltac:(lia)) as Hbd. rewrite <- Hl in Hbd.
  destruct (last cs) as [l|] eqn:Hlast; 
    [|apply last_None in Hlast; rewrite Hlast in Hbd; change (zlen []) with 0 in Hbd; lia].
  apply last_Some in Hlast as [cs0 Hsn].
  assert (Hlen : zlen cs = zlen cs0 + 1) by (rewrite Hsn; unfold zlen; rewrite length_app; cbn; lia).
  assert ((cur - 1) / 512 = zlen cs0) as ->.
  { symmetry. apply (Z.div_unique _ _ _ (cur - 1 - 512 * zlen cs0)); lia. }
  assert (cluster_at_index (fs_disk s) first (zlen cs0) = l) as ->.
  { eapply cluster_at_loop_spec; [exact Hch |]. rewrite Hsn. unfold zlen. rewrite Nat2Z.id.
    rewrite lookup_app_r, Nat.sub_diag by lia. done. }
  assert (data_cluster l) as Hld by (eapply (fw_data _ _ Hwf); [exact Hcs | set_solver]).
  destruct (Z.eqb_spec l 0); [region |].
  assert (Hpc : pend_chain chains first l cs) by (right; rewrite Hsn at 2; by rewrite last_snoc).
  destruct (Z.eqb_spec (cur mod 512) 0) as [Hm|Hm]; cbn [negb].
  - assert (cur = 512 * zlen cs) as Hfull.
    { pose proof (Z.div_mod cur 512 ltac:(lia)). assert (cur / 512 = zlen cs); [|lia].
      assert (cur / 512 < zlen cs + 1); [apply Z.div_lt_upper_bound; lia |].
      assert (zlen cs - 1 < cur / 512); [|lia]. lia. }
    exists (fs_disk s), l, 0. split; [done |].
    split; rewrite ?set_disk_id; try done; [lia | lia | by rewrite Z.add_0_r |].
    rewrite Z.add_0_r. change (ztake 0 data) with (@nil Z). by rewrite app_nil_r.
  - assert (cur mod 512 = cur - 512 * zlen cs0) as ->.
    { symmetry. apply (Z.mod_unique _ _ (zlen cs0)); [|lia]. left.
      pose proof (Z.div_mod cur 512 ltac:(lia)). pose proof (Z.mod_pos_bound cur 512 ltac:(lia)).
      split; [lia |]. destruct (decide (cur = 512 * zlen cs)); [|lia].
      destruct Hm. subst cur. rewrite Z.mul_comm. apply Z.mod_mul. lia. }
    set (off := cur - 512 * zlen cs0) in *.
    assert (0 ≤ off < 512) as Hoff.
    { unfold off. destruct (decide (cur = 512 * zlen cs)) as [->|]; [|lia].
      destruct Hm. rewrite Z.mul_comm. apply Z.mod_mul. lia. }
    destruct (tail_write cs0 l Hnz Hsn Hcs Hoff) as (Ht' & Hk & Hb).
    assert ((if extra <? 512 - off then extra else 512 - off) = Z.min extra (512 - off)) as ->.
    { destruct (Z.ltb_spec extra (512 - off)); lia. }
    set (w := Z.min extra (512 - off)) in *.
    assert (zlen (ztake w data) = w) as Hw by (apply length_ztake; lia).
    destruct (csec_ok s l (vt_state _ _ _ _ _ Ht)) as [Hsl _].
    fold (csec s l). rewrite copy_bytes_in by (rewrite ?Hw; unfold zlen in *; lia).
    eexists _, l, _. split; [done |]. split; try done; [lia | lia |].
    apply clusters_for_unique. lia.
Qed.
End tail.

(** ** The whole append on an opened file *)

Section append_opened.
Variables (s : fs_state) (chains : gmap Z (list Z)) (dirs : gset Z) (dr : dir_ref).
Variables (i : nat) (d : fs_dirent).
Hypothesis Ht : tree_ok s chains dirs.
Hypothesis Hp : plain_at s chains dirs (dkey dr) i d.
Hypothesis Hfile : is_directory d = false.

(** [close] is what both exits of the loop do. *)
Definition append_rest (data : list Z) (extra : Z) : option (Z * fs_state) :=
  let cur := d_file_size d in
  let first := d_first_cluster d in
  let loc := slot_loc chains dr i in
  match append_tail (fs_disk s) data extra cur first with
  | None => None
  | Some None => Some (-1, s)
  | Some (Some (dk, prev, written)) =>
      match append_loop (Z.to_nat extra) dk data extra written first prev with
      | None => None
      | Some (inl (dk, first, written)) =>
          Some (-1, dir_write_entry (set_disk dk s) loc (set_extent first (u32 (cur + written)) d))
      | Some (inr (dk, first, written)) =>
          Some (0, dir_write_entry (set_disk dk s) loc (set_extent first (u32 (cur + written)) d))
      end
  end.

Let old : list Z := file_data s chains d.

(** The chain of the entry. *)
Lemma entry_chain : ∃ cs,
  chain_bytes s cs = chain_bytes s (default [] (chains !! d_first_cluster d)) ∧
  (d_first_cluster d = 0 ∧ d_file_size d = 0 ∧ cs = [] ∨
   d_first_cluster d ≠ 0 ∧ chains !! d_first_cluster d = Some cs ∧ 0 < d_file_size d ∧
     zlen cs = clusters_for (d_file_size d)).
Proof.
  assert (slot_in s chains dirs None (dkey dr) i d) as Hsl by done.
  pose proof (vt_entry _ _ _ _ _ Ht _ _ _ Hsl) as He. unfold entry_ok in He. rewrite Hfile in He.
  destruct He as [[Hz Hs]|(cs & Hcs & _ & Hpos & Hl)].
  - exists []. split; [|by left]. by rewrite Hz, (tree_chains_zero _ _ _ _ _ Ht).
  - exists cs. rewrite Hcs. split; [done | right]. split_and!; try done.
    by eapply (vt_chain_nonzero _ _ _ _ _ Ht).
Qed.

(** Bytes and length of the chain after the tail step and the loop. *)
Lemma append_bytes d1 prev w data extra d' first' w' chains' cs new :
  0 ≤ extra ≤ zlen data → 0 ≤ d_file_size d →
  tail_result s chains dirs (Some (dkey dr, i)) (d_first_cluster d) cs data extra
    (d_file_size d) d1 prev w →
  loop_result dirs (Some (dkey dr, i)) s data extra d1 chains (d_first_cluster d) cs w
    d' first' w' chains' new →
  ztake (d_file_size d + w') (chain_bytes (set_disk d' s) (cs ++ new)) =
    ztake (d_file_size d) (chain_bytes s cs) ++ ztake w' data ∧
  zlen (cs ++ new) = clusters_for (d_file_size d + w').
Proof.
  intros He Hcur Htl Hlr. pose proof (lr_bound _ _ _ _ _ _ _ _ _ _ _ _ _ _ _ Hlr) as Hb.
  pose proof (tl_bound _ _ _ _ _ _ _ _ _ _ _ _ Htl) as Hb0.
  pose proof (tl_bytes _ _ _ _ _ _ _ _ _ _ _ _ Htl) as Hbytes.
  pose proof (tl_len _ _ _ _ _ _ _ _ _ _ _ _ Htl) as Hlen.
  pose proof (lr_len _ _ _ _ _ _ _ _ _ _ _ _ _ _ _ Hlr) as Hnew.
  assert (Hold : chain_bytes (set_disk d' s) cs = chain_bytes (set_disk d1 s) cs).
  { apply chain_bytes_congr. apply Hlr. }
  assert (Hz : zlen (cs ++ new) = zlen cs + zlen new) by (unfold zlen; rewrite length_app; lia).
  rewrite Hz, Hnew. destruct (decide (w' = w)) as [->|Hne].
  - rewrite Z.sub_diag in *. change (clusters_for 0) with 0 in *.
    assert (new = []) as -> by (destruct new; [done | unfold zlen in Hnew; cbn in Hnew; lia]).
    rewrite app_nil_r, Hold. split; [done | lia].
  - pose proof (tl_full _ _ _ _ _ _ _ _ _ _ _ _ Htl ltac:(lia)) as Hfull. split.
    + assert (Hl1 : zlen (chain_bytes (set_disk d1 s) cs) = d_file_size d + w).
      { rewrite length_chain_bytes, Hfull; [done |]. apply (tl_tree _ _ _ _ _ _ _ _ _ _ _ _ Htl). }
      rewrite chain_bytes_app, Hold, ztake_app_ge, Hl1 by lia.
      replace (d_file_size d + w' - (d_file_size d + w)) with (w' - w) by lia.
      destruct (lr_holds _ _ _ _ _ _ _ _ _ _ _ _ _ _ _ Hlr) as [pad ->].
      rewrite ztake_app_exact by (apply length_ztake; unfold zlen, zdrop in *; rewrite length_drop; lia).
      rewrite (ztake_split data w w'), app_assoc by lia. f_equal. rewrite <- Hbytes.
      unfold ztake. rewrite firstn_all2; [done |]. unfold zlen in Hl1. lia.
    + symmetry. apply clusters_for_unique. pose proof (clusters_for_bounds (w' - w) ltac:(lia)). lia.
Qed.

Lemma append_rest_spec data extra :
  Forall is_u8 data → is_u32 extra → 0 < extra ≤ zlen data →
  ∃ rc s' chains' w, append_rest data extra = Some (rc, s') ∧
    (rc = 0 ∧ w = extra ∨ rc = -1 ∧ 0 ≤ w < extra) ∧
    entry_update s chains dirs (dkey dr) i d s' chains' (old ++ ztake w data).
Proof.
  intros Hd H32 He. unfold append_rest. destruct entry_chain as (cs & Hcb & Hext).
  assert (Hok : dirent_ok d) by (by eapply file_dirent_ok).
  destruct (mid_open s chains dirs dr i d Ht Hp Hfile) as (Hv & _).
  destruct (append_tail_spec s chains dirs _ _ cs data extra (d_file_size d) Hv Hd ltac:(lia)
    ltac:(apply Hok) Hext) as (d1 & prev & w0 & -> & Htl).
  assert (Hm : mid s chains dirs dr i d (set_disk d1 s) chains (d_first_cluster d)).
  { split_and!; [apply Htl | |by apply chains_kept_files, Htl].
    eapply chains_kept_dirs; [apply Htl | apply Ht |]. by eapply pend_not_dir. }
  pose proof (tl_bound _ _ _ _ _ _ _ _ _ _ _ _ Htl) as Hb0.
  destruct (append_loop_spec dirs (Some (dkey dr, i)) s data extra Hd H32 ltac:(lia)
    (Z.to_nat extra) d1 chains (d_first_cluster d) prev cs w0)
    as (r & d' & first' & w' & chains' & new & Hr & Hlr & Hend);
    [apply Htl | apply Htl | lia | lia |]. rewrite Hr.
  assert (Hm' : mid s chains dirs dr i d (set_disk d' s) chains' first')
    by (eapply mid_loop; [exact Ht | exact Hp | exact Hm | done | exact Hlr]).
  assert (0 ≤ d_file_size d) as Hcur by apply Hok.
  assert (0 ≤ extra ≤ zlen data) as He' by lia.
  destruct (append_bytes _ _ _ _ _ _ _ _ _ _ _ He' Hcur Htl Hlr) as [Hbytes Hlen].
  pose proof (lr_bound _ _ _ _ _ _ _ _ _ _ _ _ _ _ _ Hlr) as Hb.
  pose proof (lr_chain _ _ _ _ _ _ _ _ _ _ _ _ _ _ _ Hlr) as Hch.
  set (size := d_file_size d + w') in *.
  assert (is_u32 size) as Hs32.
  { pose proof (clusters_for_bounds size ltac:(lia)) as Hcf. rewrite <- Hlen in Hcf.
    assert (zlen (cs ++ new) ≤ FS_TOTAL_DATA_CLUSTERS); [|unfold is_u32; region].
    destruct Hch as [(_ & -> & -> & _)|[_ Hch']]; [by vm_compute |].
    eapply chain_length. exact (fw_chain _ _ (vt_fat _ _ _ _ _ (proj1 Hm')) _ _ Hch'). }
  exists (match r with inl _ => -1 | inr _ => 0 end),
    (dir_write_entry (set_disk d' s) (slot_loc chains dr i) (set_extent first' size d)),
    chains', w'. split; [|split].
  - destruct Hend as [[-> _]|(-> & _)]; rewrite u32_small by done; done.
  - destruct Hend as [[-> ->]|(-> & ? & _)]; [by left | right; split; [done | lia]].
  - unfold old, file_data. rewrite <- Hcb.
    change (take (Z.to_nat (d_file_size d)) ?l) with (ztake (d_file_size d) l).
    rewrite <- Hbytes. apply mid_close; try done.
    destruct Hch as [(-> & -> & -> & _)|[Hf Hch]]; [left | right].
    + split_and!; try done. destruct (Z.eq_dec size 0); [done |].
      pose proof (clusters_for_bounds size ltac:(lia)) as Hcf. rewrite <- Hlen in Hcf.
      change (zlen ([] ++ [])) with 0 in Hcf. lia.
    + split_and!; try done. pose proof (clusters_for_bounds size ltac:(lia)) as Hcf.
      rewrite <- Hlen in Hcf. destruct (cs ++ new) as [|c l] eqn:Hcs.
      * pose proof (fw_chain _ _ (vt_fat _ _ _ _ _ (proj1 Hm')) _ _ Hch) as Hc0. inversion Hc0.
      * unfold zlen in Hcf. cbn [length] in Hcf. lia.
Qed.
End append_opened.

(** ** [fs_append] *)

(** The bytes of a file before the operation; a missing file counts as empty. *)
Definition bytes_before (v : option node) (old : list Z) : Prop :=
  v = Some (File old) ∨ v = None ∧ old = [].

Lemma opened_bytes s chains dirs k nm s1 chains1 i d :
  tree_ok s chains dirs → opened s chains dirs k nm s1 chains1 i d → is_directory d = false →
  bytes_before (view s chains k nm) (file_data s1 chains1 d).
Proof.
  intros Ht Ho Hf. unfold view.
  destruct (op_new _ _ _ _ _ _ _ _ _ Ho) as [(-> & -> & ->)|[-> ->]]; [left | right].
  - cbn. unfold node_of. by rewrite Hf.
  - split; [done |]. done.
Qed.

Lemma entry_update_same s chains dirs k i d :
  tree_ok s chains dirs → plain_at s chains dirs k i d → is_directory d = false →
  entry_update s chains dirs k i d s chains (file_data s chains d).
Proof.
  intros Ht Hp Hf. split; [done | | apply files_kept_refl].
  exists d. split_and!; [by apply slot_change_same | apply Hp | done..].
Qed.

Section ops.
Variables (s : fs_state) (chains : gmap Z (list Z)) (dirs : gset Z).
Variables (path : cstr) (dr : dir_ref) (leaf : cstr).
Hypothesis Ht : tree_ok s chains dirs.
Hypothesis Hpath : is_cstr path.
Hypothesis Hres : resolve_parent s path = Some (Some (dr, leaf)).

Let nm := split_name leaf.

Lemma fs_append_spec data extra :
  Forall is_u8 data → is_u32 extra → extra ≤ zlen data →
  ∃ rc s' chains', fs_append s path data extra = Some (rc, s') ∧ tree_ok s' chains' dirs ∧
    (rc = -1 ∧ quiet s chains dirs s' chains' ∨
     ∃ old w, bytes_before (view s chains (dkey dr) nm) old ∧
       (rc = 0 ∧ w = extra ∨ rc = -1 ∧ 0 ≤ w < extra) ∧
       file_update s chains dirs (dkey dr) nm s' chains' (old ++ ztake w data)).
Proof.
  intros Hd Hs Hl. unfold fs_append. rewrite Hres.
  destruct (Z.eqb_spec (znth leaf 0) 0) as [Hz|Hnz].
  { eexists _, _, chains. split_and!; [done | done |]. left. auto using quiet_refl. }
  destruct (open_or_create_spec s chains dirs path dr leaf Ht Hpath Hres Hnz)
    as [(s1 & chains1 & Ho & Ht1 & Hq & _)|(s1 & chains1 & i & d & Ho & Hop)];
    fold nm in Ho; rewrite (surjective_pairing (split_name leaf)); fold nm; rewrite Ho.
  { eexists _, _, chains1. split_and!; [done | done |]. by left. }
  destruct (is_directory d) eqn:Hdir; pose proof Hdir as Hattr; unfold is_directory in Hattr;
    rewrite Hattr.
  { eexists _, _, chains1. split_and!; [done | apply Hop |]. left. split; [done |].
    destruct (op_new _ _ _ _ _ _ _ _ _ Hop) as [(_ & -> & ->)|[_ ->]]; [apply quiet_refl | done]. }
  pose proof (op_tree _ _ _ _ _ _ _ _ _ Hop) as Ht1.
  pose proof (op_plain _ _ _ _ _ _ _ _ _ Hop) as Hp1.
  pose proof (opened_bytes _ _ _ _ _ _ _ _ _ Ht Hop Hdir) as Hold.
  destruct (Z.eqb_spec extra 0) as [->|Hez].
  - pose proof (entry_update_same _ _ _ _ _ _ Ht1 Hp1 Hdir) as He.
    destruct (entry_file_update s chains dirs path dr leaf Ht Hpath Hres _ _ _ _ _ _ _ Hop Hdir He)
      as [Ht' Hu].
    exists 0, s1, chains1. split_and!; [done | done | right]. exists (file_data s1 chains1 d), 0.
    split_and!; [done | by left |]. change (ztake 0 data) with (@nil Z). by rewrite app_nil_r.
  - destruct (append_rest_spec s1 chains1 dirs dr i d Ht1 Hp1 Hdir data extra Hd Hs)
      as (rc & s' & chains' & w & Hr & Hcase & He); [unfold is_u32 in *; lia |].
    destruct (entry_file_update s chains dirs path dr leaf Ht Hpath Hres _ _ _ _ _ _ _ Hop Hdir He)
      as [Ht' Hu].
    exists rc, s', chains'. split_and!; [exact Hr | done | right]. by exists (file_data s1 chains1 d), w.
Qed.
End ops.
