(* ===== verification/FsDelete.v ===== *)
(** * [fs_delete]: the name is gone, and the clusters are free again. *)
From S2P Require Import Prelude FsLayout Disk Dirent Fat ChainMap Directory RootDir DirView.
From S2P Require Import Path Fs Tree Walk FsView FsCreate FsData FsFile FsWrite FsRead.

(** ** Deleting *)

(** A name of directory [k] is gone and nothing else changes. *)
Record name_removed (s : fs_state) (chains : gmap Z (list Z)) (dirs : gset Z) (k : option Z)
    (nm : name83) (s' : fs_state) (chains' : gmap Z (list Z)) (dirs' : gset Z) : Prop := {
  nr_view : view s' chains' k nm = None;
  nr_other : ∀ k' nm', dir_in dirs' k' → user_name nm'.1 nm'.2 → (k', nm') ≠ (k, nm) →
    view s' chains' k' nm' = view s chains k' nm';
  nr_cwd : cwd_dir s' = cwd_dir s;
  nr_path : cwd_path s' = cwd_path s
}.

(** The deleted mark makes a slot unused. *)
Definition deleted (d : fs_dirent) : fs_dirent := set_extent 0 0 (set_name0 FS_DIRENT_DELETED d).

Lemma deleted_unused d : dirent_ok d → dirent_unused (deleted d) = true.
Proof.
  intros Hd. unfold dirent_unused, deleted. cbn [d_name set_extent set_name0 set_name].
  rewrite znth_zset_eq; [done |]. pose proof (dok_name_len _ Hd) as Hl. unfold zlen. lia.
Qed.

Lemma deleted_ok d : dirent_ok d → dirent_ok (deleted d).
Proof.
  intros Hd. apply set_extent_ok; [by vm_compute.. |]. destruct Hd.
  split; cbn; try done; [by rewrite length_zset |]. apply Forall_insert; [done | by vm_compute].
Qed.

Lemma slot_change_removed s chains dirs s' chains' dirs' k i d e ex :
  tree_ok s chains dirs → tree_ok s' chains' dirs' → dirs' ⊆ dirs →
  slot_change s chains dirs s' chains' dirs' k i e → files_kept s chains dirs s' chains' ex →
  plain_at s chains dirs k i d → ¬ plain e →
  (∀ h, ex = Some h → h ≠ 0 → d_first_cluster d = h) →
  name_removed s chains dirs k (entry_name d) s' chains' dirs'.
Proof.
  intros Ht Ht' Hsub Hsc Hk Hp He Hex. split; [| |apply Hsc..].
  - by apply (view_gone s s' chains chains' dirs dirs' k i e).
  - intros k' nm' Hk' Hu Hne.
    assert (dir_in dirs k') as Hk0 by (destruct k'; [by apply Hsub | done]).
    apply (view_other s s' chains chains' dirs dirs' k i e ex); try done.
    + intros h Hh Hnz. exists d. split; [done |]. by apply Hex.
    + intros d0 -> Hp0. assert (d0 = d) as ->.
      { destruct Hp as (_ & Hi & _), Hp0 as (_ & Hi0 & _). congruence. }
      intros ->. by apply Hne.
Qed.

Section ops.
Variables (s : fs_state) (chains : gmap Z (list Z)) (dirs : gset Z).
Variables (path : cstr) (dr : dir_ref) (leaf : cstr).
Hypothesis Ht : tree_ok s chains dirs.
Hypothesis Hpath : is_cstr path.
Hypothesis Hres : resolve_parent s path = Some (Some (dr, leaf)).

Let nm := split_name leaf.

(** [fs_delete] removes a file, and refuses everything else. *)
Lemma fs_delete_spec :
  ∃ rc s' chains', fs_delete s path = Some (rc, s') ∧ tree_ok s' chains' dirs ∧
    match view s chains (dkey dr) nm with
    | Some (File bytes) =>
        rc = 0 ∧ name_removed s chains dirs (dkey dr) nm s' chains' dirs ∧
        dirs_kept s chains dirs s' chains' dirs ∧
        ∃ i d, find_key s chains (dkey dr) nm.1 nm.2 = Some (i, d) ∧
          chains' = delete (d_first_cluster d) chains
    | _ => rc = -1 ∧ s' = s ∧ chains' = chains
    end.
Proof.
  destruct (open_parent s chains dirs path dr leaf Ht Hpath Hres) as [Hdr Hleaf].
  pose proof (split_name_user leaf Hleaf) as Hu. fold nm in Hu.
  unfold fs_delete. rewrite Hres, (surjective_pairing (split_name leaf)). fold nm.
  rewrite (dir_scan_key s chains dirs None None Ht) by done. unfold view.
  destruct (find_key s chains (dkey dr) nm.1 nm.2) as [[i d]|] eqn:Hf;
    cbn [fmap option_fmap option_map]; [|by exists (-1), s, chains].
  pose proof Hf as (Hp & Hn & He)%(find_key_plain _ _ _ _ _ Ht); [|done..]. cbn [snd].
  assert (Hname : entry_name d = nm) by (unfold entry_name; destruct nm; cbn in *; congruence).
  unfold node_of. destruct (is_directory d) eqn:Hdir; pose proof Hdir as Hattr;
    unfold is_directory in Hattr; rewrite Hattr; [by exists (-1), s, chains |].
  destruct (mid_release s chains dirs dr i d Ht Hp s chains (d_first_cluster d))
    as (dk & Hr & Hm); [by apply mid_open |].
  fold (release_chain (fs_disk s) (d_first_cluster d)). rewrite Hr.
  fold (deleted d). destruct Hm as (Ht2 & Hds & Hk2).
  pose proof (file_dirent_ok s chains dirs dr i d Ht Hp) as Hok.
  pose proof (deleted_unused d Hok) as Hun.
  destruct (close_file s chains dirs dr i d Ht Hp _ _ 0 (deleted d) Ht2 Hds (deleted_ok d Hok))
    as (Ht' & Hsc & Hk'); [by left |].
  eexists 0, _, _. split_and!; [done | done | done | | | by exists i, d].
  - rewrite <- Hname. eapply (slot_change_removed _ _ _ _ _ _ _ _ d (deleted d)
      (pend_of (d_first_cluster d))); try done.
    + eapply files_kept_trans; [done | by apply files_kept_weaken].
    + intros [Hx _]. congruence.
    + intros h. unfold pend_of. by destruct (d_first_cluster d =? 0); intros [= <-].
  - eapply slot_change_kept; [done |]. intros d0 Hp0. assert (d0 = d) as ->; [|done].
    destruct Hp as (_ & Hi & _), Hp0 as (_ & Hi0 & _). congruence.
Qed.
End ops.
