(* ===== verification/FsRename.v ===== *)
(** * [fs_rename]: the entry gets a new name in its directory. *)
From S2P Require Import Prelude FsLayout Disk Dirent Fat ChainMap Directory RootDir DirView.
From S2P Require Import Path Fs Tree Walk FsView FsCreate FsData FsFile FsWrite FsRead.
From S2P Require Import FsDelete.

(** ** Changing the name of a slot *)

Section rename_slot.
Variables (s s' : fs_state) (chains : gmap Z (list Z)) (dirs : gset Z).
Variables (k : option Z) (i : nat) (d e : fs_dirent).
Hypothesis Ht : tree_ok s chains dirs.
Hypothesis Hp : plain_at s chains dirs k i d.
Hypothesis Heff : dir_effect s s' chains k (<[i := e]> (contents s chains k)).
Hypothesis Hpe : plain e.
Hypothesis Hdir : is_directory e = is_directory d.
Hypothesis Hfirst : d_first_cluster e = d_first_cluster d.
Hypothesis Hsize : d_file_size e = d_file_size d.
Hypothesis Hnames : ∀ j d', j ≠ i → plain_at s chains dirs k j d' →
  d_name d' = d_name e → d_ext d' = d_ext e → False.

(** Slots correspond one to one; only slot [i] has another entry. *)
Lemma renamed_slot k' j x :
  slot_in s' chains dirs None k' j x ↔
  (k', j) = (k, i) ∧ x = e ∨ (k', j) ≠ (k, i) ∧ slot_in s chains dirs None k' j x.
Proof.
  destruct Hp as (Hk & Hi & _). unfold slot_in.
  rewrite (plain_at_updated s s' chains k i d e Hi Heff dirs k' j x Hk).
  split; [|naive_solver]. intros [[(?&?&?)|[??]] _]; auto.
Qed.

Lemma renamed_source k' j x :
  slot_in s' chains dirs None k' j x →
  ∃ y, slot_in s chains dirs None k' j y ∧ d_first_cluster x = d_first_cluster y ∧
    is_directory x = is_directory y ∧ d_file_size x = d_file_size y.
Proof.
  intros [([= -> ->] & ->)|[_ Hs]]%renamed_slot; [exists d | exists x]; split_and!; done.
Qed.

Lemma renamed_target k' j x :
  slot_in s chains dirs None k' j x →
  ∃ y, slot_in s' chains dirs None k' j y ∧ d_first_cluster y = d_first_cluster x.
Proof.
  intros Hs. destruct (decide ((k', j) = (k, i))) as [[= -> ->]|Hne].
  - exists e. split; [apply renamed_slot; by left |]. rewrite Hfirst.
    destruct Hs as [(_ & Hi' & _) _], Hp as (_ & Hi & _). congruence.
  - exists x. split; [apply renamed_slot; by right | done].
Qed.

Lemma rename_slot : tree_ok s' chains dirs.
Proof.
  destruct Hp as (Hk & Hi & Hpl). split; try apply Ht.
  - apply Heff.
  - eapply closed_fat; [exact Heff | apply Ht].
  - rewrite (de_cwd _ _ _ _ _ Heff). apply Ht.
  - intros h Hh. destruct (vt_dots _ _ _ _ _ Ht h Hh) as (p & j & x & H0 & H1 & H2 & H3).
    destruct (renamed_target _ _ _ H2) as (y & Hy & Hfy). exists p, j, y.
    assert (Hdot : ∀ m z, (m < 2)%nat → contents s chains (Some h) !! m = Some z →
      contents s' chains (Some h) !! m = Some z).
    { intros m z Hm Hz. apply (lookup_updated s s' chains k i d e Hi Heff). right.
      split; [|done]. intros [= Hkk Hmm]. subst k m.
      by destruct (vt_dot_slot _ _ _ _ _ Ht h i d Hh Hm Hi). }
    split_and!; [apply Hdot; [lia | done] | apply Hdot; [lia | done] | done | congruence].
  - intros k' j x (y & Hy & Hf & Hdy & Hsz)%renamed_source.
    pose proof (vt_entry _ _ _ _ _ Ht _ _ _ Hy) as He. unfold entry_ok in *.
    by rewrite Hdy, Hf, Hsz.
  - intros k1 i1 d1 k2 i2 d2 (y1 & Hy1 & Hf1 & _)%renamed_source (y2 & Hy2 & Hf2 & _)%renamed_source.
    rewrite Hf1, Hf2. by apply (vt_uniq _ _ _ _ _ Ht).
  - intros k' i1 d1 i2 d2 H1 H2 Hn Hx.
    rewrite (plain_at_updated s s' chains k i d e Hi Heff dirs) in H1, H2 by done.
    destruct H1 as [(E1 & -> & _)|[Hn1 H1]], H2 as [(E2 & -> & _)|[Hn2 H2]].
    + congruence.
    + injection E1 as -> ->. destruct (Hnames i2 d2); congruence || done.
    + injection E2 as -> ->. destruct (Hnames i1 d1); congruence || done.
    + by apply (vt_names _ _ _ _ _ Ht k' i1 d1 i2 d2).
  - intros h Hh. destruct (vt_owner _ _ _ _ _ Ht h Hh) as [?|(k' & j & x & Hs & Hx)]; [done |].
    right. destruct (renamed_target _ _ _ Hs) as (y & Hy & Hfy). exists k', j, y. split; congruence.
  - done.
Qed.
End rename_slot.

(** ** The entry with its new name *)

Lemma set_name_ok n e d : user_name n e → dirent_ok d → dirent_ok (set_name n e d).
Proof. intros (?&?&?&?&_) []. by split. Qed.

Lemma set_name_plain n e d : user_name n e → znth n 0 ≠ 0 → name_usable n → plain (set_name n e d).
Proof.
  intros (_ & _ & _ & _ & Hdot) H0 Hu. split; [|done].
  unfold dirent_unused. cbn [d_name set_name]. unfold name_usable in Hu. unfold_layout. lia.
Qed.

(** Directory [k] shows the node of [nm] under [nm2], and no longer under [nm]. *)
Record renamed (s : fs_state) (chains : gmap Z (list Z)) (dirs : gset Z) (k : option Z)
    (nm nm2 : name83) (s' : fs_state) : Prop := {
  rn_old : view s' chains k nm = None;
  rn_new : view s' chains k nm2 = view s chains k nm;
  rn_other : ∀ k' nm', dir_in dirs k' → user_name nm'.1 nm'.2 →
    (k', nm') ≠ (k, nm) → (k', nm') ≠ (k, nm2) → view s' chains k' nm' = view s chains k' nm';
  rn_kept : (∀ h, view s chains k nm ≠ Some (Dir h)) → dirs_kept s chains dirs s' chains dirs;
  rn_cwd : cwd_dir s' = cwd_dir s;
  rn_path : cwd_path s' = cwd_path s
}.

Section ops.
Variables (s : fs_state) (chains : gmap Z (list Z)) (dirs : gset Z).
Hypothesis Ht : tree_ok s chains dirs.

Lemma rename_entry dr i d nm2 :
  plain_at s chains dirs (dkey dr) i d → user_name nm2.1 nm2.2 → znth nm2.1 0 ≠ 0 →
  name_usable nm2.1 → find_key s chains (dkey dr) nm2.1 nm2.2 = None →
  let s' := dir_write_entry s (slot_loc chains dr i) (set_name nm2.1 nm2.2 d) in
  tree_ok s' chains dirs ∧ renamed s chains dirs (dkey dr) (entry_name d) nm2 s'.
Proof.
  intros Hp Hu2 H0 Hus Hnone s'. set (e := set_name nm2.1 nm2.2 d).
  pose proof Hp as (Hdr & Hi & Hpl).
  assert (Hok : dirent_ok d) by (by eapply vt_entry_dirent).
  assert (Hpe : plain e) by (by apply set_name_plain).
  assert (Heff : dir_effect s s' chains (dkey dr) (<[i := e]> (contents s chains (dkey dr)))).
  { apply dir_write_spec; [apply Ht | apply Ht | by eapply vt_good | by eapply lookup_lt_Some |].
    by apply set_name_ok. }
  assert (Hno : ∀ j d', plain_at s chains dirs (dkey dr) j d' → d_name d' = nm2.1 →
    d_ext d' = nm2.2 → False) by (by apply (find_key_none _ _ _ _ _ Ht)).
  assert (Ht' : tree_ok s' chains dirs).
  { apply (rename_slot s s' chains dirs (dkey dr) i d e); try done. intros j d' _. apply Hno. }
  assert (Hsc : slot_change s chains dirs s' chains dirs (dkey dr) i e).
  { eapply write_slot_change; [exact Ht | apply prepared_refl | done | done | by right | done]. }
  pose proof (dir_effect_kept s s' chains dirs _ _ _ _ None Ht Hdr Heff) as Hk.
  assert (Hne : entry_name e = nm2) by (by destruct nm2).
  assert (Hdiff : entry_name e ≠ entry_name d).
  { intros Heq. apply (Hno i d Hp); rewrite Hne in Heq; by rewrite Heq. }
  pose proof (plain_user_name _ _ _ _ _ _ (vt_state _ _ _ _ _ Ht) Hp) as Hu.
  assert (Hex : ∀ h, None = Some h → h ≠ 0 → ∃ d0,
    plain_at s chains dirs (dkey dr) i d0 ∧ d_first_cluster d0 = h) by done.
  split; [done |]. split; [| | | |apply Hsc..].
  - by apply (view_gone s s' chains chains dirs dirs (dkey dr) i e).
  - rewrite (view_at s chains dirs None None (dkey dr) i d Ht Hp Hu), <- Hne.
    rewrite (view_new s s' chains chains dirs dirs (dkey dr) i e) by done. f_equal.
    change (node_of s' chains e) with (node_of s' chains d).
    apply (node_of_kept s chains dirs s' chains None); try done.
    + by apply (vt_entry _ _ _ _ _ Ht (dkey dr) i).
    + by eapply tree_chains_zero.
    + by eapply tree_chains_zero.
  - intros k' nm' Hk' Hu' Hn1 Hn2.
    apply (view_other s s' chains chains dirs dirs (dkey dr) i e None); try done.
    + intros -> _ ->. apply Hn2. by rewrite Hne.
    + intros d0 -> Hp0. assert (d0 = d) as ->.
      { destruct Hp0 as (_ & Hi0 & _). congruence. }
      intros ->. by apply Hn1.
  - intros Hfile. eapply slot_change_kept; [done |]. intros d0 (_ & Hi0 & _).
    assert (d0 = d) as -> by congruence. destruct (is_directory d) eqn:Hdir; [|done].
    destruct (Hfile (d_first_cluster d)). rewrite (view_at s chains dirs None None (dkey dr) i d Ht Hp Hu).
    unfold node_of. by rewrite Hdir.
Qed.

(** [fs_rename] fails and changes nothing, or renames the entry. *)
Lemma fs_rename_spec old_path new_path dr leaf :
  is_cstr old_path → is_cstr new_path →
  resolve_parent s old_path = Some (Some (dr, leaf)) →
  ∃ rc s', fs_rename s old_path new_path = Some (rc, s') ∧
    (rc = -1 ∧ s' = s ∨
     rc = 0 ∧ ∃ dr2 leaf2, resolve_parent s new_path = Some (Some (dr2, leaf2)) ∧
       dkey dr2 = dkey dr ∧
       is_Some (view s chains (dkey dr) (split_name leaf)) ∧
       view s chains (dkey dr) (split_name leaf2) = None ∧
       (name_usable (split_name leaf2).1 → tree_ok s' chains dirs ∧
         renamed s chains dirs (dkey dr) (split_name leaf) (split_name leaf2) s')).
Proof.
  intros Hpath Hpath2 Hres.
  destruct (open_parent s chains dirs old_path dr leaf Ht Hpath Hres) as [Hdr Hleaf].
  pose proof (split_name_user leaf Hleaf) as Hu.
  unfold fs_rename. rewrite Hres, (surjective_pairing (split_name leaf)).
  set (nm := split_name leaf) in *.
  rewrite (dir_scan_key s chains dirs None None Ht) by done. unfold view.
  destruct (find_key s chains (dkey dr) nm.1 nm.2) as [[i d]|] eqn:Hf;
    cbn [fmap option_fmap option_map]; [|by exists (-1), s; auto].
  destruct (resolve_parent_total s chains dirs new_path Ht Hpath2) as (r2 & Hr2 & Hspec).
  rewrite Hr2. destruct r2 as [[dr2 leaf2]|]; [|by exists (-1), s; auto].
  destruct (Hspec dr2 leaf2 eq_refl) as [Hdr2 Hleaf2].
  pose proof (split_name_user leaf2 Hleaf2) as Hu2. pose proof (split_name_nonzero leaf2 Hleaf2) as H02.
  destruct (znth leaf2 0 =? 0); [by exists (-1), s; auto |].
  rewrite (surjective_pairing (split_name leaf2)). set (nm2 := split_name leaf2) in *.
  destruct (negb _ || negb _) eqn:Hsame; [by exists (-1), s; auto |].
  assert (dkey dr2 = dkey dr) as Hk.
  { apply orb_false_iff in Hsame as [H1%negb_false_iff H2%negb_false_iff].
    apply Bool.eqb_prop in H1. apply Z.eqb_eq in H2. unfold dkey. by rewrite H1, H2. }
  rewrite (dir_scan_key s chains dirs None None Ht) by done. rewrite Hk.
  destruct (find_key s chains (dkey dr) nm2.1 nm2.2) as [[j d2]|] eqn:Hf2;
    cbn [fmap option_fmap option_map]; [by exists (-1), s; auto |].
  eexists 0, _. split; [done |]. right. split; [done |]. exists dr2, leaf2. fold nm2.
  rewrite <- ?surjective_pairing. split_and!; try done; [rewrite Hf; by eexists | by rewrite Hf2 |].
  intros Hus. apply (find_key_plain _ _ _ _ _ Ht) in Hf as (Hp & Hn & He); [|done..].
  assert (nm = entry_name d) as -> by (unfold entry_name; destruct nm; cbn in *; congruence).
  by apply rename_entry.
Qed.
End ops.
