(* ===== verification/FsMkdir.v ===== *)
(** * [fs_mkdir]: a new directory with its "." and ".." entries. *)
From S2P Require Import Prelude FsLayout Disk Dirent Fat ChainMap Directory RootDir DirView.
From S2P Require Import Path Fs Tree Walk FsView FsCreate FsData FsFile FsWrite FsRead.

(** ** The cluster of the new directory, while no entry refers to it *)

(** [s'] differs from [s] in the allocation and the bytes of [n] only. *)
Record pending_dir (s : fs_state) (chains : gmap Z (list Z)) (dirs : gset Z) (n : Z)
    (s' : fs_state) (l : list fs_dirent) : Prop := {
  pd_tree : vol_tree s' (<[n := [n]]> chains) dirs None (Some n);
  pd_contents : contents s' (<[n := [n]]> chains) (Some n) = l;
  pd_kept : chains_kept s chains None s' (<[n := [n]]> chains)
}.

Section pending_dir.
Variables (s : fs_state) (chains : gmap Z (list Z)) (dirs : gset Z) (n : Z).
Hypothesis Ht : tree_ok s chains dirs.
Hypothesis Hn : data_cluster n.
Hypothesis Hfree : fat s n = FS_CLUSTER_FREE.

Lemma fresh_not_in h cs c : chains !! h = Some cs → c ∈ cs → c ≠ n ∧ h ≠ n.
Proof.
  pose proof (vt_fat _ _ _ _ _ Ht) as Hwf. intros Hcs Hc. split; intros ->.
  - by destruct (fw_fresh_notin _ _ Hwf n h cs).
  - rewrite (fw_fresh _ _ Hwf n Hfree) in Hcs. done.
Qed.

(** Allocated and zeroed. *)
Lemma pending_dir_init d1 :
  fat_effect (fs_disk s) d1 (fupd (fat s) n FS_CLUSTER_EOC) →
  pending_dir s chains dirs n
    (set_disk (disk_write_sector d1 (cluster_to_lba n) zero_sector) s) (replicate 16 zero_dirent).
Proof.
  intros He. pose proof (vt_fat _ _ _ _ _ Ht) as Hwf.
  destruct (vol_tree_alloc s chains dirs None n d1 Ht Hn Hfree He) as (Ht1 & Hsec1).
  destruct (vol_tree_data (set_disk d1 s) (<[n:=[n]]> chains) dirs None n [n] n zero_sector Ht1)
    as (Ht2 & Hsec & Hother); [apply lookup_insert_eq | set_solver | apply zero_sector_ok |].
  split; [done | |].
  - cbn [contents]. rewrite lookup_insert_eq. cbn [default id map concat].
    rewrite app_nil_r. by apply zero_cluster_entries.
  - split; try done.
    + intros h cs Hcs _. rewrite lookup_insert_ne; [done |]. intros <-.
      by rewrite (fw_fresh _ _ Hwf n Hfree) in Hcs.
    + intros h cs c Hcs _ Hc. destruct (fresh_not_in _ _ _ Hcs Hc) as [Hne _].
      assert (data_cluster c) by (by eapply (fw_data _ _ Hwf)).
      transitivity (csec (set_disk d1 s) c); [by apply Hother | by apply Hsec1].
Qed.

(** Writing a slot of the pending directory. *)
Lemma pending_dir_write s1 l i e :
  pending_dir s chains dirs n s1 l → (i < length l)%nat → (i < 16)%nat → dirent_ok e →
  pending_dir s chains dirs n
    (dir_write_entry s1 (mk_loc (mk_dir false n) 0 n (Z.of_nat i)) e) (<[i := e]> l).
Proof.
  intros [Ht1 Hc Hk] Hi H16 He. set (chains1 := <[n := [n]]> chains) in *.
  assert (mk_loc (mk_dir false n) 0 n (Z.of_nat i) = slot_loc chains1 (mk_dir false n) i) as ->.
  { unfold slot_loc, chains1. cbn [is_root dir_cluster]. rewrite lookup_insert_eq. cbn [default id].
    rewrite Nat.div_small, Nat.mod_small by done. done. }
  pose proof (dir_write_spec s1 chains1 (mk_dir false n) (vt_state _ _ _ _ _ Ht1)
    (vt_fat _ _ _ _ _ Ht1) i e) as Heff. cbn [dkey is_root dir_cluster] in Heff.
  rewrite Hc in Heff. specialize (Heff ltac:(eexists; apply lookup_insert_eq) Hi He).
  set (s2 := dir_write_entry _ _ _) in *.
  assert (Hsec : ∀ c, data_cluster c → c ≠ n → csec s2 c = csec s1 c).
  { intros c Hcd Hne. apply (de_csec _ _ _ _ _ Heff); [done |]. intros h cs [= <-] Hcs.
    unfold chains1 in Hcs. rewrite lookup_insert_eq in Hcs. injection Hcs as <-. set_solver. }
  destruct (vt_pend _ _ _ _ _ Ht1 n eq_refl) as (_ & Hnd & _).
  split.
  - apply (vol_tree_chains s1 _ chains1 _ dirs None (Some n)).
    + done.
    + apply Heff.
    + eapply (fat_wf_ext (fat s1)); [apply Ht1 |]. intros c Hcd. apply Heff. auto with rink.
    + apply Heff.
    + intros k Hkd. apply (de_other _ _ _ _ _ Heff). intros ->. done.
    + done.
    + by left.
    + by left.
    + intros h [= <-]. split; [by eexists; apply lookup_insert_eq | by right].
  - apply Heff.
  - destruct Hk as [Hr Hcw Hpa Hch Hb]. split; [| | |done|].
    + rewrite <- Hr. by apply (de_other _ _ _ _ _ Heff None).
    + rewrite <- Hcw. apply Heff.
    + rewrite <- Hpa. apply Heff.
    + intros h cs c Hcs Hne Hcin. rewrite <- (Hb h cs c Hcs Hne Hcin).
      apply Hsec; [|by destruct (fresh_not_in h cs c Hcs Hcin)]. by eapply (fw_data _ _ (vt_fat _ _ _ _ _ Ht)).
Qed.

(** The directory given up again. *)
Lemma pending_dir_free s1 l :
  pending_dir s chains dirs n s1 l →
  ∃ d', fat_free_chain (fs_disk s1) n = Some d' ∧
    tree_ok (set_disk d' s1) (delete n (<[n := [n]]> chains)) dirs ∧
    quiet s chains dirs (set_disk d' s1) (delete n (<[n := [n]]> chains)).
Proof.
  intros [Ht1 _ Hk]. destruct (vol_tree_free _ _ _ _ _ Ht1) as (d' & Hf & Ht' & Hsec).
  exists d'. split; [done |]. split; [done |].
  assert (Hck : chains_kept s chains None (set_disk d' s1) (delete n (<[n := [n]]> chains))).
  { destruct Hk as [Hr Hcw Hpa Hch Hb]. split; try done.
    - intros h cs Hcs Hne. rewrite lookup_delete_ne; [by apply Hch |]. intros <-.
      by rewrite (fw_fresh _ _ (vt_fat _ _ _ _ _ Ht) n Hfree) in Hcs.
    - intros h cs c Hcs Hne Hc. rewrite Hsec; [by eapply Hb |].
      by eapply (fw_data _ _ (vt_fat _ _ _ _ _ Ht)). }
  split; [|by apply chains_kept_files].
  by apply (chains_kept_prepared _ _ None); [done | apply Ht |].
Qed.
End pending_dir.

(** ** Linking the directory into its parent *)

Lemma lookup_two_dots (h p : Z) (i : nat) d :
  (<[1%nat := dotdot_entry p]> (<[0%nat := dot_entry h]> (replicate 16 zero_dirent))) !! i = Some d →
  ¬ plain d.
Proof.
  destruct i as [|[|i]].
  - rewrite list_lookup_insert_ne by done. cbn. intros [= <-] [_ Hd]. by apply Hd.
  - rewrite list_lookup_insert_eq by (rewrite length_insert, length_replicate; lia).
    intros [= <-] [_ Hd]. by apply Hd.
  - rewrite !list_lookup_insert_ne by done. intros [-> _]%lookup_replicate [Hu _]. done.
Qed.

Lemma two_dots_skipped (h p : Z) :
  forallb skipped (<[1%nat := dotdot_entry p]> (<[0%nat := dot_entry h]> (replicate 16 zero_dirent))) = true.
Proof. done. Qed.

(** The new directory [n], called [nm], is empty. *)
Record dir_created (s : fs_state) (chains : gmap Z (list Z)) (dirs : gset Z) (k : option Z)
    (nm : name83) (s' : fs_state) (chains' : gmap Z (list Z)) (n : Z) : Prop := {
  dc_fresh : n ∉ dirs;
  dc_view : view s' chains' k nm = Some (Dir n);
  dc_empty : ∀ nm', user_name nm'.1 nm'.2 → view s' chains' (Some n) nm' = None;
  dc_skipped : forallb skipped (contents s' chains' (Some n)) = true;
  dc_other : ∀ k' nm', dir_in dirs k' → user_name nm'.1 nm'.2 → (k', nm') ≠ (k, nm) →
    view s' chains' k' nm' = view s chains k' nm';
  dc_kept : dirs_kept s chains dirs s' chains' ({[n]} ∪ dirs);
  dc_path : cwd_path s' = cwd_path s
}.

Section link.
Variables (s : fs_state) (chains : gmap Z (list Z)) (dirs : gset Z) (dr : dir_ref) (nm : name83).
Variables (s5 : fs_state) (chains5 : gmap Z (list Z)) (n p : Z) (i : nat) (d : fs_dirent).
Hypothesis Ht : tree_ok s chains dirs.
Hypothesis Hdr : dir_in dirs (dkey dr).
Hypothesis Hu : user_name nm.1 nm.2.
Hypothesis Hnone : find_key s chains (dkey dr) nm.1 nm.2 = None.
Hypothesis Hplain : plain (new_dirent nm.1 nm.2 FS_ATTR_DIRECTORY n 0).
Hypothesis Ht5 : vol_tree s5 chains5 dirs None (Some n).
Hypothesis Hprep : prepared s chains dirs s5 chains5.
Hypothesis Hkept : files_kept s chains dirs s5 chains5 None.
Hypothesis Hi : contents s5 chains5 (dkey dr) !! i = Some d.
Hypothesis Hd : dirent_unused d = true.
Hypothesis Hp : pkey p = dkey dr.
Hypothesis Hdots : contents s5 chains5 (Some n) =
  <[1%nat := dotdot_entry p]> (<[0%nat := dot_entry n]> (replicate 16 zero_dirent)).

Let e := new_dirent nm.1 nm.2 FS_ATTR_DIRECTORY n 0.
Let s' := dir_write_entry s5 (slot_loc chains5 dr i) e.
Let dirs' : gset Z := {[n]} ∪ dirs.

Lemma link_fresh : n ∉ dirs.
Proof. by destruct (vt_pend _ _ _ _ _ Ht5 n eq_refl) as (_ & ? & _). Qed.

Lemma link_no_plain j x : contents s5 chains5 (Some n) !! j = Some x → ¬ plain x.
Proof. rewrite Hdots. apply lookup_two_dots. Qed.

Lemma link_effect : dir_effect s5 s' chains5 (dkey dr) (<[i := e]> (contents s5 chains5 (dkey dr))).
Proof.
  apply dir_write_spec; [apply Ht5 | apply Ht5 | by eapply vt_good | by eapply lookup_lt_Some |].
  apply new_dirent_ok; [by left | by vm_compute | | by vm_compute].
  destruct (vt_pend _ _ _ _ _ Ht5 n eq_refl) as ([cs Hcs] & _ & _).
  apply in_fat_u16, data_in_fat. by eapply (fw_head _ _ (vt_fat _ _ _ _ _ Ht5)).
Qed.

Lemma link_in k : dir_in dirs k → dir_in dirs' k.
Proof. destruct k; cbn; unfold dirs'; [set_solver | done]. Qed.

Lemma link_tree : tree_ok s' chains5 dirs'.
Proof.
  eapply (vol_tree_close s5 s' chains5 dirs dirs' None (Some n) (dkey dr) i d e);
    [done | done | done | by right | apply link_effect | unfold dirs'; set_solver | |].
  - intros h [->%elem_of_singleton|Hh]%elem_of_union; [right | by left].
    split_and!; try done; [apply link_no_plain |]. exists p. rewrite Hdots. split_and!; [done | |].
    + by rewrite list_lookup_insert_ne.
    + by rewrite list_lookup_insert_eq by (rewrite length_insert, length_replicate; lia).
  - right. split_and!; [done | | by right |].
    + unfold entry_ok, e, dirs'. cbn. set_solver.
    + intros j d' _ Hpl Hn He. rewrite (pr_plain _ _ _ _ _ Hprep) in Hpl.
      rewrite (find_key_none _ _ _ _ _ Ht) in Hnone by done. by eapply Hnone.
Qed.

(** The plain slots of the new directory set are those of the old one. *)
Lemma link_plain k j x :
  plain_at s5 chains5 dirs' k j x ↔ plain_at s chains dirs k j x.
Proof.
  rewrite <- (pr_plain _ _ _ _ _ Hprep). unfold plain_at. split; intros (Hk & Hj & Hpl).
  - split_and!; [|done..]. destruct k as [h|]; [|done]. unfold dirs' in Hk. cbn in *.
    apply elem_of_union in Hk as [->%elem_of_singleton|]; [|done]. by destruct (link_no_plain j x).
  - split_and!; [by apply link_in | done..].
Qed.

Lemma link_slot_change : slot_change s chains dirs s' chains5 dirs' (dkey dr) i e.
Proof.
  pose proof link_effect as Heff. split.
  - done.
  - by apply link_in.
  - intros k' j d'. rewrite (plain_at_updated s5 s' chains5 (dkey dr) i d e Hi Heff) by (by apply link_in).
    by rewrite link_plain.
  - intros h x Hh _ Hx. apply (pr_dots _ _ _ _ _ Hprep) in Hx; [|done].
    apply (lookup_updated s5 s' chains5 (dkey dr) i d e Hi Heff). right. split; [|done].
    intros [= Hk <-]. rewrite <- Hk in Hi. rewrite Hi in Hx. injection Hx as <-.
    destruct (vt_dot_slot _ _ _ _ _ Ht5 h 1 d Hh) as [_ Hu']; [lia | done | congruence].
  - rewrite (de_cwd _ _ _ _ _ Heff). apply Hprep.
  - rewrite (de_path _ _ _ _ _ Heff). apply Hprep.
Qed.

Lemma link_created : dir_created s chains dirs (dkey dr) nm s' chains5 n.
Proof.
  pose proof link_slot_change as Hsc. pose proof link_tree as Ht'.
  assert (Hk : files_kept s chains dirs s' chains5 None).
  { eapply files_kept_trans; [exact Hkept |]. by eapply dir_effect_kept, link_effect. }
  assert (Hno : ∀ d0, ¬ plain_at s chains dirs (dkey dr) i d0).
  { intros d0 Hp0. rewrite <- (pr_plain _ _ _ _ _ Hprep) in Hp0.
    destruct Hp0 as (_ & Hi0 & [Hu0 _]). congruence. }
  assert (Hname : entry_name e = nm) by (by destruct nm).
  split.
  - apply link_fresh.
  - rewrite <- Hname. by rewrite (view_new s s' chains chains5 dirs dirs' (dkey dr) i e).
  - intros nm' Hu'. unfold view. assert (find_key s' chains5 (Some n) nm'.1 nm'.2 = None) as ->; [|done].
    apply (find_key_none _ _ _ _ _ Ht'); [unfold dirs'; cbn; set_solver | done |].
    intros j x Hx _ _. rewrite (sc_plain _ _ _ _ _ _ _ _ _ Hsc) in Hx.
    destruct Hx as [([= Hk' _] & _)|[_ (Hd0 & _)]]; [|by apply link_fresh].
    apply link_fresh. by rewrite <- Hk' in Hdr.
  - rewrite (de_other _ _ _ _ _ link_effect), Hdots; [apply two_dots_skipped |].
    intros Hk'. apply link_fresh. by rewrite <- Hk' in Hdr.
  - intros k' nm' Hk' Hu' Hne.
    apply (view_other s s' chains chains5 dirs dirs' (dkey dr) i e None); try done.
    + by apply link_in.
    + intros -> _ ->. apply Hne. by rewrite Hname.
    + intros d0 -> Hp0. by destruct (Hno d0).
  - eapply (slot_change_dirs_kept s s' chains chains5 dirs dirs' (dkey dr) i e); [done | |].
    + unfold dirs'. set_solver.
    + intros d0 Hp0. by destruct (Hno d0).
  - apply Hsc.
Qed.
End link.

(** ** [fs_mkdir] *)

Section ops.
Variables (s : fs_state) (chains : gmap Z (list Z)) (dirs : gset Z).
Variables (path : cstr) (dr : dir_ref) (leaf : cstr).
Hypothesis Ht : tree_ok s chains dirs.
Hypothesis Hpath : is_cstr path.
Hypothesis Hres : resolve_parent s path = Some (Some (dr, leaf)).

Let nm := split_name leaf.

(** The value stored in the ".." entry names the parent directory. *)
Lemma dotdot_parent :
  dir_in dirs (dkey dr) → pkey (if is_root dr then 0 else dir_cluster dr) = dkey dr.
Proof.
  unfold pkey, dkey. intros Hdr. destruct (is_root dr); [done |].
  destruct (Z.eqb_spec (dir_cluster dr) 0) as [Hz|]; [|done].
  by destruct (vt_dir_nonzero _ _ _ _ _ Ht _ Hdr).
Qed.

(** The two entries written into the new cluster. *)
Lemma two_dots n d1 (p : Z) :
  data_cluster n → fat s n = FS_CLUSTER_FREE →
  fat_effect (fs_disk s) d1 (fupd (fat s) n FS_CLUSTER_EOC) → is_u16 p →
  let s2 := set_disk (disk_write_sector d1 (cluster_to_lba n) zero_sector) s in
  let s3 := dir_write_entry s2 (mk_loc (mk_dir false n) 0 n 0) (dot_entry n) in
  let s4 := dir_write_entry s3 (mk_loc (mk_dir false n) 0 n 1) (dotdot_entry p) in
  pending_dir s chains dirs n s4
    (<[1%nat := dotdot_entry p]> (<[0%nat := dot_entry n]> (replicate 16 zero_dirent))).
Proof.
  intros Hn Hfree He Hp s2 s3 s4.
  assert (is_u16 n) as Hn16 by (by apply in_fat_u16, data_in_fat).
  pose proof (pending_dir_init s chains dirs n Ht Hn Hfree d1 He) as H2. fold s2 in H2.
  assert (∀ a m, is_u16 a → (m = DOT_NAME ∨ m = DOTDOT_NAME) →
    dirent_ok (new_dirent m EMPTY_EXT FS_ATTR_DIRECTORY a 0)) as Hok.
  { intros a m Ha [-> | ->]; split; cbn; try done; by repeat constructor. }
  pose proof (pending_dir_write s chains dirs n Ht Hn Hfree s2 _ 0 (dot_entry n) H2
    ltac:(by rewrite length_replicate; lia) ltac:(lia) ltac:(apply Hok; auto)) as H3.
  apply (pending_dir_write s chains dirs n Ht Hn Hfree _ _ 1 (dotdot_entry p) H3).
  - rewrite length_insert, length_replicate. lia.
  - lia.
  - apply Hok; auto.
Qed.

(** [fs_mkdir] fails without a visible change, or creates an empty directory. *)
Lemma fs_mkdir_spec :
  name_usable nm.1 →
  ∃ rc s' chains', fs_mkdir s path = Some (rc, s') ∧
    (rc = -1 ∧ tree_ok s' chains' dirs ∧ quiet s chains dirs s' chains' ∨
     rc = 0 ∧ znth leaf 0 ≠ 0 ∧ leaf_is_dots leaf = false ∧
       find_key s chains (dkey dr) nm.1 nm.2 = None ∧
       ∃ n, tree_ok s' chains' ({[n]} ∪ dirs) ∧
         dir_created s chains dirs (dkey dr) nm s' chains' n).
Proof.
  intros Hus. destruct (open_parent s chains dirs path dr leaf Ht Hpath Hres) as [Hdr Hleaf].
  pose proof (split_name_user leaf Hleaf) as Hu. pose proof (split_name_nonzero leaf Hleaf) as H0.
  fold nm in Hu, H0. unfold fs_mkdir. rewrite Hres.
  assert (Hfail : ∃ rc s' chains', Some (-1, s) = Some (rc, s') ∧
    (rc = -1 ∧ tree_ok s' chains' dirs ∧ quiet s chains dirs s' chains' ∨
     rc = 0 ∧ znth leaf 0 ≠ 0 ∧ leaf_is_dots leaf = false ∧
       find_key s chains (dkey dr) nm.1 nm.2 = None ∧
       ∃ n, tree_ok s' chains' ({[n]} ∪ dirs) ∧
         dir_created s chains dirs (dkey dr) nm s' chains' n)).
  { exists (-1), s, chains. split; [done |]. left. auto using quiet_refl. }
  destruct (Z.eqb_spec (znth leaf 0) 0) as [|Hl]; [exact Hfail |].
  destruct (leaf_is_dots leaf); [exact Hfail |].
  rewrite (surjective_pairing (split_name leaf)). fold nm.
  rewrite (dir_scan_key s chains dirs None None Ht) by done.
  destruct (find_key s chains (dkey dr) nm.1 nm.2) as [[i d]|] eqn:Hf;
    cbn [fmap option_fmap option_map]; [exact Hfail |].
  pose proof (fat_alloc_spec _ (so_vol _ (vt_state _ _ _ _ _ Ht))) as Ha.
  inversion Ha as [Hfull Heq|n d1 Hn Hfree _ He Heq].
  { cbn [Z.eqb]. rewrite set_disk_id. exact Hfail. }
  destruct (Z.eqb_spec n 0) as [->|Hnz]; [region |]. cbv zeta.
  set (p := if is_root dr then 0 else dir_cluster dr).
  assert (is_u16 p) as Hp16.
  { unfold p, dkey in *. destruct (is_root dr); [by vm_compute |].
    destruct (vt_dirs _ _ _ _ _ Ht _ Hdr) as [cs Hcs].
    apply in_fat_u16, data_in_fat. by eapply (fw_head _ _ (vt_fat _ _ _ _ _ Ht)). }
  pose proof (two_dots n d1 p Hn Hfree He Hp16) as Hpd. cbv zeta in Hpd.
  change (replicate (Z.to_nat FS_BYTES_PER_SECTOR) 0) with zero_sector.
  change (set_extent p 0 (set_name DOTDOT_NAME EMPTY_EXT _)) with (dotdot_entry p).
  change (new_dirent DOT_NAME EMPTY_EXT FS_ATTR_DIRECTORY n 0) with (dot_entry n).
  set (s4 := dir_write_entry (dir_write_entry _ _ _) _ _) in *.
  destruct (find_free_prepared s4 _ dirs None (Some n) dr (pd_tree _ _ _ _ _ _ Hpd) Hdr)
    as (r & s5 & -> & Hs5).
  destruct Hs5 as [(-> & -> & _)|(chains5 & i & d & -> & Ht5 & Hi & Hd & Hpr & Hk5 & Hc5)].
  - destruct (pending_dir_free s chains dirs n Ht Hfree s4 _ Hpd) as (d' & -> & Ht' & Hq).
    eexists (-1), _, _. split; [done |]. by left.
  - assert (Hpr0 : prepared s chains dirs s4 (<[n:=[n]]> chains)).
    { apply (chains_kept_prepared _ _ None); [apply Hpd | apply Ht | done]. }
    eexists 0, _, chains5. split; [done |]. right. split_and!; [done.. |]. exists n.
    assert (plain (new_dirent nm.1 nm.2 FS_ATTR_DIRECTORY n 0)) as Hpl by (by apply new_plain).
    assert (Hprep : prepared s chains dirs s5 chains5) by (by eapply prepared_trans).
    assert (Hkept : files_kept s chains dirs s5 chains5 None).
    { eapply files_kept_trans; [apply chains_kept_files, Hpd | done]. }
    assert (Hdots : contents s5 chains5 (Some n) =
      <[1%nat := dotdot_entry p]> (<[0%nat := dot_entry n]> (replicate 16 zero_dirent))).
    { rewrite Hc5; [apply Hpd |].
      by destruct (vt_pend _ _ _ _ _ (pd_tree _ _ _ _ _ _ Hpd) n eq_refl) as (_ & ? & _). }
    pose proof (dotdot_parent Hdr) as Hpk. fold p in Hpk.
    split; [by eapply link_tree | by eapply link_created].
Qed.
End ops.
