(* ===== verification/FsRmdir.v ===== *)
(** * [fs_rmdir]: only empty directories go, and their clusters come back. *)
From S2P Require Import Prelude FsLayout Disk Dirent Fat ChainMap Directory RootDir DirView.
From S2P Require Import Path Fs Tree Walk FsView FsCreate FsData FsFile FsWrite FsRead.
From S2P Require Import FsDelete.

(** ** The emptiness check *)

Lemma rmdir_loop_spec fuel s it xs :
  iter_yields s it xs → (length xs < fuel)%nat →
  rmdir_loop fuel s it = Some (forallb (λ x, skipped x.1) xs).
Proof.
  intros Hy. revert fuel. induction Hy as [it it' Hn|it it' [d l] xs Hn Hy IH];
    intros [|fuel] Hf; cbn [length] in *; try lia; cbn [rmdir_loop forallb fst]; rewrite Hn; [done |].
  unfold skipped at 1. destruct (dirent_unused d); cbn [orb andb]; [apply IH; lia |].
  destruct (fields_eq (d_name d) DOT_NAME 8); cbn [orb andb]; [apply IH; lia |].
  destruct (fields_eq (d_name d) DOTDOT_NAME 8); cbn [orb andb]; [apply IH; lia | done].
Qed.

Lemma forallb_slots s chains dr :
  forallb (λ x, skipped x.1) (slots s chains dr) = forallb skipped (contents s chains (dkey dr)).
Proof.
  unfold slots. generalize (slot_loc chains dr) as g. induction (contents s chains (dkey dr)) as [|d l IH];
    intros g; [done |]. cbn. f_equal. apply (IH (g ∘ S)).
Qed.

Lemma skipped_not_plain d : dirent_ok d → skipped d = true → ¬ plain d.
Proof.
  intros Hok Hsk [Hu Hdot]. unfold skipped in Hsk. rewrite Hu in Hsk. cbn [orb] in Hsk.
  apply orb_true_iff in Hsk as [He|He];
    (rewrite fields_eq_spec in He by (apply Hok || done)); rewrite He in Hdot; by apply Hdot.
Qed.

(** ** Taking the directory out of the tree *)

Section remove.
Variables (s : fs_state) (chains : gmap Z (list Z)) (dirs : gset Z) (dr : dir_ref).
Variables (i : nat) (d : fs_dirent) (dk : disk).
Hypothesis Ht : tree_ok s chains dirs.
Hypothesis Hp : plain_at s chains dirs (dkey dr) i d.
Hypothesis Hdir : is_directory d = true.

Let h := d_first_cluster d.
Let chains' := delete h chains.
Let dirs' := dirs ∖ {[h]}.
Let s2 := set_disk dk s.
Let s' := dir_write_entry s2 (slot_loc chains dr i) (deleted d).

Hypothesis Hempty : ∀ j x, contents s chains (Some h) !! j = Some x → ¬ plain x.
Hypothesis Ht2 : vol_tree s2 chains' dirs' (Some (dkey dr, i)) None.
Hypothesis Hsec : ∀ c, data_cluster c → csec s2 c = csec s c.

Lemma remove_in_dirs : h ∈ dirs.
Proof.
  assert (slot_in s chains dirs None (dkey dr) i d) as Hsl by done.
  pose proof (vt_entry _ _ _ _ _ Ht _ _ _ Hsl) as He. unfold entry_ok in He. by rewrite Hdir in He.
Qed.

Lemma remove_dirent_ok : dirent_ok d.
Proof. destruct Hp as (_ & Hi & _). exact (vt_entry_dirent s chains dirs None None Ht _ d i Hi). Qed.

Lemma remove_other x : x ∈ dirs' ↔ x ∈ dirs ∧ x ≠ h.
Proof. unfold dirs'. by rewrite elem_of_difference, elem_of_singleton. Qed.

(** The directories that stay are not changed by freeing the chain. *)
Lemma remove_contents k : dir_in dirs' k → contents s2 chains' k = contents s chains k.
Proof.
  intros Hk. apply contents_frame; [done | |].
  - intros x ->. unfold chains'. cbn in Hk. rewrite remove_other in Hk.
    rewrite lookup_delete_ne; [done |]. naive_solver.
  - intros x cs c -> Hcs Hc. apply Hsec. exact (fw_data _ _ (vt_fat _ _ _ _ _ Ht) _ _ _ Hcs Hc).
Qed.

(** The parent is another directory. *)
Lemma remove_parent : dir_in dirs' (dkey dr).
Proof.
  destruct Hp as (Hdr & Hi & Hpl). destruct (dkey dr) as [x|] eqn:Hk; [|done]. cbn in *.
  apply remove_other. split; [done |]. intros ->. by apply (Hempty i d).
Qed.

Lemma remove_slot : contents s2 chains' (dkey dr) !! i = Some d.
Proof. rewrite remove_contents; [apply Hp | apply remove_parent]. Qed.

Lemma remove_effect :
  dir_effect s2 s' chains' (dkey dr) (<[i := deleted d]> (contents s2 chains' (dkey dr))).
Proof.
  pose proof remove_parent as Hdr. unfold s'.
  assert (slot_loc chains dr i = slot_loc chains' dr i) as ->.
  { unfold slot_loc, dkey, chains' in *. destruct (is_root dr); [done |].
    cbn in Hdr. rewrite remove_other in Hdr. rewrite lookup_delete_ne; [done |]. naive_solver. }
  apply dir_write_spec; [apply Ht2 | apply Ht2 | exact (vt_good _ _ _ _ _ Ht2 _ Hdr) | |].
  - eapply lookup_lt_Some, remove_slot.
  - apply deleted_ok, remove_dirent_ok.
Qed.

Lemma remove_tree : tree_ok s' chains' dirs'.
Proof.
  pose proof (deleted_unused d remove_dirent_ok) as Hun.
  eapply (vol_tree_close s2 s' chains' dirs' dirs' _ None (dkey dr) i d (deleted d));
    [done | apply remove_parent | apply remove_slot | | apply remove_effect | done | auto | by left].
  left. split; [done | apply Hp].
Qed.

(** Plain slots survive: none was in the directory that goes. *)
Lemma remove_plain k j x : plain_at s2 chains' dirs' k j x ↔ plain_at s chains dirs k j x.
Proof.
  unfold plain_at. split; intros (Hk & Hj & Hx).
  - rewrite remove_contents in Hj by done. split_and!; [|done..].
    destruct k; [|done]. cbn in *. rewrite remove_other in Hk. tauto.
  - assert (dir_in dirs' k) as Hk2.
    { destruct k as [y|]; [|done]. cbn in *. apply remove_other. split; [done |].
      intros ->. by apply (Hempty j x). }
    by rewrite remove_contents.
Qed.

Lemma remove_slot_change : slot_change s chains dirs s' chains' dirs' (dkey dr) i (deleted d).
Proof.
  pose proof remove_effect as Heff. pose proof remove_slot as Hi2. split.
  - apply Hp.
  - apply remove_parent.
  - intros k j x. rewrite (plain_at_updated _ s' chains' (dkey dr) i d _ Hi2 Heff) by apply remove_parent.
    by rewrite remove_plain.
  - intros x y Hx Hx' Hy. apply (lookup_updated _ s' chains' (dkey dr) i d _ Hi2 Heff). right.
    rewrite (remove_contents (Some x)) by done. split; [|done]. intros [= Hk Hi1].
    destruct Hp as (_ & Hi & Hpl). rewrite <- Hk, <- Hi1, Hy in Hi. injection Hi as ->.
    destruct (vt_dot_slot _ _ _ _ _ Ht x 1 d Hx); [lia | done | done].
  - apply Heff.
  - apply Heff.
Qed.

Lemma remove_files_kept : files_kept s chains dirs s' chains' None.
Proof.
  pose proof remove_effect as Heff. pose proof (vt_fat _ _ _ _ _ Ht) as Hwf.
  intros x cs Hcs Hx _. assert (x ≠ h) as Hxh by (intros ->; apply Hx, remove_in_dirs).
  assert (chains' !! x = Some cs) as Hcs' by (unfold chains'; by rewrite lookup_delete_ne).
  split; [done |]. intros c Hc. pose proof (fw_data _ _ Hwf _ _ _ Hcs Hc) as Hcd.
  rewrite <- (Hsec c Hcd). apply (de_csec _ _ _ _ _ Heff); [done |].
  intros y cs2 Hky Hcs2 Hc2. apply Hx.
  rewrite (fw_disj _ _ (vt_fat _ _ _ _ _ Ht2) x y cs cs2 c Hcs' Hcs2 Hc Hc2).
  pose proof remove_parent as Hdr. rewrite Hky in Hdr. cbn in Hdr. rewrite remove_other in Hdr. tauto.
Qed.

Lemma remove_name : name_removed s chains dirs (dkey dr) (entry_name d) s' chains' dirs'.
Proof.
  eapply (slot_change_removed s chains dirs s' chains' dirs' (dkey dr) i d (deleted d) None);
    [done | apply remove_tree | | apply remove_slot_change | apply remove_files_kept | done | | done].
  - intros x. rewrite remove_other. tauto.
  - intros [Hx _]. pose proof (deleted_unused d remove_dirent_ok). congruence.
Qed.
End remove.

(** ** [fs_rmdir] *)

Section ops.
Variables (s : fs_state) (chains : gmap Z (list Z)) (dirs : gset Z).
Variables (path : cstr) (dr : dir_ref) (leaf : cstr).
Hypothesis Ht : tree_ok s chains dirs.
Hypothesis Hpath : is_cstr path.
Hypothesis Hres : resolve_parent s path = Some (Some (dr, leaf)).

Let nm := split_name leaf.

Lemma rmdir_check h :
  h ∈ dirs → rmdir_loop ITER_FUEL s (dir_iter_start (mk_dir false h)) =
    Some (forallb skipped (contents s chains (Some h))).
Proof.
  intros Hh. pose proof (vt_good _ _ _ _ _ Ht (dkey (mk_dir false h)) Hh) as Hg.
  rewrite (rmdir_loop_spec _ _ _ (slots s chains (mk_dir false h))).
  - by rewrite forallb_slots.
  - by apply iter_yields_slots; [apply Ht | apply Ht |].
  - by apply slots_fuel; [apply Ht | apply Ht |].
Qed.

(** An empty directory that is not the current one can be removed. *)
Lemma fs_rmdir_empty h :
  znth leaf 0 ≠ 0 → leaf_is_dots leaf = false → view s chains (dkey dr) nm = Some (Dir h) →
  dkey (cwd_dir s) ≠ Some h → forallb skipped (contents s chains (Some h)) = true →
  ∃ s', fs_rmdir s path = Some (0, s').
Proof.
  intros Hl Hd Hv Hcwd Hsk.
  destruct (open_parent s chains dirs path dr leaf Ht Hpath Hres) as [Hdr Hleaf].
  pose proof (split_name_user leaf Hleaf) as Hu. fold nm in Hu. unfold fs_rmdir. rewrite Hres.
  destruct (Z.eqb_spec (znth leaf 0) 0); [done |]. rewrite Hd.
  rewrite (surjective_pairing (split_name leaf)). fold nm.
  rewrite (dir_scan_key s chains dirs None None Ht) by done. unfold view in Hv.
  destruct (find_key s chains (dkey dr) nm.1 nm.2) as [[i d]|] eqn:Hf;
    cbn [fmap option_fmap option_map snd] in *; [|done].
  unfold node_of in Hv. destruct (is_directory d) eqn:Hdir; [|done]. injection Hv as <-.
  apply (find_key_plain _ _ _ _ _ Ht) in Hf as (Hp & _); [|done..].
  pose proof (remove_in_dirs s chains dirs dr i d Ht Hp Hdir) as Hh.
  unfold is_directory in Hdir. apply negb_true_iff in Hdir. rewrite Hdir. cbn [dir_cluster].
  destruct (negb (is_root (cwd_dir s)) && _) eqn:Hc.
  { apply andb_true_iff in Hc as [Hr%negb_true_iff Hc%Z.eqb_eq]. destruct Hcwd.
    unfold dkey. by rewrite Hr, Hc. }
  rewrite (rmdir_check _ Hh), Hsk.
  destruct (vt_dirs _ _ _ _ _ Ht _ Hh) as [cs Hcs].
  destruct (fat_free_chain_spec (fs_disk s) _ cs (so_vol _ (vt_state _ _ _ _ _ Ht))
    (fw_chain _ _ (vt_fat _ _ _ _ _ Ht) _ _ Hcs)) as (dk & -> & _). by eexists.
Qed.

(** [fs_rmdir] refuses, and changes nothing, unless the name is that of a
    directory other than the current one without entries of its own. *)
Lemma fs_rmdir_spec :
  ∃ rc s' chains' dirs', fs_rmdir s path = Some (rc, s') ∧ tree_ok s' chains' dirs' ∧
    (rc = -1 ∧ s' = s ∧ chains' = chains ∧ dirs' = dirs ∨
     rc = 0 ∧ ∃ h, view s chains (dkey dr) nm = Some (Dir h) ∧
       dkey (cwd_dir s) ≠ Some h ∧ (∀ j x, ¬ plain_at s chains dirs (Some h) j x) ∧
       dirs' = dirs ∖ {[h]} ∧ chains' = delete h chains ∧
       name_removed s chains dirs (dkey dr) nm s' chains' dirs').
Proof.
  destruct (open_parent s chains dirs path dr leaf Ht Hpath Hres) as [Hdr Hleaf].
  pose proof (split_name_user leaf Hleaf) as Hu. fold nm in Hu. unfold fs_rmdir. rewrite Hres.
  destruct (znth leaf 0 =? 0); [exists (-1), s, chains, dirs; auto 10 |].
  destruct (leaf_is_dots leaf); [exists (-1), s, chains, dirs; auto 10 |].
  rewrite (surjective_pairing (split_name leaf)). fold nm.
  rewrite (dir_scan_key s chains dirs None None Ht) by done. unfold view.
  destruct (find_key s chains (dkey dr) nm.1 nm.2) as [[i d]|] eqn:Hf;
    cbn [fmap option_fmap option_map]; [|exists (-1), s, chains, dirs; auto 10].
  apply (find_key_plain _ _ _ _ _ Ht) in Hf as (Hp & Hn & He); [|done..].
  assert (Hname : entry_name d = nm) by (rewrite (surjective_pairing nm); unfold entry_name; congruence).
  destruct (Z.land (d_attr d) FS_ATTR_DIRECTORY =? 0) eqn:Hattr;
    [exists (-1), s, chains, dirs; auto 10 |].
  assert (Hdir : is_directory d = true) by (unfold is_directory; by rewrite Hattr).
  cbn [dir_cluster]. set (h := d_first_cluster d).
  destruct (negb (is_root (cwd_dir s)) && _) eqn:Hcwd; [exists (-1), s, chains, dirs; auto 10 |].
  assert (Hcwd' : dkey (cwd_dir s) ≠ Some h).
  { unfold dkey. destruct (is_root (cwd_dir s)); [done |]. cbn [negb andb] in Hcwd.
    apply Z.eqb_neq in Hcwd. congruence. }
  pose proof (remove_in_dirs s chains dirs dr i d Ht Hp Hdir) as Hh. fold h in Hh.
  rewrite (rmdir_check h Hh).
  destruct (forallb skipped _) eqn:Hsk; [|exists (-1), s, chains, dirs; auto 10].
  assert (Hempty : ∀ j x, contents s chains (Some h) !! j = Some x → ¬ plain x).
  { intros j x Hx. apply skipped_not_plain; [exact (vt_entry_dirent s chains dirs None None Ht _ x j Hx) |].
    rewrite forallb_forall in Hsk. apply Hsk. by eapply list_elem_of_In, list_elem_of_lookup_2. }
  destruct Hp as (Hp1 & Hi & Hpl) eqn:HeqHp. clear HeqHp.
  pose proof (vol_tree_open_dir s chains dirs (dkey dr) i d Ht Hp1 Hi Hpl Hdir Hcwd' Hempty) as Ht1.
  fold h in Ht1. destruct (vol_tree_free _ _ _ _ _ Ht1) as (dk & -> & Ht2 & Hsec).
  assert (Hp' : plain_at s chains dirs (dkey dr) i d) by done.
  eexists 0, _, _, _. split; [done |]. split; [by eapply (remove_tree s chains dirs dr i d dk) |].
  right. split; [done |]. exists h. split_and!; try done.
  - cbn. unfold node_of. by rewrite Hdir.
  - intros j x (_ & Hx & Hpx). by apply (Hempty j x).
  - rewrite <- Hname. by apply (remove_name s chains dirs dr i d dk).
Qed.
End ops.
