(* ===== verification/FsInit.v ===== *)
(** * [fs_init]: formatting a fresh disk, and mounting a formatted one. *)
From S2P Require Import Prelude FsLayout Disk Dirent Fat ChainMap Directory RootDir DirView.
From S2P Require Import Path Fs Tree FsFile FsDelete.

(** ** The boot sector *)

Lemma bytes_forallb l : forallb (λ x, (0 <=? x) && (x <? 256)) l = true → Forall is_u8 l.
Proof.
  rewrite forallb_forall, Forall_forall. intros Hl x Hx%list_elem_of_In%Hl. unfold is_u8. lia.
Qed.

Lemma boot_sector_ok : sector_ok boot_sector.
Proof. split; [by vm_compute |]. apply bytes_forallb. by vm_compute. Qed.

Lemma boot_sector_marked : marker_loop 8 0 boot_sector = true.
Proof. by vm_compute. Qed.

(** ** Clearing the tables *)

Lemma zero_fats_read n i buf d lba :
  0 ≤ i → i + Z.of_nat n ≤ FS_FAT_SIZE_SECTORS →
  disk_read_sector (zero_fats_loop n i buf d) lba =
    if decide (FS_FAT1_LBA + i ≤ lba < FS_FAT1_LBA + i + Z.of_nat n ∨
               FS_FAT2_LBA + i ≤ lba < FS_FAT2_LBA + i + Z.of_nat n)
    then buf else disk_read_sector d lba.
Proof.
  revert i d. induction n as [|n IH]; intros i d Hi Hn; cbn [zero_fats_loop].
  - rewrite decide_False by lia. done.
  - rewrite IH by lia. destruct (decide (lba = FS_FAT2_LBA + i)) as [->|H2].
    { rewrite disk_read_write_eq. repeat case_decide; try done; exfalso; region. }
    rewrite disk_read_write_ne by done. destruct (decide (lba = FS_FAT1_LBA + i)) as [->|H1].
    { rewrite disk_read_write_eq. repeat case_decide; try done; exfalso; region. }
    rewrite disk_read_write_ne by done. repeat case_decide; try done; exfalso; region.
Qed.

Lemma fat_read_zero d c :
  in_fat c → disk_ok d → disk_read_sector d (FS_FAT1_LBA + c / 256) = zero_sector → fat_read d c = 0.
Proof.
  intros Hc Hd Hz. rewrite fat_read_eq, Hz by done.
  assert (∀ i, znth zero_sector i = 0) as H0.
  { intros i. apply (Forall_znth (λ x, x = 0)); [|done]. by apply Forall_replicate. }
  by rewrite !H0.
Qed.

(** ** Formatting *)

Section format.
Variable s0 : fs_state.
Hypothesis Hdisk : disk_ok (fs_disk s0).
Hypothesis Hlen : length (root s0) = Z.to_nat FS_ROOT_ENTRIES.
Hypothesis Hroot : Forall dirent_ok (root s0).
Hypothesis Hfresh : marker_loop 8 0 (disk_read_sector (fs_disk s0) FS_BOOT_LBA) = false.

Definition format_d1 : disk := disk_write_sector (fs_disk s0) FS_BOOT_LBA boot_sector.
Definition format_d2 : disk := zero_fats_loop (Z.to_nat FS_FAT_SIZE_SECTORS) 0 zero_sector format_d1.
Definition format_d3 : disk := fat_write (fat_write format_d2 0 FS_CLUSTER_BAD) 1 FS_CLUSTER_EOC.

Lemma format_d2_read lba :
  disk_read_sector format_d2 lba =
    if decide (fat_lba lba) then zero_sector
    else disk_read_sector format_d1 lba.
Proof.
  unfold format_d2. rewrite zero_fats_read by region.
  repeat case_decide; try done; exfalso; region.
Qed.

Lemma format_d2_vol : vol_ok format_d2.
Proof.
  split.
  - intros lba. rewrite format_d2_read. case_decide; [apply zero_sector_ok |].
    apply disk_write_ok; [done | apply boot_sector_ok].
  - intros i Hi. rewrite !format_d2_read, !decide_True by region. done.
Qed.

Lemma format_effect :
  fat_effect format_d2 format_d3 (fupd (fupd (fat_read format_d2) 0 FS_CLUSTER_BAD) 1 FS_CLUSTER_EOC).
Proof.
  pose proof (fat_write_effect format_d2 0 FS_CLUSTER_BAD format_d2_vol ltac:(region) ltac:(region)) as H1.
  eapply fat_effect_ext; [eapply fat_effect_trans; [exact H1 | apply fat_write_effect] |];
    [apply H1 | region | region |].
  intros c Hc. unfold fupd at 1 2. case_decide; [done |]. by apply H1.
Qed.

Lemma format_free c : data_cluster c → fat_read format_d3 c = FS_CLUSTER_FREE.
Proof.
  intros Hc. rewrite (fe_read _ _ _ format_effect) by auto with rink.
  rewrite !fupd_ne by region. apply fat_read_zero; [auto with rink | apply format_d2_vol |].
  rewrite format_d2_read, decide_True; [done |].
  destruct (fat_entry_pos c (data_in_fat c Hc)) as (_ & _ & Hb). region.
Qed.

Lemma clear_entry_ok d : dirent_ok d → dirent_ok (clear_entry d).
Proof.
  intros Hd. apply set_extent_ok; [by vm_compute.. |]. destruct Hd.
  split; cbn; try done; [by rewrite length_zset |]. apply Forall_insert; [done | by vm_compute].
Qed.

Lemma clear_entry_unused d : dirent_ok d → dirent_unused (clear_entry d) = true.
Proof.
  intros Hd. unfold dirent_unused, clear_entry. cbn [d_name set_extent set_name0 set_name].
  rewrite znth_zset_eq; [done |]. pose proof (dok_name_len _ Hd). unfold zlen. lia.
Qed.

Lemma fs_init_format_eq :
  fs_init s0 = set_cwd true 0 [47] (root_save (set_root (map clear_entry (root s0)) (set_disk format_d3 s0))).
Proof. unfold fs_init. by rewrite Hfresh. Qed.

Lemma format_state : state_ok (fs_init s0).
Proof.
  rewrite fs_init_format_eq.
  assert (state_ok (root_save (set_root (map clear_entry (root s0)) (set_disk format_d3 s0)))) as [].
  { apply root_save_ok; cbn [fs_disk root set_root set_disk].
    - apply format_effect.
    - by rewrite length_map.
    - apply Forall_map. eapply Forall_impl; [exact Hroot |]. apply clear_entry_ok.
    - rewrite (fe_frame _ _ _ format_effect), format_d2_read, decide_False by region.
      unfold format_d1. rewrite disk_read_write_eq. apply boot_sector_marked. }
  by split.
Qed.

Lemma format_fat c : data_cluster c → fat (fs_init s0) c = FS_CLUSTER_FREE.
Proof.
  intros Hc. rewrite fs_init_format_eq. unfold fat. cbn [fs_disk set_cwd].
  rewrite (fat_read_frame format_d3); [by apply format_free | auto with rink |].
  intros lba Hl. rewrite root_save_read, decide_False by region. done.
Qed.

Lemma format_tree : tree_ok (fs_init s0) ∅ ∅.
Proof.
  assert (Hno : ∀ k i d, ¬ plain_at (fs_init s0) ∅ ∅ k i d).
  { intros [h|] i d (Hk & Hi & Hu & _); [set_solver |].
    change (root (fs_init s0) !! i = Some d) in Hi.
    rewrite fs_init_format_eq in Hi. cbn [root set_cwd root_save set_disk set_root] in Hi.
    apply list_lookup_fmap_Some in Hi as (x & -> & Hx).
    rewrite clear_entry_unused in Hu; [done |]. rewrite Forall_forall in Hroot.
    apply Hroot. by eapply list_elem_of_lookup_2. }
  split; try (intros; exfalso; (set_solver || (eapply Hno; eassumption)) || done).
  - apply format_state.
  - apply fat_wf_empty, format_fat.
  - by rewrite fs_init_format_eq.
  - intros k i d [Hp _]. by destruct (Hno k i d).
  - intros k1 i1 d1 k2 i2 d2 [Hp _]. by destruct (Hno k1 i1 d1).
  - intros h [cs Hcs]. done.
Qed.
End format.

(** ** Mounting *)

(** [fs_init] on the disk of a consistent volume brings back its state, with
    the current directory at the root. *)
Lemma mount_state s s0 :
  state_ok s → fs_disk s0 = fs_disk s → fs_init s0 = set_cwd true 0 [47] s.
Proof.
  intros Hs Hd. unfold fs_init. rewrite Hd, (so_boot s Hs). cbn [negb].
  unfold set_cwd. rewrite (root_load_state s s0 Hs Hd).
  cbn [root_load fs_disk set_root]. by rewrite Hd.
Qed.

Lemma set_cwd_root_tree s chains dirs hole pend p :
  vol_tree s chains dirs hole pend → vol_tree (set_cwd true 0 p s) chains dirs hole pend.
Proof.
  intros [[] ? ? ? ? ? ? ? ? ?]. by split.
Qed.
