(* ===== verification/FsQuery.v ===== *)
(** * [fs_chdir], [fs_list] and [fs_debug_stats]. *)
From S2P Require Import Prelude Console FsLayout Disk Dirent Fat ChainMap Directory RootDir.
From S2P Require Import DirView Path Fs Tree Walk FsView FsCreate FsData FsFile FsWrite FsRead.
From S2P Require Import FsRmdir.

(** ** Changing directory *)

Lemma set_cwd_tree s chains dirs r c p :
  tree_ok s chains dirs → dir_in dirs (dkey (mk_dir r c)) → tree_ok (set_cwd r c p s) chains dirs.
Proof. intros [[] ? ? ? ? ? ? ? ? ?] Hd. by split. Qed.

(** The path buffer that goes in comes out. *)
Lemma walk_loop_buf fuel s p dir buf len rc dir' buf' :
  walk_loop fuel s p dir (Some buf) len = Some (rc, dir', buf') → ∃ out, buf' = Some out.
Proof.
  revert p dir buf. induction fuel as [|fuel IH]; intros p dir buf; cbn [walk_loop];
    (destruct (strlen p =? 0); [intros [= _ _ <-]; by eexists |]); [done |].
  destruct (_ || _); [apply IH |]. destruct (str_eq_local _ _).
  - destruct (negb _); [|apply IH]. destruct (dir_scan _ _ _ _); [apply IH | done].
  - destruct (split_name _) as [n e]. destruct (dir_scan _ _ _ _) as [[[entry l]|]|]; [| |done].
    + destruct (_ =? 0); [intros [= _ _ <-]; by eexists | apply IH].
    + intros [= _ _ <-]. by eexists.
Qed.

Lemma walk_path_buf s path dir buf len rc dir' buf' :
  walk_path s path dir (Some buf) len = Some (rc, dir', buf') → ∃ out, buf' = Some out.
Proof. unfold walk_path. destruct (_ =? _); apply walk_loop_buf. Qed.

(** Only the current directory and its path may change. *)
Lemma fs_chdir_spec s chains dirs path :
  tree_ok s chains dirs → is_cstr path →
  ∃ rc s', fs_chdir s path = Some (rc, s') ∧ tree_ok s' chains dirs ∧
    (rc = -1 ∧ s' = s ∨
     rc = 0 ∧ ∃ dr buf, s' = set_cwd (is_root dr) (dir_cluster dr) (str_copy_n buf CWD_PATH_LEN) s ∧ dir_in dirs (dkey dr) ∧
       walk_path s path (cwd_dir s) (Some (str_copy_n (cwd_path s) CWD_PATH_LEN)) CWD_PATH_LEN
         = Some (0, dr, Some buf)).
Proof.
  intros Ht Hp. unfold fs_chdir.
  set (buf := str_copy_n (cwd_path s) CWD_PATH_LEN).
  destruct (walk_path_total s chains dirs path (cwd_dir s) (Some buf) CWD_PATH_LEN Ht Hp)
    as (rc & dr & buf' & Hw & Hrc & Hd); [apply Ht |]. rewrite Hw.
  destruct (walk_path_buf _ _ _ _ _ _ _ _ Hw) as [out ->].
  destruct Hrc as [-> | ->]; [|by exists (-1), s; auto].
  eexists 0, _. split; [done |]. split; [by apply set_cwd_tree; [|destruct dr] |]. right.
  split; [done |]. by exists dr, out.
Qed.

(** ** Listing *)

Lemma list_loop_spec fuel s it xs out any :
  iter_yields s it xs → (length xs < fuel)%nat →
  let shown := filter (λ d, skipped d = false) (map fst xs) in
  list_loop fuel s it out any =
    Some (out ++ concat (map list_line shown), any || negb (bool_decide (shown = []))).
Proof.
  intros Hy. revert fuel out any. induction Hy as [it it' Hn|it it' [d l] xs Hn Hy IH];
    intros [|fuel] out any Hf; cbn [length] in *; try lia; cbn [list_loop]; rewrite Hn.
  - cbn. by rewrite app_nil_r, orb_false_r.
  - cbn [map fst]. rewrite filter_cons.
    assert (list_loop fuel s it' out any = Some (out ++ concat (map list_line
      (filter (λ d, skipped d = false) (map fst xs))), any || negb (bool_decide
      (filter (λ d, skipped d = false) (map fst xs) = [])))) as Hskip by (apply IH; lia).
    destruct (skipped d) eqn:Hsk; unfold skipped in Hsk; case_decide; try done.
    + destruct (dirent_unused d); [done |]. destruct (fields_eq (d_name d) DOT_NAME 8); [done |].
      by destruct (fields_eq (d_name d) DOTDOT_NAME 8).
    + apply orb_false_iff in Hsk as [[-> ->]%orb_false_iff ->].
      rewrite IH by lia. cbn [map concat]. rewrite <- app_assoc.
      cbn [orb]. rewrite bool_decide_false by done. by rewrite orb_true_r.
Qed.

(** What a listing shows of a directory. *)
Definition listed (l : list fs_dirent) : list fs_dirent := filter (λ d, skipped d = false) l.

Lemma fs_list_spec s chains dirs :
  tree_ok s chains dirs →
  fs_list s = Some (let shown := listed (contents s chains (dkey (cwd_dir s))) in
                    if decide (shown = []) then str "  (empty)" ++ [10]
                    else concat (map list_line shown)).
Proof.
  intros Ht. pose proof (vt_good _ _ _ _ _ Ht _ (vt_cwd _ _ _ _ _ Ht)) as Hg. unfold fs_list.
  rewrite (list_loop_spec _ _ _ (slots s chains (cwd_dir s)));
    [|by apply iter_yields_slots; [apply Ht | apply Ht |] | by apply slots_fuel; [apply Ht | apply Ht |]].
  assert (map fst (slots s chains (cwd_dir s)) = contents s chains (dkey (cwd_dir s))) as ->.
  { unfold slots. apply list_eq. intros j. rewrite list_lookup_fmap, list_lookup_imap.
    by destruct (contents s chains (dkey (cwd_dir s)) !! j). }
  fold (listed (contents s chains (dkey (cwd_dir s)))). cbn [app orb]. f_equal. cbv zeta.
  case_decide as Hd; [rewrite Hd | rewrite bool_decide_false by done]; done.
Qed.

(** ** Statistics *)

Lemma free_loop_spec n c d free :
  0 ≤ c → c + Z.of_nat n < 65536 → 0 ≤ free → free + Z.of_nat n < 4294967296 →
  free_loop n c d free =
    free + zlen (filter (λ x, fat_read d x = FS_CLUSTER_FREE) (seqZ c (Z.of_nat n))).
Proof.
  revert c free. induction n as [|n IH]; intros c free Hc Hb Hf Hs; cbn [free_loop].
  - change (seqZ c (Z.of_nat 0)) with (@nil Z). rewrite filter_nil. change (zlen []) with 0. lia.
  - rewrite u16_small by (unfold is_u16; lia). rewrite IH.
    + replace (Z.of_nat (S n)) with (Z.succ (Z.of_nat n)) by lia.
      rewrite (seqZ_cons c (Z.succ (Z.of_nat n))) by lia. rewrite filter_cons. replace (Z.pred (Z.succ (Z.of_nat n))) with (Z.of_nat n) by lia.
      replace (Z.succ c) with (c + 1) by lia.
      destruct (Z.eqb_spec (fat_read d c) FS_CLUSTER_FREE) as [He|He].
      * rewrite decide_True by done. rewrite u32_small by (unfold is_u32; lia).
        unfold zlen. cbn [length]. lia.
      * by rewrite decide_False by done.
    + lia.
    + lia.
    + destruct (fat_read d c =? FS_CLUSTER_FREE); [|done]. rewrite u32_small; unfold is_u32; lia.
    + destruct (fat_read d c =? FS_CLUSTER_FREE); [|lia]. rewrite u32_small; unfold is_u32; lia.
Qed.

Lemma used_loop_spec n i r used :
  0 ≤ i → i + Z.of_nat n = zlen r → 0 ≤ used → used + Z.of_nat n < 4294967296 →
  used_loop n i r used =
    used + zlen (filter (λ d, dirent_unused d = false) (zdrop i r)).
Proof.
  revert i used. induction n as [|n IH]; intros i used Hi Hn Hu Hb; cbn [used_loop].
  - unfold zdrop, zlen in *. rewrite drop_ge by lia. rewrite filter_nil. cbn [length]. lia.
  - unfold zlen in Hn. destruct (lookup_lt_is_Some_2 r (Z.to_nat i)) as [d Hd]; [lia |].
    assert (zdrop i r = d :: zdrop (i + 1) r) as ->.
    { unfold zdrop. replace (Z.to_nat (i + 1)) with (S (Z.to_nat i)) by lia.
      by apply drop_S. }
    unfold root_at. rewrite (nth_lookup_Some _ _ _ _ Hd).
    rewrite filter_cons. rewrite <- negb_orb. fold (dirent_unused d).
    destruct (dirent_unused d) eqn:Hun; case_decide; try done; cbn [negb];
      rewrite IH; rewrite ?u32_small by (unfold is_u32; lia); unfold zlen in *; cbn [length]; lia.
Qed.

Lemma fs_debug_stats_spec s :
  state_ok s →
  fs_debug_stats s =
    (zlen (filter (λ d, dirent_unused d = false) (root s)), free_count (fs_disk s),
     FS_TOTAL_DATA_CLUSTERS).
Proof.
  intros Hs. unfold fs_debug_stats. rewrite used_loop_spec; [|lia | | lia | region].
  2:{ unfold zlen. rewrite (so_root_len s Hs). region. }
  rewrite free_loop_spec by region. change (zdrop 0 (root s)) with (root s). rewrite !Z.add_0_l.
  do 2 f_equal.
Qed.
