(* ===== verification/Space.v ===== *)
(** * Space accounting: free clusters and the clusters of all chains add up to
    the size of the data area. *)
From S2P Require Import Prelude FsLayout Disk Dirent Fat ChainMap Directory RootDir DirView.
From S2P Require Import Path Fs Tree Walk FsView FsCreate FsData FsFile FsWrite FsRead.
From S2P Require Import FsAppend FsDelete.

(** All clusters that belong to a chain. *)
Definition used_clusters (chains : gmap Z (list Z)) : list Z := concat (map_to_list chains).*2.

Definition used_count (chains : gmap Z (list Z)) : Z := zlen (used_clusters chains).

Lemma elem_of_used chains x : x ∈ used_clusters chains ↔ ∃ h cs, chains !! h = Some cs ∧ x ∈ cs.
Proof.
  unfold used_clusters. rewrite list_elem_of_In, in_concat. split.
  - intros (cs & Hcs%list_elem_of_In & Hx%list_elem_of_In).
    apply list_elem_of_fmap in Hcs as ([h cs'] & -> & Hm%elem_of_map_to_list). by exists h, cs'.
  - intros (h & cs & Hcs & Hx). exists cs. rewrite <- !list_elem_of_In. split; [|done].
    apply list_elem_of_fmap. exists (h, cs). split; [done |]. by apply elem_of_map_to_list.
Qed.

(** Disjoint lists without duplicates have none together. *)
Lemma NoDup_concat_keys (l : list (Z * list Z)) :
  NoDup l.*1 → (∀ h cs, (h, cs) ∈ l → NoDup cs) →
  (∀ h1 h2 cs1 cs2 x, (h1, cs1) ∈ l → (h2, cs2) ∈ l → x ∈ cs1 → x ∈ cs2 → h1 = h2) →
  NoDup (concat l.*2).
Proof.
  induction l as [|[h cs] l IH]; intros Hk Hn Hd; [constructor |]. cbn in *.
  apply NoDup_cons in Hk as [Hh Hk]. apply NoDup_app. split_and!.
  - apply (Hn h). set_solver.
  - intros x Hx (cs2 & Hcs2%list_elem_of_In & Hx2%list_elem_of_In)%list_elem_of_In%in_concat.
    apply list_elem_of_fmap in Hcs2 as ([h2 cs2'] & -> & Hin). apply Hh.
    rewrite (Hd h h2 cs cs2' x); [|set_solver..]. apply list_elem_of_fmap. by exists (h2, cs2').
  - apply IH; [done | |].
    + intros h' cs' Hin. apply (Hn h'). set_solver.
    + intros h1 h2 cs1 cs2 x H1 H2. apply (Hd h1 h2 cs1 cs2 x); set_solver.
Qed.

Section accounting.
Variables (d : disk) (chains : gmap Z (list Z)).
Hypothesis Hwf : fat_wf (fat_read d) chains.

Lemma NoDup_used : NoDup (used_clusters chains).
Proof.
  apply NoDup_concat_keys; [apply NoDup_fst_map_to_list | |].
  - intros h cs Hcs%elem_of_map_to_list. eapply chain_NoDup. by apply Hwf.
  - intros h1 h2 cs1 cs2 x H1%elem_of_map_to_list H2%elem_of_map_to_list. by apply (fw_disj _ _ Hwf).
Qed.

Lemma clusters_partition :
  free_list d ++ used_clusters chains ≡ₚ seqZ FS_FIRST_DATA_CLUSTER FS_TOTAL_DATA_CLUSTERS.
Proof.
  apply NoDup_Permutation; [|apply NoDup_seqZ|].
  - apply NoDup_app. split_and!; [apply NoDup_free_list | | apply NoDup_used].
    intros x [_ Hx]%elem_of_free_list (h & cs & Hcs & Hin)%elem_of_used.
    by destruct (fw_nonfree _ _ Hwf h cs x).
  - intros x. rewrite elem_of_app, elem_of_free_list, elem_of_used, elem_of_seqZ.
    change (FS_FIRST_DATA_CLUSTER ≤ x < FS_FIRST_DATA_CLUSTER + FS_TOTAL_DATA_CLUSTERS)
      with (data_cluster x). split.
    + intros [[Hx _]|(h & cs & Hcs & Hin)]; [done |]. by eapply (fw_data _ _ Hwf).
    + intros Hx. destruct (decide (fat_read d x = FS_CLUSTER_FREE)) as [|Hn]; [by left |].
      right. by apply Hwf.
Qed.

Lemma space_total : free_count d + used_count chains = FS_TOTAL_DATA_CLUSTERS.
Proof.
  pose proof (Permutation_length clusters_partition) as Hl.
  rewrite length_app, length_seqZ in Hl. unfold free_count, used_count, zlen in *. region.
Qed.
End accounting.

Lemma used_count_delete chains h cs :
  chains !! h = Some cs → used_count chains = zlen cs + used_count (delete h chains).
Proof.
  intros Hcs. unfold used_count, used_clusters.
  assert (concat (map_to_list chains).*2 ≡ₚ cs ++ concat (map_to_list (delete h chains)).*2) as Hp.
  { rewrite <- (insert_delete_id chains h cs Hcs) at 1.
    rewrite map_to_list_insert by apply lookup_delete_eq. done. }
  unfold zlen. rewrite Hp, length_app. lia.
Qed.

(** Deleting a file gives its clusters back. *)
Lemma fs_delete_space s chains dirs path dr leaf bytes s' :
  tree_ok s chains dirs → is_cstr path → resolve_parent s path = Some (Some (dr, leaf)) →
  view s chains (dkey dr) (split_name leaf) = Some (File bytes) →
  fs_delete s path = Some (0, s') →
  free_count (fs_disk s') = free_count (fs_disk s) + clusters_for (zlen bytes).
Proof.
  intros Ht Hpath Hres Hv Hd.
  destruct (fs_delete_spec s chains dirs path dr leaf Ht Hpath Hres) as (rc & s2 & chains' & Hd2 & Ht' & Hc).
  rewrite Hd in Hd2. injection Hd2 as <- <-. rewrite Hv in Hc.
  destruct Hc as (_ & _ & _ & i & d & Hf & ->).
  unfold view in Hv. rewrite Hf in Hv. cbn in Hv.
  destruct (open_parent s chains dirs path dr leaf Ht Hpath Hres) as [Hdr Hleaf].
  apply (find_key_plain _ _ _ _ _ Ht) in Hf as (Hp & _); [|done | by apply split_name_user].
  unfold node_of in Hv. destruct (is_directory d) eqn:Hdir; [done |]. injection Hv as <-.
  rewrite (file_data_length s chains dirs Ht (dkey dr) i d Hp Hdir).
  pose proof (space_total _ _ (vt_fat _ _ _ _ _ Ht)) as H1.
  pose proof (space_total _ _ (vt_fat _ _ _ _ _ Ht')) as H2.
  assert (slot_in s chains dirs None (dkey dr) i d) as Hsl by done.
  pose proof (vt_entry _ _ _ _ _ Ht _ _ _ Hsl) as He. unfold entry_ok in He. rewrite Hdir in He.
  destruct He as [[Hz Hs]|(cs & Hcs & _ & _ & Hl)].
  - rewrite Hz, delete_id in H2 by (by eapply tree_chains_zero). rewrite Hs.
    change (clusters_for 0) with 0. unfold fat in *. lia.
  - rewrite (used_count_delete _ _ _ Hcs) in H1. lia.
Qed.
