(* ===== verification/FsReach.v ===== *)
(** * The file system as a transition system, and what holds in every state it
    can reach. *)
From S2P Require Import Prelude Console FsLayout Disk Dirent Fat ChainMap Directory RootDir.
From S2P Require Import DirView Path Fs Tree Walk FsView FsCreate FsData FsFile FsWrite FsRead.
From S2P Require Import FsAppend FsDelete FsRename FsMkdir FsRmdir FsInit FsQuery.

(** ** Seven-bit paths

    The keyboard driver only delivers characters below 128.  A name that
    starts with the byte 0xE5 would be taken for a deleted entry. *)
Definition ascii_path (p : cstr) : Prop := Forall (λ c, 0 < c < 128) p.

Lemma ascii_cstr p : ascii_path p → is_cstr p.
Proof. intros Hp. eapply Forall_impl; [exact Hp |]. cbn. intros c Hc. cbn in Hc. lia. Qed.

Lemma ascii_str_copy s i n : ascii_path s → ascii_path (str_copy_loop s i n).
Proof.
  intros Hs. revert i. induction Hs as [|c s Hc Hs IH]; intros i; cbn; [constructor |].
  destruct (_ && _); constructor; [done | apply IH].
Qed.

Lemma ascii_leaf s path dr leaf :
  ascii_path path → resolve_parent s path = Some (Some (dr, leaf)) → ascii_path leaf.
Proof.
  intros Hp. unfold resolve_parent. destruct (_ =? 0); [done |]. destruct (_ <? 0).
  - intros [= <- <-]. by apply ascii_str_copy.
  - destruct (walk_path _ _ _ _ _) as [[[rc d] b]|]; [|done]. destruct (rc <? 0); [done |].
    intros [= <- <-]. by apply ascii_str_copy, Forall_drop.
Qed.

Lemma ascii_usable leaf : ascii_path leaf → name_usable (split_name leaf).1.
Proof.
  intros Hp. unfold name_usable. rewrite split_name_fields. cbn [fst].
  destruct Hp as [|c s Hc Hp]; [done |]. cbn [up_field]. destruct (base_stop c); [done |].
  destruct (to_upper_byte c) as [_ Hu]; [lia |]. change (u8 (to_upper c) ≠ FS_DIRENT_DELETED).
  rewrite Hu. unfold to_upper. destruct (_ && _) eqn:Hr; unfold_layout; lia.
Qed.

(** ** Operations *)

Inductive fs_op :=
| OpCreate (path : cstr)
| OpWrite (path : cstr) (data : list Z) (size : Z)
| OpAppend (path : cstr) (data : list Z) (size : Z)
| OpDelete (path : cstr)
| OpRename (old_path new_path : cstr)
| OpMkdir (path : cstr)
| OpRmdir (path : cstr)
| OpChdir (path : cstr).

(** What a caller must provide: strings, and buffers of the stated size. *)
Definition op_ok (o : fs_op) : Prop :=
  match o with
  | OpCreate p | OpDelete p | OpMkdir p | OpRmdir p | OpChdir p => ascii_path p
  | OpRename p q => ascii_path p ∧ ascii_path q
  | OpWrite p data size =>
      ascii_path p ∧ Forall is_u8 data ∧ 0 ≤ size ≤ 4294966784 ∧ size ≤ zlen data
  | OpAppend p data size =>
      ascii_path p ∧ Forall is_u8 data ∧ is_u32 size ∧ size ≤ zlen data
  end.

Definition run_op (o : fs_op) (s : fs_state) : option (Z * fs_state) :=
  match o with
  | OpCreate p => fs_create s p
  | OpWrite p data size => fs_write s p data size
  | OpAppend p data size => fs_append s p data size
  | OpDelete p => fs_delete s p
  | OpRename p q => fs_rename s p q
  | OpMkdir p => fs_mkdir s p
  | OpRmdir p => fs_rmdir s p
  | OpChdir p => fs_chdir s p
  end.

Definition run_op_ok (o : fs_op) (s : fs_state) : Prop :=
  ∃ rc s', run_op o s = Some (rc, s') ∧ (rc = 0 ∨ rc = -1) ∧ fs_ok s'.

Section run.
Variables (s : fs_state) (chains : gmap Z (list Z)) (dirs : gset Z).
Hypothesis Ht : tree_ok s chains dirs.

Lemma run_fail : ∃ rc s', Some (-1, s) = Some (rc, s') ∧ (rc = 0 ∨ rc = -1) ∧ fs_ok s'.
Proof. exists (-1), s. split_and!; [done | by right | by exists chains, dirs]. Qed.

(** The parent directory of a path, when the path resolves. *)
Lemma resolve_cases path :
  is_cstr path →
  resolve_parent s path = Some None ∨
  ∃ dr leaf, resolve_parent s path = Some (Some (dr, leaf)).
Proof.
  intros Hp. destruct (resolve_parent_total s chains dirs path Ht Hp) as ([[dr leaf]|] & Hr & _);
    [right; by exists dr, leaf | by left].
Qed.

Lemma run_create p : ascii_path p → run_op_ok (OpCreate p) s.
Proof.
  intros Ha. pose proof (ascii_cstr p Ha) as Hp. unfold run_op_ok. cbn [run_op].
  destruct (resolve_cases p Hp) as [Hr|(dr & leaf & Hr)].
  { unfold fs_create. rewrite Hr. apply run_fail. }
  destruct (open_parent s chains dirs p dr leaf Ht Hp Hr) as [Hdr Hl].
  destruct (fs_create_spec s chains dirs p dr leaf Ht Hr Hdr Hl) as (rc & s' & -> & Hcase).
  exists rc, s'. split; [done |].
  destruct Hcase as [(-> & -> & _)|(-> & _ & chains' & i & Ht' & _)].
  - split; [by right | by exists chains, dirs].
  - split; [by left | by exists chains', dirs].
Qed.

Lemma run_write p data size : op_ok (OpWrite p data size) → run_op_ok (OpWrite p data size) s.
Proof.
  intros (Ha & Hd & Hs & Hl). pose proof (ascii_cstr p Ha) as Hp. unfold run_op_ok. cbn [run_op].
  destruct (resolve_cases p Hp) as [Hr|(dr & leaf & Hr)].
  { unfold fs_write. rewrite Hr. apply run_fail. }
  destruct (fs_write_spec s chains dirs p dr leaf Ht Hp Hr data size Hd Hs Hl)
    as (rc & s' & chains' & -> & Ht' & Hcase).
  exists rc, s'. split_and!; [done | | by exists chains', dirs].
  destruct Hcase as [[-> _]|[[-> _]|[-> _]]]; auto.
Qed.

Lemma run_append p data size : op_ok (OpAppend p data size) → run_op_ok (OpAppend p data size) s.
Proof.
  intros (Ha & Hd & Hs & Hl). pose proof (ascii_cstr p Ha) as Hp. unfold run_op_ok. cbn [run_op].
  destruct (resolve_cases p Hp) as [Hr|(dr & leaf & Hr)].
  { unfold fs_append. rewrite Hr. apply run_fail. }
  destruct (fs_append_spec s chains dirs p dr leaf Ht Hp Hr data size Hd Hs Hl)
    as (rc & s' & chains' & -> & Ht' & Hcase).
  exists rc, s'. split_and!; [done | | by exists chains', dirs].
  destruct Hcase as [[-> _]|(old & w & _ & [[-> _]|[-> _]] & _)]; auto.
Qed.

Lemma run_delete p : ascii_path p → run_op_ok (OpDelete p) s.
Proof.
  intros Ha. pose proof (ascii_cstr p Ha) as Hp. unfold run_op_ok. cbn [run_op].
  destruct (resolve_cases p Hp) as [Hr|(dr & leaf & Hr)].
  { unfold fs_delete. rewrite Hr. apply run_fail. }
  destruct (fs_delete_spec s chains dirs p dr leaf Ht Hp Hr) as (rc & s' & chains' & -> & Ht' & Hcase).
  exists rc, s'. split_and!; [done | | by exists chains', dirs].
  destruct (view _ _ _ _) as [[|]|]; destruct Hcase as [-> _]; auto.
Qed.

Lemma run_rename p q : ascii_path p → ascii_path q → run_op_ok (OpRename p q) s.
Proof.
  intros Ha Ha2. pose proof (ascii_cstr p Ha) as Hp. pose proof (ascii_cstr q Ha2) as Hq.
  unfold run_op_ok. cbn [run_op]. destruct (resolve_cases p Hp) as [Hr|(dr & leaf & Hr)].
  { unfold fs_rename. rewrite Hr. apply run_fail. }
  destruct (fs_rename_spec s chains dirs Ht p q dr leaf Hp Hq Hr) as (rc & s' & -> & Hcase).
  exists rc, s'. split; [done |].
  destruct Hcase as [[-> ->]|(-> & dr2 & leaf2 & Hr2 & _ & _ & _ & Hren)].
  - split; [by right | by exists chains, dirs].
  - split; [by left |]. exists chains, dirs. by apply Hren, ascii_usable, (ascii_leaf s q dr2).
Qed.

Lemma run_mkdir p : ascii_path p → run_op_ok (OpMkdir p) s.
Proof.
  intros Ha. pose proof (ascii_cstr p Ha) as Hp. unfold run_op_ok. cbn [run_op].
  destruct (resolve_cases p Hp) as [Hr|(dr & leaf & Hr)].
  { unfold fs_mkdir. rewrite Hr. apply run_fail. }
  destruct (fs_mkdir_spec s chains dirs p dr leaf Ht Hp Hr) as (rc & s' & chains' & -> & Hcase);
    [by eapply ascii_usable, ascii_leaf |].
  exists rc, s'. split; [done |].
  destruct Hcase as [(-> & Ht' & _)|(-> & _ & _ & _ & n & Ht' & _)].
  - split; [by right | by exists chains', dirs].
  - split; [by left | by eexists chains', _].
Qed.

Lemma run_rmdir p : ascii_path p → run_op_ok (OpRmdir p) s.
Proof.
  intros Ha. pose proof (ascii_cstr p Ha) as Hp. unfold run_op_ok. cbn [run_op].
  destruct (resolve_cases p Hp) as [Hr|(dr & leaf & Hr)].
  { unfold fs_rmdir. rewrite Hr. apply run_fail. }
  destruct (fs_rmdir_spec s chains dirs p dr leaf Ht Hp Hr)
    as (rc & s' & chains' & dirs' & -> & Ht' & Hcase).
  exists rc, s'. split_and!; [done | | by exists chains', dirs'].
  destruct Hcase as [(-> & _)|(-> & _)]; auto.
Qed.

Lemma run_chdir p : ascii_path p → run_op_ok (OpChdir p) s.
Proof.
  intros Ha%ascii_cstr. unfold run_op_ok. cbn [run_op].
  destruct (fs_chdir_spec s chains dirs p Ht Ha) as (rc & s' & -> & Ht' & Hcase).
  exists rc, s'. split_and!; [done | | by exists chains, dirs].
  destruct Hcase as [(-> & _)|(-> & _)]; auto.
Qed.
End run.

(** Every operation returns, with code 0 or -1, and keeps the volume consistent. *)
Lemma run_op_preserves o s : op_ok o → fs_ok s → run_op_ok o s.
Proof.
  intros Ho (chains & dirs & Ht). destruct o; cbn [op_ok] in Ho.
  - by eapply run_create.
  - by eapply run_write.
  - by eapply run_append.
  - by eapply run_delete.
  - destruct Ho. by eapply run_rename.
  - by eapply run_mkdir.
  - by eapply run_rmdir.
  - by eapply run_chdir.
Qed.

(** ** Queries return too *)

Section queries.
Context (s : fs_state).
Hypothesis Hok : fs_ok s.

Lemma fs_read_total path max :
  is_cstr path → 0 ≤ max →
  ∃ rc out, fs_read s path max = Some (rc, out, zlen out) ∧ (rc = 0 ∨ rc = -1) ∧ zlen out ≤ max.
Proof.
  intros Hp Hm. destruct Hok as (chains & dirs & Ht).
  destruct (resolve_cases s chains dirs Ht path Hp) as [Hr|(dr & leaf & Hr)].
  { exists (-1), []. unfold fs_read. rewrite Hr. split_and!; [done | by right | done]. }
  rewrite (fs_read_spec s chains dirs path dr leaf Ht Hp Hr) by done.
  destruct (view _ _ _ _) as [[bytes|]|]; [| by exists (-1), []; auto..].
  exists 0, (ztake max bytes). assert (zlen (ztake max bytes) = Z.min max (zlen bytes)) as ->
    by (unfold zlen, ztake; rewrite length_take; lia).
  split_and!; [done | by left | lia].
Qed.

Lemma fs_stat_total path :
  is_cstr path → ∃ rc size, fs_stat s path = Some (rc, size) ∧ is_u32 size.
Proof.
  intros Hp. destruct Hok as (chains & dirs & Ht).
  destruct (resolve_cases s chains dirs Ht path Hp) as [Hr|(dr & leaf & Hr)].
  { exists (-1), 0. unfold fs_stat. by rewrite Hr. }
  destruct (open_parent s chains dirs path dr leaf Ht Hp Hr) as [Hdr Hleaf].
  unfold fs_stat. rewrite Hr, (surjective_pairing (split_name leaf)).
  rewrite (dir_scan_key s chains dirs None None Ht) by done.
  destruct (find_key _ _ _ _ _) as [[i d]|] eqn:Hf; cbn; [| by exists (-1), 0].
  exists 0, (d_file_size d). split; [done |]. apply dok_file_size.
  apply list_find_Some in Hf as (Hi & _). eapply vt_entry_dirent; [exact Ht | exact Hi].
Qed.

Lemma fs_list_total : ∃ text, fs_list s = Some text.
Proof. destruct Hok as (chains & dirs & Ht). rewrite (fs_list_spec s chains dirs Ht). by eexists. Qed.

Lemma fs_debug_stats_total :
  ∃ used free, fs_debug_stats s = (used, free, FS_TOTAL_DATA_CLUSTERS) ∧
    0 ≤ used ≤ FS_ROOT_ENTRIES ∧ 0 ≤ free ≤ FS_TOTAL_DATA_CLUSTERS.
Proof.
  destruct Hok as (chains & dirs & Ht). pose proof (vt_state _ _ _ _ _ Ht) as Hs.
  rewrite (fs_debug_stats_spec s Hs). do 2 eexists. split; [done |]. split.
  - pose proof (length_filter (λ d, dirent_unused d = false) (root s)).
    pose proof (so_root_len s Hs). unfold zlen in *. unfold_layout. lia.
  - unfold free_count, free_list.
    pose proof (length_filter (λ x, fat_read (fs_disk s) x = FS_CLUSTER_FREE)
      (seqZ FS_FIRST_DATA_CLUSTER FS_TOTAL_DATA_CLUSTERS)) as Hl.
    rewrite length_seqZ in Hl. unfold zlen. unfold_layout. lia.
Qed.
End queries.

(** ** Reachable states *)

(** Power-on with any disk that is not formatted, or a formatted disk that an
    earlier session left; then operations and further power cycles. *)
Inductive fs_reachable : fs_state → Prop :=
| reach_format d :
    disk_ok d → marker_loop 8 0 (disk_read_sector d FS_BOOT_LBA) = false →
    fs_reachable (fs_init (fs_boot d))
| reach_op s o rc s' :
    fs_reachable s → op_ok o → run_op o s = Some (rc, s') → fs_reachable s'
| reach_reboot s :
    fs_reachable s → fs_reachable (fs_init (fs_boot (fs_disk s))).

Lemma boot_format_ok d :
  disk_ok d → marker_loop 8 0 (disk_read_sector d FS_BOOT_LBA) = false →
  fs_ok (fs_init (fs_boot d)).
Proof.
  intros Hd Hm. exists ∅, ∅. apply format_tree; [done | done | | done].
  apply Forall_replicate, zero_dirent_ok.
Qed.

Lemma reboot_ok s : fs_ok s → fs_ok (fs_init (fs_boot (fs_disk s))).
Proof.
  intros (chains & dirs & Ht). exists chains, dirs.
  rewrite (mount_state s) by (apply Ht || done). by apply set_cwd_root_tree.
Qed.

Lemma reachable_ok s : fs_reachable s → fs_ok s.
Proof.
  induction 1 as [d Hd Hm|s o rc s' _ IH Ho Hr|s _ IH].
  - by apply boot_format_ok.
  - destruct (run_op_preserves o s Ho IH) as (rc2 & s2 & Hr2 & _ & Hok). congruence.
  - by apply reboot_ok.
Qed.

(** A concrete state to evaluate on: the blank disk, formatted. *)
Definition blank_disk : disk := mk_disk ∅.

Definition fresh_fs : fs_state := fs_init (fs_boot blank_disk).

Lemma blank_disk_ok : disk_ok blank_disk.
Proof. intros lba. apply zero_sector_ok. Qed.

Lemma blank_disk_unmarked : marker_loop 8 0 (disk_read_sector blank_disk FS_BOOT_LBA) = false.
Proof. by vm_compute. Qed.

Lemma fresh_fs_ok : fs_ok fresh_fs.
Proof. apply boot_format_ok; [apply blank_disk_ok | apply blank_disk_unmarked]. Qed.
