(* ===== verification/FsProps.v ===== *)
(** * The properties of the file system, stated for its users: on what
    [fs_read], [fs_stat], ... return after an operation. *)
From S2P Require Import Prelude Console FsLayout Disk Dirent Fat ChainMap Directory RootDir.
From S2P Require Import DirView Path Fs Tree Walk FsView FsCreate FsData FsFile FsWrite FsRead.
From S2P Require Import FsAppend FsDelete FsRename FsMkdir FsRmdir FsInit FsQuery Space.
From S2P Require Import FsReach.

(** ** Tools *)

(** Two paths that name different things. *)
Definition same_target (s : fs_state) (p q : cstr) : Prop :=
  ∃ dr leaf dr2 leaf2, resolve_parent s p = Some (Some (dr, leaf)) ∧
    resolve_parent s q = Some (Some (dr2, leaf2)) ∧
    dkey dr = dkey dr2 ∧ split_name leaf = split_name leaf2.

Lemma fs_read_unresolved s path max :
  resolve_parent s path = Some None → fs_read s path max = Some (-1, [], 0).
Proof. unfold fs_read. by intros ->. Qed.

(** [path] is a file that holds [bytes]. *)
Definition reads_as (s : fs_state) (path : cstr) (bytes : list Z) : Prop :=
  ∀ max, 0 ≤ max → fs_read s path max = Some (0, ztake max bytes, Z.min max (zlen bytes)).

(** [path] names nothing. *)
Definition names_nothing (s : fs_state) (path : cstr) : Prop :=
  fs_stat s path = Some (-1, 0) ∧ ∀ max, 0 ≤ max → fs_read s path max = Some (-1, [], 0).

Section tools.
Variables (s : fs_state) (chains : gmap Z (list Z)) (dirs : gset Z).
Hypothesis Ht : tree_ok s chains dirs.

Lemma reads_as_intro path dr leaf bytes :
  is_cstr path → resolve_parent s path = Some (Some (dr, leaf)) →
  view s chains (dkey dr) (split_name leaf) = Some (File bytes) → reads_as s path bytes.
Proof.
  intros Hp Hr Hv max Hm. by rewrite (fs_read_spec s chains dirs path dr leaf Ht Hp Hr), Hv.
Qed.

Lemma reads_as_elim path bytes :
  is_cstr path → reads_as s path bytes →
  ∃ dr leaf, resolve_parent s path = Some (Some (dr, leaf)) ∧
    view s chains (dkey dr) (split_name leaf) = Some (File bytes).
Proof.
  intros Hp Hra. destruct (resolve_cases s chains dirs Ht path Hp) as [Hr|(dr & leaf & Hr)].
  { specialize (Hra 0 ltac:(lia)). by rewrite (fs_read_unresolved _ _ _ Hr) in Hra. }
  exists dr, leaf. split; [done |].
  assert (∀ max, 0 ≤ max → _) as Hspec by exact (fs_read_spec s chains dirs path dr leaf Ht Hp Hr).
  destruct (view s chains (dkey dr) (split_name leaf)) as [[b|h]|].
  - assert (∀ max, 0 ≤ max → ztake max b = ztake max bytes ∧ Z.min max (zlen b) = Z.min max (zlen bytes))
      as Hall.
    { intros max Hm. specialize (Hspec max Hm). rewrite (Hra max Hm) in Hspec. by injection Hspec as -> ->. }
    destruct (Hall (zlen b + zlen bytes)) as [Hb _]; [unfold zlen; lia |].
    unfold ztake, zlen in Hb. rewrite !firstn_all2 in Hb by lia. by rewrite Hb.
  - specialize (Hspec 0 ltac:(lia)). by rewrite Hra in Hspec by lia.
  - specialize (Hspec 0 ltac:(lia)). by rewrite Hra in Hspec by lia.
Qed.

Lemma names_nothing_intro path dr leaf :
  is_cstr path → resolve_parent s path = Some (Some (dr, leaf)) →
  view s chains (dkey dr) (split_name leaf) = None → names_nothing s path.
Proof.
  intros Hp Hr Hv. split; [by eapply fs_stat_none |].
  intros max Hm. by rewrite (fs_read_spec s chains dirs path dr leaf Ht Hp Hr), Hv.
Qed.

(** What a path reads as, from the view. *)
Lemma read_congr s' chains' dirs' path dr leaf max :
  tree_ok s' chains' dirs' → is_cstr path → 0 ≤ max →
  resolve_parent s path = Some (Some (dr, leaf)) →
  resolve_parent s' path = Some (Some (dr, leaf)) →
  view s' chains' (dkey dr) (split_name leaf) = view s chains (dkey dr) (split_name leaf) →
  fs_read s' path max = fs_read s path max.
Proof.
  intros Ht' Hp Hm Hr Hr' Hv. rewrite (fs_read_spec s chains dirs path dr leaf Ht Hp Hr) by done.
  by rewrite (fs_read_spec s' chains' dirs' path dr leaf Ht' Hp Hr'), Hv.
Qed.
End tools.

(** The state after an operation. *)
Definition after (r : option (Z * fs_state)) : fs_state :=
  match r with Some (_, s) => s | None => fresh_fs end.

(** Only the return code has to be evaluated. *)
Lemma after_eq r c : match r with Some (rc, _) => rc =? c | None => false end = true → r = Some (c, after r).
Proof. destruct r as [[rc s]|]; [|done]. by intros ->%Z.eqb_eq. Qed.

(** Evaluating the hypotheses of the theorems at concrete inputs. *)
Ltac concrete :=
  match goal with
  | |- fs_ok fresh_fs => exact fresh_fs_ok
  | |- op_ok _ => cbn [op_ok]; split_and?; concrete
  | |- is_cstr _ => repeat constructor; lia
  | |- ascii_path _ => repeat constructor; lia
  | |- Forall is_u8 _ => repeat constructor; unfold is_u8; lia
  | |- is_u32 _ => unfold is_u32; lia
  | |- _ ≤ zlen _ => vm_compute; discriminate
  | |- ?x = Some (_, after ?x) => apply after_eq; vm_compute; reflexivity
  | |- _ => lia
  end.

(** ** Writing *)

(** After a successful write the path reads as the bytes written. *)
Lemma write_reads (s s' : fs_state) (path : cstr) (data : list Z) (size : Z) :
  fs_ok s → is_cstr path → Forall is_u8 data → 0 ≤ size ≤ 4294966784 → size ≤ zlen data →
  fs_write s path data size = Some (0, s') → reads_as s' path (ztake size data).
Proof.
  intros (chains & dirs & Ht) Hp Hd Hs Hl Hw.
  destruct (resolve_cases s chains dirs Ht path Hp) as [Hr|(dr & leaf & Hr)].
  { unfold fs_write in Hw. by rewrite Hr in Hw. }
  destruct (fs_write_spec s chains dirs path dr leaf Ht Hp Hr data size Hd Hs Hl)
    as (rc & s2 & chains' & Hw2 & Ht' & Hcase). rewrite Hw in Hw2. injection Hw2 as <- <-.
  destruct Hcase as [[? _]|[[_ Hu]|[? _]]]; [done | | done].
  pose proof (resolve_parent_kept _ _ _ _ _ _ Ht Ht' (fu_kept _ _ _ _ _ _ _ _ Hu) _ _ _ Hp Hr) as Hr'.
  by eapply reads_as_intro, Hu.
Qed.

(** C3. Round trip: after a successful [fs_write] of [size] bytes the path
    reads back as exactly those bytes, whatever the size of the read buffer,
    and [fs_stat] reports their number. *)
Theorem fs_write_read (s s' : fs_state) (path : cstr) (data : list Z) (size : Z) :
  fs_ok s → is_cstr path → Forall is_u8 data → 0 ≤ size ≤ 4294966784 → size ≤ zlen data →
  fs_write s path data size = Some (0, s') → reads_as s' path (ztake size data) ∧ fs_stat s' path = Some (0, size).
Proof.
  intros Hok Hp Hd Hs Hl Hw. split; [by eapply write_reads |].
  destruct Hok as (chains & dirs & Ht).
  destruct (resolve_cases s chains dirs Ht path Hp) as [Hr|(dr & leaf & Hr)].
  { unfold fs_write in Hw. by rewrite Hr in Hw. }
  destruct (fs_write_spec s chains dirs path dr leaf Ht Hp Hr data size Hd Hs Hl)
    as (rc & s2 & chains' & Hw2 & Ht' & Hcase). rewrite Hw in Hw2. injection Hw2 as <- <-.
  destruct Hcase as [[? _]|[[_ Hu]|[? _]]]; [done | | done].
  pose proof (resolve_parent_kept _ _ _ _ _ _ Ht Ht' (fu_kept _ _ _ _ _ _ _ _ Hu) _ _ _ Hp Hr) as Hr'.
  rewrite (fs_stat_file s' chains' dirs path dr leaf Ht' Hp Hr' _ (fu_view _ _ _ _ _ _ _ _ Hu)).
  by rewrite length_ztake by lia.
Qed.

(** One operation at a time keeps the volume consistent. *)
Lemma op_ok_after o s rc s' : fs_ok s → op_ok o → run_op o s = Some (rc, s') → fs_ok s'.
Proof.
  intros Hs Ho Hr. destruct (run_op_preserves o s Ho Hs) as (rc2 & s2 & Hr2 & _ & Hok). congruence.
Qed.

Lemma write_ok s p data size rc s' :
  fs_ok s → ascii_path p → Forall is_u8 data → 0 ≤ size ≤ 4294966784 → size ≤ zlen data →
  fs_write s p data size = Some (rc, s') → fs_ok s'.
Proof. intros. by apply (op_ok_after (OpWrite p data size) s rc s'). Qed.

Lemma mkdir_ok s p rc s' : fs_ok s → ascii_path p → fs_mkdir s p = Some (rc, s') → fs_ok s'.
Proof. intros. by apply (op_ok_after (OpMkdir p) s rc s'). Qed.

(** Runs that the witnesses evaluate. *)
Local Abbreviation w_hello := (fs_write fresh_fs (str "/a.txt") (str "hello") 5).

Lemma w_hello_eq : w_hello = Some (0, after w_hello).
Proof. apply after_eq. vm_compute. reflexivity. Qed.

Lemma fs_write_read_witness :
  reads_as (after w_hello) (str "/a.txt") (str "hello") ∧
  fs_stat (after w_hello) (str "/a.txt") = Some (0, 5).
Proof.
  apply (fs_write_read fresh_fs (after w_hello) (str "/a.txt") (str "hello") 5);
    [concrete.. | apply w_hello_eq].
Defined.

(** C4. Frame: [fs_write], successful or not, leaves every other path that
    resolves reading exactly as before. *)
Theorem fs_write_frame (s s' : fs_state) (p q : cstr) (data : list Z) (size rc max : Z) :
  fs_ok s → is_cstr p → is_cstr q → Forall is_u8 data → 0 ≤ size ≤ 4294966784 → size ≤ zlen data →
  0 ≤ max → ¬ same_target s p q → resolve_parent s q ≠ Some None →
  fs_write s p data size = Some (rc, s') → fs_read s' q max = fs_read s q max.
Proof.
  intros (chains & dirs & Ht) Hp Hq Hd Hs Hl Hm Hne Hqr Hw.
  destruct (resolve_cases s chains dirs Ht q Hq) as [Hr2|(dr2 & leaf2 & Hr2)]; [done |].
  destruct (resolve_cases s chains dirs Ht p Hp) as [Hr|(dr & leaf & Hr)].
  { unfold fs_write in Hw. rewrite Hr in Hw. by injection Hw as _ <-. }
  destruct (fs_write_spec s chains dirs p dr leaf Ht Hp Hr data size Hd Hs Hl)
    as (rc2 & s2 & chains' & Hw2 & Ht' & Hcase). rewrite Hw in Hw2. injection Hw2 as <- <-.
  destruct (open_parent s chains dirs q dr2 leaf2 Ht Hq Hr2) as [Hdr2 Hleaf2].
  pose proof (split_name_user leaf2 Hleaf2) as Hu2.
  assert (Hkn : (dkey dr2, split_name leaf2) ≠ (dkey dr, split_name leaf)).
  { intros [= Hk Hn]. apply Hne. exists dr, leaf, dr2, leaf2. by split_and!. }
  assert (dirs_kept s chains dirs s' chains' dirs ∧
    view s' chains' (dkey dr2) (split_name leaf2) = view s chains (dkey dr2) (split_name leaf2))
    as [Hkept Hv].
  { destruct Hcase as [[_ Hq']|[[_ Hu]|[_ Hu]]].
    - split; [by apply quiet_dirs_kept | by apply (quiet_view s chains dirs)].
    - split; [apply Hu | by apply Hu].
    - split; [apply Hu | by apply Hu]. }
  pose proof (resolve_parent_kept _ _ _ _ _ _ Ht Ht' Hkept _ _ _ Hq Hr2) as Hr2'.
  by apply (read_congr s chains dirs Ht s' chains' dirs q dr2 leaf2).
Qed.

Local Abbreviation w_world := (fs_write (after w_hello) (str "/b.txt") (str "world!") 6).

Lemma after_hello_ok : fs_ok (after w_hello).
Proof.
  apply (write_ok fresh_fs (str "/a.txt") (str "hello") 5 0); [concrete.. | exact w_hello_eq].
Qed.

Lemma hello_reads : reads_as (after w_hello) (str "/a.txt") (str "hello").
Proof.
  apply (write_reads fresh_fs (after w_hello) (str "/a.txt") (str "hello") 5);
    [concrete.. | exact w_hello_eq].
Qed.

Lemma fs_write_frame_witness :
  fs_read (after w_world) (str "/a.txt") 100 = fs_read (after w_hello) (str "/a.txt") 100.
Proof.
  apply (fs_write_frame (after w_hello) (after w_world) (str "/b.txt") (str "/a.txt")
           (str "world!") 6 0 100).
  - exact after_hello_ok.
  - concrete.
  - concrete.
  - concrete.
  - lia.
  - concrete.
  - lia.
  - intros (dr & leaf & dr2 & leaf2 & H1 & H2 & _ & Hs). vm_compute in H1, H2.
    injection H1 as <- <-. injection H2 as <- <-. vm_compute in Hs. discriminate.
  - vm_compute. discriminate.
  - concrete.
Defined.

(** ** Appending, creating, deleting, renaming *)

(** C5. A successful [fs_append] keeps the old bytes of the file and puts the
    new ones behind them. *)
Theorem fs_append_read (s s' : fs_state) (path : cstr) (old data : list Z) (extra : Z) :
  fs_ok s → is_cstr path → Forall is_u8 data → is_u32 extra → extra ≤ zlen data →
  reads_as s path old → fs_append s path data extra = Some (0, s') →
  reads_as s' path (old ++ ztake extra data).
Proof.
  intros (chains & dirs & Ht) Hp Hd Hs Hl Hold Ha.
  destruct (reads_as_elim s chains dirs Ht path old Hp Hold) as (dr & leaf & Hr & Hv).
  destruct (fs_append_spec s chains dirs path dr leaf Ht Hp Hr data extra Hd Hs Hl)
    as (rc & s2 & chains' & Ha2 & Ht' & Hcase). rewrite Ha in Ha2. injection Ha2 as <- <-.
  destruct Hcase as [[? _]|(old' & w & Hb & Hw & Hu)]; [done |].
  assert (old' = old) as -> by (destruct Hb as [Hb|[Hb _]]; congruence).
  destruct Hw as [[_ ->]|[? _]]; [|done].
  pose proof (resolve_parent_kept _ _ _ _ _ _ Ht Ht' (fu_kept _ _ _ _ _ _ _ _ Hu) _ _ _ Hp Hr) as Hr'.
  by eapply reads_as_intro, Hu.
Qed.

Local Abbreviation w_more := (fs_append (after w_hello) (str "/a.txt") (str " world") 6).

Lemma fs_append_read_witness : reads_as (after w_more) (str "/a.txt") (str "hello" ++ ztake 6 (str " world")).
Proof.
  apply (fs_append_read (after w_hello) (after w_more) (str "/a.txt") (str "hello") (str " world") 6).
  - exact after_hello_ok.
  - concrete.
  - concrete.
  - concrete.
  - concrete.
  - exact hello_reads.
  - concrete.
Defined.

(** A successful [fs_create] makes an empty file of a name that named
    nothing before. *)
Theorem fs_create_empty (s s' : fs_state) (path : cstr) :
  fs_ok s → ascii_path path → fs_create s path = Some (0, s') →
  names_nothing s path ∧ reads_as s' path [].
Proof.
  intros (chains & dirs & Ht) Ha Hc. pose proof (ascii_cstr path Ha) as Hp.
  destruct (resolve_cases s chains dirs Ht path Hp) as [Hr|(dr & leaf & Hr)].
  { unfold fs_create in Hc. by rewrite Hr in Hc. }
  destruct (open_parent s chains dirs path dr leaf Ht Hp Hr) as [Hdr Hleaf].
  destruct (fs_create_spec s chains dirs path dr leaf Ht Hr Hdr Hleaf) as (rc & s2 & Hc2 & Hcase).
  rewrite Hc in Hc2. injection Hc2 as <- <-.
  destruct Hcase as [(? & _)|(_ & Hf & chains' & i & Ht' & Hsc & Hno & Hk)]; [done |].
  pose proof (slot_change_kept _ _ _ _ _ _ _ _ Hsc ltac:(intros d Hd; by destruct (Hno d))) as Hdk.
  pose proof (resolve_parent_kept _ _ _ _ _ _ Ht Ht' Hdk _ _ _ Hp Hr) as Hr'.
  split.
  - eapply names_nothing_intro; [done.. |]. unfold view. by rewrite Hf.
  - eapply reads_as_intro; [done.. |].
    assert (plain (new_dirent (split_name leaf).1 (split_name leaf).2 FS_ATTR_NORMAL 0 0)) as Hpl.
    { apply new_plain; [by apply split_name_user | by apply split_name_nonzero |].
      by eapply ascii_usable, ascii_leaf. }
    pose proof (view_new s s' chains chains' dirs dirs (dkey dr) i _ Ht' Hsc Hpl) as Hv.
    replace (entry_name _) with (split_name leaf) in Hv by (by destruct (split_name leaf)).
    rewrite Hv. unfold node_of. cbn. unfold file_data. cbn.
    done.
Qed.

Local Abbreviation w_create := (fs_create fresh_fs (str "/New.Txt")).

Lemma fs_create_empty_witness :
  names_nothing fresh_fs (str "/New.Txt") ∧ reads_as (after w_create) (str "/New.Txt") [].
Proof.
  apply (fs_create_empty fresh_fs (after w_create) (str "/New.Txt")); concrete.
Defined.

(** C17. Deleting a file always succeeds: the name is free afterwards and the
    clusters of the file are free clusters again. *)
Theorem fs_delete_gone (s : fs_state) (path : cstr) (bytes : list Z) :
  fs_ok s → is_cstr path → reads_as s path bytes →
  ∃ s', fs_delete s path = Some (0, s') ∧ names_nothing s' path ∧
    free_count (fs_disk s') = free_count (fs_disk s) + clusters_for (zlen bytes).
Proof.
  intros (chains & dirs & Ht) Hp Hold.
  destruct (reads_as_elim s chains dirs Ht path bytes Hp Hold) as (dr & leaf & Hr & Hv).
  destruct (fs_delete_spec s chains dirs path dr leaf Ht Hp Hr) as (rc & s' & chains' & Hd & Ht' & Hc).
  rewrite Hv in Hc. destruct Hc as (-> & Hrem & Hdk & _). exists s'. split; [done |]. split.
  - pose proof (resolve_parent_kept _ _ _ _ _ _ Ht Ht' Hdk _ _ _ Hp Hr) as Hr'.
    by eapply names_nothing_intro, Hrem.
  - by apply (fs_delete_space s chains dirs path dr leaf bytes s').
Qed.

Lemma fs_delete_gone_witness :
  ∃ s', fs_delete (after w_hello) (str "/a.txt") = Some (0, s') ∧ names_nothing s' (str "/a.txt") ∧
    free_count (fs_disk s') = free_count (fs_disk (after w_hello)) + 1.
Proof.
  apply (fs_delete_gone (after w_hello) (str "/a.txt") (str "hello"));
    [exact after_hello_ok | concrete | exact hello_reads].
Defined.

(** C16. A successful [fs_rename] of a file moves its bytes to the new name; the
    old name names nothing. *)
Theorem fs_rename_moves (s s' : fs_state) (p q : cstr) (bytes : list Z) :
  fs_ok s → is_cstr p → ascii_path q → reads_as s p bytes → fs_rename s p q = Some (0, s') →
  reads_as s' q bytes ∧ names_nothing s' p.
Proof.
  intros (chains & dirs & Ht) Hp Ha Hold Hren. pose proof (ascii_cstr q Ha) as Hq.
  destruct (reads_as_elim s chains dirs Ht p bytes Hp Hold) as (dr & leaf & Hr & Hv).
  destruct (fs_rename_spec s chains dirs Ht p q dr leaf Hp Hq Hr) as (rc & s2 & Hren2 & Hcase).
  rewrite Hren in Hren2. injection Hren2 as <- <-.
  destruct Hcase as [[? _]|(_ & dr2 & leaf2 & Hr2 & Hk & _ & _ & Hres)]; [done |].
  destruct Hres as [Ht' Hrn]; [by eapply ascii_usable, ascii_leaf |].
  pose proof (rn_kept _ _ _ _ _ _ _ Hrn ltac:(intros h; rewrite Hv; done)) as Hdk.
  pose proof (resolve_parent_kept _ _ _ _ _ _ Ht Ht' Hdk _ _ _ Hp Hr) as Hr'.
  pose proof (resolve_parent_kept _ _ _ _ _ _ Ht Ht' Hdk _ _ _ Hq Hr2) as Hr2'.
  split.
  - eapply reads_as_intro; [done.. |]. rewrite Hk, (rn_new _ _ _ _ _ _ _ Hrn). done.
  - by eapply names_nothing_intro, Hrn.
Qed.

Local Abbreviation w_rename := (fs_rename (after w_hello) (str "/a.txt") (str "/c.txt")).

Lemma fs_rename_moves_witness :
  reads_as (after w_rename) (str "/c.txt") (str "hello") ∧ names_nothing (after w_rename) (str "/a.txt").
Proof.
  apply (fs_rename_moves (after w_hello) (after w_rename) (str "/a.txt") (str "/c.txt") (str "hello"));
    [exact after_hello_ok | concrete | concrete | exact hello_reads | concrete].
Defined.

(** ** Directories *)

(** A name that is taken is refused by [fs_create] and [fs_mkdir]. *)
Lemma name_taken s chains dirs path dr leaf x :
  tree_ok s chains dirs → is_cstr path → resolve_parent s path = Some (Some (dr, leaf)) →
  view s chains (dkey dr) (split_name leaf) = Some x →
  fs_create s path = Some (-1, s) ∧ fs_mkdir s path = Some (-1, s).
Proof.
  intros Ht Hp Hr Hv. destruct (open_parent s chains dirs path dr leaf Ht Hp Hr) as [Hdr Hleaf].
  unfold view in Hv.
  destruct (find_key s chains (dkey dr) (split_name leaf).1 (split_name leaf).2) as [[i d]|] eqn:Hf; [|done].
  unfold fs_create, fs_mkdir. rewrite Hr, (surjective_pairing (split_name leaf)).
  rewrite (dir_scan_key s chains dirs None None Ht), Hf by done.
  by destruct (znth leaf 0 =? 0), (leaf_is_dots leaf).
Qed.

(** C18. A directory just made by [fs_mkdir] takes its name, is empty, and can
    be removed again: [fs_rmdir] succeeds on it. *)
Theorem fs_mkdir_rmdir (s s' : fs_state) (path : cstr) :
  fs_ok s → ascii_path path → fs_mkdir s path = Some (0, s') →
  fs_create s' path = Some (-1, s') ∧ fs_mkdir s' path = Some (-1, s') ∧
  ∃ s'', fs_rmdir s' path = Some (0, s'') ∧ fs_ok s''.
Proof.
  intros (chains & dirs & Ht) Ha Hm. pose proof (ascii_cstr path Ha) as Hp.
  destruct (resolve_cases s chains dirs Ht path Hp) as [Hr|(dr & leaf & Hr)].
  { unfold fs_mkdir in Hm. by rewrite Hr in Hm. }
  destruct (fs_mkdir_spec s chains dirs path dr leaf Ht Hp Hr) as (rc & s2 & chains' & Hm2 & Hcase);
    [by eapply ascii_usable, ascii_leaf |]. rewrite Hm in Hm2. injection Hm2 as <- <-.
  destruct Hcase as [(? & _)|(_ & Hl & Hd & _ & n & Ht' & Hc)]; [done |].
  pose proof (resolve_parent_kept _ _ _ _ _ _ Ht Ht' (dc_kept _ _ _ _ _ _ _ _ Hc) _ _ _ Hp Hr) as Hr'.
  destruct (name_taken s' chains' _ path dr leaf _ Ht' Hp Hr' (dc_view _ _ _ _ _ _ _ _ Hc)) as [H1 H2].
  split; [done |]. split; [done |].
  destruct (fs_rmdir_empty s' chains' ({[n]} ∪ dirs) path dr leaf Ht' Hp Hr' n Hl Hd
    (dc_view _ _ _ _ _ _ _ _ Hc)) as (s'' & Hrm).
  { rewrite (dk_cwd _ _ _ _ _ _ (dc_kept _ _ _ _ _ _ _ _ Hc)). intros Hcwd.
    pose proof (vt_cwd _ _ _ _ _ Ht) as Hin. rewrite Hcwd in Hin. by apply (dc_fresh _ _ _ _ _ _ _ _ Hc). }
  { apply Hc. }
  exists s''. split; [done |]. eapply (op_ok_after (OpRmdir path)); [|done|exact Hrm]. by eexists _, _.
Qed.

Local Abbreviation w_docs := (fs_mkdir fresh_fs (str "docs")).

Lemma fs_mkdir_rmdir_witness :
  fs_create (after w_docs) (str "docs") = Some (-1, after w_docs) ∧
  fs_mkdir (after w_docs) (str "docs") = Some (-1, after w_docs) ∧
  ∃ s'', fs_rmdir (after w_docs) (str "docs") = Some (0, s'') ∧ fs_ok s''.
Proof. apply (fs_mkdir_rmdir fresh_fs (after w_docs) (str "docs")); concrete. Defined.

(** C7. [fs_rmdir] only succeeds on a directory that is empty and is not the
    current directory; then its name and its cluster chain are gone and every
    other name of every other directory is what it was. *)
Theorem fs_rmdir_only_empty (s s' : fs_state) (chains : gmap Z (list Z)) (dirs : gset Z)
    (path leaf : cstr) (dr : dir_ref) :
  tree_ok s chains dirs → is_cstr path → resolve_parent s path = Some (Some (dr, leaf)) →
  fs_rmdir s path = Some (0, s') →
  ∃ h, view s chains (dkey dr) (split_name leaf) = Some (Dir h) ∧ dkey (cwd_dir s) ≠ Some h ∧
    (∀ nm, user_name nm.1 nm.2 → view s chains (Some h) nm = None) ∧
    tree_ok s' (delete h chains) (dirs ∖ {[h]}) ∧
    name_removed s chains dirs (dkey dr) (split_name leaf) s' (delete h chains) (dirs ∖ {[h]}).
Proof.
  intros Ht Hp Hr Hrm.
  destruct (fs_rmdir_spec s chains dirs path dr leaf Ht Hp Hr)
    as (rc & s2 & chains' & dirs' & Hrm2 & Ht' & Hcase). rewrite Hrm in Hrm2. injection Hrm2 as <- <-.
  destruct Hcase as [(? & _)|(_ & h & Hv & Hcwd & Hno & -> & -> & Hrem)]; [done |].
  exists h. split_and!; try done. intros nm Hu. unfold view.
  assert (find_key s chains (Some h) nm.1 nm.2 = None) as ->; [|done].
  destruct (find_key s chains (Some h) nm.1 nm.2) as [[j x]|] eqn:Hf; [|done]. exfalso.
  apply (Hno j x). apply (find_key_plain _ _ _ _ _ Ht) in Hf; [apply Hf | | done].
  destruct (open_parent s chains dirs path dr leaf Ht Hp Hr) as [Hdr Hleaf].
  exact (view_dir_in s chains dirs _ _ h Ht Hdr (split_name_user leaf Hleaf) Hv).
Qed.

Local Abbreviation w_rmdir := (fs_rmdir (after w_docs) (str "docs")).

Lemma after_docs_ok : fs_ok (after w_docs).
Proof. apply (mkdir_ok fresh_fs (str "docs") 0); concrete. Qed.

Lemma fs_rmdir_only_empty_witness :
  ∃ chains dirs dr leaf h, resolve_parent (after w_docs) (str "docs") = Some (Some (dr, leaf)) ∧
    view (after w_docs) chains (dkey dr) (split_name leaf) = Some (Dir h) ∧
    tree_ok (after w_rmdir) (delete h chains) (dirs ∖ {[h]}).
Proof.
  destruct after_docs_ok as (chains & dirs & Ht).
  assert (is_cstr (str "docs")) as Hp by concrete.
  destruct (resolve_cases (after w_docs) chains dirs Ht _ Hp) as [Hr|(dr & leaf & Hr)].
  { vm_compute in Hr. discriminate. }
  assert (w_rmdir = Some (0, after w_rmdir)) as Hrm by concrete.
  destruct (fs_rmdir_only_empty (after w_docs) (after w_rmdir) chains dirs (str "docs") leaf dr Ht Hp Hr Hrm)
    as (h & Hv & _ & _ & Ht' & _).
  exists chains, dirs, dr, leaf, h. split; [exact Hr | split; [exact Hv | exact Ht']].
Defined.

(** ** The volume as a whole *)

(** C1. Safety and totality: every state that can be reached from power-on by
    the operations and by power cycles is a consistent volume (both tables
    agree, chains are disjoint, acyclic and leak nothing, every entry owns its
    chain, names are unique, "." and ".." are right, the cached root is on the
    disk), and every further operation returns with code 0 or -1. *)
Theorem fs_reachable_consistent (s : fs_state) (o : fs_op) :
  fs_reachable s → op_ok o →
  fs_ok s ∧ ∃ rc s', run_op o s = Some (rc, s') ∧ (rc = 0 ∨ rc = -1) ∧ fs_reachable s'.
Proof.
  intros Hr Ho. pose proof (reachable_ok s Hr) as Hs. split; [done |].
  destruct (run_op_preserves o s Ho Hs) as (rc & s' & Hrun & Hrc & _).
  exists rc, s'. split_and!; [done | done | by eapply reach_op].
Qed.

Lemma fs_reachable_consistent_witness :
  fs_ok fresh_fs ∧ ∃ rc s', run_op (OpMkdir (str "docs")) fresh_fs = Some (rc, s') ∧
    (rc = 0 ∨ rc = -1) ∧ fs_reachable s'.
Proof.
  apply (fs_reachable_consistent fresh_fs (OpMkdir (str "docs"))); [|concrete].
  apply reach_format; [exact blank_disk_ok | exact blank_disk_unmarked].
Defined.

(** C6. Durability: after a power cycle [fs_init] finds the volume formatted
    and restores the whole driver state, except that the current directory is
    the root again. *)
Theorem fs_remount (s : fs_state) :
  fs_ok s → fs_init (fs_boot (fs_disk s)) = set_cwd true 0 [47] s ∧ fs_ok (set_cwd true 0 [47] s).
Proof.
  intros Hs. assert (fs_init (fs_boot (fs_disk s)) = set_cwd true 0 [47] s) as He.
  { destruct Hs as (chains & dirs & Ht). by apply mount_state; [apply Ht |]. }
  split; [done |]. rewrite <- He. by apply reboot_ok.
Qed.

Lemma fs_remount_witness :
  fs_init (fs_boot (fs_disk (after w_hello))) = set_cwd true 0 [47] (after w_hello) ∧
  fs_ok (set_cwd true 0 [47] (after w_hello)).
Proof. apply (fs_remount (after w_hello)). exact after_hello_ok. Defined.

(** C32. Formatting: on a disk without the marker, [fs_init] makes a consistent,
    empty volume: nothing is listed, no root entry is used and every data
    cluster is free. *)
Theorem fs_init_fresh (d : disk) :
  disk_ok d → marker_loop 8 0 (disk_read_sector d FS_BOOT_LBA) = false →
  let s := fs_init (fs_boot d) in
  fs_ok s ∧ fs_list s = Some (str "  (empty)" ++ [10]) ∧
  fs_debug_stats s = (0, FS_TOTAL_DATA_CLUSTERS, FS_TOTAL_DATA_CLUSTERS).
Proof.
  intros Hd Hm s. pose proof (boot_format_ok d Hd Hm) as Hok. split; [exact Hok |].
  assert (Ht : tree_ok s ∅ ∅).
  { apply format_tree; [done | done | | done]. apply Forall_replicate, zero_dirent_ok. }
  assert (Hroot : root s = replicate 128 zero_dirent).
  { unfold s. rewrite fs_init_format_eq by done. reflexivity. }
  split.
  - rewrite (fs_list_spec s ∅ ∅ Ht). unfold s at 1 2. rewrite fs_init_format_eq by done.
    cbn [cwd_dir set_cwd cwd_is_root cwd_cluster dkey is_root contents].
    rewrite <- (fs_init_format_eq (fs_boot d) Hm). fold s. rewrite Hroot. reflexivity.
  - rewrite (fs_debug_stats_spec s (vt_state _ _ _ _ _ Ht)). rewrite Hroot.
    pose proof (space_total _ _ (vt_fat _ _ _ _ _ Ht)) as Hsp.
    change (used_count ∅) with 0 in Hsp. rewrite Z.add_0_r in Hsp. rewrite Hsp. reflexivity.
Qed.

Lemma fs_init_fresh_witness :
  let s := fs_init (fs_boot blank_disk) in
  fs_ok s ∧ fs_list s = Some (str "  (empty)" ++ [10]) ∧
  fs_debug_stats s = (0, FS_TOTAL_DATA_CLUSTERS, FS_TOTAL_DATA_CLUSTERS).
Proof. apply (fs_init_fresh blank_disk); [exact blank_disk_ok | exact blank_disk_unmarked]. Defined.

(** C31. Bounds: [fs_read] returns for every path; it stores at most [max_size]
    bytes in the caller's buffer, and [*out_size] is the number stored. *)
Theorem fs_read_bounds (s : fs_state) (path : cstr) (max : Z) :
  fs_ok s → is_cstr path → 0 ≤ max →
  ∃ rc out n, fs_read s path max = Some (rc, out, n) ∧ (rc = 0 ∨ rc = -1) ∧ zlen out = n ∧ 0 ≤ n ≤ max.
Proof.
  intros (chains & dirs & Ht) Hp Hm.
  destruct (resolve_cases s chains dirs Ht path Hp) as [Hr|(dr & leaf & Hr)].
  { exists (-1), [], 0. rewrite (fs_read_unresolved s path max Hr). split_and!; auto; lia. }
  rewrite (fs_read_spec s chains dirs path dr leaf Ht Hp Hr) by done.
  destruct (view s chains (dkey dr) (split_name leaf)) as [[bytes|h]|];
    eexists _, _, _; (split; [done |]); (split; [by auto |]); [|by split..].
  unfold zlen, ztake. rewrite length_take. lia.
Qed.

Lemma fs_read_bounds_witness :
  ∃ rc out n, fs_read (after w_hello) (str "/a.txt") 3 = Some (rc, out, n) ∧
    (rc = 0 ∨ rc = -1) ∧ zlen out = n ∧ 0 ≤ n ≤ 3.
Proof. apply (fs_read_bounds (after w_hello) (str "/a.txt") 3); [exact after_hello_ok | concrete | lia]. Defined.

(** C33. [fs_debug_stats] is exact: used root entries, free clusters, and the
    free clusters together with the clusters of all chains are the data area. *)
Theorem fs_debug_stats_exact (s : fs_state) (chains : gmap Z (list Z)) (dirs : gset Z) :
  tree_ok s chains dirs →
  fs_debug_stats s =
    (zlen (filter (λ d, dirent_unused d = false) (root s)),
     FS_TOTAL_DATA_CLUSTERS - used_count chains, FS_TOTAL_DATA_CLUSTERS).
Proof.
  intros Ht. rewrite (fs_debug_stats_spec s (vt_state _ _ _ _ _ Ht)).
  pose proof (space_total _ _ (vt_fat _ _ _ _ _ Ht)) as Hsp. do 2 f_equal. lia.
Qed.

Lemma fs_debug_stats_exact_witness :
  fs_debug_stats fresh_fs =
    (zlen (filter (λ d, dirent_unused d = false) (root fresh_fs)),
     FS_TOTAL_DATA_CLUSTERS - used_count ∅, FS_TOTAL_DATA_CLUSTERS).
Proof.
  apply (fs_debug_stats_exact fresh_fs ∅ ∅).
  apply format_tree; [exact blank_disk_ok | reflexivity | | exact blank_disk_unmarked].
  apply Forall_replicate, zero_dirent_ok.
Defined.
