(* ===== verification/Shell.v ===== *)
(** * The shell of [kernel/shell.c]: commands, history, line editing, with the
    [reboot] and [shutdown] of [kernel/kernel.c] that it calls. *)
From S2P Require Import Prelude Console Keyboard Allocator Heap Task Interrupts.
From S2P Require Import FsLayout Disk Dirent Fat Directory Path Fs.

Definition LINE_BUF_SIZE : Z := 258.
Definition HISTORY_SIZE : Z := 16.

(** [char *system_version] *)
Definition system_version : cstr := str "RinkOS 0.034".

(** ** State *)

(** What the commands work on: the components' states, the statics of shell.c
    ([history], [history_count], [spawn_count] and the buffer of [cmd_cat]),
    the memory map of the BIOS, and the bytes that the keyboard controller will
    deliver at its status port. *)
Record kernel (A : Type) := mk_kernel {
  k_fs : fs_state;
  k_sched : sched A;
  k_console : console;
  k_timer : timer;
  k_kbd : kbd;
  k_mmap : list mmap_entry;
  k_status : list Z;
  history : list cstr;
  history_count : Z;
  spawn_count : Z;
  cat_buf : list Z
}.
Arguments mk_kernel {A}.
Arguments k_fs {A}.
Arguments k_sched {A}.
Arguments k_console {A}.
Arguments k_timer {A}.
Arguments k_kbd {A}.
Arguments k_mmap {A}.
Arguments k_status {A}.
Arguments history {A}.
Arguments history_count {A}.
Arguments spawn_count {A}.
Arguments cat_buf {A}.

Section setters.
Context {A : Type}.
Implicit Types k : kernel A.

Definition set_fs (x : fs_state) k : kernel A :=
  mk_kernel x (k_sched k) (k_console k) (k_timer k) (k_kbd k) (k_mmap k) (k_status k)
    (history k) (history_count k) (spawn_count k) (cat_buf k).

Definition set_sched (x : sched A) k : kernel A :=
  mk_kernel (k_fs k) x (k_console k) (k_timer k) (k_kbd k) (k_mmap k) (k_status k)
    (history k) (history_count k) (spawn_count k) (cat_buf k).

Definition set_console (x : console) k : kernel A :=
  mk_kernel (k_fs k) (k_sched k) x (k_timer k) (k_kbd k) (k_mmap k) (k_status k)
    (history k) (history_count k) (spawn_count k) (cat_buf k).

Definition set_timer (x : timer) k : kernel A :=
  mk_kernel (k_fs k) (k_sched k) (k_console k) x (k_kbd k) (k_mmap k) (k_status k)
    (history k) (history_count k) (spawn_count k) (cat_buf k).

Definition set_kbd (x : kbd) k : kernel A :=
  mk_kernel (k_fs k) (k_sched k) (k_console k) (k_timer k) x (k_mmap k) (k_status k)
    (history k) (history_count k) (spawn_count k) (cat_buf k).

Definition set_status (x : list Z) k : kernel A :=
  mk_kernel (k_fs k) (k_sched k) (k_console k) (k_timer k) (k_kbd k) (k_mmap k) x
    (history k) (history_count k) (spawn_count k) (cat_buf k).

Definition set_history (h : list cstr) (n : Z) k : kernel A :=
  mk_kernel (k_fs k) (k_sched k) (k_console k) (k_timer k) (k_kbd k) (k_mmap k) (k_status k)
    h n (spawn_count k) (cat_buf k).

Definition set_spawn (n : Z) k : kernel A :=
  mk_kernel (k_fs k) (k_sched k) (k_console k) (k_timer k) (k_kbd k) (k_mmap k) (k_status k)
    (history k) (history_count k) n (cat_buf k).

Definition set_cat (b : list Z) k : kernel A :=
  mk_kernel (k_fs k) (k_sched k) (k_console k) (k_timer k) (k_kbd k) (k_mmap k) (k_status k)
    (history k) (history_count k) (spawn_count k) b.
End setters.

(** ** Strings *)

(** The same loop as [str_eq_local] of fs.c, and as [str_copy_n]. *)
Definition str_eq (a b : cstr) : bool := str_eq_local a b.
Definition str_copy_local (src : cstr) (max_len : Z) : cstr := str_copy_n src max_len.

(** [if ( *args == ' ') args++;] *)
Definition skip_space (args : cstr) : cstr :=
  match args with
  | c :: args' => if c =? 32 then args' else args
  | [] => []
  end.

(** [while (args[i] && args[i] != ' ' && i < FS_NAME_LEN - 1)]: the word. *)
Fixpoint take_word (args : cstr) (i : Z) : cstr :=
  match args with
  | [] => []
  | c :: args' =>
      if negb (c =? 0) && negb (c =? 32) && (i <? FS_NAME_LEN - 1)
      then c :: take_word args' (i + 1) else []
  end.

Definition nl : cstr := [10].

(** ** Commands *)

Section commands.
Context `{Allocator A}.
Implicit Types k : kernel A.

(** The address of [counter_task], which the linker provides. *)
Context (counter_task : Z).

Definition print (s : cstr) k : option (kernel A) := Some (set_console (kprint s (k_console k)) k).

Definition print_uint (val : Z) k : option (kernel A) :=
  match kprint_uint val with
  | None => None
  | Some s => print s k
  end.

Definition cmd_ls k : option (kernel A) :=
  let cwd := fs_getcwd (k_fs k) FS_NAME_LEN in
  (print (str "Contents of ") ;> print cwd ;> print (str ":" ++ nl) ;>
   λ k, match fs_list (k_fs k) with
        | None => None
        | Some text => print text k
        end) k.

Definition cmd_pwd k : option (kernel A) :=
  let cwd := fs_getcwd (k_fs k) FS_NAME_LEN in
  (print cwd ;> print nl) k.

Definition cmd_rmdir (args : cstr) k : option (kernel A) :=
  let args := skip_space args in
  if znth args 0 =? 0 then print (str "usage: rmdir <path>" ++ nl) k
  else
    match fs_rmdir (k_fs k) args with
    | None => None
    | Some (result, s) =>
        let k := set_fs s k in
        if result <? 0
        then print (str "rmdir failed (not a directory, not empty, or in use)" ++ nl) k
        else (print (str "Removed directory ") ;> print args ;> print nl) k
    end.

Definition cmd_df k : option (kernel A) :=
  let '(root_used, free_clusters, total_clusters) := fs_debug_stats (k_fs k) in
  (print (str "Root entries used: ") ;> print_uint root_used ;> print (str " / 128" ++ nl) ;>
   print (str "Free space: ") ;> print_uint (free_clusters / 2) ;> print (str " KB free of ") ;>
   print_uint (total_clusters / 2)) k.

Definition cmd_mkdir (args : cstr) k : option (kernel A) :=
  let args := skip_space args in
  if znth args 0 =? 0 then print (str "usage: mkdir <path>" ++ nl) k
  else
    match fs_mkdir (k_fs k) args with
    | None => None
    | Some (result, s) =>
        let k := set_fs s k in
        if result <? 0
        then print (str "mkdir failed (already exists or path invalid)" ++ nl) k
        else (print (str "Created directory ") ;> print args ;> print nl) k
    end.

Definition cmd_cd (args : cstr) k : option (kernel A) :=
  let args := skip_space args in
  if znth args 0 =? 0 then print (str "usage: cd <path>" ++ nl) k
  else
    match fs_chdir (k_fs k) args with
    | None => None
    | Some (result, s) =>
        let k := set_fs s k in
        if result <? 0
        then (print (str "cd: no such directory: ") ;> print args ;> print nl) k
        else Some k
    end.

Definition cmd_write (args : cstr) k : option (kernel A) :=
  let args := skip_space args in
  let filename := take_word args 0 in
  let i := zlen filename in
  if i =? 0 then print (str "usage: write <filename> <text>" ++ nl) k
  else
    let content := skip_space (zdrop i args) in
    let len := strlen content in
    match fs_write (k_fs k) filename content (u32 len) with
    | None => None
    | Some (result, s) =>
        let k := set_fs s k in
        if result <? 0 then print (str "write failed (file table full?)" ++ nl) k
        else
          (print (str "Write ") ;> print_uint (u32 len) ;> print (str " bytes to ") ;>
           print filename ;> print nl) k
    end.

(** The static buffer keeps what earlier calls left behind the terminator. *)
Definition cmd_cat (args : cstr) k : option (kernel A) :=
  let args := skip_space args in
  if znth args 0 =? 0 then print (str "usage: cat <filename>" ++ nl) k
  else
    match fs_read (k_fs k) args (4096 - 1) with
    | None => None
    | Some (result, bytes, out_size) =>
        match copy_bytes (cat_buf k) 0 bytes with
        | None => None
        | Some buf =>
            if result <? 0 then (print args ;> print (str ": not found" ++ nl)) (set_cat buf k)
            else
              match zstore buf out_size 0 with
              | None => None
              | Some buf => (print buf ;> print nl) (set_cat buf k)
              end
        end
    end.

Definition cmd_mv (args : cstr) k : option (kernel A) :=
  let args := skip_space args in
  let old_name := take_word args 0 in
  let i := zlen old_name in
  let rest := skip_space (zdrop i args) in
  if (i =? 0) || (znth rest 0 =? 0) then print (str "usage: mv <old> <new>" ++ nl) k
  else
    match fs_rename (k_fs k) old_name rest with
    | None => None
    | Some (result, s) =>
        let k := set_fs s k in
        if result <? 0 then print (str "mv failed (not found or target exists)" ++ nl) k
        else
          (print (str "Renamed ") ;> print old_name ;> print (str " to ") ;> print rest ;>
           print nl) k
    end.

Definition print_seconds k : option (kernel A) :=
  match timer_get_seconds (k_timer k) with
  | None => None
  | Some s => print_uint s k
  end.

Definition cmd_uptime : kernel A → option (kernel A) :=
  print (str "Uptime: ") ;> print_seconds ;> print (str " second" ++ nl).

Definition cmd_delete (args : cstr) k : option (kernel A) :=
  let args := skip_space args in
  if znth args 0 =? 0 then print (str "usage: delete <filename>" ++ nl) k
  else
    match fs_delete (k_fs k) args with
    | None => None
    | Some (result, s) =>
        let k := set_fs s k in
        if result <? 0 then (print args ;> print (str ": not found" ++ nl)) k
        else (print (str "Deleted ") ;> print args ;> print nl) k
    end.

Definition cmd_append (args : cstr) k : option (kernel A) :=
  let args := skip_space args in
  let filename := take_word args 0 in
  let i := zlen filename in
  if i =? 0 then print (str "usage: append <filename> <text>" ++ nl) k
  else
    let content := skip_space (zdrop i args) in
    let len := strlen content in
    match fs_append (k_fs k) filename content (u32 len) with
    | None => None
    | Some (result, s) =>
        let k := set_fs s k in
        if result <? 0 then print (str "append failed (file too large or table full)" ++ nl) k
        else
          (print (str "Appended ") ;> print_uint (u32 len) ;> print (str " bytes to ") ;>
           print filename ;> print nl) k
    end.

Definition cmd_stat (args : cstr) k : option (kernel A) :=
  let args := skip_space args in
  if znth args 0 =? 0 then print (str "usage: stat <filename>" ++ nl) k
  else
    match fs_stat (k_fs k) args with
    | None => None
    | Some (result, size) =>
        if result <? 0 then (print args ;> print (str ": not found" ++ nl)) k
        else (print args ;> print (str ": ") ;> print_uint size ;> print (str " bytes" ++ nl)) k
    end.

Definition cmd_top : kernel A → option (kernel A) :=
  print (str "Tasks:" ++ nl) ;>
  λ k, match task_list (k_sched k) with
       | None => None
       | Some text => print text k
       end.

(** *** Tasks *)

(** [while (n > 0) { digits[di++] = '0' + n % 10; n /= 10; }] on
    [char digits[8]]; [None] is a store behind its end. *)
Fixpoint digit_loop (fuel : nat) (n di : Z) (digits : list Z) : option (Z * list Z) :=
  match fuel with
  | O => None
  | S fuel' =>
      if 0 <? n then
        match zstore digits di (u8 (48 + n mod 10)) with
        | None => None
        | Some digits => digit_loop fuel' (n / 10) (di + 1) digits
        end
      else Some (di, digits)
  end.

(** [while (di > 0 && i < 15) name[i++] = digits[--di];] *)
Fixpoint name_loop (di : nat) (i : Z) (digits name : list Z) : Z * list Z :=
  match di with
  | O => (i, name)
  | S di' =>
      if i <? 15
      then name_loop di' (i + 1) digits (zset name i (znth digits (Z.of_nat di')))
      else (i, name)
  end.

(** The buffer [name] of [cmd_spawn], as a string; the initial contents of the
    two buffers do not matter. *)
Definition spawn_name (n : Z) : option cstr :=
  let name := put_bytes (replicate 16 0) 0 (str "task") in
  let '(di, digits) :=
    if n =? 0 then (1, zset (replicate 8 0) 0 48) else (0, replicate 8 0) in
  match digit_loop 16 n di digits with
  | None => None
  | Some (di, digits) =>
      let '(i, name) := name_loop (Z.to_nat di) 4 digits name in
      printed <$> zstore name i 0
  end.

Definition cmd_spawn k : option (kernel A) :=
  let k := set_spawn (i32 (spawn_count k + 1)) k in
  match spawn_name (spawn_count k) with
  | None => None
  | Some name =>
      match task_create_named counter_task name (k_sched k) with
      | None => None
      | Some (id, s) =>
          let k := set_sched s k in
          if id <? 0 then print (str "spawn failed: too many tasks (see 'top')" ++ nl) k
          else
            (print (str "Spawned task '") ;> print name ;> print (str "' (id ") ;>
             print_uint (u32 id) ;> print (str ") - see 'top'" ++ nl)) k
      end
  end.

(** The digits at the front of [args]: [id] and [i]. *)
Fixpoint kill_digits (args : cstr) (id i : Z) : Z * Z :=
  match args with
  | c :: args' =>
      if (48 <=? c) && (c <=? 57)
      then kill_digits args' (i32 (i32 (id * 10) + (c - 48))) (i + 1)
      else (id, i)
  | [] => (id, i)
  end.

Definition cmd_kill (args : cstr) k : option (kernel A) :=
  let args := skip_space args in
  if znth args 0 =? 0 then print (str "usage: kill <id>  (see 'top' for ids)" ++ nl) k
  else
    let '(id, i) := kill_digits args 0 0 in
    if i =? 0 then print (str "usage: kill <id>  (see 'top' for ids)" ++ nl) k
    else
      match task_kill id (k_sched k) with
      | None => None
      | Some (result, s) =>
          let k := set_sched s k in
          if result <? 0 then print (str "kill failed" ++ nl) k
          else (print (str "Killed task ") ;> print_uint (u32 id) ;> print nl) k
      end.

(** One round of the loop of [counter_task]: the new [last_beat]. *)
Definition counter_round (now last_beat : Z) : Z :=
  let last_beat := if last_beat =? 0xFFFFFFFF then now else last_beat in
  if 5 <=? u32 (now - last_beat) then now else last_beat.

(** *** The system *)

Definition cmd_help : kernel A → option (kernel A) :=
  print (str "Available commands:" ++ nl) ;>
  print (str " help             - show this list" ++ nl) ;>
  print (str " clear            - clear the screen" ++ nl) ;>
  print (str " echo             - print text back, e.g. echo hello" ++ nl) ;>
  print (str " info             - OS and system information" ++ nl) ;>
  print (str " meminfo          - show heap usage" ++ nl) ;>
  print (str " reboot           - restart" ++ nl) ;>
  print (str " uptime           - show system uptime in seconds" ++ nl) ;>
  print (str " history          - show recent commands" ++ nl) ;>
  print (str " top              - show running tasks" ++ nl) ;>
  print (str " kill <id>        - stop a task (see 'top' for ids)" ++ nl).

Definition cmd_echo (args : cstr) : kernel A → option (kernel A) :=
  let args := skip_space args in
  print args ;> print nl.

Definition cmd_meminfo k : option (kernel A) :=
  match al_stats (alloc (k_sched k)) with
  | None => None
  | Some (total, used, free_bytes) =>
      (print (str "Heap total: ") ;> print_uint total ;> print (str " bytes" ++ nl) ;>
       print (str "Heap used:  ") ;> print_uint used ;> print (str " bytes" ++ nl) ;>
       print (str "Heap free:  ") ;> print_uint free_bytes ;> print (str " bytes" ++ nl)) k
  end.

Definition debug : kernel A → option (kernel A) :=
  print (str "Debug info:" ++ nl) ;> print system_version ;> print nl ;> cmd_meminfo ;>
  print (str "Uptime: ") ;> print_seconds ;> print (str " seconds" ++ nl) ;>
  λ k, print (mmap_dump (k_mmap k)) k.

Definition cmd_info : kernel A → option (kernel A) :=
  print system_version ;> print nl ;> print (str "Uptime: ") ;> print_seconds ;>
  print (str " seconds" ++ nl) ;> cmd_meminfo.

(** *** History *)

(** [str_copy_local(history[i], history[i + 1], LINE_BUF_SIZE)]; [n] rounds
    are left, from [i]. *)
Fixpoint history_shift (n : nat) (i : Z) (h : list cstr) : list cstr :=
  match n with
  | O => h
  | S n' =>
      history_shift n' (i + 1)
        (zset h i (str_copy_local (nth (Z.to_nat (i + 1)) h []) LINE_BUF_SIZE))
  end.

Definition history_add (line : cstr) k : kernel A :=
  if znth line 0 =? 0 then k
  else
    let h := history_shift (Z.to_nat (HISTORY_SIZE - 1)) 0 (history k) in
    let h := zset h (HISTORY_SIZE - 1) (str_copy_local line LINE_BUF_SIZE) in
    set_history h
      (if history_count k <? HISTORY_SIZE then history_count k + 1 else history_count k) k.

Fixpoint history_loop (n : nat) (i : Z) k : option (kernel A) :=
  match n with
  | O => Some k
  | S n' =>
      (print (str "  ") ;> print (nth (Z.to_nat i) (history k) []) ;> print nl ;>
       history_loop n' (i + 1)) k
  end.

Definition cmd_history k : option (kernel A) :=
  let start := HISTORY_SIZE - history_count k in
  history_loop (Z.to_nat (HISTORY_SIZE - start)) start k.

(** ** Dispatch *)

(** A command returns to the shell, or the machine restarts. *)
Inductive outcome :=
| Running (k : kernel A)
| Restarted (k : kernel A).

Definition returns (f : kernel A → option (kernel A)) k : option outcome := Running <$> f k.

(** [while (good & 0x02) good = inb(0x64);] on the bytes the status port will
    deliver: those left after the loop. *)
Fixpoint reboot_wait (good : Z) (status : list Z) : option (list Z) :=
  if negb (Z.land good 0x02 =? 0) then
    match status with
    | [] => None
    | v :: status' => reboot_wait v status'
    end
  else Some status.

(** The reset pulse; what follows it in the code resets the processor too. *)
Definition reboot k : option outcome :=
  match reboot_wait 0x02 (k_status k) with
  | None => None
  | Some status =>
      Some (Restarted (set_console (outb 0x64 0xFE (k_console k)) (set_status status k)))
  end.

Definition shutdown k : option (kernel A) := Some k.

Definition clear_screen k : option (kernel A) :=
  Some (set_console (vga_enable_cursor (vga_clear (k_console k))) k).

(** [line[i] == w[0] && line[i+1] == w[1] && ... ], then a space or the end. *)
Fixpoint word_at (w : cstr) (i : Z) (line : cstr) : bool :=
  match w with
  | [] => (znth line i =? 32) || (znth line i =? 0)
  | c :: w' => (znth line i =? c) && word_at w' (i + 1) line
  end.

Definition run_command (line : cstr) k : option outcome :=
  if znth line 0 =? 0 then Some (Running k)
  else
    let k := history_add line k in
    if str_eq line (str "help") then returns cmd_help k
    else if str_eq line (str "clear") then returns clear_screen k
    else if word_at (str "echo") 0 line then returns (cmd_echo (zdrop 4 line)) k
    else if str_eq line (str "info") then returns cmd_info k
    else if str_eq line (str "meminfo") then returns cmd_meminfo k
    else if str_eq line (str "reboot") then reboot k
    else if str_eq line (str "shutdown") then returns shutdown k
    else if str_eq line (str "uptime") then returns cmd_uptime k
    else if str_eq line (str "debug") then returns debug k
    else if str_eq line (str "ls") then returns cmd_ls k
    else if word_at (str "write") 0 line then returns (cmd_write (zdrop 5 line)) k
    else if word_at (str "cat") 0 line then returns (cmd_cat (zdrop 3 line)) k
    else if word_at (str "delete") 0 line then returns (cmd_delete (zdrop 6 line)) k
    else if word_at (str "append") 0 line then returns (cmd_append (zdrop 6 line)) k
    else if str_eq line (str "top") then returns cmd_top k
    else if str_eq line (str "spawn") then returns cmd_spawn k
    else if word_at (str "kill") 0 line then returns (cmd_kill (zdrop 4 line)) k
    else if word_at (str "stat") 0 line then returns (cmd_stat (zdrop 4 line)) k
    else if word_at (str "mv") 0 line then returns (cmd_mv (zdrop 2 line)) k
    else if word_at (str "mkdir") 0 line then returns (cmd_mkdir (zdrop 5 line)) k
    else if word_at (str "rmdir") 0 line then returns (cmd_rmdir (zdrop 5 line)) k
    else if str_eq line (str "df") then returns cmd_df k
    else if word_at (str "cd") 0 line then returns (cmd_cd (zdrop 2 line)) k
    else if str_eq line (str "pwd") then returns cmd_pwd k
    else if str_eq line (str "history") then returns cmd_history k
    else returns (print (str "Unknown command: ") ;> print line ;> print nl) k.

(** ** The loop of [shell_run] *)

(** The line buffer and the number of characters in it. *)
Record editor := mk_editor { ed_line : list Z; ed_pos : Z }.

(** The body of the loop for the character [c] that [keyboard_getchar]
    returned. *)
Definition shell_key (c : Z) (e : editor) k : option (editor * outcome) :=
  if c =? 10 then
    match print nl k with
    | None => None
    | Some k =>
        match zstore (ed_line e) (ed_pos e) 0 with
        | None => None
        | Some line =>
            match run_command (printed line) k with
            | None => None
            | Some (Restarted k) => Some (mk_editor line (ed_pos e), Restarted k)
            | Some (Running k) =>
                match print (str "> ") k with
                | None => None
                | Some k => Some (mk_editor line 0, Running k)
                end
            end
        end
    end
  else if c =? 8 then
    if 0 <? ed_pos e then
      match print [8] k with
      | None => None
      | Some k => Some (mk_editor (ed_line e) (ed_pos e - 1), Running k)
      end
    else Some (e, Running k)
  else if ed_pos e <? LINE_BUF_SIZE - 1 then
    match zstore (ed_line e) (ed_pos e) c with
    | None => None
    | Some line =>
        match print [c] k with
        | None => None
        | Some k => Some (mk_editor line (ed_pos e + 1), Running k)
        end
    end
  else Some (e, Running k).

(** Before the loop: the buffer, at the address [kmalloc] returns, holds
    whatever was in memory. *)
Definition shell_start (memory : list Z) k : option (Z * editor * kernel A) :=
  match al_malloc (alloc (k_sched k)) LINE_BUF_SIZE with
  | None => None
  | Some (line, a) =>
      let s := k_sched k in
      let s := mk_sched (tasks s) (current_task s) (task_count s) a (words s) in
      match print (str "> ") (set_sched s k) with
      | None => None
      | Some k => Some (line, mk_editor memory 0, k)
      end
  end.

(** One round of the loop; [inl] while [keyboard_getchar] waits. *)
Definition shell_round (e : editor) k : option (unit + (editor * outcome)) :=
  match keyboard_getchar (k_kbd k) with
  | None => Some (inl tt)
  | Some (c, b) => inr <$> shell_key c e (set_kbd b k)
  end.
End commands.
Arguments outcome : clear implicits.
