(* ===== verification/ShellSafe.v ===== *)
(** * The shell always returns, and keeps the kernel's invariant.

    [kernel_ok] puts the invariants of the components together; every command
    of Shell.v is total on it and preserves it. *)
From S2P Require Import Prelude Console Keyboard Allocator Heap Task Sched Interrupts.
From S2P Require Import FsLayout Disk Dirent Fat Directory Path Fs FsData Tree FsReach Shell.

(** A line the keyboard can have typed: it fits into the line buffer. *)
Definition line_ok (line : cstr) : Prop := ascii_path line ∧ zlen line ≤ LINE_BUF_SIZE - 1.

(** [R] are the heap blocks that are no stacks, [n] the spawns entered so far:
    behind the tasks "kernel" and "shell" the first six have filled the table,
    and no slot is ever reused. *)
Record kernel_ok `{Allocator A} (R : list (Z * Z)) (n : Z) (k : kernel A) : Prop := {
  kk_fs : fs_ok (k_fs k);
  kk_sched : ∃ am, sched_ok R (k_sched k) am;
  kk_console : console_ok (k_console k);
  kk_ticks : is_u32 (ticks (k_timer k));
  kk_frequency : is_u32 (tick_frequency (k_timer k)) ∧ tick_frequency (k_timer k) ≠ 0;
  kk_kbd : kbd_ok (k_kbd k);
  kk_keys : ascii_path (queue (k_kbd k));
  kk_status : Exists (λ v, Z.land v 0x02 = 0) (k_status k);
  kk_history : length (history k) = 16%nat ∧ Forall line_ok (history k);
  kk_count : 0 ≤ history_count k ≤ HISTORY_SIZE;
  kk_spawn : spawn_count k = n ∧ 0 ≤ n;
  kk_slots : task_count (k_sched k) = 2 + Z.min n 6;
  kk_cat : zlen (cat_buf k) = 4096
}.

(** ** Strings *)

Lemma ascii_u8 s : ascii_path s → Forall is_u8 s.
Proof. intros Hs. eapply Forall_impl; [exact Hs |]. intros c Hc. cbn in Hc. unfold is_u8. lia. Qed.

Lemma ascii_head s : ascii_path s → znth s 0 = 0 → s = [].
Proof. intros [|c s' Hc Hs'] Hz; [done |]. cbn in Hc, Hz. change (c = 0) in Hz. lia. Qed.

Lemma str_eq_spec a b : is_cstr a → is_cstr b → str_eq a b = true ↔ a = b.
Proof.
  unfold str_eq. intros Ha Hb. revert b Hb.
  induction Ha as [|x a Hx Ha IH]; intros b Hb; destruct Hb as [|y b Hy Hb]; cbn [str_eq_local].
  - done.
  - split; [| done]. intros ?%Z.eqb_eq. lia.
  - split; [| done]. intros ?%Z.eqb_eq. lia.
  - destruct (Z.eqb_spec x 0), (Z.eqb_spec y 0); [lia.. |]. cbn [negb andb].
    destruct (Z.eqb_spec x y) as [->|Hne]; cbn [negb]; [| by split; [| intros [= ??]]].
    rewrite (IH b Hb). split; [by intros -> | by intros [= ->]].
Qed.

Lemma ascii_drop i s : ascii_path s → ascii_path (zdrop i s).
Proof. apply Forall_drop. Qed.

Lemma ascii_skip_space s : ascii_path s → ascii_path (skip_space s).
Proof. intros [|c s' Hc Hs']; cbn; [constructor |]. destruct (c =? 32); [done | by constructor]. Qed.

Lemma ascii_take_word s i : ascii_path s → ascii_path (take_word s i).
Proof.
  intros Hs. revert i. induction Hs as [|c s Hc Hs IH]; intros i; cbn; [constructor |].
  destruct (_ && _); constructor; [done | apply IH].
Qed.

Lemma zlen_drop_le {A} i (s : list A) : zlen (zdrop i s) ≤ zlen s.
Proof. unfold zlen, zdrop. rewrite length_drop. lia. Qed.

Lemma skip_space_le s : zlen (skip_space s) ≤ zlen s.
Proof. destruct s as [|c s]; cbn [skip_space]; [done |]. destruct (c =? 32); unfold zlen; cbn [length]; lia. Qed.

Lemma line_nil : line_ok [].
Proof. split; [constructor | by vm_compute]. Qed.

Lemma line_drop i s : line_ok s → line_ok (zdrop i s).
Proof. intros [Ha Hl]. split; [by apply ascii_drop |]. pose proof (zlen_drop_le i s). lia. Qed.

Lemma line_skip_space s : line_ok s → line_ok (skip_space s).
Proof. intros [Ha Hl]. split; [by apply ascii_skip_space |]. pose proof (skip_space_le s). lia. Qed.

Lemma str_copy_loop_small s i n : ascii_path s → 0 ≤ i → i + zlen s < n → str_copy_loop s i n = s.
Proof.
  intros Hs. revert i. induction Hs as [|c s Hc Hs IH]; intros i Hi Hn; cbn [str_copy_loop]; [done |].
  unfold zlen in Hn. cbn [length] in Hn. destruct (Z.eqb_spec c 0); [lia |].
  destruct (Z.ltb_spec i (n - 1)); [| lia]. cbn [negb andb]. f_equal. apply IH; unfold zlen; lia.
Qed.

(** A line is kept whole by the history. *)
Lemma str_copy_line s : line_ok s → str_copy_local s LINE_BUF_SIZE = s.
Proof.
  intros [Ha Hl]. unfold LINE_BUF_SIZE in *. apply str_copy_loop_small; [done | lia | lia].
Qed.

#[export] Hint Resolve ascii_drop ascii_skip_space ascii_take_word line_drop line_skip_space
  ascii_cstr ascii_u8 : rink.

(** ** Changes of one component *)

Section changes.
Context `{Allocator A} (R : list (Z * Z)) (n : Z).
Implicit Types k : kernel A.

Lemma set_console_ok x k : console_ok x → kernel_ok R n k → kernel_ok R n (set_console x k).
Proof. intros Hx []. by constructor. Qed.

Lemma set_fs_ok x k : fs_ok x → kernel_ok R n k → kernel_ok R n (set_fs x k).
Proof. intros Hx []. by constructor. Qed.

Lemma set_sched_ok x am k :
  sched_ok R x am → task_count x = task_count (k_sched k) → kernel_ok R n k →
  kernel_ok R n (set_sched x k).
Proof. intros Hx Hc []. constructor; try done; [by exists am | by cbn; rewrite Hc]. Qed.

Lemma set_cat_ok x k : zlen x = 4096 → kernel_ok R n k → kernel_ok R n (set_cat x k).
Proof. intros Hx []. by constructor. Qed.

(** A spawn: it is counted, and the task table may grow. *)
Lemma set_spawn_ok x am m k :
  sched_ok R x am → 0 ≤ m → task_count x = 2 + Z.min m 6 → kernel_ok R n k →
  kernel_ok R m (set_sched x (set_spawn m k)).
Proof. intros Hx Hm Hc []. constructor; try done. by exists am. Qed.

Lemma set_history_ok h m k :
  length h = 16%nat → Forall line_ok h → 0 ≤ m ≤ HISTORY_SIZE →
  kernel_ok R n k → kernel_ok R n (set_history h m k).
Proof. intros Hh Hl Hm []. by constructor. Qed.

Lemma set_kbd_ok x k :
  kbd_ok x → ascii_path (queue x) → kernel_ok R n k → kernel_ok R n (set_kbd x k).
Proof. intros Hx Hq []. by constructor. Qed.

Lemma set_timer_ok x k :
  is_u32 (ticks x) → is_u32 (tick_frequency x) → tick_frequency x ≠ 0 →
  kernel_ok R n k → kernel_ok R n (set_timer x k).
Proof. intros Ht Hf Hne []. by constructor. Qed.

(** ** Printing *)

Lemma print_ok s : keeps (kernel_ok R n) (print s).
Proof.
  intros k Hk. eexists. split; [done |].
  apply set_console_ok; [| done]. by apply kprint_ok, (kk_console R n).
Qed.
#[local] Hint Resolve print_ok : rink.

Lemma print_uint_ok val : is_u32 val → keeps (kernel_ok R n) (print_uint val).
Proof.
  intros Hv k Hk. unfold print_uint. destruct (kprint_uint_total val Hv) as (ds & ->).
  by apply print_ok.
Qed.

Lemma print_seconds_ok : keeps (kernel_ok R n) print_seconds.
Proof.
  intros k Hk. unfold print_seconds, timer_get_seconds.
  pose proof (kk_ticks _ _ _ Hk) as Ht. destruct (kk_frequency _ _ _ Hk) as [Hf Hne].
  destruct (Z.eqb_spec (tick_frequency (k_timer k)) 0); [done |].
  apply print_uint_ok; [| done]. unfold is_u32 in *.
  split; [apply Z.div_pos; lia | apply Z.div_lt_upper_bound; [lia | nia]].
Qed.
#[local] Hint Resolve print_uint_ok print_seconds_ok : rink.

(** ** Commands that only look *)

Lemma cmd_help_ok : keeps (kernel_ok R n) cmd_help.
Proof. unfold cmd_help. auto 20 with rink. Qed.

Lemma cmd_echo_ok args : keeps (kernel_ok R n) (cmd_echo args).
Proof. unfold cmd_echo. auto with rink. Qed.

Lemma cmd_uptime_ok : keeps (kernel_ok R n) cmd_uptime.
Proof. unfold cmd_uptime. auto with rink. Qed.

Lemma cmd_meminfo_ok : keeps (kernel_ok R n) cmd_meminfo.
Proof.
  intros k Hk. destruct (kk_sched _ _ _ Hk) as (am & Hs). destruct (so_live _ _ _ Hs) as (L & HL & _).
  destruct (al_stats_spec _ _ HL) as (used & free & Hst & Hu & Hf & Hb).
  unfold cmd_meminfo. rewrite Hst. revert Hk. generalize k.
  change (keeps (kernel_ok R n) (print (str "Heap total: ") ;> print_uint (used + free) ;>
    print (str " bytes" ++ nl) ;> print (str "Heap used:  ") ;> print_uint used ;>
    print (str " bytes" ++ nl) ;> print (str "Heap free:  ") ;> print_uint free ;>
    print (str " bytes" ++ nl))).
  repeat apply keeps_andthen; try apply print_ok; apply print_uint_ok; unfold is_u32; lia.
Qed.
#[local] Hint Resolve cmd_meminfo_ok : rink.

Lemma cmd_info_ok : keeps (kernel_ok R n) cmd_info.
Proof. unfold cmd_info. auto 10 with rink. Qed.

Lemma debug_ok : keeps (kernel_ok R n) debug.
Proof.
  unfold debug. repeat apply keeps_andthen; auto with rink. intros k Hk. by apply print_ok.
Qed.

Lemma cmd_pwd_ok : keeps (kernel_ok R n) cmd_pwd.
Proof. intros k Hk. unfold cmd_pwd. eapply keeps_andthen; [..| exact Hk]; auto with rink. Qed.

Lemma cmd_ls_ok : keeps (kernel_ok R n) cmd_ls.
Proof.
  intros k Hk. unfold cmd_ls. revert k Hk. intros k.
  generalize (fs_getcwd (k_fs k) FS_NAME_LEN). intros cwd. revert k.
  repeat apply keeps_andthen; auto with rink. intros k Hk.
  destruct (fs_list_total _ (kk_fs _ _ _ Hk)) as [text ->]. by apply print_ok.
Qed.

Lemma cmd_df_ok : keeps (kernel_ok R n) cmd_df.
Proof.
  intros k Hk. destruct (fs_debug_stats_total _ (kk_fs _ _ _ Hk)) as (used & free & Hst & Hu & Hf).
  unfold cmd_df. rewrite Hst. clear Hst. revert k Hk. unfold_layout.
  repeat apply keeps_andthen; try apply print_ok; apply print_uint_ok; unfold is_u32;
    Z.to_euclidean_division_equations; lia.
Qed.

Lemma cmd_stat_ok args : ascii_path args → keeps (kernel_ok R n) (cmd_stat args).
Proof.
  intros Ha k Hk. unfold cmd_stat. destruct (znth _ 0 =? 0); [by apply print_ok |].
  destruct (fs_stat_total _ (kk_fs _ _ _ Hk) (skip_space args)) as (rc & size & -> & Hs);
    [auto with rink |].
  destruct (rc <? 0); eapply keeps_andthen; try exact Hk; auto with rink.
Qed.

Lemma print_tasks_ok : keeps (kernel_ok R n) (λ k, match task_list (k_sched k) with
  | None => None | Some text => print text k end).
Proof.
  intros k Hk. unfold task_list.
  assert (∀ ts m i cur, ∃ text, list_tasks ts m i cur = Some text) as Hl.
  { induction ts as [|t ts IH]; intros [|m] i cur; cbn [list_tasks]; try by eexists.
    destruct (IH m (i + 1) cur) as [rest ->]. unfold task_line.
    destruct (kprint_uint_total (u32 i) (is_u32_u32 i)) as (ds & ->).
    destruct (negb (used t)); by eexists. }
  destruct (Hl (tasks (k_sched k)) (Z.to_nat (task_count (k_sched k))) 0 (current_task (k_sched k)))
    as [text ->]. by apply print_ok.
Qed.

Lemma cmd_top_ok : keeps (kernel_ok R n) cmd_top.
Proof. unfold cmd_top. pose proof print_tasks_ok. auto with rink. Qed.

Lemma clear_screen_ok : keeps (kernel_ok R n) clear_screen.
Proof.
  intros k Hk. eexists. split; [done |]. apply set_console_ok; [| done].
  apply vga_enable_cursor_ok, vga_clear_ok, (co_len _ (kk_console _ _ _ Hk)).
Qed.
#[local] Hint Resolve cmd_help_ok cmd_echo_ok cmd_uptime_ok cmd_info_ok debug_ok cmd_pwd_ok
  cmd_ls_ok cmd_df_ok cmd_stat_ok cmd_top_ok clear_screen_ok : rink.

(** ** Commands on the file system *)

(** A command that prints one of two texts after an operation. *)
Lemma op_branch o r (f g : kernel A → option (kernel A)) k :
  kernel_ok R n k → op_ok o → r = run_op o (k_fs k) →
  keeps (kernel_ok R n) f → keeps (kernel_ok R n) g →
  ∃ k', match r with
        | None => None
        | Some (result, s) => if result <? 0 then f (set_fs s k) else g (set_fs s k)
        end = Some k' ∧ kernel_ok R n k'.
Proof.
  intros Hk Ho -> Hf Hg.
  destruct (run_op_preserves o _ Ho (kk_fs _ _ _ Hk)) as (rc & s & -> & _ & Hs).
  destruct (rc <? 0); [apply Hf | apply Hg]; by apply set_fs_ok.
Qed.

Ltac fs_command o :=
  intros k Hk; cbv zeta;
  lazymatch goal with |- context [if ?b then print ?u k else _] => destruct b end;
  [by apply print_ok | apply (op_branch o _ _ _ k); [done | | reflexivity | |]];
  auto 10 with rink.

Lemma cmd_rmdir_ok args : ascii_path args → keeps (kernel_ok R n) (cmd_rmdir args).
Proof. intros Ha. unfold cmd_rmdir. fs_command (OpRmdir (skip_space args)). by apply ascii_skip_space. Qed.

Lemma cmd_mkdir_ok args : ascii_path args → keeps (kernel_ok R n) (cmd_mkdir args).
Proof. intros Ha. unfold cmd_mkdir. fs_command (OpMkdir (skip_space args)). by apply ascii_skip_space. Qed.

Lemma cmd_cd_ok args : ascii_path args → keeps (kernel_ok R n) (cmd_cd args).
Proof. intros Ha. unfold cmd_cd. fs_command (OpChdir (skip_space args)). by apply ascii_skip_space. Qed.

Lemma cmd_delete_ok args : ascii_path args → keeps (kernel_ok R n) (cmd_delete args).
Proof. intros Ha. unfold cmd_delete. fs_command (OpDelete (skip_space args)). by apply ascii_skip_space. Qed.

Lemma cmd_mv_ok args : ascii_path args → keeps (kernel_ok R n) (cmd_mv args).
Proof.
  intros Ha. unfold cmd_mv.
  fs_command (OpRename (take_word (skip_space args) 0)
    (skip_space (zdrop (zlen (take_word (skip_space args) 0)) (skip_space args)))).
  cbn [op_ok]. auto with rink.
Qed.

(** The text that [write] and [append] store. *)
Definition content_of (args : cstr) : cstr :=
  skip_space (zdrop (zlen (take_word (skip_space args) 0)) (skip_space args)).

Lemma content_ok args :
  line_ok args →
  Forall is_u8 (content_of args) ∧ strlen (content_of args) = zlen (content_of args) ∧
  u32 (zlen (content_of args)) = zlen (content_of args) ∧ 0 ≤ zlen (content_of args) ≤ 257.
Proof.
  intros Hl. assert (line_ok (content_of args)) as [Ha Hlen] by (unfold content_of; auto with rink).
  unfold LINE_BUF_SIZE in Hlen. assert (0 ≤ zlen (content_of args)) by (unfold zlen; lia).
  split_and!; [auto with rink | apply strlen_cstr; auto with rink | | lia | lia].
  apply u32_small. unfold is_u32. lia.
Qed.

Lemma cmd_write_ok args : line_ok args → keeps (kernel_ok R n) (cmd_write args).
Proof.
  intros Hl. pose proof (content_ok args Hl) as (Hu & Hs & Hn & Hb). destruct Hl as [Ha _].
  unfold cmd_write. fold (content_of args). cbv zeta. rewrite Hs, Hn.
  fs_command (OpWrite (take_word (skip_space args) 0) (content_of args) (zlen (content_of args))).
  - cbn [op_ok]. split_and!; auto with rink; lia.
  - repeat apply keeps_andthen; try apply print_ok. apply print_uint_ok. unfold is_u32. lia.
Qed.

Lemma cmd_append_ok args : line_ok args → keeps (kernel_ok R n) (cmd_append args).
Proof.
  intros Hl. pose proof (content_ok args Hl) as (Hu & Hs & Hn & Hb). destruct Hl as [Ha _].
  unfold cmd_append. fold (content_of args). cbv zeta. rewrite Hs, Hn.
  fs_command (OpAppend (take_word (skip_space args) 0) (content_of args) (zlen (content_of args))).
  - cbn [op_ok]. unfold is_u32. split_and!; auto with rink; lia.
  - repeat apply keeps_andthen; try apply print_ok. apply print_uint_ok. unfold is_u32. lia.
Qed.

Lemma cmd_cat_ok args : ascii_path args → keeps (kernel_ok R n) (cmd_cat args).
Proof.
  intros Ha k Hk. unfold cmd_cat. destruct (znth _ 0 =? 0); [by apply print_ok |].
  destruct (fs_read_total _ (kk_fs _ _ _ Hk) (skip_space args) (4096 - 1))
    as (rc & out & -> & _ & Hlen); [auto with rink | lia |].
  pose proof (kk_cat _ _ _ Hk) as Hc. assert (0 ≤ zlen out) by (unfold zlen; lia).
  rewrite copy_bytes_in, zstore_in by (rewrite ?length_put_bytes; lia).
  destruct (rc <? 0); (eapply keeps_andthen; [auto with rink.. |]);
    (apply set_cat_ok; [by rewrite ?zlen_zset, length_put_bytes | done]).
Qed.
#[local] Hint Resolve cmd_rmdir_ok cmd_mkdir_ok cmd_cd_ok cmd_delete_ok cmd_mv_ok cmd_write_ok
  cmd_append_ok cmd_cat_ok : rink.

(** ** Killing tasks *)

Lemma cmd_kill_ok args : keeps (kernel_ok R n) (cmd_kill args).
Proof.
  intros k Hk. unfold cmd_kill. destruct (znth _ 0 =? 0); [by apply print_ok |].
  destruct (kill_digits _ 0 0) as [id i]. destruct (i =? 0); [by apply print_ok |].
  destruct (kk_sched _ _ _ Hk) as (am & Hs). pose proof (kill_ok _ _ _ id Hs) as Hkill.
  assert (∃ rc s am', task_kill id (k_sched k) = Some (rc, s) ∧ sched_ok R s am' ∧
    task_count s = task_count (k_sched k)) as (rc & s & am' & -> & Hs' & Hc).
  { destruct (kill_refused id (k_sched k)).
    - by exists (-1), (k_sched k), am.
    - destruct Hkill as (s & Hr & _ & Hs'). exists 0, s, (am_kill id am). split_and!; [done.. |].
      rewrite <- (so_am_count _ _ _ Hs'). apply (so_am_count _ _ _ Hs). }
  assert (kernel_ok R n (set_sched s k)) as Hk' by (by apply (set_sched_ok s am')).
  destruct (rc <? 0); [by apply print_ok |]. eapply keeps_andthen; [..| exact Hk']; auto with rink.
Qed.

(** ** History *)

Lemma history_shift_ok m i h :
  length h = 16%nat → Forall line_ok h →
  length (history_shift m i h) = 16%nat ∧ Forall line_ok (history_shift m i h).
Proof.
  revert i h. induction m as [|m IH]; intros i h Hl Hh; cbn [history_shift]; [done |].
  apply IH; [by rewrite length_zset |]. apply Forall_insert; [done |].
  assert (line_ok (nth (Z.to_nat (i + 1)) h [])) as Hn.
  { destruct (nth_in_or_default (Z.to_nat (i + 1)) h []) as [Hin | ->]; [| apply line_nil].
    rewrite Forall_forall in Hh. by apply Hh, list_elem_of_In. }
  by rewrite str_copy_line.
Qed.

Lemma history_add_ok line k : line_ok line → kernel_ok R n k → kernel_ok R n (history_add line k).
Proof.
  intros Hl Hk. unfold history_add. destruct (znth line 0 =? 0); [done |].
  destruct (kk_history _ _ _ Hk) as [Hlen Hh]. pose proof (kk_count _ _ _ Hk).
  destruct (history_shift_ok (Z.to_nat (HISTORY_SIZE - 1)) 0 (history k) Hlen Hh) as [Hlen' Hh'].
  apply set_history_ok; [by rewrite length_zset | | zify_bool | done].
  apply Forall_insert; [done |]. by rewrite str_copy_line.
Qed.

Lemma history_loop_ok m i : keeps (kernel_ok R n) (history_loop m i).
Proof.
  revert i. induction m as [|m IH]; intros i; cbn [history_loop]; [apply keeps_some |].
  intros k Hk. eapply keeps_andthen; [..| exact Hk]; auto with rink.
Qed.

Lemma cmd_history_ok : keeps (kernel_ok R n) cmd_history.
Proof. intros k Hk. by apply history_loop_ok. Qed.

Lemma shutdown_ok : keeps (kernel_ok R n) shutdown.
Proof. apply keeps_some. Qed.
End changes.

#[export] Hint Resolve print_ok cmd_help_ok cmd_echo_ok cmd_uptime_ok cmd_meminfo_ok cmd_info_ok
  debug_ok cmd_pwd_ok cmd_ls_ok cmd_df_ok cmd_stat_ok cmd_top_ok clear_screen_ok cmd_rmdir_ok
  cmd_mkdir_ok cmd_cd_ok cmd_delete_ok cmd_mv_ok cmd_write_ok cmd_append_ok cmd_cat_ok
  cmd_kill_ok cmd_history_ok shutdown_ok : rink.

(** ** Numbering spawned tasks *)

Lemma digit_loop_spec p fuel v di digits :
  0 ≤ v < 10 ^ Z.of_nat p → (p < fuel)%nat → 0 ≤ di → di + Z.of_nat p ≤ 8 → zlen digits = 8 →
  ∃ ds digits', digit_loop fuel v di digits = Some (di + zlen ds, digits') ∧
    ztake (di + zlen ds) digits' = ztake di digits ++ ds ∧ (length ds ≤ p)%nat ∧
    zlen digits' = 8 ∧ parse_dec (rev ds) = v ∧ Forall is_digit ds.
Proof.
  revert fuel v di digits. induction p as [|p IH]; intros [|fuel] v di digits Hv Hf Hdi Hp Hl;
    try lia; cbn [digit_loop].
  - change (10 ^ Z.of_nat 0) with 1 in Hv. assert (v = 0) as -> by lia.
    exists [], digits. change (zlen (@nil Z)) with 0. rewrite !Z.add_0_r, app_nil_r. split_and!; done || constructor.
  - destruct (Z.ltb_spec 0 v) as [Hpos|].
    2:{ assert (v = 0) as -> by lia. exists [], digits. change (zlen (@nil Z)) with 0.
        rewrite !Z.add_0_r, app_nil_r. split_and!; try done; try constructor; cbn; lia. }
    rewrite zstore_in by lia.
    rewrite Nat2Z.inj_succ, Z.pow_succ_r in Hv by lia.
    pose proof (Z.mod_pos_bound v 10 ltac:(lia)) as Hm. pose proof (Z.div_mod v 10 ltac:(lia)) as Hdm.
    rewrite (u8_small (48 + v mod 10)) by (unfold is_u8; lia).
    destruct (IH fuel (v / 10) (di + 1) (zset digits di (48 + v mod 10)))
      as (ds & digits' & -> & Ht & Hlen & Hl' & Hpd & Hds); [| lia | lia | lia | by rewrite zlen_zset |].
    { split; [apply Z.div_pos; lia | apply Z.div_lt_upper_bound; lia]. }
    exists ((48 + v mod 10) :: ds), digits'.
    assert (zlen ((48 + v mod 10) :: ds) = 1 + zlen ds) as -> by (unfold zlen; cbn [length]; lia).
    rewrite Z.add_assoc. split_and!; [done | | cbn; lia | done | | constructor; [unfold is_digit; lia | done]].
    + rewrite Ht, ztake_zset_snoc by lia. by rewrite <- app_assoc.
    + cbn [rev]. rewrite parse_dec_snoc, Hpd. lia.
Qed.

Lemma name_loop_spec di i digits name :
  0 ≤ i → i + Z.of_nat di ≤ 15 → zlen name = 16 → (di ≤ length digits)%nat →
  ∃ name', name_loop di i digits name = (i + Z.of_nat di, name') ∧ zlen name' = 16 ∧
    ztake (i + Z.of_nat di) name' = ztake i name ++ rev (take di digits).
Proof.
  revert i name. induction di as [|di IH]; intros i name Hi Hd Hl Hlen; cbn [name_loop].
  - exists name. rewrite Z.add_0_r. cbn. by rewrite app_nil_r.
  - destruct (Z.ltb_spec i 15); [| lia].
    destruct (IH (i + 1) (zset name i (znth digits (Z.of_nat di)))) as (name' & -> & Hl' & Ht);
      [lia | lia | by rewrite zlen_zset | lia |].
    exists name'. replace (i + 1 + Z.of_nat di) with (i + Z.of_nat (S di)) in * by lia.
    split_and!; [done | done |]. rewrite Ht, ztake_zset_snoc, <- app_assoc by lia. f_equal.
    erewrite (take_S_r digits di).
    2:{ rewrite <- (Nat2Z.id di) at 1. apply znth_lookup. unfold zlen. lia. }
    by rewrite rev_unit.
Qed.

(** Spawned tasks are named [task1], [task2], ... *)
Lemma spawn_name_spec m :
  0 ≤ m < 100000000 →
  ∃ ds, spawn_name m = Some (str "task" ++ ds) ∧ parse_dec ds = m ∧ Forall is_digit ds ∧
    (length ds ≤ 8)%nat.
Proof.
  intros Hm. unfold spawn_name. destruct (Z.eqb_spec m 0) as [->|Hne].
  { exists [48]. split_and!; [done | done | repeat constructor; lia | cbn; lia]. }
  destruct (digit_loop_spec 8 16 m 0 (replicate 8 0)) as (ds & digits & -> & Ht & Hlen & Hl & Hpd & Hds);
    [done | lia | lia | lia | done |].
  assert (zlen ds = Z.of_nat (length ds)) as Hz by done.
  set (name := put_bytes _ _ _). rewrite Z.add_0_l in *.
  destruct (name_loop_spec (Z.to_nat (zlen ds)) 4 digits name) as (name' & -> & Hl' & Ht');
    [lia | lia | done | unfold zlen in Hl; lia |].
  rewrite zstore_in by (unfold zlen in *; lia). cbn [fmap option_fmap option_map].
  rewrite Hz, Nat2Z.id in *. change (ztake 4 name) with (str "task") in Ht'.
  unfold ztake in Ht at 1. rewrite Nat2Z.id in Ht. change (ztake 0 _) with (@nil Z) in Ht.
  rewrite Ht in Ht'. cbn [app] in Ht'. exists (rev ds). split_and!; [| done | by apply Forall_rev |].
  - f_equal. rewrite <- Ht'. apply printed_ztake; [lia |]. rewrite Ht'. apply Forall_app. split.
    + repeat constructor; lia.
    + apply Forall_rev. eapply Forall_impl; [exact Hds |]. unfold is_digit. lia.
  - by rewrite length_rev.
Qed.

(** ** Running a command *)

Section run.
Context `{Allocator A} (counter_task : Z) (R : list (Z * Z)).
Implicit Types k : kernel A.

(** The heap has a stack for one more task, unless the task table is full:
    [task_create_named] does not check (see [task_create_unchecked]). *)
Definition stack_room k : Prop :=
  task_count (k_sched k) < MAX_TASKS →
  ∀ p a, al_malloc (alloc (k_sched k)) TASK_STACK_SIZE = Some (p, a) → p ≠ NULL.

Lemma spawned_stack k am nm s e x p :
  sched_ok R (k_sched k) am → stack_room k → task_count (k_sched k) < MAX_TASKS →
  task_create_named counter_task nm (k_sched k) = Some (task_count (k_sched k), s) →
  tasks s !! Z.to_nat (task_count (k_sched k)) = Some (mk_task e true x p) → p ≠ NULL.
Proof.
  intros Hok Hroom Hfree Hc Ht. pose proof (so_count _ _ _ Hok).
  specialize (Hroom Hfree). unfold task_create_named in Hc. unfold MAX_TASKS in *.
  destruct (Z.leb_spec 8 (task_count (k_sched k))); [lia |].
  destruct (al_malloc _ _) as [[stack a]|] eqn:Hm; [| done].
  specialize (Hroom stack a eq_refl). destruct (new_stack stack counter_task _) as [sp m].
  injection Hc as <-. cbn [tasks] in Ht.
  rewrite list_lookup_insert_eq in Ht by (rewrite (so_len _ _ _ Hok); lia). by injection Ht as _ _ <-.
Qed.

Lemma name_copy_small s i m : is_cstr s → i + zlen s < m → name_copy i s m = s.
Proof.
  intros Hs. revert i. induction Hs as [|c s Hc Hs IH]; intros i Hi; cbn [name_copy]; [done |].
  unfold zlen in Hi. cbn [length] in Hi. destruct (Z.eqb_spec c 0); [lia |].
  destruct (Z.ltb_spec i (m - 1)); [| lia]. cbn [negb andb]. f_equal. apply IH. unfold zlen. lia.
Qed.

(** The scheduler's state after a spawn: one more task, or the old state. *)
Definition spawned (s s' : sched A) (name : cstr) : Prop :=
  if task_count s <? MAX_TASKS then
    task_count s' = task_count s + 1 ∧
    ∃ t, tasks s' !! Z.to_nat (task_count s) = Some t ∧ used t = true ∧ Task.name t = name ∧
      stack_base t ≠ NULL
  else s' = s.

(** Code that only prints. *)
Definition prints (f : kernel A → option (kernel A)) : Prop :=
  ∀ k, ∃ c, f k = Some (set_console c k).

Lemma prints_print s : prints (print s).
Proof. intros k. by eexists. Qed.

Lemma prints_uint v : is_u32 v → prints (print_uint v).
Proof.
  intros Hv k. unfold print_uint. destruct (kprint_uint_total v Hv) as (ds & ->). by eexists.
Qed.

Lemma prints_andthen f g : prints f → prints g → prints (f ;> g).
Proof.
  intros Hf Hg k. destruct (Hf k) as [c Hc]. destruct (Hg (set_console c k)) as [c2 Hc2].
  exists c2. unfold andthen. by rewrite Hc.
Qed.

Lemma cmd_spawn_spec n k :
  kernel_ok R n k → stack_room k → n < 99999999 →
  ∃ s ds c, let k' := set_console c (set_sched s (set_spawn (n + 1) k)) in
    cmd_spawn counter_task k = Some k' ∧ kernel_ok R (n + 1) k' ∧
    spawned (k_sched k) s (str "task" ++ ds) ∧ parse_dec ds = n + 1 ∧ Forall is_digit ds.
Proof.
  intros Hk Hroom Hn. unfold cmd_spawn. destruct (kk_spawn _ _ _ Hk) as [Hs Hn0].
  cbn [spawn_count set_spawn]. rewrite Hs.
  assert (i32 (n + 1) = n + 1) as -> by (unfold i32; rewrite Z.mod_small; lia).
  destruct (spawn_name_spec (n + 1)) as (ds & -> & Hpd & Hds & Hlen); [lia |].
  change (k_sched (set_spawn (n + 1) k)) with (k_sched k).
  pose proof (kk_slots _ _ _ Hk) as Hslots. destruct (kk_sched _ _ _ Hk) as (am & Hok).
  unfold spawned. destruct (Z.ltb_spec (task_count (k_sched k)) MAX_TASKS) as [Hfree|Hfull].
  - unfold MAX_TASKS in Hfree.
    destruct (create_ok _ _ _ counter_task (str "task" ++ ds) Hok Hfree) as (p & s & Hc & Ht & Hok').
    pose proof (spawned_stack _ _ _ _ _ _ _ Hok Hroom Hfree Hc Ht) as Hp.
    rewrite Hc. destruct (Z.ltb_spec (task_count (k_sched k)) 0); [pose proof (so_count _ _ _ Hok); lia |].
    assert (Hcount : task_count s = task_count (k_sched k) + 1).
    { rewrite <- (so_am_count _ _ _ (Hok' Hp)), <- (so_am_count _ _ _ Hok). done. }
    assert (Hk2 : kernel_ok R (n + 1) (set_sched s (set_spawn (n + 1) k)))
      by (eapply set_spawn_ok; [by apply Hok' | lia | lia | exact Hk]).
    assert (∀ f, prints f → keeps (kernel_ok R (n + 1)) f → ∃ c,
      f (set_sched s (set_spawn (n + 1) k)) = Some (set_console c (set_sched s (set_spawn (n + 1) k))) ∧
      kernel_ok R (n + 1) (set_console c (set_sched s (set_spawn (n + 1) k)))) as Hprint.
    { intros f Hf Hkeep. destruct (Hf (set_sched s (set_spawn (n + 1) k))) as [c Hfc]. exists c.
      split; [done |]. destruct (Hkeep _ Hk2) as (k' & Hk' & ?). congruence. }
    edestruct Hprint as (c & Hcmd & Hk3); [| | exists s, ds, c; split; [exact Hcmd |]].
    { repeat apply prints_andthen; auto using prints_print, prints_uint, is_u32_u32. }
    { repeat apply keeps_andthen; try apply print_ok. apply print_uint_ok, is_u32_u32. }
    split_and!; [exact Hk3 | done | | done | done].
    eexists. split_and!; [exact Ht | done | | exact Hp]. cbn [name]. apply name_copy_small.
    + apply Forall_app. split; [repeat constructor; lia |]. eapply Forall_impl; [exact Hds |].
        unfold is_digit. intros x Hx. cbn in Hx. lia.
    + unfold zlen. rewrite length_app. cbn [length str]. lia.
  - unfold task_create_named. apply Z.leb_le in Hfull as Hfullb. rewrite Hfullb.
    change (-1 <? 0) with true. unfold MAX_TASKS in *.
    do 3 eexists. split_and!; [reflexivity | | done | done | done].
    apply set_console_ok; [apply kprint_ok, (kk_console _ _ _ Hk) |].
    eapply set_spawn_ok; [exact Hok | lia | lia | exact Hk].
Qed.

(** The counter has no more than eight digits' room. *)
Lemma cmd_spawn_overflow k : spawn_count k = 99999999 → cmd_spawn counter_task k = None.
Proof. intros Hs. unfold cmd_spawn. cbn [spawn_count set_spawn]. rewrite Hs. reflexivity. Qed.

Lemma reboot_wait_total status :
  Exists (λ v, Z.land v 0x02 = 0) status → ∀ good, is_Some (reboot_wait good status).
Proof.
  induction 1 as [v l Hv|v l _ IH]; intros good; cbn [reboot_wait];
    destruct (negb (Z.land good 2 =? 0)); try by eexists.
  - destruct l; cbn [reboot_wait]; by rewrite Hv.
  - apply IH.
Qed.

(** What a command may end in; only [spawn] is counted. *)
Definition outcome_ok (n : Z) (line : cstr) (o : outcome A) : Prop :=
  match o with
  | Running k => kernel_ok R n k ∨ n < 99999999 ∧ kernel_ok R (n + 1) k
  | Restarted _ => str_eq line (str "reboot") = true
  end.

Lemma returns_ok n line f k :
  kernel_ok R n k → keeps (kernel_ok R n) f →
  ∃ o, returns f k = Some o ∧ outcome_ok n line o.
Proof.
  intros Hk Hf. unfold returns. destruct (Hf k Hk) as (k' & -> & Hk'). eexists. split; [done |].
  by left.
Qed.

Lemma run_command_ok n line k :
  kernel_ok R n k → line_ok line → (line = str "spawn" → stack_room k ∧ n < 99999999) →
  ∃ o, run_command counter_task line k = Some o ∧ outcome_ok n line o.
Proof.
  intros Hk Hl Hspawn. unfold run_command. destruct (znth line 0 =? 0).
  { eexists. split; [done |]. by left. }
  pose proof (history_add_ok R n line k Hl Hk) as Hk1.
  assert (Hspawn1 : line = str "spawn" → stack_room (history_add line k) ∧ n < 99999999).
  { unfold stack_room, history_add in *. by destruct (znth line 0 =? 0). }
  set (k1 := history_add line k) in *. clearbody k1. clear Hk Hspawn.
  assert (∀ i, ascii_path (zdrop i line)) as Ha by (intros i; apply ascii_drop, Hl).
  assert (∀ i, line_ok (zdrop i line)) as Hli by (intros i; by apply line_drop).
  repeat match goal with |- context [if ?b then _ else _] => destruct b eqn:?; [| ] end;
    try solve [apply returns_ok; [done |]; auto 6 with rink].
  - unfold reboot. destruct (reboot_wait_total _ (kk_status _ _ _ Hk1) 2) as [st ->].
    eexists. by split.
  - destruct Hspawn1 as [Hroom Hn].
    { apply str_eq_spec; [apply ascii_cstr, Hl | repeat constructor; lia | done]. }
    destruct (cmd_spawn_spec n k1 Hk1 Hroom Hn) as (s & ds & c & Hs & Hk2 & _). unfold returns.
    rewrite Hs. eexists. split; [done |]. by right.
Qed.

(** ** Editing the line *)

(** The buffer is the block that [shell_run] allocated, and the characters
    typed so far are in front of [ed_pos], which leaves room for the NUL. *)
Record editor_ok (e : editor) : Prop := {
  ek_len : zlen (ed_line e) = LINE_BUF_SIZE;
  ek_pos : 0 ≤ ed_pos e ≤ LINE_BUF_SIZE - 1;
  ek_text : ascii_path (ztake (ed_pos e) (ed_line e))
}.

Lemma editor_line e :
  editor_ok e → printed (zset (ed_line e) (ed_pos e) 0) = ztake (ed_pos e) (ed_line e) ∧
  line_ok (ztake (ed_pos e) (ed_line e)).
Proof.
  intros [Hl Hp Ht]. unfold LINE_BUF_SIZE in *. split.
  - apply printed_ztake; [lia | by apply ascii_cstr].
  - split; [done |]. rewrite length_ztake by lia. unfold LINE_BUF_SIZE. lia.
Qed.

Lemma ascii_ztake_le i j s : 0 ≤ i ≤ j → ascii_path (ztake j s) → ascii_path (ztake i s).
Proof.
  intros Hi Hs. unfold ztake in *. replace (Z.to_nat i) with (Z.to_nat i `min` Z.to_nat j)%nat by lia.
  rewrite <- take_take. by apply Forall_take.
Qed.

(** A restart is the only way a key ends the shell. *)
Lemma shell_key_ok n c e k :
  kernel_ok R n k → editor_ok e → 0 < c < 128 →
  (c = 10 → ztake (ed_pos e) (ed_line e) = str "spawn" → stack_room k ∧ n < 99999999) →
  ∃ e' o, shell_key counter_task c e k = Some (e', o) ∧ editor_ok e' ∧
    match o with
    | Running k' => kernel_ok R n k' ∨ n < 99999999 ∧ kernel_ok R (n + 1) k'
    | Restarted _ => c = 10 ∧ ztake (ed_pos e) (ed_line e) = str "reboot"
    end.
Proof.
  intros Hk He Hc Hspawn. destruct (editor_line e He) as [Hprinted Hline].
  pose proof He as [Hl Hp Ht]. unfold LINE_BUF_SIZE in Hl, Hp. unfold shell_key. destruct (Z.eqb_spec c 10) as [->|H10].
  - cbn [print]. set (k1 := set_console _ k).
    assert (Hk1 : kernel_ok R n k1) by (destruct (print_ok R n nl k Hk) as (? & [= <-] & ?); done).
    rewrite zstore_in, Hprinted by lia.
    destruct (run_command_ok n _ k1 Hk1 Hline (Hspawn eq_refl)) as (o & Hr & Ho). rewrite Hr.
    assert (editor_ok (mk_editor (zset (ed_line e) (ed_pos e) 0) 0)) as He'.
    { split; cbn [ed_line ed_pos]; [by rewrite zlen_zset | unfold LINE_BUF_SIZE; lia | constructor]. }
    destruct o as [k2|k2].
    + eexists _, _. split_and!; [done | done |]. destruct Ho as [Ho|[? Ho]]; [left | right; split; [done |]];
        apply (set_console_ok R _ _ k2); try done; apply kprint_ok, Ho.
    + eexists _, _. split_and!; [done | |].
      * split; cbn [ed_line ed_pos]; [by rewrite zlen_zset | done | by rewrite ztake_zset_ge by lia].
      * split; [done |]. apply str_eq_spec in Ho; [done | apply ascii_cstr, Hline | repeat constructor; lia].
  - destruct (Z.eqb_spec c 8) as [->|H8].
    + destruct (Z.ltb_spec 0 (ed_pos e)); [| by eexists _, _; split_and!; [done | done | left]].
      destruct (print_ok R n [8] k Hk) as (k' & -> & Hk').
      eexists _, _. split_and!; [done | | by left].
      split; unfold LINE_BUF_SIZE; cbn [ed_line ed_pos]; [done | lia |].
      by apply (ascii_ztake_le _ (ed_pos e)); [lia |].
    + destruct (Z.ltb_spec (ed_pos e) (LINE_BUF_SIZE - 1));
        [| by eexists _, _; split_and!; [done | done | left]].
      unfold LINE_BUF_SIZE in *. rewrite zstore_in by lia.
      destruct (print_ok R n [c] k Hk) as (k' & -> & Hk').
      eexists _, _. split_and!; [done | | by left]. split; unfold LINE_BUF_SIZE; cbn [ed_line ed_pos].
      * by rewrite zlen_zset.
      * lia.
      * rewrite ztake_zset_snoc by lia. apply Forall_app. split; [done | by constructor].
Qed.

(** The key that the next round takes enters this line. *)
Definition enters (line : cstr) (e : editor) k : Prop :=
  head (queue (k_kbd k)) = Some 10 ∧ ztake (ed_pos e) (ed_line e) = line.

(** One round of the loop returns, unless it waits for a key. *)
Lemma shell_round_ok n e k :
  kernel_ok R n k → editor_ok e → (enters (str "spawn") e k → stack_room k ∧ n < 99999999) →
  (queue (k_kbd k) = [] ∧ shell_round counter_task e k = Some (inl tt)) ∨
  ∃ e' o, shell_round counter_task e k = Some (inr (e', o)) ∧ editor_ok e' ∧
    match o with
    | Running k' => kernel_ok R n k' ∨ n < 99999999 ∧ kernel_ok R (n + 1) k'
    | Restarted _ => ztake (ed_pos e) (ed_line e) = str "reboot"
    end.
Proof.
  unfold enters. intros Hk He Hspawn. unfold shell_round.
  pose proof (keyboard_getchar_spec _ (kk_kbd _ _ _ Hk)) as Hg. pose proof (kk_keys _ _ _ Hk) as Hq.
  destruct (queue (k_kbd k)) as [|c q]; [by rewrite Hg; left |]. right.
  destruct Hg as (b & -> & Hb & Hbq). apply Forall_cons in Hq as [Hc Hq]. rewrite <- Hbq in Hq.
  assert (kernel_ok R n (set_kbd b k)) as Hk1 by (by apply set_kbd_ok).
  destruct (shell_key_ok n c e _ Hk1 He Hc) as (e' & o & -> & He' & Ho).
  { intros -> Ht. by apply Hspawn. }
  exists e', o. split_and!; [done | done |]. destruct o; tauto.
Qed.

(** The spawn that has no number left does not return. *)
Lemma shell_round_overflow e k :
  kernel_ok R 99999999 k → editor_ok e → enters (str "spawn") e k →
  shell_round counter_task e k = None.
Proof.
  intros Hk He [Hq Ht]. pose proof (keyboard_getchar_spec _ (kk_kbd _ _ _ Hk)) as Hg.
  unfold shell_round. destruct (queue (k_kbd k)) as [|c q]; [done |]. cbn in Hq. injection Hq as ->.
  destruct Hg as (b & -> & _). unfold shell_key. cbn [Z.eqb Pos.eqb print].
  destruct (editor_line e He) as [Hp _]. pose proof He as [Hl Hpos _]. unfold LINE_BUF_SIZE in *.
  rewrite zstore_in, Hp, Ht by lia. set (k1 := set_console _ _).
  assert (run_command counter_task (str "spawn") k1 =
    returns (cmd_spawn counter_task) (history_add (str "spawn") k1)) as -> by reflexivity.
  unfold returns. by rewrite cmd_spawn_overflow by apply (kk_spawn _ _ _ Hk).
Qed.
End run.
