(* ===== verification/System.v ===== *)
(** * The running system: the shell's loop, interleaved in any order with the
    keyboard interrupt, the timer interrupt and the work of other tasks. *)
From S2P Require Import Prelude Console Keyboard Allocator Heap Task Sched Interrupts.
From S2P Require Import FsLayout Disk Dirent Fat Directory Path Fs Tree FsReach Shell ShellSafe.

(** ** Interrupts on the kernel's state *)

(** The bytes a handler sends to ports. *)
Definition out_all (ws : list (Z * Z)) (c : console) : console :=
  fold_left (λ c w, outb w.1 w.2 c) ws c.

Lemma out_all_ok ws c : console_ok c → console_ok (out_all ws c).
Proof.
  revert c. induction ws as [|w ws IH]; intros c Hc; [done |]. apply IH. destruct Hc. by split.
Qed.

Section system.
Context `{Allocator A} (counter_task : Z).
Implicit Types k : kernel A.

(** IRQ 1: [keyboard_handler] with the scancode that port 0x60 delivers. *)
Definition keyboard_irq (scancode : Z) k : kernel A :=
  let '(b, ws) := keyboard_handler scancode (k_kbd k) in
  set_console (out_all ws (k_console k)) (set_kbd b k).

(** IRQ 0: [timer_handler], interrupting a task whose registers at the call of
    [task_switch] are [c]; with the registers after the call, if there is one. *)
Definition timer_irq (c : cpu) k : option (kernel A * option cpu) :=
  match timer_handler (k_timer k) (k_sched k) c with
  | None => None
  | Some (t, ws, s, r) =>
      Some (set_console (out_all ws (k_console k)) (set_sched s (set_timer t k)), r)
  end.

(** ** Steps

    A spawn whose stack could not be allocated is left out, as in Sched.v; no
    other command needs the heap. *)
Inductive sys_step : editor * kernel A → editor * kernel A → Prop :=
| sys_key sc e k : is_u8 sc → sys_step (e, k) (e, keyboard_irq sc k)
| sys_tick c ret r e k k' :
    on_stack (k_sched k) c ret → timer_irq c k = Some (k', r) → sys_step (e, k) (e, k')
| sys_work s e k : works (k_sched k) s → sys_step (e, k) (e, set_sched s k)
| sys_round e k e' k' :
    (enters (str "spawn") e k → stack_room k) →
    shell_round counter_task e k = Some (inr (e', Running k')) →
    sys_step (e, k) (e', k').

(** Any number of steps. *)
Definition sys_run : editor * kernel A → editor * kernel A → Prop := rtc sys_step.

(** ** The invariant *)

Section invariant.
Context (R : list (Z * Z)).

(** A spawn number has at most eight digits. *)
Definition sys_ok (x : editor * kernel A) : Prop :=
  editor_ok x.1 ∧ ∃ n, n ≤ 99999999 ∧ kernel_ok R n x.2.

Lemma keyboard_irq_ok n sc k : is_u8 sc → kernel_ok R n k → kernel_ok R n (keyboard_irq sc k).
Proof.
  intros Hsc Hk. unfold keyboard_irq.
  destruct (keyboard_handler_refines sc _ (kk_kbd _ _ _ Hk) Hsc) as (Hb & Habs & _).
  destruct (keyboard_handler sc (k_kbd k)) as [b ws]. cbn [fst snd] in *.
  assert (ascii_path (queue b)) as Hq.
  { change (queue b) with (abs_queue (abstract b)). rewrite Habs.
    pose proof (kk_keys _ _ _ Hk) as Hkeys. unfold abs_key.
    destruct (_ || _); [done |]. destruct (_ || _); [done |]. destruct (_ =? _); [done |].
    destruct (Z.leb_spec 128 sc); [done |]. destruct (Z.eqb_spec (typed (abs_shift (abstract (k_kbd k)))
      (abs_caps (abstract (k_kbd k))) sc) 0) as [|Hne]; [done |]. cbn [abs_queue abstract] in *.
    unfold queue_push. destruct (_ <? _); [| done]. apply Forall_app. split; [done |].
    constructor; [| constructor]. apply typed_ascii; [unfold is_u8 in Hsc; lia | done]. }
  apply set_console_ok; [apply out_all_ok, (kk_console _ _ _ Hk) | by apply set_kbd_ok].
Qed.

Lemma timer_irq_ok n c ret k :
  on_stack (k_sched k) c ret → kernel_ok R n k →
  ∃ k' r, timer_irq c k = Some (k', r) ∧ kernel_ok R n k'.
Proof.
  intros Hon Hk. destruct (kk_sched _ _ _ Hk) as (am & Hs).
  destruct (schedule_ok _ _ _ _ _ Hs Hon) as (s' & am' & r & Hsch & _ & Hs' & Hc).
  unfold timer_irq, timer_handler. rewrite Hsch. do 2 eexists. split; [done |].
  destruct (kk_frequency _ _ _ Hk).
  apply set_console_ok; [apply out_all_ok, (kk_console _ _ _ Hk) |].
  apply (set_sched_ok R n s' am'); [done | done |]. apply set_timer_ok; cbn; auto with rink.
Qed.

Lemma sys_step_ok x y : sys_ok x → sys_step x y → sys_ok y.
Proof.
  intros [He (n & Hn & Hk)] Hst.
  inversion Hst as [sc e k Hsc|c ret r e k k' Hon Ht|s e k Hw|e k e' k' Hroom Hr]; subst;
    cbn [fst snd] in *.
  - split; [done |]. exists n. split; [done |]. by apply keyboard_irq_ok.
  - destruct (timer_irq_ok n c ret k Hon Hk) as (k2 & r2 & Ht2 & Hk2). rewrite Ht in Ht2.
    injection Ht2 as <- _. split; [done |]. by exists n.
  - split; [done |]. exists n. split; [done |]. destruct (kk_sched _ _ _ Hk) as (am & Hs).
    apply (set_sched_ok R n s am); [by eapply works_ok | apply Hw | done].
  - destruct (shell_round_ok counter_task R n e k Hk He) as [[_ Hwait]|(e2 & o & Hr2 & He2 & Ho)].
    + intros Hsp. split; [by apply Hroom |]. destruct (decide (n = 99999999)) as [->|]; [| lia].
      by rewrite (shell_round_overflow counter_task R e k Hk He Hsp) in Hr.
    + by rewrite Hr in Hwait.
    + rewrite Hr in Hr2. injection Hr2 as <- <-. split; [done |].
      destruct Ho as [Ho|[Hlt Ho]]; eexists; (split; [| exact Ho]); lia.
Qed.

Lemma sys_run_ok x y : sys_ok x → sys_run x y → sys_ok y.
Proof. intros Hx Hr. induction Hr as [x|x y z Hst Hr IH]; [done |]. by apply IH, (sys_step_ok x). Qed.
End invariant.
End system.

(** ** Property *)

(** C2. The system does not get stuck: from a state in which the components'
    invariants hold, after any number of steps in any order (key presses;
    timer ticks that interrupt a task on its own stack; work of the other
    tasks; rounds of the shell, where a spawn finds room for its stack) they
    still hold, the timer interrupt returns, and the next round of the shell's
    loop comes to an end: it waits for a key, goes on, or the machine restarts
    because the line reads "reboot".  The last part is for whatever was typed,
    with one exception: a round that enters "spawn" has to find room in the
    heap for a stack, if a task slot is free, and fewer than 99999999 spawns
    before it. *)
Theorem system_safe `{Allocator A} (counter_task : Z) (R : list (Z * Z)) (n : Z)
    (e e' : editor) (k k' : kernel A) :
  kernel_ok R n k → n ≤ 99999999 → editor_ok e → sys_run counter_task (e, k) (e', k') →
  (∃ n', n' ≤ 99999999 ∧ kernel_ok R n' k') ∧ editor_ok e' ∧
  (∀ c ret, on_stack (k_sched k') c ret → is_Some (timer_irq c k')) ∧
  ((enters (str "spawn") e' k' → stack_room k' ∧ spawn_count k' < 99999999) →
   (queue (k_kbd k') = [] ∧ shell_round counter_task e' k' = Some (inl tt)) ∨
   ∃ e2 o, shell_round counter_task e' k' = Some (inr (e2, o)) ∧
     match o with
     | Running _ => True
     | Restarted _ => ztake (ed_pos e') (ed_line e') = str "reboot"
     end).
Proof.
  intros Hk Hn He Hrun.
  destruct (sys_run_ok counter_task R (e, k) (e', k')) as [He' (n' & Hn' & Hk')];
    [split; [done | by exists n] | done |]. cbn [fst snd] in *.
  split_and!; [by exists n' | done | |].
  - intros c ret Hon. destruct (timer_irq_ok R n' c ret k' Hon Hk') as (k2 & r & -> & _). by eexists.
  - destruct (kk_spawn _ _ _ Hk') as [-> _]. intros Hsp.
    destruct (shell_round_ok counter_task R n' e' k' Hk' He' Hsp)
      as [Hw|(e2 & o & Hr & _ & Ho)]; [by left | right]. exists e2, o. split; [done |].
    by destruct o.
Qed.
