(* ===== verification/Boot.v ===== *)
(** * The boot sequence of [kernel/kernel.c]: [kernel_main], the task [kernel]
    and the start of the shell establish the invariants of all components. *)
From S2P Require Import Prelude Console Keyboard Allocator Heap Task Sched Interrupts.
From S2P Require Import FsLayout Disk Dirent Fat Directory Path Fs Tree FsReach FsProps.
From S2P Require Import Shell ShellSafe System Multitask.

(** ** Text *)

Section text.
Context {A : Type}.

Definition boot_step (label : cstr) : kernel A → option (kernel A) :=
  print (str "[boot] ") ;> print label ;> print nl.

Definition welcome_text : kernel A → option (kernel A) :=
  print (str "RinkOS kernel loaded successfully." ++ nl) ;>
  print (str "Welcome to RinkOS!" ++ nl) ;>
  print (str "--------------------------------" ++ nl) ;>
  print (str "Kernel is running in 32-bit protected mode." ++ nl) ;>
  print nl ;>
  print system_version ;>
  print nl.
End text.

(** [while (inb(0x64) & 0x01) { inb(0x60); }] on the bytes that the status
    port will deliver. *)
Fixpoint drain (status : list Z) : option (list Z) :=
  match status with
  | [] => None
  | v :: status' => if negb (Z.land v 0x01 =? 0) then drain status' else Some status'
  end.

(** ** The three entry points *)

(** The kernel's state, the descriptor table, and the interrupt flag. *)
Record machine := mk_machine {
  m_kernel : kernel heap;
  m_idt : list idt_entry;
  m_interrupts : bool
}.

Section boot.
(** Addresses that the linker provides. *)
Context (bss_end kernel_entry shell_entry keyboard_stub timer_stub : Z).

Definition kernel_main (m : machine) : option machine :=
  let k := m_kernel m in
  let k := set_console (vga_clear (k_console k)) k in
  let k := set_sched (set_alloc (kmalloc_init bss_end (k_mmap k) (mem (alloc (k_sched k))))
                        (k_sched k)) k in
  let idt := idt_init keyboard_stub timer_stub (m_idt m) in
  let k := set_console (out_all pic_remap (k_console k)) k in
  let k := set_sched (tasks_init (k_sched k)) k in
  match task_create_named kernel_entry (str "kernel") (k_sched k) with
  | None => None
  | Some (_, s) =>
      match welcome_text (set_sched s k) with
      | None => None
      | Some k =>
          match drain (k_status k) with
          | None => None
          | Some status => Some (mk_machine (set_status status k) idt true)
          end
      end
  end.

(** The function [kernel], the body of the first task. *)
Definition kernel_task (m : machine) : option machine :=
  let k := m_kernel m in
  match task_create_named shell_entry (str "shell") (k_sched k) with
  | None => None
  | Some (_, s) =>
      let k := set_sched s k in
      let k := set_fs (fs_init (k_fs k)) k in
      match drain (k_status k) with
      | None => None
      | Some status => Some (mk_machine (set_status status k) (m_idt m) true)
      end
  end.

(** The body of the second task, up to the loop of [shell_run]. *)
Definition shell_task (memory : list Z) (m : machine) : option (Z * editor * machine) :=
  match shell_start memory (m_kernel m) with
  | None => None
  | Some (line, e, k) => Some (line, e, mk_machine k (m_idt m) true)
  end.

(** A tick while the machine runs: interrupts have to be enabled. *)
Definition tick (c : cpu) (m : machine) : option (machine * option cpu) :=
  if m_interrupts m then
    match timer_irq c (m_kernel m) with
    | None => None
    | Some (k, r) => Some (mk_machine k (m_idt m) true, r)
    end
  else None.
End boot.

(** ** Power-on *)

(** What the boot loader leaves behind: zeroed statics, and whatever is on the
    disk, on the screen and in memory. *)
Definition power_on_kernel (d : disk) (page : list Z) (mmap : list mmap_entry) (status : list Z)
    (m : gmap Z header) (w : gmap Z Z) : kernel heap :=
  mk_kernel (fs_boot d)
    (mk_sched (replicate 8 (mk_task 0 false [] 0)) (-1) 0 (mk_heap NULL m) w)
    (mk_console page 0 0 []) timer_boot kbd_init mmap status (replicate 16 []) 0 0
    (replicate 4096 0).

(** The disk is not formatted, or an earlier session left it. *)
Definition disk_usable (d : disk) : Prop :=
  disk_ok d ∧ marker_loop 8 0 (disk_read_sector d FS_BOOT_LBA) = false ∨
  ∃ s, fs_ok s ∧ d = fs_disk s.

(** The output buffer of the keyboard controller runs empty when it is read,
    twice, and later its input buffer does. *)
Definition status_usable (status : list Z) : Prop :=
  ∃ st1 st2, drain status = Some st1 ∧ drain st1 = Some st2 ∧
    Exists (λ v, Z.land v 0x02 = 0) st2.

(** ** Stacks in a heap that is filled from its front *)

Lemma take_block_front us rest size :
  Forall (λ b, b.2 = false) us → size + HEADER + 4 <= rest →
  ∃ o, take_block size (us ++ [(rest, true)]) =
    Some (o, us ++ [(size, false); (rest - size - HEADER, true)]).
Proof.
  intros Hus Hr. induction Hus as [|[s f] us Hf Hus [o IH]]; cbn [app take_block].
  - exists 0. unfold HEADER in *. destruct (Z.leb_spec size rest); [| lia]. cbn [andb].
    by destruct (Z.leb_spec (size + 12 + 4) rest); [| lia].
  - cbn in Hf. subst f. cbn [andb]. rewrite IH. by eexists.
Qed.

(** [j] stacks have been taken, and the rest of the first 64 KB is free. *)
Definition heap_front (j : nat) (h : heap) : Prop :=
  ∃ E rest, heap_ok h E (replicate j (TASK_STACK_SIZE, false) ++ [(rest, true)]) ∧
    65524 - 16396 * Z.of_nat j ≤ rest.

Lemma kmalloc_front j h size :
  heap_front j h → 0 < size ≤ TASK_STACK_SIZE → (j ≤ 2)%nat →
  ∃ p h', kmalloc h size = Some (p, h') ∧ p ≠ NULL ∧
    (size = TASK_STACK_SIZE → heap_front (S j) h').
Proof.
  unfold TASK_STACK_SIZE. intros (E & rest & Hok & Hr) Hs Hj. destruct (align4_spec size) as [Ha Hm]; [lia |].
  destruct (take_block_front (replicate j (16384, false)) rest (align4 size)) as [o Ht].
  { by apply Forall_replicate. } { unfold HEADER. Z.to_euclidean_division_equations; lia. }
  pose proof (kmalloc_take h E _ size Hok ltac:(lia) ltac:(lia)) as Hk. unfold TASK_STACK_SIZE in Hk.
  rewrite Ht in Hk. destruct Hk as (h' & Hk & Hok' & Hst). do 2 eexists. split; [exact Hk |]. split.
  - destruct Hok as [Hpos _ _ _ Hsz _ Hc].
    destruct (take_block_spec (heap_start h) (align4 size) _ o _ ltac:(lia) Hsz Hc Ht)
      as (_ & _ & _ & _ & Ho & _).
    unfold NULL, HEADER. lia.
  - intros ->. change (align4 16384) with 16384 in *. exists E, (rest - 16384 - HEADER). split.
    + change (S j) with (1 + j)%nat. rewrite Nat.add_comm, replicate_add, <- app_assoc. exact Hok'.
    + unfold HEADER. lia.
Qed.

Lemma kmalloc_init_front bss_end mmap m :
  0 < bss_end → bss_end + 0x10000 ≤ 0x90000 →
  heap_front 0 (kmalloc_init bss_end mmap m) ∧ al_live (kmalloc_init bss_end mmap m) [].
Proof.
  intros Hb Hl. pose proof (find_heap_end_bounds mmap bss_end ltac:(lia)) as He.
  split.
  - exists (find_heap_end mmap bss_end), (find_heap_end mmap bss_end - bss_end - HEADER). split.
    + apply kmalloc_init_ok; unfold HEADER; lia.
    + unfold HEADER. lia.
  - exists bss_end, (find_heap_end mmap bss_end). apply (heap_run_holds _ _ m); [done | | constructor].
    unfold HEADER. lia.
Qed.

(** ** The phases of the boot

    [j] tasks have been created, [am] is what the scheduler stands for, and
    the kernel's invariant waits only for the volume and for two tasks. *)
Record booting (j : nat) (am : amachine) (k : kernel heap) : Prop := {
  bo_rest : ∀ R f s am2, fs_ok f → sched_ok R s am2 → task_count s = 2 →
    kernel_ok R 0 (set_fs f (set_sched s k));
  bo_sched : sched_ok [] (k_sched k) am;
  bo_heap : heap_front j (alloc (k_sched k));
  bo_count : task_count (k_sched k) = Z.of_nat j
}.

(** The parts of the kernel that are in order all the time. *)
Lemma booting_rest j am k : booting j am k → kernel_ok [] 0 (set_fs fresh_fs (set_sched s6 k)).
Proof.
  intros Hk. destruct s6_ok as (am6 & Hs).
  exact (bo_rest _ _ _ Hk [] fresh_fs s6 am6 fresh_fs_ok Hs eq_refl).
Qed.

Lemma booting_create j am k entry nm :
  booting j am k → (j ≤ 2)%nat →
  ∃ p s, task_create_named entry nm (k_sched k) = Some (Z.of_nat j, s) ∧
    booting (S j) (am_create entry p am) (set_sched s k).
Proof.
  intros [Hrest Hs Hh Hc] Hj.
  destruct (create_ok [] (k_sched k) am entry nm Hs) as (p & s & Hcr & Ht & Hok).
  { rewrite Hc. unfold MAX_TASKS. lia. }
  destruct (kmalloc_front j _ TASK_STACK_SIZE Hh ltac:(done) Hj) as (p2 & h' & Hk & Hp & Hh').
  rewrite Hc in *. exists p, s. split; [done |].
  assert (p2 = p ∧ alloc s = h' ∧ task_count s = Z.of_nat (S j)) as (-> & Ha & Hc').
  { unfold task_create_named in Hcr. rewrite Hc in Hcr.
    destruct (Z.leb_spec MAX_TASKS (Z.of_nat j)); [unfold MAX_TASKS in *; lia |].
    change al_malloc with kmalloc in Hcr. rewrite Hk in Hcr.
    destruct (new_stack p2 entry _) as [sp m]. injection Hcr as <-. cbn [tasks alloc task_count] in *.
    rewrite list_lookup_insert_eq in Ht by (rewrite (so_len _ _ _ Hs); lia).
    injection Ht as _ ->. split_and!; [done | done | lia]. }
  specialize (Hok Hp). constructor; cbn [k_sched set_sched]; [exact Hrest | done | rewrite Ha; auto | done].
Qed.

Lemma drain_exists st st' (P : Z → Prop) : drain st = Some st' → Exists P st' → Exists P st.
Proof.
  revert st'. induction st as [|v st IH]; intros st'; [done |]. cbn [drain].
  destruct (negb _); intros Hd HP; right; [by eapply IH | by injection Hd as ->].
Qed.

Lemma booting_status j am k st :
  booting j am k → Exists (λ v, Z.land v 0x02 = 0) st → booting j am (set_status st k).
Proof.
  intros [Hr ? ? ?] Hst. constructor; [| done..]. intros R f s am2 Hf Hs Hc.
  destruct (Hr R f s am2 Hf Hs Hc). by constructor.
Qed.

Lemma booting_console j am k c : booting j am k → console_ok c → booting j am (set_console c k).
Proof.
  intros [Hr ? ? ?] Hc. constructor; [| done..]. intros R f s am2 Hf Hs Hn.
  by apply (set_console_ok R 0 c (set_fs f (set_sched s k))), (Hr R f s am2).
Qed.

(** A tick during the boot; the heap is not touched. *)
Lemma booting_tick j am k c ret w :
  booting j am k → works (k_sched k) w → on_stack w c ret →
  ∃ k' am' r, timer_irq c (set_sched w k) = Some (k', r) ∧
    am_tick am (returned c ret) = Some (am', r) ∧ booting j am' k'.
Proof.
  intros Hb Hw Hon. pose proof (booting_rest _ _ _ Hb) as Hk. destruct Hb as [Hrest Hs Hh Hc].
  pose proof (works_ok _ _ _ _ Hs Hw) as Hs'.
  destruct Hw as (_ & _ & Hcw & Haw & _).
  destruct (schedule_ok _ _ _ _ _ Hs' Hon) as (s' & am' & r & Hsch & Ht & Hs2 & Hc2).
  unfold timer_irq, timer_handler. cbn [k_sched k_timer set_sched]. rewrite Hsch.
  do 3 eexists. split_and!; [done | done |].
  assert (alloc s' = alloc w) as Ha.
  { unfold schedule in Hsch. destruct (task_count w =? 0); [by injection Hsch as <- _ |].
    destruct (next_loop _ _ _ _) as [nx|]; [| done]. destruct (tasks w !! _) as [tn|]; [| done].
    destruct (current_task w =? -1); [| destruct (nx =? current_task w); [by injection Hsch as <- _ |]];
      (destruct (task_switch _ _ _) as [[[o x] mm]|]; [| done]); by injection Hsch as <- _. }
  constructor; cbn [k_sched set_sched set_console]; [| done | by rewrite Ha, Haw | lia].
  intros R f s am2 Hfs Hsok Hn. destruct (kk_frequency _ _ _ Hk) as [Hf Hf0].
  apply (set_console_ok R 0 _ (set_timer _ (set_fs f (set_sched s k)))).
  { apply out_all_ok, (kk_console _ _ _ Hk). }
  apply set_timer_ok; cbn; auto with rink. by apply (Hrest R f s am2).
Qed.

Lemma welcome_text_eq {A} (k : kernel A) :
  console_ok (k_console k) →
  ∃ c, welcome_text k = Some (set_console c k) ∧ console_ok c.
Proof.
  intros Hc. unfold welcome_text, print, andthen. cbn [option_bind mbind].
  eexists. split; [reflexivity |]. cbn [k_console set_console]. by repeat apply kprint_ok.
Qed.

(** The machine's running task computes. *)
Definition runs_on (m m' : machine) : Prop :=
  ∃ w, works (k_sched (m_kernel m)) w ∧
    m' = mk_machine (set_sched w (m_kernel m)) (m_idt m) (m_interrupts m).

(** The statics as they are at power-on, with two tasks. *)
Lemma statics_ok R f s am c mmap status :
  fs_ok f → sched_ok R s am → task_count s = 2 → console_ok c → Exists (λ v, Z.land v 0x02 = 0) status →
  kernel_ok R 0 (mk_kernel f s c timer_boot kbd_init mmap status (replicate 16 []) 0 0
    (replicate 4096 0)).
Proof.
  intros Hf Hs Hn Hc Hst. constructor; cbn [k_fs k_sched k_console k_timer k_kbd k_mmap k_status history
    history_count spawn_count cat_buf]; try done.
  - by exists am.
  - change (ascii_path []). constructor.
  - split; [done |]. apply Forall_replicate, line_nil.
Qed.

Section phases.
Context (bss_end kernel_entry shell_entry keyboard_stub timer_stub : Z).
Hypothesis Hbss : 0 < bss_end ∧ bss_end + 0x10000 ≤ 0x90000.

Lemma kernel_main_ok d page mmap status m w idt :
  zlen page = 2000 → status_usable status →
  ∃ p k, kernel_main bss_end kernel_entry keyboard_stub timer_stub
      (mk_machine (power_on_kernel d page mmap status m w) idt false) =
    Some (mk_machine k (idt_init keyboard_stub timer_stub idt) true) ∧
    booting 1 (am_create kernel_entry p (mk_am ∅ (-1) 0)) k ∧ k_fs k = fs_boot d ∧
    ∃ st2, drain (k_status k) = Some st2 ∧ Exists (λ v, Z.land v 0x02 = 0) st2.
Proof.
  intros Hpage (st1 & st2 & Hd1 & Hd2 & Hst). destruct Hbss as [Hb Hl].
  destruct (kmalloc_init_front bss_end mmap m Hb Hl) as [Hfront Hlive].
  unfold kernel_main. cbn [m_kernel].
  set (k0 := set_sched (tasks_init _) _).
  set (s0 := tasks_init (set_alloc (kmalloc_init bss_end mmap m)
    (mk_sched (replicate 8 (mk_task 0 false [] 0)) (-1) 0 (mk_heap NULL m) w))).
  set (c := out_all pic_remap (vga_clear (mk_console page 0 0 []))).
  assert (k0 = mk_kernel (fs_boot d) s0 c timer_boot kbd_init mmap status (replicate 16 []) 0 0
    (replicate 4096 0)) as Hk0eq by reflexivity.
  clearbody k0. subst k0.
  assert (Hs : sched_ok [] s0 (mk_am ∅ (-1) 0)) by (apply tasks_init_ok; [done | by exists []]).
  assert (Hc : console_ok c) by (by apply out_all_ok, vga_clear_ok).
  assert (Hfront0 : heap_front 0 (alloc s0) ∧ task_count s0 = 0) by done.
  clearbody s0 c. set (k0 := mk_kernel (fs_boot d) s0 c _ _ _ _ _ _ _ _).
  assert (booting 0 (mk_am ∅ (-1) 0) k0) as Hk0.
  { constructor; [| exact Hs | apply Hfront0 | apply Hfront0].
    intros R f s am2 Hf Hs2 Hn. apply (statics_ok R f s am2 c); [done.. |].
    eapply drain_exists; [exact Hd1 |]. by eapply drain_exists. }
  destruct (booting_create 0 _ k0 kernel_entry (str "kernel") Hk0 ltac:(lia)) as (p & s & -> & Hk1).
  destruct (welcome_text_eq (set_sched s k0)) as (c1 & -> & Hc1); [apply (kk_console _ _ _ (booting_rest _ _ _ Hk1)) |].
  change (k_status (set_console c1 (set_sched s k0))) with status. rewrite Hd1.
  exists p. eexists. split_and!; [done | | done | by exists st2].
  apply booting_status; [by apply booting_console | by eapply drain_exists].
Qed.

Lemma kernel_task_ok am k idt st2 :
  booting 1 am k → disk_usable (fs_disk (k_fs k)) → k_fs k = fs_boot (fs_disk (k_fs k)) →
  drain (k_status k) = Some st2 → Exists (λ v, Z.land v 0x02 = 0) st2 →
  ∃ p k', kernel_task shell_entry (mk_machine k idt true) = Some (mk_machine k' idt true) ∧
    booting 2 (am_create shell_entry p am) k' ∧ fs_ok (k_fs k').
Proof.
  intros Hk Hdisk Hfs Hd Hst. unfold kernel_task. cbn [m_kernel].
  destruct (booting_create 1 am k shell_entry (str "shell") Hk ltac:(lia)) as (p & s & -> & Hk1).
  change (k_status (set_fs _ _)) with (k_status k). rewrite Hd. exists p. eexists.
  split_and!; [done | |].
  - apply booting_status; [| done]. by destruct Hk1.
  - cbn [k_fs set_fs set_status set_sched]. rewrite Hfs.
    destruct Hdisk as [[Hok Hm]|(s0 & Hok & ->)]; [by apply boot_format_ok | by apply reboot_ok].
Qed.

Lemma shell_task_ok am k idt memory :
  booting 2 am k → fs_ok (k_fs k) → zlen memory = LINE_BUF_SIZE →
  ∃ line e k', shell_task memory (mk_machine k idt true) = Some (line, e, mk_machine k' idt true) ∧
    line ≠ NULL ∧ editor_ok e ∧ kernel_ok [(line, LINE_BUF_SIZE)] 0 k'.
Proof.
  intros [Hrest Hs Hh Hc] Hfs Hmem. unfold shell_task, shell_start. cbn [m_kernel].
  destruct (kmalloc_front 2 _ LINE_BUF_SIZE Hh ltac:(done) ltac:(lia)) as (line & a & Hk & Hp & _).
  destruct (step_simulated (Malloc LINE_BUF_SIZE line) [] (k_sched k)
    (if line =? NULL then [] else [(line, LINE_BUF_SIZE)]) (set_alloc a (k_sched k)) am Hs)
    as (am' & _ & Hs'); [by constructor |].
  apply Z.eqb_neq in Hp as Hpb. rewrite Hpb in Hs'.
  change al_malloc with kmalloc. rewrite Hk. cbn [print]. do 3 eexists. split_and!; [done | done | |].
  - split; [done | unfold LINE_BUF_SIZE; cbn; lia | constructor].
  - specialize (Hrest _ (k_fs k) (set_alloc a (k_sched k)) am' Hfs Hs' Hc).
    exact (set_console_ok _ 0 _ _ (kprint_ok (str "> ") _ (kk_console _ _ _ Hrest)) Hrest).
Qed.
End phases.

Lemma first_tick entry p x :
  ∃ am, am_tick (am_create entry p (mk_am ∅ (-1) 0)) x = Some (am, Some (fresh_context entry p)) ∧
    am = mk_am ∅ 0 1.
Proof. eexists. split; [| reflexivity]. reflexivity. Qed.

Lemma second_tick entry p x :
  ∃ am, am_tick (am_create entry p (mk_am ∅ 0 1)) x = Some (am, Some (fresh_context entry p)).
Proof. eexists. reflexivity. Qed.

(** ** Property *)

(** C9. The boot sequence works, on a disk that is not formatted or that an
    earlier session left: [kernel_main] ends with interrupts enabled and the
    two handlers installed; the first timer tick enters the function [kernel],
    which mounts the volume; the next tick enters [shell_task]; and when the
    shell's loop starts, every component's invariant holds and the line
    buffer is a block of the heap. *)
Theorem boot_establishes (bss_end kernel_entry shell_entry keyboard_stub timer_stub : Z) (d : disk)
    (page : list Z) (mmap : list mmap_entry) (status : list Z) (m : gmap Z header) (w : gmap Z Z)
    (idt : list idt_entry) (memory : list Z) :
  0 < bss_end → bss_end + 0x10000 ≤ 0x90000 → zlen page = 2000 → status_usable status →
  disk_usable d → zlen memory = LINE_BUF_SIZE →
  ∃ m1, kernel_main bss_end kernel_entry keyboard_stub timer_stub
      (mk_machine (power_on_kernel d page mmap status m w) idt false) = Some m1 ∧
    m_interrupts m1 = true ∧ m_idt m1 = idt_init keyboard_stub timer_stub idt ∧
  ∀ m1' c0 ret0, runs_on m1 m1' → on_stack (k_sched (m_kernel m1')) c0 ret0 →
  ∃ m2 x0, tick c0 m1' = Some (m2, Some x0) ∧ r_eip x0 = kernel_entry ∧
  ∃ m3, kernel_task shell_entry m2 = Some m3 ∧
  ∀ m3' c1 ret1, runs_on m3 m3' → on_stack (k_sched (m_kernel m3')) c1 ret1 →
  ∃ m4 x1, tick c1 m3' = Some (m4, Some x1) ∧ r_eip x1 = shell_entry ∧
  ∃ line e m5, shell_task memory m4 = Some (line, e, m5) ∧ line ≠ NULL ∧ editor_ok e ∧
    kernel_ok [(line, LINE_BUF_SIZE)] 0 (m_kernel m5) ∧ m_interrupts m5 = true.
Proof.
  intros Hb Hl Hpage Hst Hdisk Hmem.
  destruct (kernel_main_ok bss_end kernel_entry keyboard_stub timer_stub (conj Hb Hl) d page mmap status m w
    idt Hpage Hst) as (p & k1 & -> & Hk1 & Hfs & st2 & Hd2 & Hx).
  eexists. split_and!; [done.. |]. intros m1' c0 ret0 (w0 & Hw0 & ->) Hon. cbn [m_kernel] in *.
  destruct (booting_tick 1 _ k1 c0 ret0 w0 Hk1 Hw0 Hon) as (k2 & am2 & r & Ht & Ham & Hk2).
  destruct (first_tick kernel_entry p (returned c0 ret0)) as (am & Ham' & ->).
  rewrite Ham' in Ham. injection Ham as <- <-.
  assert (k_fs k2 = k_fs k1 ∧ k_status k2 = k_status k1) as [Hfs2 Hst2].
  { unfold timer_irq in Ht. destruct (timer_handler _ _ _) as [[[[t ws] s] r]|]; [| done].
    by injection Ht as <- _. }
  unfold tick. cbn [m_interrupts m_kernel m_idt]. rewrite Ht. do 2 eexists.
  split_and!; [done | done |].
  assert (fs_disk (k_fs k2) = d) as Hd by (by rewrite Hfs2, Hfs).
  destruct (kernel_task_ok shell_entry _ k2 (idt_init keyboard_stub timer_stub idt) st2 Hk2)
    as (p2 & k3 & -> & Hk3 & Hfs3); [by rewrite Hd | by rewrite Hd, Hfs2 | by rewrite Hst2 | done |].
  eexists. split; [done |]. intros m3' c1 ret1 (w1 & Hw1 & ->) Hon1. cbn [m_kernel] in *.
  destruct (booting_tick 2 _ k3 c1 ret1 w1 Hk3 Hw1 Hon1) as (k4 & am4 & r1 & Ht1 & Ham1 & Hk4).
  destruct (second_tick shell_entry p2 (returned c1 ret1)) as (am & Ham1').
  rewrite Ham1' in Ham1. injection Ham1 as <- <-. cbn [m_interrupts m_kernel m_idt]. rewrite Ht1.
  do 2 eexists. split_and!; [done | done |].
  assert (k_fs k4 = k_fs k3) as Hfs4.
  { unfold timer_irq in Ht1. destruct (timer_handler _ _ _) as [[[[t ws] s] r]|]; [| done].
    by injection Ht1 as <- _. }
  destruct (shell_task_ok _ k4 (idt_init keyboard_stub timer_stub idt) memory Hk4)
    as (line & e & k5 & -> & Hline & He & Hk5); [by rewrite Hfs4 | done |].
  by exists line, e; eexists.
Qed.

(** A machine with 639 KB of base memory, a blank disk and a kernel that ends
    at 0x8000; the boot code is interrupted on its stack below 0x90000. *)
Definition demo_machine : machine :=
  mk_machine (power_on_kernel blank_disk (replicate 2000 0) [mk_mmap 0 0x9FC00 1] [0; 0; 0] ∅ ∅)
    (replicate 256 null_gate) false.

Definition demo_main : option machine := kernel_main 0x8000 0x2000 0x1200 0x1100 demo_machine.

Lemma demo_main_sched m1 : demo_main = Some m1 → k_sched (m_kernel m1) = s2.
Proof.
  intros Hm. assert ((λ m, k_sched (m_kernel m)) <$> demo_main = Some s2) as Hs
    by (vm_compute; reflexivity).
  rewrite Hm in Hs. by injection Hs.
Qed.

Lemma boot_establishes_witness :
  ∃ m1 m2 x0 m3, demo_main = Some m1 ∧
    tick c0 (mk_machine (set_sched (poke 0x8FF00 0x1234 s2) (m_kernel m1)) (m_idt m1) (m_interrupts m1))
      = Some (m2, Some x0) ∧ r_eip x0 = 0x2000 ∧ kernel_task 0x3000 m2 = Some m3.
Proof.
  destruct (boot_establishes 0x8000 0x2000 0x3000 0x1200 0x1100 blank_disk (replicate 2000 0)
    [mk_mmap 0 0x9FC00 1] [0; 0; 0] ∅ ∅ (replicate 256 null_gate) (replicate 258 0))
    as (m1 & Hm1 & _ & _ & Hboot).
  - lia.
  - lia.
  - reflexivity.
  - exists [0; 0], [0]. split_and!; [reflexivity | reflexivity | by constructor].
  - left. split; [exact blank_disk_ok | exact blank_disk_unmarked].
  - reflexivity.
  - pose proof (demo_main_sched m1 Hm1) as Hs.
    destruct (Hboot (mk_machine (set_sched (poke 0x8FF00 0x1234 s2) (m_kernel m1)) (m_idt m1)
      (m_interrupts m1)) c0 0x1234) as (m2 & x0 & Ht & He & m3 & Hk & _).
    + exists (poke 0x8FF00 0x1234 s2). split; [| done]. rewrite Hs. apply poke_works.
      intros i t Hi Hu Hne. each_task i Hi Hu.
    + cbn [m_kernel k_sched set_sched]. constructor; [vm_compute; reflexivity | cbn; lia | |].
      * intros t Hc. clear -Hc. vm_compute in Hc. by destruct Hc.
      * intros i t _ Hi Hu. each_task i Hi Hu.
    + exists m1, m2, x0, m3. split_and!; [exact Hm1 | exact Ht | exact He | exact Hk].
Defined.

(** ** A race

    [kernel] starts the shell, with interrupts enabled, before it mounts the
    volume.  A command that comes in between works on the unread root
    directory, and writes it over the one on the disk. *)

Local Abbreviation old_disk := (fs_disk (after (fs_write fresh_fs (str "/a.txt") (str "hello") 5))).

Lemma early_command_loses :
  let early := after (fs_create (fs_boot old_disk) (str "/b.txt")) in
  fs_read (fs_init (fs_boot old_disk)) (str "/a.txt") 100 = Some (0, str "hello", 5) ∧
  fs_read (fs_init early) (str "/a.txt") 100 = Some (-1, [], 0).
Proof. vm_compute. by split. Qed.
