(* ===== verification/ShellProps.v ===== *)
(** * The properties of the shell: which command a line runs, what the line
    editor delivers, what [history], [write], [cat], [kill] and [spawn] do. *)
From S2P Require Import Prelude Console Keyboard Allocator Heap Task Sched Interrupts.
From S2P Require Import FsLayout Disk Dirent Fat Directory Path Fs FsData Tree FsReach FsProps.
From S2P Require Import Shell ShellSafe System Boot Multitask.

(** Literal strings are strings of seven-bit characters. *)
Ltac literal := unfold is_cstr, ascii_path; apply (bool_decide_unpack _); by vm_compute.

(** ** Dispatch

    The reference: the first word of the line is looked up in a table. *)

Fixpoint first_word (line : cstr) : cstr :=
  match line with
  | [] => []
  | c :: line' => if c =? 32 then [] else c :: first_word line'
  end.

Section dispatch.
Context `{Allocator A} (counter_task : Z).
Implicit Types k : kernel A.

Inductive handler :=
| Plain (f : kernel A → option (outcome A))
| WithArgs (f : cstr → kernel A → option (outcome A)).

Definition commands : list (cstr * handler) := [
  (str "help", Plain (returns cmd_help));
  (str "clear", Plain (returns clear_screen));
  (str "echo", WithArgs (λ args, returns (cmd_echo args)));
  (str "info", Plain (returns cmd_info));
  (str "meminfo", Plain (returns cmd_meminfo));
  (str "reboot", Plain reboot);
  (str "shutdown", Plain (returns shutdown));
  (str "uptime", Plain (returns cmd_uptime));
  (str "debug", Plain (returns debug));
  (str "ls", Plain (returns cmd_ls));
  (str "write", WithArgs (λ args, returns (cmd_write args)));
  (str "cat", WithArgs (λ args, returns (cmd_cat args)));
  (str "delete", WithArgs (λ args, returns (cmd_delete args)));
  (str "append", WithArgs (λ args, returns (cmd_append args)));
  (str "top", Plain (returns cmd_top));
  (str "spawn", Plain (returns (cmd_spawn counter_task)));
  (str "kill", WithArgs (λ args, returns (cmd_kill args)));
  (str "stat", WithArgs (λ args, returns (cmd_stat args)));
  (str "mv", WithArgs (λ args, returns (cmd_mv args)));
  (str "mkdir", WithArgs (λ args, returns (cmd_mkdir args)));
  (str "rmdir", WithArgs (λ args, returns (cmd_rmdir args)));
  (str "df", Plain (returns cmd_df));
  (str "cd", WithArgs (λ args, returns (cmd_cd args)));
  (str "pwd", Plain (returns cmd_pwd));
  (str "history", Plain (returns cmd_history))].

Definition unknown (line : cstr) : kernel A → option (outcome A) :=
  returns (print (str "Unknown command: ") ;> print line ;> print nl).

(** The handler of a word; a command without arguments has to be the line. *)
Definition interpret (table : list (cstr * handler)) (line : cstr) k : option (outcome A) :=
  let w := first_word line in
  let rest := drop (length w) line in
  match find (λ e, bool_decide (e.1 = w)) table with
  | Some (_, Plain f) => if decide (rest = []) then f k else unknown line k
  | Some (_, WithArgs f) => f rest k
  | None => unknown line k
  end.

(** *** The chain of comparisons in [run_command] *)

Fixpoint chain (table : list (cstr * handler)) (line : cstr) k : option (outcome A) :=
  match table with
  | [] => unknown line k
  | (w, Plain f) :: table' => if str_eq line w then f k else chain table' line k
  | (w, WithArgs f) :: table' =>
      if word_at w 0 line then f (zdrop (zlen w) line) k else chain table' line k
  end.

Lemma run_command_chain line k :
  line ≠ [] → is_cstr line → run_command counter_task line k = chain commands line (history_add line k).
Proof.
  intros Hne Hl. unfold run_command.
  assert ((znth line 0 =? 0) = false) as ->; [| reflexivity].
  destruct Hl as [|c line Hc Hl]; [done |]. change (znth (c :: line) 0) with c. apply Z.eqb_neq. lia.
Qed.

(** A word: characters, none of them a space. *)
Definition word (w : cstr) : Prop := Forall (λ c, 0 < c < 256 ∧ c ≠ 32) w.

Lemma word_cstr w : word w → is_cstr w.
Proof. intros Hw. eapply Forall_impl; [exact Hw |]. cbn. intros c Hc. cbn in Hc. lia. Qed.

Lemma first_word_app w : word w → first_word w = w ∧ ∀ l, first_word (w ++ 32 :: l) = w.
Proof.
  induction 1 as [|c w [Hc Hs] Hw [IH1 IH2]]; [done |]. cbn. destruct (Z.eqb_spec c 32); [done |].
  split; [by rewrite IH1 |]. intros l. by rewrite IH2.
Qed.

Lemma first_word_split line :
  line = first_word line ∨ ∃ l, line = first_word line ++ 32 :: l.
Proof.
  induction line as [|c line IH]; [by left |]. cbn. destruct (Z.eqb_spec c 32) as [->|].
  - right. by exists line.
  - destruct IH as [IH|[l IH]]; [left | right; exists l]; by rewrite IH at 1.
Qed.

Lemma znth_app_r (l1 l2 : list Z) i : znth (l1 ++ l2) (zlen l1 + i) = znth l2 i ∨ i < 0.
Proof.
  destruct (decide (i < 0)); [by right | left]. unfold znth, zlen. rewrite app_nth2 by lia.
  f_equal. lia.
Qed.

Lemma word_at_spec w line pre :
  word w → is_cstr line →
  word_at w (zlen pre) (pre ++ line) = bool_decide (first_word line = w).
Proof.
  intros Hw. revert line pre. induction Hw as [|c w [Hc Hs] Hw IH]; intros line pre Hl; cbn [word_at].
  - destruct (znth_app_r pre line 0) as [He|]; [| lia]. rewrite Z.add_0_r in He. rewrite He.
    destruct Hl as [|x line Hx Hl]; [done |]. change (znth (x :: line) 0) with x. cbn [first_word].
    destruct (Z.eqb_spec x 32), (Z.eqb_spec x 0); done || lia.
  - destruct (znth_app_r pre line 0) as [He|]; [| lia]. rewrite Z.add_0_r in He. rewrite He.
    destruct Hl as [|x line Hx Hl].
    { change (znth [] 0) with 0. destruct (Z.eqb_spec 0 c); [lia | done]. }
    change (znth (x :: line) 0) with x. cbn [first_word].
    specialize (IH line (pre ++ [x]) Hl). rewrite <- app_assoc in IH. cbn [app] in IH.
    replace (zlen (pre ++ [x])) with (zlen pre + 1) in IH by (unfold zlen; rewrite length_app; cbn; lia).
    rewrite IH. destruct (Z.eqb_spec x c) as [->|Hne]; cbn [andb].
    + destruct (Z.eqb_spec c 32); [lia |]. apply bool_decide_ext. naive_solver.
    + symmetry. apply bool_decide_eq_false. destruct (x =? 32); intros [=]; by subst.
Qed.

Lemma chain_unmatched table line k :
  Forall (λ e, word e.1) table → is_cstr line → first_word line ∉ map fst table →
  chain table line k = unknown line k.
Proof.
  intros Ht Hl. induction Ht as [|[w h] table Hw Ht IH]; intros Hn; [done |]. cbn [map] in Hn.
  apply not_elem_of_cons in Hn as [Hne Hn]. cbn [fst] in *. cbn [chain].
  destruct h as [f|f].
  - destruct (str_eq line w) eqn:He; [| auto]. exfalso. apply str_eq_spec in He; [| done |].
    + subst. apply Hne. by apply first_word_app.
    + by apply word_cstr.
  - pose proof (word_at_spec w line [] Hw Hl) as Ha. cbn [app] in Ha. change (zlen []) with 0 in Ha.
    rewrite Ha, bool_decide_false by done. auto.
Qed.

Lemma chain_interpret table line k :
  Forall (λ e, word e.1) table → NoDup (map fst table) → is_cstr line →
  chain table line k = interpret table line k.
Proof.
  intros Ht Hnd Hl. unfold interpret.
  induction Ht as [|[w h] table Hw Ht IH]; [done |]. cbn [map] in Hnd.
  apply NoDup_cons in Hnd as [Hnin Hnd]. cbn [chain find fst] in *.
  destruct (decide (w = first_word line)) as [Heq|Hne].
  - rewrite (bool_decide_eq_true_2 (w = first_word line)) by done. destruct h as [f|f].
    + destruct (first_word_split line) as [Hf|[l Hf]].
      * assert (str_eq line w = true) as -> by (apply str_eq_spec; [done | by rewrite Heq, <- Hf | congruence]).
        rewrite decide_True; [done |]. rewrite <- Hf. apply drop_all.
      * rewrite decide_False.
        2:{ rewrite Hf at 2. rewrite drop_app_length. done. }
        destruct (str_eq line w) eqn:He.
        { apply str_eq_spec in He; [| done | by apply word_cstr].
          rewrite <- Heq, He in Hf. apply (f_equal length) in Hf. rewrite length_app in Hf. cbn in Hf. lia. }
        apply chain_unmatched; [done | done |]. by rewrite <- Heq.
    + pose proof (word_at_spec w line [] Hw Hl) as Ha. cbn [app] in Ha. change (zlen []) with 0 in Ha.
      rewrite Ha, bool_decide_eq_true_2 by done. unfold zdrop, zlen. rewrite Nat2Z.id.
      by rewrite Heq.
  - rewrite (bool_decide_eq_false_2 (w = first_word line)) by done. destruct h as [f|f].
    + destruct (str_eq line w) eqn:He; [| auto]. exfalso. apply str_eq_spec in He; [| done |].
      * subst. apply Hne. symmetry. by apply first_word_app.
      * by apply word_cstr.
    + pose proof (word_at_spec w line [] Hw Hl) as Ha. cbn [app] in Ha. change (zlen []) with 0 in Ha.
      rewrite Ha, bool_decide_eq_false_2 by congruence. auto.
Qed.
End dispatch.

(** C10. The comparisons of [run_command] pick the command by the first word of
    the line: the order in which they are written does not matter, no name
    hides another one, and a command without arguments runs only when it is
    the whole line (a trailing space makes it unknown).  The command runs after
    the line has been added to the history. *)
Theorem run_command_dispatch `{Allocator A} (counter_task : Z) (line : cstr) (k : kernel A) :
  line ≠ [] → is_cstr line →
  run_command counter_task line k = interpret (commands counter_task) line (history_add line k).
Proof.
  intros Hne Hl. rewrite run_command_chain by done. apply chain_interpret; [| | done].
  - unfold word. apply (bool_decide_unpack _). by vm_compute.
  - apply (bool_decide_unpack _). by vm_compute.
Qed.

(** ** A kernel to evaluate on

    Two tasks, a fresh volume, a clear screen. *)
Definition demo_kernel : kernel heap :=
  mk_kernel fresh_fs s6 cleared timer_boot kbd_init [mk_mmap 0 0x9FC00 1] [0] (replicate 16 []) 0 0
    (replicate 4096 0).

Lemma demo_kernel_ok : kernel_ok [] 0 demo_kernel.
Proof.
  destruct s6_ok as (am & Hs).
  apply (statics_ok [] fresh_fs s6 am); [exact fresh_fs_ok | exact Hs | reflexivity | exact cleared_ok |].
  by constructor.
Qed.

Definition demo_editor : editor := mk_editor (replicate 258 0) 0.

Lemma demo_editor_ok : editor_ok demo_editor.
Proof. split; [done | unfold LINE_BUF_SIZE; cbn; lia | constructor]. Qed.

Lemma run_command_dispatch_witness :
  run_command 0x4000 (str "pwd ") demo_kernel = unknown (str "pwd ") (history_add (str "pwd ") demo_kernel).
Proof.
  rewrite (run_command_dispatch 0x4000 (str "pwd ") demo_kernel);
    [reflexivity | done | repeat constructor; lia].
Defined.

(** ** Line editing *)

(** A character is appended while there is room, backspace takes the last one
    back. *)
Definition edit_key (text : cstr) (c : Z) : cstr :=
  if c =? 8 then removelast text
  else if zlen text <? LINE_BUF_SIZE - 1 then text ++ [c] else text.

Section editing.
Context `{Allocator A} (counter_task : Z).
Implicit Types k : kernel A.

(** The loop of [shell_run] on the characters [keys]. *)
Fixpoint type_keys (keys : list Z) (e : editor) k : option (editor * outcome A) :=
  match keys with
  | [] => Some (e, Running k)
  | c :: keys' =>
      match shell_key counter_task c e k with
      | Some (e, Running k) => type_keys keys' e k
      | r => r
      end
  end.

Definition ed_text (e : editor) : cstr := ztake (ed_pos e) (ed_line e).

Lemma set_console_same k : set_console (k_console k) k = k.
Proof. by destruct k. Qed.

Lemma edit_step c e k :
  editor_ok e → 0 < c < 128 → c ≠ 10 →
  ∃ e' con, shell_key counter_task c e k = Some (e', Running (set_console con k)) ∧
    editor_ok e' ∧ ed_text e' = edit_key (ed_text e) c.
Proof.
  intros He Hc H10. pose proof He as [Hl Hp Ht]. unfold shell_key, edit_key, ed_text.
  destruct (Z.eqb_spec c 10); [done |].
  assert (zlen (ztake (ed_pos e) (ed_line e)) = ed_pos e) as ->
    by (apply length_ztake; unfold LINE_BUF_SIZE in *; lia).
  destruct (Z.eqb_spec c 8) as [->|H8].
  - destruct (Z.ltb_spec 0 (ed_pos e)) as [Hpos|Hz].
    + do 2 eexists. split_and!; [reflexivity | |]; cbn [ed_line ed_pos].
      * split; cbn [ed_line ed_pos]; [done | lia |]. by apply (ascii_ztake_le _ (ed_pos e)); [lia |].
      * unfold ztake. rewrite removelast_firstn_len, length_take, take_take.
        unfold zlen in Hl. unfold LINE_BUF_SIZE in *. f_equal. lia.
    + exists e, (k_console k). rewrite set_console_same. split_and!; [done | done |].
      assert (ed_pos e = 0) as -> by lia. done.
  - destruct (Z.ltb_spec (ed_pos e) (LINE_BUF_SIZE - 1)).
    + rewrite zstore_in by lia.
      do 2 eexists. split_and!; [reflexivity | |]; cbn [ed_line ed_pos].
      * split; cbn [ed_line ed_pos]; [by rewrite zlen_zset | lia |].
        rewrite ztake_zset_snoc by lia. apply Forall_app. split; [done | by constructor].
      * by rewrite ztake_zset_snoc by lia.
    + exists e, (k_console k). rewrite set_console_same. by split_and!.
Qed.

Lemma type_keys_edit keys e k :
  editor_ok e → Forall (λ c, 0 < c < 128 ∧ c ≠ 10) keys →
  ∃ e' con, type_keys keys e k = Some (e', Running (set_console con k)) ∧
    editor_ok e' ∧ ed_text e' = fold_left edit_key keys (ed_text e).
Proof.
  intros He Hk. revert e k He. induction Hk as [|c keys [Hc H10] Hk IH]; intros e k He; cbn [type_keys].
  - exists e, (k_console k). by rewrite set_console_same.
  - destruct (edit_step c e k He Hc H10) as (e1 & con & -> & He1 & Ht).
    destruct (IH e1 (set_console con k) He1) as (e2 & con2 & -> & He2 & Ht2).
    exists e2, con2. split_and!; [done | done |]. cbn [fold_left]. by rewrite <- Ht.
Qed.
End editing.

(** C15. The line editor is the obvious one on texts: from an empty line, the
    keys typed change nothing but the screen and the line buffer, never store
    outside it, and the newline hands to [run_command] exactly the characters
    that are left when every backspace takes back the last one and what does
    not fit into 257 characters is dropped.  Afterwards the line is empty again
    and the prompt is printed. *)
Theorem shell_line_editing `{Allocator A} (counter_task : Z) (keys : list Z) (e : editor)
    (k : kernel A) :
  editor_ok e → ed_pos e = 0 → Forall (λ c, 0 < c < 128 ∧ c ≠ 10) keys →
  ∃ e' con, type_keys counter_task keys e k = Some (e', Running (set_console con k)) ∧
    zlen (ed_line e') = LINE_BUF_SIZE ∧ 0 ≤ ed_pos e' < LINE_BUF_SIZE ∧
    ∀ k2, run_command counter_task (fold_left edit_key keys []) (set_console (kprint nl con) k)
          = Some (Running k2) →
      ∃ e2, shell_key counter_task 10 e' (set_console con k) =
        Some (e2, Running (set_console (kprint (str "> ") (k_console k2)) k2)) ∧ ed_pos e2 = 0.
Proof.
  intros He H0 Hk. destruct (type_keys_edit counter_task keys e k He Hk) as (e' & con & Hr & He' & Ht).
  exists e', con. pose proof (ek_pos _ He'). split_and!; [done | apply He' | lia | lia |].
  intros k2 Hrun. unfold shell_key. cbn [Z.eqb Pos.eqb print].
  rewrite zstore_in by (pose proof (ek_len _ He'); unfold LINE_BUF_SIZE in *; lia).
  destruct (editor_line e' He') as [-> _]. fold (ed_text e'). rewrite Ht. unfold ed_text at 1.
  rewrite H0. change (ztake 0 _) with (@nil Z).
  change (set_console (kprint nl (k_console (set_console con k))) (set_console con k))
    with (set_console (kprint nl con) k).
  rewrite Hrun. by eexists.
Qed.

(** "pwx", backspace, "d". *)
Lemma shell_line_editing_witness :
  ∃ e' con, type_keys 0x4000 [112; 119; 120; 8; 100] demo_editor demo_kernel =
    Some (e', Running (set_console con demo_kernel)) ∧ 0 ≤ ed_pos e' < LINE_BUF_SIZE.
Proof.
  destruct (shell_line_editing 0x4000 [112; 119; 120; 8; 100] demo_editor demo_kernel)
    as (e' & con & Hr & _ & Hp & _);
    [exact demo_editor_ok | reflexivity | repeat constructor; lia |].
  exists e', con. split; [exact Hr | exact Hp].
Defined.

(** ** History *)

(** What [cmd_history] prints of some lines. *)
Definition history_text (lines : list cstr) : cstr := concat (map (λ l, str "  " ++ l ++ nl) lines).

Definition last_sixteen (lines : list cstr) : list cstr := drop (length lines - 16) lines.

Lemma kprint_app s t c : is_cstr s → kprint (s ++ t) c = kprint t (kprint s c).
Proof.
  intros Hs. revert c. induction Hs as [|x s Hx Hs IH]; intros c; [done |]. cbn [app kprint].
  destruct (Z.eqb_spec x 0); [lia |]. apply IH.
Qed.

(** The loop of [history_add] moves every line one place up. *)
Lemma history_shift_eq (h : list cstr) :
  length h = 16%nat →
  ∃ l, history_shift 15 0 h = map (λ s, str_copy_local s LINE_BUF_SIZE) (tail h) ++ [l].
Proof.
  intros Hl. do 16 (destruct h as [|? h]; [done |]). destruct h; [| done]. by eexists.
Qed.

Section history.
Context {A : Type}.
Implicit Types k : kernel A.

Lemma history_add_eq line k :
  length (history k) = 16%nat → Forall line_ok (history k) → line_ok line → line ≠ [] →
  history_add line k =
    set_history (tail (history k) ++ [line])
      (if history_count k <? HISTORY_SIZE then history_count k + 1 else history_count k) k.
Proof.
  intros Hl Hh Hline Hne. unfold history_add.
  destruct (Z.eqb_spec (znth line 0) 0) as [Hz|_]; [by apply ascii_head in Hz; [| apply Hline] |].
  change (Z.to_nat (HISTORY_SIZE - 1)) with 15%nat.
  destruct (history_shift_eq (history k) Hl) as [l ->]. rewrite str_copy_line by done. f_equal.
  assert (map (λ s, str_copy_local s LINE_BUF_SIZE) (tail (history k)) = tail (history k)) as ->.
  { rewrite <- (map_id (tail (history k))) at 2. apply map_ext_in. intros s Hs.
    apply str_copy_line. rewrite Forall_forall in Hh. apply Hh, list_elem_of_In.
    destruct (history k); [done | by right]. }
  assert (length (tail (history k)) = 15%nat) as Ht by (rewrite length_tl; lia).
  change (zset (tail (history k) ++ [l]) 15 line = tail (history k) ++ [line]).
  unfold zset. change (Z.to_nat 15) with 15%nat. rewrite <- Ht. rewrite insert_app_r_alt by lia.
  by rewrite Nat.sub_diag.
Qed.

Lemma tail_drop {X} i (l : list X) : tail (drop i l) = drop (S i) l.
Proof. revert i. induction l as [|x l IH]; intros [|i]; try done. cbn [drop]. apply IH. Qed.

(** The last [history_count] entries are the last lines entered. *)
Record history_of (lines : list cstr) k : Prop := {
  hi_len : length (history k) = 16%nat;
  hi_ok : Forall line_ok (history k);
  hi_count : history_count k = Z.of_nat (length (last_sixteen lines));
  hi_lines : drop (16 - length (last_sixteen lines)) (history k) = last_sixteen lines
}.

Lemma last_sixteen_snoc lines line :
  last_sixteen (lines ++ [line]) =
    (if (length lines <? 16)%nat then last_sixteen lines else tail (last_sixteen lines)) ++ [line].
Proof.
  unfold last_sixteen. rewrite length_app. cbn [length].
  destruct (Nat.ltb_spec (length lines) 16).
  - replace (length lines + 1 - 16)%nat with 0%nat by lia.
    replace (length lines - 16)%nat with 0%nat by lia. done.
  - rewrite tail_drop. rewrite drop_app_le by lia. f_equal. f_equal. lia.
Qed.

Lemma length_last_sixteen lines : length (last_sixteen lines) = (length lines `min` 16)%nat.
Proof. unfold last_sixteen. rewrite length_drop. lia. Qed.

Lemma history_add_of lines line k :
  history_of lines k → line_ok line → line ≠ [] → history_of (lines ++ [line]) (history_add line k).
Proof.
  intros [Hl Hh Hc Hd] Hline Hne. rewrite history_add_eq by done.
  assert (length (tail (history k)) = 15%nat) as Ht by (rewrite length_tl; lia).
  pose proof (length_last_sixteen lines) as Hls. pose proof (length_last_sixteen (lines ++ [line])) as Hls'.
  rewrite length_app in Hls'. cbn [length] in Hls'.
  constructor; cbn [history history_count set_history].
  - rewrite length_app, Ht. done.
  - apply Forall_app. split; [| by constructor]. by destruct Hh.
  - rewrite Hls', Hc, Hls. unfold HISTORY_SIZE. zify_bool.
  - rewrite Hls', last_sixteen_snoc, <- Hd, Hls. rewrite drop_app_le by lia. f_equal.
    destruct (Nat.ltb_spec (length lines) 16).
    + replace (history k) with (drop 0 (history k)) at 1 by done. rewrite tail_drop, drop_drop. f_equal. lia.
    + rewrite tail_drop. replace (history k) with (drop 0 (history k)) at 1 by done.
      rewrite tail_drop, drop_drop. f_equal. lia.
Qed.

Lemma history_loop_text m i k :
  Forall line_ok (history k) → length (history k) = 16%nat → 0 ≤ i → i + Z.of_nat m = 16 →
  history_loop m i k =
    Some (set_console (kprint (history_text (drop (Z.to_nat i) (history k))) (k_console k)) k).
Proof.
  revert i k. induction m as [|m IH]; intros i k Hh Hl Hi Hm; cbn [history_loop].
  - rewrite drop_ge by lia. cbn. by destruct k.
  - destruct (lookup_lt_is_Some_2 (history k) (Z.to_nat i)) as [l Hli]; [lia |].
    rewrite (nth_lookup_Some _ _ _ _ Hli), (drop_S _ _ _ Hli). unfold andthen, print.
    cbn [option_bind mbind]. rewrite IH by (cbn; done || lia).
    cbn [history k_console set_console]. f_equal. unfold set_console.
    cbn [history k_fs k_sched k_timer k_kbd k_mmap k_status history_count spawn_count cat_buf]. f_equal.
    replace (Z.to_nat (i + 1)) with (S (Z.to_nat i)) by lia.
    unfold history_text. cbn [map concat].
    assert (is_cstr l) as Hlc.
    { rewrite Forall_forall in Hh. apply ascii_cstr, (Hh l). by eapply list_elem_of_lookup_2. }
    assert (is_cstr (str "  ") ∧ is_cstr nl) as [Hs Hn] by (split; literal).
    by rewrite <- !app_assoc, !kprint_app by done.
Qed.
End history.

(** C28. From an empty history, after any lines have been entered, [history]
    prints the last sixteen of them (all, if there were fewer), oldest first,
    each one whole. *)
Theorem history_last_sixteen {A : Type} (lines : list cstr) (k : kernel A) :
  history k = replicate 16 [] → history_count k = 0 → Forall (λ l, line_ok l ∧ l ≠ []) lines →
  let k' := fold_left (λ k l, history_add l k) lines k in
  cmd_history k' = Some (set_console (kprint (history_text (last_sixteen lines)) (k_console k')) k').
Proof.
  intros Hh Hc Hl k'. assert (history_of lines k') as [Hlen Hok Hcount Hd].
  { subst k'. assert (history_of [] k) as H0.
    { constructor; rewrite Hh || rewrite Hc; try done. apply Forall_replicate, line_nil. }
    clear Hh Hc. change lines with ([] ++ lines). revert H0.
    generalize (@nil cstr) at 1 2. revert k. cbn [app].
    induction Hl as [|l ls [Hl Hne] Hls IH]; intros k pre H0; cbn [fold_left]; [by rewrite app_nil_r |].
    replace (pre ++ l :: ls) with ((pre ++ [l]) ++ ls) by (by rewrite <- app_assoc).
    apply IH. by apply history_add_of. }
  pose proof (length_last_sixteen lines). unfold cmd_history, HISTORY_SIZE. rewrite Hcount.
  rewrite history_loop_text by (done || lia).
  replace (Z.to_nat (16 - Z.of_nat (length (last_sixteen lines)))) with
    (16 - length (last_sixteen lines))%nat by lia.
  by rewrite Hd.
Qed.

Lemma history_last_sixteen_witness :
  let k' := fold_left (λ k l, history_add l k) [str "ls"; str "pwd"] demo_kernel in
  cmd_history k' =
    Some (set_console (kprint (str "  ls" ++ nl ++ str "  pwd" ++ nl) (k_console k')) k').
Proof.
  apply (history_last_sixteen [str "ls"; str "pwd"] demo_kernel); [reflexivity | reflexivity |].
  repeat constructor; done || lia.
Defined.

(** ** Writing a file and printing it *)



Section write_cat.
Context `{Allocator A} (counter_task : Z).
Implicit Types k : kernel A.





End write_cat.



(** ** Killing and spawning *)

(** Integers that agree modulo 2^32 are the same [int]. *)
Lemma i32_eq x y : (x - y) mod 4294967296 = 0 → i32 x = i32 y.
Proof. unfold i32. intros Hm. Z.to_euclidean_division_equations; lia. Qed.

Lemma i32_mod x : (i32 x - x) mod 4294967296 = 0.
Proof. unfold i32. Z.to_euclidean_division_equations; lia. Qed.

(** The text behind a number does not go on with a digit. *)
Definition no_digit (rest : cstr) : Prop := ∀ c l, rest = c :: l → ¬ is_digit c.

Lemma kill_digits_spec ds rest v i :
  Forall is_digit ds → no_digit rest →
  kill_digits (ds ++ rest) (i32 v) i =
    (i32 (fold_left (λ acc c, 10 * acc + (c - 48)) ds v), i + zlen ds).
Proof.
  intros Hd Hr. revert v i. induction Hd as [|c ds Hc Hd IH]; intros v i; cbn [app fold_left].
  - rewrite Z.add_0_r. destruct rest as [|c l]; [done |]. cbn [kill_digits].
    specialize (Hr c l eq_refl). unfold is_digit in Hr.
    destruct (Z.leb_spec 48 c), (Z.leb_spec c 57); done || lia.
  - cbn [kill_digits]. unfold is_digit in Hc. destruct (Z.leb_spec 48 c), (Z.leb_spec c 57); try lia.
    cbn [andb]. rewrite (i32_eq _ (10 * v + (c - 48))).
    + rewrite IH. f_equal. unfold zlen. cbn [length]. lia.
    + pose proof (i32_mod v). pose proof (i32_mod (i32 v * 10)).
      Z.to_euclidean_division_equations; lia.
Qed.

(** C29. [kill] with a number: the task killed, if it may be, is the one with
    that id, up to 2^31 - 1; the id of a longer number is its remainder in 32
    bits (so that 4294967297 kills task 1).  Text behind the digits is
    ignored, and nothing but the task table and the screen changes. *)
Theorem kill_id_wraps `{Allocator A} (R : list (Z * Z)) (n : Z) (ds rest : cstr) (k : kernel A) :
  kernel_ok R n k → Forall is_digit ds → ds ≠ [] → no_digit rest →
  (parse_dec ds ≤ 2147483647 → i32 (parse_dec ds) = parse_dec ds) ∧
  ∃ rc s c, cmd_kill (32 :: ds ++ rest) k = Some (set_console c (set_sched s k)) ∧
    task_kill (i32 (parse_dec ds)) (k_sched k) = Some (rc, s) ∧ (rc = 0 ∨ rc = -1).
Proof.
  intros Hk Hd Hne Hr. split.
  { assert (0 ≤ parse_dec ds) as Hpos.
    { clear Hne. unfold parse_dec. assert (∀ l v, Forall is_digit l → 0 ≤ v →
        0 ≤ fold_left (λ acc c, 10 * acc + (c - 48)) l v) as Hf; [| by apply Hf].
      induction l as [|c l IH]; intros v Hl Hv; [done |]. apply Forall_cons in Hl as [Hc Hl].
      apply IH; [done |]. unfold is_digit in Hc. lia. }
    intros Hle. unfold i32. rewrite Z.mod_small; lia. }
  unfold cmd_kill. change (skip_space (32 :: ds ++ rest)) with (ds ++ rest).
  destruct Hd as [|c ds Hc Hd]; [done |].
  destruct (Z.eqb_spec (znth ((c :: ds) ++ rest) 0) 0) as [Hz|_];
    [change (c = 0) in Hz; unfold is_digit in Hc; lia |].
  change 0 with (i32 0) at 1. rewrite kill_digits_spec by (done || by constructor).
  change (fold_left _ (c :: ds) 0) with (parse_dec (c :: ds)).
  destruct (Z.eqb_spec (0 + zlen (c :: ds)) 0) as [Hz|_]; [unfold zlen in Hz; cbn [length] in Hz; lia |].
  destruct (kk_sched _ _ _ Hk) as (am & Hs).
  pose proof (kill_ok _ _ _ (i32 (parse_dec (c :: ds))) Hs) as Hkill.
  assert (∃ rc s, task_kill (i32 (parse_dec (c :: ds))) (k_sched k) = Some (rc, s) ∧ (rc = 0 ∨ rc = -1))
    as (rc & s & Heq & Hrc).
  { destruct (kill_refused _ _); [exists (-1), (k_sched k); auto |].
    destruct Hkill as (s & Heq & _). exists 0, s. auto. }
  rewrite Heq. exists rc, s.
  assert (prints (A := A) (if rc <? 0 then print (str "kill failed" ++ nl)
    else print (str "Killed task ") ;> print_uint (u32 (i32 (parse_dec (c :: ds)))) ;> print nl)) as Hp.
  { destruct (rc <? 0); repeat apply prints_andthen; auto using prints_print, prints_uint, is_u32_u32. }
  destruct (Hp (set_sched s k)) as [con Hcon]. exists con. split_and!; [| done | done].
  rewrite <- Hcon. by destruct (rc <? 0).
Qed.

Lemma kill_id_wraps_witness :
  ∃ rc s c, cmd_kill (str " 4294967297") demo_kernel = Some (set_console c (set_sched s demo_kernel)) ∧
    task_kill (i32 (parse_dec (str "4294967297"))) s6 = Some (rc, s) ∧ (rc = 0 ∨ rc = -1).
Proof.
  apply (kill_id_wraps [] 0 (str "4294967297") [] demo_kernel); [exact demo_kernel_ok | | done | done].
  unfold is_digit. apply (bool_decide_unpack _). reflexivity.
Defined.

(** C30. [spawn], with [n] spawns entered before it.  The first six make the
    tasks "task1" to "task6" in the slots 2 to 7, each with a stack of its own
    (provided the heap has room for it); from then on the table is full, because
    no slot is reused, and a spawn only prints that it failed and is counted.
    After 99999999 of them the next one stores behind the end of [digits], the
    buffer of [cmd_spawn]. *)
Theorem spawn_numbers `{Allocator A} (counter_task : Z) (R : list (Z * Z)) (n : Z) (k : kernel A) :
  kernel_ok R n k → stack_room k →
  (n < 6 → ∃ k' ds t, cmd_spawn counter_task k = Some k' ∧ kernel_ok R (n + 1) k' ∧
     tasks (k_sched k') !! Z.to_nat (n + 2) = Some t ∧ used t = true ∧
     task_count (k_sched k') = n + 3 ∧
     name t = str "task" ++ ds ∧ Forall is_digit ds ∧ parse_dec ds = n + 1 ∧ stack_base t ≠ NULL) ∧
  (6 ≤ n < 99999999 →
     cmd_spawn counter_task k =
       print (str "spawn failed: too many tasks (see 'top')" ++ nl) (set_spawn (n + 1) k)) ∧
  (n = 99999999 → cmd_spawn counter_task k = None).
Proof.
  intros Hk Hroom. pose proof (kk_slots _ _ _ Hk) as Hslots. destruct (kk_spawn _ _ _ Hk) as [Hs Hn0].
  split_and!; intros Hn.
  - destruct (cmd_spawn_spec counter_task R n k Hk Hroom) as (s & ds & c & Hr & Hk' & Hsp & Hpd & Hds);
      [lia |].
    unfold spawned in Hsp. rewrite Hslots in Hsp. unfold MAX_TASKS in Hsp.
    destruct (Z.ltb_spec (2 + Z.min n 6) 8); [| lia]. destruct Hsp as (Hc & t & Ht & Hu & Hname & Hb).
    replace (2 + Z.min n 6) with (n + 2) in * by lia.
    exists (set_console c (set_sched s (set_spawn (n + 1) k))), ds, t.
    split_and!; try done. cbn [k_sched set_console set_sched]. lia.
  - unfold cmd_spawn. cbn [spawn_count set_spawn]. rewrite Hs.
    assert (i32 (n + 1) = n + 1) as -> by (unfold i32; rewrite Z.mod_small; lia).
    destruct (spawn_name_spec (n + 1)) as (ds & -> & _); [lia |].
    unfold task_create_named. cbn [k_sched set_spawn]. rewrite Hslots. unfold MAX_TASKS.
    by destruct (Z.leb_spec 8 (2 + Z.min n 6)); [| lia].
  - apply cmd_spawn_overflow. by rewrite Hs.
Qed.

Lemma spawn_numbers_witness :
  ∃ k' ds t, cmd_spawn 0x4000 demo_kernel = Some k' ∧ kernel_ok [] 1 k' ∧
    tasks (k_sched k') !! 2%nat = Some t ∧ name t = str "task" ++ ds ∧ Forall is_digit ds ∧
    parse_dec ds = 1 ∧ stack_base t ≠ NULL.
Proof.
  destruct (spawn_numbers 0x4000 [] 0 demo_kernel) as [Hs _].
  - exact demo_kernel_ok.
  - intros _ p a Hm. vm_compute in Hm. by injection Hm as <- <-.
  - destruct Hs as (k' & ds & t & H1 & H2 & H3 & _ & _ & H4 & H5 & H6 & H7); [reflexivity |].
    exists k', ds, t. split; [exact H1 |]. split; [exact H2 |]. split; [exact H3 |].
    split; [exact H4 |]. split; [exact H5 |]. split; [exact H6 | exact H7].
Defined.

(** ** The system theorem on the demo kernel: the key "a" is typed. *)
Lemma system_safe_witness :
  let k1 := keyboard_irq 0x1E demo_kernel in
  (∃ n', n' ≤ 99999999 ∧ kernel_ok [] n' k1) ∧ is_Some (shell_round 0x4000 demo_editor k1).
Proof.
  destruct (system_safe 0x4000 [] 0 demo_editor demo_editor demo_kernel (keyboard_irq 0x1E demo_kernel))
    as (Hk & _ & _ & Hr); [exact demo_kernel_ok | lia | exact demo_editor_ok | |].
  - eapply rtc_l; [apply (sys_key 0x4000 0x1E); unfold is_u8; lia | apply rtc_refl].
  - split; [exact Hk |]. destruct Hr as [[_ Hr]|(e2 & o & Hr & _)].
    + intros [Hq _]. vm_compute in Hq. discriminate Hq.
    + rewrite Hr. by eexists.
    + rewrite Hr. by eexists.
Defined.
